(* ===== verification/_CoqProject ===== *)
-Q . S2P
Prelude.v
Libc.v
External.v
State.v
Cputimer.v
Monad.v
Frames.v
Reference.v
DataUtils.v
PtraceUtils.v
ProcessDescriptor.v
Sockets.v
Print.v
Communication.v
Translate.v
SocketOps.v
SysFiles.v
SysNet.v
SysData.v
SysProc.v
LibTime.v
Benchmark.v
PrintFlags.v
Neutral.v
Dispatch.v
Main.v
Robust.v
WellFormed.v
Mediation.v
Handlers.v
Pipes.v
Closing.v
Messages.v
FdTable.v
Sorts.v
Fuel.v
Ending.v
Connecting.v
Departures.v
Delivery.v
Accepting.v
FreePort.v
Handshake.v
Session.v
Stops.v
