(* ===== verification/Prelude.v ===== *)
(** * SimTerpose: a model of the simulator and its correctness

    SimTerpose runs unmodified programs inside a SimGrid simulation. It traces
    them with ptrace, stops them at the entry and at the exit of every system
    call, answers the calls on the network itself (it neutralises the call and
    fakes the result), and lets the other calls run while it keeps tables of what
    they do. This library models the C code of src/src, compiled as the repository
    does (64 bits, without the macro [address_translation]), and proves what its
    parts do.

    ** The program and the model

    The program is one address space shared by one MSG process per traced
    program. A function of the C code becomes a Definition of the same name in a
    state, failure and yield monad [M] (files State and Monad):
    - the heap is one finite map per type of structure, a pointer is an address
      ([Z], [NULL] = 0), so that aliasing and use after free are the ones of the C
      code; [st] also holds the global variables;
    - machine integers are kept at their width with [s32], [u64] and the like
      (file Prelude), buffers are lists of bytes;
    - undefined behaviour, [xbt_die], exceptions and exits are values of [failure];
    - a call that may put the MSG process to sleep (a semaphore, a task sent or
      received, a wait) is the outcome [Block], with the rest of the run as a
      continuation: an interleaving of processes is what happens to the state
      between a [Block] and its continuation.

    Code outside the repository is a parameter (file External): the classes [Xbt]
    (containers) and [World] (the traced processes behind ptrace and waitpid, and
    MSG), with the documented laws the proofs use as separate classes ([XbtLaws],
    [TraceLaws], [StopLaws], [TaskLaws], [MsgLaws], and [KernelLaws] and [BindLaws] for the calls
    a tracee is made to run). A stop of a tracee is one of a system call, of an event (fork,
    vfork, clone, exec) or of a signal, as its status says: [StopLaws] is the alternation of
    entries and exits over the first kind only. [BindLaws] lets bind succeed for an unbound
    internet socket on a free port and fail otherwise. The netlink socket of cputimer.c is the class [Netlink] of the
    file Cputimer. The file Reference gives an instance of
    all of them, on which the examples are evaluated, so that the laws can hold.

    ** The files

    - Prelude, Libc: integers, bytes, the parts of libc and of the Linux ABI used.
    - External, Reference: the interfaces of the outside and an instance.
    - State, Monad, Frames: the state, the monad, [runs] (a computation returns),
      [preserves] (an invariant at the end and at every yield), and [Stable], the
      changes of the state every function outside the protocol with the tracee makes.
    - DataUtils: data_utils.c, the tables of hosts, addresses and ports.
    - PtraceUtils: ptrace_utils.c, memory and registers of a tracee.
    - ProcessDescriptor: process_descriptor.h and .c.
    - Sockets, SocketOps: sockets.c; SocketOps also has the helpers of
      syscall_process.c and the end of a process.
    - Communication: communication.c, connections between sockets.
    - Translate: the functions of address translation, over the tables of DataUtils.
      FreePort: the search for a port of the machine.
    - Cputimer: cputimer.c, the processor time of a process, over a netlink socket.
    - LibTime: lib_time.c, the clock functions loaded into the traced programs.
    - Print, PrintFlags: print_syscall.c, the log of the option --strace; the second has
      what prints sets of flags. Print also has the appender of xbt_log_strace.c.
    - SysFiles, SysNet, SysData, SysProc: the handlers, one per file sys_*.c.
    - Dispatch: [process_handle] and the loops of simterpose.c. Main: its [main], from the
      command line to the end of the simulation. Benchmark: the measure of the machine.
    - Neutral, Robust: what every function and every handler leaves true. WellFormed,
      Sorts, Mediation: three invariants of the whole program.
    - Handlers, Pipes, Closing: what the handlers do, seen from the tracee and
      from the tables. Connecting, Messages: a connection that succeeds, data sent
      and received, up to the points where the process sleeps and after them.
      Delivery: a message from the sender to the receiver, whichever comes first.
      Accepting, Handshake: the server's side of a connection, and both sides together.
      Session: a connection and the conversation on it. Stops: the stops that are not
      system calls.
    - FdTable: the descriptor table against a POSIX view of it. Ending: the end of
      a tracee. Departures: locks and clones, recorded otherwise than the kernel
      does. Fuel: the fuel of the main loops.

    ** What the theorems show

    - Whole program: the handlers keep SimTerpose and a tracee in agreement on whether a stop
      is an entry or an exit, and the next turn finds them so exactly when the next stop is
      that of a system call ([handlers_in_step]); what breaks the agreement: the calls of
      [pipe_never_registered], [failed_close_lost] and [connect_unix_lost], and the event of
      a fork ([event_stop_lost]). A tracee that exits with no socket and no duplicated
      descriptor is detached, forgotten and its descriptors freed ([exit_ends]); with a
      duplicated one it is not ([dup_double_free]). Two lemmas carry other proofs:
      no object lies at NULL and no table holds it, at every yield of every run
      ([simulator_keeps_wf]), and more fuel never changes a run ([simulator_fuel]).
    - Refinement: the descriptors of a process that are files follow a POSIX table through any
      sequence of open and creat, failed or not, and of dup, dup2 and close that succeed, up
      to what SimTerpose records of a file ([table_refines]); F_DUPFD does
      not (the lemma [dupfd_not_shared]), nor do the ranges of locks ([setlk_records]) and the
      creation of processes ([clone_never_created]).
    - Access to the tracee: the protocol that fakes a result
      ([neutralize_restore]), copies ([ptrace_cpy_reads], [ptrace_poke_cpy]).
    - Types: a descriptor is only taken for a socket when it is one
      ([casts_stay_safe]), except after F_DUPFD of a socket ([dupfd_socket_cast]).
    - Connections: the tables ([connect_accept_peers]), the call of the client
      (the lemma [connect_waits]) and the whole of accept and connect in two processes that wake
      each other ([connection_established]); the data on them: [comm_fifo],
      the lemmas [sendto_sends] and [recvfrom_delivers], and both together, from one tracee
      to the other, [message_delivered], or to another process of the same host
      ([message_misdelivered]); accept, connect and any number of messages both ways,
      [conversation_delivers], with the invariant [session] that connects the two
      theorems; closing connections: the lemma [close_first_end],
      [close_listening_dangles], [close_second_dangles], and the end of a conversation,
      which does not reach the other side ([close_unnoticed]).
    - Tables: addresses ([init_host_list_addresses]); the lemmas [register_port_counts],
      [unset_socket_counts], [get_random_port_eval] and [fd_table_roundtrip] are about ports
      and descriptors.
    - Address translation: rewriting an address and back ([connect_translation]), the search
      for a port, which ends for an unbound internet socket when a port is free and never for
      another descriptor or when none is ([free_port_found]), the tables of /proc in the format of the
      kernel, with the column that is read in the place of the inode when the uid is too
      wide ([local_port_of_table]).
    - Time: the processor time of a process ([cputimer_get_times]); the parts of a clock
      ([time_parts]), and why the simulated time does not reach the programs
      ([time_never_stored]).
    - The start: the product of matrices that measures the machine ([benchmark_entries]),
      the command line (the lemma [command_line_read]).
    - The log: sets of flags ([print_flags_complete]).
    - Handlers: [bind_free_port], [bind_used_port], [connect_refused], [read_delivers_nothing].
    - Pipes and duplicated descriptors: [clone_pipe_ends], [dup_alias],
      [close_pipe].

    The theorems about handlers are stated with --strace off; the invariants hold
    with it too.

    ** Fuel

    Loops that are not structural take fuel and fail with [Out_of_fuel]. It is
    enough by construction, and shown to be where a property covers the loop: the
    length of an array for [remove_ends] ([close_pipe]), twice the length for
    [clone_ends] and [dup_ends] ([clone_pipe_ends], [dup_alias]), 65536 for
    [get_random_port] ([get_random_port_eval]), the number of addresses for
    [next_free_ip] ([init_host_list_addresses]), 65535 for [find_port_loop]
    ([free_port_found]). The loops on a traced process
    ([handle_loop], [track], [main_loop]) run as long as the process: their fuel
    is a parameter, the theorems about them hold for every value of it, and the lemma
    [simulator_fuel] shows that it only bounds how far a run is followed.

    ** Not modelled

    The parts of the handlers under #ifdef address_translation (not compiled), the handlers
    of send and recv (32 bits only, where a register and a word of memory have another
    width), the registration of the log appender and the debug messages, the signal
    handlers, the branch of the child after fork (the calls before execv), the times printed
    at the end and the functions that free the tables in simterpose.c, what is printed on
    stderr (the warnings of [proc_entering] are computed, but stderr is not part of the
    state), the dead code of select. The index of [ptrace_cpy] wraps as an int does: what is
    shown of copies is bounded below the length at which it does. The lifetime of message buffers is not modelled: a
    buffer is the list of its bytes. *)
From stdpp Require Export base gmap strings list numbers pretty tactics.
From Stdlib Require Export ZArith Lia.

#[global] Open Scope Z_scope.

(** ** Hint databases

    [c_int] rewrites machine-integer conversions, [c_bytes] byte-string
    encodings, [xbt] the container laws; [sim] closes the routine side conditions of the components. *)
Create Rewrite HintDb c_int.
Create Rewrite HintDb c_bytes.
Create Rewrite HintDb xbt.
Create HintDb sim.

(** ** Tactics shared by the components *)

(** Split on the scrutinee of a [match] or [if] of the goal. *)
Ltac split_match :=
  match goal with
  | |- context [match ?x with _ => _ end] => destruct x eqn:?
  end.

(** Split on the scrutinee of a [match] or [if] of a hypothesis. *)
Ltac split_match_in H :=
  match type of H with
  | context [match ?x with _ => _ end] => destruct x eqn:?
  end.

(** Turn boolean comparisons of the context into the propositions they decide. *)
Ltac bool_to_prop :=
  repeat match goal with
  | H : (_ =? _) = true |- _ => apply Z.eqb_eq in H
  | H : (_ =? _) = false |- _ => apply Z.eqb_neq in H
  | H : (_ <? _) = true |- _ => apply Z.ltb_lt in H
  | H : (_ <? _) = false |- _ => apply Z.ltb_ge in H
  | H : (_ <=? _) = true |- _ => apply Z.leb_le in H
  | H : (_ <=? _) = false |- _ => apply Z.leb_gt in H
  | H : negb _ = true |- _ => apply negb_true_iff in H
  | H : negb _ = false |- _ => apply negb_false_iff in H
  | H : _ && _ = true |- _ => apply andb_true_iff in H; destruct H
  end.

(** Linear arithmetic with divisions by constants. *)
Ltac dlia := Z.div_mod_to_equations; lia.

(** ** Machine integers

    A C integer is a [Z]; a conversion to a w-bit type is written out with
    [uwrap] (unsigned) or [swrap] (two's complement). *)
Definition uwrap (w z : Z) : Z := z mod 2 ^ w.
Definition swrap (w z : Z) : Z := (z + 2 ^ (w - 1)) mod 2 ^ w - 2 ^ (w - 1).

Abbreviation u8 := (uwrap 8).
Abbreviation u16 := (uwrap 16).
Abbreviation u32 := (uwrap 32).
Abbreviation u64 := (uwrap 64).
Abbreviation s16 := (swrap 16).
Abbreviation s32 := (swrap 32).
Abbreviation s64 := (swrap 64).

Definition is_u (w z : Z) : Prop := 0 <= z < 2 ^ w.
Definition is_s (w z : Z) : Prop := - 2 ^ (w - 1) <= z < 2 ^ (w - 1).

Lemma uwrap_range w z : 0 <= w → is_u w (uwrap w z).
Proof. intros; apply Z.mod_pos_bound; lia. Qed.

Lemma uwrap_small w z : is_u w z → uwrap w z = z.
Proof. intros; by apply Z.mod_small. Qed.

Lemma swrap_range w z : 0 < w → is_s w (swrap w z).
Proof.
  intros Hw; unfold is_s, swrap.
  assert (2 ^ w = 2 * 2 ^ (w - 1)) as Hp
    by (rewrite <- Z.pow_succ_r by lia; f_equal; lia).
  pose proof (Z.mod_pos_bound (z + 2 ^ (w - 1)) (2 ^ w) ltac:(lia)). lia.
Qed.

Lemma swrap_small w z : 0 < w → is_s w z → swrap w z = z.
Proof.
  intros Hw Hz; unfold is_s, swrap in *.
  assert (2 ^ w = 2 * 2 ^ (w - 1)) as Hp
    by (rewrite <- Z.pow_succ_r by lia; f_equal; lia).
  rewrite Z.mod_small by lia. lia.
Qed.

(** Narrowing a value that was first reduced to a wider type. *)
Lemma swrap_add w a b : swrap w (swrap w a + b) = swrap w (a + b).
Proof.
  unfold swrap.
  replace ((a + 2 ^ (w - 1)) mod 2 ^ w - 2 ^ (w - 1) + b + 2 ^ (w - 1))
    with ((a + 2 ^ (w - 1)) mod 2 ^ w + b) by lia.
  rewrite Zplus_mod_idemp_l. do 2 f_equal. lia.
Qed.

Lemma swrap_uwrap w v z : 0 < w <= v → swrap w (uwrap v z) = swrap w z.
Proof.
  intros Hw; unfold swrap, uwrap.
  assert (2 ^ v = 2 ^ w * 2 ^ (v - w)) as Hp
    by (rewrite <- Z.pow_add_r by lia; f_equal; lia).
  rewrite Hp, Z.rem_mul_r by lia.
  replace (z mod 2 ^ w + 2 ^ w * ((z / 2 ^ w) mod 2 ^ (v - w)) + 2 ^ (w - 1))
    with (z mod 2 ^ w + 2 ^ (w - 1) + ((z / 2 ^ w) mod 2 ^ (v - w)) * 2 ^ w) by lia.
  rewrite Z.mod_add by lia.
  by rewrite Zplus_mod_idemp_l.
Qed.

Lemma uwrap_idemp w z : 0 <= w → uwrap w (uwrap w z) = uwrap w z.
Proof. intros; apply Z.mod_mod; lia. Qed.

Lemma uwrap_inj_s w a b : 0 < w → is_s w a → is_s w b → uwrap w a = uwrap w b → a = b.
Proof.
  intros Hw Ha Hb Heq.
  rewrite <- (swrap_small w a), <- (swrap_small w b) by done.
  rewrite <- (swrap_uwrap w w a), <- (swrap_uwrap w w b) by lia. by rewrite Heq.
Qed.

Lemma swrap32_u64 z : s32 (u64 z) = s32 z.
Proof. apply swrap_uwrap; lia. Qed.
Lemma swrap64_u64 z : s64 (u64 z) = s64 z.
Proof. apply swrap_uwrap; lia. Qed.
#[export] Hint Rewrite swrap32_u64 swrap64_u64 : c_int.

(** [x & m] used as a C condition. *)
Definition has_flag (x m : Z) : bool := negb (Z.land x m =? 0).

Lemma has_flag_lor_l x y m : has_flag x m = true → has_flag (Z.lor x y) m = true.
Proof.
  unfold has_flag; intros H; bool_to_prop; apply negb_true_iff, Z.eqb_neq.
  rewrite Z.land_lor_distr_l; intros [? ?]%Z.lor_eq_0_iff; done.
Qed.

Lemma has_flag_lor_r x y m : has_flag y m = true → has_flag (Z.lor x y) m = true.
Proof. rewrite Z.lor_comm; apply has_flag_lor_l. Qed.

(** ** Little-endian byte strings *)

(** The [n] low bytes of [z], least significant first. *)
Fixpoint le_encode (n : nat) (z : Z) : list Z :=
  match n with
  | O => []
  | S n => u8 z :: le_encode n (z / 256)
  end.

(** The unsigned value of a little-endian byte string. *)
Fixpoint le_decode (l : list Z) : Z :=
  match l with
  | [] => 0
  | b :: l => b + 256 * le_decode l
  end.

Lemma length_le_encode n z : length (le_encode n z) = n.
Proof. revert z; induction n; intros z; simpl; auto. Qed.

Lemma le_decode_encode n z : le_decode (le_encode n z) = z mod 256 ^ Z.of_nat n.
Proof.
  revert z; induction n as [|n IH]; intros z.
  { simpl. by rewrite Z.mod_1_r. }
  simpl le_encode; simpl le_decode. rewrite IH.
  replace (Z.of_nat (S n)) with (1 + Z.of_nat n) by lia.
  rewrite Z.pow_add_r by lia.
  change (256 ^ 1) with 256. rewrite Z.rem_mul_r by lia.
  unfold uwrap. change (2 ^ 8) with 256. lia.
Qed.

Lemma le_encode_decode l :
  Forall (is_u 8) l → le_encode (length l) (le_decode l) = l.
Proof.
  induction 1 as [|b l Hb Hl IH]; [done|]. simpl. f_equal.
  - unfold uwrap. replace (b + 256 * le_decode l) with (b + le_decode l * 2 ^ 8) by lia.
    rewrite Z.mod_add by lia. by apply uwrap_small.
  - replace (b + 256 * le_decode l) with (le_decode l * 256 + b) by lia.
    rewrite Z.div_add_l by lia. unfold is_u in Hb.
    rewrite (Z.div_small b) by lia. by rewrite Z.add_0_r.
Qed.

Lemma le_encode_bytes n z : Forall (is_u 8) (le_encode n z).
Proof.
  revert z; induction n; intros z; simpl; constructor; auto.
  apply uwrap_range; lia.
Qed.

Lemma le_decode_bound l :
  Forall (is_u 8) l → 0 <= le_decode l < 256 ^ Z.of_nat (length l).
Proof.
  induction 1 as [|b l Hb Hl IH]; [done|].
  unfold is_u in Hb; simpl le_decode; simpl length.
  rewrite Nat2Z.inj_succ, Z.pow_succ_r by lia. lia.
Qed.
#[export] Hint Rewrite length_le_encode : c_bytes.
#[export] Hint Resolve le_encode_bytes : sim.

(** A byte as a character, and the four bytes of an [int] used as a
    dictionary key: [(const char * ) &fd, sizeof(fd)]. *)
Definition byte_char (b : Z) : Ascii.ascii := Ascii.ascii_of_N (Z.to_N (u8 b)).
Definition char_byte (a : Ascii.ascii) : Z := Z.of_N (Ascii.N_of_ascii a).

Definition bytes_string (l : list Z) : string :=
  String.string_of_list_ascii (byte_char <$> l).
Definition string_bytes (s : string) : list Z :=
  char_byte <$> String.list_ascii_of_string s.

Lemma char_byte_char b : is_u 8 b → char_byte (byte_char b) = b.
Proof.
  intros Hb; unfold char_byte, byte_char. rewrite uwrap_small by done.
  unfold is_u in Hb. rewrite Ascii.N_ascii_embedding; lia.
Qed.

Lemma string_bytes_string l : Forall (is_u 8) l → string_bytes (bytes_string l) = l.
Proof.
  intros Hl; unfold string_bytes, bytes_string.
  rewrite String.list_ascii_of_string_of_list_ascii.
  induction Hl as [|b l Hb Hl IH]; [done|]. simpl. rewrite char_byte_char by done.
  by f_equal.
Qed.

Definition int_key (fd : Z) : string := bytes_string (le_encode 4 fd).

(** [*(int * ) key]. *)
Definition key_int (k : string) : Z := s32 (le_decode (string_bytes k)).

Lemma key_int_key fd : is_s 32 fd → key_int (int_key fd) = fd.
Proof.
  intros H; unfold key_int, int_key.
  rewrite string_bytes_string by auto with sim.
  rewrite le_decode_encode. change (256 ^ Z.of_nat 4) with (2 ^ 32).
  change (fd mod 2 ^ 32) with (u32 fd). rewrite swrap_uwrap by lia.
  by apply swrap_small.
Qed.

Lemma int_key_inj a b : is_s 32 a → is_s 32 b → int_key a = int_key b → a = b.
Proof. intros Ha Hb Heq. by rewrite <- (key_int_key a), <- (key_int_key b), Heq. Qed.

Lemma int_key_ne a b : is_s 32 a → is_s 32 b → a ≠ b → int_key a ≠ int_key b.
Proof. intros ??? ?; eauto using int_key_inj. Qed.
#[export] Hint Resolve int_key_inj int_key_ne : sim.

(** ** Lists *)

Lemma list_take_drop_app {A} (l k : list A) n :
  length l = n → take n (l ++ k) = l ∧ drop n (l ++ k) = k.
Proof. intros <-. by rewrite take_app_length, drop_app_length. Qed.

(** Index of the first element satisfying a test. *)
Fixpoint find_index {A} (p : A → bool) (l : list A) : option nat :=
  match l with
  | [] => None
  | x :: l => if p x then Some O else S <$> find_index p l
  end.

Lemma find_index_Some {A} (p : A → bool) l i :
  find_index p l = Some i → ∃ x, l !! i = Some x ∧ p x = true.
Proof.
  revert i; induction l as [|x l IH]; intros i; simpl; [done|].
  destruct (p x) eqn:Hp; intros; simplify_eq/=; [eauto|].
  destruct (find_index p l); simplify_eq/=. eauto.
Qed.

Lemma find_index_None {A} (p : A → bool) l :
  find_index p l = None ↔ ∀ x, x ∈ l → p x = false.
Proof.
  induction l as [|x l IH]; simpl.
  { split; [set_solver|done]. }
  destruct (p x) eqn:Hp.
  - split; [done|]. intros H. specialize (H x ltac:(left)). congruence.
  - rewrite fmap_None, IH. set_solver.
Qed.

Arguments le_encode : simpl never.
Arguments le_decode : simpl never.
