(* ===== verification/Libc.v ===== *)
(** The parts of the C library and of the Linux ABI the sources use: constants,
    byte order, [sprintf("%d")], [inet_ntoa] and [inet_addr], the layout of
    [struct sockaddr_in], wait statuses. *)
From S2P Require Import Prelude.
From Stdlib Require Import Ascii.

(** ** Constants (x86-64 Linux) *)

Definition SYS_read : Z := 0.
Definition SYS_write : Z := 1.
Definition SYS_open : Z := 2.
Definition SYS_close : Z := 3.
Definition SYS_poll : Z := 7.
Definition SYS_lseek : Z := 8.
Definition SYS_brk : Z := 12.
Definition SYS_pipe : Z := 22.
Definition SYS_select : Z := 23.
Definition SYS_dup : Z := 32.
Definition SYS_dup2 : Z := 33.
Definition SYS_getpid : Z := 39.
Definition SYS_socket : Z := 41.
Definition SYS_connect : Z := 42.
Definition SYS_accept : Z := 43.
Definition SYS_sendto : Z := 44.
Definition SYS_recvfrom : Z := 45.
Definition SYS_sendmsg : Z := 46.
Definition SYS_recvmsg : Z := 47.
Definition SYS_shutdown : Z := 48.
Definition SYS_bind : Z := 49.
Definition SYS_listen : Z := 50.
Definition SYS_getpeername : Z := 52.
Definition SYS_setsockopt : Z := 54.
Definition SYS_getsockopt : Z := 55.
Definition SYS_clone : Z := 56.
Definition SYS_fork : Z := 57.
Definition SYS_vfork : Z := 58.
Definition SYS_execve : Z := 59.
Definition SYS_exit : Z := 60.
Definition SYS_fcntl : Z := 72.
Definition SYS_creat : Z := 85.
Definition SYS_exit_group : Z := 231.

Definition EBADF : Z := 9.
Definition EADDRINUSE : Z := 98.
Definition ENOTCONN : Z := 107.
Definition ECONNREFUSED : Z := 111.
Definition EINPROGRESS : Z := 115.

Definition O_WRONLY : Z := 0x1.
Definition O_RDWR : Z := 0x2.
Definition O_CREAT : Z := 0x40.
Definition O_TRUNC : Z := 0x200.
Definition O_APPEND : Z := 0x400.
Definition O_NONBLOCK : Z := 0x800.
Definition O_ASYNC : Z := 0x2000.
Definition O_CLOEXEC : Z := 0x80000.
Definition FD_CLOEXEC : Z := 1.

Definition AF_INET : Z := 2.
Definition INADDR_ANY : Z := 0.
Definition SOCK_STREAM : Z := 1.
Definition SOCK_SEQPACKET : Z := 5.
Definition SO_REUSEADDR : Z := 2.

Definition SIGTRAP : Z := 5.
Definition PTRACE_EVENT_FORK : Z := 1.
Definition PTRACE_EVENT_VFORK : Z := 2.
Definition PTRACE_EVENT_CLONE : Z := 3.
Definition PTRACE_EVENT_EXEC : Z := 4.
Definition PTRACE_EVENT_VFORK_DONE : Z := 5.
Definition PTRACE_EVENT_EXIT : Z := 6.

(** ** Wait statuses *)

Definition WIFSTOPPED (status : Z) : bool := Z.land status 0xff =? 0x7f.
Definition WSTOPSIG (status : Z) : Z := Z.shiftr (Z.land status 0xff00) 8.

(** ** Byte order *)

Definition bswap16 (x : Z) : Z := u8 x * 256 + u8 (x / 256).
Definition htons (x : Z) : Z := bswap16 (u16 x).
Definition ntohs (x : Z) : Z := bswap16 (u16 x).

Lemma ntohs_range x : is_u 16 (ntohs x).
Proof.
  unfold ntohs, bswap16, is_u.
  pose proof (uwrap_range 8 (u16 x) ltac:(lia)).
  pose proof (uwrap_range 8 (u16 x / 256) ltac:(lia)). unfold is_u in *. lia.
Qed.

Lemma ntohs_htons x : is_u 16 x → ntohs (htons x) = x.
Proof.
  intros Hx; unfold ntohs, htons.
  rewrite (uwrap_small 16 x) by done.
  pose proof (ntohs_range x) as Hr. unfold ntohs in Hr. rewrite (uwrap_small 16 x) in Hr by done.
  rewrite (uwrap_small 16 (bswap16 x)) by done.
  unfold bswap16, uwrap, is_u in *. change (2 ^ 8) with 256 in *. change (2 ^ 16) with 65536 in *.
  assert (0 <= x / 256 < 256) by (split; [apply Z.div_pos|apply Z.div_lt_upper_bound]; lia).
  rewrite (Z.mod_small (x / 256)) by lia.
  replace (x mod 256 * 256 + x / 256) with (x / 256 + x mod 256 * 256) by lia.
  rewrite Z.mod_add, Z.div_add by lia.
  rewrite (Z.div_small (x / 256)), (Z.mod_small (x / 256)) by lia.
  rewrite Z.add_0_l, Z.mod_mod by lia. pose proof (Z.div_mod x 256). lia.
Qed.

(** ** Decimal conversion: [sprintf(buff, "%d", n)] *)

Definition sprintf_d (n : Z) : string := pretty n.

#[global] Instance sprintf_d_inj : Inj (=) (=) sprintf_d.
Proof. apply _. Qed.

(** ** Dotted-quad addresses

    An address is the 32-bit value [in_addr_t] a little-endian machine loads:
    its low byte is the first number of the notation. *)

Definition ip_byte (ip : Z) (i : nat) : Z := u8 (ip / 256 ^ Z.of_nat i).

Definition inet_ntoa (ip : Z) : string :=
  (pretty (ip_byte ip 0) +:+ "." +:+ pretty (ip_byte ip 1) +:+ "." +:+
   pretty (ip_byte ip 2) +:+ "." +:+ pretty (ip_byte ip 3))%string.

Definition digit_value (c : ascii) : option Z :=
  let n := Z.of_N (N_of_ascii c) in
  if (48 <=? n) && (n <=? 57) then Some (n - 48)
  else if (97 <=? n) && (n <=? 102) then Some (n - 87)
  else if (65 <=? n) && (n <=? 70) then Some (n - 55)
  else None.

Definition is_digit (base : Z) (c : ascii) : bool :=
  match digit_value c with Some d => d <? base | None => false end.

Fixpoint strtoul_digits (base acc : Z) (l : list ascii) : Z * list ascii :=
  match l with
  | [] => (acc, [])
  | c :: l' =>
    match digit_value c with
    | Some d => if d <? base then strtoul_digits base (acc * base + d) l' else (acc, l)
    | None => (acc, l)
    end
  end.

(** [strtoul(s, &end, 0)] on a string that starts with a digit. *)
Definition strtoul0 (l : list ascii) : Z * list ascii :=
  match l with
  | "0"%char :: x :: d :: r =>
    if (bool_decide (x = "x"%char) || bool_decide (x = "X"%char)) && is_digit 16 d
    then strtoul_digits 16 0 (d :: r)
    else strtoul_digits 8 0 (x :: d :: r)
  | "0"%char :: r => strtoul_digits 8 0 r
  | _ => strtoul_digits 10 0 l
  end.

Definition is_space (c : ascii) : bool :=
  let n := Z.of_N (N_of_ascii c) in (n =? 32) || ((9 <=? n) && (n <=? 13)).

Definition inet_max (parts : nat) : Z := 256 ^ (4 - Z.of_nat parts) - 1.

(** The numbers read so far, most recent first, and the dots still allowed. *)
Fixpoint inet_aton_go (dots : nat) (parts : list Z) (l : list ascii) : option Z :=
  match l with
  | [] => None
  | c :: _ =>
    if negb (is_digit 10 c) then None else
    let '(val, rest) := strtoul0 l in
    if 0xffffffff <? val then None else
    match rest with
    | "."%char :: rest' =>
      match dots with
      | O => None
      | S dots' => if 0xff <? val then None else inet_aton_go dots' (val :: parts) rest'
      end
    | _ =>
      if negb (match rest with [] => true | c :: _ => is_space c end) then None
      else if inet_max (length parts) <? val then None
      else
        let n := length parts in
        Some (le_decode (rev parts ++ rev (le_encode (4 - n) val)))
    end
  end.

Definition INADDR_NONE : Z := 0xffffffff.

Definition inet_addr (s : string) : Z :=
  match inet_aton_go 3 [] (String.list_ascii_of_string s) with
  | Some ip => ip
  | None => INADDR_NONE
  end.

Definition localhost : Z := inet_addr "127.0.0.1".

Example localhost_value : localhost = 0x0100007f.
Proof. vm_compute. reflexivity. Qed.

(** Splitting off the digits of a decimal number. *)
Lemma strtoul_digits_app base acc l rest :
  forallb (is_digit base) l = true →
  match rest with [] => True | c :: _ => is_digit base c = false end →
  strtoul_digits base acc (l ++ rest) = ((strtoul_digits base acc l).1, rest).
Proof.
  intros Hl Hr; revert acc; induction l as [|c l IH]; intros acc; simpl in *.
  - destruct rest as [|c r]; simpl; [done|].
    unfold is_digit in Hr. destruct (digit_value c); [by rewrite Hr|done].
  - apply andb_true_iff in Hl as [Hc Hl]. unfold is_digit in Hc.
    destruct (digit_value c) as [d|]; [|done]. rewrite Hc. by apply IH.
Qed.

(** The digits of a byte printed in decimal, checked on the 256 values. *)
Definition byte_digits (b : Z) : list ascii := String.list_ascii_of_string (pretty b).

Definition byte_check (b : Z) : bool :=
  let l := byte_digits b in
  match l with
  | [] => false
  | c :: r =>
    is_digit 10 c && forallb (is_digit 10) l && ((strtoul_digits 10 0 l).1 =? b) &&
    (if bool_decide (c = "0"%char) then bool_decide (r = []) else true)
  end.

Lemma byte_checks : forallb byte_check (Z.of_nat <$> seq 0 256) = true.
Proof. vm_compute. reflexivity. Qed.

Lemma byte_check_ok b : is_u 8 b → byte_check b = true.
Proof.
  intros Hb. pose proof byte_checks as H. rewrite forallb_forall in H. apply H.
  apply list_elem_of_In, list_elem_of_fmap. exists (Z.to_nat b). unfold is_u in Hb.
  split; [lia|]. apply elem_of_seq. lia.
Qed.

Lemma strtoul0_byte b rest :
  is_u 8 b → match rest with [] => True | c :: _ => c = "."%char end →
  ∃ c r, byte_digits b = c :: r ∧ is_digit 10 c = true ∧
         strtoul0 (byte_digits b ++ rest) = (b, rest).
Proof.
  intros Hb%byte_check_ok Hr. unfold byte_check in Hb.
  destruct (byte_digits b) as [|c r] eqn:Hd; [done|].
  apply andb_true_iff in Hb as [Hb H0]. apply andb_true_iff in Hb as [Hb Hv].
  apply andb_true_iff in Hb as [Hc Hl]. apply Z.eqb_eq in Hv.
  exists c, r; split_and!; [done..|].
  assert (strtoul_digits 10 0 ((c :: r) ++ rest) = (b, rest)) as Hgo.
  { rewrite strtoul_digits_app, Hv; [done|done|]. destruct rest; [done|by subst]. }
  destruct (decide (c = "0"%char)) as [->|Hne].
  - rewrite bool_decide_true in H0 by done. apply bool_decide_eq_true_1 in H0 as ->.
    simpl in Hv. subst b.
    destruct rest as [|c' [|d r']]; simpl in *; subst; try done.
  - rewrite <- Hgo. clear Hgo. simpl app. unfold strtoul0.
    destruct c as [[] [] [] [] [] [] [] []]; try done.
Qed.

Lemma inet_aton_go_dot dots parts b l :
  is_u 8 b →
  inet_aton_go (S dots) parts (byte_digits b ++ "."%char :: l) =
  inet_aton_go dots (b :: parts) l.
Proof.
  intros Hb. destruct (strtoul0_byte b ("."%char :: l) Hb eq_refl) as (c & r & Hd & Hc & Hs).
  rewrite Hd in *. simpl app in *. unfold inet_aton_go at 1; fold inet_aton_go.
  rewrite Hc, Hs. unfold is_u in Hb. change (2 ^ 8) with 256 in Hb. simpl negb.
  rewrite !(proj2 (Z.ltb_ge _ _)) by lia. done.
Qed.

Lemma inet_aton_go_last b p0 p1 p2 :
  is_u 8 b →
  inet_aton_go 0 [p2; p1; p0] (byte_digits b) = Some (le_decode [p0; p1; p2; b]).
Proof.
  intros Hb. destruct (strtoul0_byte b [] Hb I) as (c & r & Hd & Hc & Hs).
  rewrite app_nil_r in Hs. rewrite Hd in *. unfold inet_aton_go.
  rewrite Hc, Hs. pose proof Hb as Hb'. unfold is_u in Hb'. change (2 ^ 8) with 256 in Hb'.
  change (inet_max (length [p2; p1; p0])) with 255. simpl negb.
  rewrite !(proj2 (Z.ltb_ge _ _)) by lia. simpl. by rewrite (uwrap_small 8 b).
Qed.

Lemma inet_aton_quad a b c d :
  is_u 8 a → is_u 8 b → is_u 8 c → is_u 8 d →
  inet_aton_go 3 [] (byte_digits a ++ "."%char :: byte_digits b ++ "."%char ::
                     byte_digits c ++ "."%char :: byte_digits d)
  = Some (le_decode [a; b; c; d]).
Proof.
  intros. rewrite !inet_aton_go_dot by done. by apply inet_aton_go_last.
Qed.

Lemma list_ascii_of_string_app s t :
  String.list_ascii_of_string (s +:+ t) =
  String.list_ascii_of_string s ++ String.list_ascii_of_string t.
Proof. induction s as [|c s IH]; simpl; [done|]. by rewrite IH. Qed.

Lemma le_encode_ip ip :
  is_u 32 ip → [ip_byte ip 0; ip_byte ip 1; ip_byte ip 2; ip_byte ip 3] = le_encode 4 ip.
Proof.
  intros _. unfold ip_byte.
  change (le_encode 4 ip) with [u8 ip; u8 (ip / 256); u8 (ip / 256 / 256); u8 (ip / 256 / 256 / 256)].
  change (Z.of_nat 0) with 0. change (Z.of_nat 1) with 1.
  change (Z.of_nat 2) with 2. change (Z.of_nat 3) with 3.
  rewrite Z.pow_0_r, Z.div_1_r, !Z.div_div by lia. done.
Qed.

Lemma inet_addr_ntoa_eq ip : is_u 32 ip → inet_addr (inet_ntoa ip) = ip.
Proof.
  intros Hip. unfold inet_addr, inet_ntoa. rewrite !list_ascii_of_string_app. simpl app.
  fold (byte_digits (ip_byte ip 0)) (byte_digits (ip_byte ip 1))
       (byte_digits (ip_byte ip 2)) (byte_digits (ip_byte ip 3)).
  rewrite inet_aton_quad by (apply uwrap_range; lia).
  rewrite le_encode_ip by done. rewrite le_decode_encode.
  change (256 ^ Z.of_nat 4) with (2 ^ 32). by apply uwrap_small.
Qed.

Lemma inet_ntoa_inj a b : is_u 32 a → is_u 32 b → inet_ntoa a = inet_ntoa b → a = b.
Proof. intros Ha Hb H. by rewrite <- (inet_addr_ntoa_eq a), <- (inet_addr_ntoa_eq b), H. Qed.

Lemma localhost_range : is_u 32 localhost.
Proof. rewrite localhost_value. unfold is_u. lia. Qed.

(** ** Floating point *)

(** The nearest number with a mantissa of [p] bits to a whole number, the even one between
    two. *)
Definition round_to (p n : Z) : Z :=
  if n <? 2 ^ p then n else
  let s := Z.log2 n - (p - 1) in
  let q := n / 2 ^ s in
  let r := n mod 2 ^ s in
  let up := (2 ^ (s - 1) <? r) || ((r =? 2 ^ (s - 1)) && Z.odd q) in
  (q + if up then 1 else 0) * 2 ^ s.

(** ** [struct sockaddr_in] *)

Record sockaddr_in := mk_sai { sin_family : Z; sin_port : Z; sin_addr : Z; sin_zero : list Z }.

Definition sizeof_sockaddr_in : nat := 16.
Definition sizeof_sockaddr_un : nat := 110.
Definition sizeof_sockaddr_nl : nat := 12.

(** The fields of the sixteen bytes at the start of a buffer. *)
Definition sai_decode (l : list Z) : sockaddr_in :=
  {| sin_family := le_decode (take 2 l);
     sin_port := le_decode (take 2 (drop 2 l));
     sin_addr := le_decode (take 4 (drop 4 l));
     sin_zero := take 8 (drop 8 l) |}.

Definition sai_encode (a : sockaddr_in) : list Z :=
  le_encode 2 (sin_family a) ++ le_encode 2 (sin_port a) ++ le_encode 4 (sin_addr a) ++ sin_zero a.

Lemma sai_encode_decode l :
  length l = 16%nat → Forall (is_u 8) l → sai_encode (sai_decode l) = l.
Proof.
  intros Hl Hb. unfold sai_encode, sai_decode;
    cbn [sin_family sin_port sin_addr sin_zero].
  do 16 (destruct l as [|? l]; [done|]). destruct l; [|done].
  cbn [take drop].
  repeat match goal with H : Forall _ (_ :: _) |- _ => apply Forall_cons_1 in H as [? H] end.
  pose proof (le_encode_decode [z; z0] ltac:(eauto using List.Forall_cons, List.Forall_nil)) as E1.
  pose proof (le_encode_decode [z1; z2] ltac:(eauto using List.Forall_cons, List.Forall_nil)) as E2.
  pose proof (le_encode_decode [z3; z4; z5; z6] ltac:(eauto using List.Forall_cons, List.Forall_nil)) as E3.
  cbn [length] in *. by rewrite E1, E2, E3.
Qed.

(** [strlen] on a buffer: the bytes before the first NUL; [None] when the buffer
    holds none, and the call reads past its end. *)
Fixpoint strlen (l : list Z) : option Z :=
  match l with
  | [] => None
  | b :: l => if b =? 0 then Some 0 else Z.succ <$> strlen l
  end.
