(* ===== verification/External.v ===== *)
(** External code: the interfaces of what SimTerpose calls but does not contain.

    - [Xbt]: the containers of SimGrid's XBT library ([xbt_dict_t],
      [xbt_dynar_t], [xbt_fifo_t]) with the operations the sources use;
      [XbtLaws] states their documented behaviour.
    - [World]: the traced processes behind [ptrace]/[waitpid] and the objects of
      SimGrid's MSG interface (hosts, processes, semaphores, tasks);
      [TraceLaws] states the documented behaviour of [ptrace] on memory and
      registers, [StopLaws] that of the stops by their kind, the other classes that of
      MSG and of the calls a tracee is made to run.

    The components are written against the operation classes, their theorems
    against the law classes; the Reference file gives an instance of each. *)
From S2P Require Import Prelude Libc.

(** ** XBT containers *)

(** [dynar_model] and [fifo_model] are the lists of elements the laws talk
    about; no definition of the program uses them. *)
Class Xbt := {
  dict : Type → Type;
  xbt_dict_new : ∀ {V}, dict V;
  xbt_dict_get_or_null : ∀ {V}, dict V → string → option V;
  xbt_dict_set : ∀ {V}, dict V → string → V → dict V;
  xbt_dict_remove : ∀ {V}, dict V → string → option (dict V);
  xbt_dict_items : ∀ {V}, dict V → list (string * V);

  dynar : Type → Type;
  xbt_dynar_new : ∀ {A}, dynar A;
  xbt_dynar_length : ∀ {A}, dynar A → nat;
  xbt_dynar_is_empty : ∀ {A}, dynar A → bool;
  xbt_dynar_get_cpy : ∀ {A}, dynar A → nat → option A;
  xbt_dynar_push : ∀ {A}, dynar A → A → dynar A;
  xbt_dynar_shift : ∀ {A}, dynar A → option (A * dynar A);
  xbt_dynar_remove_at : ∀ {A}, dynar A → nat → option (dynar A);
  xbt_dynar_search : ∀ {A}, (A → bool) → dynar A → option nat;
  dynar_model : ∀ {A}, dynar A → list A;

  fifo : Type → Type;
  xbt_fifo_new : ∀ {A}, fifo A;
  xbt_fifo_size : ∀ {A}, fifo A → nat;
  xbt_fifo_push : ∀ {A}, fifo A → A → fifo A;
  xbt_fifo_shift : ∀ {A}, fifo A → option (A * fifo A);
  fifo_model : ∀ {A}, fifo A → list A;
}.

(** The documented behaviour: a dictionary maps a byte string to at most one
    datum and throws on the removal of an absent key; a dynar is an indexed
    sequence, a fifo a queue. *)
Class XbtLaws (X : Xbt) : Prop := {
  dict_get_new V k : xbt_dict_get_or_null (V:=V) xbt_dict_new k = None;
  dict_get_set V (d : dict V) k v : xbt_dict_get_or_null (xbt_dict_set d k v) k = Some v;
  dict_get_set_ne V (d : dict V) k k' v :
    k ≠ k' → xbt_dict_get_or_null (xbt_dict_set d k v) k' = xbt_dict_get_or_null d k';
  dict_remove_absent V (d : dict V) k :
    xbt_dict_get_or_null d k = None → xbt_dict_remove d k = None;
  dict_remove_present V (d : dict V) k :
    is_Some (xbt_dict_get_or_null d k) →
    ∃ d', xbt_dict_remove d k = Some d' ∧ xbt_dict_get_or_null d' k = None ∧
          ∀ k', k ≠ k' → xbt_dict_get_or_null d' k' = xbt_dict_get_or_null d k';
  dict_items_get V (d : dict V) k v :
    (k, v) ∈ xbt_dict_items d ↔ xbt_dict_get_or_null d k = Some v;
  dict_items_nodup V (d : dict V) : NoDup (xbt_dict_items d).*1;

  dynar_new_model A : dynar_model (A:=A) xbt_dynar_new = [];
  dynar_length_model A (d : dynar A) : xbt_dynar_length d = length (dynar_model d);
  dynar_is_empty_model A (d : dynar A) :
    xbt_dynar_is_empty d = bool_decide (dynar_model d = []);
  dynar_get_model A (d : dynar A) i : xbt_dynar_get_cpy d i = dynar_model d !! i;
  dynar_push_model A (d : dynar A) x : dynar_model (xbt_dynar_push d x) = dynar_model d ++ [x];
  dynar_shift_nil A (d : dynar A) : dynar_model d = [] → xbt_dynar_shift d = None;
  dynar_shift_cons A (d : dynar A) x l :
    dynar_model d = x :: l → ∃ d', xbt_dynar_shift d = Some (x, d') ∧ dynar_model d' = l;
  dynar_remove_at_model A (d : dynar A) i :
    (i < length (dynar_model d))%nat →
    ∃ d', xbt_dynar_remove_at d i = Some d' ∧ dynar_model d' = delete i (dynar_model d);
  dynar_search_model A (p : A → bool) (d : dynar A) :
    xbt_dynar_search p d = find_index p (dynar_model d);

  fifo_new_model A : fifo_model (A:=A) xbt_fifo_new = [];
  fifo_size_model A (f : fifo A) : xbt_fifo_size f = length (fifo_model f);
  fifo_push_model A (f : fifo A) x : fifo_model (xbt_fifo_push f x) = fifo_model f ++ [x];
  fifo_shift_nil A (f : fifo A) : fifo_model f = [] → xbt_fifo_shift f = None;
  fifo_shift_cons A (f : fifo A) x l :
    fifo_model f = x :: l → ∃ f', xbt_fifo_shift f = Some (x, f') ∧ fifo_model f' = l;
}.

#[export] Hint Rewrite @dict_get_new @dict_get_set @dynar_new_model @dynar_length_model
  @dynar_get_model @dynar_push_model @dynar_search_model @fifo_new_model
  @fifo_size_model @fifo_push_model using typeclasses eauto : xbt.

(** ** Traced processes and MSG objects *)

(** The registers of [struct user_regs_struct] the sources read or write; the
    other ones are carried along in [regs_other]. *)
Record user_regs := {
  orig_rax : Z; rax : Z; rdi : Z; rsi : Z; rdx : Z; r10 : Z; r8 : Z; r9 : Z; rip : Z;
  regs_other : list Z;
}.

Definition set_orig_rax (v : Z) (r : user_regs) : user_regs :=
  {| orig_rax := v; rax := rax r; rdi := rdi r; rsi := rsi r; rdx := rdx r;
     r10 := r10 r; r8 := r8 r; r9 := r9 r; rip := rip r; regs_other := regs_other r |}.
Definition set_rax (v : Z) (r : user_regs) : user_regs :=
  {| orig_rax := orig_rax r; rax := v; rdi := rdi r; rsi := rsi r; rdx := rdx r;
     r10 := r10 r; r8 := r8 r; r9 := r9 r; rip := rip r; regs_other := regs_other r |}.
Definition set_rip (v : Z) (r : user_regs) : user_regs :=
  {| orig_rax := orig_rax r; rax := rax r; rdi := rdi r; rsi := rsi r; rdx := rdx r;
     r10 := r10 r; r8 := r8 r; r9 := r9 r; rip := v; regs_other := regs_other r |}.
Definition set_args (a b c : Z) (r : user_regs) : user_regs :=
  {| orig_rax := orig_rax r; rax := rax r; rdi := a; rsi := b; rdx := c;
     r10 := r10 r; r8 := r8 r; r9 := r9 r; rip := rip r; regs_other := regs_other r |}.

Inductive msg_error := MSG_OK | MSG_TIMEOUT | MSG_TRANSFER_FAILURE | MSG_HOST_FAILURE
  | MSG_TASK_CANCELED.

(** [None] is the [-1] of a failed [ptrace] or [waitpid]; [stray_byte] is the
    unspecified byte a read past the end of one of SimTerpose's buffers returns,
    [stray_regs] the registers read from beyond a variable of SimTerpose's stack and
    [stack_address] the address of such a variable;
    [proc_self_fd] are the entries of /proc/self/fd and the descriptor the listing
    itself uses. [mem_byte] (the bytes
    mapped in a tracee) and [at_entry] (stopped at the entry of a system call, or since
    then inside that call) are observations the laws talk about; no definition of the program uses them. *)
Class World := {
  W : Type;
  ptrace_peekdata : W → Z → Z → option Z;
  ptrace_pokedata : W → Z → Z → Z → option W;
  ptrace_getregs : W → Z → option user_regs;
  ptrace_setregs : W → Z → user_regs → option W;
  ptrace_syscall : W → Z → option W;
  ptrace_detach : W → Z → option W;
  ptrace_geteventmsg : W → Z → option Z;
  ptrace_setoptions : W → Z → option W;
  waitpid : W → Z → option (Z * W);
  stray_byte : W → Z;
  stray_regs : W → user_regs;
  stack_address : W → Z;
  proc_self_fd : W → list string * Z;
  mem_byte : W → Z → Z → option Z;
  at_entry : W → Z → bool;

  msg_host : Type;
  MSG_host_get_name : msg_host → string;
  MSG_get_host_by_name : string → option msg_host;
  MSG_host_get_property_value : msg_host → string → option string;
  MSG_hosts_as_dynar : W → list msg_host;
  msg_process : Type;
  msg_process_eqb : msg_process → msg_process → bool;
  MSG_process_get_name : msg_process → string;
  MSG_process_create : W → string → Z → msg_host → W;
  msg_sem : Type;
  MSG_sem_init : W → Z → msg_sem * W;
  MSG_sem_release : W → msg_sem → W;
  msg_task : Type;
  MSG_parallel_task_create : W → string → list msg_host → Z → msg_task * W;
  MSG_task_create : W → string → Z → list Z → msg_task * W;
  MSG_task_set_bytes_amount : W → msg_task → Z → W;
  MSG_task_set_data : W → msg_task → list Z → W;
  MSG_task_get_bytes_amount : W → msg_task → Z;
  MSG_task_get_data : W → msg_task → list Z;
  MSG_task_destroy : W → msg_task → W;
  msg_comm : Type;
  MSG_task_irecv : W → string → msg_comm * W;
  MSG_get_clock : W → list Z;
}.

Definition SYS_tuxcall : Z := 184.
Definition ENOSYS : Z := 38.

(** The word at an address, when its eight bytes are mapped. *)
Definition mem_bytes `{World} (w : W) (pid a : Z) (n : nat) : option (list Z) :=
  mapM (λ i, mem_byte w pid (a + Z.of_nat i)) (seq 0 n).

(** ptrace(2): PEEKDATA reads and POKEDATA writes one word of the tracee's
    memory and nothing else, PEEKDATA fails on memory that is not mapped; GETREGS returns what SETREGS stored; a tracee
    stopped at the entry of an unimplemented system call and resumed with
    PTRACE_SYSCALL stops at its exit with [-ENOSYS] in [rax], and the other tracees
    stay where they are. *)
Class TraceLaws (Wd : World) : Prop := {
  mem_byte_range w pid a b : mem_byte w pid a = Some b → is_u 8 b;
  stray_byte_range w : is_u 8 (stray_byte w);
  peek_word w pid a bs :
    mem_bytes w pid a 8 = Some bs → ptrace_peekdata w pid a = Some (le_decode bs);
  peek_unmapped w pid a : mem_bytes w pid a 8 = None → ptrace_peekdata w pid a = None;
  poke_word w pid a v :
    is_Some (mem_bytes w pid a 8) →
    ∃ w', ptrace_pokedata w pid a v = Some w' ∧
      mem_bytes w' pid a 8 = Some (le_encode 8 v) ∧
      (∀ b, ¬ (a <= b < a + 8) → mem_byte w' pid b = mem_byte w pid b) ∧
      (∀ p b, p ≠ pid → mem_byte w' p b = mem_byte w p b) ∧
      (∀ p, ptrace_getregs w' p = ptrace_getregs w p) ∧
      (∀ p, at_entry w' p = at_entry w p);
  set_get_regs w pid r :
    is_Some (ptrace_getregs w pid) →
    ∃ w', ptrace_setregs w pid r = Some w' ∧
      ptrace_getregs w' pid = Some r ∧
      (∀ p, p ≠ pid → ptrace_getregs w' p = ptrace_getregs w p) ∧
      (∀ p b, mem_byte w' p b = mem_byte w p b) ∧
      (∀ p, at_entry w' p = at_entry w p);
  unimplemented_syscall w pid r :
    at_entry w pid = true → ptrace_getregs w pid = Some r → orig_rax r = SYS_tuxcall →
    ∃ w1 st w2, ptrace_syscall w pid = Some w1 ∧ waitpid w1 pid = Some (st, w2) ∧
      ptrace_getregs w2 pid = Some (set_rax (u64 (- ENOSYS)) r) ∧
      at_entry w2 pid = false ∧
      (∀ p, p ≠ pid → ptrace_getregs w2 p = ptrace_getregs w p) ∧
      (∀ p b, mem_byte w2 p b = mem_byte w p b) ∧
      (∀ p, p ≠ pid → at_entry w2 p = at_entry w p);
}.

(** A host is found by its name. *)
Class MsgLaws (Wd : World) : Prop := {
  host_by_name h : MSG_get_host_by_name (MSG_host_get_name h) = Some h;
}.

(** How a stop is read off the status of [waitpid], once the options of
    simterpose.c:228 are set (ptrace(2)): a system call stop is reported by [SIGTRAP] with
    the bit PTRACE_O_TRACESYSGOOD adds and no event; a PTRACE_EVENT stop has its event in
    the bits from 16 on; any other signal is one about to be delivered. *)
Definition syscall_stop (status : Z) : bool :=
  WIFSTOPPED status && (Z.shiftr status 8 =? Z.lor SIGTRAP 0x80).
Definition event_stop (status : Z) : bool :=
  WIFSTOPPED status && negb (Z.shiftr status 16 =? 0).
Definition signal_stop (status : Z) : bool :=
  WIFSTOPPED status && negb (Z.land (WSTOPSIG status) 0x7f =? SIGTRAP).

(** What moves a tracee from an entry to an exit (ptrace(2)): resumed with
    PTRACE_SYSCALL it reaches its next stop; the system call stops are in turn an entry
    and an exit; the stop of an event (within a call, as for fork, vfork, clone and
    execve) or of a signal (outside one) is neither, so that the tracee is still inside the
    call whose entry it reported, or outside. Neither the other requests of [ptrace] nor
    the simulated objects of MSG make a tracee move. *)
Class StopLaws (Wd : World) : Prop := {
  next_stop w pid w1 : ptrace_syscall w pid = Some w1 → is_Some (waitpid w1 pid);
  stops_alternate w pid w1 status w2 :
    ptrace_syscall w pid = Some w1 → waitpid w1 pid = Some (status, w2) →
    syscall_stop status = true → at_entry w2 pid = negb (at_entry w pid);
  other_stops w pid w1 status w2 :
    ptrace_syscall w pid = Some w1 → waitpid w1 pid = Some (status, w2) →
    event_stop status || signal_stop status = true → at_entry w2 pid = at_entry w pid;
  poke_stop w pid a v w' p : ptrace_pokedata w pid a v = Some w' → at_entry w' p = at_entry w p;
  setregs_stop w pid r w' p : ptrace_setregs w pid r = Some w' → at_entry w' p = at_entry w p;
  setoptions_stop w pid w' p : ptrace_setoptions w pid = Some w' → at_entry w' p = at_entry w p;
  process_create_stop w n a h p : at_entry (MSG_process_create w n a h) p = at_entry w p;
  sem_init_stop w n p : at_entry (MSG_sem_init w n).2 p = at_entry w p;
  sem_release_stop w x p : at_entry (MSG_sem_release w x) p = at_entry w p;
  parallel_task_stop w n l a p : at_entry (MSG_parallel_task_create w n l a).2 p = at_entry w p;
  task_create_stop w n a d p : at_entry (MSG_task_create w n a d).2 p = at_entry w p;
  task_amount_stop w t n p : at_entry (MSG_task_set_bytes_amount w t n) p = at_entry w p;
  task_data_stop w t d p : at_entry (MSG_task_set_data w t d) p = at_entry w p;
  task_destroy_stop w t p : at_entry (MSG_task_destroy w t) p = at_entry w p;
  task_destroy_regs w t p : ptrace_getregs (MSG_task_destroy w t) p = ptrace_getregs w p;
  task_destroy_mem w t p b : mem_byte (MSG_task_destroy w t) p b = mem_byte w p b;
  irecv_stop w m p : at_entry (MSG_task_irecv w m).2 p = at_entry w p;
}.

(** MSG: a task carries its data; creating and setting up tasks and releasing a
    semaphore do not touch the tracees. *)
Class TaskLaws (Wd : World) : Prop := {
  task_data w t d : MSG_task_get_data (MSG_task_set_data w t d) t = d;
  parallel_task_regs w n l a p :
    ptrace_getregs (MSG_parallel_task_create w n l a).2 p = ptrace_getregs w p;
  parallel_task_mem w n l a p b :
    mem_byte (MSG_parallel_task_create w n l a).2 p b = mem_byte w p b;
  task_amount_regs w t n p :
    ptrace_getregs (MSG_task_set_bytes_amount w t n) p = ptrace_getregs w p;
  task_amount_mem w t n p b : mem_byte (MSG_task_set_bytes_amount w t n) p b = mem_byte w p b;
  task_data_regs w t d p : ptrace_getregs (MSG_task_set_data w t d) p = ptrace_getregs w p;
  task_data_mem w t d p b : mem_byte (MSG_task_set_data w t d) p b = mem_byte w p b;
  sem_release_regs w x p : ptrace_getregs (MSG_sem_release w x) p = ptrace_getregs w p;
  sem_release_mem w x p b : mem_byte (MSG_sem_release w x) p b = mem_byte w p b;
  sem_init_regs w n p : ptrace_getregs (MSG_sem_init w n).2 p = ptrace_getregs w p;
  sem_init_mem w n p b : mem_byte (MSG_sem_init w n).2 p b = mem_byte w p b;
}.

Definition set_regs_other (v : list Z) (r : user_regs) : user_regs :=
  {| orig_rax := orig_rax r; rax := rax r; rdi := rdi r; rsi := rsi r; rdx := rdx r;
     r10 := r10 r; r8 := r8 r; r9 := r9 r; rip := rip r; regs_other := v |}.

(** The two bytes of the instruction [syscall]. *)
Definition syscall_insn : list Z := [0x0f; 0x05].

(** What the kernel does of a tracee that is made to run a system call: at the entry
    of socket(2) and resumed, it stops at the exit with a result and nothing else
    changed; at an exit and resumed on the instruction [syscall], it stops at the entry
    of the call whose number is in [rax]. The registers no definition reads may have
    changed; the memory and the other tracees do not. *)
Class KernelLaws (Wd : World) : Prop := {
  kernel_socket w pid r :
    at_entry w pid = true → ptrace_getregs w pid = Some r → orig_rax r = SYS_socket →
    ∃ w1 st w2 v o, ptrace_syscall w pid = Some w1 ∧ waitpid w1 pid = Some (st, w2) ∧
      ptrace_getregs w2 pid = Some (set_regs_other o (set_rax v r)) ∧
      at_entry w2 pid = false ∧
      (∀ p, p ≠ pid → ptrace_getregs w2 p = ptrace_getregs w p) ∧
      (∀ p b, mem_byte w2 p b = mem_byte w p b) ∧
      (∀ p, p ≠ pid → at_entry w2 p = at_entry w p);
  kernel_rerun w pid r :
    at_entry w pid = false → ptrace_getregs w pid = Some r →
    mem_bytes w pid (rip r) 2 = Some syscall_insn →
    ∃ w1 st w2 o, ptrace_syscall w pid = Some w1 ∧ waitpid w1 pid = Some (st, w2) ∧
      ptrace_getregs w2 pid = Some (set_regs_other o
        (set_rip (u64 (rip r + 2)) (set_rax (u64 (- ENOSYS)) (set_orig_rax (rax r) r)))) ∧
      at_entry w2 pid = true ∧
      (∀ p, p ≠ pid → ptrace_getregs w2 p = ptrace_getregs w p) ∧
      (∀ p b, mem_byte w2 p b = mem_byte w p b) ∧
      (∀ p, p ≠ pid → at_entry w2 p = at_entry w p);
}.

(** bind(2) on 127.0.0.1: at the entry of the call and resumed, the tracee stops at the exit
    with the result 0 when its descriptor is an IPv4 socket that is not bound yet
    ([bindable]) and the port is neither in use nor protected ([taken]), and an error
    otherwise (EBADF, ENOTSOCK, EINVAL; EADDRINUSE, EACCES). A bind that failed, a call run
    again and the requests of [ptrace] leave the sockets and the ports as they are. *)
Section Ports.
Context `{Wd : World} (bindable : W → Z → Z → bool) (taken : W → Z → bool).
Definition refused (w : W) (pid fd port : Z) : bool := negb (bindable w pid fd) || taken w port.
Definition same_ports (w w' : W) : Prop := ∀ p fd q, refused w' p fd q = refused w p fd q.
End Ports.

Class BindLaws (Wd : World) (bindable : W → Z → Z → bool) (taken : W → Z → bool) : Prop := {
  kernel_bind w pid r b :
    at_entry w pid = true → ptrace_getregs w pid = Some r → orig_rax r = SYS_bind →
    rdx r = 16 → mem_bytes w pid (rsi r) 16 = Some b →
    sin_family (sai_decode b) = AF_INET → sin_addr (sai_decode b) = localhost →
    let no := refused bindable taken w pid (s32 (rdi r)) (ntohs (sin_port (sai_decode b))) in
    ∃ w1 st w2 v o, ptrace_syscall w pid = Some w1 ∧ waitpid w1 pid = Some (st, w2) ∧
      ptrace_getregs w2 pid = Some (set_regs_other o (set_rax v r)) ∧ (v =? 0) = negb no ∧
      at_entry w2 pid = false ∧
      (∀ p, p ≠ pid → ptrace_getregs w2 p = ptrace_getregs w p) ∧
      (∀ p b, mem_byte w2 p b = mem_byte w p b) ∧
      (∀ p, p ≠ pid → at_entry w2 p = at_entry w p) ∧
      (no = true → same_ports bindable taken w w2);
  poke_ports w pid a v w' : ptrace_pokedata w pid a v = Some w' → same_ports bindable taken w w';
  setregs_ports w pid r w' : ptrace_setregs w pid r = Some w' → same_ports bindable taken w w';
  rerun_ports w pid w1 st w2 :
    at_entry w pid = false → ptrace_syscall w pid = Some w1 → waitpid w1 pid = Some (st, w2) →
    same_ports bindable taken w w2;
}.

Section MemBytes.
Context `{Wd : World}.

Lemma mem_bytes_S w pid a n :
  mem_bytes w pid a (S n) =
  match mem_byte w pid a, mem_bytes w pid (a + 1) n with
  | Some b, Some l => Some (b :: l)
  | _, _ => None
  end.
Proof.
  unfold mem_bytes.
  assert (∀ l, mapM (λ i, mem_byte w pid (a + Z.of_nat i)) (S <$> l) =
               mapM (λ i, mem_byte w pid (a + 1 + Z.of_nat i)) l) as E.
  { induction l as [|i l IH]; [done|]. rewrite fmap_cons. cbn [mapM]. rewrite IH.
    by replace (a + Z.of_nat (S i)) with (a + 1 + Z.of_nat i) by lia. }
  change (seq 0 (S n)) with (0%nat :: seq 1 n). cbn [mapM]. rewrite <- (fmap_S_seq 0 n), E.
  rewrite Z.add_0_r. destruct (mem_byte w pid a); [|done]. simpl. by destruct (mapM _ _).
Qed.

Lemma mem_bytes_length w pid a n bs : mem_bytes w pid a n = Some bs → length bs = n.
Proof.
  revert a bs; induction n as [|n IH]; intros a bs; [by intros [= <-]|].
  rewrite mem_bytes_S. destruct (mem_byte w pid a); [|done].
  destruct (mem_bytes w pid (a + 1) n) eqn:E; [|done]. intros [= <-]. simpl. by rewrite (IH _ _ E).
Qed.

Lemma mem_bytes_app w pid a n m bs :
  mem_bytes w pid a (n + m) = Some bs ↔
  ∃ l k, bs = l ++ k ∧ mem_bytes w pid a n = Some l ∧ mem_bytes w pid (a + Z.of_nat n) m = Some k.
Proof.
  revert a bs; induction n as [|n IH]; intros a bs.
  { simpl. rewrite Z.add_0_r. split; [by exists [], bs|]. by intros (l & k & -> & [= <-] & ?). }
  rewrite Nat.add_succ_l, !mem_bytes_S.
  destruct (mem_byte w pid a) as [b|]; [|split; [done|by intros (?&?&?&?&?)]].
  replace (a + Z.of_nat (S n)) with (a + 1 + Z.of_nat n) by lia. split.
  - destruct (mem_bytes w pid (a + 1) (n + m)) as [r|] eqn:E; [|done]. intros [= <-].
    apply IH in E as (l & k & -> & Hl & Hk). rewrite Hl. by exists (b :: l), k.
  - intros (l & k & -> & Hl & Hk). destruct (mem_bytes w pid (a + 1) n) as [l'|] eqn:E; [|done].
    injection Hl as <-. rewrite (proj2 (IH (a + 1) (l' ++ k))); [done|by exists l', k].
Qed.

Lemma mem_bytes_lookup w pid a n bs i :
  mem_bytes w pid a n = Some bs → (i < n)%nat → bs !! i = mem_byte w pid (a + Z.of_nat i).
Proof.
  revert a bs i; induction n as [|n IH]; intros a bs i; [lia|].
  rewrite mem_bytes_S. destruct (mem_byte w pid a) eqn:Ea; [|done].
  destruct (mem_bytes w pid (a + 1) n) eqn:E; [|done]. intros [= <-] Hi.
  destruct i as [|i]; simpl; [by rewrite Z.add_0_r|].
  rewrite (IH _ _ i E) by lia. f_equal. lia.
Qed.

Lemma mem_bytes_ext w w' pid a n :
  (∀ i, (i < n)%nat → mem_byte w' pid (a + Z.of_nat i) = mem_byte w pid (a + Z.of_nat i)) →
  mem_bytes w' pid a n = mem_bytes w pid a n.
Proof.
  revert a; induction n as [|n IH]; intros a H; [done|]. rewrite !mem_bytes_S.
  rewrite IH.
  - specialize (H 0%nat). rewrite Z.add_0_r in H. by rewrite H by lia.
  - intros i Hi. specialize (H (S i)). replace (a + 1 + Z.of_nat i) with (a + Z.of_nat (S i)) by lia.
    apply H. lia.
Qed.

Lemma mem_bytes_take w pid a n m bs :
  mem_bytes w pid a n = Some bs → (m <= n)%nat → mem_bytes w pid a m = Some (take m bs).
Proof.
  intros H Hm. replace n with (m + (n - m))%nat in H by lia.
  apply mem_bytes_app in H as (l & k & -> & Hl & _). rewrite Hl. f_equal.
  rewrite take_app_length'; [done|]. symmetry. by eapply mem_bytes_length.
Qed.

Lemma mem_bytes_range `{!TraceLaws Wd} w pid a n bs :
  mem_bytes w pid a n = Some bs → Forall (is_u 8) bs.
Proof.
  intros H. apply Forall_lookup_2. intros i b Hb.
  assert (i < n)%nat by (rewrite <- (mem_bytes_length _ _ _ _ _ H); by eapply lookup_lt_Some).
  rewrite (mem_bytes_lookup _ _ _ _ _ _ H) in Hb by done. by eapply mem_byte_range.
Qed.

End MemBytes.
