(* ===== verification/State.v ===== *)
(** The state of SimTerpose and the monad its functions run in.

    The structures of src/src/include/*.h become records, a pointer an address
    ([Z], [NULL] = 0) into the store of the pointed-to type. [M] threads the
    state and has three outcomes: a value, a failure (undefined behaviour of the
    C program, an exception, an exit), or a blocking call of the MSG interface,
    where the current MSG process yields and other ones run on the same state
    before it resumes. *)
From S2P Require Import Prelude External.

Definition NULL : Z := 0.

(** ** Constants of the headers *)

Definition FD_STDIN : Z := 0x00.
Definition FD_STDOUT : Z := 0x01.
Definition FD_STDERR : Z := 0x02.
Definition FD_CLASSIC : Z := 0x04.
Definition FD_SOCKET : Z := 0x08.
Definition FD_PIPE : Z := 0x10.

Definition COMM_OPEN : Z := 0x001.
Definition COMM_CLOSED : Z := 0x002.
Definition COMM_LISTEN : Z := 0x004.
Definition COMM_SHUT : Z := 0x008.

Definition SOCKET_READ_OK : Z := 0x0001.
Definition SOCKET_CLOSED : Z := 0x0002.
Definition SOCKET_WR_NBLK : Z := 0x0004.
Definition SOCKET_SHUT : Z := 0x0008.
Definition SOCK_OPT_REUSEADDR : Z := 0x0001.

Definition PORT_BIND : Z := 0x1.
Definition PORT_LOCAL : Z := 0x2.
Definition PORT_REMOTE : Z := 0x4.

(** ** The structures *)

(** [fd_descriptor_t]; the union of [sig_proc_id] and [sig_group_id] is the one
    field [fd_sig]. *)
Record fd_descriptor := mk_fd {
  fd_type : Z; fd_proc : Z; fd_fd : Z; fd_stream : Z; fd_pipe : Z; fd_flags : Z;
  fd_mode : Z; fd_refcount : Z; fd_offset : Z; fd_lock : Z; fd_ltype : Z;
  fd_begin : Z; fd_end : Z; fd_proc_locker : Z; fd_sig : Z;
}.

(** What [xbt_malloc0(sizeof(fd_descriptor_t))] returns. *)
Definition fd_zero : fd_descriptor := mk_fd 0 0 0 0 0 0 0 0 0 0 0 0 0 0 0.

Definition set_fd_flags v d := mk_fd (fd_type d) (fd_proc d) (fd_fd d) (fd_stream d) (fd_pipe d) v
  (fd_mode d) (fd_refcount d) (fd_offset d) (fd_lock d) (fd_ltype d) (fd_begin d) (fd_end d)
  (fd_proc_locker d) (fd_sig d).
Definition set_fd_stream v d := mk_fd (fd_type d) (fd_proc d) (fd_fd d) v (fd_pipe d) (fd_flags d)
  (fd_mode d) (fd_refcount d) (fd_offset d) (fd_lock d) (fd_ltype d) (fd_begin d) (fd_end d)
  (fd_proc_locker d) (fd_sig d).
Definition set_fd_refcount v d := mk_fd (fd_type d) (fd_proc d) (fd_fd d) (fd_stream d) (fd_pipe d)
  (fd_flags d) (fd_mode d) v (fd_offset d) (fd_lock d) (fd_ltype d) (fd_begin d) (fd_end d)
  (fd_proc_locker d) (fd_sig d).
Definition set_fd_offset v d := mk_fd (fd_type d) (fd_proc d) (fd_fd d) (fd_stream d) (fd_pipe d)
  (fd_flags d) (fd_mode d) (fd_refcount d) v (fd_lock d) (fd_ltype d) (fd_begin d) (fd_end d)
  (fd_proc_locker d) (fd_sig d).
Definition set_fd_sig v d := mk_fd (fd_type d) (fd_proc d) (fd_fd d) (fd_stream d) (fd_pipe d)
  (fd_flags d) (fd_mode d) (fd_refcount d) (fd_offset d) (fd_lock d) (fd_ltype d) (fd_begin d)
  (fd_end d) (fd_proc_locker d) v.
(** The fields [fcntl] keeps about a file lock. *)
Definition set_fd_lock (lock ltype bg en locker : Z) d := mk_fd (fd_type d) (fd_proc d) (fd_fd d)
  (fd_stream d) (fd_pipe d) (fd_flags d) (fd_mode d) (fd_refcount d) (fd_offset d) lock ltype bg en
  locker (fd_sig d).

Section Structures.
Context `{X : Xbt} `{Wd : World}.

(** [struct infos_socket]; its first member is a descriptor, so that a pointer
    to it is also used as a pointer to [fd_descriptor_t]. *)
Record infos_socket := mk_is {
  is_fd : fd_descriptor; is_comm : Z; is_host : option msg_host; is_domain : Z; is_protocol : Z;
  is_ip_local : Z; is_port_local : Z; is_flags : Z; is_type : Z; is_option : Z;
  is_binded : Z; is_ref_nb : Z;
}.

Definition set_is_fd v s := mk_is v (is_comm s) (is_host s) (is_domain s) (is_protocol s)
  (is_ip_local s) (is_port_local s) (is_flags s) (is_type s) (is_option s) (is_binded s) (is_ref_nb s).
Definition set_is_comm v s := mk_is (is_fd s) v (is_host s) (is_domain s) (is_protocol s)
  (is_ip_local s) (is_port_local s) (is_flags s) (is_type s) (is_option s) (is_binded s) (is_ref_nb s).
Definition set_is_local (ip port : Z) s := mk_is (is_fd s) (is_comm s) (is_host s) (is_domain s)
  (is_protocol s) ip port (is_flags s) (is_type s) (is_option s) (is_binded s) (is_ref_nb s).
Definition set_is_flags v s := mk_is (is_fd s) (is_comm s) (is_host s) (is_domain s) (is_protocol s)
  (is_ip_local s) (is_port_local s) v (is_type s) (is_option s) (is_binded s) (is_ref_nb s).
Definition set_is_option v s := mk_is (is_fd s) (is_comm s) (is_host s) (is_domain s) (is_protocol s)
  (is_ip_local s) (is_port_local s) (is_flags s) (is_type s) v (is_binded s) (is_ref_nb s).
Definition set_is_binded v s := mk_is (is_fd s) (is_comm s) (is_host s) (is_domain s) (is_protocol s)
  (is_ip_local s) (is_port_local s) (is_flags s) (is_type s) (is_option s) v (is_ref_nb s).
Definition set_is_ref_nb v s := mk_is (is_fd s) (is_comm s) (is_host s) (is_domain s) (is_protocol s)
  (is_ip_local s) (is_port_local s) (is_flags s) (is_type s) (is_option s) (is_binded s) v.

(** What an [fd_descriptor_t *] may point to. *)
Inductive fd_object := FdPlain (d : fd_descriptor) | FdSock (i : infos_socket).

Definition fd_of (o : fd_object) : fd_descriptor :=
  match o with FdPlain d => d | FdSock i => is_fd i end.
Definition fd_update (f : fd_descriptor → fd_descriptor) (o : fd_object) : fd_object :=
  match o with FdPlain d => FdPlain (f d) | FdSock i => FdSock (set_is_fd (f (is_fd i)) i) end.

(** [data_send_s]: the data of a message and its size. *)
Record data_send := { ds_data : list Z; ds_size : Z }.
Record task_comm_info := { tci_task : msg_task; tci_sender_host : option msg_host }.
Record recv_information := mk_recv {
  data_fifo : fifo data_send; recv_task : fifo task_comm_info; quantity_recv : Z;
}.
Definition set_data_fifo f r := mk_recv f (recv_task r) (quantity_recv r).
Definition set_recv_task f r := mk_recv (data_fifo r) f (quantity_recv r).

(** [struct comm_s]; [info0] and [info1] are the two entries of the array
    [info]. *)
Record comm_info := mk_info { ci_socket : Z; ci_recv : Z }.
Record comm := mk_comm {
  remote_ip : Z; remote_port : Z; info0 : comm_info; info1 : comm_info;
  comm_state : Z; conn_wait : dynar Z; comm_ref_nb : Z;
}.
Definition set_remote (ip port : Z) c :=
  mk_comm ip port (info0 c) (info1 c) (comm_state c) (conn_wait c) (comm_ref_nb c).
Definition set_socket0 v c := mk_comm (remote_ip c) (remote_port c) (mk_info v (ci_recv (info0 c)))
  (info1 c) (comm_state c) (conn_wait c) (comm_ref_nb c).
Definition set_socket1 v c := mk_comm (remote_ip c) (remote_port c) (info0 c)
  (mk_info v (ci_recv (info1 c))) (comm_state c) (conn_wait c) (comm_ref_nb c).
Definition set_comm_state v c :=
  mk_comm (remote_ip c) (remote_port c) (info0 c) (info1 c) v (conn_wait c) (comm_ref_nb c).
Definition set_conn_wait v c :=
  mk_comm (remote_ip c) (remote_port c) (info0 c) (info1 c) (comm_state c) v (comm_ref_nb c).
Definition set_comm_ref_nb v c :=
  mk_comm (remote_ip c) (remote_port c) (info0 c) (info1 c) (comm_state c) (conn_wait c) v.

(** [stream_t]: the semaphores and mailboxes of one connection. *)
Record stream := mk_stream {
  sem_client : msg_sem; sem_server : msg_sem;
  str_client : option msg_process; str_server : option msg_process;
  to_client : string; to_server : string;
}.

(** [pipe_t]; an end is never modified or shared after it is pushed, so the
    dynars hold the ends themselves. *)
Record pipe_end := mk_end { pe_fd : Z; pe_proc : Z }.
Record pipe := mk_pipe { read_end : dynar pipe_end; write_end : dynar pipe_end }.

(** [struct process_descriptor]. [in_syscall] is a one-bit signed field;
    [strace_out] holds what was written to the log file, [None] for [NULL]. *)
Record process_descriptor := mk_proc {
  pd_pid : Z; pd_name : string; pd_host : option msg_host; fd_map : dict Z; pd_status : Z;
  in_syscall : Z; strace_out : option string; curcol : Z;
}.
Definition set_fd_map v p := mk_proc (pd_pid p) (pd_name p) (pd_host p) v (pd_status p)
  (in_syscall p) (strace_out p) (curcol p).
Definition set_status v p := mk_proc (pd_pid p) (pd_name p) (pd_host p) (fd_map p) v
  (in_syscall p) (strace_out p) (curcol p).
Definition set_in_syscall v p := mk_proc (pd_pid p) (pd_name p) (pd_host p) (fd_map p) (pd_status p)
  (swrap 1 v) (strace_out p) (curcol p).
Definition set_strace (o : option string) (c : Z) p := mk_proc (pd_pid p) (pd_name p) (pd_host p)
  (fd_map p) (pd_status p) (in_syscall p) o c.

(** [struct port_desc], [struct simterpose_host], [struct translate_desc]. *)
Record port_desc := mk_port {
  port_num : Z; real_port : Z; port_option : Z; amount_socket : Z; bind_socket : Z;
}.
Record simterpose_host := mk_host { host_ip : Z; host_port : dict port_desc }.
Record translate_desc := { td_port_num : Z; td_ip : Z }.

(** The counters of [struct simterpose_globals]. *)
Record counters := mk_counters {
  nb_peek : Z; nb_poke : Z; nb_getregs : Z; nb_setregs : Z; nb_syscall : Z;
  nb_setoptions : Z; nb_detach : Z; nb_geteventmsg : Z;
}.

(** [reg_s]: the architecture-independent view of the registers. *)
Record reg_s := mk_reg { reg_orig : Z; reg_ret : Z; reg_arg : list Z }.

(** The whole state: external world, next free address, one store per type of
    heap object, the global variables. *)
Record st := mk_st {
  st_w : W; st_next : Z;
  st_proc : gmap Z process_descriptor; st_fd : gmap Z fd_object; st_comm : gmap Z comm;
  st_recv : gmap Z recv_information; st_pipe : gmap Z pipe; st_stream : gmap Z stream;
  all_sockets : dynar Z; comm_list : dynar Z;
  list_host : dict simterpose_host; list_ip : dict string; list_translate : dict translate_desc;
  st_cnt : counters; strace_option : Z; clone_number : Z;
}.

Definition set_w v s := mk_st v (st_next s) (st_proc s) (st_fd s) (st_comm s) (st_recv s) (st_pipe s)
  (st_stream s) (all_sockets s) (comm_list s) (list_host s) (list_ip s) (list_translate s) (st_cnt s)
  (strace_option s) (clone_number s).
Definition set_next v s := mk_st (st_w s) v (st_proc s) (st_fd s) (st_comm s) (st_recv s) (st_pipe s)
  (st_stream s) (all_sockets s) (comm_list s) (list_host s) (list_ip s) (list_translate s) (st_cnt s)
  (strace_option s) (clone_number s).
Definition set_proc v s := mk_st (st_w s) (st_next s) v (st_fd s) (st_comm s) (st_recv s) (st_pipe s)
  (st_stream s) (all_sockets s) (comm_list s) (list_host s) (list_ip s) (list_translate s) (st_cnt s)
  (strace_option s) (clone_number s).
Definition set_fd v s := mk_st (st_w s) (st_next s) (st_proc s) v (st_comm s) (st_recv s) (st_pipe s)
  (st_stream s) (all_sockets s) (comm_list s) (list_host s) (list_ip s) (list_translate s) (st_cnt s)
  (strace_option s) (clone_number s).
Definition set_comm v s := mk_st (st_w s) (st_next s) (st_proc s) (st_fd s) v (st_recv s) (st_pipe s)
  (st_stream s) (all_sockets s) (comm_list s) (list_host s) (list_ip s) (list_translate s) (st_cnt s)
  (strace_option s) (clone_number s).
Definition set_recv v s := mk_st (st_w s) (st_next s) (st_proc s) (st_fd s) (st_comm s) v (st_pipe s)
  (st_stream s) (all_sockets s) (comm_list s) (list_host s) (list_ip s) (list_translate s) (st_cnt s)
  (strace_option s) (clone_number s).
Definition set_pipe v s := mk_st (st_w s) (st_next s) (st_proc s) (st_fd s) (st_comm s) (st_recv s) v
  (st_stream s) (all_sockets s) (comm_list s) (list_host s) (list_ip s) (list_translate s) (st_cnt s)
  (strace_option s) (clone_number s).
Definition set_stream v s := mk_st (st_w s) (st_next s) (st_proc s) (st_fd s) (st_comm s) (st_recv s)
  (st_pipe s) v (all_sockets s) (comm_list s) (list_host s) (list_ip s) (list_translate s) (st_cnt s)
  (strace_option s) (clone_number s).
Definition set_all_sockets v s := mk_st (st_w s) (st_next s) (st_proc s) (st_fd s) (st_comm s)
  (st_recv s) (st_pipe s) (st_stream s) v (comm_list s) (list_host s) (list_ip s) (list_translate s)
  (st_cnt s) (strace_option s) (clone_number s).
Definition set_comm_list v s := mk_st (st_w s) (st_next s) (st_proc s) (st_fd s) (st_comm s)
  (st_recv s) (st_pipe s) (st_stream s) (all_sockets s) v (list_host s) (list_ip s) (list_translate s)
  (st_cnt s) (strace_option s) (clone_number s).
Definition set_list_host v s := mk_st (st_w s) (st_next s) (st_proc s) (st_fd s) (st_comm s)
  (st_recv s) (st_pipe s) (st_stream s) (all_sockets s) (comm_list s) v (list_ip s) (list_translate s)
  (st_cnt s) (strace_option s) (clone_number s).
Definition set_list_ip v s := mk_st (st_w s) (st_next s) (st_proc s) (st_fd s) (st_comm s)
  (st_recv s) (st_pipe s) (st_stream s) (all_sockets s) (comm_list s) (list_host s) v
  (list_translate s) (st_cnt s) (strace_option s) (clone_number s).
Definition set_list_translate v s := mk_st (st_w s) (st_next s) (st_proc s) (st_fd s) (st_comm s)
  (st_recv s) (st_pipe s) (st_stream s) (all_sockets s) (comm_list s) (list_host s) (list_ip s) v
  (st_cnt s) (strace_option s) (clone_number s).
Definition set_cnt v s := mk_st (st_w s) (st_next s) (st_proc s) (st_fd s) (st_comm s) (st_recv s)
  (st_pipe s) (st_stream s) (all_sockets s) (comm_list s) (list_host s) (list_ip s)
  (list_translate s) v (strace_option s) (clone_number s).
Definition set_clone_number v s := mk_st (st_w s) (st_next s) (st_proc s) (st_fd s) (st_comm s)
  (st_recv s) (st_pipe s) (st_stream s) (all_sockets s) (comm_list s) (list_host s) (list_ip s)
  (list_translate s) (st_cnt s) (strace_option s) v.

(** ** Outcomes *)

(** Undefined behaviour of the C code: a null or dangling pointer is
    dereferenced, a descriptor that is not a socket is used as one, or a variable
    is read before it is written. *)
Inductive failure :=
  | Invalid_pointer | Bad_cast | Uninitialised  (* undefined behaviour *)
  | Xbt_die | Exit                      (* xbt_die, xbt_assert; exit, ABORT *)
  | Throw_impossible | Throw_unimplemented | Throw_system_error | Throw_not_found
  | Out_of_fuel.

(** The calls at which an MSG process yields to the others. *)
Inductive request :=
  | Sem_acquire (s : msg_sem)
  | Task_send (t : msg_task) (mailbox : string)
  | Task_receive (mailbox : string)
  | Comm_wait (c : msg_comm) (timeout : Z).

Definition answer (r : request) : Type :=
  match r with
  | Sem_acquire _ => unit
  | Task_send _ _ => msg_error
  | Task_receive _ => option msg_task * msg_error
  | Comm_wait _ _ => msg_error
  end.

Inductive outcome (A : Type) :=
  | Done (a : A) (s : st)
  | Failed (e : failure) (s : st)
  | Block (r : request) (s : st) (k : answer r → st → outcome A).

Definition M (A : Type) : Type := st → outcome A.

End Structures.

Arguments Done {_ _ _} _ _.
Arguments Failed {_ _ _} _ _.
Arguments Block {_ _ _} _ _ _.
