(* ===== verification/Cputimer.v ===== *)
(** src/src/cputimer.c: the CPU time of a thread, asked from the kernel with messages of
    the taskstats family over a netlink socket. The socket is a parameter (the class
    [Netlink]), with what it does to what is written as its law; the messages are lists
    of bytes with the layout of the headers of Linux. *)
From S2P Require Import Prelude Libc State.

(** ** Constants of the headers *)

Definition AF_NETLINK : Z := 16.
Definition SOCK_RAW : Z := 3.
Definition NETLINK_GENERIC : Z := 16.
Definition EAGAIN : Z := 11.
Definition NLM_F_REQUEST : Z := 1.
Definition NLMSG_ERROR : Z := 2.
Definition GENL_ID_CTRL : Z := 16.
Definition CTRL_CMD_GETFAMILY : Z := 3.
Definition CTRL_ATTR_FAMILY_ID : Z := 1.
Definition CTRL_ATTR_FAMILY_NAME : Z := 2.
Definition TASKSTATS_CMD_GET : Z := 1.
Definition TASKSTATS_CMD_ATTR_PID : Z := 1.
Definition TASKSTATS_TYPE_PID : Z := 1.
Definition TASKSTATS_TYPE_STATS : Z := 3.
Definition TASKSTATS_TYPE_AGGR_PID : Z := 4.
(** "TASKSTATS" and the final null byte. *)
Definition TASKSTATS_GENL_NAME : list Z := [84; 65; 83; 75; 83; 84; 65; 84; 83; 0].

Definition NLMSG_HDRLEN : Z := 16.
Definition GENL_HDRLEN : Z := 4.
Definition NLA_HDRLEN : Z := 4.
Definition MAX_MSG_SIZE : Z := 1024.
(** [sizeof(struct msgtemplate)]; the attributes start after the two headers. *)
Definition sizeof_msgtemplate : Z := NLMSG_HDRLEN + GENL_HDRLEN + MAX_MSG_SIZE.
Definition genlmsg_data : Z := NLMSG_HDRLEN + GENL_HDRLEN.
(** [ac_utime] and [ac_stime] in [struct taskstats]. *)
Definition off_utime : Z := 152.
Definition off_stime : Z := 160.

(** [NLA_ALIGN] and [NLMSG_ALIGN]. *)
Definition nla_align (len : Z) : Z := Z.land (len + 3) (Z.lnot 3).

(** [struct s_xbt_cpu_timer]. *)
Record cpu_timer := mk_timer { ct_pid : Z; ct_msg : list Z; ct_sd : Z; ct_id : Z }.

(** ** The socket *)

(** The operations return what the system call does, [nl_sendto] also [errno];
    [nl_recv] the bytes it stores. *)
Class Netlink := {
  NW : Type;
  nl_getpid : NW → Z;
  nl_socket : NW → Z → Z → Z → Z * NW;
  nl_bind : NW → Z → Z * NW;
  nl_close : NW → Z → NW;
  nl_sendto : NW → Z → list Z → (Z * Z) * NW;
  nl_recv : NW → Z → Z → (Z * list Z) * NW;
}.

(** What was written to the socket: a call takes the first bytes of its buffer, as many
    as it returns. *)
Class NetlinkLaws (Nl : Netlink) := {
  nl_sent : NW → list Z;
  nl_sendto_sent w sd buf r e w' : nl_sendto w sd buf = ((r, e), w') →
    r <= Z.of_nat (length buf) ∧ nl_sent w' = (nl_sent w ++ take (Z.to_nat r) buf)%list;
}.

Section Cputimer.
Context `{Nl : Netlink}.

(** A computation on the socket fails or returns a value. *)
Definition net (A : Type) : Type := NW → (A * NW) + failure.
Definition nret {A} (a : A) : net A := λ w, inl (a, w).
Definition nfail {A} (e : failure) : net A := λ _, inr e.
Definition nbind {A B} (m : net A) (f : A → net B) : net B := λ w,
  match m w with inl (a, w') => f a w' | inr e => inr e end.
Definition nop {A} (f : NW → A * NW) : net A := λ w, inl (f w).
Definition nassert (b : bool) : net unit := if b then nret tt else nfail Xbt_die.

Notation "x ← m ; k" := (nbind m (λ x, k)) (at level 20, m at level 100, k at level 200, right associativity).

Definition netlink_sock_new (protocol : Z) : net Z :=
  fd ← nop (λ w, nl_socket w AF_NETLINK SOCK_RAW protocol);
  if fd <? 0 then nret (-1) else
  r ← nop (λ w, nl_bind w fd);
  if 0 <=? r then nret fd else
  _ ← nop (λ w, (tt, nl_close w fd));
  nret (-1).

(** The message [netlink_sock_send] builds in its copy of [timer->msg]: the bytes it
    sends. [memcpy] must stay in the buffer. *)
Definition netlink_request (nlmsg_type genl_cmd nla_type : Z) (nla_data : list Z) (nla_len : Z)
    (timer : cpu_timer) : option (list Z) :=
  let len := u16 (nla_len + 1 + NLA_HDRLEN) in
  let nlmsg_len := u32 (NLMSG_HDRLEN + GENL_HDRLEN + nla_align len) in
  let header := (le_encode 4 nlmsg_len ++ le_encode 2 nlmsg_type ++ le_encode 2 NLM_F_REQUEST ++
    le_encode 4 0 ++ le_encode 4 (ct_pid timer))%list in
  let genl := (le_encode 1 genl_cmd ++ le_encode 1 0x1 ++ take 2 (drop 18 (ct_msg timer)))%list in
  let attr := (le_encode 2 len ++ le_encode 2 nla_type)%list in
  if MAX_MSG_SIZE - NLA_HDRLEN <? nla_len then None else
  let msg := (header ++ genl ++ attr ++ take (Z.to_nat nla_len) nla_data ++
    drop (Z.to_nat (24 + nla_len)) (ct_msg timer))%list in
  if sizeof_msgtemplate <? nlmsg_len then None else Some (take (Z.to_nat nlmsg_len) msg).

(** [while ((r = sendto(...)) < buflen)]. *)
Fixpoint send_loop (fuel : nat) (sd : Z) (buf : list Z) : net unit :=
  x ← nop (λ w, nl_sendto w sd buf);
  let '(r, errno) := x in
  if r <? Z.of_nat (length buf) then
    if 0 <? r then
      match fuel with O => nfail Out_of_fuel | S fuel => send_loop fuel sd (drop (Z.to_nat r) buf) end
    else if negb (errno =? EAGAIN) then nfail Xbt_die
    else match fuel with O => nfail Out_of_fuel | S fuel => send_loop fuel sd buf end
  else nret tt.

Definition netlink_sock_send (fuel : nat) (nlmsg_type genl_cmd nla_type : Z) (nla_data : list Z)
    (nla_len : Z) (timer : cpu_timer) : net unit :=
  match netlink_request nlmsg_type genl_cmd nla_type nla_data nla_len timer with
  | Some buf => send_loop fuel (ct_sd timer) buf
  | None => nfail Invalid_pointer
  end.

(** The [n] bytes at [off] of a buffer of [size] bytes, of which those of [l] were
    stored. *)
Definition read_at (size : Z) (l : list Z) (off : Z) (n : nat) : net Z :=
  if (off <? 0) || (size <? off + Z.of_nat n) then nfail Invalid_pointer else
  let b := take n (drop (Z.to_nat off) l) in
  if Nat.eqb (length b) n then nret (le_decode b) else nfail Uninitialised.

(** [NLMSG_OK]. *)
Definition nlmsg_ok (nlmsg_len len : Z) : bool :=
  (NLMSG_HDRLEN <=? len) && (NLMSG_HDRLEN <=? nlmsg_len) && (nlmsg_len <=? u32 len).

(** The buffer for the answer has 276 bytes. *)
Definition get_family_id (fuel : nat) (timer : cpu_timer) : net Z :=
  _ ← netlink_sock_send fuel GENL_ID_CTRL CTRL_CMD_GETFAMILY CTRL_ATTR_FAMILY_NAME
        TASKSTATS_GENL_NAME 10 timer;
  let size := NLMSG_HDRLEN + GENL_HDRLEN + 256 in
  x ← nop (λ w, nl_recv w (ct_sd timer) size);
  let '(rep_len, ans) := x in
  _ ← nassert (0 <=? rep_len);
  type ← read_at size ans 4 2;
  _ ← nassert (negb (type =? NLMSG_ERROR));
  nlmsg_len ← read_at size ans 0 4;
  _ ← nassert (nlmsg_ok nlmsg_len rep_len);
  nla_len ← read_at size ans genlmsg_data 2;
  let na := genlmsg_data + nla_align nla_len in
  nla_type ← read_at size ans (na + 2) 2;
  if nla_type =? CTRL_ATTR_FAMILY_ID then read_at size ans (na + NLA_HDRLEN) 2
  else nret 0.

Definition cputimer_new : cpu_timer := mk_timer 0 (repeat 0 (Z.to_nat sizeof_msgtemplate)) 0 0.

Definition cputimer_init (fuel : nat) (timer : cpu_timer) : net cpu_timer :=
  pid ← nop (λ w, (nl_getpid w, w));
  sd ← netlink_sock_new NETLINK_GENERIC;
  let timer := mk_timer pid (ct_msg timer) sd (ct_id timer) in
  _ ← nassert (0 <=? sd);
  id ← get_family_id fuel timer;
  _ ← nassert (negb (id =? 0));
  nret (mk_timer pid (repeat 0 (Z.to_nat sizeof_msgtemplate)) sd id).

Definition cputimer_exit (timer : cpu_timer) : net unit := nop (λ w, (tt, nl_close w (ct_sd timer))).

(** The inner loop of [cputimer_get], over the attributes nested in one; [na] is the
    place of the current one. *)
Fixpoint nested_loop (fuel : nat) (msg : list Z) (na len2 aggr_len : Z) (times : list Z) : net (list Z) :=
  if len2 <? aggr_len then
    match fuel with
    | O => nfail Out_of_fuel
    | S fuel =>
      nla_type ← read_at sizeof_msgtemplate msg (na + 2) 2;
      times ← (if nla_type =? TASKSTATS_TYPE_PID then nret times
               else if nla_type =? TASKSTATS_TYPE_STATS then
                 utime ← read_at sizeof_msgtemplate msg (na + NLA_HDRLEN + off_utime) 8;
                 stime ← read_at sizeof_msgtemplate msg (na + NLA_HDRLEN + off_stime) 8;
                 nret (<[2%nat := s64 stime]> (<[1%nat := s64 utime]> times))
               else nret times);
      nla_len ← read_at sizeof_msgtemplate msg na 2;
      let len2 := s32 (len2 + nla_align nla_len) in
      nested_loop fuel msg (na + len2) len2 aggr_len times
    end
  else nret times.

(** The outer one; [len] is how far the attributes were read. *)
Fixpoint attr_loop (fuel : nat) (msg : list Z) (na len rep_len : Z) (times : list Z) : net (list Z) :=
  if len <? rep_len then
    match fuel with
    | O => nfail Out_of_fuel
    | S fuel' =>
      nla_len ← read_at sizeof_msgtemplate msg na 2;
      let len := s32 (len + nla_align nla_len) in
      nla_type ← read_at sizeof_msgtemplate msg (na + 2) 2;
      times ← (if nla_type =? TASKSTATS_TYPE_AGGR_PID
               then nested_loop fuel msg (na + NLA_HDRLEN) 0 (nla_len - NLA_HDRLEN) times
               else nret times);
      attr_loop fuel' msg (genlmsg_data + len) len rep_len times
    end
  else nret times.

Definition cputimer_get (fuel : nat) (tid : Z) (times : list Z) (timer : cpu_timer) : net (list Z) :=
  _ ← netlink_sock_send fuel (ct_id timer) TASKSTATS_CMD_GET TASKSTATS_CMD_ATTR_PID
        (le_encode 4 tid) 4 timer;
  x ← nop (λ w, nl_recv w (ct_sd timer) sizeof_msgtemplate);
  let '(rep_len, msg) := x in
  _ ← nassert (0 <=? rep_len);
  type ← read_at sizeof_msgtemplate msg 4 2;
  _ ← nassert (negb (type =? NLMSG_ERROR));
  nlmsg_len ← read_at sizeof_msgtemplate msg 0 4;
  _ ← nassert (nlmsg_ok nlmsg_len rep_len);
  attr_loop fuel msg genlmsg_data 0 (s32 (nlmsg_len - NLMSG_HDRLEN - GENL_HDRLEN)) times.

(** ** Steps of a computation *)

Lemma nbind_eval {A B} (m : net A) (f : A → net B) w a w' o :
  m w = inl (a, w') → f a w' = o → nbind m f w = o.
Proof. intros H <-. unfold nbind. by rewrite H. Qed.
Lemma nassert_eval b w : b = true → nassert b w = inl (tt, w).
Proof. by intros ->. Qed.

(** A message in pieces, one of which is read. *)
Lemma read_piece size (ps : list (list Z)) k b off n w :
  ps !! k = Some b → off = Z.of_nat (length (concat (take k ps))) → length b = n → off + Z.of_nat n <= size →
  read_at size (concat ps) off n w = inl (le_decode b, w).
Proof.
  intros Hk -> Hn Hs. unfold read_at. rewrite (proj2 (Z.ltb_ge _ 0)), (proj2 (Z.ltb_ge size _)) by lia. cbn [orb].
  assert (take n (drop (length (concat (take k ps))) (concat ps)) = b) as E.
  { rewrite <- (take_drop_middle _ _ _ Hk) at 2. rewrite concat_app. cbn [concat].
    by rewrite drop_app_length, take_app_length'. }
  rewrite Nat2Z.id. cbv zeta. rewrite E, Hn, Nat.eqb_refl. done.
Qed.

(** ** Sending *)

Context `{!NetlinkLaws Nl}.

(** Every call of [nl_sendto] writes something. *)
Definition eager : Prop := ∀ w sd buf, buf ≠ [] → 0 < (nl_sendto w sd buf).1.1.

Lemma send_loop_eval : eager → ∀ fuel sd buf w, buf ≠ [] → (length buf <= fuel)%nat →
  ∃ w', send_loop fuel sd buf w = inl (tt, w') ∧ nl_sent w' = (nl_sent w ++ buf)%list.
Proof.
  intros He. induction fuel as [|fuel IH]; intros sd buf w Hb Hf; [by destruct buf; cbn in Hf; [|lia]|].
  cbn [send_loop]. unfold nbind at 1, nop. destruct (nl_sendto w sd buf) as [[r e] w1] eqn:E.
  pose proof (He w sd buf Hb) as Hr. rewrite E in Hr. cbn in Hr.
  destruct (nl_sendto_sent w sd buf r e w1 E) as [Hle Hs]. destruct (Z.ltb_spec r (Z.of_nat (length buf))).
  - rewrite (proj2 (Z.ltb_lt 0 r)) by done.
    destruct (IH sd (drop (Z.to_nat r) buf) w1) as (w' & E' & Hs').
    + intros Hd. apply (f_equal length) in Hd. rewrite length_drop in Hd. cbn in Hd. lia.
    + rewrite length_drop. lia.
    + exists w'. split; [done|]. by rewrite Hs', Hs, <- app_assoc, take_drop.
  - exists w1. split; [done|]. by rewrite Hs, take_ge by lia.
Qed.

(** ** The messages of the kernel *)

(** An attribute, and a message with the headers of netlink and of the family. *)
Definition attr (type : Z) (payload : list Z) : list (list Z) :=
  [le_encode 2 (4 + Z.of_nat (length payload)); le_encode 2 type; payload].
Definition message (type flags seq pid : Z) (genl : list Z) (body : list (list Z)) : list (list Z) :=
  [le_encode 4 (20 + Z.of_nat (length (concat body))); le_encode 2 type; le_encode 2 flags;
   le_encode 4 seq; le_encode 4 pid; genl] ++ body.

(** The request for a thread: its attribute, which counts a byte too many, is padded. *)
Definition taskstats_request (id pid tid : Z) : list Z :=
  concat (message id NLM_F_REQUEST 0 pid [TASKSTATS_CMD_GET; 1; 0; 0]
    [le_encode 2 9; le_encode 2 TASKSTATS_CMD_ATTR_PID; le_encode 4 tid; [0; 0; 0; 0]]).

Lemma netlink_request_eval timer tid :
  ct_msg timer = repeat 0 (Z.to_nat sizeof_msgtemplate) →
  netlink_request (ct_id timer) TASKSTATS_CMD_GET TASKSTATS_CMD_ATTR_PID (le_encode 4 tid) 4 timer =
    Some (taskstats_request (ct_id timer) (ct_pid timer) tid).
Proof.
  intros Hm. unfold netlink_request. rewrite Hm. cbv zeta.
  assert (drop (Z.to_nat (24 + 4)) (repeat 0 (Z.to_nat sizeof_msgtemplate)) = [0; 0; 0; 0] ++ repeat 0 1012)%list as ->
    by (vm_compute; reflexivity).
  assert (take 2 (drop 18 (repeat 0 (Z.to_nat sizeof_msgtemplate))) = [0; 0]) as -> by (vm_compute; reflexivity).
  change (u16 (4 + 1 + NLA_HDRLEN)) with 9.
  change (u32 (NLMSG_HDRLEN + GENL_HDRLEN + nla_align 9)) with 32. cbn [Z.ltb].
  change (MAX_MSG_SIZE - NLA_HDRLEN <? 4) with false. change (sizeof_msgtemplate <? 32) with false. cbv iota.
  reflexivity.
Qed.

(** The answer of the kernel: an attribute with two nested ones, the number of the
    thread and its statistics. *)
Definition taskstats_reply (type flags seq pid : Z) (genl : list Z) (tid : Z) (stats : list Z) : list Z :=
  concat (message type flags seq pid genl
    (attr TASKSTATS_TYPE_AGGR_PID
      (concat (attr TASKSTATS_TYPE_PID (le_encode 4 tid) ++ attr TASKSTATS_TYPE_STATS stats)%list))).

Definition reply_pieces (type flags seq pid : Z) (genl : list Z) (tid : Z) (stats : list Z) : list (list Z) :=
  let n := Z.of_nat (length stats) in
  [le_encode 4 (36 + n); le_encode 2 type; le_encode 2 flags; le_encode 4 seq; le_encode 4 pid; genl;
   le_encode 2 (16 + n); le_encode 2 4; le_encode 2 8; le_encode 2 1; le_encode 4 tid;
   le_encode 2 (4 + n); le_encode 2 3; take 152 stats; take 8 (drop 152 stats); take 8 (drop 160 stats);
   drop 168 stats].

Lemma reply_in_pieces type flags seq pid genl tid stats :
  taskstats_reply type flags seq pid genl tid stats = concat (reply_pieces type flags seq pid genl tid stats).
Proof.
  unfold taskstats_reply, message, attr, reply_pieces. cbv zeta. set (n := length stats).
  cbn [concat app]. rewrite !app_nil_r, !length_app, !length_le_encode. fold n.
  replace (20 + Z.of_nat (2 + (2 + (2 + (2 + (4 + (2 + (2 + n)))))))) with (36 + Z.of_nat n) by lia.
  replace (4 + Z.of_nat (2 + (2 + (4 + (2 + (2 + n)))))) with (16 + Z.of_nat n) by lia.
  do 13 f_equal. symmetry.
  rewrite <- (take_drop 152 stats) at 5. f_equal. rewrite <- (take_drop 8 (drop 152 stats)) at 2. f_equal.
  rewrite drop_drop. rewrite <- (take_drop 8 (drop (152 + 8) stats)) at 1. f_equal. by rewrite drop_drop.
Qed.

(** The length of a message. *)
Ltac lens := repeat (progress (cbn [length]; rewrite ?length_app, ?length_le_encode, ?length_take, ?length_drop)).
(** [read k] reads the piece [k] of the message. *)
Ltac sizes := unfold sizeof_msgtemplate, genlmsg_data, NLMSG_HDRLEN, GENL_HDRLEN, NLA_HDRLEN, MAX_MSG_SIZE, off_utime,
    off_stime, TASKSTATS_GENL_NAME;
  cbn [take concat app]; lens; lia.
Ltac read k := eapply nbind_eval;
  [eapply (read_piece _ _ k); [reflexivity|sizes..]|]; cbv beta.

Lemma attr_loop_eval type flags seq pid g0 g1 g2 g3 tid stats times w fuel :
  168 <= Z.of_nat (length stats) <= 1008 → Z.of_nat (length stats) mod 4 = 0 → (3 <= fuel)%nat →
  attr_loop fuel (concat (reply_pieces type flags seq pid [g0; g1; g2; g3] tid stats)) genlmsg_data 0
    (16 + Z.of_nat (length stats)) times w =
  inl (<[2%nat := s64 (le_decode (take 8 (drop 160 stats)))]>
    (<[1%nat := s64 (le_decode (take 8 (drop 152 stats)))]> times), w).
Proof.
  intros Hl Hm Hf. unfold reply_pieces. cbv zeta. set (n := Z.of_nat (length stats)) in *.
  destruct fuel as [|[|[|fuel]]]; [lia..|]. cbn [attr_loop]. rewrite (proj2 (Z.ltb_lt 0 _)) by lia.
  assert (∀ v, 0 <= v < 65536 → le_decode (le_encode 2 v) = v) as D2.
  { intros v Hv. rewrite le_decode_encode. by apply Z.mod_small. }
  assert (∀ v, 0 <= v <= 2000 → v mod 4 = 0 → nla_align v = v) as Al.
  { intros v Hv H4. unfold nla_align. replace (Z.lnot 3) with (Z.lnot (Z.ones 2)) by done.
    rewrite <- Z.ldiff_land, Z.ldiff_ones_r, Z.shiftr_div_pow2, Z.shiftl_mul_pow2 by done.
    change (2 ^ 2) with 4. Z.to_euclidean_division_equations. lia. }
  assert (∀ v, 0 <= v <= 4000 → s32 v = v) as S by (intros v Hv; apply swrap_small; [done|unfold is_s; lia]).
  assert ((16 + n) mod 4 = 0 ∧ (4 + n) mod 4 = 0) as [M16 M4] by (Z.to_euclidean_division_equations; lia).
  read 6%nat. rewrite D2, Al, Z.add_0_l, S by (done || lia). read 7%nat. rewrite D2 by done. cbn [Z.eqb].
  change (4 =? TASKSTATS_TYPE_AGGR_PID) with true. cbv iota.
  replace (16 + n - NLA_HDRLEN) with (12 + n) by (unfold NLA_HDRLEN; lia).
  eapply nbind_eval.
  { cbn [nested_loop]. rewrite (proj2 (Z.ltb_lt 0 _)) by lia. read 9%nat. rewrite D2 by done.
    change (1 =? TASKSTATS_TYPE_PID) with true. cbv iota. eapply nbind_eval; [done|]. cbv beta.
    read 8%nat. rewrite D2, Al, Z.add_0_l, S by done. rewrite (proj2 (Z.ltb_lt 8 _)) by lia.
    read 12%nat. rewrite D2 by done. change (3 =? TASKSTATS_TYPE_PID) with false.
    change (3 =? TASKSTATS_TYPE_STATS) with true. cbv iota.
    eapply nbind_eval.
    { read 14%nat. read 15%nat. reflexivity. }
    cbv beta. read 11%nat. rewrite D2, Al, S by (done || lia). rewrite (proj2 (Z.ltb_ge _ _)) by lia. reflexivity. }
  cbv beta. by rewrite (proj2 (Z.ltb_ge _ _)) by lia.
Qed.

Lemma taskstats_request_size id pid tid : length (taskstats_request id pid tid) = 32%nat.
Proof. unfold taskstats_request, message. cbn [concat app]. by rewrite !length_app, !length_le_encode. Qed.

(** ** Property *)

(** C29: [cputimer_get] on the answer of the kernel. Over a socket that may take the
    request in any number of parts it sends exactly the request for the thread, and of
    an answer with the number and the statistics of the thread, of any version at least
    as long as the fields it reads, it stores the user and the system time, and stops. *)
Theorem cputimer_get_times fuel tid times timer w type flags seq pid g0 g1 g2 g3 stats :
  let reply := taskstats_reply type flags seq pid [g0; g1; g2; g3] tid stats in
  let request := taskstats_request (ct_id timer) (ct_pid timer) tid in
  eager → ct_msg timer = repeat 0 (Z.to_nat sizeof_msgtemplate) → (32 <= fuel)%nat →
  is_u 16 type → type ≠ NLMSG_ERROR →
  168 <= Z.of_nat (length stats) <= 1008 → Z.of_nat (length stats) mod 4 = 0 →
  (∀ w1, nl_sent w1 = (nl_sent w ++ request)%list →
    (nl_recv w1 (ct_sd timer) sizeof_msgtemplate).1 = (Z.of_nat (length reply), reply)) →
  ∃ w1, nl_sent w1 = (nl_sent w ++ request)%list ∧
    cputimer_get fuel tid times timer w =
      inl (<[2%nat := s64 (le_decode (take 8 (drop 160 stats)))]>
        (<[1%nat := s64 (le_decode (take 8 (drop 152 stats)))]> times),
        (nl_recv w1 (ct_sd timer) sizeof_msgtemplate).2).
Proof.
  intros reply request He Hm Hf Ht Hne Hl Hmod Hrecv.
  destruct (send_loop_eval He fuel (ct_sd timer) request w) as (w1 & E1 & Hs).
  { intros E. apply (f_equal length) in E. unfold request in E. by rewrite taskstats_request_size in E. }
  { unfold request. by rewrite taskstats_request_size. }
  exists w1. split; [done|]. specialize (Hrecv w1 Hs). set (n := Z.of_nat (length stats)) in *.
  assert (reply = concat (reply_pieces type flags seq pid [g0; g1; g2; g3] tid stats)) as Hp by apply reply_in_pieces.
  assert (Z.of_nat (length reply) = 36 + n) as Hlen.
  { rewrite Hp. unfold reply_pieces. cbv zeta. cbn [concat]. rewrite !length_app, !length_le_encode,
      !length_take, !length_drop. cbn [length]. unfold n. lia. }
  unfold cputimer_get, netlink_sock_send. rewrite netlink_request_eval by done. eapply nbind_eval; [exact E1|]. cbv beta.
  destruct (nl_recv w1 (ct_sd timer) sizeof_msgtemplate) as [x w2] eqn:Er.
  cbn [fst] in Hrecv. rewrite Hlen, Hp in Hrecv. subst x.
  eapply nbind_eval; [unfold nop; by rewrite Er|]. cbv beta iota zeta.
  eapply nbind_eval; [apply nassert_eval, Z.leb_le; lia|]. cbv beta. unfold reply_pieces. cbv zeta.
  read 1%nat. eapply nbind_eval.
  { apply nassert_eval, negb_true_iff, Z.eqb_neq. rewrite le_decode_encode. rewrite Z.mod_small; done. }
  cbv beta. read 0%nat. rewrite le_decode_encode, Z.mod_small by (fold n; lia). fold n.
  eapply nbind_eval.
  { apply nassert_eval. unfold nlmsg_ok, NLMSG_HDRLEN. unfold uwrap. rewrite Z.mod_small by lia.
    by rewrite (proj2 (Z.leb_le 16 _)), Z.leb_refl by lia. }
  cbv beta. replace (36 + n - NLMSG_HDRLEN - GENL_HDRLEN) with (16 + n) by (unfold NLMSG_HDRLEN, GENL_HDRLEN; lia).
  replace (s32 (16 + n)) with (16 + n) by (symmetry; apply swrap_small; [done|unfold is_s; lia]).
  apply attr_loop_eval; [done|done|lia].
Qed.

(** An attribute of length 0 stops the loop over the attributes where it is, for ever. *)
Lemma attr_loop_stuck type flags seq pid g0 g1 g2 g3 t more rep_len times w fuel :
  is_u 16 t → 0 < rep_len → Z.of_nat (length more) <= 1020 →
  attr_loop fuel (concat (message type flags seq pid [g0; g1; g2; g3] [le_encode 2 0; le_encode 2 t; more]))
    genlmsg_data 0 rep_len times w = inr Out_of_fuel.
Proof.
  intros Ht Hr Hm. unfold message. cbn [app]. revert times.
  induction fuel as [|fuel IH]; intros times; cbn [attr_loop]; rewrite (proj2 (Z.ltb_lt 0 _)) by lia; [done|].
  read 6%nat. rewrite le_decode_encode. change (0 mod 256 ^ Z.of_nat 2) with 0.
  change (s32 (0 + nla_align 0)) with 0. read 7%nat. eapply nbind_eval; [|cbv beta; apply IH].
  by destruct (_ =? TASKSTATS_TYPE_AGGR_PID).
Qed.

(** The answer of the controller: the name of the family, then its number. *)
Definition family_reply (type flags seq pid : Z) (genl : list Z) (id : Z) (more : list Z) : list Z :=
  concat (message type flags seq pid genl
    (attr CTRL_ATTR_FAMILY_NAME TASKSTATS_GENL_NAME ++ [[0; 0]] ++ attr CTRL_ATTR_FAMILY_ID (le_encode 2 id) ++
     [more])).

Lemma get_family_id_eval fuel timer w type flags seq pid g0 g1 g2 g3 id more :
  let reply := family_reply type flags seq pid [g0; g1; g2; g3] id more in
  eager → ct_msg timer = repeat 0 (Z.to_nat sizeof_msgtemplate) → (36 <= fuel)%nat →
  is_u 16 type → type ≠ NLMSG_ERROR → is_u 16 id → (length more <= 230)%nat →
  (∀ w1, (nl_recv w1 (ct_sd timer) 276).1 = (Z.of_nat (length reply), reply)) →
  ∃ w1, get_family_id fuel timer w = inl (id, w1).
Proof.
  intros reply He Hm Hf Ht Hne Hid Hmore Hrecv.
  assert (∃ buf, netlink_request GENL_ID_CTRL CTRL_CMD_GETFAMILY CTRL_ATTR_FAMILY_NAME TASKSTATS_GENL_NAME 10 timer
    = Some buf ∧ length buf = 36%nat) as (buf & Eb & Hb).
  { unfold netlink_request. rewrite Hm. eexists. split; reflexivity. }
  destruct (send_loop_eval He fuel (ct_sd timer) buf w) as (w1 & E1 & _); [by intros ->|by rewrite Hb|].
  specialize (Hrecv w1). destruct (nl_recv w1 (ct_sd timer) 276) as [x w2] eqn:Er. cbn [fst] in Hrecv. subst x.
  exists w2. assert (length reply = (42 + length more)%nat) as Hlen.
  { unfold reply, family_reply, message, attr. cbn [concat app]. rewrite app_nil_r. unfold TASKSTATS_GENL_NAME. lens. lia. }
  unfold get_family_id, netlink_sock_send. rewrite Eb. eapply nbind_eval; [exact E1|]. cbv beta zeta.
  eapply nbind_eval; [unfold nop; exact (f_equal inl Er)|]. cbv beta iota zeta.
  eapply nbind_eval; [apply nassert_eval, Z.leb_le; lia|]. cbv beta. rewrite !Hlen.
  unfold reply, family_reply, message, attr. cbn [app].
  assert (∀ v, is_u 16 v → le_decode (le_encode 2 v) = v) as D2.
  { intros v Hv. rewrite le_decode_encode. by apply Z.mod_small. }
  read 1%nat. rewrite D2 by done. eapply nbind_eval; [by apply nassert_eval, negb_true_iff, Z.eqb_neq|]. cbv beta.
  read 0%nat. rewrite le_decode_encode.
  match goal with |- context [20 + Z.of_nat ?n] => replace n with (22 + length more)%nat end.
  2:{ cbn [concat]. rewrite app_nil_r. unfold TASKSTATS_GENL_NAME. lens. lia. }
  rewrite Z.mod_small by lia. eapply nbind_eval.
  { apply nassert_eval. unfold nlmsg_ok, NLMSG_HDRLEN, uwrap. rewrite Z.mod_small by lia.
    repeat (apply andb_true_intro; split); apply Z.leb_le; lia. }
  cbv beta. read 6%nat. rewrite D2 by done. change (nla_align _) with 16. read 11%nat. rewrite D2 by done.
  change (CTRL_ATTR_FAMILY_ID =? CTRL_ATTR_FAMILY_ID) with true. cbv iota.
  etransitivity; [apply (read_piece _ _ 12); [reflexivity|sizes..]|]. by rewrite D2.
Qed.

End Cputimer.

(** ** An example *)

(** A socket that takes five bytes at a time and answers with the statistics of the
    thread 7, in which 1234 and 56 microseconds were spent. *)
Definition example_stats : list Z :=
  repeat 0 152 ++ le_encode 8 1234 ++ le_encode 8 56 ++ repeat 0 160.
Definition example_reply : list Z := taskstats_reply 28 0 0 7 [1; 1; 0; 0] 7 example_stats.
Definition toy_netlink : Netlink :=
  {| NW := list Z; nl_getpid := λ _, 7; nl_socket := λ w _ _ _, (3, w); nl_bind := λ w _, (0, w);
     nl_close := λ w _, w;
     nl_sendto := λ w _ buf, ((Z.of_nat (min 5 (length buf)), 0), w ++ take 5 buf)%list;
     nl_recv := λ w _ _, ((Z.of_nat (length example_reply), example_reply), w) |}.
#[export] Instance toy_netlink_laws : NetlinkLaws toy_netlink.
Proof.
  exists (λ w, w). intros w sd buf r e w' H.
  change (((Z.of_nat (min 5 (length buf)), 0), (w ++ take 5 buf)%list) = ((r, e), w')) in H.
  assert (r = Z.of_nat (min 5 (length buf)) ∧ w' = w ++ take 5 buf)%list as [-> ->] by (split; congruence).
  rewrite Nat2Z.id. split; [apply Nat2Z.inj_le, Nat.le_min_r|]. f_equal.
  destruct (Nat.le_ge_cases 5 (length buf)) as [Hl|Hl].
  - by rewrite Nat.min_l.
  - rewrite Nat.min_r by done. by rewrite (take_ge buf 5), firstn_all.
Defined.

Lemma cputimer_get_times_witness :
  ∃ w1, nl_sent (Nl := toy_netlink) w1 = taskstats_request 28 7 7 ∧
    cputimer_get (Nl := toy_netlink) 40 7 [0; 0; 0] (mk_timer 7 (ct_msg cputimer_new) 3 28) [] =
      inl ([0; 1234; 56], w1).
Proof.
  destruct (cputimer_get_times (Nl := toy_netlink) 40 7 [0; 0; 0] (mk_timer 7 (ct_msg cputimer_new) 3 28) [] 28 0 0 7
    1 1 0 0 example_stats) as (w1 & Hs & E); [|reflexivity|lia|split; by vm_compute|by vm_compute| |reflexivity|done|].
  - intros w sd buf Hb. destruct buf; [done|]. cbn. lia.
  - split; by vm_compute.
  - exists w1. split; [exact Hs|]. rewrite E. reflexivity.
Defined.
