(* ===== verification/Monad.v ===== *)
(** The state, failure and yield monad of the development: composition, access to
    the stores, and the two proof tools the components use: [runs] (a computation
    returns without blocking) and [preserves] (an invariant holds at the end and
    at every point where the computation yields). *)
From S2P Require Import Prelude External State.

Declare Scope sim_scope.
Delimit Scope sim_scope with sim.

Section Monad.
Context `{X : Xbt} `{Wd : World}.

Fixpoint obind {A B} (o : outcome A) (f : A → M B) : outcome B :=
  match o with
  | Done a s => f a s
  | Failed e s => Failed e s
  | Block r s k => Block r s (λ x s', obind (k x s') f)
  end.

Definition bind {A B} (m : M A) (f : A → M B) : M B := λ s, obind (m s) f.
Definition ret {A} (a : A) : M A := λ s, Done a s.
Definition fail {A} (e : failure) : M A := λ s, Failed e s.
Definition gets {A} (f : st → A) : M A := λ s, Done (f s) s.
Definition modify (f : st → st) : M unit := λ s, Done tt (f s).
Definition block (r : request) : M (answer r) := λ s, Block r s (λ x s', Done x s').

(** A partial operation of an external library: [None] is the failure [e]. *)
Definition of_option {A} (e : failure) (o : option A) : M A :=
  match o with Some a => ret a | None => fail e end.

Definition when (b : bool) (m : M unit) : M unit := if b then m else ret tt.

(** ** Access to the stores *)

Definition load {A} (sel : st → gmap Z A) (p : Z) : M A := λ s,
  match sel s !! p with Some v => Done v s | None => Failed Invalid_pointer s end.

Definition get_proc (p : Z) : M process_descriptor := load st_proc p.
Definition get_comm (p : Z) : M comm := load st_comm p.
Definition get_recv (p : Z) : M recv_information := load st_recv p.
Definition get_pipe (p : Z) : M pipe := load st_pipe p.
Definition get_stream (p : Z) : M stream := load st_stream p.

(** A descriptor is reached through a pointer to it or to the socket that
    contains it; a socket only through a pointer to a socket. *)
Definition get_fd_obj (p : Z) : M fd_object := load st_fd p.
Definition get_fd (p : Z) : M fd_descriptor := bind (get_fd_obj p) (λ o, ret (fd_of o)).
Definition get_sock (p : Z) : M infos_socket := bind (get_fd_obj p) (λ o,
  match o with FdSock i => ret i | FdPlain _ => fail Bad_cast end).

Definition put_proc (p : Z) (v : process_descriptor) : M unit :=
  modify (λ s, set_proc (<[p := v]> (st_proc s)) s).
Definition put_comm (p : Z) (v : comm) : M unit :=
  modify (λ s, set_comm (<[p := v]> (st_comm s)) s).
Definition put_recv (p : Z) (v : recv_information) : M unit :=
  modify (λ s, set_recv (<[p := v]> (st_recv s)) s).
Definition put_pipe (p : Z) (v : pipe) : M unit :=
  modify (λ s, set_pipe (<[p := v]> (st_pipe s)) s).
Definition put_stream (p : Z) (v : stream) : M unit :=
  modify (λ s, set_stream (<[p := v]> (st_stream s)) s).
Definition put_fd_obj (p : Z) (v : fd_object) : M unit :=
  modify (λ s, set_fd (<[p := v]> (st_fd s)) s).

Definition upd_proc p f : M unit := bind (get_proc p) (λ v, put_proc p (f v)).
Definition upd_comm p f : M unit := bind (get_comm p) (λ v, put_comm p (f v)).
Definition upd_recv p f : M unit := bind (get_recv p) (λ v, put_recv p (f v)).
Definition upd_pipe p f : M unit := bind (get_pipe p) (λ v, put_pipe p (f v)).
Definition upd_stream p f : M unit := bind (get_stream p) (λ v, put_stream p (f v)).
Definition upd_fd p f : M unit := bind (get_fd_obj p) (λ v, put_fd_obj p (fd_update f v)).
Definition upd_sock p f : M unit := bind (get_sock p) (λ v, put_fd_obj p (FdSock (f v))).

(** [xbt_malloc0] and friends: a fresh address; they do not return [NULL]. *)
Definition fresh : M Z := λ s, Done (st_next s) (set_next (st_next s + 1) s).
Definition alloc_proc v : M Z := bind fresh (λ p, bind (put_proc p v) (λ _, ret p)).
Definition alloc_comm v : M Z := bind fresh (λ p, bind (put_comm p v) (λ _, ret p)).
Definition alloc_recv v : M Z := bind fresh (λ p, bind (put_recv p v) (λ _, ret p)).
Definition alloc_pipe v : M Z := bind fresh (λ p, bind (put_pipe p v) (λ _, ret p)).
Definition alloc_stream v : M Z := bind fresh (λ p, bind (put_stream p v) (λ _, ret p)).
Definition alloc_fd v : M Z := bind fresh (λ p, bind (put_fd_obj p v) (λ _, ret p)).

(** [free]: the object must be live. *)
Definition free_fd p : M unit := bind (get_fd_obj p) (λ _, modify (λ s, set_fd (delete p (st_fd s)) s)).
Definition free_comm p : M unit := bind (get_comm p) (λ _, modify (λ s, set_comm (delete p (st_comm s)) s)).
Definition free_recv p : M unit := bind (get_recv p) (λ _, modify (λ s, set_recv (delete p (st_recv s)) s)).
Definition free_pipe p : M unit := bind (get_pipe p) (λ _, modify (λ s, set_pipe (delete p (st_pipe s)) s)).
Definition free_proc p : M unit := bind (get_proc p) (λ _, modify (λ s, set_proc (delete p (st_proc s)) s)).

(** An operation on the external world. *)
Definition on_world {A} (e : failure) (f : W → option (A * W)) : M A := λ s,
  match f (st_w s) with Some (a, w) => Done a (set_w w s) | None => Failed e s end.
Definition ask_world {A} (e : failure) (f : W → option A) : M A := λ s,
  match f (st_w s) with Some a => Done a s | None => Failed e s end.
Definition upd_world (e : failure) (f : W → option W) : M unit := λ s,
  match f (st_w s) with Some w => Done tt (set_w w s) | None => Failed e s end.

(** ** The heap *)

(** The objects of a store lie below the next free address, and none at [NULL]. *)
Definition bounded {A} (n : Z) (m : gmap Z A) : Prop := ∀ a, is_Some (m !! a) → 0 < a < n.

Record heap_ok (s : st) : Prop := {
  ho_next : 0 < st_next s;
  ho_proc : bounded (st_next s) (st_proc s);
  ho_fd : bounded (st_next s) (st_fd s);
  ho_comm : bounded (st_next s) (st_comm s);
  ho_recv : bounded (st_next s) (st_recv s);
  ho_pipe : bounded (st_next s) (st_pipe s);
  ho_stream : bounded (st_next s) (st_stream s);
}.

Lemma bounded_insert {A} n (m : gmap Z A) a v : bounded n m → 0 < a < n → bounded n (<[a := v]> m).
Proof.
  intros H Ha b. destruct (decide (b = a)) as [-> |Hb]; [done|].
  rewrite lookup_insert_ne by done. apply H.
Qed.
Lemma bounded_delete {A} n (m : gmap Z A) a : bounded n m → bounded n (delete a m).
Proof. intros H b Hb. apply H. by apply lookup_delete_is_Some in Hb as [_ ?]. Qed.
Lemma bounded_weaken {A} n k (m : gmap Z A) : bounded n m → n <= k → bounded k m.
Proof. intros H Hk a Ha. specialize (H a Ha). lia. Qed.
Lemma bounded_fresh {A} n (m : gmap Z A) : bounded n m → m !! n = None.
Proof. intros H. destruct (m !! n) eqn:E; [|done]. specialize (H n (ex_intro _ _ E)). lia. Qed.
Lemma bounded_null {A} n (m : gmap Z A) : bounded n m → m !! NULL = None.
Proof. intros H. destruct (m !! NULL) eqn:E; [|done]. specialize (H NULL (ex_intro _ _ E)). unfold NULL in H. lia. Qed.

(** ** Computations that return *)

Definition runs {A} (m : M A) (s : st) (Q : A → st → Prop) : Prop :=
  ∃ a s', m s = Done a s' ∧ Q a s'.

Lemma bind_done {A B} (m : M A) (f : A → M B) s a s' :
  m s = Done a s' → bind m f s = f a s'.
Proof. intros H; unfold bind; by rewrite H. Qed.

(** One step of the evaluation of a computation: the first operation of a sequence
    returns and the rest gives the outcome. *)
Lemma bind_eval {A B} (m : M A) (f : A → M B) s a s' o :
  m s = Done a s' → f a s' = o → bind m f s = o.
Proof. intros H <-. by apply bind_done. Qed.

Lemma ret_eval {A} (a : A) s : ret a s = Done a s.
Proof. done. Qed.
Lemma gets_eval {A} (f : st → A) s : gets f s = Done (f s) s.
Proof. done. Qed.
Lemma modify_eval f s : modify f s = Done tt (f s).
Proof. done. Qed.
Lemma load_eval {A} (sel : st → gmap Z A) p v s : sel s !! p = Some v → load sel p s = Done v s.
Proof. intros H. unfold load. by rewrite H. Qed.
Lemma load_invalid {A} (sel : st → gmap Z A) p s :
  sel s !! p = None → load sel p s = Failed Invalid_pointer s.
Proof. intros H. unfold load. by rewrite H. Qed.
Lemma of_option_eval {A} e (o : option A) a s : o = Some a → of_option e o s = Done a s.
Proof. by intros ->. Qed.
Lemma ask_world_eval {A} e (f : W → option A) a s : f (st_w s) = Some a → ask_world e f s = Done a s.
Proof. intros H. unfold ask_world. by rewrite H. Qed.
Lemma upd_world_eval e (f : W → option W) w s :
  f (st_w s) = Some w → upd_world e f s = Done tt (set_w w s).
Proof. intros H. unfold upd_world. by rewrite H. Qed.
Lemma on_world_eval {A} e (f : W → option (A * W)) a w s :
  f (st_w s) = Some (a, w) → on_world e f s = Done a (set_w w s).
Proof. intros H. unfold on_world. by rewrite H. Qed.

Lemma get_fd_eval s p o : st_fd s !! p = Some o → get_fd p s = Done (fd_of o) s.
Proof. intros H. unfold get_fd, bind, get_fd_obj, load. by rewrite H. Qed.
Lemma get_sock_eval s p i : st_fd s !! p = Some (FdSock i) → get_sock p s = Done i s.
Proof. intros H. unfold get_sock, bind, get_fd_obj, load. by rewrite H. Qed.
Lemma get_sock_plain s p d : st_fd s !! p = Some (FdPlain d) → get_sock p s = Failed Bad_cast s.
Proof. intros H. unfold get_sock, bind, get_fd_obj, load. by rewrite H. Qed.
Lemma upd_sock_eval s p i f :
  st_fd s !! p = Some (FdSock i) → upd_sock p f s = Done tt (set_fd (<[p := FdSock (f i)]> (st_fd s)) s).
Proof. intros H. unfold upd_sock, bind. by rewrite (get_sock_eval _ _ _ H). Qed.
Lemma upd_fd_eval s p o f :
  st_fd s !! p = Some o → upd_fd p f s = Done tt (set_fd (<[p := fd_update f o]> (st_fd s)) s).
Proof. intros H. unfold upd_fd, bind, get_fd_obj, load. by rewrite H. Qed.
Lemma upd_proc_eval s p v f :
  st_proc s !! p = Some v → upd_proc p f s = Done tt (set_proc (<[p := f v]> (st_proc s)) s).
Proof. intros H. unfold upd_proc, bind, get_proc, load. by rewrite H. Qed.
Lemma upd_comm_eval s p v f :
  st_comm s !! p = Some v → upd_comm p f s = Done tt (set_comm (<[p := f v]> (st_comm s)) s).
Proof. intros H. unfold upd_comm, bind, get_comm, load. by rewrite H. Qed.
Lemma upd_recv_eval s p v f :
  st_recv s !! p = Some v → upd_recv p f s = Done tt (set_recv (<[p := f v]> (st_recv s)) s).
Proof. intros H. unfold upd_recv, bind, get_recv, load. by rewrite H. Qed.
Lemma alloc_fd_eval s o :
  alloc_fd o s = Done (st_next s) (set_fd (<[st_next s := o]> (st_fd s)) (set_next (st_next s + 1) s)).
Proof. done. Qed.
Lemma alloc_comm_eval s c :
  alloc_comm c s =
  Done (st_next s) (set_comm (<[st_next s := c]> (st_comm s)) (set_next (st_next s + 1) s)).
Proof. done. Qed.
Lemma alloc_recv_eval s c :
  alloc_recv c s =
  Done (st_next s) (set_recv (<[st_next s := c]> (st_recv s)) (set_next (st_next s + 1) s)).
Proof. done. Qed.

Lemma bind_failed {A B} (m : M A) (f : A → M B) s e s' :
  m s = Failed e s' → bind m f s = Failed e s'.
Proof. intros H; unfold bind; by rewrite H. Qed.

Lemma runs_bind {A B} (m : M A) (f : A → M B) s (Q : B → st → Prop) :
  runs m s (λ a s', runs (f a) s' Q) → runs (bind m f) s Q.
Proof.
  intros (a & s' & Hm & b & s'' & Hf & HQ). exists b, s''; split; [|done].
  by rewrite (bind_done _ _ _ _ _ Hm).
Qed.

Lemma runs_mono {A} (m : M A) s (P Q : A → st → Prop) :
  (∀ a s', P a s' → Q a s') → runs m s P → runs m s Q.
Proof. intros HPQ (a & s' & ? & ?). exists a, s'; eauto. Qed.

Lemma runs_ret {A} (a : A) s Q : Q a s → runs (ret a) s Q.
Proof. intros; by exists a, s. Qed.

Lemma runs_load {A} (sel : st → gmap Z A) p v s Q :
  sel s !! p = Some v → Q v s → runs (load sel p) s Q.
Proof. intros H HQ; exists v, s; split; [|done]. unfold load. by rewrite H. Qed.

(** ** Invariants at the end and at every yield *)

(** [I] holds in the final state and whenever the computation yields, provided
    the other processes hand the state back in [I]. A failed run is unconstrained:
    the program is dead. *)
Fixpoint keeps {A} (I : st → Prop) (o : outcome A) : Prop :=
  match o with
  | Done _ s => I s
  | Failed _ _ => True
  | Block _ s k => I s ∧ ∀ x s', I s' → keeps I (k x s')
  end.

Definition preserves {A} (I : st → Prop) (m : M A) : Prop := ∀ s, I s → keeps I (m s).

Lemma keeps_obind {A B} I (o : outcome A) (f : A → M B) :
  (∀ a, preserves I (f a)) → keeps I o → keeps I (obind o f).
Proof.
  intros Hf. induction o as [a s|e s|r s k IH]; simpl; [|done|].
  - apply Hf.
  - intros [Hs Hk]; split; [done|]. intros x s' Hs'. apply IH, Hk, Hs'.
Qed.

Lemma preserves_bind {A B} I (m : M A) (f : A → M B) :
  preserves I m → (∀ a, preserves I (f a)) → preserves I (bind m f).
Proof. intros Hm Hf s Hs. apply keeps_obind; auto. Qed.

Lemma preserves_ret {A} I (a : A) : preserves I (ret a).
Proof. by intros s Hs. Qed.
Lemma preserves_fail {A} I e : preserves I (@fail A e).
Proof. by intros s Hs. Qed.
Lemma preserves_gets {A} I (f : st → A) : preserves I (gets f).
Proof. by intros s Hs. Qed.
Lemma preserves_load {A} I (sel : st → gmap Z A) p : preserves I (load sel p).
Proof. intros s Hs; unfold load. by destruct (sel s !! p). Qed.
Lemma preserves_of_option {A} I e (o : option A) : preserves I (of_option e o).
Proof. destruct o; by intros s Hs. Qed.
Lemma preserves_block I r : preserves I (block r).
Proof. intros s Hs; split; auto. Qed.
Lemma preserves_modify I f : (∀ s, I s → I (f s)) → preserves I (modify f).
Proof. intros H s Hs; by apply H. Qed.
Lemma preserves_when I b m : preserves I m → preserves I (when b m).
Proof. intros H; destruct b; [done|apply preserves_ret]. Qed.
Lemma preserves_ask_world {A} I e (f : W → option A) : preserves I (ask_world e f).
Proof. intros s Hs; unfold ask_world. by destruct (f _). Qed.

(** A rule for a binary split of the program text. *)
Lemma preserves_if {A} I (b : bool) (m n : M A) :
  preserves I m → preserves I n → preserves I (if b then m else n).
Proof. by destruct b. Qed.

End Monad.

Notation "'let!' x := m 'in' k" := (bind m (λ x, k))
  (at level 10, x name, m at level 100, k at level 200,
   format "'[v' 'let!'  x  :=  m  'in'  '/' k ']'") : sim_scope.
Notation "'let!' ' p := m 'in' k" := (bind m (λ x, match x with p => k end))
  (at level 10, p pattern, m at level 100, k at level 200, only parsing) : sim_scope.
Notation "m ;; k" := (bind m (λ _, k))
  (at level 100, k at level 200, right associativity) : sim_scope.

(** [ev] evaluates the first operation of a sequence with the equations of the
    database [ev]; [eval_with H] with the equation [H]. *)
Create HintDb ev.
#[export] Hint Resolve ret_eval gets_eval modify_eval load_eval of_option_eval ask_world_eval
  upd_world_eval on_world_eval get_fd_eval get_sock_eval upd_sock_eval upd_fd_eval upd_proc_eval
  upd_comm_eval upd_recv_eval alloc_fd_eval alloc_comm_eval alloc_recv_eval : ev.
Ltac st_cbn := cbn [st_w st_next st_proc st_fd st_comm st_recv st_pipe st_stream all_sockets comm_list
  list_host list_ip list_translate st_cnt strace_option clone_number
  set_w set_next set_proc set_fd set_comm set_recv set_pipe set_stream set_all_sockets set_comm_list
  set_list_host set_list_ip set_list_translate set_cnt set_clone_number fd_of fd_update fst snd].
Ltac lookup_solve := st_cbn; simplify_map_eq; first [reflexivity | eassumption].
#[export] Hint Extern 3 (_ !! _ = Some _) => solve [lookup_solve] : ev.
Ltac ev := eapply bind_eval; [solve [eauto with ev]|]; cbv beta.
Tactic Notation "eval_with" uconstr(H) := eapply bind_eval; [eapply H|]; cbv beta.

Create HintDb preserve discriminated.
#[export] Hint Constants Opaque : preserve.
#[export] Hint Transparent get_proc get_comm get_recv get_pipe get_stream get_fd_obj : preserve.
#[export] Hint Resolve preserves_bind preserves_ret preserves_fail preserves_gets preserves_load
  preserves_of_option preserves_block preserves_when preserves_ask_world preserves_if : preserve.
