(* ===== verification/Frames.v ===== *)
(** Invariants of the state, once and for all: [Stable] lists the changes of the
    state that the functions of SimTerpose make outside the protocol with the
    tracee, and every such function preserves every stable invariant. *)
From S2P Require Import Prelude External State Monad.

Section Frames.
Context `{X : Xbt} `{Wd : World}.

(** A change of a process that keeps its [pid] and [in_syscall] and enters no null
    pointer in its table. *)
Definition proc_step (v v' : process_descriptor) : Prop :=
  pd_pid v' = pd_pid v ∧ in_syscall v' = in_syscall v ∧
  ∀ k x, xbt_dict_get_or_null (fd_map v') k = Some x →
         x ≠ NULL ∨ xbt_dict_get_or_null (fd_map v) k = Some x.

Lemma proc_step_map v v' :
  pd_pid v' = pd_pid v → in_syscall v' = in_syscall v → fd_map v' = fd_map v → proc_step v v'.
Proof. intros H1 H2 H3. repeat split; try done. rewrite H3. auto. Qed.

(** Only a socket has the type of the sockets: [get_infos_socket] casts on this. *)
Definition plain_ok (o : fd_object) : Prop :=
  match o with FdPlain d => fd_type d ≠ FD_SOCKET | FdSock _ => True end.

(** An invariant under allocation, under updates of live objects (of a process, as
    long as its [pid] and [in_syscall] stay), under [free], under any change of the
    global tables and under changes of the world that move no tracee. *)
Class Stable (I : st → Prop) : Prop := {
  stable_alloc_fd s v :
    I s → plain_ok v → I (set_fd (<[st_next s := v]> (st_fd s)) (set_next (st_next s + 1) s));
  stable_alloc_comm s v :
    I s → I (set_comm (<[st_next s := v]> (st_comm s)) (set_next (st_next s + 1) s));
  stable_alloc_recv s v :
    I s → I (set_recv (<[st_next s := v]> (st_recv s)) (set_next (st_next s + 1) s));
  stable_alloc_pipe s v :
    I s → I (set_pipe (<[st_next s := v]> (st_pipe s)) (set_next (st_next s + 1) s));
  stable_alloc_stream s v :
    I s → I (set_stream (<[st_next s := v]> (st_stream s)) (set_next (st_next s + 1) s));
  stable_put_fd s p v v' :
    I s → st_fd s !! p = Some v → (plain_ok v → plain_ok v') → I (set_fd (<[p := v']> (st_fd s)) s);
  stable_put_comm s p v : I s → is_Some (st_comm s !! p) → I (set_comm (<[p := v]> (st_comm s)) s);
  stable_put_recv s p v : I s → is_Some (st_recv s !! p) → I (set_recv (<[p := v]> (st_recv s)) s);
  stable_put_pipe s p v : I s → is_Some (st_pipe s !! p) → I (set_pipe (<[p := v]> (st_pipe s)) s);
  stable_put_stream s p v :
    I s → is_Some (st_stream s !! p) → I (set_stream (<[p := v]> (st_stream s)) s);
  stable_put_proc s p v v' :
    I s → st_proc s !! p = Some v → proc_step v v' → I (set_proc (<[p := v']> (st_proc s)) s);
  stable_free_fd s p : I s → I (set_fd (delete p (st_fd s)) s);
  stable_free_comm s p : I s → I (set_comm (delete p (st_comm s)) s);
  stable_free_recv s p : I s → I (set_recv (delete p (st_recv s)) s);
  stable_free_pipe s p : I s → I (set_pipe (delete p (st_pipe s)) s);
  stable_all_sockets s v : I s → I (set_all_sockets v s);
  stable_comm_list s v : I s → I (set_comm_list v s);
  stable_list_host s v : I s → I (set_list_host v s);
  stable_list_ip s v : I s → I (set_list_ip v s);
  stable_list_translate s v : I s → I (set_list_translate v s);
  stable_cnt s v : I s → I (set_cnt v s);
  stable_clone_number s v : I s → I (set_clone_number v s);
  stable_world s w : I s → (∀ p, at_entry w p = at_entry (st_w s) p) → I (set_w w s);
}.

(** An invariant under the allocation of any descriptor. *)
Class AnyObject (I : st → Prop) : Prop :=
  any_alloc_fd s v : I s → I (set_fd (<[st_next s := v]> (st_fd s)) (set_next (st_next s + 1) s)).

(** A computation that only reads. *)
Definition reads {A} (m : M A) : Prop :=
  ∀ s, match m s with Done _ s' => s' = s | Failed _ _ => True | Block _ _ _ => False end.

Lemma reads_bind {A B} (m : M A) (f : A → M B) :
  reads m → (∀ a, reads (f a)) → reads (bind m f).
Proof.
  intros Hm Hf s. unfold bind. specialize (Hm s). destruct (m s) as [a s'| |]; simpl; [|done|done].
  subst. apply Hf.
Qed.
Lemma reads_ret {A} (a : A) : reads (ret a).
Proof. done. Qed.
Lemma reads_fail {A} e : reads (@fail _ _ A e).
Proof. done. Qed.
Lemma reads_load {A} (sel : st → gmap Z A) p : reads (load sel p).
Proof. intros s. unfold load. by destruct (sel s !! p). Qed.
Lemma reads_of_option {A} e (o : option A) : reads (of_option e o).
Proof. by destruct o. Qed.
Lemma reads_gets {A} (f : st → A) : reads (gets f).
Proof. done. Qed.

Section Preserved.
Context (I : st → Prop) `{!Stable I}.

Lemma keeps_reads {A B} (m : M A) (f : A → M B) s :
  reads m → (∀ a, keeps I (f a s)) → keeps I (bind m f s).
Proof.
  intros Hm Hf. unfold bind. specialize (Hm s). destruct (m s) as [a s'| |]; simpl; [|done|done].
  subst. apply Hf.
Qed.

Lemma keeps_bind_done {A B} (m : M A) (f : A → M B) s a s' :
  m s = Done a s' → keeps I (f a s') → keeps I (bind m f s).
Proof. intros H. by rewrite (bind_done _ _ _ _ _ H). Qed.

(** After a read of a store the object read is known to be live. *)
Lemma preserves_load_bind {A B} (sel : st → gmap Z A) p (f : A → M B) :
  (∀ v s, I s → sel s !! p = Some v → keeps I (f v s)) → preserves I (bind (load sel p) f).
Proof.
  intros H s Hs. unfold bind, load. destruct (sel s !! p) as [v|] eqn:E; simpl; [by apply H|done].
Qed.

Lemma preserves_upd_fd p f : (∀ d, fd_type (f d) = fd_type d) → preserves I (upd_fd p f).
Proof.
  intros Hf. apply preserves_load_bind. intros v s Hs Hv. apply (stable_put_fd s p v); [done|done|].
  destruct v; simpl; [by rewrite Hf|done].
Qed.
Lemma preserves_upd_comm p f : preserves I (upd_comm p f).
Proof. apply preserves_load_bind. intros v s Hs Hv. apply stable_put_comm; [done|by eexists]. Qed.
Lemma preserves_upd_recv p f : preserves I (upd_recv p f).
Proof. apply preserves_load_bind. intros v s Hs Hv. apply stable_put_recv; [done|by eexists]. Qed.
Lemma preserves_upd_stream p f : preserves I (upd_stream p f).
Proof. apply preserves_load_bind. intros v s Hs Hv. apply stable_put_stream; [done|by eexists]. Qed.
Lemma preserves_upd_sock p f : preserves I (upd_sock p f).
Proof.
  intros s Hs. unfold upd_sock, get_sock, get_fd_obj, bind at 1 2, load.
  destruct (st_fd s !! p) as [[d|i]|] eqn:E; simpl; [done| |done].
  by apply (stable_put_fd s p (FdSock i)).
Qed.
Lemma preserves_upd_proc p f : (∀ v, proc_step v (f v)) → preserves I (upd_proc p f).
Proof.
  intros Hf. apply preserves_load_bind. intros v s Hs Hv. by apply (stable_put_proc s p v).
Qed.

Lemma preserves_get_fd p : preserves I (get_fd p).
Proof. unfold get_fd. apply preserves_bind; [apply preserves_load|intros; apply preserves_ret]. Qed.
Lemma preserves_get_sock p : preserves I (get_sock p).
Proof.
  unfold get_sock. apply preserves_bind; [apply preserves_load|].
  intros []; [apply preserves_fail|apply preserves_ret].
Qed.

Lemma preserves_alloc_fd v : plain_ok v → preserves I (alloc_fd v).
Proof. intros Hv s Hs. exact (stable_alloc_fd s v Hs Hv). Qed.
Lemma preserves_alloc_any `{!AnyObject I} v : preserves I (alloc_fd v).
Proof. intros s Hs. exact (any_alloc_fd s v Hs). Qed.
Lemma preserves_alloc_comm v : preserves I (alloc_comm v).
Proof. intros s Hs. exact (stable_alloc_comm s v Hs). Qed.
Lemma preserves_alloc_recv v : preserves I (alloc_recv v).
Proof. intros s Hs. exact (stable_alloc_recv s v Hs). Qed.
Lemma preserves_alloc_pipe v : preserves I (alloc_pipe v).
Proof. intros s Hs. exact (stable_alloc_pipe s v Hs). Qed.
Lemma preserves_alloc_stream v : preserves I (alloc_stream v).
Proof. intros s Hs. exact (stable_alloc_stream s v Hs). Qed.
Lemma preserves_free_fd p : preserves I (free_fd p).
Proof. apply preserves_load_bind. intros v s Hs _. exact (stable_free_fd s p Hs). Qed.
Lemma preserves_free_comm p : preserves I (free_comm p).
Proof. apply preserves_load_bind. intros v s Hs _. exact (stable_free_comm s p Hs). Qed.
Lemma preserves_free_recv p : preserves I (free_recv p).
Proof. apply preserves_load_bind. intros v s Hs _. exact (stable_free_recv s p Hs). Qed.
Lemma preserves_free_pipe p : preserves I (free_pipe p).
Proof. apply preserves_load_bind. intros v s Hs _. exact (stable_free_pipe s p Hs). Qed.

Lemma preserves_all_sockets v : preserves I (modify (set_all_sockets v)).
Proof. apply preserves_modify. intros. by apply stable_all_sockets. Qed.
Lemma preserves_comm_list v : preserves I (modify (set_comm_list v)).
Proof. apply preserves_modify. intros. by apply stable_comm_list. Qed.

(** Changes of the world. *)
Lemma preserves_world_fun f :
  (∀ w p, at_entry (f w) p = at_entry w p) → preserves I (modify (λ s, set_w (f (st_w s)) s)).
Proof. intros Hf. apply preserves_modify. intros s Hs. apply stable_world; auto. Qed.
Lemma preserves_on_world {A} e (f : W → option (A * W)) :
  (∀ w a w', f w = Some (a, w') → ∀ p, at_entry w' p = at_entry w p) → preserves I (on_world e f).
Proof.
  intros Hf s Hs. unfold on_world. destruct (f (st_w s)) as [[a w]|] eqn:E; [|done].
  apply stable_world; [done|]. by eapply Hf.
Qed.
Lemma preserves_upd_world e f :
  (∀ w w', f w = Some w' → ∀ p, at_entry w' p = at_entry w p) → preserves I (upd_world e f).
Proof.
  intros Hf s Hs. unfold upd_world. destruct (f (st_w s)) as [w|] eqn:E; [|done].
  apply stable_world; [done|]. by eapply Hf.
Qed.

End Preserved.
End Frames.

#[export] Hint Resolve reads_bind reads_ret reads_fail reads_load reads_of_option reads_gets : preserve.
#[export] Hint Resolve preserves_upd_fd preserves_upd_comm preserves_upd_recv preserves_upd_stream
  preserves_upd_sock preserves_get_fd preserves_get_sock preserves_alloc_fd preserves_alloc_comm
  preserves_alloc_recv preserves_alloc_pipe preserves_alloc_stream preserves_free_fd
  preserves_free_comm preserves_free_recv preserves_free_pipe preserves_all_sockets
  preserves_comm_list : preserve.

#[export] Hint Extern 1 (plain_ok (FdSock _)) => exact Logic.I : preserve.
#[export] Hint Extern 1 (plain_ok (FdPlain _)) => solve [cbn [plain_ok fd_type]; done] : preserve.
#[export] Hint Extern 1 (∀ d, fd_type _ = fd_type d) => solve [by intros []] : preserve.

(** [frame] walks through a computation: sequences, branches, and the functions the
    database knows about. *)
Ltac frame_step :=
  match goal with
  | |- ∀ _, _ => intros ?
  | |- preserves _ (bind _ _) => apply preserves_bind
  | |- preserves _ (match ?x with _ => _ end) => destruct x
  | |- preserves _ (let '(_, _) := ?x in _) => destruct x
  | |- reads (bind _ _) => apply reads_bind
  | |- reads (match ?x with _ => _ end) => destruct x
  | |- _ => solve [eauto 3 with preserve typeclass_instances]
  end.
Ltac frame := repeat frame_step.
