(* ===== verification/Reference.v ===== *)
(** Instances of the interfaces of External, on which the witnesses of the
    theorems are evaluated: XBT containers as maps and lists, and a small world of
    traced processes with a memory, registers, entry and exit stops in turn and the event
    of a fork, in which every system call is unimplemented. *)
From S2P Require Import Prelude Libc External State Monad.
From stdpp Require Import gmap strings.
Local Open Scope Z_scope.

(** ** Containers *)

(** Dictionaries are association lists, in which the first entry of a key counts. *)
Fixpoint alist_get {V} (l : list (string * V)) (k : string) : option V :=
  match l with
  | [] => None
  | (k', v) :: l => if String.eqb k k' then Some v else alist_get l k
  end.
Definition alist_drop {V} (l : list (string * V)) (k : string) : list (string * V) :=
  filter (λ e, String.eqb k e.1 = false) l.
Definition alist_items {V} (l : list (string * V)) : list (string * V) :=
  omap (λ k, pair k <$> alist_get l k) (remove_dups l.*1).

#[export] Instance ref_xbt : Xbt := {|
  dict V := list (string * V);
  xbt_dict_new _ := [];
  xbt_dict_get_or_null _ := alist_get;
  xbt_dict_set _ d k v := (k, v) :: alist_drop d k;
  xbt_dict_remove _ d k := match alist_get d k with Some _ => Some (alist_drop d k) | None => None end;
  xbt_dict_items _ := alist_items;
  dynar := list;
  xbt_dynar_new _ := [];
  xbt_dynar_length _ d := length d;
  xbt_dynar_is_empty _ d := match d with [] => true | _ => false end;
  xbt_dynar_get_cpy _ d i := d !! i;
  xbt_dynar_push _ d x := d ++ [x];
  xbt_dynar_shift _ d := match d with [] => None | x :: l => Some (x, l) end;
  xbt_dynar_remove_at _ d i := match d !! i with Some _ => Some (delete i d) | None => None end;
  xbt_dynar_search _ p d := find_index p d;
  dynar_model _ d := d;
  fifo := list;
  xbt_fifo_new _ := [];
  xbt_fifo_size _ f := length f;
  xbt_fifo_push _ f x := f ++ [x];
  xbt_fifo_shift _ f := match f with [] => None | x :: l => Some (x, l) end;
  fifo_model _ f := f;
|}.

Lemma alist_get_drop {V} (l : list (string * V)) k : alist_get (alist_drop l k) k = None.
Proof.
  induction l as [|[k' v] l IH]; [done|]. unfold alist_drop. rewrite filter_cons. simpl.
  destruct (decide (String.eqb k k' = false)) as [E|E]; [|exact IH]. simpl. rewrite E. exact IH.
Qed.

Lemma alist_get_drop_ne {V} (l : list (string * V)) k k' :
  k ≠ k' → alist_get (alist_drop l k) k' = alist_get l k'.
Proof.
  intros Hk. induction l as [|[k2 v] l IH]; [done|]. unfold alist_drop. rewrite filter_cons. simpl.
  destruct (decide (String.eqb k k2 = false)) as [E|E]; simpl; [by destruct (String.eqb k' k2)|].
  apply not_false_iff_true, String.eqb_eq in E as <-.
  rewrite (proj2 (String.eqb_neq k' k)) by done. exact IH.
Qed.

Lemma alist_get_in {V} (l : list (string * V)) k v : alist_get l k = Some v → k ∈ l.*1.
Proof.
  induction l as [|[k' v'] l IH]; [done|]. simpl. destruct (String.eqb k k') eqn:E; intros H.
  - apply String.eqb_eq in E as ->. left.
  - right. auto.
Qed.

Lemma alist_items_get {V} (l : list (string * V)) k v :
  (k, v) ∈ alist_items l ↔ alist_get l k = Some v.
Proof.
  unfold alist_items. rewrite list_elem_of_omap. split.
  - intros (k' & _ & H). destruct (alist_get l k') eqn:E; [|done]. simpl in H. by injection H as -> ->.
  - intros H. exists k. split; [apply elem_of_remove_dups; by eapply alist_get_in|by rewrite H].
Qed.

Lemma alist_items_nodup {V} (l : list (string * V)) : NoDup (alist_items l).*1.
Proof.
  unfold alist_items. pose proof (NoDup_remove_dups l.*1) as Hn. revert Hn.
  generalize (remove_dups l.*1). induction l0 as [|k ks IH]; intros Hn; [constructor|].
  apply list.NoDup_cons in Hn as [Hk Hn]. simpl. destruct (alist_get l k); simpl; [|by apply IH].
  constructor; [|by apply IH]. intros (e & -> & (k' & Hk' & He)%list_elem_of_omap)%list_elem_of_fmap.
  destruct (alist_get l k'); [|done]. simpl in He. injection He as <-. done.
Qed.

#[export] Instance ref_xbt_laws : XbtLaws ref_xbt.
Proof.
  split; simpl; try done; intros.
  - by rewrite String.eqb_refl.
  - rewrite (proj2 (String.eqb_neq k' k)) by done. by apply alist_get_drop_ne.
  - by rewrite H.
  - destruct H as [v H]. rewrite H. eexists; repeat split.
    + apply alist_get_drop.
    + intros k' Hk. by apply alist_get_drop_ne.
  - apply alist_items_get.
  - apply alist_items_nodup.
  - by destruct d.
  - by subst.
  - subst. by eexists.
  - destruct (lookup_lt_is_Some_2 d i H) as [x Hx]. rewrite Hx. by eexists.
  - by subst.
  - subst. by eexists.
Qed.

(** ** Traced processes *)

Record toy := mk_toy {
  toy_mem : Z → Z → option Z;          (* process, address *)
  toy_regs : Z → option user_regs;
  toy_entry : Z → bool;
  toy_hosts : list string;
  toy_data : list Z;                   (* of the last task *)
}.

Definition upd {A} (f : Z → A) (p : Z) (v : A) : Z → A := λ q, if q =? p then v else f q.

Definition toy_byte (w : toy) (pid a : Z) : option Z := u8 <$> toy_mem w pid a.

Definition toy_word (w : toy) (pid a : Z) : option (list Z) :=
  mapM (λ i, toy_byte w pid (a + Z.of_nat i)) (seq 0 8).

Definition toy_poke (w : toy) (pid a v : Z) : toy :=
  mk_toy (λ p b, if (p =? pid) && (a <=? b) && (b <? a + 8)
                 then le_encode 8 v !! Z.to_nat (b - a) else toy_mem w p b)
    (toy_regs w) (toy_entry w) (toy_hosts w) (toy_data w).

(** The registers at the next entry: those of the call run again when the next
    instruction is [syscall]. *)
Definition toy_rerun (w : toy) (pid : Z) (r : user_regs) : user_regs :=
  if decide (mapM (toy_byte w pid) [rip r; rip r + 1] = Some syscall_insn) then
    set_rip (u64 (rip r + 2)) (set_rax (u64 (- ENOSYS)) (set_orig_rax (rax r) r))
  else r.

(** socket(2) gives the descriptor 4, bind(2) refuses the ports above 65533 and the
    descriptors that are not 3, every other call is unimplemented. *)
Definition toy_result (w : toy) (pid : Z) (r : user_regs) : Z :=
  if orig_rax r =? SYS_socket then 4
  else if orig_rax r =? SYS_bind then
    match mapM (λ i, toy_byte w pid (rsi r + Z.of_nat i)) (seq 0 16) with
    | Some b =>
      if negb (s32 (rdi r) =? 3) then u64 (- EBADF)
      else if 65533 <? ntohs (sin_port (sai_decode b)) then u64 (- EADDRINUSE) else 0
    | None => u64 (-14)
    end
  else u64 (- ENOSYS).

(** fork(2) stops at its event before it stops at its exit; the registers carry the mark
    of a call that did. *)
Definition toy_forks (w : toy) (pid : Z) (marks : list Z) : bool :=
  toy_entry w pid && match toy_regs w pid with
    | Some r => (orig_rax r =? SYS_fork) && bool_decide (regs_other r = marks)
    | None => false
    end.

(** From an entry stop to the exit stop of the call, or to the next entry. *)
Definition toy_step (w : toy) (pid : Z) : toy :=
  if toy_forks w pid [] then
    mk_toy (toy_mem w) (upd (toy_regs w) pid (set_regs_other [PTRACE_EVENT_FORK] <$> toy_regs w pid))
      (toy_entry w) (toy_hosts w) (toy_data w)
  else if toy_entry w pid then
    mk_toy (toy_mem w) (upd (toy_regs w) pid ((λ r, set_rax (toy_result w pid r) r) <$> toy_regs w pid))
      (upd (toy_entry w) pid false) (toy_hosts w) (toy_data w)
  else mk_toy (toy_mem w) (upd (toy_regs w) pid ((λ r, set_regs_other [] (toy_rerun w pid r)) <$> toy_regs w pid))
    (upd (toy_entry w) pid true) (toy_hosts w) (toy_data w).

(** A system call stop, or the stop of the event. *)
Definition toy_status (w : toy) (pid : Z) : Z :=
  if toy_forks w pid [PTRACE_EVENT_FORK] then 0x1057f else 0x857f.

Definition regs_zero : user_regs :=
  {| orig_rax := 0; rax := 0; rdi := 0; rsi := 0; rdx := 0; r10 := 0; r8 := 0; r9 := 0; rip := 0;
     regs_other := [] |}.

(** Hosts and processes are their names, a host called bob asks for an address;
    semaphores, tasks and communications are not told apart: there is one task. *)
#[export] Instance ref_world : World := {|
  W := toy;
  ptrace_peekdata w pid a := le_decode <$> toy_word w pid a;
  ptrace_pokedata w pid a v :=
    match toy_word w pid a with Some _ => Some (toy_poke w pid a v) | None => None end;
  ptrace_getregs w pid := toy_regs w pid;
  ptrace_setregs w pid r :=
    match toy_regs w pid with
    | Some _ => Some (mk_toy (toy_mem w) (upd (toy_regs w) pid (Some r)) (toy_entry w) (toy_hosts w) (toy_data w))
    | None => None
    end;
  ptrace_syscall w pid := Some (toy_step w pid);
  ptrace_detach w pid := Some w;
  ptrace_geteventmsg w pid := Some 0;
  ptrace_setoptions w pid := Some w;
  waitpid w pid := Some (toy_status w pid, w);
  stray_byte w := 0xaa;
  stray_regs w := regs_zero;
  stack_address w := 0;
  proc_self_fd w := (["."; ".."; "0"; "1"; "2"; "3"]%string, 3);
  mem_byte w pid a := toy_byte w pid a;
  at_entry w pid := toy_entry w pid;
  msg_host := string;
  MSG_host_get_name h := h;
  MSG_get_host_by_name n := Some n;
  MSG_host_get_property_value h k := if String.eqb h "bob" then Some "10.0.0.5"%string else None;
  MSG_hosts_as_dynar w := toy_hosts w;
  msg_process := string;
  msg_process_eqb := String.eqb;
  MSG_process_get_name p := p;
  MSG_process_create w name proc h := w;
  msg_sem := unit;
  MSG_sem_init w n := (tt, w);
  MSG_sem_release w s := w;
  msg_task := unit;
  MSG_parallel_task_create w name hosts amount := (tt, w);
  MSG_task_create w name amount data := (tt, w);
  MSG_task_set_bytes_amount w t n := w;
  MSG_task_set_data w t d := mk_toy (toy_mem w) (toy_regs w) (toy_entry w) (toy_hosts w) d;
  MSG_task_get_bytes_amount w t := 0;
  MSG_task_get_data w t := toy_data w;
  MSG_task_destroy w t := w;
  msg_comm := unit;
  MSG_task_irecv w m := (tt, w);
  MSG_get_clock w := replicate 8 0;
|}.

Lemma toy_poke_byte w pid a v p b :
  toy_byte (toy_poke w pid a v) p b =
  if (p =? pid) && (a <=? b) && (b <? a + 8) then le_encode 8 v !! Z.to_nat (b - a)
  else toy_byte w p b.
Proof.
  unfold toy_byte, toy_poke; cbn [toy_mem].
  destruct ((p =? pid) && (a <=? b) && (b <? a + 8)); [|done].
  destruct (le_encode 8 v !! Z.to_nat (b - a)) as [x|] eqn:E; [|reflexivity]. cbn [fmap option_fmap option_map].
  f_equal. apply uwrap_small. eapply Forall_lookup_1; [apply le_encode_bytes|exact E].
Qed.

Lemma toy_poke_word w pid a v : toy_word (toy_poke w pid a v) pid a = Some (le_encode 8 v).
Proof.
  unfold toy_word. simpl mapM. rewrite !toy_poke_byte.
  rewrite !Z.eqb_refl. repeat match goal with
  | |- context [?x <=? ?y] => rewrite (proj2 (Z.leb_le x y)) by lia
  | |- context [?x <? ?y] => rewrite (proj2 (Z.ltb_lt x y)) by lia
  end.
  rewrite !Z.add_simpl_l. done.
Qed.

Lemma toy_forks_call w pid r m :
  toy_regs w pid = Some r → orig_rax r ≠ SYS_fork → toy_forks w pid m = false.
Proof.
  intros Hr Ho. unfold toy_forks. rewrite Hr, (proj2 (Z.eqb_neq _ _) Ho). by rewrite andb_false_r.
Qed.
Lemma toy_forks_exit w pid m : toy_entry w pid = false → toy_forks w pid m = false.
Proof. intros H. unfold toy_forks. by rewrite H. Qed.
Lemma upd_eq {A} (f : Z → A) p v : upd f p v p = v.
Proof. unfold upd. by rewrite Z.eqb_refl. Qed.
Lemma upd_ne {A} (f : Z → A) p v q : q ≠ p → upd f p v q = f q.
Proof. intros H. unfold upd. by rewrite (proj2 (Z.eqb_neq _ _) H). Qed.

(** The stop the toy reaches, by the kind of its status. *)
Lemma toy_event_step w pid :
  toy_forks w pid [] = true →
  toy_status (toy_step w pid) pid = 0x1057f ∧ toy_entry (toy_step w pid) pid = toy_entry w pid.
Proof.
  intros H. unfold toy_step. rewrite H. split; [|done]. unfold toy_status, toy_forks in *. cbn.
  rewrite upd_eq. apply andb_prop in H as [-> H]. destruct (toy_regs w pid) as [r|]; [|done].
  apply andb_prop in H as [H _]. cbn. by rewrite H.
Qed.
Lemma toy_call_step w pid :
  toy_forks w pid [] = false →
  toy_status (toy_step w pid) pid = 0x857f ∧ toy_entry (toy_step w pid) pid = negb (toy_entry w pid).
Proof.
  intros H. unfold toy_step. rewrite H. unfold toy_status. destruct (toy_entry w pid) eqn:E; cbn.
  - rewrite upd_eq. rewrite toy_forks_exit; [done|]. cbn. by rewrite upd_eq.
  - rewrite upd_eq. unfold toy_forks. cbn. rewrite !upd_eq. destruct (toy_regs w pid) as [r|]; [|done]. cbn.
    rewrite bool_decide_eq_false_2 by done. by rewrite andb_false_r.
Qed.

#[export] Instance ref_trace_laws : TraceLaws ref_world.
Proof.
  split; simpl.
  - unfold toy_byte. intros w pid a b H. destruct (toy_mem w pid a); simplify_eq/=.
    by apply uwrap_range.
  - done.
  - intros w pid a bs H. unfold mem_bytes in H. simpl in H. unfold toy_word; simpl. by rewrite H.
  - intros w pid a H. unfold mem_bytes in H. simpl in H. unfold toy_word; simpl. by rewrite H.
  - intros w pid a v [bs H]. exists (toy_poke w pid a v).
    change (toy_word w pid a = Some bs) in H. rewrite H.
    repeat split; try done.
    + apply toy_poke_word.
    + intros b Hb. rewrite toy_poke_byte. destruct ((pid =? pid) && (a <=? b) && (b <? a + 8)) eqn:E; [|done].
      lia.
    + intros p b Hp. rewrite toy_poke_byte. apply Z.eqb_neq in Hp. by rewrite Hp.
  - intros w pid r [r0 H]. rewrite H. eexists; repeat split; simpl.
    + unfold upd. by rewrite Z.eqb_refl.
    + intros p Hp. unfold upd. apply Z.eqb_neq in Hp. by rewrite Hp.
  - intros w pid r He Hr Ho.
    eexists _, _, _; repeat split; unfold toy_step; rewrite (toy_forks_call _ _ r) by (done || by rewrite Ho);
      rewrite He; simpl.
    + unfold upd. rewrite Z.eqb_refl, Hr. cbn. unfold toy_result. by rewrite Ho.
    + unfold upd. by rewrite Z.eqb_refl.
    + intros p Hp. unfold upd. apply Z.eqb_neq in Hp. by rewrite Hp.
    + done.
    + intros p Hp. unfold upd. apply Z.eqb_neq in Hp. by rewrite Hp.
Qed.

#[export] Instance ref_stop_laws : StopLaws ref_world.
Proof.
  split; simpl; try done; intros; try by eexists.
  - simplify_eq. destruct (toy_forks w pid []) eqn:E; [|by apply toy_call_step].
    destruct (toy_event_step w pid E) as [Es _]. by rewrite Es in *.
  - simplify_eq. destruct (toy_forks w pid []) eqn:E; [by apply toy_event_step|].
    destruct (toy_call_step w pid E) as [Es _]. by rewrite Es in *.
  - destruct (toy_word w pid a); by simplify_eq.
  - destruct (toy_regs w pid); by simplify_eq.
  - by simplify_eq.
Qed.

#[export] Instance ref_task_laws : TaskLaws ref_world.
Proof. by split. Qed.

#[export] Instance ref_kernel_laws : KernelLaws ref_world.
Proof.
  split; cbn.
  - intros w pid r He Hr Ho. eexists _, _, _, 4, (regs_other r).
    repeat split; unfold toy_step; rewrite (toy_forks_call _ _ r), He by (done || by rewrite Ho); cbn; try done.
    + unfold upd. rewrite Z.eqb_refl, Hr. cbn. unfold toy_result. rewrite Ho. by destruct r.
    + unfold upd. by rewrite Z.eqb_refl.
    + intros p Hp. unfold upd. apply Z.eqb_neq in Hp. by rewrite Hp.
    + intros p Hp. unfold upd. apply Z.eqb_neq in Hp. by rewrite Hp.
  - intros w pid r He Hr Hm. eexists _, _, _, [].
    repeat split; unfold toy_step; rewrite (toy_forks_exit _ _ _ He), He; cbn; try done.
    + unfold upd. rewrite Z.eqb_refl, Hr. cbn. unfold toy_rerun. rewrite decide_True; [by destruct r|].
      unfold mem_bytes in Hm. cbn in Hm. rewrite Z.add_0_r in Hm. exact Hm.
    + unfold upd. by rewrite Z.eqb_refl.
    + intros p Hp. unfold upd. apply Z.eqb_neq in Hp. by rewrite Hp.
    + intros p Hp. unfold upd. apply Z.eqb_neq in Hp. by rewrite Hp.
Qed.

#[export] Instance ref_bind_laws : BindLaws ref_world (λ _ _ fd, fd =? 3) (λ _ q, 65533 <? q).
Proof.
  split; cbn; try done. intros w pid r b He Hr Ho _ Hb _ _.
  exists (toy_step w pid), (toy_status (toy_step w pid) pid), (toy_step w pid), (toy_result w pid r), (regs_other r).
  repeat split; unfold toy_step; try (rewrite (toy_forks_call _ _ r), He by (done || by rewrite Ho)); cbn; try done.
  - unfold upd. rewrite Z.eqb_refl, Hr. cbn. by destruct r.
  - unfold toy_result, refused. rewrite Ho. cbn. unfold mem_bytes in Hb. cbn in Hb. rewrite Hb.
    destruct (s32 (rdi r) =? 3); [|done]. cbn [negb orb]. by destruct (65533 <? _).
  - unfold upd. by rewrite Z.eqb_refl.
  - intros p Hp. unfold upd. apply Z.eqb_neq in Hp. by rewrite Hp.
  - intros p Hp. unfold upd. apply Z.eqb_neq in Hp. by rewrite Hp.
Qed.

#[export] Instance ref_msg_laws : MsgLaws ref_world.
Proof. by split. Qed.

(** ** States *)

(** Process 7 is stopped at the entry of a system call with the registers [r]; its
    memory is mapped from 4096 to 8192. *)
Definition toy_world (r : user_regs) (mem : Z → Z) : toy :=
  mk_toy (λ p a, if (p =? 7) && (4096 <=? a) && (a <? 8192) then Some (mem a) else None)
    (upd (λ _, None) 7 (Some r)) (λ _, true) ["alice"; "bob"; "carol"]%string [].

Definition ref_state (w : toy) : st := mk_st w 1 ∅ ∅ ∅ ∅ ∅ ∅ [] [] [] [] []
  (mk_counters 0 0 0 0 0 0 0 0) 0 0.

(** The state a computation ends or stops in. *)
Definition run_state {A} (m : M A) (s : st) : st :=
  match m s with Done _ s' => s' | Failed _ s' => s' | Block _ s' _ => s' end.

(** The heap of a concrete state is checked by evaluation. *)
Definition bounded_check {A} (n : Z) (m : gmap Z A) : bool :=
  bool_decide (map_Forall (λ a _, 0 < a < n) m).

Definition heap_check (s : st) : bool :=
  let n := st_next s in
  (0 <? n) && bounded_check n (st_proc s) && bounded_check n (st_fd s) && bounded_check n (st_comm s) &&
  bounded_check n (st_recv s) && bounded_check n (st_pipe s) && bounded_check n (st_stream s).

Lemma bounded_check_ok {A} n (m : gmap Z A) : bounded_check n m = true → bounded n m.
Proof. intros H%bool_decide_eq_true a [v Hv]. by apply (H a v). Qed.

Lemma heap_check_ok s : heap_check s = true → heap_ok s.
Proof.
  unfold heap_check. rewrite !andb_true_iff.
  intros ((((((H1 & H2) & H3) & H4) & H5) & H6) & H7). split; try by apply bounded_check_ok.
  by apply Z.ltb_lt.
Qed.
