(* ===== verification/DataUtils.v ===== *)
(** src/src/data_utils.c: the global tables of SimTerpose.

    Each simulated host has an IP address and a table of the ports in use
    ([list_host]); [list_ip] maps an address back to the host's name,
    [list_translate] a real port to the simulated one. The benchmark of the
    machine ([benchmark_matrix_product]) is not modelled. *)
From S2P Require Import Prelude Libc External State Monad Reference.
Open Scope sim_scope.

Section DataUtils.
Context `{X : Xbt} `{Wd : World}.

(** ** Counters of the [ptrace] calls *)

Definition counters_zero : counters := mk_counters 0 0 0 0 0 0 0 0.

Definition simterpose_globals_init : M unit :=
  modify (set_list_host xbt_dict_new) ;;
  modify (set_list_ip xbt_dict_new) ;;
  modify (set_list_translate xbt_dict_new) ;;
  modify (set_cnt counters_zero).

Definition upd_cnt (f : counters → counters) : M unit :=
  modify (λ s, set_cnt (f (st_cnt s)) s).

Definition get_nb_peek : M Z := gets (λ s, nb_peek (st_cnt s)).
Definition get_nb_poke : M Z := gets (λ s, nb_poke (st_cnt s)).
Definition get_nb_getregs : M Z := gets (λ s, nb_getregs (st_cnt s)).
Definition get_nb_setregs : M Z := gets (λ s, nb_setregs (st_cnt s)).
Definition get_nb_syscall : M Z := gets (λ s, nb_syscall (st_cnt s)).
Definition get_nb_setoptions : M Z := gets (λ s, nb_setoptions (st_cnt s)).
Definition get_nb_detach : M Z := gets (λ s, nb_detach (st_cnt s)).
Definition get_nb_geteventmsg : M Z := gets (λ s, nb_geteventmsg (st_cnt s)).

Definition increment_nb_peek : M unit := upd_cnt (λ c,
  mk_counters (s32 (nb_peek c + 1)) (nb_poke c) (nb_getregs c) (nb_setregs c) (nb_syscall c)
    (nb_setoptions c) (nb_detach c) (nb_geteventmsg c)).
Definition increment_nb_poke : M unit := upd_cnt (λ c,
  mk_counters (nb_peek c) (s32 (nb_poke c + 1)) (nb_getregs c) (nb_setregs c) (nb_syscall c)
    (nb_setoptions c) (nb_detach c) (nb_geteventmsg c)).
Definition increment_nb_getregs : M unit := upd_cnt (λ c,
  mk_counters (nb_peek c) (nb_poke c) (s32 (nb_getregs c + 1)) (nb_setregs c) (nb_syscall c)
    (nb_setoptions c) (nb_detach c) (nb_geteventmsg c)).
Definition increment_nb_setregs : M unit := upd_cnt (λ c,
  mk_counters (nb_peek c) (nb_poke c) (nb_getregs c) (s32 (nb_setregs c + 1)) (nb_syscall c)
    (nb_setoptions c) (nb_detach c) (nb_geteventmsg c)).
Definition increment_nb_syscall : M unit := upd_cnt (λ c,
  mk_counters (nb_peek c) (nb_poke c) (nb_getregs c) (nb_setregs c) (s32 (nb_syscall c + 1))
    (nb_setoptions c) (nb_detach c) (nb_geteventmsg c)).
Definition increment_nb_setoptions : M unit := upd_cnt (λ c,
  mk_counters (nb_peek c) (nb_poke c) (nb_getregs c) (nb_setregs c) (nb_syscall c)
    (s32 (nb_setoptions c + 1)) (nb_detach c) (nb_geteventmsg c)).
Definition increment_nb_detach : M unit := upd_cnt (λ c,
  mk_counters (nb_peek c) (nb_poke c) (nb_getregs c) (nb_setregs c) (nb_syscall c)
    (nb_setoptions c) (s32 (nb_detach c + 1)) (nb_geteventmsg c)).
Definition increment_nb_geteventmsg : M unit := upd_cnt (λ c,
  mk_counters (nb_peek c) (nb_poke c) (nb_getregs c) (nb_setregs c) (nb_syscall c)
    (nb_setoptions c) (nb_detach c) (s32 (nb_geteventmsg c + 1))).

(** ** Hosts and ports *)

(** [MSG_host_get_name(host)]; a null host is dereferenced. *)
Definition host_name (host : option msg_host) : M string :=
  match host with Some h => ret (MSG_host_get_name h) | None => fail Invalid_pointer end.

(** [xbt_dict_get(global_data->list_host, MSG_host_get_name(host))]: the name the
    record is stored under and the record; [xbt_dict_get] throws when it is absent. *)
Definition host_desc (host : option msg_host) : M (string * simterpose_host) :=
  let! name := host_name host in
  let! l := gets list_host in
  let! h := of_option Throw_not_found (xbt_dict_get_or_null l name) in
  ret (name, h).

(** A port descriptor reached from a host is modified in place. *)
Definition put_port (name : string) (h : simterpose_host) (buff : string) (d : port_desc) : M unit :=
  modify (λ s, set_list_host
    (xbt_dict_set (list_host s) name (mk_host (host_ip h) (xbt_dict_set (host_port h) buff d))) s).

Definition is_port_in_use (host : option msg_host) (port : Z) : M bool :=
  let! nh := host_desc host in
  ret (bool_decide (is_Some (xbt_dict_get_or_null (host_port nh.2) (sprintf_d port)))).

Definition register_port (host : option msg_host) (port : Z) : M unit :=
  let! nh := host_desc host in
  let buff := sprintf_d port in
  match xbt_dict_get_or_null (host_port nh.2) buff with
  | Some t => put_port nh.1 nh.2 buff (mk_port (port_num t) (real_port t) (port_option t)
                (s32 (amount_socket t + 1)) (bind_socket t))
  | None => put_port nh.1 nh.2 buff (mk_port port 0 0 1 NULL)
  end.

Definition set_port_on_binding (host : option msg_host) (port : Z) (isp : Z) (device : Z) : M unit :=
  let! nh := host_desc host in
  let buff := sprintf_d port in
  match xbt_dict_get_or_null (host_port nh.2) buff with
  | None => ret tt
  | Some d =>
    put_port nh.1 nh.2 buff (mk_port (port_num d) (real_port d)
      (Z.lor (Z.lor (port_option d) PORT_BIND) device) (amount_socket d) isp) ;;
    upd_sock isp (λ i, set_is_ref_nb (s32 (is_ref_nb i + 1)) i)
  end.

Definition get_binding_socket_host (host : option msg_host) (port device : Z) : M Z :=
  let! nh := host_desc host in
  match xbt_dict_get_or_null (host_port nh.2) (sprintf_d port) with
  | None => ret NULL
  | Some d =>
    if negb (has_flag (port_option d) PORT_BIND) then ret NULL
    else if negb (has_flag device (port_option d)) then ret NULL
    else ret (bind_socket d)
  end.

Definition set_real_port (host : option msg_host) (port real : Z) : M unit :=
  let! nh := host_desc host in
  let buff := sprintf_d port in
  match xbt_dict_get_or_null (host_port nh.2) buff with
  | None => ret tt
  | Some d => put_port nh.1 nh.2 buff
      (mk_port (port_num d) real (port_option d) (amount_socket d) (bind_socket d))
  end.

Definition get_ip_of_host (host : option msg_host) : M Z :=
  let! nh := host_desc host in ret (host_ip nh.2).

Definition get_host_by_ip (ip : Z) : M (option msg_host) :=
  let! l := gets list_ip in
  match xbt_dict_get_or_null l (inet_ntoa ip) with
  | None => ret None
  | Some name => ret (MSG_get_host_by_name name)
  end.

(** The loop of [get_random_port] over an [unsigned short]. *)
Fixpoint get_random_port_loop (fuel : nat) (ports : dict port_desc) (port : Z) : option Z :=
  match fuel with
  | O => None
  | S fuel =>
    match xbt_dict_get_or_null ports (sprintf_d port) with
    | Some _ => get_random_port_loop fuel ports (u16 (port - 1))
    | None => Some port
    end
  end.

(** One turn for each value of [port]: a later turn sees the same ports again. *)
Definition port_fuel : nat := Z.to_nat 65536.

Definition get_random_port (host : option msg_host) : M Z :=
  let! nh := host_desc host in
  let port := u16 (0 - 1) in
  of_option Out_of_fuel (get_random_port_loop port_fuel (host_port nh.2) port).

Definition unset_socket (pid : Z) (isp : Z) : M unit :=
  let! i := get_sock isp in
  let! nh := host_desc (is_host i) in
  let buff := sprintf_d (is_port_local i) in
  match xbt_dict_get_or_null (host_port nh.2) buff with
  | None => ret tt
  | Some d =>
    (if isp =? bind_socket d
     then upd_sock isp (λ i, set_is_ref_nb (s32 (is_ref_nb i - 1)) i)
     else ret tt) ;;
    let bs := if isp =? bind_socket d then NULL else bind_socket d in
    let amount := s32 (amount_socket d - 1) in
    put_port nh.1 nh.2 buff (mk_port (port_num d) (real_port d) (port_option d) amount bs) ;;
    if negb (amount =? 0) then ret tt
    else
      let! nh' := host_desc (is_host i) in
      let! ports := of_option Throw_not_found (xbt_dict_remove (host_port nh'.2) buff) in
      modify (λ s, set_list_host
        (xbt_dict_set (list_host s) nh'.1 (mk_host (host_ip nh'.2) ports)) s)
  end.

(** ** Translation between real and simulated ports *)

Definition add_new_translation (real translated_port translated_ip : Z) : M unit :=
  modify (λ s, set_list_translate (xbt_dict_set (list_translate s) (sprintf_d real)
    {| td_port_num := translated_port; td_ip := translated_ip |}) s).

Definition get_translation (real : Z) : M (option translate_desc) :=
  let! l := gets list_translate in ret (xbt_dict_get_or_null l (sprintf_d real)).

Definition get_real_port (proc : Z) (ip port : Z) : M Z :=
  let! nh := (if ip =? localhost
              then let! p := get_proc proc in host_desc (pd_host p)
              else let! h := get_host_by_ip ip in host_desc h) in
  match xbt_dict_get_or_null (host_port nh.2) (sprintf_d port) with
  | None => ret (-1)
  | Some d => ret (real_port d)
  end.

(** ** The host list *)

Definition add_host (name ip_string : string) (ip : Z) : M unit :=
  modify (λ s, set_list_host (xbt_dict_set (list_host s) name (mk_host ip xbt_dict_new)) s) ;;
  modify (λ s, set_list_ip (xbt_dict_set (list_ip s) ip_string name) s).

(** The hosts that have an "ip" property; the indices of the others are pushed on
    [no_ip]. *)
Fixpoint init_host_given (i : nat) (work : list msg_host) (no_ip : dynar nat) (ips : dynar Z)
    : M (dynar nat * dynar Z) :=
  match work with
  | [] => ret (no_ip, ips)
  | h :: work =>
    match MSG_host_get_property_value h "ip" with
    | None => init_host_given (S i) work (xbt_dynar_push no_ip i) ips
    | Some prop =>
      add_host (MSG_host_get_name h) prop (inet_addr prop) ;;
      init_host_given (S i) work no_ip (xbt_dynar_push ips (inet_addr prop))
    end
  end.

(** [while (found)]: the first address from [temp_ip] on that is not in [ips]. *)
Fixpoint next_free_ip (fuel : nat) (ips : dynar Z) (temp_ip : Z) : option Z :=
  match fuel with
  | O => None
  | S fuel =>
    match xbt_dynar_search (Z.eqb temp_ip) ips with
    | Some _ => next_free_ip fuel ips (u32 (temp_ip + 1))
    | None => Some temp_ip
    end
  end.

Fixpoint init_host_rest (fuel : nat) (work : list msg_host) (no_ip : dynar nat) (ips : dynar Z)
    (temp_ip : Z) : M unit :=
  if xbt_dynar_is_empty no_ip then ret tt else
  match fuel with
  | O => fail Out_of_fuel
  | S fuel =>
    let! r := of_option Throw_not_found (xbt_dynar_shift no_ip) in
    let! h := of_option Invalid_pointer (work !! r.1) in
    let! ip := of_option Out_of_fuel (next_free_ip (S (xbt_dynar_length ips)) ips temp_ip) in
    add_host (MSG_host_get_name h) (inet_ntoa ip) ip ;;
    init_host_rest fuel work r.2 (xbt_dynar_push ips ip) ip
  end.

Definition init_host_list : M unit :=
  let! work := gets (λ s, MSG_hosts_as_dynar (st_w s)) in
  let! r := init_host_given 0 work xbt_dynar_new xbt_dynar_new in
  init_host_rest (xbt_dynar_length r.1) work r.1 r.2 1.

End DataUtils.
Arguments port_fuel : simpl never.

(** ** The tables as partial functions *)

Section Views.
Context `{X : Xbt} `{Wd : World}.

Definition host_of (s : st) (name : string) : option simterpose_host :=
  xbt_dict_get_or_null (list_host s) name.

(** The descriptor of a port of a host. *)
Definition port_of (s : st) (name : string) (port : Z) : option port_desc :=
  match host_of s name with
  | Some h => xbt_dict_get_or_null (host_port h) (sprintf_d port)
  | None => None
  end.

(** How many sockets use a port: the abstract content of the table. *)
Definition uses (s : st) (name : string) (port : Z) : Z :=
  match port_of s name port with Some d => amount_socket d | None => 0 end.

(** Every descriptor of the table is in use, by fewer sockets than an [int] counts. *)
Definition ports_ok (s : st) : Prop :=
  ∀ name port d, port_of s name port = Some d → 1 <= amount_socket d < 2 ^ 31 - 1.

End Views.

Section DataUtilsLemmas.
Context `{X : Xbt} `{Wd : World} `{!XbtLaws X}.

Lemma host_desc_eval s h hd :
  host_of s (MSG_host_get_name h) = Some hd →
  host_desc (Some h) s = Done (MSG_host_get_name h, hd) s.
Proof. intros H. unfold host_desc, host_name. ev. ev. ev. done. Qed.

Lemma port_of_host s h hd port :
  host_of s (MSG_host_get_name h) = Some hd →
  port_of s (MSG_host_get_name h) port = xbt_dict_get_or_null (host_port hd) (sprintf_d port).
Proof. intros H. unfold port_of. by rewrite H. Qed.

(** The effect of [put_port] on the views. *)
Lemma put_port_eval s name hd port d :
  host_of s name = Some hd →
  ∃ s', put_port name hd (sprintf_d port) d s = Done tt s' ∧
    s' = set_list_host (list_host s') s ∧
    host_of s' name = Some (mk_host (host_ip hd) (xbt_dict_set (host_port hd) (sprintf_d port) d)) ∧
    (∀ n, n ≠ name → host_of s' n = host_of s n) ∧
    port_of s' name port = Some d ∧
    (∀ n q, n ≠ name ∨ q ≠ port → port_of s' n q = port_of s n q).
Proof.
  intros Hh. eexists. split; [apply modify_eval|]. split; [done|].
  assert (∀ n, n ≠ name → ∀ hd', xbt_dict_get_or_null (xbt_dict_set (list_host s) name hd') n
                        = xbt_dict_get_or_null (list_host s) n) as Hne.
  { intros n Hn hd'. by apply dict_get_set_ne. }
  unfold port_of, host_of in *; cbn [list_host set_list_host].
  repeat split.
  - apply dict_get_set.
  - intros n Hn. by apply Hne.
  - rewrite dict_get_set. cbn. apply dict_get_set.
  - intros n q Hnq. destruct (decide (n = name)) as [-> |Hn]; [|by rewrite Hne].
    rewrite dict_get_set, Hh. cbn. apply dict_get_set_ne.
    destruct Hnq as [?|Hq]; [done|]. intros E. apply Hq. symmetry. by apply (inj sprintf_d).
Qed.

Lemma is_port_in_use_eval s h port :
  is_Some (host_of s (MSG_host_get_name h)) →
  is_port_in_use (Some h) port s =
  Done (bool_decide (is_Some (port_of s (MSG_host_get_name h) port))) s.
Proof.
  intros [hd Hh]. unfold is_port_in_use. eval_with (host_desc_eval s h hd Hh).
  by rewrite (port_of_host s h hd port Hh).
Qed.

Lemma register_port_eval s h port :
  is_Some (host_of s (MSG_host_get_name h)) →
  ∃ s', register_port (Some h) port s = Done tt s' ∧ s' = set_list_host (list_host s') s ∧
    port_of s' (MSG_host_get_name h) port =
      Some (match port_of s (MSG_host_get_name h) port with
            | Some t => mk_port (port_num t) (real_port t) (port_option t)
                          (s32 (amount_socket t + 1)) (bind_socket t)
            | None => mk_port port 0 0 1 NULL
            end) ∧
    (∀ n q, n ≠ MSG_host_get_name h ∨ q ≠ port → port_of s' n q = port_of s n q) ∧
    (∀ n, is_Some (host_of s n) → host_ip <$> host_of s' n = host_ip <$> host_of s n).
Proof.
  intros [hd Hh]. rewrite (port_of_host s h hd port Hh).
  destruct (xbt_dict_get_or_null (host_port hd) (sprintf_d port)) as [t|] eqn:Et.
  all: edestruct (put_port_eval s (MSG_host_get_name h) hd port) as (s' & He & Hs & Hn & Ho & Hp & Hq);
    [exact Hh|]; exists s'; (split; [unfold register_port; eval_with (host_desc_eval s h hd Hh);
      cbn [fst snd]; rewrite Et; exact He|]); (split; [exact Hs|]); (split; [exact Hp|]);
    (split; [exact Hq|]); intros n _;
    (destruct (decide (n = MSG_host_get_name h)) as [-> |Hne]; [by rewrite Hn, Hh|by rewrite Ho]).
Qed.

Lemma register_port_uses s h port :
  is_Some (host_of s (MSG_host_get_name h)) → ports_ok s →
  ∃ s', register_port (Some h) port s = Done tt s' ∧ s' = set_list_host (list_host s') s ∧
    uses s' (MSG_host_get_name h) port = uses s (MSG_host_get_name h) port + 1 ∧
    (∀ n q, n ≠ MSG_host_get_name h ∨ q ≠ port → uses s' n q = uses s n q).
Proof.
  intros Hh Hok. destruct (register_port_eval s h port Hh) as (s' & He & Hs & Hp & Hq & _).
  exists s'. split; [done|]. split; [done|]. unfold uses. rewrite Hp. split.
  - destruct (port_of s (MSG_host_get_name h) port) as [d|] eqn:Ed; [|done]. simpl.
    apply Hok in Ed. apply swrap_small; unfold is_s; lia.
  - intros n q Hnq. by rewrite Hq.
Qed.

(** Removing a port from the table of a host. *)
Lemma remove_port_eval s name hd port ports :
  host_of s name = Some hd → xbt_dict_remove (host_port hd) (sprintf_d port) = Some ports →
  is_Some (xbt_dict_get_or_null (host_port hd) (sprintf_d port)) →
  let s' := set_list_host (xbt_dict_set (list_host s) name (mk_host (host_ip hd) ports)) s in
  port_of s' name port = None ∧ (∀ n q, n ≠ name ∨ q ≠ port → port_of s' n q = port_of s n q).
Proof.
  intros Hh Hr Hin. destruct (dict_remove_present _ _ _ Hin) as (ports' & Hr' & Hn & Ho).
  rewrite Hr in Hr'. injection Hr' as <-. cbv zeta.
  unfold port_of, host_of in *; cbn [list_host set_list_host]. split.
  - by rewrite dict_get_set.
  - intros n q Hnq. destruct (decide (n = name)) as [-> |Hne]; [|by rewrite dict_get_set_ne].
    rewrite dict_get_set, Hh. cbn. apply Ho.
    destruct Hnq as [?|Hq]; [done|]. intros E. apply Hq. symmetry. by apply (inj sprintf_d).
Qed.

Lemma unset_socket_eval s pid isp i h d :
  st_fd s !! isp = Some (FdSock i) → is_host i = Some h →
  port_of s (MSG_host_get_name h) (is_port_local i) = Some d →
  ∃ s', unset_socket pid isp s = Done tt s' ∧
    s' = set_fd (st_fd s') (set_list_host (list_host s') s) ∧
    st_fd s' = (if isp =? bind_socket d
                then <[isp := FdSock (set_is_ref_nb (s32 (is_ref_nb i - 1)) i)]> (st_fd s)
                else st_fd s) ∧
    port_of s' (MSG_host_get_name h) (is_port_local i) =
      (if s32 (amount_socket d - 1) =? 0 then None
       else Some (mk_port (port_num d) (real_port d) (port_option d) (s32 (amount_socket d - 1))
                    (if isp =? bind_socket d then NULL else bind_socket d))) ∧
    (∀ n q, n ≠ MSG_host_get_name h ∨ q ≠ is_port_local i → port_of s' n q = port_of s n q).
Proof.
  intros Hi Hh Hd. destruct (host_of s (MSG_host_get_name h)) as [hd|] eqn:Ehd;
    [|by unfold port_of in Hd; rewrite Ehd in Hd].
  pose proof Hd as Hd'. rewrite (port_of_host s h hd _ Ehd) in Hd'.
  set (fd' := if isp =? bind_socket d
              then <[isp := FdSock (set_is_ref_nb (s32 (is_ref_nb i - 1)) i)]> (st_fd s) else st_fd s).
  destruct (put_port_eval (set_fd fd' s) (MSG_host_get_name h) hd (is_port_local i)
    (mk_port (port_num d) (real_port d) (port_option d) (s32 (amount_socket d - 1))
       (if isp =? bind_socket d then NULL else bind_socket d)) Ehd)
    as (s1 & He1 & Hs1 & Hh1 & Ho1 & Hp1 & Hq1).
  assert (unset_socket pid isp s =
    (if negb (s32 (amount_socket d - 1) =? 0) then ret tt else
      let! nh' := host_desc (is_host i) in
      let! ports := of_option Throw_not_found (xbt_dict_remove (host_port nh'.2)
                      (sprintf_d (is_port_local i))) in
      modify (λ s, set_list_host
        (xbt_dict_set (list_host s) nh'.1 (mk_host (host_ip nh'.2) ports)) s)) s1) as Eu.
  { unfold unset_socket. eval_with (get_sock_eval s isp i Hi). rewrite Hh.
    eval_with (host_desc_eval s h hd Ehd). cbn [fst snd]. rewrite Hd'.
    unfold fd' in He1. destruct (isp =? bind_socket d).
    - eval_with (upd_sock_eval s isp i _ Hi). eval_with He1. done.
    - eval_with (ret_eval tt s). replace s with (set_fd (st_fd s) s) by (by destruct s).
      eval_with He1. done. }
  rewrite Eu. destruct (s32 (amount_socket d - 1) =? 0); simpl negb; cbv iota.
  - rewrite Hh. destruct (dict_remove_present _ (host_port (mk_host (host_ip hd)
      (xbt_dict_set (host_port hd) (sprintf_d (is_port_local i)) (mk_port (port_num d) (real_port d)
        (port_option d) (s32 (amount_socket d - 1)) (if isp =? bind_socket d then NULL else bind_socket d)))))
      (sprintf_d (is_port_local i))) as (ports & Hr & _); [simpl; rewrite dict_get_set; by eexists|].
    edestruct (remove_port_eval s1 _ _ (is_port_local i) ports Hh1 Hr) as [Hn Ho];
      [simpl; rewrite dict_get_set; by eexists|].
    eexists. split; [eval_with (host_desc_eval s1 h _ Hh1); cbn [fst snd]; eapply bind_eval;
      [by apply of_option_eval|apply modify_eval]|].
    split; [rewrite Hs1; done|]. split; [rewrite Hs1; done|]. split; [exact Hn|].
    intros n q Hnq. rewrite Ho by done. by rewrite Hq1.
  - exists s1. split; [done|]. split; [rewrite Hs1; done|]. split; [by rewrite Hs1|].
    split; [exact Hp1|]. intros n q Hnq. by rewrite Hq1.
Qed.

Lemma set_port_on_binding_eval s h port d isp i device :
  port_of s (MSG_host_get_name h) port = Some d → st_fd s !! isp = Some (FdSock i) →
  ∃ s', set_port_on_binding (Some h) port isp device s = Done tt s' ∧
    s' = set_fd (<[isp := FdSock (set_is_ref_nb (s32 (is_ref_nb i + 1)) i)]> (st_fd s))
           (set_list_host (list_host s') s) ∧
    port_of s' (MSG_host_get_name h) port =
      Some (mk_port (port_num d) (real_port d) (Z.lor (Z.lor (port_option d) PORT_BIND) device)
              (amount_socket d) isp) ∧
    (∀ n q, n ≠ MSG_host_get_name h ∨ q ≠ port → port_of s' n q = port_of s n q) ∧
    (∀ n, is_Some (host_of s n) → host_ip <$> host_of s' n = host_ip <$> host_of s n).
Proof.
  intros Hd Hi. destruct (host_of s (MSG_host_get_name h)) as [hd|] eqn:Ehd;
    [|by unfold port_of in Hd; rewrite Ehd in Hd].
  pose proof Hd as Hd'. rewrite (port_of_host s h hd _ Ehd) in Hd'.
  destruct (put_port_eval s (MSG_host_get_name h) hd port
    (mk_port (port_num d) (real_port d) (Z.lor (Z.lor (port_option d) PORT_BIND) device)
       (amount_socket d) isp) Ehd) as (s1 & He & Hs & Hn & Ho & Hp & Hq).
  exists (set_fd (<[isp := FdSock (set_is_ref_nb (s32 (is_ref_nb i + 1)) i)]> (st_fd s)) s1).
  assert (st_fd s1 = st_fd s) as Ef by (by rewrite Hs).
  split; [|split; [|split; [exact Hp|split; [exact Hq|]]]].
  - unfold set_port_on_binding. eval_with (host_desc_eval s h hd Ehd). cbn [fst snd]. rewrite Hd'.
    eval_with He. rewrite (upd_sock_eval s1 isp i) by (by rewrite Ef). by rewrite Ef.
  - rewrite Hs at 1. done.
  - intros n _. destruct (decide (n = MSG_host_get_name h)) as [-> |Hne].
    + change (host_ip <$> host_of s1 (MSG_host_get_name h) = host_ip <$> host_of s (MSG_host_get_name h)).
      by rewrite Hn, Ehd.
    + change (host_ip <$> host_of s1 n = host_ip <$> host_of s n). by rewrite Ho.
Qed.

Lemma get_binding_socket_host_eval s h port device :
  is_Some (host_of s (MSG_host_get_name h)) →
  get_binding_socket_host (Some h) port device s =
  Done (match port_of s (MSG_host_get_name h) port with
        | Some d => if has_flag (port_option d) PORT_BIND && has_flag device (port_option d)
                    then bind_socket d else NULL
        | None => NULL
        end) s.
Proof.
  intros [hd Hh]. unfold get_binding_socket_host. eval_with (host_desc_eval s h hd Hh).
  rewrite (port_of_host s h hd port Hh). cbn [fst snd].
  destruct (xbt_dict_get_or_null (host_port hd) (sprintf_d port)) as [d|]; [|done].
  destruct (has_flag (port_option d) PORT_BIND); [|done].
  by destruct (has_flag device (port_option d)).
Qed.

(** ** A free port *)

Lemma random_port_loop_spec fuel ports port q :
  0 <= q <= port → port < 2 ^ 16 → port - q < Z.of_nat fuel →
  xbt_dict_get_or_null ports (sprintf_d q) = None →
  ∃ p, get_random_port_loop fuel ports port = Some p ∧ q <= p <= port ∧
    xbt_dict_get_or_null ports (sprintf_d p) = None ∧
    ∀ r, p < r <= port → is_Some (xbt_dict_get_or_null ports (sprintf_d r)).
Proof.
  revert port. induction fuel as [|fuel IH]; intros port Hq Hp Hf Hfree; [lia|]. simpl.
  destruct (xbt_dict_get_or_null ports (sprintf_d port)) as [d|] eqn:E.
  - assert (q ≠ port) by (intros ->; congruence).
    rewrite uwrap_small by (unfold is_u; lia).
    destruct (IH (port - 1)) as (p & He & Hb & Hn & Hm); [lia|lia|lia|done|].
    exists p. split; [done|]. split; [lia|]. split; [done|].
    intros r Hr. destruct (decide (r = port)) as [-> |]; [by rewrite E; eexists|apply Hm; lia].
  - exists port. split; [done|]. split; [lia|]. split; [done|]. intros r Hr. lia.
Qed.

Lemma get_random_port_eval s h q :
  is_Some (host_of s (MSG_host_get_name h)) →
  is_u 16 q → port_of s (MSG_host_get_name h) q = None →
  ∃ p, get_random_port (Some h) s = Done p s ∧ is_u 16 p ∧ q <= p ∧
    port_of s (MSG_host_get_name h) p = None ∧
    ∀ r, p < r < 2 ^ 16 → is_Some (port_of s (MSG_host_get_name h) r).
Proof.
  intros [hd Hh] Hq Hfree. unfold is_u in *. rewrite (port_of_host s h hd q Hh) in Hfree.
  destruct (random_port_loop_spec port_fuel (host_port hd) 65535 q) as (p & He & Hb & Hn & Hm);
    [lia|lia|unfold port_fuel; rewrite Z2Nat.id; lia|done|].
  exists p. split; [|split; [lia|split; [lia|]]].
  - unfold get_random_port. eval_with (host_desc_eval s h hd Hh). by apply of_option_eval.
  - rewrite (port_of_host s h hd p Hh). split; [done|]. intros r Hr.
    rewrite (port_of_host s h hd r Hh). apply Hm. lia.
Qed.

(** ** The host list *)

Lemma next_free_ip_spec fuel ips ip :
  is_u 32 ip →
  match next_free_ip fuel ips ip with
  | Some a => is_u 32 a ∧ a ∉ dynar_model ips
  | None => ∀ k, (k < fuel)%nat → u32 (ip + Z.of_nat k) ∈ dynar_model ips
  end.
Proof.
  revert ip. induction fuel as [|fuel IH]; intros ip Hip; [intros k Hk; lia|]. simpl.
  rewrite dynar_search_model. destruct (find_index (Z.eqb ip) (dynar_model ips)) as [j|] eqn:E.
  - assert (ip ∈ dynar_model ips) as Hin.
    { apply find_index_Some in E as (x & Hx & Hp). apply Z.eqb_eq in Hp as ->.
      by eapply list_elem_of_lookup_2. }
    specialize (IH (u32 (ip + 1)) ltac:(apply uwrap_range; lia)).
    destruct (next_free_ip fuel ips (u32 (ip + 1))) as [a|]; [done|].
    intros [|k] Hk; [rewrite Z.add_0_r; by rewrite uwrap_small|].
    replace (u32 (ip + Z.of_nat (S k))) with (u32 (u32 (ip + 1) + Z.of_nat k)); [apply IH; lia|].
    unfold uwrap. rewrite Zplus_mod_idemp_l. f_equal. lia.
  - split; [done|]. intros Hin. eapply find_index_None in E; [|exact Hin].
    by rewrite Z.eqb_refl in E.
Qed.

(** Among more consecutive addresses than there are in use one is free. *)
Lemma next_free_ip_total ips ip :
  is_u 32 ip → Z.of_nat (length (dynar_model ips)) < 2 ^ 32 →
  ∃ a, next_free_ip (S (xbt_dynar_length ips)) ips ip = Some a ∧ is_u 32 a ∧ a ∉ dynar_model ips.
Proof.
  intros Hip Hlen. pose proof (next_free_ip_spec (S (xbt_dynar_length ips)) ips ip Hip) as H.
  destruct (next_free_ip _ _ _) as [a|]; [by exists a|]. exfalso.
  rewrite dynar_length_model in H.
  set (n := length (dynar_model ips)) in *.
  assert (NoDup ((λ k, u32 (ip + Z.of_nat k)) <$> seq 0 (S n))) as Hnd.
  { apply NoDup_fmap_2_strong; [|apply NoDup_seq].
    intros a b Ha%elem_of_seq Hb%elem_of_seq Heq. unfold uwrap in Heq.
    assert ((Z.of_nat a - Z.of_nat b) mod 2 ^ 32 = 0) as H0.
    { replace (Z.of_nat a - Z.of_nat b) with ((ip + Z.of_nat a) - (ip + Z.of_nat b)) by lia.
      by rewrite Zminus_mod, Heq, Z.sub_diag, Zmod_0_l. }
    apply Z.mod_divide in H0 as [q Hq]; [|lia]. assert (q = 0) by nia. lia. }
  assert (length ((λ k, u32 (ip + Z.of_nat k)) <$> seq 0 (S n)) <= n)%nat as Hle.
  { apply submseteq_length, NoDup_submseteq; [done|].
    intros x (k & -> & Hk%elem_of_seq)%list_elem_of_fmap. apply H. lia. }
  rewrite length_fmap, length_seq in Hle. lia.
Qed.

(** The address is the one the host asks for, when it asks for one. *)
Definition asked_ip (h : msg_host) (ip : Z) : Prop :=
  ∀ prop, MSG_host_get_property_value h "ip" = Some prop → ip = inet_addr prop.

(** The host is in the tables, with one of the addresses [ips] and no port in use. *)
Definition listed (s : st) (ips : list Z) (h : msg_host) : Prop :=
  ∃ ip, ip ∈ ips ∧ is_u 32 ip ∧ asked_ip h ip ∧
    xbt_dict_get_or_null (list_host s) (MSG_host_get_name h) = Some (mk_host ip xbt_dict_new) ∧
    xbt_dict_get_or_null (list_ip s) (inet_ntoa ip) = Some (MSG_host_get_name h).

Lemma add_host_listed `{!MsgLaws Wd} s ips h ip :
  is_u 32 ip → ip ∉ ips → Forall (is_u 32) ips → asked_ip h ip →
  ∃ s', add_host (MSG_host_get_name h) (inet_ntoa ip) ip s = Done tt s' ∧
    listed s' (ips ++ [ip]) h ∧
    (∀ h', h' ≠ h → listed s ips h' → listed s' (ips ++ [ip]) h') ∧
    st_w s' = st_w s.
Proof.
  intros Hip Hnew Hips Hask. eexists. split; [unfold add_host; ev; apply modify_eval|].
  split; [|split; [|done]].
  - exists ip. split; [set_solver|]. split; [done|]. split; [done|]. cbn. by rewrite !dict_get_set.
  - intros h' Hne (ip' & Hin & Hu & Ha & H1 & H2). exists ip'. split; [set_solver|]. split; [done|]. split; [done|]. cbn.
    rewrite !dict_get_set_ne; [done| |].
    + intros E%inet_ntoa_inj; [by subst|done|done].
    + intros E. apply Hne. apply (f_equal MSG_get_host_by_name) in E. rewrite !host_by_name in E.
      congruence.
Qed.

(** The positions, from [i] on, of the hosts without an "ip" property. *)
Fixpoint missing (i : nat) (work : list msg_host) : list nat :=
  match work with
  | [] => []
  | h :: work => match MSG_host_get_property_value h "ip" with
                 | None => i :: missing (S i) work
                 | Some _ => missing (S i) work
                 end
  end.

Lemma missing_spec i work j :
  j ∈ missing i work ↔
  ∃ k h, j = (i + k)%nat ∧ work !! k = Some h ∧ MSG_host_get_property_value h "ip" = None.
Proof.
  revert i. induction work as [|h work IH]; intros i; simpl; [set_solver|].
  destruct (MSG_host_get_property_value h "ip") as [prop|] eqn:E.
  - rewrite IH. split.
    + intros (k & h' & -> & Hk & Hp). exists (S k), h'. split; [lia|done].
    + intros ([|k] & h' & -> & Hk & Hp); [simplify_eq/=|]. exists k, h'. split; [lia|done].
  - rewrite elem_of_cons, IH. split.
    + intros [-> |(k & h' & -> & Hk & Hp)]; [exists 0%nat, h; split; [lia|done]|].
      exists (S k), h'. split; [lia|done].
    + intros ([|k] & h' & -> & Hk & Hp); [left; lia|]. right. exists k, h'. split; [lia|done].
Qed.

Lemma missing_ge i work j : j ∈ missing i work → (i <= j)%nat.
Proof. intros (k & h & -> & _)%missing_spec. lia. Qed.

Lemma missing_nodup i work : NoDup (missing i work).
Proof.
  revert i. induction work as [|h work IH]; intros i; simpl; [constructor|].
  destruct (MSG_host_get_property_value h "ip"); [done|]. constructor; [|done].
  intros Hi%missing_ge. lia.
Qed.

Lemma missing_length i work : (length (missing i work) <= length work)%nat.
Proof.
  revert i. induction work as [|h work IH]; intros i; simpl; [done|].
  specialize (IH (S i)). destruct (MSG_host_get_property_value h "ip"); simpl; lia.
Qed.

(** The addresses the platform gives are written the usual way and differ. *)
Definition given_ok (work : list msg_host) (ips : list Z) : Prop :=
  (∀ h prop, h ∈ work → MSG_host_get_property_value h "ip" = Some prop →
     ∃ ip, is_u 32 ip ∧ prop = inet_ntoa ip ∧ ip ∉ ips) ∧
  NoDup (omap (λ h, MSG_host_get_property_value h "ip") work).

Lemma given_ok_cons h work ips ip :
  MSG_host_get_property_value h "ip" = Some (inet_ntoa ip) →
  given_ok (h :: work) ips → given_ok work (ips ++ [ip]).
Proof.
  intros Hh [Hg Hnd]. simpl in Hnd. rewrite Hh in Hnd. apply list.NoDup_cons in Hnd as [Hni Hnd].
  split; [|done]. intros h' prop Hin Hp. destruct (Hg h' prop) as (ip' & Hu & -> & Hn); [set_solver|done|].
  exists ip'. split; [done|]. split; [done|]. rewrite elem_of_app, list_elem_of_singleton.
  intros [?| ->]; [done|]. apply Hni, list_elem_of_omap. by exists h'.
Qed.

Lemma init_host_given_eval `{!MsgLaws Wd} work : ∀ i no_ip ips s old,
  NoDup (old ++ work) → given_ok work (dynar_model ips) → Forall (is_u 32) (dynar_model ips) →
  (∀ h, h ∈ old → listed s (dynar_model ips) h) →
  ∃ r s', init_host_given i work no_ip ips s = Done r s' ∧
    dynar_model r.1 = dynar_model no_ip ++ missing i work ∧
    Forall (is_u 32) (dynar_model r.2) ∧
    (length (dynar_model r.2) + length (missing i work) = length (dynar_model ips) + length work)%nat ∧
    (∀ h, h ∈ old → listed s' (dynar_model r.2) h) ∧
    (∀ h, h ∈ work → MSG_host_get_property_value h "ip" ≠ None → listed s' (dynar_model r.2) h).
Proof.
  induction work as [|h work IH]; intros i no_ip ips s old Hnd Hg Hips Hold.
  { exists (no_ip, ips), s. simpl. rewrite app_nil_r. repeat split; auto; set_solver. }
  simpl init_host_given. simpl missing. destruct (MSG_host_get_property_value h "ip") as [prop|] eqn:Ep.
  - destruct (proj1 Hg h prop) as (ip & Hu & -> & Hni); [set_solver|done|].
    rewrite inet_addr_ntoa_eq by done.
    assert (asked_ip h ip) as Hask by (intros q [= <-]%(eq_trans (eq_sym Ep)); by rewrite inet_addr_ntoa_eq).
    destruct (add_host_listed s (dynar_model ips) h ip Hu Hni Hips Hask) as (s1 & He & Hl & Ho & _).
    destruct (IH (S i) no_ip (xbt_dynar_push ips ip) s1 (old ++ [h])) as (r & s' & Hr & Hm & Hf & Hc & H1 & H2).
    + by rewrite <- app_assoc.
    + rewrite dynar_push_model. by eapply given_ok_cons.
    + rewrite dynar_push_model. apply Forall_app; auto.
    + rewrite dynar_push_model. intros h' [Hin| ->%list_elem_of_singleton]%elem_of_app; [|done].
      apply Ho; [|auto]. intros ->. apply list.NoDup_app in Hnd as (_ & Hd & _). apply (Hd h Hin). set_solver.
    + exists r, s'. rewrite dynar_push_model, length_app in Hc. simpl in Hc |- *.
      split; [eval_with He; exact Hr|]. repeat split; try done; [lia|set_solver|].
      intros h' Hin Hp. apply elem_of_cons in Hin as [-> |Hin]; [apply H1; set_solver|auto].
  - destruct (IH (S i) (xbt_dynar_push no_ip i) ips s old) as (r & s' & Hr & Hm & Hf & Hc & H1 & H2).
    + apply list.NoDup_app in Hnd as (H1 & H2 & H3). apply list.NoDup_cons in H3 as [_ H3].
      apply list.NoDup_app. repeat split; [done| |done]. intros x Hx ?. apply (H2 x Hx). set_solver.
    + destruct Hg as [Hg Hn]. split; [set_solver|]. simpl in Hn. by rewrite Ep in Hn.
    + done.
    + done.
    + exists r, s'. rewrite dynar_push_model, <- app_assoc in Hm. simpl in Hc |- *.
      repeat split; try done; [lia|].
      intros h' Hin Hp. apply elem_of_cons in Hin as [-> |Hin]; [done|auto].
Qed.

Lemma init_host_rest_eval `{!MsgLaws Wd} work js : ∀ fuel no_ip ips ip s (old : list msg_host),
  (length js <= fuel)%nat → dynar_model no_ip = js → NoDup js → NoDup work →
  (∀ j, j ∈ js → ∃ h, work !! j = Some h ∧ (h ∉ old) ∧ MSG_host_get_property_value h "ip" = None) →
  is_u 32 ip →
  Forall (is_u 32) (dynar_model ips) →
  Z.of_nat (length (dynar_model ips) + length js) < 2 ^ 32 →
  (∀ h, h ∈ old → listed s (dynar_model ips) h) →
  ∃ s' ips', init_host_rest fuel work no_ip ips ip s = Done tt s' ∧
    (∀ h, h ∈ old → listed s' ips' h) ∧
    (∀ j h, j ∈ js → work !! j = Some h → listed s' ips' h).
Proof.
  induction js as [|j js IH]; intros fuel no_ip ips ip s old Hf Hno Hnd Hw Hjs Hip Hips Hlen Hold.
  { exists s, (dynar_model ips). split; [|set_solver].
    destruct fuel; simpl; by rewrite dynar_is_empty_model, bool_decide_eq_true_2. }
  destruct fuel as [|fuel]; [simpl in Hf; lia|]. simpl in Hf, Hlen. cbn [init_host_rest].
  rewrite dynar_is_empty_model, bool_decide_eq_false_2 by (by rewrite Hno).
  destruct (dynar_shift_cons _ _ _ _ Hno) as (no' & Hsh & Hno').
  destruct (Hjs j ltac:(set_solver)) as (h & Hwj & Hni & Hnone).
  destruct (next_free_ip_total ips ip Hip ltac:(lia)) as (a & Ha & Hau & Han).
  assert (asked_ip h a) as Hask by (intros q Hq; congruence).
  destruct (add_host_listed s (dynar_model ips) h a Hau Han Hips Hask) as (s1 & He & Hl & Ho & _).
  apply list.NoDup_cons in Hnd as [Hjn Hnd].
  destruct (IH fuel no' (xbt_dynar_push ips a) a s1 (h :: old)) as (s' & ips' & Hr & H1 & H2);
    try done; [lia| | | | |].
  - intros j' Hj'. destruct (Hjs j' ltac:(set_solver)) as (h' & Hw' & Hn' & Hp'). exists h'.
    split; [done|]. split; [|done]. rewrite not_elem_of_cons. split; [|done]. intros ->.
    apply Hjn. by rewrite (NoDup_lookup work j j' h Hw Hwj Hw').
  - rewrite dynar_push_model. apply Forall_app; auto.
  - rewrite dynar_push_model, length_app. simpl. lia.
  - rewrite dynar_push_model. intros h' [-> |Hin]%elem_of_cons; [done|].
    apply Ho; [|auto]. by intros ->.
  - exists s', ips'. split.
    + eapply bind_eval; [by apply of_option_eval|]. cbn [fst snd].
      eapply bind_eval; [by apply of_option_eval|]. cbv beta.
      eapply bind_eval; [by apply of_option_eval|]. cbv beta. eval_with He. exact Hr.
    + split; [intros h' Hin; apply H1; set_solver|].
      intros j' h' [-> |Hin]%elem_of_cons Hw'; [|by eapply H2].
      rewrite Hwj in Hw'. injection Hw' as <-. apply H1. set_solver.
Qed.

(** The two lookups of a listed host. *)
Lemma listed_lookup `{!MsgLaws Wd} s ips h :
  listed s ips h →
  ∃ ip, ip ∈ ips ∧ asked_ip h ip ∧ get_ip_of_host (Some h) s = Done ip s ∧ get_host_by_ip ip s = Done (Some h) s ∧
    ∀ port, port_of s (MSG_host_get_name h) port = None.
Proof.
  intros (ip & Hin & Hu & Ha & Hh & Hi). exists ip. split; [done|]. split; [done|]. split; [|split].
  - unfold get_ip_of_host. by eval_with (host_desc_eval s h _ Hh).
  - unfold get_host_by_ip. ev. rewrite Hi. unfold ret. by rewrite host_by_name.
  - intros port. rewrite (port_of_host s h _ port Hh). simpl. apply dict_get_new.
Qed.

End DataUtilsLemmas.

(** ** Properties *)

Section DataUtilsProperties.
Context `{X : Xbt} `{Wd : World} `{!XbtLaws X}.

(** The port table counts the sockets of a port. [register_port] adds one
    socket to the port asked for and to no other port of any host, after which
    [is_port_in_use] answers true; nothing else of the state changes. *)
Lemma register_port_counts s h port :
  is_Some (host_of s (MSG_host_get_name h)) → ports_ok s →
  ∃ s', register_port (Some h) port s = Done tt s' ∧ s' = set_list_host (list_host s') s ∧
    uses s' (MSG_host_get_name h) port = uses s (MSG_host_get_name h) port + 1 ∧
    (∀ n q, n ≠ MSG_host_get_name h ∨ q ≠ port → uses s' n q = uses s n q) ∧
    is_port_in_use (Some h) port s' = Done true s'.
Proof.
  intros Hh Hok. destruct (register_port_uses s h port Hh Hok) as (s' & He & Hs & Hu & Ho).
  exists s'. do 4 (split; [done|]).
  destruct (register_port_eval s h port Hh) as (s2 & He2 & _ & Hp & _ & Hip).
  assert (s2 = s') as -> by congruence.
  rewrite is_port_in_use_eval.
  - by rewrite Hp.
  - destruct Hh as [hd Hh]. specialize (Hip _ (ex_intro _ hd Hh)). rewrite Hh in Hip.
    destruct (host_of s' (MSG_host_get_name h)); [by eexists|done].
Qed.

(** [unset_socket] takes one socket away from the port of the socket, frees
    the port exactly when it was the last one, forgets the bound socket (and drops
    the reference the table held on it) exactly when it is this one, and leaves
    every other port as it was. *)
Lemma unset_socket_counts s pid isp i h d :
  st_fd s !! isp = Some (FdSock i) → is_host i = Some h →
  port_of s (MSG_host_get_name h) (is_port_local i) = Some d → ports_ok s →
  ∃ s', unset_socket pid isp s = Done tt s' ∧
    uses s' (MSG_host_get_name h) (is_port_local i) = uses s (MSG_host_get_name h) (is_port_local i) - 1 ∧
    (port_of s' (MSG_host_get_name h) (is_port_local i) = None ↔ amount_socket d = 1) ∧
    (∀ d', port_of s' (MSG_host_get_name h) (is_port_local i) = Some d' →
       bind_socket d' = if isp =? bind_socket d then NULL else bind_socket d) ∧
    st_fd s' = (if isp =? bind_socket d
                then <[isp := FdSock (set_is_ref_nb (s32 (is_ref_nb i - 1)) i)]> (st_fd s)
                else st_fd s) ∧
    (∀ n q, n ≠ MSG_host_get_name h ∨ q ≠ is_port_local i → port_of s' n q = port_of s n q).
Proof.
  intros Hi Hh Hd Hok. destruct (unset_socket_eval s pid isp i h d Hi Hh Hd)
    as (s' & He & _ & Hf & Hp & Ho).
  pose proof (Hok _ _ _ Hd) as Ha. rewrite (swrap_small 32 (amount_socket d - 1)) in Hp
    by (unfold is_s; lia).
  exists s'. split; [done|]. unfold uses. rewrite Hp, Hd.
  destruct (amount_socket d - 1 =? 0) eqn:E; bool_to_prop.
  - split; [lia|]. split; [split; [lia|done]|]. by split.
  - split; [simpl; lia|]. split; [split; [done|lia]|]. split; [|done]. by intros d' [= <-].
Qed.

(** C20: after [init_host_list] every host of the platform has an address of its
    own, the one of its property "ip" when it has this property, all its ports are free,
    and the address leads back to it: [get_host_by_ip] inverts [get_ip_of_host]. The
    loops that look for free addresses end. This is for hosts that differ and whose
    properties are distinct addresses, in the form in which [inet_ntoa] prints them. *)
Theorem init_host_list_addresses `{!MsgLaws Wd} s :
  NoDup (MSG_hosts_as_dynar (st_w s)) → given_ok (MSG_hosts_as_dynar (st_w s)) [] →
  Z.of_nat (length (MSG_hosts_as_dynar (st_w s))) < 2 ^ 32 →
  ∃ s', init_host_list s = Done tt s' ∧
    ∀ h, h ∈ MSG_hosts_as_dynar (st_w s) →
      ∃ ip, get_ip_of_host (Some h) s' = Done ip s' ∧ get_host_by_ip ip s' = Done (Some h) s' ∧
        (∀ prop, MSG_host_get_property_value h "ip" = Some prop → ip = inet_addr prop) ∧
        ∀ port, port_of s' (MSG_host_get_name h) port = None.
Proof.
  intros Hnd Hg Hlen. set (work := MSG_hosts_as_dynar (st_w s)) in *.
  destruct (init_host_given_eval work 0 xbt_dynar_new xbt_dynar_new s [])
    as (r & s1 & Hr & Hm & Hf & Hc & _ & H1); [done|by rewrite dynar_new_model| |set_solver|].
  { rewrite dynar_new_model. constructor. }
  rewrite !dynar_new_model in *. simpl in Hm, Hc.
  set (old := filter (λ h, MSG_host_get_property_value h "ip" ≠ None) work).
  destruct (init_host_rest_eval work (missing 0 work) (xbt_dynar_length r.1) r.1 r.2 1 s1 old)
    as (s' & ips' & He & Ho & Hj); [|done|apply missing_nodup|done| |done|done| | |].
  - by rewrite dynar_length_model, Hm.
  - intros j (k & h & -> & Hk & Hp)%missing_spec. exists h. split; [done|]. split; [|done].
    unfold old. rewrite list_elem_of_filter. by intros [? _].
  - pose proof (missing_length 0 work). lia.
  - intros h [Hp Hin]%list_elem_of_filter. auto.
  - exists s'. split; [unfold init_host_list; ev; eval_with Hr; exact He|].
    intros h Hin. assert (listed s' ips' h) as Hl.
    { destruct (MSG_host_get_property_value h "ip") as [prop|] eqn:Ep.
      - apply Ho. apply list_elem_of_filter. split; [by rewrite Ep|done].
      - apply list_elem_of_lookup_1 in Hin as [k Hk]. apply (Hj k h); [|done].
        apply missing_spec. by exists k, h. }
    destruct (listed_lookup s' ips' h Hl) as (ip & _ & Ha & Hip & Hhost & Hports). by exists ip.
Qed.

End DataUtilsProperties.

(** The state after [init_host_list] on the platform of the reference world. *)
Definition hosts_example : st :=
  run_state init_host_list (ref_state (toy_world regs_zero (λ _, 0))).

Lemma init_host_list_addresses_witness :
  ∃ s', init_host_list (ref_state (toy_world regs_zero (λ _, 0))) = Done tt s' ∧
    ∀ h, h ∈ ["alice"; "bob"; "carol"]%string →
      ∃ ip, get_ip_of_host (Some h) s' = Done ip s' ∧ get_host_by_ip ip s' = Done (Some h) s' ∧
        (∀ prop, (if String.eqb h "bob" then Some "10.0.0.5"%string else None) = Some prop → ip = inet_addr prop) ∧
        ∀ port, port_of s' h port = None.
Proof.
  apply (init_host_list_addresses (ref_state (toy_world regs_zero (λ _, 0)))).
  - apply (bool_decide_unpack _). vm_compute. exact I.
  - split; [|apply (bool_decide_unpack _); vm_compute; exact I].
    intros h prop _ Hp. change (MSG_host_get_property_value h "ip") with
      (if String.eqb h "bob" then Some "10.0.0.5"%string else None) in Hp.
    destruct (String.eqb h "bob"); [injection Hp as <-|discriminate].
    exists (inet_addr "10.0.0.5"). split; [|split]; [split; [by vm_compute|by vm_compute]| |set_solver].
    vm_compute. reflexivity.
  - by vm_compute.
Defined.
