(* ===== verification/PtraceUtils.v ===== *)
(** src/src/ptrace_utils.c: access to the memory and the registers of the traced
    processes.

    Buffers are lists of bytes. [ptrace_cpy] returns the bytes it stores at its
    destination, which may be more than the length asked for; [ptrace_poke] reads
    whole words of its source and continues with [stray_byte] past its end.
    [ptrace_find_free_binding_port], used only with address translation, is in
    Translate. *)
From S2P Require Import Prelude Libc External State Monad Reference DataUtils.
Open Scope sim_scope.

(** The names of the system calls, by number. *)
Definition syscall_list : list string := [
  "read"; "write"; "open"; "close"; "stat"; "fstat"; "lstat"; "poll"; "lseek"; "mmap";
  "mprotect"; "munmap"; "brk"; "rt_sigaction"; "rt_sigprocmask"; "rt_sigreturn"; "ioctl";
  "pread64"; "pwrite64"; "readv"; "writev"; "access"; "pipe"; "select"; "sched_yield"; "mremap";
  "msync"; "mincore"; "madvise"; "shmget"; "shmat"; "shmctl"; "dup"; "dup2"; "pause";
  "nanosleep"; "getitimer"; "alarm"; "setitimer"; "getpid"; "sendfile"; "socket"; "connect";
  "accept"; "sendto"; "recvfrom"; "sendmsg"; "recvmsg"; "shutdown"; "bind"; "listen";
  "getsockname"; "getpeername"; "socketpair"; "setsockopt"; "getsockopt"; "clone"; "fork";
  "vfork"; "execve"; "exit"; "wait4"; "kill"; "uname"; "semget"; "semop"; "semctl"; "shmdt";
  "msgget"; "msgsnd"; "msgrcv"; "msgctl"; "fcntl"; "flock"; "fsync"; "fdatasync"; "truncate";
  "ftruncate"; "getdents"; "getcwd"; "chdir"; "fchdir"; "rename"; "mkdir"; "rmdir"; "creat";
  "link"; "unlink"; "symlink"; "readlink"; "chmod"; "fchmod"; "chown"; "fchown"; "lchown";
  "umask"; "gettimeofday"; "getrlimit"; "getrusage"; "sysinfo"; "times"; "ptrace"; "getuid";
  "syslog"; "getgid"; "setuid"; "setgid"; "geteuid"; "getegid"; "setpgid"; "getppid"; "getpgrp";
  "setsid"; "setreuid"; "setregid"; "getgroups"; "setgroups"; "setresuid"; "getresuid";
  "setresgid"; "getresgid"; "getpgid"; "setfsuid"; "setfsgid"; "getsid"; "capget"; "capset";
  "rt_sigpending"; "rt_sigtimedwait"; "rt_sigqueueinfo"; "rt_sigsuspend"; "sigaltstack"; "utime";
  "mknod"; "uselib"; "personality"; "ustat"; "statfs"; "fstatfs"; "sysfs"; "getpriority";
  "setpriority"; "sched_setparam"; "sched_getparam"; "sched_setscheduler"; "sched_getscheduler";
  "sched_get_priority_max"; "sched_get_priority_min"; "sched_rr_get_interval"; "mlock";
  "munlock"; "mlockall"; "munlockall"; "vhangup"; "modify_ldt"; "pivot_root"; "_sysctl"; "prctl";
  "arch_prctl"; "adjtimex"; "setrlimit"; "chroot"; "sync"; "acct"; "settimeofday"; "mount";
  "umount2"; "swapon"; "swapoff"; "reboot"; "sethostname"; "setdomainname"; "iopl"; "ioperm";
  "create_module"; "init_module"; "delete_module"; "get_kernel_syms"; "query_module"; "quotactl";
  "nfsservctl"; "getpmsg"; "putpmsg"; "afs_syscall"; "tuxcall"; "security"; "gettid";
  "readahead"; "setxattr"; "lsetxattr"; "fsetxattr"; "getxattr"; "lgetxattr"; "fgetxattr";
  "listxattr"; "llistxattr"; "flistxattr"; "removexattr"; "lremovexattr"; "fremovexattr";
  "tkill"; "time"; "futex"; "sched_setaffinity"; "sched_getaffinity"; "set_thread_area";
  "io_setup"; "io_destroy"; "io_getevents"; "io_submit"; "io_cancel"; "get_thread_area";
  "lookup_dcookie"; "epoll_create"; "epoll_ctl_old"; "epoll_wait_old"; "remap_file_pages";
  "getdents64"; "set_tid_address"; "restart_syscall"; "semtimedop"; "fadvise64"; "timer_create";
  "timer_settime"; "timer_gettime"; "timer_getoverrun"; "timer_delete"; "clock_settime";
  "clock_gettime"; "clock_getres"; "clock_nanosleep"; "exit_group"; "epoll_wait"; "epoll_ctl";
  "tgkill"; "utimes"; "vserver"; "mbind"; "set_mempolicy"; "get_mempolicy"; "mq_open";
  "mq_unlink"; "mq_timedsend"; "mq_timedreceive"; "mq_notify"; "mq_getsetattr"; "kexec_load";
  "waitid"; "add_key"; "request_key"; "keyctl"; "ioprio_set"; "ioprio_get"; "inotify_init";
  "inotify_add_watch"; "inotify_rm_watch"; "migrate_pages"; "openat"; "mkdirat"; "mknodat";
  "fchownat"; "futimesat"; "newfstatat"; "unlinkat"; "renameat"; "linkat"; "symlinkat";
  "readlinkat"; "fchmodat"; "faccessat"; "pselect6"; "ppoll"; "unshare"; "set_robust_list";
  "get_robust_list"; "splice"; "tee"; "sync_file_range"; "vmsplice"; "move_pages"; "utimensat";
  "epoll_pwait"; "signalfd"; "timerfd_create"; "eventfd"; "fallocate"; "timerfd_settime";
  "timerfd_gettime"; "accept4"; "signalfd4"; "eventfd2"; "epoll_create1"; "dup3"; "pipe2";
  "inotify_init1"; "preadv"; "pwritev"]%string.

Definition sizeof_long : Z := 8.

Section PtraceUtils.
Context `{X : Xbt} `{Wd : World}.

(** ** Memory *)

(** One [PTRACE_PEEKDATA]: counted, then checked. *)
Definition peek_long (child addr : Z) : M Z :=
  let! r := gets (λ s, ptrace_peekdata (st_w s) child addr) in
  increment_nb_peek ;;
  of_option Throw_system_error r.

(** The loop [while (size_copy < len)]. The index [i] is an [int]: the increment of the
    greatest one, after 2^31 words, overflows (undefined in C; it wraps here). *)
Fixpoint cpy_loop (fuel : nat) (child src i size_copy len : Z) : M (list Z * Z) :=
  if size_copy <? len then
    match fuel with
    | O => fail Out_of_fuel
    | S fuel =>
      let! v := peek_long child (src + i * sizeof_long) in
      let! r := cpy_loop fuel child src (s32 (i + 1)) (size_copy + sizeof_long) len in
      ret (le_encode 8 v ++ r.1, r.2)
    end
  else ret ([], i).

Definition ptrace_cpy (child src length : Z) : M (list Z) :=
  let len := Z.land length (u64 (Z.lnot 0x8)) in
  let! r := cpy_loop (Z.to_nat (len / sizeof_long + 1)) child src 0 0 len in
  let rest := Z.land length 0x8 in
  if negb (rest =? 0) then
    let! v := peek_long child (src + r.2 * sizeof_long) in
    ret (r.1 ++ take (Z.to_nat rest) (le_encode 8 v))
  else ret r.1.

(** The eight bytes at offset [off] of a buffer. *)
Definition buffer_word (w : W) (src : list Z) (off : nat) : Z :=
  le_decode (take 8 (drop off src ++ replicate 8 (stray_byte w))).

Fixpoint poke_loop (fuel : nat) (pid dst : Z) (src : list Z) (size_copy len : Z) : M unit :=
  if size_copy <? len then
    match fuel with
    | O => fail Out_of_fuel
    | S fuel =>
      let! r := gets (λ s, ptrace_pokedata (st_w s) pid (dst + size_copy)
                             (buffer_word (st_w s) src (Z.to_nat size_copy))) in
      increment_nb_poke ;;
      let! w := of_option Throw_system_error r in
      modify (set_w w) ;;
      poke_loop fuel pid dst src (size_copy + sizeof_long) len
    end
  else ret tt.

Definition ptrace_poke (pid dst : Z) (src : list Z) (len : Z) : M unit :=
  poke_loop (Z.to_nat (len / sizeof_long + 1)) pid dst src 0 len.

(** ** Execution and registers *)

Definition ptrace_resume_process (pid : Z) : M unit :=
  increment_nb_syscall ;;
  upd_world Throw_system_error (λ w, ptrace_syscall w pid).

Definition ptrace_detach_process (pid : Z) : M unit :=
  increment_nb_detach ;;
  upd_world Throw_system_error (λ w, ptrace_detach w pid).

(** [waitpid] where its result is ignored. *)
Definition wait_ignored (pid : Z) : M unit := λ s,
  match waitpid (st_w s) pid with Some r => Done tt (set_w r.2 s) | None => Done tt s end.

Definition getregs (pid : Z) : M user_regs :=
  increment_nb_getregs ;;
  ask_world Throw_system_error (λ w, ptrace_getregs w pid).

Definition setregs (pid : Z) (r : user_regs) : M unit :=
  increment_nb_setregs ;;
  upd_world Throw_system_error (λ w, ptrace_setregs w pid r).

Definition ptrace_get_register (pid : Z) : M reg_s :=
  let! regs := getregs pid in
  ret (mk_reg (orig_rax regs) (rax regs)
         [rdi regs; rsi regs; rdx regs; r10 regs; r8 regs; r9 regs]).

Definition ptrace_neutralize_syscall (pid : Z) : M unit :=
  let! regs := getregs pid in
  setregs pid (set_orig_rax SYS_tuxcall regs) ;;
  ptrace_resume_process pid ;;
  wait_ignored pid.

Definition ptrace_restore_syscall (pid syscall result : Z) : M unit :=
  let! regs := getregs pid in
  setregs pid (set_rax result (set_orig_rax syscall regs)).

Definition ptrace_rewind_syscalls (pid : Z) : M unit :=
  let! regs := getregs pid in
  setregs pid (set_rip (u64 (rip regs - 2)) (set_rax (orig_rax regs) regs)).

Definition ptrace_get_pid_clone (pid : Z) : M Z :=
  increment_nb_geteventmsg ;;
  let! r := ask_world Throw_system_error (λ w, ptrace_geteventmsg w pid) in
  ret (s32 r).

(** Make the tracee run [socket(AF_INET, SOCK_STREAM, 0)] and come back. *)
Definition ptrace_record_socket (pid : Z) : M Z :=
  let! save_reg := getregs pid in
  let! reg := getregs pid in
  setregs pid (set_args AF_INET SOCK_STREAM 0 (set_orig_rax SYS_socket reg)) ;;
  ptrace_resume_process pid ;;
  wait_ignored pid ;;
  let! reg := getregs pid in
  let res := s32 (rax reg) in
  setregs pid save_reg ;;
  ptrace_rewind_syscalls pid ;;
  ptrace_resume_process pid ;;
  wait_ignored pid ;;
  ret res.

End PtraceUtils.

(** ** Copies between SimTerpose and a tracee *)

(** The next multiple of eight. *)
Definition round8 (n : Z) : Z := 8 * ((n + 7) / 8).

Lemma round8_bounds n : n <= round8 n < n + 8 ∧ (round8 n = n ↔ n mod 8 = 0).
Proof. unfold round8. split; [dlia|]. split; intros; dlia. Qed.

(** [length & ~0x8] and [length & 0x8]: bit 3 is taken out. *)
Lemma land_rest n :
  0 <= n < 2 ^ 63 →
  (Z.land n 0x8 = 0 ∧ Z.land n (u64 (Z.lnot 0x8)) = n) ∨
  (Z.land n 0x8 = 8 ∧ Z.land n (u64 (Z.lnot 0x8)) = n - 8 ∧ 8 <= n).
Proof.
  intros Hn. assert (Z.land n (u64 (Z.lnot 0x8)) = n - Z.land n 0x8) as E.
  { rewrite Z.sub_nocarry_ldiff.
    - apply Z.bits_inj'; intros i Hi. rewrite Z.land_spec, Z.ldiff_spec, Z.land_spec.
      destruct (decide (i < 64)) as [Hl|Hl].
      + unfold uwrap. rewrite Z.mod_pow2_bits_low, Z.lnot_spec by lia. by destruct (Z.testbit n i).
      + rewrite (Z.bits_above_log2 n i); [done|lia|].
        destruct (decide (n = 0)) as [->|]; [simpl; lia|].
        apply Z.log2_lt_pow2; [lia|]. apply Z.lt_le_trans with (2 ^ 63); [lia|].
        apply Z.pow_le_mono_r; lia.
    - apply Z.bits_inj'; intros i Hi.
      rewrite Z.ldiff_spec, Z.land_spec, Z.bits_0. by destruct (Z.testbit n i), (Z.testbit 8 i). }
  assert (Z.land n 0x8 = 0 ∨ Z.land n 0x8 = 8) as [H|H].
  { destruct (Z.testbit n 3) eqn:T; [right|left]; apply Z.bits_inj'; intros i Hi;
      rewrite Z.land_spec; change 8 with (2 ^ 3); rewrite ?Z.bits_0, Z.pow2_bits_eqb by lia;
      destruct (3 =? i) eqn:Ei; bool_to_prop; subst; rewrite ?T; by rewrite ?andb_false_r. }
  - left; split; lia.
  - right. assert (0 <= Z.land n (u64 (Z.lnot 0x8))) by (apply Z.land_nonneg; lia). lia.
Qed.

Section PtraceTheorems.
Context `{X : Xbt} `{Wd : World} `{!TraceLaws Wd}.

Lemma set_cnt_cnt c c' s : set_cnt c (set_cnt c' s) = set_cnt c s.
Proof. done. Qed.

Lemma peek_long_eval s child addr bs :
  mem_bytes (st_w s) child addr 8 = Some bs →
  ∃ c, peek_long child addr s = Done (le_decode bs) (set_cnt c s).
Proof.
  intros H. eexists. unfold peek_long. ev. ev.
  apply of_option_eval. by apply peek_word.
Qed.

Lemma peek_long_unmapped s child addr :
  mem_bytes (st_w s) child addr 8 = None →
  ∃ c, peek_long child addr s = Failed Throw_system_error (set_cnt c s).
Proof. intros H. eexists. unfold peek_long. ev. ev. by rewrite peek_unmapped. Qed.

Lemma word_bytes w pid a bs : mem_bytes w pid a 8 = Some bs → le_encode 8 (le_decode bs) = bs.
Proof.
  intros H. rewrite <- (mem_bytes_length _ _ _ _ _ H). apply le_encode_decode.
  by eapply mem_bytes_range.
Qed.

Lemma cpy_loop_done fuel child src i size len s :
  len <= size → cpy_loop fuel child src i size len s = Done ([], i) s.
Proof. intros H. destruct fuel; simpl; by rewrite (proj2 (Z.ltb_ge _ _)) by lia. Qed.

Lemma cpy_loop_S fuel child src i size len :
  size < len →
  cpy_loop (S fuel) child src i size len =
  (let! v := peek_long child (src + i * sizeof_long) in
   let! r := cpy_loop fuel child src (s32 (i + 1)) (size + sizeof_long) len in
   ret (le_encode 8 v ++ r.1, r.2)).
Proof. intros H. unfold cpy_loop at 1. by rewrite (proj2 (Z.ltb_lt _ _) H). Qed.

(** [n] turns copy [n] words, as long as the index does not overflow. *)
Lemma cpy_loop_eval n : ∀ fuel child src i len s bs,
  (n <= fuel)%nat → 0 <= i → i + Z.of_nat n < 2 ^ 31 → n = Z.to_nat ((len - 8 * i + 7) / 8) →
  mem_bytes (st_w s) child (src + i * 8) (n * 8) = Some bs →
  ∃ c, cpy_loop fuel child src i (8 * i) len s = Done (bs, i + Z.of_nat n) (set_cnt c s).
Proof.
  induction n as [|n IH]; intros fuel child src i len s bs Hf Hi Hs Hn Hm.
  { injection Hm as <-. exists (st_cnt s). rewrite cpy_loop_done by dlia. rewrite Z.add_0_r.
    by destruct s. }
  destruct fuel as [|fuel]; [lia|]. rewrite cpy_loop_S, swrap_small by (dlia || by split; lia).
  apply (mem_bytes_app _ _ _ 8 (n * 8)) in Hm as (l & k & -> & Hl & Hk).
  destruct (peek_long_eval s child (src + i * 8) l Hl) as [c Hc].
  destruct (IH fuel child src (i + 1) len (set_cnt c s) k) as [c' Hc']; [lia|lia|lia|dlia| |].
  { rewrite <- Hk. simpl st_w. f_equal. lia. }
  replace (8 * (i + 1)) with (8 * i + sizeof_long) in Hc' by (unfold sizeof_long; lia).
  exists c'. eval_with Hc. eval_with Hc'.
  rewrite set_cnt_cnt, (word_bytes _ _ _ _ Hl). unfold ret; simpl. do 2 f_equal. lia.
Qed.

Lemma cpy_loop_unmapped n : ∀ fuel child src i len s,
  (n <= fuel)%nat → 0 <= i → i + Z.of_nat n < 2 ^ 31 → n = Z.to_nat ((len - 8 * i + 7) / 8) →
  mem_bytes (st_w s) child (src + i * 8) (n * 8) = None →
  ∃ c, cpy_loop fuel child src i (8 * i) len s = Failed Throw_system_error (set_cnt c s).
Proof.
  induction n as [|n IH]; intros fuel child src i len s Hf Hi Hs Hn Hm; [done|].
  destruct fuel as [|fuel]; [lia|]. rewrite cpy_loop_S, swrap_small by (dlia || by split; lia).
  destruct (mem_bytes (st_w s) child (src + i * 8) 8) as [l|] eqn:Hl.
  - destruct (peek_long_eval s child (src + i * 8) l Hl) as [c Hc].
    destruct (IH fuel child src (i + 1) len (set_cnt c s)) as [c' Hc']; [lia|lia|lia|dlia| |].
    { destruct (mem_bytes _ _ (src + (i + 1) * 8) _) as [k|] eqn:Hk; [|done]. exfalso.
      rewrite (proj2 (mem_bytes_app _ _ _ 8 (n * 8) (l ++ k))) in Hm; [done|].
      exists l, k. split; [done|]. split; [done|]. rewrite <- Hk. simpl. f_equal. lia. }
    replace (8 * (i + 1)) with (8 * i + sizeof_long) in Hc' by (unfold sizeof_long; lia).
    exists c'. eval_with Hc. by rewrite (bind_failed _ _ _ _ _ Hc').
  - destruct (peek_long_unmapped s child (src + i * 8) Hl) as [c Hc].
    exists c. by rewrite (bind_failed _ _ _ _ _ Hc).
Qed.

(** The words of the loop and the last one, when bit 3 of the length is set. *)
Lemma round8_split n len rest :
  0 <= len → rest = 0 ∨ rest = 8 → n = Z.to_nat ((len + 7) / 8) →
  Z.to_nat (round8 (len + rest)) = (n * 8 + Z.to_nat rest)%nat.
Proof. unfold round8. intros. dlia. Qed.

Lemma ptrace_cpy_eval s child src length bs :
  0 <= length <= 2 ^ 34 - 8 →
  mem_bytes (st_w s) child src (Z.to_nat (round8 length)) = Some bs →
  ∃ c, ptrace_cpy child src length s = Done bs (set_cnt c s).
Proof.
  intros Hlen Hm. unfold ptrace_cpy.
  destruct (land_rest length ltac:(lia)) as [[-> ->]|(-> & -> & H8)].
  - set (n := Z.to_nat ((length + 7) / 8)).
    destruct (cpy_loop_eval n (Z.to_nat (length / sizeof_long + 1)) child src 0 length s bs)
      as [c Hc]; [unfold n, sizeof_long; dlia|lia|unfold n; dlia|unfold n; f_equal; dlia| |].
    { rewrite <- Hm. f_equal; unfold n, round8; dlia. }
    exists c. eval_with Hc. done.
  - set (n := Z.to_nat ((length - 8 + 7) / 8)).
    replace (Z.to_nat (round8 length)) with (n * 8 + 8)%nat in Hm by (unfold n, round8; dlia).
    apply mem_bytes_app in Hm as (l & k & -> & Hl & Hk).
    destruct (cpy_loop_eval n (Z.to_nat ((length - 8) / sizeof_long + 1)) child src 0 (length - 8) s l)
      as [c Hc]; [unfold n, sizeof_long; dlia|lia|unfold n; dlia|unfold n; f_equal; dlia|by rewrite Z.add_0_r|].
    destruct (peek_long_eval (set_cnt c s) child (src + Z.of_nat n * 8) k) as [c' Hc'].
    { rewrite <- Hk. simpl. f_equal. lia. }
    exists c'. eval_with Hc. simpl negb. cbv iota. eval_with Hc'. unfold ret.
    by rewrite (word_bytes _ _ _ _ Hk), take_ge by (by rewrite (mem_bytes_length _ _ _ _ _ Hk)).
Qed.

Lemma ptrace_cpy_fails s child src length :
  0 <= length <= 2 ^ 34 - 8 →
  mem_bytes (st_w s) child src (Z.to_nat (round8 length)) = None →
  ∃ c, ptrace_cpy child src length s = Failed Throw_system_error (set_cnt c s).
Proof.
  intros Hlen Hm. unfold ptrace_cpy.
  destruct (land_rest length ltac:(lia)) as [[-> ->]|(-> & -> & H8)].
  - set (n := Z.to_nat ((length + 7) / 8)).
    destruct (cpy_loop_unmapped n (Z.to_nat (length / sizeof_long + 1)) child src 0 length s)
      as [c Hc]; [unfold n, sizeof_long; dlia|lia|unfold n; dlia|unfold n; f_equal; dlia| |].
    { rewrite <- Hm. f_equal; unfold n, round8; dlia. }
    exists c. by rewrite (bind_failed _ _ _ _ _ Hc).
  - set (n := Z.to_nat ((length - 8 + 7) / 8)).
    replace (Z.to_nat (round8 length)) with (n * 8 + 8)%nat in Hm by (unfold n, round8; dlia).
    destruct (mem_bytes (st_w s) child src (n * 8)) as [l|] eqn:Hl.
    + destruct (cpy_loop_eval n (Z.to_nat ((length - 8) / sizeof_long + 1)) child src 0 (length - 8) s l)
        as [c Hc]; [unfold n, sizeof_long; dlia|lia|unfold n; dlia|unfold n; f_equal; dlia|by rewrite Z.add_0_r|].
      destruct (peek_long_unmapped (set_cnt c s) child (src + Z.of_nat n * 8)) as [c' Hc'].
      { destruct (mem_bytes _ _ (src + Z.of_nat n * 8) 8) as [k|] eqn:Hk; [|done]. exfalso.
        rewrite (proj2 (mem_bytes_app _ _ _ (n * 8) 8 (l ++ k))) in Hm; [done|].
        exists l, k. split; [done|]. split; [done|]. rewrite <- Hk. simpl. f_equal. lia. }
      exists c'. eval_with Hc. simpl negb. cbv iota. exact (bind_failed _ _ _ _ _ Hc').
    + destruct (cpy_loop_unmapped n (Z.to_nat ((length - 8) / sizeof_long + 1)) child src 0
                  (length - 8) s) as [c Hc];
        [unfold n, sizeof_long; dlia|lia|unfold n; dlia|unfold n; f_equal; dlia|by rewrite Z.add_0_r|].
      exists c. by rewrite (bind_failed _ _ _ _ _ Hc).
Qed.

(** Only the bytes from [a] to [a + n] of the process [pid] may differ. *)
Definition same_but (w w' : W) (pid a n : Z) : Prop :=
  (∀ b, ¬ (a <= b < a + n) → mem_byte w' pid b = mem_byte w pid b) ∧
  (∀ p b, p ≠ pid → mem_byte w' p b = mem_byte w p b) ∧
  (∀ p, ptrace_getregs w' p = ptrace_getregs w p) ∧
  (∀ p, at_entry w' p = at_entry w p).

Lemma same_but_mapped w w' pid a n b m :
  same_but w w' pid a n → b + Z.of_nat m <= a ∨ a + n <= b →
  mem_bytes w' pid b m = mem_bytes w pid b m.
Proof. intros (H & _) Hb. apply mem_bytes_ext. intros i Hi. apply H. lia. Qed.

Lemma same_but_trans w1 w2 w3 pid a n m :
  0 <= n → 0 <= m → same_but w1 w2 pid a n → same_but w2 w3 pid (a + n) m →
  same_but w1 w3 pid a (n + m).
Proof.
  intros Hn Hm (A1 & A2 & A3 & A4) (B1 & B2 & B3 & B4). repeat split.
  - intros b Hb. rewrite B1, A1; [done|lia|lia].
  - intros p b Hp. by rewrite B2, A2.
  - intros p. by rewrite B3, A3.
  - intros p. by rewrite B4, A4.
Qed.

(** The word written at an offset: the bytes of the buffer while there are some. *)
Lemma buffer_word_lookup w src off j :
  Forall (is_u 8) src → (j < 8)%nat → (off + j < length src)%nat →
  le_encode 8 (buffer_word w src off) !! j = src !! (off + j)%nat.
Proof.
  intros Hs Hj Hlen. unfold buffer_word.
  set (l := take 8 (drop off src ++ replicate 8 (stray_byte w))).
  assert (length l = 8%nat) as El.
  { unfold l. rewrite length_take, length_app, length_replicate. lia. }
  rewrite <- El, le_encode_decode.
  - unfold l. rewrite lookup_take_lt by done.
    rewrite lookup_app_l by (rewrite length_drop; lia). apply lookup_drop.
  - apply Forall_take, Forall_app; split; [by apply Forall_drop|].
    apply Forall_replicate, stray_byte_range.
Qed.

Lemma poke_loop_S fuel pid dst src size len :
  size < len →
  poke_loop (S fuel) pid dst src size len =
  (let! r := gets (λ s, ptrace_pokedata (st_w s) pid (dst + size)
                          (buffer_word (st_w s) src (Z.to_nat size))) in
   increment_nb_poke ;;
   let! w := of_option Throw_system_error r in
   modify (set_w w) ;;
   poke_loop fuel pid dst src (size + sizeof_long) len).
Proof. intros H. unfold poke_loop at 1. by rewrite (proj2 (Z.ltb_lt _ _) H). Qed.

Lemma increment_nb_poke_eval s : ∃ c, increment_nb_poke s = Done tt (set_cnt c s).
Proof. by eexists. Qed.

Lemma poke_loop_eval n : ∀ fuel pid dst src i len s,
  (n <= fuel)%nat → 0 <= i → n = Z.to_nat ((len - 8 * i + 7) / 8) → len <= Z.of_nat (length src) →
  Forall (is_u 8) src → is_Some (mem_bytes (st_w s) pid (dst + 8 * i) (n * 8)) →
  ∃ c w' bs, poke_loop fuel pid dst src (8 * i) len s = Done tt (set_cnt c (set_w w' s)) ∧
    mem_bytes w' pid (dst + 8 * i) (n * 8) = Some bs ∧
    (∀ j, (j < Z.to_nat (len - 8 * i))%nat → bs !! j = src !! (Z.to_nat (8 * i) + j)%nat) ∧
    same_but (st_w s) w' pid (dst + 8 * i) (Z.of_nat (n * 8)).
Proof.
  induction n as [|n IH]; intros fuel pid dst src i len s Hf Hi Hn Hl Hb [bs0 Hm].
  { exists (st_cnt s), (st_w s), []. split.
    - destruct fuel; simpl; rewrite (proj2 (Z.ltb_ge _ _)) by dlia; by destruct s.
    - split; [done|]. split; [intros j Hj; dlia|by repeat split]. }
  destruct fuel as [|fuel]; [lia|]. rewrite poke_loop_S by dlia.
  apply (mem_bytes_app _ _ _ 8 (n * 8)) in Hm as (l & k & -> & Hl0 & Hk0).
  set (v := buffer_word (st_w s) src (Z.to_nat (8 * i))).
  destruct (poke_word (st_w s) pid (dst + 8 * i) v (ex_intro _ l Hl0)) as (w1 & Hw1 & Hm1 & F1).
  destruct (increment_nb_poke_eval s) as [c0 Hc0]. set (s1 := set_w w1 (set_cnt c0 s)).
  edestruct (IH fuel pid dst src (i + 1) len s1) as (c & w' & bs & He & Hm' & Hbs & F2);
    [lia|lia|dlia|done|done| |].
  { simpl st_w. replace (dst + 8 * (i + 1)) with (dst + 8 * i + Z.of_nat 8) by lia.
    rewrite (same_but_mapped (st_w s) w1 pid (dst + 8 * i) 8); [by exists k|done|lia]. }
  replace (8 * (i + 1)) with (8 * i + sizeof_long) in He by (unfold sizeof_long; lia).
  replace (dst + 8 * (i + 1)) with (dst + 8 * i + 8) in Hm', F2 by lia.
  assert (same_but (st_w s) w' pid (dst + 8 * i) (Z.of_nat (S n * 8))) as F.
  { replace (Z.of_nat (S n * 8)) with (8 + Z.of_nat (n * 8)) by lia.
    apply (same_but_trans _ w1); [lia|lia|exact F1|exact F2]. }
  exists c, w', (le_encode 8 v ++ bs). split; [|split; [|split]].
  - ev. eval_with Hc0. eapply bind_eval; [apply of_option_eval, Hw1|]. ev. exact He.
  - apply (mem_bytes_app _ _ _ 8 (n * 8)). exists (le_encode 8 v), bs. split; [done|].
    split; [|exact Hm']. rewrite (same_but_mapped _ _ _ _ _ _ _ F2); [done|lia].
  - intros j Hj. destruct (decide (j < 8)%nat).
    + rewrite lookup_app_l by (by rewrite length_le_encode). apply buffer_word_lookup; [done|lia|lia].
    + rewrite lookup_app_r, length_le_encode by (rewrite length_le_encode; lia).
      rewrite Hbs by lia. f_equal. lia.
  - exact F.
Qed.

Lemma ptrace_poke_eval s pid dst src len :
  0 <= len <= Z.of_nat (length src) → Forall (is_u 8) src →
  is_Some (mem_bytes (st_w s) pid dst (Z.to_nat (round8 len))) →
  ∃ c w' bs, ptrace_poke pid dst src len s = Done tt (set_cnt c (set_w w' s)) ∧
    mem_bytes w' pid dst (Z.to_nat (round8 len)) = Some bs ∧
    take (Z.to_nat len) bs = take (Z.to_nat len) src ∧
    same_but (st_w s) w' pid dst (round8 len).
Proof.
  intros Hlen Hs Hm. set (n := Z.to_nat ((len + 7) / 8)).
  assert (Z.to_nat (round8 len) = (n * 8)%nat) as En by (unfold n, round8; dlia).
  rewrite En in Hm |- *.
  destruct (poke_loop_eval n (Z.to_nat (len / sizeof_long + 1)) pid dst src 0 len s)
    as (c & w' & bs & He & Hm' & Hbs & F);
    [unfold n, sizeof_long; dlia|lia|unfold n; f_equal; dlia|lia|done|by rewrite Z.add_0_r|].
  rewrite Z.add_0_r in Hm', F. exists c, w', bs. split; [exact He|]. split; [done|]. split.
  - apply list_eq. intros j. destruct (decide (j < Z.to_nat len)%nat).
    + rewrite !lookup_take_lt by done. rewrite Hbs by lia. f_equal.
    + rewrite !lookup_take_ge by lia. done.
  - replace (round8 len) with (Z.of_nat (n * 8)); [done|]. rewrite <- En. unfold round8; dlia.
Qed.

(** ** Replacing a system call *)

Lemma getregs_eval s pid r :
  ptrace_getregs (st_w s) pid = Some r → ∃ c, getregs pid s = Done r (set_cnt c s).
Proof. intros H. eexists. unfold getregs. ev. by apply ask_world_eval. Qed.

Lemma setregs_eval s pid r :
  is_Some (ptrace_getregs (st_w s) pid) →
  ∃ c w', setregs pid r s = Done tt (set_cnt c (set_w w' s)) ∧
    ptrace_getregs w' pid = Some r ∧
    (∀ p, p ≠ pid → ptrace_getregs w' p = ptrace_getregs (st_w s) p) ∧
    (∀ p b, mem_byte w' p b = mem_byte (st_w s) p b) ∧
    (∀ p, at_entry w' p = at_entry (st_w s) p).
Proof.
  intros H. destruct (set_get_regs (st_w s) pid r H) as (w' & Hw & F).
  eexists _, w'. split; [|exact F]. unfold setregs. ev.
  rewrite (upd_world_eval _ _ w') by exact Hw. reflexivity.
Qed.

Lemma resume_wait_eval s pid r :
  at_entry (st_w s) pid = true → ptrace_getregs (st_w s) pid = Some r → orig_rax r = SYS_tuxcall →
  ∃ c w', bind (ptrace_resume_process pid) (λ _, wait_ignored pid) s
          = Done tt (set_cnt c (set_w w' s)) ∧
    ptrace_getregs w' pid = Some (set_rax (u64 (- ENOSYS)) r) ∧ at_entry w' pid = false ∧
    (∀ p, p ≠ pid → ptrace_getregs w' p = ptrace_getregs (st_w s) p) ∧
    (∀ p b, mem_byte w' p b = mem_byte (st_w s) p b) ∧
    (∀ p, p ≠ pid → at_entry w' p = at_entry (st_w s) p).
Proof.
  intros He Hr Ho.
  destruct (unimplemented_syscall (st_w s) pid r He Hr Ho) as (w1 & status & w2 & H1 & H2 & F).
  eexists _, w2. split; [|exact F]. unfold ptrace_resume_process, bind at 1 2. simpl.
  unfold upd_world. simpl. rewrite H1. simpl. unfold wait_ignored. simpl. rewrite H2. reflexivity.
Qed.

(** What SimTerpose changes in the state of the tracees when it replaces a system
    call of [pid]: its registers become [r], and it is no longer at an entry. *)
Definition replaced (w w' : W) (pid : Z) (r : user_regs) : Prop :=
  ptrace_getregs w' pid = Some r ∧ at_entry w' pid = false ∧
  (∀ p, p ≠ pid → ptrace_getregs w' p = ptrace_getregs w p) ∧
  (∀ p b, mem_byte w' p b = mem_byte w p b).

Lemma neutralize_alone s pid r :
  at_entry (st_w s) pid = true → ptrace_getregs (st_w s) pid = Some r →
  ∃ c w', ptrace_neutralize_syscall pid s = Done tt (set_cnt c (set_w w' s)) ∧
    replaced (st_w s) w' pid (set_rax (u64 (- ENOSYS)) (set_orig_rax SYS_tuxcall r)) ∧
    ∀ p, p ≠ pid → at_entry w' p = at_entry (st_w s) p.
Proof.
  intros He Hr. unfold ptrace_neutralize_syscall.
  destruct (getregs_eval s pid r Hr) as [c1 H1].
  destruct (setregs_eval (set_cnt c1 s) pid (set_orig_rax SYS_tuxcall r))
    as (c2 & w2 & H2 & G2 & O2 & M2 & E2); [by exists r|].
  destruct (resume_wait_eval (set_cnt c2 (set_w w2 (set_cnt c1 s))) pid (set_orig_rax SYS_tuxcall r))
    as (c3 & w3 & H3 & G3 & E3 & O3 & M3 & A3); [by simpl; rewrite E2|done|done|].
  exists c3, w3. split; [eval_with H1; eval_with H2; exact H3|].
  repeat split; [done|done| | |].
  - intros p Hp. by rewrite O3, <- O2.
  - intros p b. by rewrite M3, <- M2.
  - intros p Hp. by rewrite A3, <- E2.
Qed.

Lemma neutralize_eval s pid r :
  at_entry (st_w s) pid = true → ptrace_getregs (st_w s) pid = Some r →
  ∃ c w', ptrace_neutralize_syscall pid s = Done tt (set_cnt c (set_w w' s)) ∧
    replaced (st_w s) w' pid (set_rax (u64 (- ENOSYS)) (set_orig_rax SYS_tuxcall r)).
Proof.
  intros He Hr. destruct (neutralize_alone s pid r He Hr) as (c & w & H & HR & _). by exists c, w.
Qed.

Lemma restore_eval s pid nr v r :
  ptrace_getregs (st_w s) pid = Some r →
  ∃ c w', ptrace_restore_syscall pid nr v s = Done tt (set_cnt c (set_w w' s)) ∧
    ptrace_getregs w' pid = Some (set_rax v (set_orig_rax nr r)) ∧
    (∀ p, p ≠ pid → ptrace_getregs w' p = ptrace_getregs (st_w s) p) ∧
    (∀ p b, mem_byte w' p b = mem_byte (st_w s) p b) ∧
    (∀ p, at_entry w' p = at_entry (st_w s) p).
Proof.
  intros Hr. unfold ptrace_restore_syscall.
  destruct (getregs_eval s pid r Hr) as [c1 H1].
  destruct (setregs_eval (set_cnt c1 s) pid (set_rax v (set_orig_rax nr r)))
    as (c2 & w2 & H2 & F); [by exists r|].
  exists c2, w2. split; [|exact F]. eval_with H1. exact H2.
Qed.

(** The two together: the call has the number [nr] again and the result [v]. *)
Lemma mediate_alone s pid nr v r :
  at_entry (st_w s) pid = true → ptrace_getregs (st_w s) pid = Some r →
  ∃ c w', bind (ptrace_neutralize_syscall pid) (λ _, ptrace_restore_syscall pid nr v) s
          = Done tt (set_cnt c (set_w w' s)) ∧
    replaced (st_w s) w' pid (set_rax v (set_orig_rax nr r)) ∧
    ∀ p, p ≠ pid → at_entry w' p = at_entry (st_w s) p.
Proof.
  intros He Hr. destruct (neutralize_alone s pid r He Hr) as (c1 & w1 & H1 & (G1 & E1 & O1 & M1) & A1).
  destruct (restore_eval (set_cnt c1 (set_w w1 s)) pid nr v _ G1) as (c2 & w2 & H2 & G2 & O2 & M2 & E2).
  exists c2, w2. split; [eval_with H1; exact H2|]. split; [repeat split; [done| | |]|].
  - by rewrite E2.
  - intros p Hp. by rewrite O2, <- O1.
  - intros p b. by rewrite M2, <- M1.
  - intros p Hp. rewrite E2. by apply A1.
Qed.

Lemma mediate_eval s pid nr v r :
  at_entry (st_w s) pid = true → ptrace_getregs (st_w s) pid = Some r →
  ∃ c w', bind (ptrace_neutralize_syscall pid) (λ _, ptrace_restore_syscall pid nr v) s
          = Done tt (set_cnt c (set_w w' s)) ∧
    replaced (st_w s) w' pid (set_rax v (set_orig_rax nr r)).
Proof.
  intros He Hr. destruct (mediate_alone s pid nr v r He Hr) as (c & w & H & HR & _). by exists c, w.
Qed.

End PtraceTheorems.

(** ** Properties *)

Section PtraceProperties.
Context `{X : Xbt} `{Wd : World} `{!TraceLaws Wd}.

(** C21: [ptrace_cpy] copies memory faithfully, as long as its [int] index counts the
    words (up to 2^34 - 8 bytes). When the words that cover the
    requested bytes are mapped it returns, changing nothing but the counters, and
    what it stores is exactly the memory from [src] on: the requested length
    rounded up to a multiple of eight, so that the destination is overrun by less
    than one word, and not at all when the length is such a multiple. *)
Theorem ptrace_cpy_reads s child src length bs :
  0 <= length <= 2 ^ 34 - 8 →
  mem_bytes (st_w s) child src (Z.to_nat (round8 length)) = Some bs →
  (∃ c, ptrace_cpy child src length s = Done bs (set_cnt c s)) ∧
  length <= Z.of_nat (List.length bs) < length + 8 ∧
  (Z.of_nat (List.length bs) = length ↔ length mod 8 = 0).
Proof.
  intros Hlen Hm. split; [by apply ptrace_cpy_eval|].
  rewrite (mem_bytes_length _ _ _ _ _ Hm).
  pose proof (round8_bounds length). rewrite Z2Nat.id; [done|lia].
Qed.

(** C22: what [ptrace_poke] writes, [ptrace_cpy] reads back, for at most the 2^34 - 8
    bytes that the [int] index of [ptrace_cpy] counts: the first [len] bytes
    are those of the buffer, and nothing but the [len] bytes rounded up to whole
    words changes: no other memory, no other process, no register. *)
Theorem ptrace_poke_cpy s pid dst src len :
  0 <= len <= Z.of_nat (length src) → len <= 2 ^ 34 - 8 → Forall (is_u 8) src →
  is_Some (mem_bytes (st_w s) pid dst (Z.to_nat (round8 len))) →
  ∃ bs s', bind (ptrace_poke pid dst src len) (λ _, ptrace_cpy pid dst len) s = Done bs s' ∧
    take (Z.to_nat len) bs = take (Z.to_nat len) src ∧
    same_but (st_w s) (st_w s') pid dst (round8 len).
Proof.
  intros Hl Hl' Hs Hm.
  destruct (ptrace_poke_eval s pid dst src len Hl Hs Hm) as (c & w & bs & He & Hw & Hb & F).
  destruct (ptrace_cpy_eval (set_cnt c (set_w w s)) pid dst len bs) as [c' Hc']; [lia|done|].
  exists bs, (set_cnt c' (set_cnt c (set_w w s))). split; [|done]. eval_with He. exact Hc'.
Qed.

(** C6: the way SimTerpose answers a system call in place of the kernel. From the
    entry of a call, [ptrace_neutralize_syscall] followed by
    [ptrace_restore_syscall] leaves the tracee after the call, with the number and
    the result asked for and every other register as the tracee left it; the
    memory of every tracee and the registers of the other ones do not change. *)
Theorem neutralize_restore s pid nr v r :
  at_entry (st_w s) pid = true → ptrace_getregs (st_w s) pid = Some r →
  ∃ s', bind (ptrace_neutralize_syscall pid) (λ _, ptrace_restore_syscall pid nr v) s = Done tt s' ∧
    ptrace_getregs (st_w s') pid = Some (set_rax v (set_orig_rax nr r)) ∧
    at_entry (st_w s') pid = false ∧
    (∀ p, p ≠ pid → ptrace_getregs (st_w s') p = ptrace_getregs (st_w s) p) ∧
    (∀ p b, mem_byte (st_w s') p b = mem_byte (st_w s) p b).
Proof.
  intros He Hr. destruct (mediate_eval s pid nr v r He Hr) as (c & w & H & F).
  by exists (set_cnt c (set_w w s)).
Qed.

End PtraceProperties.

(** Process 7 with bytes that count up, at the entry of a [read]. *)
Definition ptrace_example : st := ref_state (toy_world regs_zero (λ a, a)).

Lemma ptrace_cpy_reads_witness :
  let bs := map Z.of_nat (seq 1 16) in
  (∃ c, ptrace_cpy 7 4097 12 ptrace_example = Done bs (set_cnt c ptrace_example)) ∧
  12 <= Z.of_nat (List.length bs) < 12 + 8 ∧
  (Z.of_nat (List.length bs) = 12 ↔ 12 mod 8 = 0).
Proof. apply (ptrace_cpy_reads ptrace_example 7 4097 12); [lia|vm_compute; reflexivity]. Defined.

Lemma ptrace_poke_cpy_witness :
  ∃ bs s', bind (ptrace_poke 7 5000 [1; 2; 3] 3) (λ _, ptrace_cpy 7 5000 3) ptrace_example = Done bs s' ∧
    take 3 bs = [1; 2; 3] ∧ same_but (st_w ptrace_example) (st_w s') 7 5000 (round8 3).
Proof.
  apply (ptrace_poke_cpy ptrace_example 7 5000 [1; 2; 3] 3); [simpl; lia|lia| |].
  - repeat constructor; by vm_compute.
  - vm_compute. by eexists.
Defined.

Lemma neutralize_restore_witness :
  ∃ s', bind (ptrace_neutralize_syscall 7) (λ _, ptrace_restore_syscall 7 SYS_bind 0) ptrace_example
        = Done tt s' ∧
    ptrace_getregs (st_w s') 7 = Some (set_rax 0 (set_orig_rax SYS_bind regs_zero)) ∧
    at_entry (st_w s') 7 = false ∧
    (∀ p, p ≠ 7 → ptrace_getregs (st_w s') p = ptrace_getregs (st_w ptrace_example) p) ∧
    (∀ p b, mem_byte (st_w s') p b = mem_byte (st_w ptrace_example) p b).
Proof. apply (neutralize_restore ptrace_example 7 SYS_bind 0 regs_zero); reflexivity. Defined.
