(* ===== verification/ProcessDescriptor.v ===== *)
(** src/src/include/process_descriptor.h and src/src/process_descriptor.c: the
    descriptor table of a traced process and its position with respect to the
    system call it is stopped at. Its end, [process_die], is in
    SocketOps. *)
From S2P Require Import Prelude Libc External State Monad Reference.
From Stdlib Require Import Ascii.
Open Scope sim_scope.

Definition getevent (status : Z) : Z := Z.land (Z.shiftr status 16) 0xffff.

(** [atoi] on a string that starts with a digit. *)
Definition atoi (s : string) : Z :=
  s32 (strtoul_digits 10 0 (String.list_ascii_of_string s)).1.

(** [d_name[0] < '0' || d_name[0] > '9']. *)
Definition starts_with_digit (s : string) : bool :=
  match s with
  | EmptyString => false
  | String c _ => let n := Z.of_N (N_of_ascii c) in (48 <=? n) && (n <=? 57)
  end.

(** The warning of [proc_entering] about a stop it does not take for a system call. *)
Definition stop_warning (pid event : Z) : string :=
  ("[" +:+ sprintf_d pid +:+ "] That's not a syscall-stop event but " +:+
   (if (event =? PTRACE_EVENT_FORK)%Z then "a fork!"
    else if (event =? PTRACE_EVENT_VFORK)%Z then "a vfork!"
    else if (event =? PTRACE_EVENT_CLONE)%Z then "a clone!"
    else if (event =? PTRACE_EVENT_VFORK_DONE)%Z then "a fork_done!"
    else if (event =? PTRACE_EVENT_EXEC)%Z then "an exec!"
    else if (event =? PTRACE_EVENT_EXIT)%Z then "an exit!"
    else "I'm not sure which event that is  :-("))%string.

Section ProcessDescriptor.
Context `{X : Xbt} `{Wd : World}.

(** ** The descriptor table *)

Definition process_descriptor_get_fd (proc fd : Z) : M Z :=
  let! p := get_proc proc in
  ret (default NULL (xbt_dict_get_or_null (fd_map p) (int_key fd))).

Definition process_descriptor_set_fd (proc fd file_desc : Z) : M unit :=
  let! p := get_proc proc in
  if negb (file_desc =? NULL) then
    put_proc proc (set_fd_map (xbt_dict_set (fd_map p) (int_key fd) file_desc) p)
  else
    match xbt_dict_get_or_null (fd_map p) (int_key fd) with
    | Some _ =>
      let! m := of_option Throw_not_found (xbt_dict_remove (fd_map p) (int_key fd)) in
      put_proc proc (set_fd_map m p)
    | None => ret tt
    end.

(** ** Stops of the tracee *)

Definition proc_event_exec (proc : Z) : M bool :=
  let! p := get_proc proc in
  ret (WIFSTOPPED (pd_status p) && (getevent (pd_status p) =? PTRACE_EVENT_EXEC)).

Definition proc_event_syscall (proc : Z) : M bool :=
  let! p := get_proc proc in
  ret (WIFSTOPPED (pd_status p) && has_flag (WSTOPSIG (pd_status p)) (Z.lor SIGTRAP 0x80)).

(** What SimTerpose writes to its own stderr is not part of the state. *)
Definition fprintf_stderr (text : string) : M unit := ret tt.

(** The warning is all that depends on the stop: the answer is the mark of the last
    one handled. The backtrace printed after the warning is left out. *)
Definition proc_entering (proc : Z) : M bool :=
  let! is_syscall := proc_event_syscall proc in
  let! p := get_proc proc in
  (if negb is_syscall then fprintf_stderr (stop_warning (pd_pid p) (getevent (pd_status p)))
   else ret tt) ;;
  ret (in_syscall p =? 0).

Definition proc_inside (proc : Z) : M unit := upd_proc proc (set_in_syscall 1).
Definition proc_outside (proc : Z) : M unit := upd_proc proc (set_in_syscall 0).

(** ** Creation *)

Definition register_file_descriptor (process fd type : Z) : M unit :=
  let! file_desc := alloc_fd (FdPlain (mk_fd type process fd 0 0 0 0 0 0 0 0 0 0 0 0)) in
  process_descriptor_set_fd process fd file_desc ;;
  upd_fd file_desc (λ d, set_fd_refcount (fd_refcount d + 1) d).

Definition std_type (fd : Z) : Z :=
  if fd =? 0 then FD_STDIN else if fd =? 1 then FD_STDOUT
  else if fd =? 2 then FD_STDERR else FD_CLASSIC.

Fixpoint register_entries (result dir_fd : Z) (entries : list string) : M unit :=
  match entries with
  | [] => ret tt
  | e :: entries =>
    (if negb (starts_with_digit e) then ret tt
     else let fd := atoi e in
          if fd =? dir_fd then ret tt
          else register_file_descriptor result fd (std_type fd)) ;;
    register_entries result dir_fd entries
  end.

(** The log file of the --strace mode is taken to open. *)
Definition process_descriptor_new (name argv0 : string) (pid : Z) : M Z :=
  let! result := alloc_proc (mk_proc pid name None xbt_dict_new 0 0 None 0) in
  let! dir := gets (λ s, proc_self_fd (st_w s)) in
  register_entries result dir.2 dir.1 ;;
  upd_proc result (λ p, mk_proc (pd_pid p) (pd_name p) (MSG_get_host_by_name (pd_name p))
    (fd_map p) (pd_status p) (in_syscall p) (strace_out p) (curcol p)) ;;
  let! strace := gets strace_option in
  (if negb (strace =? 0) then upd_proc result (set_strace (Some ""%string) 0)
   else upd_proc result (λ p, set_strace None (curcol p) p)) ;;
  ret result.

End ProcessDescriptor.

(** ** The table as a function *)

Section Table.
Context `{X : Xbt} `{Wd : World}.

(** The entry of a descriptor number, [NULL] when it is free. *)
Definition fd_entry (p : process_descriptor) (fd : Z) : Z :=
  default NULL (xbt_dict_get_or_null (fd_map p) (int_key fd)).

Lemma process_descriptor_get_fd_eval s proc p fd :
  st_proc s !! proc = Some p → process_descriptor_get_fd proc fd s = Done (fd_entry p fd) s.
Proof. intros H. unfold process_descriptor_get_fd. by ev. Qed.

(** What a write to the table does to the process. *)
Definition entry_set (p p' : process_descriptor) (fd v : Z) : Prop :=
  p' = set_fd_map (fd_map p') p ∧ fd_entry p' fd = v ∧
  ∀ fd', is_s 32 fd' → fd' ≠ fd → fd_entry p' fd' = fd_entry p fd'.

Lemma process_descriptor_set_fd_eval `{!XbtLaws X} s proc p fd v :
  st_proc s !! proc = Some p → is_s 32 fd →
  ∃ p', process_descriptor_set_fd proc fd v s = Done tt (set_proc (<[proc := p']> (st_proc s)) s) ∧
    entry_set p p' fd v.
Proof.
  intros Hp Hfd. unfold process_descriptor_set_fd, entry_set, fd_entry.
  destruct (v =? NULL) eqn:Ev.
  - apply Z.eqb_eq in Ev as ->. destruct (xbt_dict_get_or_null (fd_map p) (int_key fd)) as [x|] eqn:Ex.
    + destruct (dict_remove_present _ (fd_map p) (int_key fd)) as (m & Hm & Hn & Ho); [by eexists|].
      exists (set_fd_map m p). split.
      * ev. cbn [negb]. rewrite Ex. eapply bind_eval; [by apply of_option_eval|]. done.
      * split; [done|]. cbn. rewrite Hn. split; [done|]. intros fd' H' Hne.
        rewrite Ho; [done|]. by apply int_key_ne.
    + exists p. split.
      * ev. cbn [negb]. rewrite Ex. unfold ret. f_equal. rewrite insert_id by done. by destruct s.
      * rewrite Ex. by destruct p.
  - exists (set_fd_map (xbt_dict_set (fd_map p) (int_key fd) v) p). split.
    + by ev.
    + split; [done|]. cbn. rewrite dict_get_set. split; [done|]. intros fd' H' Hne.
      rewrite dict_get_set_ne; [done|]. by apply int_key_ne.
Qed.

Lemma proc_event_syscall_eval s proc p :
  st_proc s !! proc = Some p → proc_event_syscall proc s =
  Done (WIFSTOPPED (pd_status p) && has_flag (WSTOPSIG (pd_status p)) (Z.lor SIGTRAP 0x80)) s.
Proof. intros H. unfold proc_event_syscall. by ev. Qed.
Lemma proc_entering_eval s proc p :
  st_proc s !! proc = Some p → proc_entering proc s = Done (in_syscall p =? 0) s.
Proof.
  intros H. unfold proc_entering. eval_with (proc_event_syscall_eval s proc p H).
  ev. by destruct (_ && _).
Qed.
Lemma proc_inside_eval s proc p :
  st_proc s !! proc = Some p →
  proc_inside proc s = Done tt (set_proc (<[proc := set_in_syscall 1 p]> (st_proc s)) s).
Proof. apply upd_proc_eval. Qed.
Lemma proc_outside_eval s proc p :
  st_proc s !! proc = Some p →
  proc_outside proc s = Done tt (set_proc (<[proc := set_in_syscall 0 p]> (st_proc s)) s).
Proof. apply upd_proc_eval. Qed.

End Table.

#[export] Hint Resolve process_descriptor_get_fd_eval proc_entering_eval proc_inside_eval
  proc_outside_eval : ev.

(** ** Properties *)

Section TableProperties.
Context `{X : Xbt} `{Wd : World} `{!XbtLaws X}.

(** The descriptor table is a partial map from [int] to descriptors: after
    [process_descriptor_set_fd] the entry reads back as it was set, [NULL] closing
    it, every other entry of the table and every other process are as before, and
    so is the rest of the state. *)
Lemma fd_table_roundtrip s proc p fd v :
  st_proc s !! proc = Some p → is_s 32 fd →
  ∃ s', process_descriptor_set_fd proc fd v s = Done tt s' ∧
    process_descriptor_get_fd proc fd s' = Done v s' ∧
    (∀ fd', is_s 32 fd' → fd' ≠ fd →
       process_descriptor_get_fd proc fd' s' = Done (fd_entry p fd') s') ∧
    (∀ q, q ≠ proc → st_proc s' !! q = st_proc s !! q) ∧
    s' = set_proc (st_proc s') s.
Proof.
  intros Hp Hfd. destruct (process_descriptor_set_fd_eval s proc p fd v Hp Hfd)
    as (p' & He & Hs & Hg & Ho).
  eexists. split; [exact He|]. split; [|split; [|split]].
  - rewrite (process_descriptor_get_fd_eval _ proc p' fd) by lookup_solve. by rewrite Hg.
  - intros fd' H' Hne. rewrite (process_descriptor_get_fd_eval _ proc p' fd') by lookup_solve.
    by rewrite Ho.
  - intros q Hq. st_cbn. by rewrite lookup_insert_ne.
  - done.
Qed.

End TableProperties.

Definition proc_example : st :=
  set_proc {[10 := mk_proc 7 "alice" (Some "alice"%string) (xbt_dict_set xbt_dict_new (int_key 3) 20)
                     0 0 None 0]} (ref_state (toy_world regs_zero (λ _, 0))).
