(* ===== verification/Sockets.v ===== *)
(** src/src/sockets.c, first part: the registry of the sockets of the traced
    processes. [socket_close], [close_all_communication] and [handle_new_send],
    which call src/src/communication.c, are in SocketOps. The functions that read
    /proc to find the real port of a socket are in Translate. *)
From S2P Require Import Prelude Libc External State Monad Reference DataUtils ProcessDescriptor.
Open Scope sim_scope.

Section Sockets.
Context `{X : Xbt} `{Wd : World}.

Definition init_socket_gestion : M unit := modify (set_all_sockets xbt_dynar_new).

Definition recv_information_new : M Z := alloc_recv (mk_recv xbt_fifo_new xbt_fifo_new 0).
Definition recv_information_destroy (recv : Z) : M unit := free_recv recv.

Definition get_infos_socket (proc fd : Z) : M Z :=
  let! file_desc := process_descriptor_get_fd proc fd in
  if file_desc =? NULL then ret NULL else
  let! d := get_fd file_desc in
  if negb (fd_type d =? FD_SOCKET) then ret NULL else ret file_desc.

Definition confirm_register_socket (proc sockfd domain type protocol : Z) : M Z :=
  let! isp := alloc_fd (FdSock (mk_is fd_zero NULL None 0 0 0 0 0 0 0 0 0)) in
  process_descriptor_set_fd proc sockfd isp ;;
  let! p := get_proc proc in
  put_fd_obj isp (FdSock (mk_is
    (mk_fd FD_SOCKET proc sockfd 0 0 0 0 0 0 0 0 0 0 0 0)
    NULL (pd_host p) domain protocol (u32 (-1)) 0 O_RDWR type 0 0 0)) ;;
  modify (λ s, set_all_sockets (xbt_dynar_push (all_sockets s) isp) s) ;;
  upd_sock isp (λ i, set_is_ref_nb (is_ref_nb i + 1) i) ;;
  ret isp.

Definition register_socket (proc sockfd domain type protocol : Z) : M Z :=
  let! f := process_descriptor_get_fd proc sockfd in
  if negb (f =? NULL) then fail Xbt_die
  else confirm_register_socket proc sockfd domain type protocol.

(** ** Attributes *)

(** [if (is == NULL) return dflt; return <attribute of is>]. *)
Definition socket_attr {A} (proc fd : Z) (dflt : A) (f : infos_socket → A) : M A :=
  let! isp := get_infos_socket proc fd in
  if isp =? NULL then ret dflt else let! i := get_sock isp in ret (f i).

Definition socket_upd (proc fd : Z) (f : infos_socket → infos_socket) : M unit :=
  let! isp := get_infos_socket proc fd in
  if isp =? NULL then ret tt else upd_sock isp f.

Definition socket_get_flags (proc fd : Z) : M Z := socket_attr proc fd 0 is_flags.
Definition socket_set_flags (proc fd flags : Z) : M unit := socket_upd proc fd (set_is_flags flags).

Definition socket_get_option (proc fd option : Z) : M Z :=
  socket_attr proc fd 0 (λ i, Z.land (is_option i) option).
Definition socket_set_option (proc fd option value : Z) : M unit :=
  socket_upd proc fd (λ i,
    if negb (value =? 0) then set_is_option (Z.lor (is_option i) option) i
    else set_is_option (Z.land (is_option i) (Z.lnot option)) i).

Definition get_domain_socket (proc fd : Z) : M Z := socket_attr proc fd (-1) is_domain.
Definition get_protocol_socket (proc fd : Z) : M Z := socket_attr proc fd (-1) is_protocol.
Definition get_type_socket (proc fd : Z) : M Z := socket_attr proc fd (-1) is_type.

Definition socket_registered (proc fd : Z) : M Z :=
  let! isp := get_infos_socket proc fd in
  ret (if negb (isp =? NULL) then 1 else -1).

Definition socket_netlink (proc fd : Z) : M bool :=
  socket_attr proc fd false (λ i, is_domain i =? 16).
Definition socket_network (proc fd : Z) : M bool :=
  socket_attr proc fd false (λ i,
    negb (is_domain i =? 16) && negb (is_domain i =? 0) && negb (is_domain i =? 1)).

Definition set_localaddr_port_socket (proc fd : Z) (ip : string) (port : Z) : M unit :=
  let! isp := get_infos_socket proc fd in
  upd_sock isp (set_is_local (inet_addr ip) port).

(** The search throws when the socket is absent; the exception is caught. *)
Definition delete_socket (isp : Z) : M unit :=
  let! all := gets all_sockets in
  match xbt_dynar_search (Z.eqb isp) all with
  | None => ret tt
  | Some i =>
    upd_sock isp (λ v, set_is_ref_nb (s32 (is_ref_nb v - 1)) v) ;;
    match xbt_dynar_remove_at all i with
    | Some all' => modify (set_all_sockets all')
    | None => ret tt
    end
  end.

End Sockets.

(** ** Sockets of a process *)

Section SocketLemmas.
Context `{X : Xbt} `{Wd : World} `{!XbtLaws X}.

(** The descriptor [fd] of a process is the socket [i], at the address [isp]. *)
Record socket_at (s : st) (proc fd isp : Z) (i : infos_socket) : Prop := {
  sa_proc : ∃ p, st_proc s !! proc = Some p ∧ fd_entry p fd = isp;
  sa_null : isp ≠ NULL;
  sa_fd : st_fd s !! isp = Some (FdSock i);
  sa_type : fd_type (is_fd i) = FD_SOCKET;
}.

Lemma get_infos_socket_at s proc fd isp i :
  socket_at s proc fd isp i → get_infos_socket proc fd s = Done isp s.
Proof.
  intros [(p & Hp & He) Hn Hi Ht]. unfold get_infos_socket. ev. rewrite He.
  rewrite (proj2 (Z.eqb_neq _ _) Hn). ev. st_cbn. by rewrite Ht.
Qed.

Lemma socket_attr_at {A} s proc fd isp i (dflt : A) f :
  socket_at s proc fd isp i → socket_attr proc fd dflt f s = Done (f i) s.
Proof.
  intros H. unfold socket_attr. eval_with (get_infos_socket_at _ _ _ _ _ H).
  destruct H as [_ Hn Hi _]. rewrite (proj2 (Z.eqb_neq _ _) Hn). by ev.
Qed.

Lemma socket_registered_at s proc fd isp i :
  socket_at s proc fd isp i → socket_registered proc fd s = Done 1 s.
Proof.
  intros H. unfold socket_registered. eval_with (get_infos_socket_at _ _ _ _ _ H).
  by rewrite (proj2 (Z.eqb_neq _ _) (sa_null _ _ _ _ _ H)).
Qed.

(** A descriptor that is free or not a socket. *)
Lemma get_infos_socket_none s proc p fd :
  st_proc s !! proc = Some p →
  (fd_entry p fd = NULL ∨ ∃ o, st_fd s !! fd_entry p fd = Some o ∧ fd_type (fd_of o) ≠ FD_SOCKET) →
  get_infos_socket proc fd s = Done NULL s.
Proof.
  intros Hp H. unfold get_infos_socket. ev. destruct (fd_entry p fd =? NULL) eqn:E; [done|].
  destruct H as [H|(o & Ho & Ht)]; [by bool_to_prop|]. ev.
  by rewrite (proj2 (Z.eqb_neq _ _) Ht).
Qed.

(** The socket stays where it is when it is updated. *)
Lemma socket_at_upd s proc fd isp i j :
  socket_at s proc fd isp i → fd_type (is_fd j) = FD_SOCKET →
  socket_at (set_fd (<[isp := FdSock j]> (st_fd s)) s) proc fd isp j.
Proof. intros [Hp Hn Hi Ht] Hj. split; [done|done| |done]. st_cbn. apply lookup_insert_eq. Qed.

Lemma socket_upd_at s proc fd isp i f :
  socket_at s proc fd isp i →
  socket_upd proc fd f s = Done tt (set_fd (<[isp := FdSock (f i)]> (st_fd s)) s).
Proof.
  intros H. unfold socket_upd. eval_with (get_infos_socket_at _ _ _ _ _ H).
  rewrite (proj2 (Z.eqb_neq _ _) (sa_null _ _ _ _ _ H)). apply upd_sock_eval. by destruct H.
Qed.

Definition new_socket (proc fd domain type protocol : Z) (host : option msg_host) : infos_socket :=
  mk_is (mk_fd FD_SOCKET proc fd 0 0 0 0 0 0 0 0 0 0 0 0) NULL host domain protocol (u32 (-1)) 0
    O_RDWR type 0 0 1.

Lemma register_socket_eval s proc p fd domain type protocol :
  st_proc s !! proc = Some p → fd_entry p fd = NULL → is_s 32 fd → st_next s ≠ NULL →
  ∃ p', let isp := st_next s in
    register_socket proc fd domain type protocol s =
      Done isp (set_all_sockets (xbt_dynar_push (all_sockets s) isp)
        (set_fd (<[isp := FdSock (new_socket proc fd domain type protocol (pd_host p))]> (st_fd s))
          (set_proc (<[proc := p']> (st_proc s)) (set_next (isp + 1) s)))) ∧
    entry_set p p' fd isp.
Proof.
  intros Hp He Hfd Hn. set (o := FdSock (mk_is fd_zero NULL None 0 0 0 0 0 0 0 0 0)).
  set (s1 := set_fd (<[st_next s := o]> (st_fd s)) (set_next (st_next s + 1) s)).
  destruct (process_descriptor_set_fd_eval s1 proc p fd (st_next s) Hp Hfd) as (p' & He' & Hset).
  exists p'. cbv zeta. split; [|done]. unfold register_socket. ev. rewrite He. cbn [negb Z.eqb NULL].
  unfold confirm_register_socket. eval_with (alloc_fd_eval s o). eval_with He'. unfold s1. ev.
  replace (pd_host p') with (pd_host p) by (by destruct Hset as (-> & _)).
  unfold put_fd_obj. ev. ev. st_cbn. eapply bind_eval; [eapply upd_sock_eval; lookup_solve|].
  unfold ret. st_cbn. by rewrite !insert_insert_eq.
Qed.

End SocketLemmas.

(** ** Properties *)

Section SocketProperties.
Context `{X : Xbt} `{Wd : World} `{!XbtLaws X}.

(** [register_socket] on a free descriptor gives the process a socket with
    the requested domain, type and protocol, on the host of the process, bound to
    nothing and with the one reference of the global list, to which it is added;
    no other socket and no other descriptor changes. On a descriptor in use
    SimTerpose stops. *)
Lemma register_socket_new s proc p fd domain type protocol :
  st_proc s !! proc = Some p → is_s 32 fd → st_next s ≠ NULL →
  (fd_entry p fd = NULL →
   ∃ s', let isp := st_next s in
     register_socket proc fd domain type protocol s = Done isp s' ∧
     socket_at s' proc fd isp (new_socket proc fd domain type protocol (pd_host p)) ∧
     dynar_model (all_sockets s') = dynar_model (all_sockets s) ++ [isp] ∧
     (∀ q, q ≠ isp → st_fd s' !! q = st_fd s !! q) ∧
     (∀ fd', is_s 32 fd' → fd' ≠ fd →
        process_descriptor_get_fd proc fd' s' = Done (fd_entry p fd') s')) ∧
  (fd_entry p fd ≠ NULL → register_socket proc fd domain type protocol s = Failed Xbt_die s).
Proof.
  intros Hp Hfd Hn. split; intros He.
  - destruct (register_socket_eval s proc p fd domain type protocol Hp He Hfd Hn) as (p' & Hr & Hs & Hg & Ho).
    eexists. cbv zeta. split; [exact Hr|]. split; [|split; [|split]].
    + split; [|done| |done].
      * exists p'. st_cbn. split; [apply lookup_insert_eq|done].
      * st_cbn. apply lookup_insert_eq.
    + st_cbn. apply dynar_push_model.
    + intros q Hq. st_cbn. by rewrite lookup_insert_ne.
    + intros fd' H' Hne. rewrite (process_descriptor_get_fd_eval _ proc p') by lookup_solve.
      by rewrite Ho.
  - unfold register_socket. ev. by rewrite (proj2 (Z.eqb_neq _ _) He).
Qed.

(** What [socket_set_option] sets, [socket_get_option] reads: the option when
    the value is not zero and 0 otherwise; the options without a common bit keep
    their value. *)
Lemma socket_option_roundtrip s proc fd isp i option value other :
  socket_at s proc fd isp i → Z.land option other = 0 →
  ∃ s', socket_set_option proc fd option value s = Done tt s' ∧
    socket_get_option proc fd option s' = Done (if value =? 0 then 0 else option) s' ∧
    socket_get_option proc fd other s' = Done (Z.land (is_option i) other) s'.
Proof.
  intros H Hd. unfold socket_set_option. rewrite (socket_upd_at _ _ _ _ _ _ H).
  eexists. split; [done|]. unfold socket_get_option.
  set (j := if negb (value =? 0) then set_is_option (Z.lor (is_option i) option) i
            else set_is_option (Z.land (is_option i) (Z.lnot option)) i).
  assert (socket_at (set_fd (<[isp := FdSock j]> (st_fd s)) s) proc fd isp j) as Hj.
  { apply (socket_at_upd _ _ _ _ i); [done|]. unfold j. destruct H. by destruct (negb _). }
  rewrite !(socket_attr_at _ _ _ _ _ _ _ Hj). unfold j.
  destruct (value =? 0); cbn [negb is_option set_is_option].
  - split; f_equal; apply Z.bits_inj'; intros k Hk; rewrite !Z.land_spec, ?Z.bits_0, Z.lnot_spec by done.
    + by destruct (Z.testbit (is_option i) k), (Z.testbit option k).
    + apply (f_equal (λ z, Z.testbit z k)) in Hd. rewrite Z.land_spec, Z.bits_0 in Hd.
      by destruct (Z.testbit (is_option i) k), (Z.testbit option k), (Z.testbit other k).
  - split; f_equal; apply Z.bits_inj'; intros k Hk; rewrite !Z.land_spec, Z.lor_spec.
    + by destruct (Z.testbit (is_option i) k), (Z.testbit option k).
    + apply (f_equal (λ z, Z.testbit z k)) in Hd. rewrite Z.land_spec, Z.bits_0 in Hd.
      by destruct (Z.testbit (is_option i) k), (Z.testbit option k), (Z.testbit other k).
Qed.

End SocketProperties.

(** The process of [proc_example] with a socket at the address 20 on descriptor 3. *)
Definition example_sock : infos_socket (Wd := ref_world) :=
  mk_is (Wd := ref_world) (mk_fd FD_SOCKET 10 3 0 0 0 0 0 0 0 0 0 0 0 0) NULL (Some "alice"%string)
    2 0 0 0 O_RDWR 1 0 0 1.
Definition sock_example : st :=
  set_next 30 (set_fd {[20 := FdSock example_sock]} proc_example).

Lemma sock_example_at : socket_at sock_example 10 3 20 example_sock.
Proof. split; [by eexists|by vm_compute|reflexivity|reflexivity]. Qed.
