(* ===== verification/Print.v ===== *)
(** src/src/print_syscall.c: the strace-like log of a traced process.

    [fprintf(proc->strace_out, ...)] appends to [strace_out]; what is printed on
    stderr is dropped. The printers of open, select, send and recv are in PrintFlags,
    those of execve in SysProc. *)
From S2P Require Import Prelude Libc External State Monad DataUtils ProcessDescriptor.
From S2P Require Import PtraceUtils Sockets.
From Stdlib Require Import Ascii.
Local Open Scope string_scope.
Local Open Scope Z_scope.
Open Scope sim_scope.

(** ** Conversions of the format strings *)

Definition show_d (z : Z) : string := sprintf_d (s32 z).
Definition show_u (z : Z) : string := sprintf_d (u32 z).
Definition show_ld (z : Z) : string := sprintf_d (s64 z).
Definition show_lu (z : Z) : string := sprintf_d (u64 z).

Definition hex_digit (d : Z) : ascii :=
  if d <? 10 then ascii_of_N (Z.to_N (d + 48)) else ascii_of_N (Z.to_N (d + 87)).

Fixpoint hex_digits (n : nat) (z : Z) (acc : string) : string :=
  match n with
  | O => acc
  | S n => if z =? 0 then acc else hex_digits n (z / 16) (String (hex_digit (z mod 16)) acc)
  end.

(** [%#lx]: no prefix on zero. *)
Definition show_lx (z : Z) : string :=
  let z := u64 z in if z =? 0 then "0" else ("0x" +:+ hex_digits 16 z "").

(** [%s] on a buffer: up to the first NUL. *)
Fixpoint c_string (l : list Z) : string :=
  match l with
  | [] => ""
  | b :: l => if b =? 0 then "" else String (byte_char b) (c_string l)
  end.

(** A [switch] over integers that selects a text. *)
Definition name_of (tbl : list (Z * string)) (v : Z) (dflt : string) : string :=
  match find_index (λ e, v =? e.1) tbl with
  | Some i => match tbl !! i with Some e => e.2 | None => dflt end
  | None => dflt
  end.

(** A sequence of [if (flags & F) fprintf(..., " F |")]. *)
Definition flag_names (tbl : list (Z * string)) (flags : Z) : string :=
  foldr (λ e acc, if has_flag flags e.1 then (" " +:+ e.2 +:+ " |" +:+ acc) else acc)
        "" tbl.

Definition socket_types : list (Z * string) :=
  [(1, "SOCK_STREAM, "); (2, "SOCK_DGRAM, "); (3, "SOCK_RAW, "); (4, "SOCK_RDM, ");
   (5, "SOCK_SEQPACKET, "); (6, "SOCK_DCCP, "); (10, "SOCK_PACKET, ")].
Definition ip_protocols : list (Z * string) :=
  [(0, "IPPROTO_IP"); (1, "IPPROTO_ICMP"); (2, "IPPROTO_IGMP"); (3, "IPPROTO_GGP");
   (6, "IPPROTO_TCP"); (17, "IPPROTO_UDP"); (132, "IPPROTO_STCP"); (255, "IPPROTO_RAW")].
Definition netlink_protocols : list (Z * string) :=
  [(0, "NETLINK_ROUTE"); (1, "NETLINK_UNUSED"); (2, "NETLINK_USERSOCK"); (3, "NETLINK_FIREWALL");
   (4, "NETLINK_INET_DIAG")].
Definition ip_options : list (Z * string) :=
  [(1, "IP_TOS, "); (2, "IP_TTL, "); (3, "IP_HDRINCL, "); (4, "IP_OPTIONS, ");
   (6, "IP_RECVOPTS, ")].
Definition socket_options : list (Z * string) :=
  [(1, "SO_DEBUG, "); (2, "SO_REUSEADDR, "); (3, "SO_TYPE, "); (4, "SO_ERROR, ");
   (5, "SO_DONTROUTE, "); (6, "SO_BROADCAST, "); (7, "SO_SNDBUF, "); (8, "SO_RCVBUF, ");
   (9, "SO_SNDBUFFORCE, "); (10, "SO_RCVBUFFORCE, "); (11, "SO_NO_CHECK, ");
   (12, "SO_PRIORITY, "); (13, "SO_LINGER, "); (14, "SO_BSDCOMPAT, "); (15, "SO_REUSEPORT, ")].
Definition send_flags : list (Z * string) :=
  [(0x800, "MSG_CONFIRM"); (0x4, "MSG_DONTROUTE"); (0x40, "MSG_DONTWAIT"); (0x80, "MSG_EOR");
   (0x8000, "MSG_MORE"); (0x4000, "MSG_NOSIGNAL"); (0x1, "MSG_OOB")].
Definition recv_flags : list (Z * string) :=
  [(0x40, "MSG_DONTWAIT"); (0x2000, "MSG_ERRQUEUE"); (0x2, "MSG_PEEK"); (0x1, "MSG_OOB");
   (0x20, "MSG_TRUNC"); (0x100, "MSG_WAITALL")].
Definition poll_flags : list (Z * string) :=
  [(0x1, "POLLIN |"); (0x2, "POLLPRI |"); (0x4, "POLLOUT |"); (0x8, "POLLERR |");
   (0x10, "POLLHUP |"); (0x20, "POLLNVAL |")].
Definition clone_flags : list (Z * string) :=
  [(0xff, "CSIGNAL"); (0x100, "CLONE_VM"); (0x200, "CLONE_FS"); (0x400, "CLONE_FILES");
   (0x800, "CLONE_SIGHAND"); (0x2000, "CLONE_PTRACE"); (0x4000, "CLONE_VFORK");
   (0x8000, "CLONE_PARENT"); (0x10000, "CLONE_THREAD"); (0x20000, "CLONE_NEWNS");
   (0x40000, "CLONE_SYSVSEM"); (0x80000, "CLONE_SETTLS"); (0x100000, "CLONE_PARENT_SETTID");
   (0x200000, "CLONE_CHILD_CLEARTID"); (0x400000, "CLONE_DETACHED"); (0x800000, "CLONE_UNTRACED");
   (0x1000000, "CLONE_CHILD_SETTID"); (0x4000000, "CLONE_NEWUTS"); (0x8000000, "CLONE_NEWIPC");
   (0x10000000, "CLONE_NEWUSER"); (0x20000000, "CLONE_NEWPID"); (0x40000000, "CLONE_NEWNET");
   (0x80000000, "CLONE_IO")].

(** The fields of [struct msghdr] and [struct pollfd] the code uses. *)
Record msghdr := { msg_namelen : Z; msg_iov : Z; msg_iovlen : Z; msg_controllen : Z; msg_flags : Z }.
Definition sizeof_msghdr : Z := 56.
Definition msghdr_decode (l : list Z) : msghdr :=
  {| msg_namelen := le_decode (take 4 (drop 8 l)); msg_iov := le_decode (take 8 (drop 16 l));
     msg_iovlen := le_decode (take 8 (drop 24 l)); msg_controllen := le_decode (take 8 (drop 40 l));
     msg_flags := s32 (le_decode (take 4 (drop 48 l))) |}.

Record pollfd := { poll_fd : Z; poll_events : Z; poll_revents : Z }.
Definition sizeof_pollfd : Z := 8.
Definition pollfd_decode (l : list Z) : pollfd :=
  {| poll_fd := s32 (le_decode (take 4 l)); poll_events := s16 (le_decode (take 2 (drop 4 l)));
     poll_revents := s16 (le_decode (take 2 (drop 6 l))) |}.

(** [reg->arg[i]]. *)
Definition arg (r : reg_s) (i : nat) : Z := nth i (reg_arg r) 0.

Section Print.
Context `{X : Xbt} `{Wd : World}.

Definition fprint (proc : Z) (s : string) : M unit :=
  let! p := get_proc proc in
  let! out := of_option Invalid_pointer (strace_out p) in
  put_proc proc (set_strace (Some (out +:+ s)) (curcol p) p).

Definition prefix (p : process_descriptor) (call : string) : string :=
  ("[" +:+ show_d (pd_pid p) +:+ "] " +:+ call).

(** ** Socket addresses *)

Definition show_sockaddr_in (sai : sockaddr_in) : string :=
  ("{sa_family=AF_INET, sin_port=htons(" +:+ sprintf_d (ntohs (sin_port sai)) +:+
   "), sin_addr=inet_addr(" +:+ String "034" (inet_ntoa (sin_addr sai)) +:+ String "034" ")}, ").
Definition show_sockaddr_un (l : list Z) : string :=
  ("{sa_family=AF_UNIX, sun_path=" +:+ String "034" (c_string (take 108 (drop 2 l))) +:+
   String "034" "}, ").
Definition show_sockaddr_nl (l : list Z) : string :=
  ("{sa_family=AF_NETLINK, pid=" +:+ show_d (le_decode (take 4 (drop 4 l))) +:+ ", groups=" +:+
   show_u (le_decode (take 4 (drop 8 l))) +:+ "}, ").

(** The common text of [accept], [connect] and [bind]. *)
Definition print_addr_syscall (call : string) (reg : reg_s) (proc : Z) : M unit :=
  let! p := get_proc proc in
  let pid := pd_pid p in
  let! domain := get_domain_socket proc (s32 (arg reg 0)) in
  fprint proc (prefix p (call +:+ "(")) ;;
  fprint proc (show_d (arg reg 0) +:+ ", ") ;;
  (if domain =? 2 then
     let! b := ptrace_cpy pid (arg reg 1) 16 in
     fprint proc (show_sockaddr_in (sai_decode b))
   else if domain =? 1 then
     let! b := ptrace_cpy pid (arg reg 1) 110 in
     fprint proc (show_sockaddr_un b)
   else if domain =? 16 then
     let! b := ptrace_cpy pid (arg reg 1) 12 in
     fprint proc (show_sockaddr_nl b)
   else fprint proc "{sockaddr unknown}, ") ;;
  fprint proc (show_d (arg reg 2)) ;;
  fprint proc (") = " +:+ show_d (reg_ret reg) +:+ String "010" "").

Definition print_accept_syscall := print_addr_syscall "accept".
Definition print_connect_syscall := print_addr_syscall "connect".
Definition print_bind_syscall := print_addr_syscall "bind".

(** ** Socket calls *)

Definition nl : string := String "010" "".
Definition show_ret (reg : reg_s) : string := (") = " +:+ show_d (reg_ret reg) +:+ nl).
Definition unknown (what : string) (v : Z) : string := (what +:+ " (" +:+ show_d v +:+ ")").

Definition print_socket_syscall (reg : reg_s) (proc : Z) : M unit :=
  let! p := get_proc proc in
  fprint proc (prefix p "socket(") ;;
  let dom := s32 (arg reg 0) in
  let type := s32 (arg reg 1) in
  let proto := s32 (arg reg 2) in
  let show_type := name_of socket_types type (unknown "TYPE UNKNOWN" type +:+ ", ") in
  (if dom =? 0 then fprint proc "PF_UNSPEC, "
   else if dom =? 1 then fprint proc "PF_UNIX, "
   else if dom =? 2 then
     fprint proc "PF_INET, " ;; fprint proc show_type ;;
     fprint proc (name_of ip_protocols proto (unknown "PROTOCOL UNKNOWN" proto))
   else if dom =? 16 then
     fprint proc "PF_NETLINK, " ;; fprint proc show_type ;;
     fprint proc (name_of netlink_protocols proto (unknown "PROTOCOL UNKNOWN" proto))
   else fprint proc (unknown "DOMAIN UNKNOWN" dom +:+ ", ")) ;;
  fprint proc (show_ret reg).

(** The common text of [getsockopt] and [setsockopt]. *)
Definition print_sockopt_syscall (call : string) (reg : reg_s) (proc : Z) : M unit :=
  let! p := get_proc proc in
  fprint proc (prefix p (call +:+ "(")) ;;
  fprint proc (show_d (arg reg 0) +:+ ", ") ;;
  let level := s32 (arg reg 1) in
  let opt := s32 (arg reg 2) in
  let unk := (unknown "OPTION UNKNOWN" opt +:+ ", ") in
  (if level =? 0 then fprint proc "SOL_IP, " ;; fprint proc (name_of ip_options opt unk)
   else if level =? 1 then fprint proc "SOL_SOCKET, " ;; fprint proc (name_of socket_options opt unk)
   else if level =? 41 then fprint proc "SOL_IPV6, "
   else if level =? 58 then fprint proc "SOL_ICMPV6, "
   else fprint proc (unknown "PROTOCOL UNKNOWN" level +:+ ", ")) ;;
  fprint proc (show_d (arg reg 4) +:+ " ) = ") ;;
  fprint proc (show_d (reg_ret reg) +:+ nl).

Definition print_getsockopt_syscall := print_sockopt_syscall "getsockopt".
Definition print_setsockopt_syscall := print_sockopt_syscall "setsockopt".

Definition print_listen_syscall (reg : reg_s) (proc : Z) : M unit :=
  let! p := get_proc proc in
  fprint proc (prefix p "listen(") ;;
  fprint proc (show_d (arg reg 0) +:+ ", ") ;;
  fprint proc (show_d (arg reg 1) +:+ " ") ;;
  fprint proc (show_ret reg).

Definition print_flags_send (proc flags : Z) : M unit :=
  fprint proc (flag_names send_flags flags) ;; fprint proc ", ".
Definition print_flags_recv (proc flags : Z) : M unit :=
  fprint proc (flag_names recv_flags flags) ;; fprint proc ", ".

(** The address printed by [sendto] and [recvfrom]. *)
Definition print_opt_addr (proc domain : Z) (is_addr : bool) (sai : sockaddr_in) (sau snl : list Z)
    : M unit :=
  if domain =? 2 then fprint proc (if is_addr then show_sockaddr_in sai else "NULL, ")
  else if domain =? 1 then fprint proc (if is_addr then show_sockaddr_un sau else "NULL, ")
  else if domain =? 16 then fprint proc (if is_addr then show_sockaddr_nl snl else "NULL, ")
  else fprint proc "{sockaddr unknown}, ".

Definition quote (s : string) : string := (String "034" s +:+ String "034" "").
Definition show_ssize_ret (reg : reg_s) : string := (") = " +:+ show_ld (reg_ret reg) +:+ nl).

(** The flags printed are those of the descriptor number, [reg->arg[0]]. *)
Definition print_sendto_syscall (reg : reg_s) (proc : Z) (data : list Z) (is_addr : bool)
    (addrlen : Z) (sai : sockaddr_in) (sau snl : list Z) : M unit :=
  let! domain := get_domain_socket proc (s32 (arg reg 0)) in
  let! p := get_proc proc in
  fprint proc (prefix p "sendto(") ;;
  (if u64 (arg reg 2) <? 200 then
     fprint proc (show_d (arg reg 0) +:+ ", " +:+
       quote (c_string (take (Z.to_nat (s64 (reg_ret reg))) data)) +:+ " , " +:+
       show_lu (arg reg 2) +:+ ", ")
   else
     fprint proc (show_d (arg reg 0) +:+ ", " +:+ quote (c_string (take 199 data) +:+ "...") +:+
       " , " +:+ show_lu (arg reg 2) +:+ ", ")) ;;
  (if 0 <? s32 (arg reg 3) then print_flags_send proc (s32 (arg reg 0)) else fprint proc "0, ") ;;
  print_opt_addr proc domain is_addr sai sau snl ;;
  fprint proc (show_u addrlen) ;;
  fprint proc (show_ssize_ret reg).

Definition print_recvfrom_syscall (reg : reg_s) (proc : Z) (data : list Z) (sai : sockaddr_in)
    (sau snl : list Z) (is_addr : bool) (addrlen : Z) : M unit :=
  let! domain := get_domain_socket proc (s32 (arg reg 0)) in
  let! p := get_proc proc in
  fprint proc (prefix p "recvfrom(") ;;
  let n := s64 (reg_ret reg) in
  (if negb (n =? 0) then
     (if n <=? 500 then
        fprint proc (show_d (arg reg 0) +:+ ", " +:+ quote (c_string (take (Z.to_nat n) data)) +:+
          " , " +:+ show_lu (arg reg 2) +:+ ", ")
      else
        fprint proc (show_d (arg reg 0) +:+ ", " +:+ quote (c_string (take 499 data) +:+ "...") +:+
          " , " +:+ show_lu (arg reg 2) +:+ ", ")) ;;
     (if 0 <? s32 (arg reg 3) then print_flags_send proc (s32 (arg reg 3)) else fprint proc "0, ")
   else fprint proc (show_d (arg reg 0) +:+ ", " +:+ quote "" +:+ " , " +:+
          show_lu (arg reg 2) +:+ ", ")) ;;
  print_opt_addr proc domain is_addr sai sau snl ;;
  fprint proc (show_u addrlen) ;;
  fprint proc (show_ssize_ret reg).

Definition show_msghdr (body : string) (msg : msghdr) : string :=
  (", {msg_namelen=" +:+ show_d (msg_namelen msg) +:+ ", msg_iovlen=" +:+ show_d (msg_iovlen msg) +:+
   ", " +:+ body +:+ "msg_controllen=" +:+ show_d (msg_controllen msg) +:+ ", msg_flags=" +:+
   show_d (msg_flags msg) +:+ "}, ").

(** A text shorter than 20 bytes is not terminated in the buffer it is copied
    to; the unspecified bytes printed after it are left out. *)
Definition print_sendmsg_syscall (reg : reg_s) (proc len : Z) (data : list Z) (msg : msghdr) : M unit :=
  let! p := get_proc proc in
  fprint proc (prefix p "sendmsg(") ;;
  fprint proc (show_d (arg reg 0) +:+ ", ") ;;
  (if s32 len <? 20 then
     fprint proc (show_msghdr (quote (c_string (take (Z.to_nat len) data)) +:+ ", ") msg)
   else fprint proc (show_msghdr (quote (c_string (take 19 data) +:+ "...") +:+ ", ") msg)) ;;
  (if 0 <? s32 (arg reg 2) then print_flags_recv proc (s32 (arg reg 2)) else fprint proc "0 ") ;;
  fprint proc (show_ssize_ret reg).

Definition print_recvmsg_syscall (reg : reg_s) (proc : Z) (msg : msghdr) : M unit :=
  let! p := get_proc proc in
  fprint proc (prefix p "recvmsg(") ;;
  fprint proc (show_d (arg reg 0) +:+ ", ") ;;
  fprint proc (show_msghdr "" msg) ;;
  (if 0 <? s32 (arg reg 2) then print_flags_recv proc (s32 (arg reg 2)) else fprint proc "0 ") ;;
  fprint proc (show_ssize_ret reg).

(** ** [poll] *)

Definition poll_names (events : Z) : string :=
  foldr (λ e acc, if has_flag events e.1 then (e.2 +:+ acc) else acc) "" poll_flags.
Definition show_pollfd (f : pollfd) : string :=
  ("{fd=" +:+ show_d (poll_fd f) +:+ ", " +:+ "events=" +:+ poll_names (poll_events f) +:+
   ", revents=" +:+ poll_names (poll_revents f) +:+ "} ").

(** [for (i = 0; i < nfds - 1; i++)], left after the fifth turn. *)
Fixpoint disp_pollfd_loop (fuel : nat) (fds : list pollfd) (i nfds : Z) : string :=
  match fuel with
  | O => ""
  | S fuel =>
    if i <? u64 (nfds - 1) then
      match fds !! Z.to_nat i with
      | None => ""
      | Some f =>
        show_pollfd f +:+
        (if 3 <? i then " ... }" else disp_pollfd_loop fuel fds (i + 1) nfds)
      end
    else ""
  end.

Definition disp_pollfd (proc : Z) (fds : list pollfd) (nfds : Z) : M unit :=
  fprint proc (disp_pollfd_loop 5 fds 0 nfds) ;;
  if nfds <? 3 then
    let! f := of_option Invalid_pointer (fds !! Z.to_nat (u64 (nfds - 1))) in
    fprint proc (show_pollfd f)
  else ret tt.

Definition print_poll_syscall (reg : reg_s) (proc : Z) (fd_list : option (list pollfd))
    (timeout : Z) : M unit :=
  fprint proc "poll([" ;;
  (match fd_list with
   | Some l => disp_pollfd proc l (u64 (arg reg 1))
   | None => fprint proc "NULL"
   end) ;;
  fprint proc " ]" ;;
  fprint proc (show_d timeout +:+ ") = " +:+ show_d (reg_ret reg) +:+ nl).

(** ** [getpeername] *)

(** The length is read at an address of the tracee. *)
Definition print_getpeername_syscall (reg : reg_s) (proc : Z) : M unit :=
  let! p := get_proc proc in
  fprint proc (prefix p ("getpeername (" +:+ show_d (arg reg 0) +:+ ", ")) ;;
  let! b := ptrace_cpy (pd_pid p) (arg reg 1) 16 in
  let sock := sai_decode b in
  fprint proc ("{sa_family=AF_INET, sin_port=htons(" +:+ sprintf_d (sin_port sock) +:+
    "), sin_addr=inet_addr(" +:+ String "034" (inet_ntoa (sin_addr sock)) +:+ String "034" ")}, ") ;;
  fail Invalid_pointer.

(** ** Files *)

Record flock := { l_type : Z; l_whence : Z; l_start : Z; l_len : Z; l_pid : Z }.
Definition sizeof_flock : Z := 32.
Definition flock_decode (l : list Z) : flock :=
  {| l_type := s16 (le_decode (take 2 l)); l_whence := s16 (le_decode (take 2 (drop 2 l)));
     l_start := s64 (le_decode (take 8 (drop 8 l))); l_len := s64 (le_decode (take 8 (drop 16 l)));
     l_pid := s32 (le_decode (take 4 (drop 24 l))) |}.

Definition show_flock (l : flock) : string :=
  (", " +:+ show_d (l_type l) +:+ ", " +:+ show_d (l_whence l) +:+ ", " +:+ show_ld (l_start l) +:+
   ", " +:+ show_ld (l_len l)).

Definition print_fcntl_syscall (reg : reg_s) (proc : Z) : M unit :=
  let! p := get_proc proc in
  fprint proc (prefix p ("fcntl( " +:+ show_d (arg reg 0) +:+ ", ")) ;;
  let cmd := s32 (arg reg 1) in
  let print_lock name :=
    fprint proc name ;;
    let! b := ptrace_cpy (pd_pid p) (arg reg 2) sizeof_flock in
    fprint proc (show_flock (flock_decode b)) in
  (if cmd =? 0 then fprint proc "F_DUPFD"
   else if cmd =? 1030 then fprint proc "F_DUPFD_CLOEXEC"
   else if cmd =? 1 then fprint proc "F_GETFD"
   else if cmd =? 2 then
     fprint proc "F_SETFD" ;;
     (if negb (s64 (arg reg 2) =? 0) then fprint proc ", FD_CLOEXEC"
      else fprint proc (", " +:+ show_ld (arg reg 2)))
   else if cmd =? 3 then fprint proc "F_GETFL"
   else if cmd =? 4 then fprint proc "F_SETFL" ;; fprint proc (", " +:+ show_ld (arg reg 2))
   else if cmd =? 6 then print_lock "F_SETLK"
   else if cmd =? 7 then print_lock "F_SETLKW"
   else if cmd =? 5 then print_lock "F_GETLK"
   else if cmd =? 9 then fprint proc "F_GETOWN"
   else if cmd =? 8 then fprint proc "F_SETOWN"
   else fprint proc "Unknown command") ;;
  fprint proc (show_ret reg).

Definition print_lseek_syscall (reg : reg_s) (proc : Z) : M unit :=
  fprint proc ("lseek(" +:+ show_d (arg reg 0) +:+ ", ") ;;
  fprint proc (show_d (arg reg 1) +:+ ", " +:+ show_d (arg reg 2) +:+ ")") ;;
  fprint proc (show_ret reg).

(** The common text of [read] and [write]. [xbt_malloc0] of a negative result
    fails; the buffer is not terminated, and the unspecified bytes printed after
    it are left out. *)
Definition print_rw_syscall (call : string) (reg : reg_s) (proc : Z) : M unit :=
  let! p := get_proc proc in
  if s64 (reg_ret reg) <? 0 then fail Xbt_die else
  let! data := ptrace_cpy (pd_pid p) (arg reg 1) (u64 (reg_ret reg)) in
  fprint proc (prefix p (call +:+ "(" +:+ show_d (arg reg 0) +:+ ", " +:+ quote (c_string data) +:+
    ", " +:+ show_lu (arg reg 2) +:+ ") = " +:+ show_ld (reg_ret reg) +:+ nl)).

Definition print_read_syscall := print_rw_syscall "read".
Definition print_write_syscall := print_rw_syscall "write".

Definition print_shutdown_option (proc how : Z) : M unit :=
  if how =? 0 then fprint proc "SHUT_RD" else if how =? 1 then fprint proc "SHUT_WR"
  else if how =? 2 then fprint proc "SHUT_RDWR" else ret tt.

Definition print_shutdown_syscall (reg : reg_s) (proc : Z) : M unit :=
  let! p := get_proc proc in
  fprint proc (prefix p ("shutdown (" +:+ show_d (arg reg 0) +:+ ", ")) ;;
  print_shutdown_option proc (s32 (arg reg 1)) ;;
  fprint proc (show_ret reg).

Definition print_flags_clone (proc flags : Z) : M unit :=
  fprint proc (flag_names clone_flags flags) ;; fprint proc ", ".

Definition print_clone_syscall (reg : reg_s) (proc : Z) : M unit :=
  let! p := get_proc proc in
  fprint proc (prefix p ("clone(child_stack=" +:+ show_ld (arg reg 1) +:+ ", flags=")) ;;
  print_flags_clone proc (s32 (arg reg 0)) ;;
  fprint proc ("child_tidptr = " +:+ show_d (arg reg 3) +:+ ") = " +:+ show_ld (reg_ret reg) +:+ " " +:+ nl).

Definition print_execve_syscall_post (reg : reg_s) (proc : Z) : M unit :=
  fprint proc (" = " +:+ show_d (reg_ret reg) +:+ nl).

(** Printed on stderr, after the path name was read from the tracee. *)
Definition print_creat_syscall (reg : reg_s) (proc : Z) : M unit :=
  let! p := get_proc proc in
  let! _ := ptrace_cpy (pd_pid p) (arg reg 0) 200 in ret tt.

Definition print_tuxcall_syscall (reg : reg_s) (proc : Z) : M unit :=
  let! p := get_proc proc in
  let! _ := ptrace_cpy (pd_pid p) (arg reg 1) 8 in ret tt.

(** ** Aligned output *)

Definition stprintf (proc : Z) (s : string) : M unit :=
  let! p := get_proc proc in
  match strace_out p with
  | Some out => put_proc proc (set_strace (Some (out +:+ s))
                  (s32 (curcol p + Z.of_nat (String.length s))) p)
  | None => ret tt
  end.

Definition acolumn : Z := 40.

Fixpoint spaces (n : nat) : string :=
  match n with O => "" | S n => String " " (spaces n) end%string.

Definition stprintf_tabto (proc : Z) : M unit :=
  let! p := get_proc proc in
  if curcol p <? acolumn then stprintf proc (spaces (Z.to_nat (acolumn - curcol p))) else ret tt.

Definition stprintf_eol (proc : Z) : M unit :=
  let! p := get_proc proc in
  match strace_out p with
  | Some out => put_proc proc (set_strace (Some (out +:+ nl)) 0 p)
  | None => ret tt
  end.

(** The appender of xbt_log_strace.c: a message of the log goes to the file of the process
    whose thread prints it, [NULL] for the main thread, and to stderr. *)
Definition append_file (proc : Z) (str : string) : M unit :=
  if proc =? NULL then ret tt else
  let! p := get_proc proc in
  match strace_out p with
  | Some out => put_proc proc (set_strace (Some (out +:+ str)) (curcol p) p)
  | None => ret tt
  end.

(** [if (strace_option) m]. *)
Definition if_strace (m : M unit) : M unit :=
  let! o := gets strace_option in when (negb (o =? 0)) m.

End Print.
