(* ===== verification/Communication.v ===== *)
(** src/src/communication.c: the communications between two sockets.

    A communication holds its two sockets, what each of them received, the
    queue of communications waiting to be accepted, and a state. *)
From S2P Require Import Prelude Libc External State Monad Reference DataUtils ProcessDescriptor Sockets.
Open Scope sim_scope.

Section Communication.
Context `{X : Xbt} `{Wd : World}.

Definition comm_init : M unit := modify (set_comm_list xbt_dynar_new).

Definition sock_ref (isp delta : Z) : M unit :=
  upd_sock isp (λ i, set_is_ref_nb (s32 (is_ref_nb i + delta)) i).
Definition comm_ref (c delta : Z) : M unit :=
  upd_comm c (λ v, set_comm_ref_nb (s32 (comm_ref_nb v + delta)) v).

Definition comm_new (socket : Z) : M Z :=
  let! res := alloc_comm
    (mk_comm 0 0 (mk_info NULL NULL) (mk_info NULL NULL) 0 xbt_dynar_new 0) in
  upd_sock socket (set_is_comm res) ;;
  upd_comm res (set_socket0 socket) ;;
  sock_ref socket 1 ;;
  let! r0 := recv_information_new in
  upd_comm res (λ c, mk_comm (remote_ip c) (remote_port c) (mk_info (ci_socket (info0 c)) r0)
    (info1 c) (comm_state c) (conn_wait c) (comm_ref_nb c)) ;;
  let! r1 := recv_information_new in
  upd_comm res (λ c, mk_comm (remote_ip c) (remote_port c) (info0 c) (mk_info NULL r1)
    COMM_OPEN xbt_dynar_new (comm_ref_nb c)) ;;
  modify (λ s, set_comm_list (xbt_dynar_push (comm_list s) res) s) ;;
  comm_ref res 1 ;;
  ret res.

Definition comm_destroy (comm : Z) : M unit :=
  let! c := get_comm comm in
  (if negb (ci_socket (info0 c) =? NULL) then sock_ref (ci_socket (info0 c)) (-1) else ret tt) ;;
  (if negb (ci_socket (info1 c) =? NULL) then sock_ref (ci_socket (info1 c)) (-1) else ret tt) ;;
  recv_information_destroy (ci_recv (info0 c)) ;;
  recv_information_destroy (ci_recv (info1 c)) ;;
  let! l := gets comm_list in
  match xbt_dynar_search (Z.eqb comm) l with
  | None => ret tt
  | Some i =>
    comm_ref comm (-1) ;;
    match xbt_dynar_remove_at l i with
    | Some l' => modify (set_comm_list l')
    | None => ret tt
    end
  end ;;
  free_comm comm.

Definition comm_get_peer (isp : Z) : M Z :=
  let! i := get_sock isp in
  let! c := get_comm (is_comm i) in
  if ci_socket (info0 c) =? isp then ret (ci_socket (info1 c)) else ret (ci_socket (info0 c)).

Definition comm_get_own_recv (isp : Z) : M Z :=
  let! i := get_sock isp in
  if is_comm i =? NULL then ret NULL else
  let! c := get_comm (is_comm i) in
  if ci_socket (info0 c) =? isp then ret (ci_recv (info0 c)) else ret (ci_recv (info1 c)).

Definition comm_get_peer_recv (isp : Z) : M Z :=
  let! i := get_sock isp in
  let! c := get_comm (is_comm i) in
  if ci_socket (info0 c) =? isp then ret (ci_recv (info1 c)) else ret (ci_recv (info0 c)).

(** [unset_socket(is->fd.proc->pid, is); delete_socket(is); if (!is->ref_nb) free(is);] *)
Definition release_socket (isp : Z) : M unit :=
  let! i := get_sock isp in
  let! p := get_proc (fd_proc (is_fd i)) in
  unset_socket (pd_pid p) isp ;;
  delete_socket isp ;;
  let! i := get_sock isp in
  if is_ref_nb i =? 0 then free_fd isp else ret tt.

Definition comm_close (isp : Z) : M unit :=
  let! i := get_sock isp in
  let comm := is_comm i in
  if comm =? NULL then ret tt else
  let! c := get_comm comm in
  if comm_state c =? COMM_LISTEN then
    release_socket (ci_socket (info0 c)) ;;
    comm_destroy comm
  else if comm_state c =? COMM_CLOSED then
    release_socket (ci_socket (info0 c)) ;;
    release_socket (ci_socket (info1 c)) ;;
    comm_destroy comm
  else upd_comm comm (set_comm_state COMM_CLOSED).

Definition comm_shutdown (isp : Z) : M unit :=
  let! i := get_sock isp in
  if is_comm i =? NULL then ret tt else upd_comm (is_comm i) (set_comm_state COMM_SHUT).

Definition comm_set_listen (comm : Z) : M unit := upd_comm comm (set_comm_state COMM_LISTEN).

(** Returns the process to connect to, [NULL] when nothing is bound there. *)
Definition comm_ask_connect (host : option msg_host) (port proc fd device : Z) : M Z :=
  let! conn := get_binding_socket_host host port device in
  if conn =? NULL then ret NULL else
  let! sock := get_infos_socket proc fd in
  let! comm := comm_new sock in
  let! ci := get_sock conn in
  upd_comm (is_comm ci) (λ c, set_conn_wait (xbt_dynar_push (conn_wait c) comm) c) ;;
  comm_ref comm 1 ;;
  let! isp := get_infos_socket proc fd in
  let! ci := get_sock conn in
  let! i := get_sock isp in
  let! ip := (if is_ip_local ci =? 0 then
                if fd_proc (is_fd ci) =? fd_proc (is_fd i) then ret localhost
                else let! p := get_proc (fd_proc (is_fd ci)) in get_ip_of_host (pd_host p)
              else ret (is_ip_local ci)) in
  upd_comm comm (set_remote ip (is_port_local ci)) ;;
  let! c := get_comm comm in
  upd_comm comm (if ci_socket (info0 c) =? isp then set_socket1 conn else set_socket0 conn) ;;
  sock_ref conn 1 ;;
  ret (fd_proc (is_fd ci)).

Definition comm_join_on_accept (isp proc fd_listen : Z) : M unit :=
  let! sock_listen := get_infos_socket proc fd_listen in
  let! l := get_sock sock_listen in
  let comm := is_comm l in
  if comm =? NULL then fail Throw_impossible else
  let! c := get_comm comm in
  let! r := of_option Throw_not_found (xbt_dynar_shift (conn_wait c)) in
  put_comm comm (set_conn_wait r.2 c) ;;
  let comm_conn := r.1 in
  comm_ref comm_conn (-1) ;;
  upd_comm comm_conn (set_socket1 isp) ;;
  sock_ref isp 1 ;;
  upd_sock isp (set_is_comm comm_conn) ;;
  comm_ref comm_conn 1.

(** The address of a socket, as the sixteen bytes stored for [accept]. *)
Definition socket_sockaddr (i : infos_socket) : sockaddr_in :=
  {| sin_family := AF_INET; sin_port := htons (is_port_local i); sin_addr := is_ip_local i;
     sin_zero := replicate 8 0 |}.

(** [None]: the address is left as it was. *)
Definition comm_get_ip_port_accept (isp : Z) : M (option sockaddr_in) :=
  let! i := get_sock isp in
  if is_comm i =? NULL then fail Throw_impossible else
  let! c := get_comm (is_comm i) in
  if xbt_dynar_is_empty (conn_wait c) then ret None else
  let! comm_conn := of_option Throw_not_found (xbt_dynar_get_cpy (conn_wait c) 0) in
  let! cc := get_comm comm_conn in
  let! s := get_sock (ci_socket (info0 cc)) in
  ret (Some (socket_sockaddr s)).

Definition comm_accept_connect (isp : Z) : M (Z * option sockaddr_in) :=
  let! i := get_sock isp in
  if is_comm i =? NULL then fail Throw_impossible else
  let! c := get_comm (is_comm i) in
  if xbt_dynar_is_empty (conn_wait c) then ret (NULL, None) else
  let! comm_conn := of_option Throw_not_found (xbt_dynar_get_cpy (conn_wait c) 0) in
  let! cc := get_comm comm_conn in
  let! s := get_sock (ci_socket (info0 cc)) in
  ret (fd_proc (is_fd s), Some (socket_sockaddr s)).

(** Stores through [in], which [getpeername] passes as [NULL]. *)
Definition comm_getpeername (isp : Z) (addr : Z) : M Z :=
  let! i := get_sock isp in
  if is_comm i =? NULL then ret (-1) else
  let! _ := comm_get_peer isp in
  if addr =? NULL then fail Invalid_pointer else ret 0.

Definition comm_has_connect_waiting (isp : Z) : M bool :=
  if isp =? NULL then fail Xbt_die else
  let! i := get_sock isp in
  if is_comm i =? NULL then fail Xbt_die else
  let! c := get_comm (is_comm i) in
  ret (negb (xbt_dynar_is_empty (conn_wait c))).

Definition comm_get_socket_state (isp : Z) : M Z :=
  let! i := get_sock isp in
  if is_comm i =? NULL then ret 0 else
  let! c := get_comm (is_comm i) in
  let! recv := comm_get_own_recv isp in
  let! peer := comm_get_peer isp in
  let! r := get_recv recv in
  let res := 0 in
  let res := if negb (Nat.eqb (xbt_fifo_size (data_fifo r)) 0) then Z.lor res SOCKET_READ_OK else res in
  let res := if negb (xbt_dynar_is_empty (conn_wait c)) then Z.lor res SOCKET_READ_OK else res in
  let res := if comm_state c =? COMM_CLOSED then Z.lor res SOCKET_CLOSED else res in
  let res := if negb (peer =? NULL) then Z.lor res SOCKET_WR_NBLK else res in
  let res := if comm_state c =? COMM_SHUT then Z.lor res SOCKET_SHUT else res in
  ret res.

Definition comm_send_data (isp : Z) (tci : task_comm_info) : M unit :=
  let! recv := comm_get_peer_recv isp in
  upd_recv recv (λ r, set_recv_task (xbt_fifo_push (recv_task r) tci) r).

(** [None] is the [NULL] of an empty list. *)
Definition comm_get_send (isp : Z) : M (option task_comm_info) :=
  let! recv := comm_get_own_recv isp in
  let! r := get_recv recv in
  match xbt_fifo_shift (recv_task r) with
  | None => ret None
  | Some (tci, f) => put_recv recv (set_recv_task f r) ;; ret (Some tci)
  end.

(** The data of the task ([&proc_sender->pid]) is replaced by the caller. *)
Definition create_send_communication_task (proc_sender isp amount : Z)
    (sender receiver : option msg_host) : M msg_task :=
  let! p := get_proc proc_sender in
  let! sh := of_option Invalid_pointer sender in
  let! rh := of_option Invalid_pointer receiver in
  let! task := on_world Invalid_pointer (λ w, Some
    (MSG_parallel_task_create w (pd_name p +:+ " send") [sh; rh] amount)) in
  comm_send_data isp {| tci_task := task; tci_sender_host := pd_host p |} ;;
  ret task.

Definition send_task (receiver : option msg_host) (task : msg_task) : M unit :=
  let! name := host_name receiver in
  let! _ := block (Task_send task name) in
  ret tt.

End Communication.

(** ** The two sides of a communication *)

Section CommLemmas.
Context `{X : Xbt} `{Wd : World} `{!XbtLaws X}.

Definition own (c : comm) (isp : Z) : comm_info :=
  if ci_socket (info0 c) =? isp then info0 c else info1 c.
Definition peer (c : comm) (isp : Z) : comm_info :=
  if ci_socket (info0 c) =? isp then info1 c else info0 c.

(** The socket [isp] is [i] and takes part in the communication [c]. *)
Definition in_comm (s : st) (isp : Z) (i : infos_socket) (c : comm) : Prop :=
  st_fd s !! isp = Some (FdSock i) ∧ is_comm i ≠ NULL ∧ st_comm s !! is_comm i = Some c.

Lemma comm_get_peer_eval s isp i c :
  in_comm s isp i c → comm_get_peer isp s = Done (ci_socket (peer c isp)) s.
Proof.
  intros (Hi & Hn & Hc). unfold comm_get_peer, peer. ev. ev. by destruct (ci_socket (info0 c) =? isp).
Qed.

Lemma comm_get_own_recv_eval s isp i c :
  in_comm s isp i c → comm_get_own_recv isp s = Done (ci_recv (own c isp)) s.
Proof.
  intros (Hi & Hn & Hc). unfold comm_get_own_recv, own. ev.
  rewrite (proj2 (Z.eqb_neq _ _) Hn). ev. by destruct (ci_socket (info0 c) =? isp).
Qed.

Lemma comm_get_peer_recv_eval s isp i c :
  in_comm s isp i c → comm_get_peer_recv isp s = Done (ci_recv (peer c isp)) s.
Proof.
  intros (Hi & Hn & Hc). unfold comm_get_peer_recv, peer. ev. ev. by destruct (ci_socket (info0 c) =? isp).
Qed.

(** [a] and [b] are the two sockets of one communication. *)
Record linked (s : st) (a b : Z) : Prop := {
  lk_comm : ∃ ia ib c, in_comm s a ia c ∧ in_comm s b ib c ∧ is_comm ia = is_comm ib ∧
              ((ci_socket (info0 c) = a ∧ ci_socket (info1 c) = b) ∨
               (ci_socket (info0 c) = b ∧ ci_socket (info1 c) = a)) ∧
              ci_recv (info0 c) ≠ ci_recv (info1 c) ∧
              is_Some (st_recv s !! ci_recv (info0 c)) ∧ is_Some (st_recv s !! ci_recv (info1 c));
  lk_ne : a ≠ b;
}.

Lemma linked_sym s a b : linked s a b → linked s b a.
Proof.
  intros [(ia & ib & c & Ha & Hb & He & Hor & Hr & H0 & H1) Hne]. split; [|done].
  exists ib, ia, c. split; [done|]. split; [done|]. split; [done|]. split; [|done].
  destruct Hor; [by right|by left].
Qed.

Lemma linked_peers s a b :
  linked s a b → comm_get_peer a s = Done b s ∧ comm_get_peer b s = Done a s.
Proof.
  intros [(ia & ib & c & Ha & Hb & He & Hor & _) Hne].
  rewrite (comm_get_peer_eval _ _ _ _ Ha), (comm_get_peer_eval _ _ _ _ Hb). unfold peer.
  destruct Hor as [[E0 E1]|[E0 E1]]; rewrite E0, Z.eqb_refl;
    [rewrite (proj2 (Z.eqb_neq a b)) by done|rewrite (proj2 (Z.eqb_neq b a)) by done];
    by rewrite E0, E1.
Qed.

(** The tasks sent to the socket and not yet taken. *)
Definition queue (s : st) (isp : Z) (l : list task_comm_info) : Prop :=
  ∃ i c r, in_comm s isp i c ∧ st_recv s !! ci_recv (own c isp) = Some r ∧ fifo_model (recv_task r) = l.

(** The place where what is sent to the socket [isp] is stored. *)
Definition inbox (s : st) (isp q : Z) : Prop := ∃ i c, in_comm s isp i c ∧ ci_recv (own c isp) = q.

Lemma inbox_inj s isp q q' : inbox s isp q → inbox s isp q' → q' = q.
Proof.
  intros (i & c & (Hi & _ & Hc) & <-) (i' & c' & (Hi' & _ & Hc') & <-). rewrite Hi in Hi'. injection Hi' as <-.
  rewrite Hc in Hc'. by injection Hc' as <-.
Qed.

(** Where the messages from [a] to [b] are stored. *)
Lemma linked_recv s a b :
  linked s a b → ∃ ia ib c, in_comm s a ia c ∧ in_comm s b ib c ∧ peer c a = own c b ∧
    own c a = peer c b ∧ ci_recv (own c a) ≠ ci_recv (own c b) ∧ is_Some (st_recv s !! ci_recv (own c b)).
Proof.
  intros [(ia & ib & c & Ha & Hb & He & Hor & Hr & H0 & H1) Hne]. exists ia, ib, c.
  split; [done|]. split; [done|]. unfold own, peer.
  destruct Hor as [[-> _]|[-> _]]; rewrite Z.eqb_refl;
    [rewrite (proj2 (Z.eqb_neq a b)) by done|rewrite (proj2 (Z.eqb_neq b a)) by done]; auto.
Qed.

(** Storing a new list of received tasks does not change who is connected. *)
Lemma linked_set_recv s a b q r :
  linked s a b → linked (set_recv (<[q := r]> (st_recv s)) s) a b.
Proof.
  intros [(ia & ib & c & Ha & Hb & He & Hor & Hr & H0 & H1) Hne]. split; [|done].
  exists ia, ib, c. do 5 (split; [done|]). st_cbn.
  split; apply lookup_insert_is_Some'; auto.
Qed.

Lemma queue_set_recv s isp l i c q r :
  in_comm s isp i c → q ≠ ci_recv (own c isp) → queue s isp l →
  queue (set_recv (<[q := r]> (st_recv s)) s) isp l.
Proof.
  intros (Hi & _ & Hc) Hq (i' & c' & r' & (Hi' & Hn' & Hc') & Hr & Hl).
  rewrite Hi in Hi'. injection Hi' as <-. rewrite Hc in Hc'. injection Hc' as <-.
  exists i, c, r'. split; [done|]. split; [|done]. st_cbn. by rewrite lookup_insert_ne.
Qed.

Lemma queue_at s isp i c l :
  in_comm s isp i c → queue s isp l →
  ∃ r, st_recv s !! ci_recv (own c isp) = Some r ∧ fifo_model (recv_task r) = l.
Proof.
  intros (Hi & _ & Hc) (i' & c' & r' & (Hi' & Hn' & Hc') & Hr & Hl).
  rewrite Hi in Hi'. injection Hi' as <-. rewrite Hc in Hc'. injection Hc' as <-. by exists r'.
Qed.

Lemma comm_send_data_queue s a b la lb t :
  linked s a b → queue s a la → queue s b lb →
  ∃ s', comm_send_data a t s = Done tt s' ∧ linked s' a b ∧ queue s' a la ∧ queue s' b (lb ++ [t]) ∧
    s' = set_recv (st_recv s') s ∧ ∀ q x, inbox s b q → x ≠ q → st_recv s' !! x = st_recv s !! x.
Proof.
  intros Hl Ha Hb. destruct (linked_recv s a b Hl) as (ia & ib & c & Ia & Ib & E1 & E2 & Hne & _).
  destruct (queue_at s b ib c lb Ib Hb) as (r & Hr & Hq).
  assert (inbox s b (ci_recv (own c b))) as Hin by (by exists ib, c).
  eexists. split.
  { unfold comm_send_data. eval_with (comm_get_peer_recv_eval s a ia c Ia). rewrite E1.
    apply upd_recv_eval. exact Hr. }
  split; [by apply linked_set_recv|]. split; [by eapply queue_set_recv|]. split; [|split; [done|]]; last first.
  { intros q x Hx Hne'. st_cbn. rewrite (inbox_inj s b q _ Hx Hin). by apply lookup_insert_ne. }
  exists ib, c, (set_recv_task (xbt_fifo_push (recv_task r) t) r). split; [done|]. st_cbn.
  split; [apply lookup_insert_eq|]. cbn. by rewrite fifo_push_model, Hq.
Qed.

Lemma comm_get_send_queue s a b la t lb :
  linked s a b → queue s a la → queue s b (t :: lb) →
  ∃ s', comm_get_send b s = Done (Some t) s' ∧ linked s' a b ∧ queue s' a la ∧ queue s' b lb.
Proof.
  intros Hl Ha Hb. destruct (linked_recv s a b Hl) as (ia & ib & c & Ia & Ib & E1 & E2 & Hne & _).
  destruct (queue_at s b ib c _ Ib Hb) as (r & Hr & Hq).
  destruct (fifo_shift_cons _ _ _ _ Hq) as (f & Hf & Hm).
  eexists. split.
  { unfold comm_get_send. eval_with (comm_get_own_recv_eval s b ib c Ib). ev. rewrite Hf.
    unfold put_recv. ev. apply ret_eval. }
  split; [by apply linked_set_recv|]. split; [by eapply queue_set_recv|].
  exists ib, c, (set_recv_task f r). split; [done|]. st_cbn. split; [apply lookup_insert_eq|done].
Qed.

Lemma comm_get_send_empty s isp i c :
  in_comm s isp i c → queue s isp [] → comm_get_send isp s = Done None s.
Proof.
  intros Hi Hq. destruct (queue_at s isp i c _ Hi Hq) as (r & Hr & Hm).
  unfold comm_get_send. eval_with (comm_get_own_recv_eval s isp i c Hi). ev.
  by rewrite (fifo_shift_nil _ _ Hm).
Qed.

(** Sending several tasks and taking several tasks. *)
Fixpoint send_all (isp : Z) (ts : list task_comm_info) : M unit :=
  match ts with [] => ret tt | t :: ts => comm_send_data isp t ;; send_all isp ts end.
Fixpoint take_all (n : nat) (isp : Z) : M (list (option task_comm_info)) :=
  match n with
  | O => ret []
  | S n => let! t := comm_get_send isp in let! l := take_all n isp in ret (t :: l)
  end.

Lemma send_all_queue ts : ∀ s a b la lb,
  linked s a b → queue s a la → queue s b lb →
  ∃ s', send_all a ts s = Done tt s' ∧ linked s' a b ∧ queue s' a la ∧ queue s' b (lb ++ ts).
Proof.
  induction ts as [|t ts IH]; intros s a b la lb Hl Ha Hb; [exists s; by rewrite app_nil_r|].
  destruct (comm_send_data_queue s a b la lb t Hl Ha Hb) as (s1 & E1 & L1 & A1 & B1 & _).
  destruct (IH s1 a b la (lb ++ [t]) L1 A1 B1) as (s2 & E2 & H2).
  exists s2. rewrite <- app_assoc in H2. split; [simpl; by eval_with E1|done].
Qed.

Lemma take_all_queue l : ∀ s a b la r,
  linked s a b → queue s a la → queue s b (l ++ r) →
  ∃ s', take_all (length l) b s = Done (Some <$> l) s' ∧ linked s' a b ∧ queue s' a la ∧ queue s' b r.
Proof.
  induction l as [|t l IH]; intros s a b la r Hl Ha Hb; [by exists s|].
  destruct (comm_get_send_queue s a b la t (l ++ r) Hl Ha Hb) as (s1 & E1 & L1 & A1 & B1).
  destruct (IH s1 a b la r L1 A1 B1) as (s2 & E2 & H2).
  exists s2. split; [|done]. simpl. eval_with E1. eval_with E2. done.
Qed.

(** One more take on an empty queue. *)
Lemma take_all_last isp l : ∀ s s',
  take_all (length l) isp s = Done (Some <$> l) s' → comm_get_send isp s' = Done None s' →
  take_all (S (length l)) isp s = Done ((Some <$> l) ++ [None]) s'.
Proof.
  induction l as [|t l IH]; intros s s' H Hn.
  { injection H as <-. cbn [take_all length]. eval_with Hn. by ev. }
  cbn [take_all length] in H. unfold bind at 1 in H.
  destruct (comm_get_send isp s) as [x s1|e s1|rq s1 kk] eqn:E; simpl in H; [|done|done].
  unfold bind in H at 1. destruct (take_all (length l) isp s1) as [y s2|e s2|rq s2 kk] eqn:E2;
    simpl in H; [|done|done]. injection H as -> -> ->.
  change (take_all (S (length (t :: l))) isp s) with
    ((let! t := comm_get_send isp in let! l := take_all (S (length l)) isp in ret (t :: l)) s).
  eval_with E. eval_with (IH s1 s' E2 Hn). done.
Qed.

End CommLemmas.

(** ** Setting up a communication *)

Section Handshake.
Context `{X : Xbt} `{Wd : World} `{!XbtLaws X}.

Definition fresh_recv : recv_information := mk_recv xbt_fifo_new xbt_fifo_new 0.

(** The communication [comm_new] makes: at the address [n], with the lists of
    received data at the two following addresses. *)
Definition fresh_comm (n sock : Z) : comm :=
  mk_comm 0 0 (mk_info sock (n + 1)) (mk_info NULL (n + 2)) COMM_OPEN xbt_dynar_new 1.

Lemma comm_new_eval s sock i :
  st_fd s !! sock = Some (FdSock i) →
  let n := st_next s in
  comm_new sock s = Done n
    (set_comm_list (xbt_dynar_push (comm_list s) n)
      (set_recv (<[n + 2 := fresh_recv]> (<[n + 1 := fresh_recv]> (st_recv s)))
        (set_comm (<[n := fresh_comm n sock]> (st_comm s))
          (set_fd (<[sock := FdSock (set_is_ref_nb (s32 (is_ref_nb i + 1)) (set_is_comm n i))]> (st_fd s))
            (set_next (n + 3) s))))).
Proof.
  intros Hi n. unfold comm_new, sock_ref, comm_ref, recv_information_new.
  eval_with alloc_comm_eval. st_cbn.
  eval_with upd_sock_eval; [lookup_solve|]. st_cbn.
  eval_with upd_comm_eval; [lookup_solve|]. st_cbn.
  eval_with upd_sock_eval; [lookup_solve|]. st_cbn.
  eval_with alloc_recv_eval. st_cbn.
  eval_with upd_comm_eval; [lookup_solve|]. st_cbn.
  eval_with alloc_recv_eval. st_cbn.
  eval_with upd_comm_eval; [lookup_solve|]. st_cbn.
  ev. eval_with upd_comm_eval; [lookup_solve|]. unfold ret, fresh_comm. st_cbn.
  rewrite !insert_insert_eq. fold n.
  replace (n + 1 + 1) with (n + 2) by lia. replace (n + 2 + 1) with (n + 3) by lia.
  reflexivity.
Qed.

Definition ref_up (i : infos_socket) : infos_socket := set_is_ref_nb (s32 (is_ref_nb i + 1)) i.

Lemma sock_ref_up_eval s isp i :
  st_fd s !! isp = Some (FdSock i) →
  sock_ref isp 1 s = Done tt (set_fd (<[isp := FdSock (ref_up i)]> (st_fd s)) s).
Proof. apply upd_sock_eval. Qed.

(** The address [comm_ask_connect] records for the other end is known. *)
Definition address_known (s : st) (il : infos_socket) : Prop :=
  is_ip_local il ≠ 0 ∨
  ∃ p h, st_proc s !! fd_proc (is_fd il) = Some p ∧ pd_host p = Some h ∧
         is_Some (host_of s (MSG_host_get_name h)).

Lemma remote_ip_eval s il (i : infos_socket) :
  address_known s il →
  ∃ ip, (if is_ip_local il =? 0 then
           if fd_proc (is_fd il) =? fd_proc (is_fd i) then ret localhost
           else let! p := get_proc (fd_proc (is_fd il)) in get_ip_of_host (pd_host p)
         else ret (is_ip_local il)) s = Done ip s.
Proof.
  intros H. destruct (is_ip_local il =? 0) eqn:E0; [|by eexists].
  destruct (fd_proc (is_fd il) =? fd_proc (is_fd i)); [by eexists|].
  destruct H as [H|(p & h & Hp & Hh & hd & Hd)]; [by bool_to_prop|].
  exists (host_ip hd). ev. rewrite Hh. unfold get_ip_of_host. by eval_with (host_desc_eval s h hd Hd).
Qed.

Lemma comm_ask_connect_eval s h port proc fd device d k ik l il c :
  port_of s (MSG_host_get_name h) port = Some d →
  has_flag (port_option d) PORT_BIND = true → has_flag device (port_option d) = true →
  bind_socket d = l → l ≠ NULL →
  socket_at s proc fd k ik → st_fd s !! l = Some (FdSock il) → k ≠ l →
  st_comm s !! is_comm il = Some c → is_comm il ≠ st_next s → address_known s il →
  let n := st_next s in
  ∃ ip, comm_ask_connect (Some h) port proc fd device s = Done (fd_proc (is_fd il))
    (set_comm_list (xbt_dynar_push (comm_list s) n)
      (set_recv (<[n + 2 := fresh_recv]> (<[n + 1 := fresh_recv]> (st_recv s)))
        (set_comm (<[n := mk_comm ip (is_port_local il) (mk_info k (n + 1)) (mk_info l (n + 2))
                            COMM_OPEN xbt_dynar_new 2]>
                     (<[is_comm il := set_conn_wait (xbt_dynar_push (conn_wait c) n) c]> (st_comm s)))
          (set_fd (<[l := FdSock (ref_up il)]> (<[k := FdSock (ref_up (set_is_comm n ik))]> (st_fd s)))
            (set_next (n + 3) s))))).
Proof.
  intros Hp Hb Hdev Hl Hln Hk Hil Hkl Hc Hlc Hip n.
  assert (is_Some (host_of s (MSG_host_get_name h))) as Hh.
  { unfold port_of in Hp. destruct (host_of s (MSG_host_get_name h)); [by eexists|done]. }
  pose proof (sa_fd _ _ _ _ _ Hk) as Hki.
  set (ik' := ref_up (set_is_comm n ik)).
  pose proof (comm_new_eval s k ik Hki) as Hnew. cbv zeta in Hnew. fold n in Hnew.
  set (s1 := set_comm_list _ _) in Hnew.
  set (s2 := set_comm (<[is_comm il := set_conn_wait (xbt_dynar_push (conn_wait c) n) c]>
                         (<[n := fresh_comm n k]> (st_comm s))) s1).
  set (s3 := set_comm (<[n := set_comm_ref_nb 2 (fresh_comm n k)]> (st_comm s2)) s2).
  destruct (remote_ip_eval s3 il ik') as [ip Hip3]; [exact Hip|].
  exists ip. unfold comm_ask_connect.
  eval_with (get_binding_socket_host_eval s h port device Hh).
  rewrite Hp, Hb, Hdev, Hl. cbn [andb]. rewrite (proj2 (Z.eqb_neq _ _) Hln).
  eval_with (get_infos_socket_at s proc fd k ik Hk). eval_with Hnew.
  assert (st_fd s1 !! l = Some (FdSock il)) as Hl1 by (unfold s1; st_cbn; by rewrite lookup_insert_ne).
  eval_with (get_sock_eval s1 l il Hl1).
  eapply bind_eval; [apply (upd_comm_eval s1 (is_comm il) c); unfold s1; st_cbn; by rewrite lookup_insert_ne|].
  cbv beta. change (set_comm _ s1) with s2.
  eapply bind_eval; [apply (upd_comm_eval s2 n (fresh_comm n k)); unfold s2; st_cbn;
    by rewrite lookup_insert_ne, lookup_insert_eq|].
  cbv beta. change (set_comm _ s2) with s3.
  assert (socket_at s3 proc fd k ik') as Hk3.
  { split; [by destruct Hk|by destruct Hk| |by destruct Hk]. unfold s3, s2, s1. st_cbn. apply lookup_insert_eq. }
  eval_with (get_infos_socket_at s3 proc fd k ik' Hk3).
  eval_with (get_sock_eval s3 l il Hl1). eval_with (get_sock_eval s3 k ik' (sa_fd _ _ _ _ _ Hk3)).
  eval_with Hip3. eapply bind_eval; [apply upd_comm_eval; unfold s3; st_cbn; apply lookup_insert_eq|]. cbv beta.
  ev. cbn [ci_socket info0 fresh_comm set_comm_ref_nb set_remote]. rewrite Z.eqb_refl.
  eapply bind_eval; [apply upd_comm_eval; st_cbn; apply lookup_insert_eq|]. cbv beta.
  eval_with (sock_ref_up_eval _ l il); [exact Hl1|]. unfold ret, s3, s2, s1. st_cbn.
  rewrite !insert_insert_eq, (insert_insert_ne _ (is_comm il) n) by done. rewrite insert_insert_eq. reflexivity.
Qed.

(** The oldest waiting communication is given to the new socket of the server. *)
Lemma comm_join_on_accept_eval s isp i proc fd l il c m cm w :
  socket_at s proc fd l il → st_fd s !! isp = Some (FdSock i) →
  is_comm il ≠ NULL → st_comm s !! is_comm il = Some c → dynar_model (conn_wait c) = m :: w →
  m ≠ is_comm il → st_comm s !! m = Some cm → is_s 32 (comm_ref_nb cm) →
  ∃ cw, dynar_model cw = w ∧
    comm_join_on_accept isp proc fd s = Done tt
      (set_comm (<[m := set_socket1 isp cm]> (<[is_comm il := set_conn_wait cw c]> (st_comm s)))
        (set_fd (<[isp := FdSock (set_is_comm m (ref_up i))]> (st_fd s)) s)).
Proof.
  intros Hl Hi Hn Hc Hw Hm Hcm Hr.
  destruct (dynar_shift_cons _ _ _ _ Hw) as (cw & Hsh & Hcw). exists cw. split; [done|].
  unfold comm_join_on_accept. eval_with (get_infos_socket_at s proc fd l il Hl).
  eval_with (get_sock_eval s l il (sa_fd _ _ _ _ _ Hl)). rewrite (proj2 (Z.eqb_neq _ _) Hn).
  ev. eapply bind_eval; [by apply of_option_eval|]. cbn [fst snd]. unfold put_comm. ev.
  unfold comm_ref. eapply bind_eval; [apply (upd_comm_eval _ m cm); st_cbn; by rewrite lookup_insert_ne|].
  cbv beta. eapply bind_eval; [apply upd_comm_eval; st_cbn; apply lookup_insert_eq|]. cbv beta.
  eval_with (sock_ref_up_eval _ isp i); [exact Hi|].
  eapply bind_eval; [apply upd_sock_eval; st_cbn; apply lookup_insert_eq|]. cbv beta.
  rewrite (upd_comm_eval _ m (set_socket1 isp (set_comm_ref_nb (s32 (comm_ref_nb cm + -1)) cm)))
    by (st_cbn; apply lookup_insert_eq).
  f_equal. st_cbn. rewrite !insert_insert_eq. unfold set_socket1, set_comm_ref_nb. cbn.
  replace (s32 (s32 (comm_ref_nb cm + -1) + 1)) with (comm_ref_nb cm); [reflexivity|].
  rewrite swrap_add. replace (comm_ref_nb cm + -1 + 1) with (comm_ref_nb cm) by lia.
  symmetry. by apply swrap_small.
Qed.

(** The client [k] waits on the listening socket [l] of the descriptor [fl] of [ps],
    and the server has a new socket [n] for the connection. *)
Record pending (s : st) (k n ps fl l : Z) : Prop := {
  pd_listen : ∃ il c m cm r0 r1, socket_at s ps fl l il ∧ in_comm s l il c ∧
    dynar_model (conn_wait c) = [m] ∧ m ≠ is_comm il ∧ m ≠ NULL ∧ st_comm s !! m = Some cm ∧
    is_s 32 (comm_ref_nb cm) ∧ info0 cm = mk_info k r0 ∧ ci_recv (info1 cm) = r1 ∧ r0 ≠ r1 ∧
    st_recv s !! r0 = Some fresh_recv ∧ st_recv s !! r1 = Some fresh_recv ∧
    ∃ ik, st_fd s !! k = Some (FdSock ik) ∧ is_comm ik = m;
  pd_new : ∃ i, st_fd s !! n = Some (FdSock i);
  pd_ne : n ≠ k ∧ n ≠ l;
}.

Lemma join_linked s k n ps fl l :
  pending s k n ps fl l →
  ∃ s', comm_join_on_accept n ps fl s = Done tt s' ∧ linked s' k n ∧ queue s' k [] ∧ queue s' n [] ∧
    (∃ il c, socket_at s' ps fl l il ∧ in_comm s' l il c ∧ dynar_model (conn_wait c) = []).
Proof.
  intros [(il & c & m & cm & r0 & r1 & Hl & (Hil & Hln & Hc) & Hw & Hml & Hm & Hcm & Hr & H0 & H1 & Hrr &
    Hr0 & Hr1 & ik & Hk & Hkm) [i Hi] [Hnk Hnl]].
  destruct (comm_join_on_accept_eval s n i ps fl l il c m cm [] Hl Hi Hln Hc Hw Hml Hcm Hr)
    as (cw & Hcw & Hj). set (s' := set_comm _ _) in Hj. exists s'. split; [done|].
  assert (in_comm s' k ik (set_socket1 n cm)) as Ik.
  { split; [|rewrite Hkm; split; [done|]]; unfold s'; st_cbn; [by rewrite lookup_insert_ne|].
    apply lookup_insert_eq. }
  assert (in_comm s' n (set_is_comm m (ref_up i)) (set_socket1 n cm)) as In.
  { split; [|split; [done|]]; unfold s'; st_cbn; apply lookup_insert_eq. }
  assert (own (set_socket1 n cm) k = mk_info k r0 ∧ own (set_socket1 n cm) n = mk_info n r1) as [Ok On].
  { unfold own, set_socket1. cbn [info0 info1]. rewrite H0, H1. cbn [ci_socket].
    by rewrite Z.eqb_refl, (proj2 (Z.eqb_neq k n)). }
  split; [|split; [|split]].
  - split; [|done]. eexists _, _, _. split; [exact Ik|]. split; [exact In|]. split; [done|].
    unfold set_socket1. cbn [info0 info1]. rewrite H0, H1. split; [by left|]. split; [done|].
    unfold s'. st_cbn. cbn [ci_recv]. rewrite Hr0, Hr1. split; by eexists.
  - eexists _, _, _. split; [exact Ik|]. rewrite Ok. split; [exact Hr0|apply fifo_new_model].
  - eexists _, _, _. split; [exact In|]. rewrite On. split; [exact Hr1|apply fifo_new_model].
  - assert (st_fd s' !! l = Some (FdSock il)) as Hl' by (unfold s'; st_cbn; by rewrite lookup_insert_ne).
    exists il, (set_conn_wait cw c). split; [|split; [|exact Hcw]].
    + destruct Hl as [Hp Hz _ Ht]. by split.
    + split; [exact Hl'|]. split; [exact Hln|]. unfold s'. st_cbn.
      rewrite lookup_insert_ne by done. apply lookup_insert_eq.
Qed.

(** ** Closing *)

Lemma comm_close_none s isp i :
  st_fd s !! isp = Some (FdSock i) → is_comm i = NULL → comm_close isp s = Done tt s.
Proof. intros Hi Hn. unfold comm_close. ev. by rewrite Hn. Qed.

(** The first of the two sockets to be closed only marks the communication. *)
Lemma comm_close_first s isp i c :
  in_comm s isp i c → comm_state c ≠ COMM_LISTEN → comm_state c ≠ COMM_CLOSED →
  comm_close isp s = Done tt (set_comm (<[is_comm i := set_comm_state COMM_CLOSED c]> (st_comm s)) s).
Proof.
  intros (Hi & Hn & Hc) H1 H2. unfold comm_close. ev. rewrite (proj2 (Z.eqb_neq _ _) Hn). ev.
  rewrite (proj2 (Z.eqb_neq _ _) H1), (proj2 (Z.eqb_neq _ _) H2). by apply upd_comm_eval.
Qed.

End Handshake.

(** ** Properties *)

Section CommProperties.
Context `{X : Xbt} `{Wd : World} `{!XbtLaws X}.

(** C7: a connection. A client asks for a port on which a server listens and the
    server accepts: [comm_ask_connect], then [register_socket] and
    [comm_join_on_accept]. The socket of the client and the new socket of the
    server are then the two ends of one communication, each the peer of the other,
    with nothing received yet on either side; the listening socket stays in place
    and nobody waits on it any more. *)
Theorem connect_accept_peers s h port device d pc fc k ik ps fl l il c pp nf domain type protocol :
  heap_ok s → port_of s (MSG_host_get_name h) port = Some d →
  has_flag (port_option d) PORT_BIND = true → has_flag device (port_option d) = true →
  bind_socket d = l → socket_at s pc fc k ik → socket_at s ps fl l il → k ≠ l →
  in_comm s l il c → dynar_model (conn_wait c) = [] → address_known s il →
  st_proc s !! ps = Some pp → is_s 32 fl → is_s 32 nf → fd_entry pp nf = NULL →
  ∃ n s', (let! q := comm_ask_connect (Some h) port pc fc device in
           let! n := register_socket ps nf domain type protocol in
           comm_join_on_accept n ps fl ;; ret n) s = Done n s' ∧
    linked s' k n ∧ comm_get_peer k s' = Done n s' ∧ comm_get_peer n s' = Done k s' ∧
    queue s' k [] ∧ queue s' n [] ∧
    (∃ il' c', socket_at s' ps fl l il' ∧ in_comm s' l il' c' ∧ dynar_model (conn_wait c') = []).
Proof.
  intros Hok Hd Hb Hdev Hl Hk Hls Hkl (Hil & Hln & Hlc) Hcw Haddr Hpp Hfl Hnf Hfree.
  assert (is_comm il < st_next s) as Hlt by (apply (ho_comm s Hok); by eexists).
  assert (k < st_next s) as Hkn by (apply (ho_fd s Hok); destruct Hk; by eexists).
  assert (l < st_next s) as Hlnx by (apply (ho_fd s Hok); by eexists).
  pose proof (ho_next s Hok) as Hnx.
  destruct (comm_ask_connect_eval s h port pc fc device d k ik l il c Hd Hb Hdev Hl
              (sa_null _ _ _ _ _ Hls) Hk Hil Hkl Hlc ltac:(lia) Haddr) as [ip He].
  set (n := st_next s) in *. set (s1 := set_comm_list _ _) in He.
  destruct (register_socket_eval s1 ps pp nf domain type protocol Hpp Hfree Hnf) as (pp' & Hr & Hset).
  { change (n + 3 ≠ NULL). unfold NULL. lia. }
  cbv zeta in Hr. change (st_next s1) with (n + 3) in *. set (s2 := set_all_sockets _ _) in Hr.
  assert (pending s2 k (n + 3) ps fl l) as Hpend.
  { split; [|unfold s2; st_cbn; rewrite lookup_insert_eq; by eexists|lia].
    eexists (ref_up il), _, n, _, (n + 1), (n + 2).
    assert (st_fd s2 !! l = Some (FdSock (ref_up il))) as Hl2.
    { unfold s2, s1. st_cbn. rewrite lookup_insert_ne by lia. apply lookup_insert_eq. }
    split; [|split; [split; [exact Hl2|split; [exact Hln|]]|]].
    - destruct Hls as [(p & Hp & Hx) Hz _ Ht]. rewrite Hpp in Hp. injection Hp as <-.
      split; [|done|done|done]. exists pp'. unfold s2. st_cbn. rewrite lookup_insert_eq. split; [done|].
      destruct Hset as (_ & _ & Ho). rewrite Ho; [done|done|]. intros ->. congruence.
    - unfold s2, s1. st_cbn. cbn [ref_up is_comm set_is_ref_nb]. rewrite lookup_insert_ne by lia.
      apply lookup_insert_eq.
    - cbn [conn_wait set_conn_wait]. rewrite dynar_push_model, Hcw. split; [done|].
      cbn [ref_up is_comm set_is_ref_nb]. split; [lia|]. split; [unfold NULL; lia|].
      unfold s2, s1. st_cbn. split; [apply lookup_insert_eq|]. do 3 (split; [done|]). split; [lia|].
      split; [by rewrite lookup_insert_ne, lookup_insert_eq by lia|].
      split; [by rewrite lookup_insert_eq|]. exists (ref_up (set_is_comm n ik)). split; [|reflexivity].
      by rewrite lookup_insert_ne, lookup_insert_ne, lookup_insert_eq by lia. }
  destruct (join_linked _ _ _ _ _ _ Hpend) as (s3 & Hj & Hlk & Hq1 & Hq2 & Hlis).
  destruct (linked_peers _ _ _ Hlk) as [Hp1 Hp2].
  exists (n + 3), s3. split; [eval_with He; eval_with Hr; eval_with Hj; done|done].
Qed.

(** C8: a connection carries tasks in both directions, in order and without loss:
    what one end sends with [comm_send_data] the other end takes with
    [comm_get_send], oldest first, then [NULL]; the queue in the other direction
    does not change. *)
Theorem comm_fifo s a b la lb ts :
  linked s a b → queue s a la → queue s b lb →
  ∃ s', (send_all a ts ;; take_all (S (length lb + length ts)) b) s
        = Done ((Some <$> (lb ++ ts)) ++ [None]) s' ∧
    linked s' a b ∧ queue s' a la ∧ queue s' b [].
Proof.
  intros Hl Ha Hb. destruct (send_all_queue ts s a b la lb Hl Ha Hb) as (s1 & E1 & L1 & A1 & B1).
  rewrite <- (app_nil_r (lb ++ ts)) in B1.
  destruct (take_all_queue (lb ++ ts) s1 a b la [] L1 A1 B1) as (s2 & E2 & L2 & A2 & B2).
  exists s2. split; [|done]. eval_with E1.
  destruct (linked_recv s2 a b L2) as (ia & ib & c & _ & Ib & _).
  rewrite <- length_app. apply take_all_last; [exact E2|]. by eapply comm_get_send_empty.
Qed.

End CommProperties.

(** A server on bob (process at 2) that listens on the port 80 with its descriptor
    3, and a client on alice (process at 1) with a socket at the address 7. *)
Definition host (name : string) : option (msg_host (World := ref_world)) := Some name.
Definition client_proc : process_descriptor :=
  mk_proc 7 "alice" (host "alice") [(int_key 3, 7)] 0 0 None 0.
Definition server_proc : process_descriptor :=
  mk_proc 8 "bob" (host "bob") [(int_key 3, 3)] 0 0 None 0.
Definition client_sock : infos_socket := new_socket 1 3 2 1 0 (host "alice").
Definition listen_sock : infos_socket :=
  set_is_comm 4 (set_is_local 0 80 (set_is_ref_nb 3 (new_socket 2 3 2 1 0 (host "bob")))).
Definition listen_comm : comm :=
  mk_comm 0 0 (mk_info 3 5) (mk_info NULL 6) COMM_LISTEN [] 1.

Definition bound_example : st := run_state
  (register_port (host "bob") 80 ;;
   set_port_on_binding (host "bob") 80 3 (Z.lor PORT_LOCAL PORT_REMOTE))
  (set_fd {[3 := FdSock listen_sock]} hosts_example).

Definition listen_example : st :=
  set_all_sockets [3; 7] (set_comm_list [4] (set_next 8
    (set_proc {[1 := client_proc; 2 := server_proc]}
      (set_fd {[3 := FdSock listen_sock; 7 := FdSock client_sock]}
        (set_comm {[4 := listen_comm]}
          (set_recv {[5 := fresh_recv; 6 := fresh_recv]} bound_example)))))).

Lemma connect_accept_peers_witness :
  ∃ n s', (let! q := comm_ask_connect (host "bob") 80 1 3 PORT_REMOTE in
           let! n := register_socket 2 4 2 1 0 in
           comm_join_on_accept n 2 3 ;; ret n) listen_example = Done n s' ∧
    linked s' 7 n ∧ comm_get_peer 7 s' = Done n s' ∧ comm_get_peer n s' = Done 7 s' ∧
    queue s' 7 [] ∧ queue s' n [] ∧
    (∃ il' c', socket_at s' 2 3 3 il' ∧ in_comm s' 3 il' c' ∧ dynar_model (conn_wait c') = []).
Proof.
  apply (connect_accept_peers listen_example "bob"%string 80 PORT_REMOTE (mk_port 80 0 7 1 3)
           1 3 7 client_sock 2 3 3 listen_sock listen_comm server_proc 4 2 1 0).
  - apply heap_check_ok. vm_compute. reflexivity.
  - vm_compute. reflexivity.
  - reflexivity.
  - reflexivity.
  - reflexivity.
  - split; [exists client_proc; split; reflexivity|by vm_compute|reflexivity|reflexivity].
  - split; [exists server_proc; split; reflexivity|by vm_compute|reflexivity|reflexivity].
  - by vm_compute.
  - split; [reflexivity|split; [by vm_compute|reflexivity]].
  - reflexivity.
  - right. exists server_proc, "bob"%string. split; [reflexivity|]. split; [reflexivity|].
    vm_compute. by eexists.
  - reflexivity.
  - split; by vm_compute.
  - split; by vm_compute.
  - reflexivity.
Defined.

(** A connection between the sockets 7 and 11. *)
Definition linked_example : st :=
  set_fd {[7 := FdSock (set_is_comm 8 client_sock);
           11 := FdSock (set_is_comm 8 (new_socket 2 4 2 1 0 (host "bob")))]}
    (set_comm {[8 := mk_comm 1 80 (mk_info 7 9) (mk_info 11 10) COMM_OPEN [] 2]}
      (set_recv {[9 := fresh_recv; 10 := fresh_recv]} listen_example)).

Lemma linked_example_ends : linked linked_example 7 11 ∧ queue linked_example 7 [] ∧ queue linked_example 11 [].
Proof.
  assert (in_comm linked_example 7 (set_is_comm 8 client_sock)
    (mk_comm 1 80 (mk_info 7 9) (mk_info 11 10) COMM_OPEN [] 2)) as Ia by (by repeat split).
  assert (in_comm linked_example 11 (set_is_comm 8 (new_socket 2 4 2 1 0 (host "bob")))
    (mk_comm 1 80 (mk_info 7 9) (mk_info 11 10) COMM_OPEN [] 2)) as Ib by (by repeat split).
  split; [split; [|done]|split].
  - eexists _, _, _. split; [exact Ia|]. split; [exact Ib|]. split; [done|]. split; [by left|].
    split; [done|]. split; by exists fresh_recv.
  - eexists _, _, fresh_recv. split; [exact Ia|by split].
  - eexists _, _, fresh_recv. split; [exact Ib|by split].
Qed.

Lemma comm_fifo_witness :
  let t1 := {| tci_task := tt : msg_task (World := ref_world); tci_sender_host := None |} in
  let t2 := {| tci_task := tt : msg_task (World := ref_world); tci_sender_host := host "alice" |} in
  ∃ s', (send_all 7 [t1; t2] ;; take_all 3 11) linked_example
        = Done [Some t1; Some t2; None] s' ∧
    linked s' 7 11 ∧ queue s' 7 [] ∧ queue s' 11 [].
Proof.
  intros t1 t2. destruct linked_example_ends as (Hl & Ha & Hb).
  apply (comm_fifo linked_example 7 11 [] [] [t1; t2]); [exact Hl|exact Ha|exact Hb].
Defined.
