(* ===== verification/Translate.v ===== *)
(** The functions of address translation, which let the kernel run the calls on local
    ports: the rewriting of addresses in sys_connect.c, sys_accept.c and sys_sendto.c,
    the search for a free port in ptrace_utils.c and the look-up of the port of a socket
    in /proc, in sockets.c. They are compiled in every build and called when the macro
    [address_translation] is defined. *)
From S2P Require Import Prelude Libc External State Monad Reference DataUtils ProcessDescriptor.
From S2P Require Import PtraceUtils Sockets Print Communication.
Open Scope sim_scope.

(** ** Text in memory *)

(** [strtok]: the first token of a text and what follows it. The text ends at its first
    null byte; past the end of the list the memory is not known. *)
Fixpoint skip_delim (d : Z) (l : list Z) : list Z :=
  match l with b :: l' => if b =? d then skip_delim d l' else l | [] => [] end.
Fixpoint token (d : Z) (l : list Z) : option (list Z * list Z) :=
  match l with
  | [] => None
  | b :: l =>
    if b =? 0 then Some ([], [0]) else if b =? d then Some ([], l) else
    r ← token d l; Some (b :: r.1, r.2)
  end.
(** [inr Invalid_pointer] when the memory ends before the text does; [inl None] for the
    result [NULL]. *)
Definition strtok (d : Z) (l : list Z) : option (list Z * list Z) + failure :=
  match skip_delim d l with
  | [] => inr Invalid_pointer
  | b :: l' =>
    if b =? 0 then inl None else
    match token d (b :: l') with Some r => inl (Some r) | None => inr Invalid_pointer end
  end.

(** [strncpy(dst, src, n)]: the bytes stored. *)
Fixpoint strncpy (n : nat) (src : list Z) : list Z :=
  match n, src with
  | O, _ => []
  | S n, b :: src => if b =? 0 then replicate (S n) 0 else b :: strncpy n src
  | S n, [] => replicate (S n) 0
  end.

Definition hex_value (b : Z) : option Z :=
  if (48 <=? b) && (b <=? 57) then Some (b - 48)
  else if (65 <=? b) && (b <=? 70) then Some (b - 55)
  else if (97 <=? b) && (b <=? 102) then Some (b - 87)
  else None.

(** The digits of [%X]: their value, their number and what follows them. *)
Fixpoint scan_hex (acc : Z) (n : nat) (l : list Z) : Z * nat * list Z :=
  match l with
  | b :: l' => match hex_value b with Some v => scan_hex (16 * acc + v) (S n) l' | None => (acc, n, l) end
  | [] => (acc, n, [])
  end.

(** [sscanf(s, "%X:%hX", &addr, &port)] on digits without sign or prefix: the variables
    that are assigned. *)
Definition scan_addr (s : list Z) : option Z * option Z :=
  let '(a, n, l) := scan_hex 0 0 s in
  if Nat.eqb n 0 then (None, None) else
  match l with
  | b :: l =>
    if b =? 58 then
      let '(p, n, _) := scan_hex 0 0 l in
      (Some (u32 a), if Nat.eqb n 0 then None else Some (u16 p))
    else (Some (u32 a), None)
  | [] => (Some (u32 a), None)
  end.

(** [atoi] on digits. *)
Fixpoint scan_dec (acc : Z) (l : list Z) : Z :=
  match l with
  | b :: l => if (48 <=? b) && (b <=? 57) then scan_dec (10 * acc + (b - 48)) l else acc
  | [] => acc
  end.

Definition LOCAL : Z := 1.
Definition REMOTE : Z := 2.
Definition TCP_PROTOCOL : Z := 0.
Definition UDP_PROTOCOL : Z := 1.
Definition RAW_PROTOCOL : Z := 2.
Definition INODE_OFFSET : nat := 91.

(** The loop of [get_addr_port] over the lines [fgets] returns. [buff] is what the buffer
    held before, [after] the memory after the array [addrs], which the 27 bytes copied
    leave without a final null byte. *)
Fixpoint get_addr_port_loop (num_sock addr : Z) (after buff : list Z) (lines : list (list Z))
    : (Z * (option Z * option Z)) + failure :=
  match lines with
  | [] => inl (-1, (None, None))
  | line :: lines =>
    let buff := (line ++ [0] ++ drop (S (length line)) buff)%list in
    let part_inode := strncpy (512 - INODE_OFFSET) (drop INODE_OFFSET buff) in
    match strtok 32 part_inode with
    | inr e => inr e
    | inl None => inr Invalid_pointer
    | inl (Some (inode, _)) =>
      if s32 (scan_dec 0 inode) =? num_sock then
        let addrs := strncpy 27 (drop 6 buff) in
        match strtok 32 (addrs ++ after) with
        | inr e => inr e
        | inl None => inr Invalid_pointer
        | inl (Some (loc_addr_hex, rest)) =>
          match strtok 32 rest with
          | inr e => inr e
          | inl rem =>
            if addr =? LOCAL then inl (1, scan_addr loc_addr_hex)
            else match rem with Some (rem_addr_hex, _) => inl (1, scan_addr rem_addr_hex)
                              | None => inr Invalid_pointer end
          end
        end
      else get_addr_port_loop num_sock addr after buff lines
    end
  end.

Section Translate.
Context `{X : Xbt} `{Wd : World}.

(** /proc: the lines of /proc/net/tcp, udp and raw ([None] when the file cannot be
    opened), and the targets of the links of /proc/<pid>/fd; [stack] is what the local
    arrays hold before and what follows them. *)
Context (proc_net : W → Z → option (list (list Z))) (proc_fd : W → Z → Z → option (list Z)).
Context (stack : list Z).

Definition get_addr_port (type num_sock addr : Z) : M (Z * (option Z * option Z)) :=
  let! lines := gets (λ s, proc_net (st_w s) type) in
  let! lines := of_option Xbt_die lines in
  match get_addr_port_loop num_sock addr stack stack lines with
  | inl r => ret r
  | inr e => fail e
  end.

Definition socket_get_local_port (proc fd : Z) : M Z :=
  let! isp := get_infos_socket proc fd in
  let! p := get_proc proc in
  let! i := get_sock isp in
  let protocol := is_protocol i in
  let! dest := gets (λ s, proc_fd (st_w s) (pd_pid p) fd) in
  match dest with
  | None => ret (-1)
  | Some dest =>
    match strtok 91 (dest ++ stack) with
    | inr e => fail e
    | inl None => fail Invalid_pointer
    | inl (Some (_, rest)) =>
      match strtok 93 rest with
      | inr e => fail e
      | inl None => fail Invalid_pointer
      | inl (Some (token, _)) =>
        let num_socket := s32 (scan_dec 0 token) in
        let! res :=
          (if protocol =? 1 then
             let! r := get_addr_port TCP_PROTOCOL num_socket LOCAL in
             if r.1 =? -1 then
               let! r := get_addr_port UDP_PROTOCOL num_socket LOCAL in
               if r.1 =? -1 then
                 let! r := get_addr_port RAW_PROTOCOL num_socket LOCAL in ret (Some r)
               else ret (Some r)
             else ret (Some r)
           else if (protocol =? 6) || (protocol =? 0) then
             let! r := get_addr_port TCP_PROTOCOL num_socket LOCAL in ret (Some r)
           else if protocol =? 17 then
             let! r := get_addr_port UDP_PROTOCOL num_socket LOCAL in ret (Some r)
           else if protocol =? 255 then
             let! r := get_addr_port RAW_PROTOCOL num_socket LOCAL in ret (Some r)
           else ret None) in
        match res with
        | None => ret 0
        | Some (_, (_, sin_port)) => let! port := of_option Uninitialised sin_port in ret (ntohs port)
        end
      end
    end
  end.

(** ** Rewriting the addresses of a call *)

Definition sys_translate_connect_in (reg : reg_s) (proc : Z) : M unit :=
  let! p := get_proc proc in
  let! b := ptrace_cpy (pd_pid p) (arg reg 1) 16 in
  let sai := sai_decode b in
  let! port := get_real_port proc (sin_addr sai) (ntohs (sin_port sai)) in
  ptrace_poke (pd_pid p) (arg reg 1)
    (sai_encode (mk_sai (sin_family sai) (htons port) localhost (sin_zero sai))) 16.

Definition sys_translate_connect_out (reg : reg_s) (proc : Z) : M unit :=
  let! p := get_proc proc in
  let! b := ptrace_cpy (pd_pid p) (arg reg 1) 16 in
  let sai := sai_decode b in
  let! td := get_translation (ntohs (sin_port sai)) in
  let! td := of_option Invalid_pointer td in
  ptrace_poke (pd_pid p) (arg reg 1)
    (sai_encode (mk_sai (sin_family sai) (htons (td_port_num td)) (td_ip td) (sin_zero sai))) 16.

Definition sys_translate_accept_out (reg : reg_s) (proc : Z) : M unit :=
  let! p := get_proc proc in
  let! b := ptrace_cpy (pd_pid p) (arg reg 1) 16 in
  let port := ntohs (sin_port (sai_decode b)) in
  let! isp := get_infos_socket proc (s32 (arg reg 0)) in
  let! r := comm_get_ip_port_accept isp in
  let sai := default (sai_decode b) r in
  let! host := (if sin_addr sai =? localhost then ret (pd_host p) else get_host_by_ip (sin_addr sai)) in
  set_real_port host (ntohs (sin_port sai)) port ;;
  add_new_translation port (ntohs (sin_port sai)) (sin_addr sai) ;;
  ptrace_poke (pd_pid p) (arg reg 1) (sai_encode sai) 16.

(** What is stored in the tracee is the pointer [temp] and what follows it. *)
Definition sys_translate_sendto_in (reg : reg_s) (proc : Z) (sai : sockaddr_in) : M sockaddr_in :=
  let! p := get_proc proc in
  if s32 (arg reg 4) =? 0 then ret sai else
  let! port := get_real_port proc (sin_addr sai) (ntohs (sin_port sai)) in
  ptrace_poke (pd_pid p) (arg reg 4) [] 16 ;;
  ret (mk_sai (sin_family sai) (htons port) localhost (sin_zero sai)).

(** ** A free port *)

(** [while (1)]: [bind] is run by the kernel with one port after the other. *)
Fixpoint find_port_loop (fuel : nat) (pid : Z) (temp : list Z) (port : Z) (reg : user_regs)
    : M (Z * user_regs) :=
  let sai := sai_decode temp in
  let temp := (sai_encode (mk_sai (sin_family sai) (htons port) localhost (sin_zero sai)) ++ drop 16 temp)%list in
  ptrace_poke pid (rsi reg) temp (u64 (rdx reg)) ;;
  ptrace_resume_process pid ;;
  wait_ignored pid ;;
  let! reg := getregs pid in
  if rax reg =? 0 then ret (port, reg) else
  match fuel with
  | O => fail Out_of_fuel
  | S fuel =>
    ptrace_rewind_syscalls pid ;;
    ptrace_resume_process pid ;;
    wait_ignored pid ;;
    find_port_loop fuel pid temp (u16 (port - 1)) reg
  end.

(** [last] is the static variable [port]; its new value is the port returned. The copy
    must stay in the structure. *)
Definition ptrace_find_free_binding_port (fuel : nat) (pid last : Z) : M Z :=
  let! _ := getregs pid in
  let! reg := getregs pid in
  let! b := ptrace_cpy pid (rsi reg) (u64 (rdx reg)) in
  if (16 <? length b)%nat then fail Invalid_pointer else
  if negb (Nat.eqb (length b) 16) then fail Uninitialised else
  let! r := find_port_loop fuel pid b (u16 (last - 1)) reg in
  ptrace_poke pid (rsi r.2) b (u64 (rdx r.2)) ;;
  ret r.1.

End Translate.

(** ** Rewriting an address and back *)

Lemma sai_decode_encode a :
  is_u 16 (sin_family a) → is_u 16 (sin_port a) → is_u 32 (sin_addr a) → length (sin_zero a) = 8%nat →
  sai_decode (sai_encode a) = a.
Proof.
  intros Hf Hp Ha Hz. destruct a as [f p a z]. cbn [sin_family sin_port sin_addr sin_zero] in *.
  assert (∀ n v, is_u (8 * Z.of_nat n) v → le_decode (le_encode n v) = v) as Hd.
  { intros n v Hv. rewrite le_decode_encode. apply Z.mod_small. unfold is_u in Hv.
    rewrite Z.pow_mul_r in Hv by lia. exact Hv. }
  pose proof (Hd 2%nat f Hf) as E1. pose proof (Hd 2%nat p Hp) as E2. pose proof (Hd 4%nat a Ha) as E3.
  pose proof (length_le_encode 2 f) as L1. pose proof (length_le_encode 2 p) as L2.
  pose proof (length_le_encode 4 a) as L3. unfold sai_decode, sai_encode.
  cbn [sin_family sin_port sin_addr sin_zero].
  destruct (le_encode 2 f) as [|? [|? []]]; try done. destruct (le_encode 2 p) as [|? [|? []]]; try done.
  destruct (le_encode 4 a) as [|? [|? [|? [|? []]]]]; try done.
  cbn [app take drop]. rewrite take_0, drop_0, E1, E2, E3. by rewrite take_ge by lia.
Qed.

Lemma sai_decode_fields b :
  length b = 16%nat → Forall (is_u 8) b →
  let a := sai_decode b in
  is_u 16 (sin_family a) ∧ is_u 16 (sin_port a) ∧ is_u 32 (sin_addr a) ∧ length (sin_zero a) = 8%nat.
Proof.
  intros Hl Hb. unfold sai_decode. cbn [sin_family sin_port sin_addr sin_zero].
  assert (∀ n l, Forall (is_u 8) l → length l = n → is_u (8 * Z.of_nat n) (le_decode l)) as Hd.
  { intros n l H Hn. pose proof (le_decode_bound l H). subst n. unfold is_u. rewrite Z.pow_mul_r by lia. exact H0. }
  split_and!; [apply (Hd 2%nat)|apply (Hd 2%nat)|apply (Hd 4%nat)|];
    try rewrite length_take, length_drop, Hl; try rewrite length_take, Hl; try done;
    repeat first [apply Forall_take | apply Forall_drop | done].
Qed.

(** Both byte-order conversions are the same permutation of the values of 16 bits. *)
Lemma htons_ntohs x : is_u 16 x → htons (ntohs x) = x.
Proof. intros H. exact (ntohs_htons x H). Qed.

Section TranslateLemmas.
Context `{X : Xbt} `{Wd : World} `{!XbtLaws X} `{!TraceLaws Wd}.

Lemma set_real_port_eval s h port r d :
  port_of s (MSG_host_get_name h) port = Some d →
  ∃ s', set_real_port (Some h) port r s = Done tt s' ∧ s' = set_list_host (list_host s') s ∧
    port_of s' (MSG_host_get_name h) port =
      Some (mk_port (port_num d) r (port_option d) (amount_socket d) (bind_socket d)).
Proof.
  intros Hd. unfold port_of in Hd. destruct (host_of s (MSG_host_get_name h)) as [hd|] eqn:Hh; [|done].
  destruct (put_port_eval s (MSG_host_get_name h) hd port
    (mk_port (port_num d) r (port_option d) (amount_socket d) (bind_socket d)) Hh) as (s' & He & Hs & _ & _ & Hp & _).
  exists s'. split; [|done]. unfold set_real_port. eval_with (host_desc_eval s h hd Hh). cbn [fst snd].
  rewrite Hd. exact He.
Qed.

(** The host a process reaches at an address. *)
Definition reaches (s : st) (p : process_descriptor) (ip : Z) (h : msg_host) : Prop :=
  if ip =? localhost then pd_host p = Some h
  else (xbt_dict_get_or_null (list_ip s) (inet_ntoa ip) ≫= MSG_get_host_by_name) = Some h.

Lemma get_host_by_ip_eval s ip h :
  (xbt_dict_get_or_null (list_ip s) (inet_ntoa ip) ≫= MSG_get_host_by_name) = Some h →
  get_host_by_ip ip s = Done (Some h) s.
Proof.
  intros H. unfold get_host_by_ip. eapply bind_eval; [apply gets_eval|]. cbv beta.
  destruct (xbt_dict_get_or_null (list_ip s) (inet_ntoa ip)); [|done]. cbn in H. by rewrite H.
Qed.

Lemma get_real_port_eval s proc p ip port h d :
  st_proc s !! proc = Some p → reaches s p ip h →
  port_of s (MSG_host_get_name h) port = Some d →
  get_real_port proc ip port s = Done (real_port d) s.
Proof.
  intros Hp Hr Hd. unfold port_of in Hd. destruct (host_of s (MSG_host_get_name h)) as [hd|] eqn:Hh; [|done].
  unfold get_real_port. eapply bind_eval.
  { unfold reaches in Hr. destruct (ip =? localhost).
    - ev. rewrite Hr. by apply host_desc_eval.
    - eval_with (get_host_by_ip_eval s ip h Hr). by apply host_desc_eval. }
  cbv beta. cbn [snd]. by rewrite Hd.
Qed.

(** A structure of sixteen bytes is stored as it is. *)
Lemma poke_sockaddr s pid a sai :
  length (sin_zero sai) = 8%nat → Forall (is_u 8) (sin_zero sai) →
  is_Some (mem_bytes (st_w s) pid a 16) →
  ∃ c w, ptrace_poke pid a (sai_encode sai) 16 s = Done tt (set_cnt c (set_w w s)) ∧
    mem_bytes w pid a 16 = Some (sai_encode sai) ∧ same_but (st_w s) w pid a 16.
Proof.
  intros Hz Hb Hm.
  assert (length (sai_encode sai) = 16%nat) as Hl
    by (unfold sai_encode; rewrite !length_app, !length_le_encode; lia).
  destruct (ptrace_poke_eval s pid a (sai_encode sai) 16) as (c & w & bs & He & Hw & Ht & F).
  - rewrite Hl. lia.
  - unfold sai_encode. repeat (apply Forall_app; split; [apply le_encode_bytes|]). exact Hb.
  - exact Hm.
  - change (Z.to_nat (round8 16)) with 16%nat in Hw. change (Z.to_nat 16) with 16%nat in Ht.
    rewrite (take_ge (sai_encode sai)) in Ht by lia.
    rewrite take_ge in Ht by (by rewrite (mem_bytes_length _ _ _ _ _ Hw)). subst bs.
    by exists c, w.
Qed.

Lemma sockaddr_at s pid a b :
  mem_bytes (st_w s) pid a 16 = Some b →
  length b = 16%nat ∧ Forall (is_u 8) b ∧ Forall (is_u 8) (sin_zero (sai_decode b)) ∧
  ∃ c, ptrace_cpy pid a 16 s = Done b (set_cnt c s).
Proof.
  intros Hb. pose proof (mem_bytes_range _ _ _ _ _ Hb).
  split; [exact (mem_bytes_length _ _ _ _ _ Hb)|]. split; [done|].
  split; [by apply Forall_take, Forall_drop|]. apply ptrace_cpy_eval; [lia|exact Hb].
Qed.

Lemma translate_connect_in_eval s proc p reg b h d :
  st_proc s !! proc = Some p → mem_bytes (st_w s) (pd_pid p) (arg reg 1) 16 = Some b →
  let sai := sai_decode b in
  reaches s p (sin_addr sai) h →
  port_of s (MSG_host_get_name h) (ntohs (sin_port sai)) = Some d →
  ∃ c w, sys_translate_connect_in reg proc s = Done tt (set_cnt c (set_w w s)) ∧
    mem_bytes w (pd_pid p) (arg reg 1) 16 =
      Some (sai_encode (mk_sai (sin_family sai) (htons (real_port d)) localhost (sin_zero sai))) ∧
    same_but (st_w s) w (pd_pid p) (arg reg 1) 16.
Proof.
  intros Hp Hb sai Hr Hd. destruct (sockaddr_at _ _ _ _ Hb) as (Lb & Rb & Rz & c & Hc).
  destruct (sai_decode_fields b Lb Rb) as (_ & _ & _ & Fz).
  destruct (poke_sockaddr (set_cnt c s) (pd_pid p) (arg reg 1)
    (mk_sai (sin_family sai) (htons (real_port d)) localhost (sin_zero sai))) as (c2 & w & Hk & Hm & F);
    [done..|by exists b|].
  exists c2, w. split; [|done]. eval_with (load_eval st_proc proc p s Hp). eval_with Hc. fold sai.
  eapply bind_eval; [apply (get_real_port_eval (set_cnt c s) proc p (sin_addr sai) _ h d Hp)|exact Hk];
    [|exact Hd].
  exact Hr.
Qed.

Lemma translate_connect_out_eval s proc p reg b td :
  st_proc s !! proc = Some p → mem_bytes (st_w s) (pd_pid p) (arg reg 1) 16 = Some b →
  let sai := sai_decode b in
  xbt_dict_get_or_null (list_translate s) (sprintf_d (ntohs (sin_port sai))) = Some td →
  ∃ c w, sys_translate_connect_out reg proc s = Done tt (set_cnt c (set_w w s)) ∧
    mem_bytes w (pd_pid p) (arg reg 1) 16 =
      Some (sai_encode (mk_sai (sin_family sai) (htons (td_port_num td)) (td_ip td) (sin_zero sai))) ∧
    same_but (st_w s) w (pd_pid p) (arg reg 1) 16.
Proof.
  intros Hp Hb sai Ht. destruct (sockaddr_at _ _ _ _ Hb) as (Lb & Rb & Rz & c & Hc).
  destruct (sai_decode_fields b Lb Rb) as (_ & _ & _ & Fz).
  destruct (poke_sockaddr (set_cnt c s) (pd_pid p) (arg reg 1)
    (mk_sai (sin_family sai) (htons (td_port_num td)) (td_ip td) (sin_zero sai))) as (c2 & w & Hk & Hm & F);
    [done..|by exists b|].
  exists c2, w. split; [|done]. eval_with (load_eval st_proc proc p s Hp). eval_with Hc. fold sai.
  unfold get_translation. eapply bind_eval; [eapply bind_eval; [apply gets_eval|]; reflexivity|]. cbv beta.
  cbn [list_translate set_cnt]. rewrite Ht. eapply bind_eval; [reflexivity|]. exact Hk.
Qed.

(** Sixteen bytes changed and put back leave the memory as it was. *)
Lemma same_but_back w1 w2 w3 pid a n bs :
  same_but w1 w2 pid a (Z.of_nat n) → same_but w2 w3 pid a (Z.of_nat n) →
  mem_bytes w1 pid a n = Some bs → mem_bytes w3 pid a n = Some bs →
  ∀ p b, mem_byte w3 p b = mem_byte w1 p b.
Proof.
  intros (A1 & A2 & _) (B1 & B2 & _) H1 H3 p b.
  destruct (decide (p = pid)) as [-> |Hn]; [|by rewrite B2, A2].
  destruct (decide (a <= b < a + Z.of_nat n)) as [Ha|Ha]; [|by rewrite B1, A1].
  replace b with (a + Z.of_nat (Z.to_nat (b - a))) by lia.
  rewrite <- (mem_bytes_lookup _ _ _ _ _ _ H3), <- (mem_bytes_lookup _ _ _ _ _ _ H1) by lia. done.
Qed.

End TranslateLemmas.

(** ** The tables of /proc *)

(** [%0nX] and [%lu]. *)
Definition hex_char (d : Z) : Z := if d <? 10 then 48 + d else 55 + d.
Fixpoint print_hex (n : nat) (v : Z) : list Z :=
  match n with O => [] | S n => (print_hex n (v / 16) ++ [hex_char (v mod 16)])%list end.
Fixpoint print_dec (fuel : nat) (v : Z) : list Z :=
  match fuel with
  | O => []
  | S fuel => ((if v <? 10 then [] else print_dec fuel (v / 10)) ++ [48 + v mod 10])%list
  end.

(** [%nd] and [%nu]: at least [n] columns. *)
Definition print_pad (n : nat) (v : Z) : list Z :=
  let w := print_dec 10 v in (replicate (n - length w) 32 ++ w)%list.

(** A line of /proc/net/tcp, as the kernel prints it: ["%4d: %08X:%04X %08X:%04X %02X %08X:%08X
    %02X:%08lX %08X %5u %8d %lu"], and what follows the inode. *)
Record table_entry := {
  te_sl : Z; te_laddr : Z; te_lport : Z; te_raddr : Z; te_rport : Z; te_state : Z;
  te_tx : Z; te_rx : Z; te_timer : Z; te_when : Z; te_retrans : Z; te_uid : Z; te_timeout : Z;
  te_inode : Z; te_rest : list Z;
}.
Definition addresses (e : table_entry) : list Z :=
  (print_hex 8 (te_laddr e) ++ 58 :: print_hex 4 (te_lport e) ++
   32 :: print_hex 8 (te_raddr e) ++ 58 :: print_hex 4 (te_rport e))%list.
Definition te_number (e : table_entry) : list Z := (print_pad 4 (te_sl e) ++ [58; 32])%list.
Definition te_hex (e : table_entry) : list Z :=
  (32 :: print_hex 2 (te_state e) ++ 32 :: print_hex 8 (te_tx e) ++ 58 :: print_hex 8 (te_rx e) ++
   32 :: print_hex 2 (te_timer e) ++ 58 :: print_hex 8 (te_when e) ++ 32 :: print_hex 8 (te_retrans e) ++ [32])%list.
Definition te_columns (e : table_entry) : list Z :=
  (te_hex e ++ print_pad 5 (te_uid e) ++ 32 :: print_pad 8 (te_timeout e) ++ [32])%list.
Definition table_line (e : table_entry) : list Z :=
  (te_number e ++ addresses e ++ te_columns e ++ print_dec 10 (te_inode e) ++ 32 :: te_rest e)%list.

(** What fits in the columns: five digits for the entry number and eight for the timeout,
    one when the uid has seven digits or more. *)
Record entry_ok (e : table_entry) : Prop := {
  ok_sl : 0 <= te_sl e < 10000;
  ok_laddr : is_u 32 (te_laddr e);
  ok_lport : is_u 16 (te_lport e);
  ok_remote : is_u 32 (te_raddr e) ∧ is_u 16 (te_rport e);
  ok_hex : is_u 8 (te_state e) ∧ is_u 32 (te_tx e) ∧ is_u 32 (te_rx e) ∧ is_u 8 (te_timer e) ∧
    is_u 32 (te_when e) ∧ is_u 32 (te_retrans e);
  ok_uid : is_u 32 (te_uid e);
  ok_timeout : 0 <= te_timeout e < (if te_uid e <? 1000000 then 100000000 else 10);
  ok_inode : 0 <= te_inode e < 2 ^ 31;
  ok_rest : Forall (λ b, b ≠ 0) (te_rest e) ∧ (length (te_rest e) <= 400)%nat;
}.

(** What stands at the offset of the inode: a uid of six digits moves the inode by one
    column, which the separator takes up; one of seven digits or more puts the timeout
    there. *)
Definition seen_inode (e : table_entry) : Z := if te_uid e <? 1000000 then te_inode e else te_timeout e.

(** The title of the table, padded to a line of 150 bytes. *)
Definition table_title : list Z :=
  (string_bytes "  sl  local_address rem_address   st tx_queue rx_queue tr tm->when retrnsmt   uid  timeout inode"
   ++ replicate 53 32 ++ [10])%list.

Lemma hex_char_ok d : 0 <= d < 16 → hex_value (hex_char d) = Some d ∧ 48 <= hex_char d <= 70 ∧ hex_char d ≠ 58.
Proof.
  intros Hd. unfold hex_char, hex_value. destruct (d <? 10) eqn:E; bool_to_prop.
  - rewrite (proj2 (andb_true_iff _ _)) by (split; apply Z.leb_le; lia). split; [f_equal|]; lia.
  - rewrite (proj2 (andb_false_iff (48 <=? 55 + d) _)) by (right; apply Z.leb_gt; lia).
    rewrite (proj2 (andb_true_iff (65 <=? 55 + d) _)) by (split; apply Z.leb_le; lia). split; [f_equal|]; lia.
Qed.

Lemma scan_print_hex n : ∀ v acc k l,
  scan_hex acc k (print_hex n v ++ l) = scan_hex (acc * 16 ^ Z.of_nat n + v mod 16 ^ Z.of_nat n) (k + n) l.
Proof.
  induction n as [|n IH]; intros v acc k l.
  { cbn [print_hex app]. change (16 ^ Z.of_nat 0) with 1. rewrite Z.mod_1_r, Nat.add_0_r. f_equal; lia. }
  cbn [print_hex]. rewrite <- app_assoc, IH. cbn [app scan_hex].
  destruct (hex_char_ok (v mod 16)) as [-> _]; [apply Z.mod_pos_bound; lia|].
  rewrite Nat.add_succ_r. f_equal. rewrite Nat2Z.inj_succ, Z.pow_succ_r by lia.
  rewrite (Z.rem_mul_r v 16) by lia. lia.
Qed.

Lemma length_print_hex n v : length (print_hex n v) = n.
Proof. revert v. induction n as [|n IH]; intros v; [done|]. cbn. rewrite length_app, IH. cbn. lia. Qed.

Lemma print_hex_chars n v : Forall (λ b, b ≠ 0 ∧ b ≠ 32) (print_hex n v).
Proof.
  revert v. induction n as [|n IH]; intros v; [done|]. cbn. apply Forall_app. split; [apply IH|].
  destruct (hex_char_ok (v mod 16)) as (_ & H & _); [apply Z.mod_pos_bound; lia|]. repeat constructor; lia.
Qed.

Lemma scan_address a p :
  is_u 32 a → is_u 16 p → scan_addr (print_hex 8 a ++ 58 :: print_hex 4 p) = (Some a, Some p).
Proof.
  intros Ha Hp. unfold is_u in *. unfold scan_addr. rewrite scan_print_hex. cbn [scan_hex hex_value].
  change (hex_value 58) with (@None Z). cbn [Nat.eqb Nat.add Z.eqb Pos.eqb].
  rewrite <- (app_nil_r (print_hex 4 p)), scan_print_hex. cbn [scan_hex Nat.eqb Nat.add].
  change (16 ^ Z.of_nat 8) with (2 ^ 32). change (16 ^ Z.of_nat 4) with (2 ^ 16).
  rewrite !Z.mod_small by done. rewrite !Z.mul_0_l, !Z.add_0_l. by rewrite !uwrap_small.
Qed.

(** Digits are read back as long as there is fuel for all of them. *)
Lemma scan_print_dec n : ∀ v l,
  0 <= v < 10 ^ Z.of_nat n → (0 < n)%nat → match l with b :: _ => b < 48 ∨ 57 < b | [] => True end →
  scan_dec 0 (print_dec n v ++ l) = v.
Proof.
  assert (∀ v acc l, 0 <= v < 10 ^ Z.of_nat n → ∃ m, scan_dec acc (print_dec n v ++ l) = scan_dec (acc * m + v) l ∧
    ((0 < n)%nat → acc = 0 → scan_dec acc (print_dec n v ++ l) = scan_dec v l)) as H.
  { induction n as [|n IH]; intros v acc l Hv.
    { exists 1. cbn. change (10 ^ Z.of_nat 0) with 1 in Hv. split; [f_equal; lia|lia]. }
    rewrite Nat2Z.inj_succ, Z.pow_succ_r in Hv by lia. cbn [print_dec].
    assert (∀ a l, scan_dec a ((48 + v mod 10) :: l) = scan_dec (10 * a + v mod 10) l) as Hd.
    { intros a k. cbn [scan_dec]. pose proof (Z.mod_pos_bound v 10 ltac:(lia)).
      rewrite (proj2 (andb_true_iff _ _)) by (split; apply Z.leb_le; lia). f_equal. lia. }
    destruct (v <? 10) eqn:E; bool_to_prop.
    - exists 10. cbn [app]. rewrite Hd. rewrite Z.mod_small by lia. split; [f_equal; lia|]. intros _ ->. f_equal; lia.
    - destruct (IH (v / 10) acc (48 + v mod 10 :: l)) as (m & Hm & _); [dlia|]. exists (10 * m).
      rewrite <- app_assoc. cbn [app]. rewrite Hm, Hd. split; [f_equal; dlia|]. intros _ ->. f_equal; dlia. }
  intros v l Hv Hn Hl. destruct (H v 0 l Hv) as (m & _ & ->); [|done|].
  all: try lia. destruct l as [|b l]; [done|]. cbn [scan_dec].
  rewrite (proj2 (andb_false_iff _ _)); [done|]. destruct Hl; [left|right]; apply Z.leb_gt; lia.
Qed.

Lemma print_dec_chars d n : ∀ v, d < 48 ∨ 57 < d → 0 <= v → Forall (λ b, b ≠ 0 ∧ b ≠ d) (print_dec n v).
Proof.
  induction n as [|n IH]; intros v Hd Hv; [done|]. cbn [print_dec]. apply Forall_app.
  pose proof (Z.mod_pos_bound v 10 ltac:(lia)). split; [|repeat constructor; lia].
  destruct (v <? 10); [done|]. apply IH; [done|dlia].
Qed.

Lemma skip_delim_app d w b l : Forall (λ c, c ≠ 0 ∧ c ≠ d) (b :: w) → skip_delim d (b :: w ++ l) = b :: w ++ l.
Proof. intros [[_ Hb] _]%Forall_cons_1. cbn. by rewrite (proj2 (Z.eqb_neq b d)). Qed.

Lemma token_app d w l : Forall (λ c, c ≠ 0 ∧ c ≠ d) w → d ≠ 0 → token d (w ++ d :: l) = Some (w, l).
Proof.
  intros Hw Hd. induction Hw as [|c w [H0 Hc] Hw IH]; cbn.
  - rewrite (proj2 (Z.eqb_neq d 0)) by done. by rewrite Z.eqb_refl.
  - rewrite (proj2 (Z.eqb_neq c 0)), (proj2 (Z.eqb_neq c d)) by done. by rewrite IH.
Qed.

(** A word followed by a delimiter is the first token. *)
Lemma strtok_word d w l :
  w ≠ [] → Forall (λ c, c ≠ 0 ∧ c ≠ d) w → d ≠ 0 → strtok d (w ++ d :: l) = inl (Some (w, l)).
Proof.
  intros Hn Hw Hd. destruct w as [|b w]; [done|]. unfold strtok. cbn [app].
  rewrite skip_delim_app by done. rewrite (proj2 (Z.eqb_neq b 0)) by (by apply Forall_cons_1 in Hw as [[? _] _]).
  change (b :: w ++ d :: l) with ((b :: w) ++ d :: l). by rewrite token_app.
Qed.

(** A word is cut at the first delimiter or null byte of what follows it. *)
Lemma strtok_some d w l :
  w ≠ [] → Forall (λ c, c ≠ 0 ∧ c ≠ d) w → Exists (λ c, c = 0 ∨ c = d) l →
  ∃ r, strtok d (w ++ l) = inl (Some r).
Proof.
  intros Hn Hw Hl. destruct w as [|b w]; [done|]. unfold strtok. cbn [app].
  rewrite skip_delim_app by done. rewrite (proj2 (Z.eqb_neq b 0)) by (by apply Forall_cons_1 in Hw as [[? _] _]).
  assert (∀ k, Exists (λ c, c = 0 ∨ c = d) k → ∃ r, token d k = Some r) as H.
  { induction 1 as [c k [-> | ->]|c k Hk [r Hr]]; cbn; [by eexists| |].
    - destruct (d =? 0); [by eexists|]. rewrite Z.eqb_refl. by eexists.
    - destruct (c =? 0); [by eexists|]. destruct (c =? d); [by eexists|]. rewrite Hr. by eexists. }
  destruct (H (b :: w ++ l)) as [r ->]; [|by exists r]. apply Exists_cons_tl. apply Exists_app. by right.
Qed.

(** A text shorter than the size is copied and padded, a longer one is cut. *)
Lemma strncpy_pad n w l :
  Forall (λ b, b ≠ 0) w → (length w <= n)%nat → strncpy n (w ++ 0 :: l) = w ++ replicate (n - length w) 0.
Proof.
  intros Hw. revert n. induction Hw as [|b w Hb Hw IH]; intros n Hn.
  - destruct n; done.
  - cbn [length] in *. destruct n as [|n]; [lia|]. cbn [app strncpy]. rewrite (proj2 (Z.eqb_neq b 0)) by done.
    rewrite IH by lia. done.
Qed.
Lemma strncpy_cut n w l : Forall (λ b, b ≠ 0) w → length w = n → strncpy n (w ++ l) = w.
Proof.
  intros Hw. revert n. induction Hw as [|b w Hb Hw IH]; intros n <-; [done|].
  cbn [length app strncpy]. rewrite (proj2 (Z.eqb_neq b 0)) by done. by rewrite IH.
Qed.

(** The text of a line from the inode on, as the loop copies it. *)
Lemma inode_part n line l :
  Forall (λ b, b ≠ 0) line → (91 <= length line <= 511)%nat → n = (512 - INODE_OFFSET)%nat →
  strncpy n (drop INODE_OFFSET (line ++ [0] ++ l)) =
  drop 91 line ++ replicate (n - (length line - 91)) 0.
Proof.
  intros Hl Hn ->. unfold INODE_OFFSET. rewrite drop_app_le by lia. cbn [app].
  rewrite strncpy_pad, length_drop; [done|by apply Forall_drop|rewrite length_drop; lia].
Qed.

Lemma length_addresses e : length (addresses e) = 27%nat.
Proof. unfold addresses. repeat (rewrite ?length_app, ?length_print_hex; cbn [length]). done. Qed.

Lemma addresses_chars e : Forall (λ b, b ≠ 0) (addresses e).
Proof.
  assert (∀ n v, Forall (λ b, b ≠ 0) (print_hex n v)) as H
    by (intros n v; eapply Forall_impl; [|apply print_hex_chars]; by intros b []).
  unfold addresses. repeat (apply Forall_app; split; [apply H|]; constructor; [done|]). apply H.
Qed.

(** The widths of numbers. *)
Lemma length_print_dec n : ∀ v k, (0 < n)%nat → (1 <= k)%nat → 0 <= v < 10 ^ Z.of_nat k →
  (1 <= length (print_dec n v) <= k)%nat.
Proof.
  induction n as [|n IH]; intros v k Hn Hk Hv; [lia|]. cbn [print_dec]. rewrite length_app. cbn [length].
  destruct (v <? 10) eqn:E; bool_to_prop; [cbn [length]; lia|].
  destruct k as [|[|k]]; [lia|change (10 ^ Z.of_nat 1) with 10 in Hv; lia|].
  destruct n as [|n]; [cbn [print_dec length]; lia|].
  rewrite Nat2Z.inj_succ, Z.pow_succ_r in Hv by lia. specialize (IH (v / 10) (S k) ltac:(lia) ltac:(lia)). 
  enough (0 <= v / 10 < 10 ^ Z.of_nat (S k)) by (specialize (IH ltac:(done)); lia). dlia.
Qed.

Lemma print_dec_wide n : ∀ v k, 10 ^ Z.of_nat k <= v → (k < n)%nat → (k < length (print_dec n v))%nat.
Proof.
  induction n as [|n IH]; intros v k Hv Hk; [lia|]. cbn [print_dec]. rewrite length_app. cbn [length].
  destruct k as [|k]; [lia|]. rewrite Nat2Z.inj_succ, Z.pow_succ_r in Hv by lia.
  pose proof (Z.pow_pos_nonneg 10 (Z.of_nat k) ltac:(lia) ltac:(lia)).
  rewrite (proj2 (Z.ltb_ge v 10)) by lia. specialize (IH (v / 10) k). assert (10 ^ Z.of_nat k <= v / 10) by dlia.
  specialize (IH ltac:(done) ltac:(lia)). lia.
Qed.

Lemma length_print_pad n v : length (print_pad n v) = Nat.max n (length (print_dec 10 v)).
Proof. unfold print_pad. cbv zeta. rewrite length_app, length_replicate. lia. Qed.

Lemma length_number e : entry_ok e → length (te_number e) = 6%nat.
Proof.
  intros H. unfold te_number. rewrite length_app, length_print_pad. cbn [length].
  pose proof (length_print_dec 10 (te_sl e) 4 ltac:(lia) ltac:(lia) (ok_sl e H)). lia.
Qed.

Lemma length_te_hex e : length (te_hex e) = 43%nat.
Proof. unfold te_hex. repeat (rewrite ?length_app, ?length_print_hex; cbn [length]). done. Qed.

Lemma print_dec_no_null n v : 0 <= v → Forall (λ b, b ≠ 0) (print_dec n v).
Proof. intros Hv. eapply Forall_impl; [|apply (print_dec_chars 32 n v); [lia|done]]. by intros b []. Qed.
Lemma print_pad_no_null n v : 0 <= v → Forall (λ b, b ≠ 0) (print_pad n v).
Proof. intros Hv. apply Forall_app. split; [by apply Forall_replicate|by apply print_dec_no_null]. Qed.

Lemma table_line_chars e : entry_ok e → Forall (λ b, b ≠ 0) (table_line e).
Proof.
  intros H. pose proof (ok_timeout e H) as Ht. assert (0 <= te_timeout e) by (destruct (_ <? _); lia).
  assert (∀ n v, Forall (λ b, b ≠ 0) (print_hex n v)) as Hh
    by (intros n v; eapply Forall_impl; [|apply print_hex_chars]; by intros b []).
  assert (∀ w l, Forall (λ b, b ≠ 0) w → Forall (λ b, b ≠ 0) l → Forall (λ b, b ≠ 0) (w ++ l)) as Ha
    by (intros; by apply Forall_app).
  assert (∀ b l, b ≠ 0 → Forall (λ b, b ≠ 0) l → Forall (λ b : Z, b ≠ 0) (b :: l)) as Hc by (intros; by constructor).
  unfold table_line, te_number, te_columns, te_hex. cbn [app]. rewrite <- !app_assoc. cbn [app].
  pose proof (addresses_chars e). pose proof (proj1 (ok_rest e H)). destruct (ok_uid e H), (ok_sl e H), (ok_inode e H).
  repeat first [apply Hc; [done|] | apply Ha; [first [done | apply Hh | by apply print_pad_no_null | by apply print_dec_no_null]|]
    | rewrite <- app_assoc; cbn [app]].
  done.
Qed.

(** The last columns, from the one at which the copy starts. *)
Lemma columns_tail e l : entry_ok e →
  ∃ j rest, drop 58 (te_columns e) ++ print_dec 10 (te_inode e) ++ 32 :: l =
    replicate j 32 ++ print_dec 10 (seen_inode e) ++ 32 :: rest.
Proof.
  intros H. pose proof (ok_uid e H) as Hu. pose proof (ok_timeout e H) as Ht. unfold seen_inode.
  destruct (te_uid e <? 1000000) eqn:E; bool_to_prop.
  - pose proof (length_print_dec 10 (te_uid e) 6 ltac:(lia) ltac:(lia)
      ltac:(change (10 ^ Z.of_nat 6) with 1000000; destruct Hu; lia)).
    pose proof (length_print_dec 10 (te_timeout e) 8 ltac:(lia) ltac:(lia) Ht).
    exists (Nat.max 5 (length (print_dec 10 (te_uid e))) - 5)%nat, l. f_equal.
    unfold te_columns. rewrite app_comm_cons, !app_assoc.
    set (w := (te_hex e ++ _) ++ _).
    assert (length w = (52 + Nat.max 5 (length (print_dec 10 (te_uid e))))%nat) as Lw.
    { unfold w. rewrite !length_app. cbn [length]. rewrite !length_print_pad, length_te_hex. lia. }
    destruct (decide (length w = 57)%nat) as [E7|E7].
    + rewrite drop_ge by (rewrite length_app; cbn [length]; lia).
      by replace (Nat.max _ _ - 5)%nat with 0%nat by lia.
    + rewrite drop_app_length' by lia. by replace (Nat.max _ _ - 5)%nat with 1%nat by lia.
  - pose proof (length_print_dec 10 (te_uid e) 10 ltac:(lia) ltac:(lia)
      ltac:(change (10 ^ Z.of_nat 10) with 10000000000; destruct Hu; lia)).
    pose proof (print_dec_wide 10 (te_uid e) 6 E ltac:(lia)).
    assert (print_dec 10 (te_timeout e) = [48 + te_timeout e]) as Et.
    { cbn [print_dec]. rewrite (proj2 (Z.ltb_lt (te_timeout e) 10)), Z.mod_small by lia. done. }
    exists (length (print_dec 10 (te_uid e)) - 7)%nat, (print_dec 10 (te_inode e) ++ 32 :: l).
    rewrite Et. unfold te_columns, print_pad. cbv zeta. rewrite Et. cbn [length].
    replace (5 - length (print_dec 10 (te_uid e)))%nat with 0%nat by lia. cbn [replicate app].
    rewrite (app_assoc (te_hex e)), drop_app_ge by (rewrite length_app, length_te_hex; lia).
    rewrite length_app, length_te_hex.
    change (32 :: _ ++ [32]) with (replicate 8 32 ++ [48 + te_timeout e; 32]).
    rewrite drop_app_le, drop_replicate, <- app_assoc by (rewrite length_replicate; lia). cbn [app]. do 2 f_equal. lia.
Qed.

Lemma table_line_split e : entry_ok e →
  drop 6 (table_line e) = addresses e ++ te_columns e ++ print_dec 10 (te_inode e) ++ 32 :: te_rest e ∧
  (∃ j rest, drop 91 (table_line e) = replicate j 32 ++ print_dec 10 (seen_inode e) ++ 32 :: rest) ∧
  (91 <= length (table_line e) <= 511)%nat.
Proof.
  intros H. pose proof (length_number e H) as L1. pose proof (length_addresses e) as L3.
  assert (58 <= length (te_columns e) <= 63)%nat as L2.
  { unfold te_columns. rewrite !length_app. cbn [length]. rewrite length_app, !length_print_pad, length_te_hex. cbn [length].
    pose proof (ok_timeout e H) as Ht. assert (0 <= te_timeout e < 10 ^ Z.of_nat 8) as Ht8
      by (change (10 ^ Z.of_nat 8) with 100000000; destruct (_ <? _); lia).
    pose proof (length_print_dec 10 _ 8 ltac:(lia) ltac:(lia) Ht8).
    pose proof (length_print_dec 10 (te_uid e) 10 ltac:(lia) ltac:(lia)
      ltac:(change (10 ^ Z.of_nat 10) with 10000000000; destruct (ok_uid e H); lia)). lia. }
  split; [|split].
  - unfold table_line. by rewrite drop_app_length' by done.
  - destruct (columns_tail e (te_rest e) H) as (j & rest & E). exists j, rest. rewrite <- E.
    unfold table_line. rewrite app_assoc, drop_app_ge by (rewrite length_app; lia).
    rewrite length_app, L1, L3. change (91 - (6 + 27))%nat with 58%nat. by rewrite drop_app_le by lia.
  - pose proof (length_print_dec 10 (te_inode e) 10 ltac:(lia) ltac:(lia)
      ltac:(change (10 ^ Z.of_nat 10) with 10000000000; destruct (ok_inode e H); lia)).
    pose proof (proj2 (ok_rest e H)). unfold table_line. rewrite !length_app. cbn [length]. lia.
Qed.

Lemma seen_inode_range e : entry_ok e → 0 <= seen_inode e < 2 ^ 31.
Proof.
  intros H. unfold seen_inode. pose proof (ok_timeout e H). pose proof (ok_inode e H). destruct (_ <? _); lia.
Qed.

Lemma strtok_skip d j l : strtok d (replicate j d ++ l) = strtok d l.
Proof. unfold strtok. induction j as [|j IH]; [done|]. cbn. rewrite Z.eqb_refl. exact IH. Qed.

Lemma print_dec_nonempty v : print_dec 10 v ≠ [].
Proof. cbn [print_dec]. by intros [_ ?]%app_nil. Qed.

(** One entry: the addresses are read when the inode is the one looked for. *)
Lemma get_addr_port_entry num after buff e lines :
  entry_ok e → Exists (λ b, b = 0 ∨ b = 32) after →
  get_addr_port_loop num LOCAL after buff (table_line e :: lines) =
  if seen_inode e =? num then inl (1, (Some (te_laddr e), Some (te_lport e)))
  else get_addr_port_loop num LOCAL after
    (table_line e ++ [0] ++ drop (S (length (table_line e))) buff) lines.
Proof.
  intros H Ha. destruct (table_line_split e H) as (D6 & (j & rest & D91) & Ln). cbn [get_addr_port_loop].
  pose proof (seen_inode_range e H) as Hi.
  rewrite inode_part by (first [by apply table_line_chars | done]). rewrite D91, <- !app_assoc, strtok_skip. cbn [app].
  rewrite strtok_word by (first [apply print_dec_nonempty | apply print_dec_chars; lia | done]).
  rewrite <- (app_nil_r (print_dec 10 _)), scan_print_dec by (first [lia | done]).
  rewrite swrap_small by (unfold is_s; lia). destruct (seen_inode e =? num); [|done].
  rewrite drop_app_le by lia. rewrite D6, <- app_assoc, (strncpy_cut 27) by (apply addresses_chars || apply length_addresses).
  unfold addresses at 1. rewrite <- !app_assoc. cbn [app]. rewrite <- !app_assoc. cbn [app].
  rewrite app_comm_cons, app_assoc.
  rewrite strtok_word; [|by intros [? _]%app_nil| |done].
  2: { apply Forall_app; split; [apply print_hex_chars|]. constructor; [done|apply print_hex_chars]. }
  rewrite <- app_assoc. cbn [app]. rewrite app_comm_cons, app_assoc.
  destruct (strtok_some 32 (print_hex 8 (te_raddr e) ++ 58 :: print_hex 4 (te_rport e)) after) as [r ->].
  { by intros [_ ?]%app_nil. }
  { apply Forall_app; split; [apply print_hex_chars|]. constructor; [done|apply print_hex_chars]. }
  { done. }
  cbn [Z.eqb LOCAL Pos.eqb]. by rewrite scan_address by apply H.
Qed.

(** The first entry with the inode decides. *)
Lemma get_addr_port_table num after entries : ∀ buff,
  Forall entry_ok entries → Exists (λ b, b = 0 ∨ b = 32) after →
  get_addr_port_loop num LOCAL after buff (map table_line entries) =
  inl (match List.find (λ e, seen_inode e =? num) entries with
       | Some e => (1, (Some (te_laddr e), Some (te_lport e)))
       | None => (-1, (None, None))
       end).
Proof.
  intros buff He Ha. revert buff. induction He as [|e entries Hk He IH]; intros buff; [done|].
  cbn [map List.find]. rewrite get_addr_port_entry by done. by destruct (seen_inode e =? num).
Qed.

(** The title holds no number in the column of the inodes. *)
Lemma get_addr_port_title num after buff lines :
  num ≠ 0 →
  get_addr_port_loop num LOCAL after buff (table_title :: lines) =
  get_addr_port_loop num LOCAL after (table_title ++ [0] ++ drop 151 buff) lines.
Proof.
  intros Hn. cbn [get_addr_port_loop]. change (S (length table_title)) with 151%nat.
  rewrite inode_part; [|apply (bool_decide_unpack _); by vm_compute|by vm_compute; lia|done].
  assert (∃ r, strtok 32 (drop 91 table_title ++ replicate (512 - INODE_OFFSET - (length table_title - 91)) 0) =
    inl (Some (string_bytes "inode", r))) as [r ->] by (eexists; vm_compute; reflexivity).
  change (s32 (scan_dec 0 (string_bytes "inode"))) with 0.
  by rewrite (proj2 (Z.eqb_neq 0 num)).
Qed.

Section TranslateProperties.
Context `{X : Xbt} `{Wd : World} `{!XbtLaws X} `{!TraceLaws Wd}.

(** C31: rewriting the address of connect(2) and restoring it. Once the port [r] of the
    machine is recorded for a port of the host the process calls, in both directions, the
    entry of the call leaves the address 127.0.0.1:[r] in the memory of the process, and the
    exit puts back the sixteen bytes the program had there: the memory of every process is
    then what it was. *)
Theorem connect_translation s proc p reg b h d r :
  st_proc s !! proc = Some p → mem_bytes (st_w s) (pd_pid p) (arg reg 1) 16 = Some b →
  let sai := sai_decode b in
  reaches s p (sin_addr sai) h →
  port_of s (MSG_host_get_name h) (ntohs (sin_port sai)) = Some d → is_u 16 r →
  ∃ s1 s2,
    (let! _ := set_real_port (Some h) (ntohs (sin_port sai)) r in
     let! _ := add_new_translation r (ntohs (sin_port sai)) (sin_addr sai) in
     sys_translate_connect_in reg proc) s = Done tt s1 ∧
    mem_bytes (st_w s1) (pd_pid p) (arg reg 1) 16 =
      Some (sai_encode (mk_sai (sin_family sai) (htons r) localhost (sin_zero sai))) ∧
    sys_translate_connect_out reg proc s1 = Done tt s2 ∧
    ∀ pid a, mem_byte (st_w s2) pid a = mem_byte (st_w s) pid a.
Proof.
  intros Hp Hb sai Hr Hd Hr16. destruct (sockaddr_at _ _ _ _ Hb) as (Lb & Rb & Rz & _).
  destruct (sai_decode_fields b Lb Rb) as (Ff & Fp & Fa & Fz). fold sai in Ff, Fp, Fa, Fz, Rz.
  destruct (set_real_port_eval s h _ r d Hd) as (s' & He & Hs & Hd'). set (q := ntohs (sin_port sai)) in *.
  set (s0 := set_list_translate (xbt_dict_set (list_translate s') (sprintf_d r)
    {| td_port_num := q; td_ip := sin_addr sai |}) s').
  destruct (translate_connect_in_eval s0 proc p reg b h
    (mk_port (port_num d) r (port_option d) (amount_socket d) (bind_socket d))) as (c1 & w1 & H1 & M1 & F1).
  1,2: unfold s0; by rewrite Hs.
  { unfold reaches, s0 in *. by rewrite Hs. }
  { exact Hd'. }
  cbn [real_port] in M1. fold sai in M1.
  destruct (translate_connect_out_eval (set_cnt c1 (set_w w1 s0)) proc p reg _
    {| td_port_num := q; td_ip := sin_addr sai |} ltac:(unfold s0; by rewrite Hs) M1) as (c2 & w2 & H2 & M2 & F2).
  { rewrite sai_decode_encode by (cbn; first [done | apply localhost_range | apply ntohs_range]).
    cbn [sin_port]. rewrite ntohs_htons by done. apply dict_get_set. }
  rewrite sai_decode_encode in M2 by (cbn; first [done | apply localhost_range | apply ntohs_range]).
  cbn [sin_family sin_zero td_port_num td_ip] in M2. unfold q in M2. rewrite htons_ntohs in M2 by done.
  exists (set_cnt c1 (set_w w1 s0)), (set_cnt c2 (set_w w2 (set_cnt c1 (set_w w1 s0)))). split_and!.
  - eval_with He. ev. exact H1.
  - exact M1.
  - exact H2.
  - apply (same_but_back (st_w s) w1 w2 (pd_pid p) (arg reg 1) 16 b); [|exact F2|done|].
    + unfold s0 in F1. rewrite Hs in F1. exact F1.
    + rewrite M2. rewrite <- (sai_encode_decode b Lb Rb). by destruct (sai_decode b).
Qed.

(** C33: [socket_get_local_port] reads the tables of the kernel. For a TCP socket whose link in
    /proc names the inode [inode], and lines of /proc/net/tcp as the kernel prints them
    (entry numbers below 10000, inodes below 2^31, any text after the inode), the call gives
    the port of the first entry at whose fixed offset this inode stands, with its two bytes
    exchanged: the table shows the port as a number. The offset is that of the inode as
    long as the uid of the socket has at most six digits; for a larger uid the number
    found there is the timeout (of one digit), so that the entry is missed. When no entry has the inode a
    variable that was never assigned is returned. *)
Theorem local_port_of_table (proc_net : W → Z → option (list (list Z)))
    (proc_fd : W → Z → Z → option (list Z)) stack s proc p fd isp i inode entries :
  st_proc s !! proc = Some p → socket_at s proc fd isp i → is_protocol i = 6 ∨ is_protocol i = 0 →
  proc_fd (st_w s) (pd_pid p) fd = Some (string_bytes "socket:[" ++ print_dec 10 inode ++ [93])%list →
  proc_net (st_w s) TCP_PROTOCOL = Some (table_title :: map table_line entries) →
  Forall entry_ok entries → 0 < inode < 2 ^ 31 → Exists (λ b, b = 0 ∨ b = 32) stack →
  socket_get_local_port proc_net proc_fd stack proc fd s =
  match List.find (λ e, seen_inode e =? inode) entries with
  | Some e => Done (ntohs (te_lport e)) s
  | None => Failed Uninitialised s
  end.
Proof.
  intros Hp Hs Hproto Hfd Hnet He Hi Hst. unfold socket_get_local_port.
  eval_with (get_infos_socket_at _ _ _ _ _ Hs). eval_with (load_eval st_proc proc p s Hp).
  eval_with (get_sock_eval s isp i (sa_fd _ _ _ _ _ Hs)). cbv zeta.
  eapply bind_eval; [apply gets_eval|]. cbv beta. rewrite Hfd. rewrite <- app_assoc.
  change (string_bytes "socket:[") with (string_bytes "socket:" ++ [91])%list. rewrite <- app_assoc. cbn [app].
  rewrite strtok_word by (first [done | apply (bool_decide_unpack _); by vm_compute]).
  rewrite <- app_assoc. cbn [app].
  rewrite strtok_word by (first [apply print_dec_nonempty | apply print_dec_chars; lia | done]).
  rewrite <- (app_nil_r (print_dec 10 inode)), scan_print_dec by (first [lia | done]).
  rewrite swrap_small by (unfold is_s; lia).
  assert (get_addr_port proc_net stack TCP_PROTOCOL inode LOCAL s =
    Done (match List.find (λ e, seen_inode e =? inode) entries with
          | Some e => (1, (Some (te_laddr e), Some (te_lport e)))
          | None => (-1, (None, None))
          end) s) as Hg.
  { unfold get_addr_port. eapply bind_eval; [apply gets_eval|]. cbv beta. rewrite Hnet.
    eapply bind_eval; [reflexivity|]. cbv beta.
    rewrite get_addr_port_title, get_addr_port_table by (done || lia). reflexivity. }
  rewrite (proj2 (Z.eqb_neq (is_protocol i) 1)) by lia.
  rewrite (proj2 (orb_true_iff _ _)) by (by destruct Hproto; [left|right]; apply Z.eqb_eq).
  eapply bind_eval; [eapply bind_eval; [exact Hg|]; reflexivity|]. cbv beta.
  by destruct (List.find _ entries).
Qed.

End TranslateProperties.

(** Process 7 of the host bob, with the address 1.0.0.0:80 of alice at 4096. *)
Definition alice_address : sockaddr_in := mk_sai 2 (htons 80) (inet_addr "1.0.0.0") (replicate 8 0).

Definition bob_process : process_descriptor (Wd := ref_world) :=
  mk_proc (Wd := ref_world) 7 "7" (Some "bob"%string) xbt_dict_new 0 0 None 0.

Definition translate_example : st :=
  let w := toy_world regs_zero (λ a, default 0 (sai_encode alice_address !! Z.to_nat (a - 4096))) in
  set_proc {[1 := bob_process]}
    (run_state (register_port (Some "alice"%string) 80) (run_state init_host_list (ref_state w))).

Lemma connect_translation_witness :
  let reg := mk_reg 42 0 [3; 4096; 16; 0; 0; 0] in
  let sai := sai_decode (sai_encode alice_address) in
  ∃ s1 s2,
    (let! _ := set_real_port (Some "alice"%string) (ntohs (sin_port sai)) 40000 in
     let! _ := add_new_translation 40000 (ntohs (sin_port sai)) (sin_addr sai) in
     sys_translate_connect_in reg 1) translate_example = Done tt s1 ∧
    mem_bytes (st_w s1) (pd_pid bob_process) (arg reg 1) 16 =
      Some (sai_encode (mk_sai (sin_family sai) (htons 40000) localhost (sin_zero sai))) ∧
    sys_translate_connect_out reg 1 s1 = Done tt s2 ∧
    ∀ pid a, mem_byte (st_w s2) pid a = mem_byte (st_w translate_example) pid a.
Proof.
  intros reg sai.
  refine (connect_translation translate_example 1 bob_process reg (sai_encode alice_address) "alice"%string
    (mk_port 80 0 0 1 NULL) 40000 _ _ _ _ _).
  - exact (lookup_singleton_eq 1 bob_process).
  - vm_compute. reflexivity.
  - vm_compute. reflexivity.
  - vm_compute. reflexivity.
  - split; vm_compute; congruence.
Defined.

(** A TCP socket behind descriptor 3 of bob, and a table in which the second entry is its
    own: it is bound to the port 80. *)
Definition bob_server : process_descriptor (Wd := ref_world) :=
  mk_proc (Wd := ref_world) 7 "7" (Some "bob"%string) (xbt_dict_set xbt_dict_new (int_key 3) 20) 0 0 None 0.
Definition bob_socket : infos_socket (Wd := ref_world) :=
  mk_is (Wd := ref_world) (mk_fd FD_SOCKET 1 3 0 0 0 0 0 0 0 0 0 0 0 0) NULL (Some "bob"%string)
    2 6 0 80 0 1 0 0 1.
Definition local_port_example : st :=
  set_fd {[20 := FdSock bob_socket]} (set_proc {[1 := bob_server]} (ref_state (toy_world regs_zero (λ _, 0)))).

Definition listening (sl addr port uid inode : Z) : table_entry :=
  {| te_sl := sl; te_laddr := addr; te_lport := port; te_raddr := 0; te_rport := 0; te_state := 10;
     te_tx := 0; te_rx := 0; te_timer := 0; te_when := 0; te_retrans := 0; te_uid := uid; te_timeout := 0;
     te_inode := inode; te_rest := (string_bytes "1 0" ++ [10])%list |}.
Definition two_entries : list table_entry := [listening 0 0 22 0 691; listening 1 localhost 80 100000 7050].

Lemma local_port_of_table_witness :
  socket_get_local_port (λ _ _, Some (table_title :: map table_line two_entries))
    (λ _ _ _, Some (string_bytes "socket:[" ++ print_dec 10 7050 ++ [93])) [0] 1 3 local_port_example =
  Done (ntohs 80) local_port_example.
Proof.
  refine (local_port_of_table _ _ [0] local_port_example 1 bob_server 3 20 bob_socket 7050 two_entries
    _ _ _ eq_refl eq_refl _ _ _).
  - exact (lookup_singleton_eq 1 bob_server).
  - split; [exists bob_server; split; [exact (lookup_singleton_eq 1 bob_server)|]|done|
      exact (lookup_singleton_eq 20 (FdSock bob_socket))|done]. vm_compute. reflexivity.
  - by left.
  - repeat constructor; try (vm_compute; first [reflexivity | lia | congruence]);
      apply (bool_decide_unpack _); vm_compute; exact I.
  - lia.
  - apply Exists_cons_hd. by left.
Defined.
