(* ===== verification/SocketOps.v ===== *)
(** src/src/sockets.c, second part (closing sockets, queueing sent data), the
    helpers of src/src/syscall_process.c that the handlers share, and the end of
    a process (src/src/process_descriptor.c). *)
From S2P Require Import Prelude Libc External State Monad DataUtils ProcessDescriptor.
From S2P Require Import PtraceUtils Sockets Print Communication.
Open Scope sim_scope.

Definition set_ret (v : Z) (r : reg_s) : reg_s := mk_reg (reg_orig r) (u64 v) (reg_arg r).

(** enum of syscall_process.h. *)
Definition PROCESS_CONTINUE : Z := 0.
Definition PROCESS_DEAD : Z := 1.
Definition PROCESS_GROUP_DEAD : Z := 2.
Definition PROCESS_TASK_FOUND : Z := 3.

Section SocketOps.
Context `{X : Xbt} `{Wd : World}.

Definition fd_ref (p delta : Z) : M unit :=
  upd_fd p (λ d, set_fd_refcount (s32 (fd_refcount d + delta)) d).

(** ** Sockets *)

Definition socket_close (proc fd : Z) : M unit :=
  let! isp := get_infos_socket proc fd in
  if negb (isp =? NULL) then
    let! f := process_descriptor_get_fd proc fd in
    fd_ref f (-1) ;;
    sock_ref isp (-1) ;;
    let! network := socket_network proc fd in
    (if network then comm_close isp else free_fd isp) ;;
    process_descriptor_set_fd proc fd NULL
  else ret tt.

(** Returns the registers with the number of bytes sent. *)
Definition handle_new_send (reg : reg_s) (isp : Z) (data : list Z) : M reg_s :=
  let! recv := comm_get_peer_recv isp in
  upd_recv recv (λ r, set_data_fifo
    (xbt_fifo_push (data_fifo r) {| ds_data := data; ds_size := s32 (arg reg 2) |}) r) ;;
  ret (set_ret (arg reg 2) reg).

(** [while (xbt_fifo_size(tl)) MSG_task_destroy(...)]. *)
Fixpoint drain_tasks (fuel : nat) (f : fifo task_comm_info) : M (fifo task_comm_info) :=
  if Nat.eqb (xbt_fifo_size f) 0 then ret f else
  match fuel with
  | O => fail Out_of_fuel
  | S fuel =>
    let! r := of_option Invalid_pointer (xbt_fifo_shift f) in
    modify (λ s, set_w (MSG_task_destroy (st_w s) (tci_task r.1)) s) ;;
    drain_tasks fuel r.2
  end.

Fixpoint drain_data (fuel : nat) (f : fifo data_send) : M (fifo data_send) :=
  if Nat.eqb (xbt_fifo_size f) 0 then ret f else
  match fuel with
  | O => fail Out_of_fuel
  | S fuel =>
    let! r := of_option Invalid_pointer (xbt_fifo_shift f) in
    drain_data fuel r.2
  end.

(** The entries visited are those present when the traversal starts. *)
Fixpoint close_entries (proc : Z) (items : list (string * Z)) : M unit :=
  match items with
  | [] => ret tt
  | (key, file_desc) :: items =>
    let! d := get_fd file_desc in
    (if fd_type d =? FD_SOCKET then
       let! recv := comm_get_own_recv file_desc in
       if recv =? NULL then ret tt else
       let! r := get_recv recv in
       let! tl := drain_tasks (xbt_fifo_size (recv_task r)) (recv_task r) in
       upd_recv recv (set_recv_task tl) ;;
       let! dl := drain_data (xbt_fifo_size (data_fifo r)) (data_fifo r) in
       upd_recv recv (set_data_fifo dl) ;;
       socket_close proc (key_int key)
     else ret tt) ;;
    close_entries proc items
  end.

Definition close_all_communication (proc : Z) : M Z :=
  let! p := get_proc proc in
  close_entries proc (xbt_dict_items (fd_map p)) ;;
  ret 0.

(** ** src/src/syscall_process.c *)

(** Returns the result and the registers, whose [ret] [handle_new_send] sets. *)
Definition process_send_call (reg : reg_s) (proc : Z) (data : list Z) : M (Z * reg_s) :=
  let fd := s32 (arg reg 0) in
  let! registered := socket_registered proc fd in
  if negb (registered =? -1) then
    let! netlink := socket_netlink proc fd in
    if negb netlink then
      let! isp := get_infos_socket proc fd in
      let! s := comm_get_peer isp in
      sock_ref isp 1 ;;
      sock_ref s 1 ;;
      let! reg := handle_new_send reg isp data in
      let! p := get_proc proc in
      let! si := get_sock s in
      let! sp := get_proc (fd_proc (is_fd si)) in
      let! task := create_send_communication_task proc isp (s32 (reg_ret reg))
                     (pd_host p) (pd_host sp) in
      modify (λ st, set_w (MSG_task_set_bytes_amount (st_w st) task (s32 (reg_ret reg))) st) ;;
      modify (λ st, set_w (MSG_task_set_data (st_w st) task data) st) ;;
      send_task (pd_host sp) task ;;
      sock_ref isp (-1) ;;
      sock_ref s (-1) ;;
      ret (1, reg)
    else ret (0, reg)
  else fail Xbt_die.

(** [xbt_dynar_foreach(ends, cpt, end) if (...) { remove_at(cpt); cpt--; }] *)
Fixpoint remove_ends (fuel : nat) (d : dynar pipe_end) (cpt : nat) (fd pid : Z) : M (dynar pipe_end) :=
  if Nat.leb (xbt_dynar_length d) cpt then ret d else
  match fuel with
  | O => fail Out_of_fuel
  | S fuel =>
    let! e := of_option Throw_not_found (xbt_dynar_get_cpy d cpt) in
    let! hit := (if pe_fd e =? fd then let! p := get_proc (pe_proc e) in ret (pd_pid p =? pid)
                 else ret false) in
    if hit then
      let! d' := of_option Throw_not_found (xbt_dynar_remove_at d cpt) in
      remove_ends fuel d' cpt fd pid
    else remove_ends fuel d (S cpt) fd pid
  end.

Definition process_close_call (proc fd : Z) : M unit :=
  let! file_desc := process_descriptor_get_fd proc fd in
  if negb (file_desc =? NULL) then
    fd_ref file_desc 1 ;;
    let! d := get_fd file_desc in
    (if fd_type d =? FD_SOCKET then socket_close proc fd
     else if fd_type d =? FD_PIPE then
       if fd_pipe d =? NULL then fail Xbt_die else
       let! p := get_proc proc in
       let! pi := get_pipe (fd_pipe d) in
       let! re := remove_ends (xbt_dynar_length (read_end pi)) (read_end pi) 0 fd (pd_pid p) in
       let! we := remove_ends (xbt_dynar_length (write_end pi)) (write_end pi) 0 fd (pd_pid p) in
       put_pipe (fd_pipe d) (mk_pipe re we) ;;
       if xbt_dynar_is_empty re && xbt_dynar_is_empty we then free_pipe (fd_pipe d) else ret tt
     else ret tt) ;;
    fd_ref file_desc (-1) ;;
    process_descriptor_set_fd proc fd NULL
  else ret tt.

(** System calls without a handler: the message at the exit reads
    [syscall_list[reg->reg_orig]], without a test of the bounds. *)
Definition syscall_default (reg : reg_s) (proc : Z) : M unit :=
  let! e := proc_entering proc in
  if e then proc_inside proc else
  let! _ := of_option Invalid_pointer (syscall_list !! Z.to_nat (u64 (reg_orig reg))) in
  proc_outside proc.

(** ** End of a process *)

Fixpoint destroy_entries (items : list (string * Z)) : M unit :=
  match items with
  | [] => ret tt
  | (_, file_dsc) :: items =>
    fd_ref file_dsc (-1) ;;
    free_fd file_dsc ;;
    destroy_entries items
  end.

Definition process_descriptor_destroy (proc : Z) : M unit :=
  let! p := get_proc proc in
  destroy_entries (xbt_dict_items (fd_map p)) ;;
  free_proc proc.

Definition process_die (proc : Z) : M unit :=
  let! _ := close_all_communication proc in
  process_descriptor_destroy proc.

End SocketOps.

(** A reference taken and given back. *)
Lemma refcount_back d : is_s 32 (fd_refcount d) →
  set_fd_refcount (s32 (s32 (fd_refcount d + 1) + -1)) (set_fd_refcount (s32 (fd_refcount d + 1)) d) = d.
Proof.
  intros H. rewrite swrap_add. replace (fd_refcount d + 1 + -1) with (fd_refcount d) by lia.
  rewrite swrap_small by done. by destruct d.
Qed.
