(* ===== verification/SysFiles.v ===== *)
(** The handlers of the system calls on files: src/src/sys_open.c, sys_creat.c,
    sys_close.c, sys_dup.c, sys_dup2.c, sys_pipe.c, sys_lseek.c, sys_fcntl.c. *)
From S2P Require Import Prelude Libc External State Monad DataUtils ProcessDescriptor.
From S2P Require Import PtraceUtils Sockets Print Communication SocketOps.
Local Open Scope string_scope.
Local Open Scope Z_scope.
Open Scope sim_scope.

Definition F_DUPFD : Z := 0.
Definition F_GETFD : Z := 1.
Definition F_SETFD : Z := 2.
Definition F_GETFL : Z := 3.
Definition F_SETFL : Z := 4.
Definition F_GETLK : Z := 5.
Definition F_SETLK : Z := 6.
Definition F_SETLKW : Z := 7.
Definition F_SETOWN : Z := 8.
Definition F_GETOWN : Z := 9.
Definition F_DUPFD_CLOEXEC : Z := 1030.
Definition F_RDLCK : Z := 0.
Definition F_WRLCK : Z := 1.
Definition F_UNLCK : Z := 2.

(** The bytes a lock covers, as [fcntl] records them: first and last. *)
Definition lock_range (begin len : Z) : Z * Z :=
  if 0 <? len then (s64 begin, s64 (begin + len - 1))
  else (s64 (begin + len), s64 (begin - 1)).

Section SysFiles.
Context `{X : Xbt} `{Wd : World}.

(** A new descriptor of type [FD_CLASSIC]; [refcount] goes from 0 to 1 once it is
    in the table. *)
Definition new_classic (proc fd flags mode : Z) : M Z :=
  let! file_desc := alloc_fd (FdPlain
    (mk_fd FD_CLASSIC proc fd 0 0 flags mode 0 0 0 0 0 0 0 0)) in
  process_descriptor_set_fd proc fd file_desc ;;
  fd_ref file_desc 1 ;;
  ret file_desc.

Definition syscall_open (reg : reg_s) (proc : Z) : M unit :=
  let! e := proc_entering proc in
  if e then proc_inside proc else
  proc_outside proc ;;
  let! p := get_proc proc in
  let! _ := ptrace_cpy (pd_pid p) (arg reg 0) 200 in
  if 0 <=? s32 (reg_ret reg) then
    let mode := if Z.land (arg reg 1) O_CREAT =? O_CREAT then s32 (arg reg 2) else 0 in
    let! file_desc := new_classic proc (s32 (reg_ret reg)) (s32 (arg reg 1)) mode in
    if Z.land (arg reg 1) O_CLOEXEC =? O_CLOEXEC
    then upd_fd file_desc (λ d, set_fd_flags (Z.lor (fd_flags d) FD_CLOEXEC) d)
    else ret tt
  else ret tt.

Definition syscall_creat_post (reg : reg_s) (proc : Z) : M unit :=
  proc_outside proc ;;
  let! p := get_proc proc in
  let! _ := ptrace_cpy (pd_pid p) (arg reg 0) 200 in
  (if 0 <=? s32 (reg_ret reg) then
     let! _ := new_classic proc (s32 (reg_ret reg)) (Z.lor (Z.lor O_CREAT O_WRONLY) O_TRUNC)
                 (s32 (arg reg 1)) in
     ret tt
   else ret tt) ;;
  if_strace (print_creat_syscall reg proc).

Definition syscall_creat (reg : reg_s) (proc : Z) : M unit :=
  let! e := proc_entering proc in
  if e then proc_inside proc else syscall_creat_post reg proc.

(** [proc_outside] is only reached when the call succeeded. *)
Definition syscall_close (reg : reg_s) (proc : Z) : M unit :=
  let! e := proc_entering proc in
  if e then proc_inside proc
  else if reg_ret reg =? 0 then
    proc_outside proc ;;
    let fd := s32 (arg reg 0) in
    process_close_call proc fd ;;
    if_strace
      (stprintf proc ("close(" +:+ show_d fd +:+ ")") ;;
       stprintf_tabto proc ;;
       stprintf proc ("= " +:+ show_lu (reg_ret reg)) ;;
       stprintf_eol proc)
  else ret tt.

(** [xbt_dynar_foreach(ends, cpt, end) if (...) push(ends, dup_end)]: the pushed
    ends are visited too. *)
Fixpoint dup_ends (fuel : nat) (d : dynar pipe_end) (cpt : nat) (oldfd newfd proc : Z)
    : option (dynar pipe_end) :=
  match xbt_dynar_get_cpy d cpt with
  | None => Some d
  | Some e =>
    match fuel with
    | O => None
    | S fuel =>
      let d' := if (u32 (pe_fd e) =? u32 oldfd) && (pe_proc e =? proc)
                then xbt_dynar_push d (mk_end (s32 newfd) (pe_proc e)) else d in
      dup_ends fuel d' (S cpt) oldfd newfd proc
    end
  end.

(** Twice the length: every end present at the start adds at most one, and an
    added end, when [newfd] differs from [oldfd], adds none. *)
Definition dup_pipe_ends (d : dynar pipe_end) (oldfd newfd proc : Z) : M (dynar pipe_end) :=
  of_option Out_of_fuel (dup_ends (2 * xbt_dynar_length d) d 0 oldfd newfd proc).

Definition dup_pipe (file_desc oldfd newfd proc : Z) : M unit :=
  let! d := get_fd file_desc in
  if fd_type d =? FD_PIPE then
    let! pi := get_pipe (fd_pipe d) in
    let! re := dup_pipe_ends (read_end pi) oldfd newfd proc in
    put_pipe (fd_pipe d) (mk_pipe re (write_end pi)) ;;
    let! we := dup_pipe_ends (write_end pi) oldfd newfd proc in
    put_pipe (fd_pipe d) (mk_pipe re we)
  else ret tt.

Definition syscall_dup_post (reg : reg_s) (proc : Z) : M unit :=
  proc_outside proc ;;
  let oldfd := s32 (arg reg 0) in
  let newfd := s32 (reg_ret reg) in
  let! file_desc := process_descriptor_get_fd proc oldfd in
  fd_ref file_desc 1 ;;
  process_descriptor_set_fd proc newfd file_desc ;;
  dup_pipe file_desc oldfd newfd proc.

Definition syscall_dup (reg : reg_s) (proc : Z) : M unit :=
  let! e := proc_entering proc in
  if e then proc_inside proc else syscall_dup_post reg proc.

Definition syscall_dup2_post (reg : reg_s) (proc : Z) : M unit :=
  proc_outside proc ;;
  let oldfd := s32 (arg reg 0) in
  let newfd := s32 (arg reg 1) in
  let! file_desc := process_descriptor_get_fd proc oldfd in
  fd_ref file_desc 1 ;;
  let! file_desc_new := process_descriptor_get_fd proc newfd in
  (if negb (file_desc_new =? NULL) then
     fd_ref file_desc_new (-1) ;; process_close_call proc newfd
   else ret tt) ;;
  process_descriptor_set_fd proc newfd file_desc ;;
  dup_pipe file_desc oldfd newfd proc.

Definition syscall_dup2 (reg : reg_s) (proc : Z) : M unit :=
  let! e := proc_entering proc in
  if e then proc_inside proc else syscall_dup2_post reg proc.

Definition new_pipe_fd (proc fd pi : Z) : M unit :=
  let! file_desc := alloc_fd (FdPlain (mk_fd FD_PIPE proc fd 0 pi 0 0 0 0 0 0 0 0 0 0)) in
  process_descriptor_set_fd proc fd file_desc ;;
  fd_ref file_desc 1.

(** [p1] is computed from the first descriptor of the array. *)
Definition syscall_pipe_post (reg : reg_s) (proc : Z) : M unit :=
  proc_outside proc ;;
  let! p := get_proc proc in
  let! filedes := ptrace_cpy (pd_pid p) (arg reg 0) (2 * 4) in
  if s32 (reg_ret reg) =? 0 then
    let p0 := s32 (le_decode (take 4 filedes)) in
    let p1 := s32 (p0 + 1) in
    let! pi := alloc_pipe (mk_pipe (xbt_dynar_push xbt_dynar_new (mk_end p0 proc))
                                   (xbt_dynar_push xbt_dynar_new (mk_end p1 proc))) in
    new_pipe_fd proc p0 pi ;;
    new_pipe_fd proc p1 pi
  else ret tt.

Definition syscall_pipe (reg : reg_s) (proc : Z) : M unit :=
  let! e := proc_entering proc in
  if e then proc_inside proc else syscall_pipe_post reg proc.

Definition process_lseek_call (reg : reg_s) (proc : Z) : M unit :=
  let! file_fd := process_descriptor_get_fd proc (s32 (arg reg 0)) in
  let ret_off := s64 (reg_ret reg) in
  (if 0 <=? ret_off then upd_fd file_fd (set_fd_offset ret_off) else ret tt) ;;
  if_strace (print_lseek_syscall reg proc).

Definition syscall_lseek (reg : reg_s) (proc : Z) : M unit :=
  let! e := proc_entering proc in
  if e then
    proc_inside proc ;;
    process_lseek_call reg proc ;;
    if_strace (print_lseek_syscall reg proc)
  else
    proc_outside proc ;;
    if_strace (print_lseek_syscall reg proc).

(** ** [fcntl] *)

(** The descriptor of [F_DUPFD] and [F_DUPFD_CLOEXEC]. *)
Definition fcntl_dup (proc fd : Z) (a : fd_descriptor) (flags : Z) : M unit :=
  let! dup := alloc_fd (FdPlain
    (mk_fd (fd_type a) proc fd (fd_stream a) (fd_pipe a) flags 0 1 0 0 0 0 0 0 0)) in
  process_descriptor_set_fd proc fd dup.

Definition dupfd_flags (flags : Z) : Z :=
  if Z.land flags O_CLOEXEC =? O_CLOEXEC then Z.land flags (Z.lnot O_CLOEXEC)
  else if Z.land flags FD_CLOEXEC =? FD_CLOEXEC then Z.land flags (Z.lnot FD_CLOEXEC)
  else flags.

Definition process_fcntl_call (reg : reg_s) (proc : Z) : M unit :=
  let cmd := s32 (arg reg 1) in
  let cmd_arg := s64 (arg reg 2) in
  let! p := get_proc proc in
  let! lock := (if (cmd =? F_GETLK) || (cmd =? F_SETLK) || (cmd =? F_SETLKW) then
                  let! b := ptrace_cpy (pd_pid p) (arg reg 2) sizeof_flock in
                  ret (flock_decode b)
                else ret (flock_decode [])) in
  if s32 (reg_ret reg) =? -1 then fail Exit else
  let! a := process_descriptor_get_fd proc (s32 (arg reg 0)) in
  let begin := s64 (l_start lock + l_whence lock) in
  let range := lock_range begin (l_len lock) in
  (if cmd =? F_DUPFD then
     let! d := get_fd a in
     fcntl_dup proc (s32 (reg_ret reg)) d (dupfd_flags (fd_flags d))
   else if cmd =? F_DUPFD_CLOEXEC then
     let! d := get_fd a in
     fcntl_dup proc (s32 (reg_ret reg)) d (Z.lor (fd_flags d) FD_CLOEXEC)
   else if cmd =? F_GETFD then ret tt
   else if cmd =? F_SETFD then
     if cmd_arg =? FD_CLOEXEC
     then upd_fd a (λ d, set_fd_flags (Z.lor (fd_flags d) (s32 cmd_arg)) d)
     else fail Exit
   else if cmd =? F_GETFL then ret tt
   else if cmd =? F_SETFL then
     if (cmd_arg =? O_APPEND) || (cmd_arg =? O_ASYNC) || (cmd_arg =? O_NONBLOCK)
     then upd_fd a (λ d, set_fd_flags (Z.lor (fd_flags d) (s32 cmd_arg)) d)
     else ret tt
   else if cmd =? F_GETLK then
     if l_type lock =? F_UNLCK
     then upd_fd a (λ d, set_fd_lock (fd_lock d) F_UNLCK (fd_begin d) (fd_end d) (fd_proc_locker d) d)
     else upd_fd a (λ d, set_fd_lock (fd_lock d) (l_type lock) range.1 range.2 (l_pid lock) d)
   else if cmd =? F_SETLK then
     if reg_ret reg =? 0 then
       if (l_type lock =? F_RDLCK) || (l_type lock =? F_WRLCK)
       then upd_fd a (set_fd_lock 1 (l_type lock) range.1 range.2 (l_pid lock))
       else upd_fd a (set_fd_lock 0 F_UNLCK 0 0 0)
     else ret tt
   else if cmd =? F_SETLKW then
     if reg_ret reg =? 0 then upd_fd a (set_fd_lock 1 (l_type lock) range.1 range.2 (l_pid lock))
     else ret tt
   else if cmd =? F_GETOWN then upd_fd a (set_fd_sig (s32 (reg_ret reg)))
   else if cmd =? F_SETOWN then upd_fd a (set_fd_sig (s32 (arg reg 2)))
   else ret tt) ;;
  if_strace (print_fcntl_syscall reg proc).

Definition syscall_fcntl (reg : reg_s) (proc : Z) : M unit :=
  let! e := proc_entering proc in
  if e then proc_inside proc
  else
    proc_outside proc ;;
    if_strace (print_fcntl_syscall reg proc) ;;
    process_fcntl_call reg proc.

End SysFiles.
