(* ===== verification/SysNet.v ===== *)
(** The handlers of the system calls that set up connections: src/src/sys_socket.c,
    sys_bind.c, sys_listen.c, sys_connect.c, sys_accept.c, sys_shutdown.c,
    sys_getpeername.c, sys_getsockopt.c and sys_setsockopt.c, compiled without
    address translation. *)
From S2P Require Import Prelude Libc External State Monad DataUtils ProcessDescriptor.
From S2P Require Import PtraceUtils Sockets Print Communication SocketOps.
Local Open Scope string_scope.
Local Open Scope Z_scope.
Open Scope sim_scope.

(** [(int) reg->ret] as the [unsigned long] given to [ptrace_restore_syscall]. *)
Definition int_ret (reg : reg_s) : Z := u64 (s32 (reg_ret reg)).

(** [if ((int) reg->ret == -EINPROGRESS) reg->ret = 0;] *)
Definition clear_inprogress (reg : reg_s) : reg_s :=
  if s32 (reg_ret reg) =? - EINPROGRESS then set_ret 0 reg else reg.

(** The [device] of an address a socket is bound to. *)
Definition bind_device (addr : Z) : Z :=
  if addr =? INADDR_ANY then Z.lor PORT_LOCAL PORT_REMOTE
  else if addr =? localhost then PORT_LOCAL else PORT_REMOTE.

Section SysNet.
Context `{X : Xbt} `{Wd : World}.

(** [MSG_process_self()] and [MSG_host_self()] of the process that runs a handler. *)
Record msg_self := { self_process : msg_process; self_host : msg_host }.

(** The three local variables [sai], [sau] and [snl] of a handler: the address of
    an IPv4 socket, [None] when [sai] is left uninitialised. *)
Definition cpy_sockaddr (pid domain addr : Z) : M (option sockaddr_in) :=
  if domain =? 2 then
    let! b := ptrace_cpy pid addr (Z.of_nat sizeof_sockaddr_in) in ret (Some (sai_decode b))
  else if domain =? 1 then
    let! _ := ptrace_cpy pid addr (Z.of_nat sizeof_sockaddr_un) in ret None
  else if domain =? 16 then
    let! _ := ptrace_cpy pid addr (Z.of_nat sizeof_sockaddr_nl) in ret None
  else ret None.

(** ** socket, bind, listen *)

Definition syscall_socket (reg : reg_s) (proc : Z) : M unit :=
  let! e := proc_entering proc in
  if e then proc_inside proc else
  proc_outside proc ;;
  if_strace (print_socket_syscall reg proc) ;;
  if 0 <? s32 (reg_ret reg) then
    let! _ := register_socket proc (s32 (reg_ret reg)) (s32 (arg reg 0)) (s32 (arg reg 1))
                (s32 (arg reg 2)) in
    ret tt
  else ret tt.

(** Neutralise the system call, give it the result [reg->ret] and leave it. *)
Definition bind_finish (reg : reg_s) (proc pid : Z) : M unit :=
  ptrace_neutralize_syscall pid ;;
  ptrace_restore_syscall pid SYS_bind (int_ret reg) ;;
  proc_outside proc.

(** [socket_registered] returns 1 or -1, so that the test on it always succeeds. *)
Definition syscall_bind_pre (reg : reg_s) (proc : Z) : M unit :=
  proc_inside proc ;;
  let reg := clear_inprogress reg in
  let! p := get_proc proc in
  let pid := pd_pid p in
  let sockfd := s32 (arg reg 0) in
  let! domain := get_domain_socket proc sockfd in
  let! addr := cpy_sockaddr pid domain (arg reg 1) in
  let! registered := socket_registered proc sockfd in
  let! network := (if negb (registered =? 0) then socket_network proc sockfd else ret false) in
  if network then
    let! sai := of_option Uninitialised addr in
    let port := ntohs (sin_port sai) in
    let! used := is_port_in_use (pd_host p) port in
    if negb used then
      register_port (pd_host p) port ;;
      let! isp := get_infos_socket proc sockfd in
      set_port_on_binding (pd_host p) port isp (bind_device (sin_addr sai)) ;;
      upd_sock isp (set_is_binded 1) ;;
      set_localaddr_port_socket proc sockfd (inet_ntoa (sin_addr sai)) port ;;
      let reg := set_ret 0 reg in
      bind_finish reg proc pid ;;
      if_strace (print_bind_syscall reg proc)
    else
      let reg := set_ret (- EADDRINUSE) reg in
      bind_finish reg proc pid ;;
      if_strace (print_bind_syscall reg proc)
  else if_strace (print_bind_syscall reg proc).

Definition syscall_bind_post (reg : reg_s) (proc : Z) : M unit :=
  proc_outside proc ;;
  if_strace (print_bind_syscall reg proc).

Definition syscall_bind (reg : reg_s) (proc : Z) : M unit :=
  let! e := proc_entering proc in
  if e then syscall_bind_pre reg proc else syscall_bind_post reg proc.

(** Returns the registers with the result. *)
Definition process_listen_call (reg : reg_s) (proc : Z) : M reg_s :=
  let sockfd := s32 (arg reg 0) in
  let! isp := get_infos_socket proc sockfd in
  let! comm := comm_new isp in
  comm_set_listen comm ;;
  let! p := get_proc proc in
  let reg := set_ret 0 reg in
  ptrace_neutralize_syscall (pd_pid p) ;;
  ptrace_restore_syscall (pd_pid p) SYS_listen (int_ret reg) ;;
  proc_outside proc ;;
  ret reg.

Definition syscall_listen (reg : reg_s) (proc : Z) : M unit :=
  let! e := proc_entering proc in
  if e then
    proc_inside proc ;;
    let! reg := process_listen_call reg proc in
    if_strace (print_listen_syscall reg proc)
  else
    proc_outside proc ;;
    fail Throw_impossible.

(** ** connect *)

(** The refusal of a connection: [-ECONNREFUSED], and 0 for the caller. *)
Definition connect_refuse (proc pid : Z) : M Z :=
  ptrace_neutralize_syscall pid ;;
  proc_outside proc ;;
  ptrace_restore_syscall pid SYS_connect (u64 (- ECONNREFUSED)) ;;
  ret 0.

(** 1 when the caller has to wait for the server. *)
Definition process_connect_in_call (reg : reg_s) (proc : Z) : M Z :=
  let! p := get_proc proc in
  let pid := pd_pid p in
  let sockfd := s32 (arg reg 0) in
  let! domain := get_domain_socket proc sockfd in
  if domain =? 2 then
    let! b := ptrace_cpy pid (arg reg 1) (Z.of_nat sizeof_sockaddr_in) in
    let sai := sai_decode b in
    let local := sin_addr sai =? localhost in
    let! ip := (if local then ret localhost else get_ip_of_host (pd_host p)) in
    let device := if local then PORT_LOCAL else PORT_REMOTE in
    let! host := (if local then ret (pd_host p) else get_host_by_ip (sin_addr sai)) in
    if negb local && bool_decide (host = None) then connect_refuse proc pid else
    let! acc_proc := comm_ask_connect host (ntohs (sin_port sai)) proc sockfd device in
    if acc_proc =? NULL then connect_refuse proc pid else
    let! port := get_random_port (pd_host p) in
    set_localaddr_port_socket proc sockfd (inet_ntoa ip) port ;;
    register_port (pd_host p) port ;;
    let! flags := socket_get_flags proc sockfd in
    let nonblock := has_flag flags O_NONBLOCK in
    let result := if nonblock then - EINPROGRESS else 0 in
    ptrace_neutralize_syscall pid ;;
    ptrace_restore_syscall pid SYS_connect (u64 result) ;;
    ret (if nonblock then 0 else 1)
  else ret 0.

(** [process_handle], which calls [syscall_connect], is the argument [handle]. *)
Definition syscall_connect_pre (self : msg_self) (handle : Z → M Z) (reg : reg_s) (proc : Z) : M Z :=
  proc_inside proc ;;
  let! p := get_proc proc in
  let pid := pd_pid p in
  let sockfd := s32 (arg reg 0) in
  let! domain := get_domain_socket proc sockfd in
  let reg := clear_inprogress reg in
  let! _ := cpy_sockaddr pid domain (arg reg 1) in
  let! connected := process_connect_in_call reg proc in
  if negb (connected =? 0) then
    let! isp := get_infos_socket proc sockfd in
    let! s := comm_get_peer isp in
    let! remote := get_fd s in
    upd_fd isp (set_fd_stream (fd_stream remote)) ;;
    upd_stream (fd_stream remote) (λ t, mk_stream (sem_client t) (sem_server t)
      (Some (self_process self)) (str_server t) (MSG_host_get_name (self_host self)) (to_server t)) ;;
    let! t := get_stream (fd_stream remote) in
    modify (λ s, set_w (MSG_sem_release (st_w s) (sem_server t)) s) ;;
    let! _ := block (Sem_acquire (sem_client t)) in
    handle proc
  else
    proc_outside proc ;;
    ret PROCESS_CONTINUE.

Definition syscall_connect_post (reg : reg_s) (proc : Z) : M unit :=
  proc_outside proc ;;
  let! p := get_proc proc in
  let sockfd := s32 (arg reg 0) in
  let! domain := get_domain_socket proc sockfd in
  let reg := clear_inprogress reg in
  let! _ := cpy_sockaddr (pd_pid p) domain (arg reg 1) in
  if_strace (print_connect_syscall reg proc) ;;
  let! file_desc := process_descriptor_get_fd proc sockfd in
  fd_ref file_desc 1 ;;
  let! d := get_fd file_desc in
  let! t := get_stream (fd_stream d) in
  modify (λ s, set_w (MSG_sem_release (st_w s) (sem_server t)) s) ;;
  fd_ref file_desc (-1).

(** The result of [syscall_connect_pre] is dropped. *)
Definition syscall_connect (self : msg_self) (handle : Z → M Z) (reg : reg_s) (proc : Z) : M unit :=
  let! e := proc_entering proc in
  if e then let! _ := syscall_connect_pre self handle reg proc in ret tt
  else syscall_connect_post reg proc.

(** ** accept *)

Definition process_accept_out_call (reg : reg_s) (proc : Z) : M unit :=
  if 0 <=? s32 (reg_ret reg) then
    let sockfd := s32 (arg reg 0) in
    let newfd := s32 (reg_ret reg) in
    let! domain := get_domain_socket proc sockfd in
    let! protocol := get_protocol_socket proc sockfd in
    let! type := get_type_socket proc sockfd in
    let! isp := register_socket proc newfd domain type protocol in
    comm_join_on_accept isp proc sockfd ;;
    let! s := get_infos_socket proc sockfd in
    let! si := get_sock s in
    let! p := get_proc proc in
    register_port (pd_host p) (is_port_local si) ;;
    let! ip :=
      (if is_ip_local si =? 0 then
         let! i := get_sock isp in
         let! c := get_comm (is_comm i) in
         let! temp := get_sock (ci_socket (info0 c)) in
         if is_ip_local temp =? localhost then ret localhost else get_ip_of_host (pd_host p)
       else ret (is_ip_local si)) in
    set_localaddr_port_socket proc newfd (inet_ntoa ip) (is_port_local si) ;;
    let! sd := get_fd s in
    upd_fd isp (set_fd_stream (fd_stream sd))
  else ret tt.

Definition syscall_accept_pre (self : msg_self) (reg : reg_s) (proc : Z) : M unit :=
  let sockfd := s32 (arg reg 0) in
  let! domain := get_domain_socket proc sockfd in
  let! p := get_proc proc in
  let pid := pd_pid p in
  proc_inside proc ;;
  let! file_desc := process_descriptor_get_fd proc sockfd in
  fd_ref file_desc 1 ;;
  let! sem_client := on_world Invalid_pointer (λ w, Some (MSG_sem_init w 0)) in
  let! sem_server := on_world Invalid_pointer (λ w, Some (MSG_sem_init w 0)) in
  let! stream := alloc_stream (mk_stream sem_client sem_server None (Some (self_process self))
                   "" (MSG_host_get_name (self_host self))) in
  let! _ := cpy_sockaddr pid domain (arg reg 1) in
  let! _ := ptrace_cpy pid (arg reg 2) 4 in
  upd_fd file_desc (set_fd_stream stream) ;;
  let! _ := block (Sem_acquire sem_server) in
  let! d := get_fd file_desc in
  let! t := get_stream (fd_stream d) in
  modify (λ s, set_w (MSG_sem_release (st_w s) (State.sem_client t)) s) ;;
  let! isp := get_infos_socket proc sockfd in
  let! waiting := comm_has_connect_waiting isp in
  (if waiting then
     let! isp := get_infos_socket proc sockfd in
     let! r := comm_accept_connect isp in
     let! sai := of_option Uninitialised r.2 in
     let! new_fd := ptrace_record_socket pid in
     let reg := set_ret new_fd reg in
     ptrace_neutralize_syscall pid ;;
     proc_outside proc ;;
     ptrace_restore_syscall pid SYS_accept (int_ret reg) ;;
     ptrace_poke pid (arg reg 1) (sai_encode sai) (Z.of_nat sizeof_sockaddr_in) ;;
     process_accept_out_call reg proc ;;
     if_strace (print_accept_syscall reg proc) ;;
     let! d := get_fd file_desc in
     let! t := get_stream (fd_stream d) in
     let! _ := block (Sem_acquire (State.sem_server t)) in
     ret tt
   else ret tt) ;;
  fd_ref file_desc (-1).

Definition syscall_accept_post (reg : reg_s) (proc : Z) : M unit :=
  proc_outside proc ;;
  if_strace (print_accept_syscall reg proc) ;;
  let! file_desc := process_descriptor_get_fd proc (s32 (arg reg 0)) in
  fd_ref file_desc 1 ;;
  let! d := get_fd file_desc in
  let! t := get_stream (fd_stream d) in
  let! _ := block (Sem_acquire (sem_server t)) in
  fd_ref file_desc (-1).

Definition syscall_accept (self : msg_self) (reg : reg_s) (proc : Z) : M unit :=
  let! e := proc_entering proc in
  if e then syscall_accept_pre self reg proc
  else
    let! _ := get_domain_socket proc (s32 (arg reg 0)) in
    syscall_accept_post reg proc.

(** ** shutdown, getpeername, options *)

Definition syscall_shutdown_pre (reg : reg_s) (proc : Z) : M unit :=
  proc_inside proc ;;
  let! p := get_proc proc in
  ptrace_neutralize_syscall (pd_pid p) ;;
  let reg := set_ret 0 reg in
  ptrace_restore_syscall (pd_pid p) SYS_shutdown (int_ret reg) ;;
  proc_outside proc ;;
  if_strace (print_shutdown_syscall reg proc).

Definition syscall_shutdown_post (reg : reg_s) (proc : Z) : M unit :=
  proc_outside proc ;;
  let! isp := get_infos_socket proc (s32 (arg reg 0)) in
  if isp =? NULL then ret tt else
  comm_shutdown isp ;;
  if_strace (print_shutdown_syscall reg proc).

Definition syscall_shutdown (reg : reg_s) (proc : Z) : M unit :=
  let! e := proc_entering proc in
  if e then syscall_shutdown_pre reg proc else syscall_shutdown_post reg proc.

(** The length is read in the tracee at the address of a local variable of
    SimTerpose, and the registers set are what follows such a variable. Past the
    call of [comm_getpeername] only the branch of a socket that is not connected
    is left: the other one stores through a null pointer. Its log reads
    [reg->arg[2]], an address of the tracee, as a pointer. *)
Definition syscall_getpeername_pre (reg : reg_s) (proc : Z) : M unit :=
  proc_inside proc ;;
  let! p := get_proc proc in
  let pid := pd_pid p in
  let sockfd := s32 (arg reg 0) in
  let! a := gets (λ s, stack_address (st_w s)) in
  let! _ := ptrace_cpy pid a 4 in
  let! registered := socket_registered proc sockfd in
  let! network := (if negb (registered =? 0) then socket_network proc sockfd else ret false) in
  if network then
    let! isp := get_infos_socket proc sockfd in
    let! r := comm_getpeername isp NULL in
    if r =? 0 then fail Invalid_pointer else
    let reg := set_ret (- ENOTCONN) reg in
    modify (λ s, match ptrace_setregs (st_w s) pid (stray_regs (st_w s)) with
                 | Some w => set_w w s | None => s end) ;;
    ptrace_neutralize_syscall pid ;;
    proc_outside proc ;;
    ptrace_restore_syscall pid SYS_getpeername (int_ret reg) ;;
    if_strace (print_getpeername_syscall reg proc)
  else ret tt.

Definition syscall_getpeername (reg : reg_s) (proc : Z) : M unit :=
  let! e := proc_entering proc in
  if e then syscall_getpeername_pre reg proc else proc_outside proc.

(** The value of the option is computed and dropped. *)
Definition syscall_getsockopt_pre (reg : reg_s) (proc : Z) : M unit :=
  proc_inside proc ;;
  let! p := get_proc proc in
  let reg := set_ret 0 reg in
  let! _ := ptrace_cpy (pd_pid p) (arg reg 3) 4 in
  let! _ := (if arg reg 2 =? SO_REUSEADDR
             then socket_get_option proc (s32 (arg reg 0)) SOCK_OPT_REUSEADDR else ret 0) in
  ptrace_neutralize_syscall (pd_pid p) ;;
  ptrace_restore_syscall (pd_pid p) SYS_getsockopt (int_ret reg) ;;
  proc_outside proc ;;
  if_strace (print_getsockopt_syscall reg proc).

(** The length of the copy is [reg->arg[4]], the address of the length. *)
Definition syscall_getsockopt_post (reg : reg_s) (proc : Z) : M unit :=
  proc_outside proc ;;
  let! p := get_proc proc in
  let! _ := ptrace_cpy (pd_pid p) (arg reg 3) (u32 (arg reg 4)) in
  if_strace (print_getsockopt_syscall reg proc).

Definition syscall_getsockopt (reg : reg_s) (proc : Z) : M unit :=
  let! e := proc_entering proc in
  if e then syscall_getsockopt_pre reg proc else syscall_getsockopt_post reg proc.

Definition syscall_setsockopt_pre (reg : reg_s) (proc : Z) : M unit :=
  proc_inside proc ;;
  let! p := get_proc proc in
  let! reg :=
    (if s32 (arg reg 2) =? SO_REUSEADDR then
       let! b := ptrace_cpy (pd_pid p) (arg reg 3) 4 in
       socket_set_option proc (s32 (arg reg 0)) SOCK_OPT_REUSEADDR (s32 (le_decode (take 4 b))) ;;
       ret (set_ret 0 reg)
     else ret (set_ret (-1) reg)) in
  ptrace_neutralize_syscall (pd_pid p) ;;
  ptrace_restore_syscall (pd_pid p) SYS_setsockopt (int_ret reg) ;;
  proc_outside proc ;;
  if_strace (print_setsockopt_syscall reg proc).

Definition syscall_setsockopt_post (reg : reg_s) (proc : Z) : M unit :=
  proc_outside proc ;;
  if_strace (print_setsockopt_syscall reg proc).

Definition syscall_setsockopt (reg : reg_s) (proc : Z) : M unit :=
  let! e := proc_entering proc in
  if e then syscall_setsockopt_pre reg proc else syscall_setsockopt_post reg proc.

End SysNet.
