(* ===== verification/SysData.v ===== *)
(** The handlers of the system calls that move data: src/src/sys_sendto.c,
    sys_sendmsg.c, sys_write.c, sys_recvfrom.c, sys_recvmsg.c, sys_read.c,
    sys_poll.c and sys_select.c, compiled without address translation.

    The buffer of a message is the list of the bytes [ptrace_cpy] stores in it;
    its lifetime is not modelled. *)
From S2P Require Import Prelude Libc External State Monad DataUtils ProcessDescriptor.
From S2P Require Import PtraceUtils Sockets Print Communication SocketOps SysNet.
Local Open Scope string_scope.
Local Open Scope Z_scope.
Open Scope sim_scope.

Definition POLLIN : Z := 1.

(** [struct iovec]. *)
Record iovec := { iov_base : Z; iov_len : Z }.
Definition sizeof_iovec : Z := 16.
Definition iovec_decode (l : list Z) : iovec :=
  {| iov_base := le_decode (take 8 l); iov_len := le_decode (take 8 (drop 8 l)) |}.

(** [msg->msg_iov + i * sizeof(struct iovec)]: the pointer is one to
    [struct iovec], so that the offset is scaled twice. *)
Definition iov_address (m : msghdr) (i : Z) : Z := msg_iov m + i * sizeof_iovec * sizeof_iovec.

Fixpoint pollfds_decode (n : nat) (l : list Z) : list pollfd :=
  match n with
  | O => []
  | S n => pollfd_decode (take 8 l) :: pollfds_decode n (drop 8 l)
  end.

(** [temp->revents = temp->revents | POLLIN] on the first entry. *)
Definition set_pollin (l : list Z) : list Z :=
  take 6 l ++ le_encode 2 (Z.lor (poll_revents (pollfd_decode l)) POLLIN) ++ drop 8 l.

Section SysData.
Context `{X : Xbt} `{Wd : World}.

(** ** Sending *)

Definition is_stream (type : Z) : bool := (type =? SOCK_STREAM) || (type =? SOCK_SEQPACKET).

(** An address filled with zeros by [xbt_malloc0]. *)
Definition sai_zero : sockaddr_in := sai_decode (replicate sizeof_sockaddr_in 0).

(** The local variables [is_addr], [addrlen] and the three addresses of
    [syscall_sendto_pre]; the first two are not initialised for a stream socket. *)
Definition sendto_address (reg : reg_s) (proc pid : Z)
    : M (bool * Z * sockaddr_in * list Z * list Z) :=
  let! type := get_type_socket proc (s32 (arg reg 0)) in
  if negb (is_stream type) then
    let! domain := get_domain_socket proc (s32 (arg reg 0)) in
    if negb (s32 (arg reg 4) =? 0) then
      let! sai := (if domain =? 2 then
                     let! b := ptrace_cpy pid (arg reg 4) 16 in ret (sai_decode b)
                   else ret sai_zero) in
      let! sau := (if domain =? 1 then ptrace_cpy pid (arg reg 4) 110 else ret (replicate 110 0)) in
      let! snl := (if domain =? 16 then ptrace_cpy pid (arg reg 4) 12 else ret (replicate 12 0)) in
      ret (true, u32 (arg reg 5), sai, sau, snl)
    else ret (false, 0, sai_zero, replicate 110 0, replicate 12 0)
  else
    let! b := gets (λ s, stray_byte (st_w s)) in
    ret (negb (b =? 0), b, sai_zero, replicate 110 0, replicate 12 0).

Definition syscall_sendto_pre (reg : reg_s) (proc : Z) : M Z :=
  proc_inside proc ;;
  let! p := get_proc proc in
  let pid := pd_pid p in
  let! '(is_addr, addrlen, sai, sau, snl) := sendto_address reg proc pid in
  let! data := ptrace_cpy pid (arg reg 1) (u64 (arg reg 2)) in
  let! '(sent, reg) := process_send_call reg proc data in
  if negb (sent =? 0) then
    ptrace_neutralize_syscall pid ;;
    proc_outside proc ;;
    ptrace_restore_syscall pid SYS_sendto (int_ret reg) ;;
    if_strace (print_sendto_syscall reg proc data is_addr addrlen sai sau snl) ;;
    ret PROCESS_TASK_FOUND
  else ret PROCESS_CONTINUE.

(** The source of the copy is the pointer [sai] itself and what follows it. *)
Definition sys_translate_sendto_out (reg : reg_s) (proc : Z) (sai : sockaddr_in) : M unit :=
  let! p := get_proc proc in
  if s32 (arg reg 4) =? 0 then ret tt else
  let! td := get_translation (ntohs (sin_port sai)) in
  let! _ := of_option Invalid_pointer td in
  ptrace_poke (pd_pid p) (arg reg 4) [] 16.

(** An address is copied over the pointers [sai], [sau] and [snl] themselves. *)
Definition syscall_sendto_post (reg : reg_s) (proc : Z) : M Z :=
  proc_outside proc ;;
  let! p := get_proc proc in
  let pid := pd_pid p in
  let sockfd := s32 (arg reg 0) in
  let! data := ptrace_cpy pid (arg reg 1) (u64 (arg reg 2)) in
  let! type := get_type_socket proc sockfd in
  let! '(is_addr, addrlen) :=
    (if negb (is_stream type) then
       let! domain := get_domain_socket proc sockfd in
       if negb (s32 (arg reg 4) =? 0) then
         let! _ := cpy_sockaddr pid domain (arg reg 4) in
         (if (domain =? 2) || (domain =? 1) || (domain =? 16) then fail Invalid_pointer else ret tt) ;;
         ret (true, u32 (arg reg 5))
       else ret (false, 0)
     else ret (false, 0)) in
  if_strace (print_sendto_syscall reg proc data is_addr addrlen sai_zero
               (replicate 110 0) (replicate 12 0)) ;;
  let! registered := socket_registered proc sockfd in
  let! network := (if negb (registered =? -1) then socket_network proc sockfd else ret false) in
  (if network && negb (is_stream type) then sys_translate_sendto_out reg proc sai_zero else ret tt) ;;
  if 0 <? s32 (reg_ret reg) then
    let! '(sent, _) := process_send_call reg proc data in
    ret (if negb (sent =? 0) then PROCESS_TASK_FOUND else PROCESS_CONTINUE)
  else ret PROCESS_CONTINUE.

Definition syscall_sendto (reg : reg_s) (proc : Z) : M Z :=
  let! e := proc_entering proc in
  if e then syscall_sendto_pre reg proc else syscall_sendto_post reg proc.

(** [for (i = 0; i < msg->msg_iovlen; ++i)]: [n] is the number of entries left.
    Each copy starts where the announced length of the previous one ends. *)
Fixpoint gather_iovec (n : nat) (pid : Z) (m : msghdr) (i : Z) (data : list Z) (len : Z)
    : M (list Z * Z) :=
  match n with
  | O => ret (data, len)
  | S n =>
    let! t := ptrace_cpy pid (iov_address m i) sizeof_iovec in
    let v := iovec_decode t in
    let! b := ptrace_cpy pid (iov_base v) (iov_len v) in
    gather_iovec n pid m (i + 1) (take (Z.to_nat len) data ++ b) (u64 (len + iov_len v))
  end.

(** The length sent is [reg->arg[2]], the flags of the system call. *)
Definition syscall_sendmsg (reg : reg_s) (proc : Z) : M Z :=
  let! p := get_proc proc in
  let pid := pd_pid p in
  let! b := ptrace_cpy pid (arg reg 1) sizeof_msghdr in
  let msg := msghdr_decode b in
  let! '(data, len) := gather_iovec (Z.to_nat (msg_iovlen msg)) pid msg 0 [] 0 in
  let! e := proc_entering proc in
  if e then
    proc_inside proc ;;
    let! '(sent, reg) := process_send_call reg proc data in
    if negb (sent =? 0) then
      ptrace_neutralize_syscall pid ;;
      proc_outside proc ;;
      ptrace_restore_syscall pid SYS_sendmsg (reg_ret reg) ;;
      if_strace (print_sendmsg_syscall reg proc len data msg) ;;
      ret PROCESS_TASK_FOUND
    else ret PROCESS_CONTINUE
  else
    proc_outside proc ;;
    if_strace (print_sendmsg_syscall reg proc len data msg) ;;
    ret PROCESS_CONTINUE.

(** At the exit of a [write] to a pipe: one task for the first reader. The data
    attached to it is an address of the writer, which the reader does not use. *)
Definition write_pipe (reg : reg_s) (proc : Z) (d : fd_descriptor) : M unit :=
  if_strace (print_write_syscall reg proc) ;;
  if fd_pipe d =? NULL then fail Throw_impossible else
  let! pi := get_pipe (fd_pipe d) in
  let! end_in := of_option Throw_not_found (xbt_dynar_get_cpy (read_end pi) 0) in
  let buff := sprintf_d (pe_fd end_in) in
  let! rp := get_proc (pe_proc end_in) in
  let! p := get_proc proc in
  let! _ := host_name (pd_host p) in
  let! _ := host_name (pd_host rp) in
  let! task := on_world Invalid_pointer (λ w, Some (MSG_task_create w buff (s64 (reg_ret reg)) [])) in
  let! _ := block (Task_send task buff) in
  ret tt.

(** The data of a socket that is not a network socket is an address of the tracee,
    which nothing reads. The result restored is the one at the entry. *)
Definition syscall_write (reg : reg_s) (proc : Z) : M Z :=
  let fd := s32 (arg reg 0) in
  let! p := get_proc proc in
  let pid := pd_pid p in
  let! registered := socket_registered proc fd in
  let! network := (if negb (registered =? 0) then socket_network proc fd else ret false) in
  let! data := (if network then ptrace_cpy pid (arg reg 1) (u64 (arg reg 2)) else ret []) in
  let! e := proc_entering proc in
  if e then
    proc_inside proc ;;
    let! registered := socket_registered proc fd in
    if negb (registered =? -1) then
      let! '(sent, reg') := process_send_call reg proc data in
      if negb (sent =? 0) then
        ptrace_neutralize_syscall pid ;;
        ptrace_restore_syscall pid SYS_write (reg_ret reg) ;;
        if_strace (print_write_syscall reg' proc) ;;
        proc_outside proc ;;
        ret PROCESS_TASK_FOUND
      else ret PROCESS_CONTINUE
    else ret PROCESS_CONTINUE
  else
    proc_outside proc ;;
    let! file_desc := process_descriptor_get_fd proc fd in
    fd_ref file_desc 1 ;;
    let! d := get_fd file_desc in
    (if fd_type d =? FD_PIPE then write_pipe reg proc d
     else if_strace (print_write_syscall reg proc)) ;;
    fd_ref file_desc (-1) ;;
    ret PROCESS_CONTINUE.

(** ** Receiving *)

(** The mailbox of the side of the connection the process is on. *)
Definition own_mailbox (self : msg_self) (t : stream) : M string :=
  let is_self o := match o with
                   | Some q => msg_process_eqb (self_process self) q
                   | None => false
                   end in
  if is_self (str_client t) then ret (to_client t)
  else if is_self (str_server t) then ret (to_server t)
  else fail Throw_impossible.

(** [MSG_task_receive] and the two reads of the task, which is [NULL] when the
    reception failed. *)
Definition receive_task (mailbox : string) : M (msg_task * msg_error * Z * list Z) :=
  let! '(task, err) := block (Task_receive mailbox) in
  let! t := of_option Invalid_pointer task in
  let! amount := gets (λ s, MSG_task_get_bytes_amount (st_w s) t) in
  let! data := gets (λ s, MSG_task_get_data (st_w s) t) in
  ret (t, err, amount, data).

Definition task_destroy (t : msg_task) : M unit :=
  modify (λ s, set_w (MSG_task_destroy (st_w s) t) s).

(** [if (err != MSG_OK) { sock_status = socket_get_state(is); ... }]: the state of
    the socket is only asked for after an error. *)
Definition state_after (proc fd : Z) (err : msg_error) : M Z :=
  match err with
  | MSG_OK => ret 0
  | _ => let! isp := get_infos_socket proc fd in comm_get_socket_state isp
  end.

(** [sizeof(sockaddr)] is the size of a pointer. *)
Definition sys_translate_recvfrom_out (reg : reg_s) (proc : Z) : M unit :=
  if arg reg 4 =? NULL then ret tt else
  let! p := get_proc proc in
  let! b := ptrace_cpy (pd_pid p) (arg reg 4) 8 in
  let! l := ptrace_cpy (pd_pid p) (arg reg 5) 4 in
  if le_decode (take 4 l) =? 8 then
    let sai := sai_decode (b ++ replicate 8 0) in
    let! td := get_translation (ntohs (sin_port sai)) in
    let! td := of_option Invalid_pointer td in
    let sai' := mk_sai (sin_family sai) (htons (td_port_num td)) (td_ip td) (sin_zero sai) in
    ptrace_poke (pd_pid p) (arg reg 4) (sai_encode sai') 8 ;;
    ptrace_poke (pd_pid p) (arg reg 5) (le_encode 4 8) 4
  else ret tt.

Definition translate_source (reg : reg_s) (proc : Z) : M unit :=
  if negb (arg reg 4 =? NULL) then
    let! registered := socket_registered proc (s32 (arg reg 0)) in
    let! network := (if negb (registered =? -1) then socket_network proc (s32 (arg reg 0))
                     else ret false) in
    if network then sys_translate_recvfrom_out reg proc else ret tt
  else ret tt.

(** The length of the message is that of its text; a message without a null byte
    is read past its end. *)
Definition process_recvfrom_out_call (reg : reg_s) (proc : Z) (data : list Z) : M unit :=
  let! p := get_proc proc in
  translate_source reg proc ;;
  let! n := of_option Invalid_pointer (strlen data) in
  let len_data := n + 1 in
  let len_buf := u64 (arg reg 2) in
  let len := if len_data <=? len_buf then len_data else len_buf in
  ptrace_poke (pd_pid p) (arg reg 1) data len ;;
  let reg := set_ret len reg in
  ptrace_restore_syscall (pd_pid p) SYS_recvfrom (reg_ret reg) ;;
  if_strace (print_recvfrom_syscall reg proc data sai_zero (replicate 110 0) (replicate 12 0) false 0).

(** Whatever the error, the result is the one [process_recvfrom_out_call] computes
    from the data. *)
Definition syscall_recvfrom_pre (self : msg_self) (reg : reg_s) (proc : Z) : M unit :=
  proc_inside proc ;;
  let sockfd := s32 (arg reg 0) in
  let! file_desc := process_descriptor_get_fd proc sockfd in
  fd_ref file_desc 1 ;;
  let! registered := socket_registered proc sockfd in
  let! netlink := (if negb (registered =? -1) then socket_netlink proc sockfd else ret true) in
  (if negb netlink then
     let! d := get_fd file_desc in
     let! t := get_stream (fd_stream d) in
     let! mailbox := own_mailbox self t in
     let! '(task, err, amount, data) := receive_task mailbox in
     let! status := state_after proc sockfd err in
     let reg := set_ret (if has_flag status SOCKET_CLOSED then 0 else amount) reg in
     let! p := get_proc proc in
     ptrace_neutralize_syscall (pd_pid p) ;;
     proc_outside proc ;;
     process_recvfrom_out_call reg proc data ;;
     task_destroy task
   else ret tt) ;;
  fd_ref file_desc (-1).

(** [xbt_malloc] of a negative result fails. *)
Definition syscall_recvfrom_post (reg : reg_s) (proc : Z) : M unit :=
  proc_outside proc ;;
  if s64 (reg_ret reg) <? 0 then fail Xbt_die else
  let! p := get_proc proc in
  let! data := ptrace_cpy (pd_pid p) (arg reg 1) (reg_ret reg) in
  translate_source reg proc ;;
  if_strace (print_recvfrom_syscall reg proc data sai_zero (replicate 110 0) (replicate 12 0) false 0).

Definition syscall_recvfrom (self : msg_self) (reg : reg_s) (proc : Z) : M unit :=
  let! e := proc_entering proc in
  if e then syscall_recvfrom_pre self reg proc else syscall_recvfrom_post reg proc.

(** The loop that adds up the lengths of the entries, whose sum is not used. *)
Fixpoint scan_iovec (n : nat) (pid : Z) (m : msghdr) (i len : Z) : M Z :=
  match n with
  | O => ret len
  | S n =>
    let! t := ptrace_cpy pid (iov_address m i) sizeof_iovec in
    scan_iovec n pid m (i + 1) (u64 (len + iov_len (iovec_decode t)))
  end.

(** Every entry receives the start of the data. *)
Fixpoint scatter_iovec (n : nat) (pid : Z) (m : msghdr) (data : list Z) (i bytes_read : Z) : M Z :=
  match n with
  | O => ret bytes_read
  | S n =>
    let! t := ptrace_cpy pid (iov_address m i) sizeof_iovec in
    let! l := of_option Invalid_pointer (strlen data) in
    ptrace_poke pid (iov_address m i) t sizeof_iovec ;;
    ptrace_poke pid (iov_base (iovec_decode t)) data (iov_len (iovec_decode t)) ;;
    scatter_iovec n pid m data (i + 1) (bytes_read + l)
  end.

Definition sys_build_recvmsg (proc : Z) (data : list Z) (m : msghdr) : M unit :=
  let! p := get_proc proc in
  let! bytes_read := scatter_iovec (Z.to_nat (msg_iovlen m)) (pd_pid p) m data 0 0 in
  ptrace_restore_syscall (pd_pid p) SYS_recvmsg (u64 bytes_read).

Definition syscall_recvmsg_pre (self : msg_self) (reg : reg_s) (proc : Z) : M unit :=
  proc_inside proc ;;
  let! p := get_proc proc in
  let pid := pd_pid p in
  let sockfd := s32 (arg reg 0) in
  let! b := ptrace_cpy pid (arg reg 1) sizeof_msghdr in
  let msg := msghdr_decode b in
  let! _ := scan_iovec (Z.to_nat (msg_iovlen msg)) pid msg 0 0 in
  let! file_desc := process_descriptor_get_fd proc sockfd in
  fd_ref file_desc 1 ;;
  let! registered := socket_registered proc sockfd in
  let! netlink := (if negb (registered =? -1) then socket_netlink proc sockfd else ret true) in
  (if negb netlink then
     let! d := get_fd file_desc in
     let! t := get_stream (fd_stream d) in
     let! mailbox := own_mailbox self t in
     let! '(task, err, _, data) := receive_task mailbox in
     let! _ := state_after proc sockfd err in
     ptrace_neutralize_syscall pid ;;
     proc_outside proc ;;
     sys_build_recvmsg proc data msg ;;
     task_destroy task
   else ret tt) ;;
  fd_ref file_desc (-1).

Definition syscall_recvmsg_post (reg : reg_s) (proc : Z) : M unit :=
  proc_outside proc ;;
  let! p := get_proc proc in
  let! b := ptrace_cpy (pd_pid p) (arg reg 1) sizeof_msghdr in
  let msg := msghdr_decode b in
  let! _ := scan_iovec (Z.to_nat (msg_iovlen msg)) (pd_pid p) msg 0 0 in
  if_strace (print_recvmsg_syscall reg proc msg).

Definition syscall_recvmsg (self : msg_self) (reg : reg_s) (proc : Z) : M unit :=
  let! e := proc_entering proc in
  if e then syscall_recvmsg_pre self reg proc else syscall_recvmsg_post reg proc.

Definition process_read_out_call (reg : reg_s) (proc : Z) (data : list Z) : M unit :=
  let! p := get_proc proc in
  ptrace_restore_syscall (pd_pid p) SYS_read (int_ret reg) ;;
  if 0 <? s32 (reg_ret reg) then ptrace_poke (pd_pid p) (arg reg 1) data (s32 (reg_ret reg))
  else ret tt.

(** The amount received is kept in a local variable; [process_read_out_call] uses
    the registers as they were at the entry. *)
Definition syscall_read_pre (self : msg_self) (reg : reg_s) (proc : Z) : M unit :=
  let fd := s32 (arg reg 0) in
  proc_inside proc ;;
  let! file_desc := process_descriptor_get_fd proc fd in
  fd_ref file_desc 1 ;;
  let! registered := socket_registered proc fd in
  let! d := get_fd file_desc in
  (if negb (registered =? -1) then
     let! t := get_stream (fd_stream d) in
     let! mailbox := own_mailbox self t in
     let! '(task, err, _, data) := receive_task mailbox in
     let! _ := state_after proc fd err in
     let! p := get_proc proc in
     ptrace_neutralize_syscall (pd_pid p) ;;
     proc_outside proc ;;
     process_read_out_call reg proc data ;;
     task_destroy task
   else if fd_type d =? FD_PIPE then
     if_strace (print_read_syscall reg proc) ;;
     if fd_pipe d =? NULL then fail Throw_impossible else
     let! p := get_proc proc in
     let! _ := host_name (pd_host p) in
     let! '(task, _, _, _) := receive_task (sprintf_d fd) in
     task_destroy task
   else ret tt) ;;
  fd_ref file_desc (-1).

Definition syscall_read (self : msg_self) (reg : reg_s) (proc : Z) : M unit :=
  let! e := proc_entering proc in
  if e then syscall_read_pre self reg proc
  else
    proc_outside proc ;;
    if_strace (print_read_syscall reg proc).

(** ** poll and select *)

(** Only the first entry is looked at; the communication is only set for a socket
    polled for input. *)
Definition poll_finish (reg : reg_s) (proc pid timeout result : Z) (fds : list Z) : M unit :=
  ptrace_restore_syscall pid SYS_poll result ;;
  let reg := set_ret result reg in
  let n := Z.to_nat (u64 (arg reg 1)) in
  (if negb (arg reg 0 =? 0) then ptrace_poke pid (arg reg 0) fds (sizeof_pollfd * u64 (arg reg 1))
   else ret tt) ;;
  if_strace (print_poll_syscall reg proc (Some (pollfds_decode n fds)) timeout).

Definition syscall_poll_pre (reg : reg_s) (proc : Z) : M unit :=
  proc_inside proc ;;
  let! p := get_proc proc in
  let pid := pd_pid p in
  let nfds := u64 (arg reg 1) in
  let timeout := Z.quot (s32 (arg reg 2)) 1000 in
  let! fd_list := (if negb (arg reg 0 =? 0) then
                     let! b := ptrace_cpy pid (arg reg 0) (u64 (nfds * sizeof_pollfd)) in ret (Some b)
                   else ret None) in
  if_strace (print_poll_syscall reg proc (pollfds_decode (Z.to_nat nfds) <$> fd_list) timeout) ;;
  let! fds := of_option Invalid_pointer fd_list in
  if nfds =? 0 then fail Invalid_pointer else
  let temp := pollfd_decode fds in
  let! isp := get_infos_socket proc (poll_fd temp) in
  let! comm :=
    (if negb (isp =? NULL) then
       sock_ref isp 1 ;;
       let! _ := comm_get_socket_state isp in
       let! comm := (if has_flag (poll_events temp) POLLIN then
                       let! i := get_sock isp in
                       let! name := host_name (is_host i) in
                       let! c := on_world Invalid_pointer (λ w, Some (MSG_task_irecv w name)) in
                       ret (Some c)
                     else ret None) in
       sock_ref isp (-1) ;;
       ret comm
     else ret None) in
  let! c := of_option Uninitialised comm in
  let! err := block (Comm_wait c timeout) in
  match err with
  | MSG_OK => poll_finish reg proc pid timeout 1 (set_pollin fds)
  | MSG_TIMEOUT => poll_finish reg proc pid timeout 0 fds
  | _ => ret tt
  end.

Definition syscall_poll_post (reg : reg_s) (proc : Z) : M unit :=
  proc_outside proc ;;
  let! p := get_proc proc in
  let nfds := u64 (arg reg 1) in
  let timeout := Z.quot (s32 (arg reg 2)) 1000 in
  let! fd_list := (if negb (arg reg 0 =? 0) then
                     let! b := ptrace_cpy (pd_pid p) (arg reg 0) (u64 (nfds * sizeof_pollfd)) in
                     ret (Some b)
                   else ret None) in
  if_strace (print_poll_syscall reg proc (pollfds_decode (Z.to_nat nfds) <$> fd_list) timeout).

Definition syscall_poll (reg : reg_s) (proc : Z) : M unit :=
  let! e := proc_entering proc in
  if e then syscall_poll_pre reg proc else syscall_poll_post reg proc.

(** The rest of [syscall_select_pre] follows a [THROW_UNIMPLEMENTED]. *)
Definition syscall_select_pre (proc : Z) : M unit :=
  proc_inside proc ;;
  fail Throw_unimplemented.

Definition syscall_select (reg : reg_s) (proc : Z) : M unit :=
  let! e := proc_entering proc in
  if e then syscall_select_pre proc else proc_outside proc.

End SysData.
