(* ===== verification/SysProc.v ===== *)
(** The handlers of the system calls on processes: src/src/sys_clone.c,
    sys_execve.c, sys_exit.c, sys_getpid.c, sys_tuxcall.c and sys_brk.c. *)
From S2P Require Import Prelude Libc External State Monad DataUtils ProcessDescriptor.
From S2P Require Import PtraceUtils Sockets Print Communication SocketOps SysNet.
Local Open Scope string_scope.
Local Open Scope Z_scope.
Open Scope sim_scope.

Section SysProc.
Context `{X : Xbt} `{Wd : World}.

(** ** clone *)

(** [xbt_dynar_foreach(ends, cpt, end) if (...) push(ends, clone_end)]: the pushed
    ends are visited too and, being of the clone, add nothing. *)
Fixpoint clone_ends (fuel : nat) (d : dynar pipe_end) (cpt : nat) (clone pid : Z)
    : M (dynar pipe_end) :=
  match xbt_dynar_get_cpy d cpt with
  | None => ret d
  | Some e =>
    match fuel with
    | O => fail Out_of_fuel
    | S fuel =>
      let! other := (if negb (pe_proc e =? clone)
                     then let! q := get_proc (pe_proc e) in ret (negb (pd_pid q =? pid))
                     else ret false) in
      clone_ends fuel (if other then xbt_dynar_push d (mk_end (pe_fd e) clone) else d)
        (S cpt) clone pid
    end
  end.

Definition clone_pipe (pi clone pid : Z) : M unit :=
  if pi =? NULL then fail Xbt_die else
  let! p := get_pipe pi in
  let! re := clone_ends (2 * xbt_dynar_length (read_end p)) (read_end p) 0 clone pid in
  let! we := clone_ends (2 * xbt_dynar_length (write_end p)) (write_end p) 0 clone pid in
  put_pipe pi (mk_pipe re we).

(** The descriptors of the parent, copied for the clone; a socket becomes a plain
    descriptor of type [FD_SOCKET]. *)
Fixpoint clone_entries (clone pid : Z) (items : list (string * Z)) : M unit :=
  match items with
  | [] => ret tt
  | (key, file_desc) :: items =>
    let! d := get_fd file_desc in
    let! clone_desc := alloc_fd (FdPlain (mk_fd (fd_type d) clone (fd_fd d) (fd_stream d)
                         (fd_pipe d) (fd_flags d) 0 0 0 0 0 0 0 0 0)) in
    process_descriptor_set_fd clone (key_int key) clone_desc ;;
    (if fd_type d =? FD_PIPE then clone_pipe (fd_pipe d) clone pid else ret tt) ;;
    clone_entries clone pid items
  end.

(** The event of the new process. *)
Definition clone_event (self : msg_self) (reg : reg_s) (proc : Z) : M unit :=
  let! p := get_proc proc in
  let! pid_clone := ptrace_get_pid_clone (pd_pid p) in
  proc_outside proc ;;
  let! clone := process_descriptor_new (pd_name p) ("cloned_" +:+ show_d pid_clone) pid_clone in
  let! p := get_proc proc in
  clone_entries clone pid_clone (xbt_dict_items (fd_map p)) ;;
  let reg := set_ret pid_clone reg in
  ptrace_restore_syscall (pd_pid p) SYS_clone (int_ret reg) ;;
  if_strace (print_clone_syscall reg proc) ;;
  modify (λ s, set_clone_number (s32 (clone_number s + 1)) s) ;;
  let! n := gets clone_number in
  let name := ("clone #" +:+ show_d n +:+ " of " +:+ MSG_process_get_name (self_process self)) in
  modify (λ s, set_w (MSG_process_create (st_w s) name clone (self_host self)) s) ;;
  proc_inside proc.

(** A stop is taken for a system call when its signal shares a bit with
    [SIGTRAP | 0x80]. *)
Definition syscall_clone (self : msg_self) (reg : reg_s) (proc : Z) : M unit :=
  let! p := get_proc proc in
  let! event := proc_event_exec proc in
  if has_flag (WSTOPSIG (pd_status p)) (Z.lor SIGTRAP 0x80) then
    let! e := proc_entering proc in
    if e then proc_inside proc else
    proc_outside proc ;;
    let! _ := ptrace_get_pid_clone (pd_pid p) in
    ret tt
  else if event then clone_event self reg proc
  else ret tt.

(** ** execve *)

(** [PTRACE_PEEKTEXT] without a test of its result: -1 when it fails. *)
Definition peek_text (pid addr : Z) : M Z :=
  gets (λ s, default (u64 (-1)) (ptrace_peekdata (st_w s) pid (u64 addr))).

(** The bytes before the first null one, and whether there is one. *)
Fixpoint until_nul (l : list Z) : list Z * bool :=
  match l with
  | [] => ([], false)
  | b :: l => if b =? 0 then ([], true) else let r := until_nul l in (b :: r.1, r.2)
  end.

(** [fuel] words of eight bytes fill a buffer of [size = 8 * fuel] bytes. *)
Fixpoint get_string (fuel : nat) (pid ptr : Z) : M (list Z) :=
  let! data := peek_text pid ptr in
  if data =? 0 then ret [] else
  match fuel with
  | O => ret []
  | S fuel =>
    let r := until_nul (le_encode 8 data) in
    if r.2 then ret r.1 else
    let! rest := get_string fuel pid (ptr + 8) in
    ret (r.1 ++ rest)%list
  end.

Definition get_bufstr (pid ptr : Z) : M string :=
  let! l := get_string 512 pid ptr in ret (c_string l).

(** The loop over [argv] ends at a null pointer. *)
Fixpoint print_argv (fuel : nat) (proc pid argv : Z) (first : bool) : M unit :=
  if u64 argv =? 0 then ret tt else
  match fuel with
  | O => fail Out_of_fuel
  | S fuel =>
    let! filename := peek_text pid argv in
    if filename =? 0 then fprint proc "]" else
    let! s := get_bufstr pid filename in
    fprint proc (if first then quote s else (", " +:+ quote s)) ;;
    print_argv fuel proc pid (argv + 8) false
  end.

Definition print_execve_syscall_pre (fuel : nat) (reg : reg_s) (proc : Z) : M unit :=
  let! p := get_proc proc in
  fprint proc (prefix p "execve(") ;;
  (if negb (arg reg 0 =? 0) then
     let! s := get_bufstr (pd_pid p) (arg reg 0) in
     fprint proc (quote s +:+ ", [")
   else ret tt) ;;
  print_argv fuel proc (pd_pid p) (arg reg 1) true ;;
  fprint proc ")".

(** The flags of every descriptor are read, for a warning. *)
Fixpoint visit_entries (items : list (string * Z)) : M unit :=
  match items with
  | [] => ret tt
  | (_, file_desc) :: items => let! _ := get_fd file_desc in visit_entries items
  end.

Definition syscall_execve (fuel : nat) (reg : reg_s) (proc : Z) : M unit :=
  let! event := proc_event_exec proc in
  if event then ret tt else
  let! e := proc_entering proc in
  if e then
    proc_inside proc ;;
    if_strace (print_execve_syscall_pre fuel reg proc)
  else
    proc_outside proc ;;
    if_strace (print_execve_syscall_post reg proc) ;;
    let! p := get_proc proc in
    visit_entries (xbt_dict_items (fd_map p)).

(** ** exit, getpid, tuxcall, brk *)

Definition syscall_exit (reg : reg_s) (proc : Z) : M Z :=
  let! e := proc_entering proc in
  if e then
    proc_inside proc ;;
    let! p := get_proc proc in
    ptrace_detach_process (pd_pid p) ;;
    ret PROCESS_DEAD
  else fail Throw_impossible.

(** The text is printed on stderr. *)
Definition syscall_getpid (reg : reg_s) (proc : Z) : M unit :=
  let! e := proc_entering proc in
  if e then proc_inside proc else proc_outside proc.

(** [MSG_get_clock] is the simulated time, as the bytes of a [double]. *)
Definition syscall_tuxcall_post (reg : reg_s) (proc : Z) : M unit :=
  proc_outside proc ;;
  let! p := get_proc proc in
  let! clock := gets (λ s, MSG_get_clock (st_w s)) in
  ptrace_poke (pd_pid p) (arg reg 1) clock 8 ;;
  if_strace (print_tuxcall_syscall reg proc).

Definition syscall_tuxcall (reg : reg_s) (proc : Z) : M unit :=
  let! e := proc_entering proc in
  if e then proc_inside proc else syscall_tuxcall_post reg proc.

Definition syscall_brk (reg : reg_s) (proc : Z) : M unit :=
  let! e := proc_entering proc in
  if e then proc_inside proc else
  proc_outside proc ;;
  if_strace
    ((if negb (arg reg 0 =? 0) then stprintf proc ("brk(" +:+ show_lx (arg reg 0) +:+ ")")
      else stprintf proc "brk(0)") ;;
     stprintf_tabto proc ;;
     stprintf proc ("= " +:+ show_lx (reg_ret reg)) ;;
     stprintf_eol proc).

End SysProc.
