(* ===== verification/LibTime.v ===== *)
(** src/src/lib_time.c, the library loaded into the traced programs in front of the clock
    functions of libc: the time they read with the system call 184 ([SYS_tuxcall]), split
    into the parts of each structure, and what the handler of this call stores.

    The library runs in the traced process. A [double] is a mantissa and a number of
    fractional bits; the clock of a simulation is finite, not negative and below 2^53
    seconds. [malloc] does not return [NULL], the pointers of the callers are valid. *)
From S2P Require Import Prelude Libc External State Monad Reference DataUtils ProcessDescriptor.
From S2P Require Import PtraceUtils Sockets Print Communication SocketOps SysNet SysProc.

(** ** Doubles *)

(** [mant / 2 ^ scale]. *)
Record double := mk_double { mant : Z; scale : Z }.
Definition double_ok (d : double) : Prop := 0 <= mant d < 2 ^ 53 ∧ 0 <= scale d <= 1074.

Definition round53 : Z → Z := round_to 53.

(** [floor(d)], which a [double] holds, [d - floor(d)], which is exact, the product with a
    whole number, and the conversion to an integer. *)
Definition floor (d : double) : Z := mant d / 2 ^ scale d.
Definition sub_floor (d : double) : double := mk_double (mant d mod 2 ^ scale d) (scale d).
Definition mul_int (d : double) (c : Z) : double := mk_double (round53 (mant d * c)) (scale d).
Definition trunc (d : double) : Z := mant d / 2 ^ scale d.

(** ** The library *)

Record timeb := mk_timeb { tb_time : Z; tb_millitm : Z; tb_timezone : Z; tb_dstflag : Z }.
Record timespec := mk_timespec { tv_sec : Z; tv_nsec : Z }.

(** A function returns, exits through [ABORT], or writes to a log file that could not be
    opened. *)
Inductive lib_result (A : Type) := Returns (a : A) | Exits (code : Z) | Crashes.
Arguments Returns {A} a.
Arguments Exits {A} code.
Arguments Crashes {A}.

Section Library.
(** [opens]: fopen("../file_log", "a") succeeds. [sec]: what the memory allocated for the
    result holds once the system call returned. *)
Context (opens : bool) (sec : double).

Definition LogWrap {A} (k : lib_result A) : lib_result A := if opens then k else Crashes.
Definition abort {A} : lib_result A := Exits (-1).

Definition ftime : lib_result timeb :=
  LogWrap (LogWrap (Returns
    (mk_timeb (floor sec) (u16 (trunc (mul_int (sub_floor sec) 1000))) 0 0))).

(** The second component is what is stored at [t]: the assignment is to the parameter. *)
Definition time (t : Z) : lib_result (Z * option Z) := LogWrap (LogWrap (Returns (trunc sec, None))).

Definition gettimeofday : lib_result Z := abort.
Definition localtime : lib_result Z := abort.
Definition mktime : lib_result Z := abort.
Definition clock_getres : lib_result Z := abort.
Definition clock_settime : lib_result Z := abort.

Definition CLOCK_REALTIME : Z := 0.

(** Here the time is the one [MSG_get_clock] gives in the process itself. *)
Definition clock_gettime (clk_id : Z) : lib_result timespec :=
  if clk_id =? CLOCK_REALTIME then
    LogWrap (LogWrap (Returns (mk_timespec (floor sec) (trunc (mul_int (sub_floor sec) (10 ^ 9))))))
  else abort.

End Library.

(** ** The parts of a time *)

Lemma round53_error n : 0 <= n → 2 ^ 53 * Z.abs (round53 n - n) <= n.
Proof.
  intros Hn. unfold round53, round_to. change (53 - 1) with 52. destruct (n <? 2 ^ 53) eqn:E; bool_to_prop; [rewrite Z.sub_diag; simpl; lia|].
  cbv zeta. set (s := Z.log2 n - 52).
  assert (53 <= Z.log2 n) as Hl by (apply Z.log2_le_pow2; lia).
  pose proof (Z.log2_spec n ltac:(lia)) as [H2 _].
  replace (Z.log2 n) with (53 + (s - 1)) in H2 by lia. rewrite Z.pow_add_r in H2 by lia.
  assert (2 ^ s = 2 * 2 ^ (s - 1)) as Hs by (rewrite <- Z.pow_succ_r by lia; f_equal; lia).
  assert (0 < 2 ^ (s - 1)) as Hp by (apply Z.pow_pos_nonneg; lia).
  pose proof (Z.div_mod n (2 ^ s) ltac:(lia)) as Hd. pose proof (Z.mod_pos_bound n (2 ^ s) ltac:(lia)) as Hm.
  set (q := n / 2 ^ s) in *. set (r := n mod 2 ^ s) in *.
  enough (Z.abs ((q + (if (2 ^ (s - 1) <? r) || ((r =? 2 ^ (s - 1)) && Z.odd q) then 1 else 0)) * 2 ^ s - n)
          <= 2 ^ (s - 1)) by nia.
  destruct (2 ^ (s - 1) <? r) eqn:E1; [cbn [orb]; bool_to_prop; lia|]. bool_to_prop.
  destruct (r =? 2 ^ (s - 1)) eqn:E2; cbn [orb andb]; bool_to_prop; destruct (Z.odd q); lia.
Qed.

(** A whole number of parts of a second, [c] to the second, that stands for a time: at most
    one part too small, apart from the rounding of the product. *)
Definition stands_for (sec : double) (c n : Z) : Prop :=
  2 ^ 53 * (n * 2 ^ scale sec - c * mant sec) <= c * 2 ^ scale sec ∧
  2 ^ 53 * (c * mant sec - n * 2 ^ scale sec) <= (2 ^ 53 + c) * 2 ^ scale sec.

Lemma split_time sec c :
  double_ok sec → 0 < c < 2 ^ 53 →
  let part := trunc (mul_int (sub_floor sec) c) in
  0 <= part < c ∧ stands_for sec c (c * floor sec + part).
Proof.
  intros [Hm Hk] Hc part.
  assert (0 < 2 ^ scale sec) as Hp by (apply Z.pow_pos_nonneg; lia).
  pose proof (Z.div_mod (mant sec) (2 ^ scale sec) ltac:(lia)) as Hd.
  pose proof (Z.mod_pos_bound (mant sec) (2 ^ scale sec) Hp) as Hf.
  set (f := mant sec mod 2 ^ scale sec) in *.
  pose proof (round53_error (f * c) ltac:(nia)) as He.
  assert (0 <= round53 (f * c)) as H0 by nia.
  assert (round53 (f * c) < c * 2 ^ scale sec) as Hlt.
  { destruct (decide (scale sec <= 53)) as [Hs|Hs].
    - assert (2 ^ scale sec <= 2 ^ 53) by (apply Z.pow_le_mono_r; lia). nia.
    - assert (2 ^ 54 <= 2 ^ scale sec) by (apply Z.pow_le_mono_r; lia).
      assert (f <= mant sec) by (apply Z.mod_le; lia). nia. }
  change part with (round53 (f * c) / 2 ^ scale sec).
  pose proof (Z.div_mod (round53 (f * c)) (2 ^ scale sec) ltac:(lia)) as Hq.
  pose proof (Z.mod_pos_bound (round53 (f * c)) (2 ^ scale sec) Hp) as Hr.
  split; [split; [by apply Z.div_pos|apply Z.div_lt_upper_bound; lia]|].
  unfold stands_for, floor.
  set (q := round53 (f * c) / 2 ^ scale sec) in *. set (t := mant sec / 2 ^ scale sec) in *.
  split; nia.
Qed.

Section LibTimeProperties.
Context `{X : Xbt} `{Wd : World} `{!TraceLaws Wd}.

(** C35: the clock functions of the library split a time correctly. For every clock below
    2^53 seconds, the milliseconds of [ftime] are between 0 and 999 and the nanoseconds of
    [clock_gettime] between 0 and 999999999, also when the product of the fraction of the
    second is rounded up; the whole seconds and the parts together stand for the time, cut
    to a whole number of parts. *)
Theorem time_parts sec :
  double_ok sec →
  ∃ tb ts, ftime true sec = Returns tb ∧ clock_gettime true sec CLOCK_REALTIME = Returns ts ∧
    0 <= tb_millitm tb <= 999 ∧ stands_for sec 1000 (1000 * tb_time tb + tb_millitm tb) ∧
    0 <= tv_nsec ts <= 999999999 ∧ stands_for sec (10 ^ 9) (10 ^ 9 * tv_sec ts + tv_nsec ts).
Proof.
  intros Hs. destruct (split_time sec 1000 Hs ltac:(lia)) as [A1 A2].
  destruct (split_time sec (10 ^ 9) Hs ltac:(lia)) as [B1 B2].
  eexists _, _. split; [reflexivity|]. split; [reflexivity|].
  cbn [tb_millitm tb_time tv_sec tv_nsec]. rewrite (uwrap_small 16) by (unfold is_u; lia).
  split; [lia|]. split; [done|]. split; [lia|done].
Qed.

(** C36: the time never reaches the library. [syscall(SYS_tuxcall, clock)] passes the place
    of the result as the first argument of the call; at its exit [syscall_tuxcall] stores
    the simulated time at the second one, a register the library did not set. When these
    eight bytes are mapped they are overwritten, and the eight bytes of the library, like
    every other byte, keep what they held. *)
Theorem time_never_stored s proc p reg :
  st_proc s !! proc = Some p → in_syscall p ≠ 0 → strace_option s = 0 →
  length (MSG_get_clock (st_w s)) = 8%nat → Forall (is_u 8) (MSG_get_clock (st_w s)) →
  is_Some (mem_bytes (st_w s) (pd_pid p) (arg reg 1) 8) →
  arg reg 0 + 8 <= arg reg 1 ∨ arg reg 1 + 8 <= arg reg 0 →
  ∃ s', syscall_tuxcall reg proc s = Done tt s' ∧
    mem_bytes (st_w s') (pd_pid p) (arg reg 1) 8 = Some (MSG_get_clock (st_w s)) ∧
    mem_bytes (st_w s') (pd_pid p) (arg reg 0) 8 = mem_bytes (st_w s) (pd_pid p) (arg reg 0) 8 ∧
    same_but (st_w s) (st_w s') (pd_pid p) (arg reg 1) 8.
Proof.
  intros Hp Hi Ho Hl Hb Hm Hd. set (s1 := set_proc (<[proc := set_in_syscall 0 p]> (st_proc s)) s).
  destruct (ptrace_poke_eval s1 (pd_pid p) (arg reg 1) (MSG_get_clock (st_w s)) 8) as (c & w & bs & He & Hw & Ht & F);
    [lia|done|exact Hm|].
  change (Z.to_nat (round8 8)) with 8%nat in Hw. change (Z.to_nat 8) with 8%nat in Ht.
  rewrite !take_ge in Ht by (rewrite ?(mem_bytes_length _ _ _ _ _ Hw); lia). subst bs.
  exists (set_cnt c (set_w w s1)). split; [|split; [exact Hw|split; [|exact F]]].
  - unfold syscall_tuxcall, syscall_tuxcall_post. ev. rewrite (proj2 (Z.eqb_neq _ _) Hi).
    eval_with (proc_outside_eval s proc p Hp).
    eval_with (load_eval st_proc proc (set_in_syscall 0 p) s1 (lookup_insert_eq _ _ _)).
    eapply bind_eval; [apply gets_eval|]. cbv beta. eval_with He.
    unfold if_strace. eapply bind_eval; [apply gets_eval|]. cbv beta. unfold s1. st_cbn. by rewrite Ho.
  - exact (same_but_mapped _ _ _ _ _ _ 8 F Hd).
Qed.

End LibTimeProperties.

(** The greatest time below one second: both products are rounded. *)
Lemma time_parts_witness :
  let sec := mk_double (2 ^ 53 - 1) 53 in
  ∃ tb ts, ftime true sec = Returns tb ∧ clock_gettime true sec CLOCK_REALTIME = Returns ts ∧
    0 <= tb_millitm tb <= 999 ∧ stands_for sec 1000 (1000 * tb_time tb + tb_millitm tb) ∧
    0 <= tv_nsec ts <= 999999999 ∧ stands_for sec (10 ^ 9) (10 ^ 9 * tv_sec ts + tv_nsec ts).
Proof. apply (time_parts (mk_double (2 ^ 53 - 1) 53)). split; cbn; lia. Defined.

(** Process 7 at the exit of the call; the library asked for the time at 4096 and left 5000
    in the second argument. *)
Definition asking : process_descriptor (Wd := ref_world) :=
  mk_proc (Wd := ref_world) 7 "alice" (Some "alice"%string) xbt_dict_new 0 (-1) None 0.
Definition asking_example : st :=
  set_proc {[10 := asking]} (ref_state (toy_world regs_zero (λ a, a))).

Lemma time_never_stored_witness :
  ∃ s', syscall_tuxcall (mk_reg SYS_tuxcall 0 [4096; 5000; 0; 0; 0; 0]) 10 asking_example = Done tt s' ∧
    mem_bytes (st_w s') 7 5000 8 = Some (replicate 8 0) ∧
    mem_bytes (st_w s') 7 4096 8 = mem_bytes (st_w asking_example) 7 4096 8 ∧
    same_but (st_w asking_example) (st_w s') 7 5000 8.
Proof.
  apply (time_never_stored asking_example 10 asking (mk_reg SYS_tuxcall 0 [4096; 5000; 0; 0; 0; 0])).
  - exact (lookup_singleton_eq 10 asking).
  - done.
  - done.
  - done.
  - apply (bool_decide_unpack _). by vm_compute.
  - vm_compute. by eexists.
  - left. cbn. lia.
Defined.
