(* ===== verification/Benchmark.v ===== *)
(** [benchmark_matrix_product] of src/src/data_utils.c: the time of a product of two random
    matrices of [float], measured with the timers of cputimer.c, from which [main] takes
    the power of the machine.

    The entries are whole numbers, so that an operation on [float] is the one on the
    integers, rounded to 24 bits; only the division at the end, with the operations of
    the Standard Library on floats, has another result. *)
From Stdlib Require Import SpecFloat.
From S2P Require Import Prelude Libc State Cputimer.

(** ** Arithmetic *)

Definition fl_add (x y : Z) : Z := round_to 24 (x + y).
Definition fl_mul (x y : Z) : Z := round_to 24 (x * y).

(** [(float) n], [(double) n] for whole numbers, and the conversions between the two. *)
Definition float_of_Z (n : Z) : spec_float := binary_normalize 24 128 n 0 (n <? 0).
Definition double_of_Z (n : Z) : spec_float := binary_normalize 53 1024 n 0 (n <? 0).
Definition convert (prec emax : Z) (x : spec_float) : spec_float :=
  match x with
  | S754_finite s m e => binary_normalize prec emax (cond_Zopp s (Zpos m)) e s
  | _ => x
  end.
Definition double_of_float : spec_float → spec_float := convert 53 1024.
Definition float_of_double : spec_float → spec_float := convert 24 128.

(** ** Matrices *)

(** [xbt_new0] fills them with 0, which stands for [0.0f]. *)
Definition matrix : Type := gmap (nat * nat) Z.

(** [for (i = 0; i < n; ++i)]. *)
Fixpoint for_up {A} (n : nat) (f : nat → A → A) (a : A) : A :=
  match n with
  | O => a
  | S n => f n (for_up n f a)
  end.

(** The values [rand] returns are those of [rnd], in order; the first was used. *)
Definition fill_entry (rnd : nat → Z) (i j : nat) (s : nat * (matrix * matrix * matrix))
    : nat * (matrix * matrix * matrix) :=
  let '(k, (m1, m2, mr)) := s in
  (3 + k, (<[(i, j) := Z.rem (rnd k) 20]> m1, <[(i, j) := Z.rem (rnd (1 + k)) 20]> m2,
           <[(i, j) := Z.rem (rnd (2 + k)) 20]> mr))%nat.
Definition fill_matrices (rnd : nat → Z) (n : nat) : matrix * matrix * matrix :=
  (for_up n (λ i, for_up n (fill_entry rnd i)) (1%nat, (∅, ∅, ∅))).2.

(** The assignment of the innermost loop. *)
Definition product_step (m1 m2 : matrix) (j_result i_result i : nat) (mr : matrix) : matrix :=
  <[(j_result, i_result) :=
      fl_add (mr !!! (i_result, j_result)) (fl_mul (m1 !!! (i_result, i)) (m2 !!! (i, j_result)))]> mr.
Definition product_loop (m1 m2 : matrix) (n : nat) (mr : matrix) : matrix :=
  for_up n (λ j_result, for_up n (λ i_result, for_up n (product_step m1 m2 j_result i_result))) mr.

Definition matrixSize (rnd : nat → Z) : nat := Z.to_nat (Z.rem (rnd O) 20 + 500).

Section Benchmark.
Context `{Nl : Netlink}.

(** [times] is what the array of the stack holds at first; the result is what is stored in
    [msec_per_flop]. The matrices are not freed. *)
Definition benchmark_matrix_product (fuel : nat) (rnd : nat → Z) (times : list Z) : net spec_float :=
  let n := matrixSize rnd in
  let '(m1, m2, mr) := fill_matrices rnd n in
  nbind (nop (λ w, (nl_getpid w, w))) (λ pid,
  nbind (cputimer_init fuel cputimer_new) (λ timer,
  nbind (cputimer_get fuel pid times timer) (λ times,
  let initialTime := s64 (nth 1 times 0 + nth 2 times 0) in
  let mr := product_loop m1 m2 n mr in
  nbind (cputimer_get fuel pid times timer) (λ times,
  let result := s64 (s64 (nth 1 times 0 + nth 2 times 0) - initialTime) in
  nbind (cputimer_exit timer) (λ _,
  nret (float_of_double (SFdiv 53 1024 (double_of_float (float_of_Z result))
    (double_of_Z (2 * Z.of_nat n * Z.of_nat n * Z.of_nat n))))))))).

End Benchmark.

(** ** What the loops compute *)

Lemma fl_exact z : 0 <= z < 2 ^ 24 → round_to 24 z = z.
Proof. intros H. unfold round_to. by rewrite (proj2 (Z.ltb_lt z _)) by lia. Qed.

Lemma entry_eq (m : matrix) p v : <[p := v]> m !!! p = v.
Proof. apply lookup_total_insert_eq. Qed.
Lemma entry_ne (m : matrix) p q v : p ≠ q → <[p := v]> m !!! q = m !!! q.
Proof. apply lookup_total_insert_ne. Qed.

Lemma entry_twice (m : matrix) p v w : <[p := v]> (<[p := w]> m) = <[p := v]> m.
Proof. apply insert_insert_eq. Qed.

(** An invariant of a loop that counts. *)
Lemma for_up_ind {A} (P : nat → A → Prop) n f a :
  P O a → (∀ k x, (k < n)%nat → P k x → P (S k) (f k x)) → P n (for_up n f a).
Proof.
  intros H0 HS. revert HS. induction n as [|n IH]; intros HS; [done|]. cbn. apply HS; [lia|].
  apply IH. intros k x Hk. apply HS. lia.
Qed.

(** The sum of [f k] for [k < n]. *)
Fixpoint sum_up (n : nat) (f : nat → Z) : Z :=
  match n with O => 0 | S n => sum_up n f + f n end.

Lemma sum_up_bound n f b : 0 <= b → (∀ k, (k < n)%nat → 0 <= f k <= b) → 0 <= sum_up n f <= Z.of_nat n * b.
Proof.
  intros Hb Hf. induction n as [|n IH]; [cbn; lia|]. cbn [sum_up].
  pose proof (IH ltac:(intros; apply Hf; lia)). pose proof (Hf n ltac:(lia)). nia.
Qed.

(** The indices of a matrix, the entries of one filled by [rand() % 20]. *)
Definition small (n : nat) (m : matrix) : Prop := ∀ i j, (i < n)%nat → (j < n)%nat → 0 <= m !!! (i, j) <= 19.

Section Product.
Context (m1 m2 mr : matrix) (n : nat).
Hypothesis H1 : small n m1.
Hypothesis H2 : small n m2.
Hypothesis H3 : small n mr.
Hypothesis Hn : (0 < n <= 600)%nat.

Definition prod (i k j : nat) : Z := m1 !!! (i, k) * m2 !!! (k, j).
(** The last term of a product. *)
Definition last (i j : nat) : Z := prod i (n - 1) j.

(** The entry at row [j] and column [i] in the end: on the diagonal the sum of the terms of
    the product; elsewhere only the last one is added, above the diagonal to the entry
    that was below it, below the diagonal to the one above it as it was left. *)
Definition final (j i : nat) : Z :=
  if Nat.eqb j i then mr !!! (j, j) + sum_up n (λ k, prod j k j)
  else if Nat.ltb j i then mr !!! (i, j) + last i j
  else mr !!! (j, i) + last j i + last i j.

Lemma prod_bound i k j : (i < n)%nat → (k < n)%nat → (j < n)%nat → 0 <= prod i k j <= 361.
Proof. intros Hi Hk Hj. pose proof (H1 i k Hi Hk). pose proof (H2 k j Hk Hj). unfold prod. nia. Qed.

Lemma step_entry j i k m :
  (j < n)%nat → (i < n)%nat → (k < n)%nat → 0 <= m !!! (i, j) <= 300000 →
  product_step m1 m2 j i k m = <[(j, i) := m !!! (i, j) + prod i k j]> m.
Proof.
  intros Hj Hi Hk Hm. pose proof (prod_bound i k j Hi Hk Hj) as Hp. unfold product_step, fl_mul, fl_add.
  fold (prod i k j). by rewrite (fl_exact (prod i k j)), fl_exact by lia.
Qed.

(** The innermost loop. *)
Lemma inner_loop j i m :
  (j < n)%nat → (i < n)%nat → 0 <= m !!! (i, j) <= 1000 →
  ∃ v, for_up n (product_step m1 m2 j i) m = <[(j, i) := v]> m ∧
    v = m !!! (i, j) + (if Nat.eqb j i then sum_up n (λ k, prod j k j) else last i j).
Proof.
  intros Hj Hi Hm. destruct (Nat.eqb_spec j i) as [<-|Hne].
  - exists (m !!! (j, j) + sum_up n (λ k, prod j k j)). split; [|done].
    assert (∀ k, (k < n)%nat → for_up (S k) (product_step m1 m2 j j) m =
      <[(j, j) := m !!! (j, j) + sum_up (S k) (λ k, prod j k j)]> m) as H.
    { induction k as [|k IH]; intros Hk.
      - cbn [for_up]. rewrite step_entry by lia. cbn. done.
      - cbn [for_up]. cbn [for_up] in IH. rewrite IH by lia.
        pose proof (sum_up_bound (S k) (λ k, prod j k j) 361 ltac:(lia) ltac:(intros; apply prod_bound; lia)).
        rewrite step_entry; rewrite ?entry_eq; [|lia..].
        rewrite entry_twice. f_equal. cbn [sum_up]. lia. }
    replace n with (S (n - 1)) by lia. by rewrite H by lia.
  - exists (m !!! (i, j) + last i j). split; [|done].
    assert (∀ k, (k < n)%nat → for_up (S k) (product_step m1 m2 j i) m =
      <[(j, i) := m !!! (i, j) + prod i k j]> m) as H.
    { induction k as [|k IH]; intros Hk.
      - cbn [for_up]. by rewrite step_entry by lia.
      - cbn [for_up]. cbn [for_up] in IH. rewrite IH by lia.
        assert ((j, i) ≠ (i, j)) as Hd by congruence.
        rewrite step_entry; rewrite ?(entry_ne _ _ _ _ Hd); [|lia..].
        by rewrite entry_twice. }
    unfold last. replace n with (S (n - 1)) at 1 by lia. by rewrite H by lia.
Qed.

Lemma last_bound i j : (i < n)%nat → (j < n)%nat → 0 <= last i j <= 361.
Proof. intros Hi Hj. apply prod_bound; lia. Qed.

(** The entries in the rows above [j] and, in the row [j], left of [i], are the last ones. *)
Definition done_before (j i : nat) (m : matrix) : Prop := ∀ a b, (a < n)%nat → (b < n)%nat →
  m !!! (a, b) = if Nat.ltb a j || (Nat.eqb a j && Nat.ltb b i) then final a b else mr !!! (a, b).

Ltac nat_cases := repeat match goal with
  | |- context [Nat.eqb ?x ?y] => destruct (Nat.eqb_spec x y)
  | |- context [Nat.ltb ?x ?y] => destruct (Nat.ltb_spec x y)
  end; try lia; cbn [orb andb]; cbv iota.

Lemma done_step j i m :
  (j < n)%nat → (i < n)%nat → done_before j i m →
  done_before j (S i) (for_up n (product_step m1 m2 j i) m).
Proof.
  intros Hj Hi Hm. assert (m !!! (i, j) = if Nat.ltb i j then mr !!! (j, i) + last j i else mr !!! (i, j)) as Hr.
  { rewrite Hm by done. unfold final. nat_cases; try done; congruence. }
  destruct (inner_loop j i m Hj Hi) as (v & -> & Hv).
  { rewrite Hr. pose proof (last_bound j i Hj Hi). pose proof (H3 i j Hi Hj). pose proof (H3 j i Hj Hi).
    destruct (Nat.ltb i j); lia. }
  assert (v = final j i) as ->.
  { rewrite Hv, Hr. unfold final. nat_cases; subst; lia. }
  intros a b Ha Hb. destruct (decide ((j, i) = (a, b))) as [[= <- <-]|Hne].
  - rewrite entry_eq. nat_cases; done.
  - rewrite entry_ne, Hm by done. nat_cases; try done. subst. destruct Hne. f_equal. lia.
Qed.

Lemma product_loop_entries j i :
  (j < n)%nat → (i < n)%nat → product_loop m1 m2 n mr !!! (j, i) = final j i.
Proof.
  intros Hj Hi. assert (done_before n 0 (product_loop m1 m2 n mr)) as H.
  { apply (for_up_ind (λ a m, done_before a 0 m)).
    - intros a b Ha Hb. nat_cases; done.
    - intros k m Hk Hm. assert (done_before k n (for_up n (λ i_result, for_up n (product_step m1 m2 k i_result)) m)) as H.
      { apply (for_up_ind (λ b m, done_before k b m)); [done|]. intros b x Hb. by apply done_step. }
      intros a b Ha Hb. rewrite H by done. nat_cases; done. }
  rewrite H by done. nat_cases; done.
Qed.

End Product.

Definition twenty (m : matrix) : Prop := ∀ p, 0 <= m !!! p <= 19.

Lemma twenty_insert m p v : 0 <= v → twenty m → twenty (<[p := Z.rem v 20]> m).
Proof.
  intros Hv Hm q. destruct (decide (p = q)) as [<-|Hne]; [|by rewrite entry_ne].
  rewrite entry_eq, Z.rem_mod_nonneg by lia. pose proof (Z.mod_pos_bound v 20). lia.
Qed.

Lemma fill_matrices_small rnd n m1 m2 mr :
  (∀ k, 0 <= rnd k) → fill_matrices rnd n = (m1, m2, mr) → twenty m1 ∧ twenty m2 ∧ twenty mr.
Proof.
  intros Hr. set (P := λ s : nat * (matrix * matrix * matrix), twenty s.2.1.1 ∧ twenty s.2.1.2 ∧ twenty s.2.2).
  assert (P (for_up n (λ i, for_up n (fill_entry rnd i)) (1%nat, (∅, ∅, ∅)))) as H.
  { assert (twenty ∅) as H0 by (intros p; unfold matrix; rewrite lookup_total_empty; cbn; lia).
    apply (for_up_ind (λ _, P)); [done|]. intros i x _ Hx. apply (for_up_ind (λ _, P)); [done|].
    intros j [k [[a b] c]] _ (Ha & Hb & Hc). cbn in *. split_and!; by apply twenty_insert. }
  unfold fill_matrices. intros E. unfold P in H. by rewrite E in H.
Qed.

(** C34: The benchmark does not multiply matrices. Whatever [rand] returns, the size is between
    500 and 519 and the loops run without rounding (all values are whole numbers below
    2^24), but the indices of the sum are swapped: only the entries of the diagonal
    gather the terms of the product, and to any other one the last term alone is added
    (twice, with the two indices exchanged, below the diagonal). *)
Theorem benchmark_entries rnd m1 m2 mr j i :
  let n := matrixSize rnd in
  (∀ k, 0 <= rnd k) → fill_matrices rnd n = (m1, m2, mr) → (j < n)%nat → (i < n)%nat →
  (500 <= n <= 519)%nat ∧ product_loop m1 m2 n mr !!! (j, i) =
    if Nat.eqb j i then mr !!! (j, j) + sum_up n (λ k, m1 !!! (j, k) * m2 !!! (k, j))
    else if Nat.ltb j i then mr !!! (i, j) + m1 !!! (i, (n - 1)%nat) * m2 !!! ((n - 1)%nat, j)
    else mr !!! (j, i) + m1 !!! (j, (n - 1)%nat) * m2 !!! ((n - 1)%nat, i) +
      m1 !!! (i, (n - 1)%nat) * m2 !!! ((n - 1)%nat, j).
Proof.
  intros n Hr Hf Hj Hi. destruct (fill_matrices_small _ _ _ _ _ Hr Hf) as (S1 & S2 & S3).
  assert (500 <= n <= 519)%nat as Hn.
  { unfold n, matrixSize. pose proof (Hr O). rewrite Z.rem_mod_nonneg by lia.
    pose proof (Z.mod_pos_bound (rnd O) 20). lia. }
  split; [done|]. rewrite product_loop_entries; [reflexivity|intros ????; apply S1|intros ????; apply S2
    |intros ????; apply S3|lia|done|done].
Qed.

(** ** An example *)

Lemma benchmark_entries_witness :
  let rnd := λ k : nat, Z.of_nat k in let n := matrixSize rnd in
  let '(m1, m2, mr) := fill_matrices rnd n in
  n = 500%nat ∧ product_loop m1 m2 n mr !!! (0, 1)%nat =
    mr !!! (1, 0)%nat + m1 !!! (1, 499)%nat * m2 !!! (499, 0)%nat.
Proof.
  cbv zeta. destruct (fill_matrices _ _) as [[m1 m2] mr] eqn:E.
  split; [reflexivity|].
  exact (proj2 (benchmark_entries _ m1 m2 mr 0 1 (λ k, Nat2Z.is_nonneg k) E ltac:(apply Nat.ltb_lt; reflexivity)
    ltac:(apply Nat.ltb_lt; reflexivity))).
Defined.
