(* ===== verification/PrintFlags.v ===== *)
(** src/src/print_syscall.c, last part: flags printed by name ([print_flags], with its
    two tables), and the printers that no compiled handler reaches: open (its call is
    commented out), select (after a THROW_UNIMPLEMENTED), send and recv (the cases of
    32-bit machines). *)
From S2P Require Import Prelude Libc External State Monad Reference DataUtils ProcessDescriptor.
From S2P Require Import PtraceUtils Sockets Print SysProc.
Local Open Scope string_scope.
Local Open Scope Z_scope.
Open Scope sim_scope.

Definition flags_open : list (Z * string) :=
  [(2, "O_RDWR"); (0, "O_RDONLY"); (1, "O_WRONLY"); (2048, "O_NONBLOCK"); (1024, "O_APPEND");
   (64, "O_CREAT"); (512, "O_TRUNC"); (128, "O_EXCL"); (256, "O_NOCTTY"); (1052672, "O_SYNC");
   (4096, "O_DSYNC"); (1052672, "O_RSYNC"); (2048, "O_NDELAY"); (524288, "O_CLOEXEC")].

Definition errno_values : list (Z * string) :=
  [(1, "EPERM"); (2, "ENOENT"); (3, "ESRCH"); (4, "EINTR"); (5, "EIO"); (6, "ENXIO");
   (7, "E2BIG"); (8, "ENOEXEC"); (9, "EBADF"); (10, "ECHILD"); (11, "EAGAIN"); (12, "ENOMEM");
   (13, "EACCES"); (14, "EFAULT"); (15, "ENOTBLK"); (16, "EBUSY"); (17, "EEXIST"); (18, "EXDEV");
   (19, "ENODEV"); (20, "ENOTDIR"); (21, "EISDIR"); (22, "EINVAL"); (23, "ENFILE");
   (24, "EMFILE"); (25, "ENOTTY"); (26, "ETXTBSY"); (27, "EFBIG"); (28, "ENOSPC");
   (29, "ESPIPE"); (30, "EROFS"); (31, "EMLINK"); (32, "EPIPE"); (35, "EDEADLK");
   (36, "ENAMETOOLONG"); (37, "ENOLCK"); (38, "ENOSYS"); (39, "ENOTEMPTY"); (40, "ELOOP");
   (42, "ENOMSG"); (43, "EIDRM"); (44, "ECHRNG"); (45, "EL2NSYNC"); (46, "EL3HLT");
   (47, "EL3RST"); (48, "ELNRNG"); (49, "EUNATCH"); (50, "ENOCSI"); (51, "EL2HLT");
   (52, "EBADE"); (53, "EBADR"); (54, "EXFULL"); (55, "ENOANO"); (56, "EBADRQC");
   (57, "EBADSLT"); (59, "EBFONT"); (60, "ENOSTR"); (61, "ENODATA"); (62, "ETIME");
   (63, "ENOSR"); (64, "ENONET"); (65, "ENOPKG"); (66, "EREMOTE"); (67, "ENOLINK"); (68, "EADV");
   (69, "ESRMNT"); (70, "ECOMM"); (71, "EPROTO"); (72, "EMULTIHOP"); (73, "EDOTDOT");
   (74, "EBADMSG"); (75, "EOVERFLOW"); (76, "ENOTUNIQ"); (77, "EBADFD"); (78, "EREMCHG");
   (79, "ELIBACC"); (80, "ELIBBAD"); (81, "ELIBSCN"); (82, "ELIBMAX"); (83, "ELIBEXEC");
   (84, "EILSEQ"); (85, "ERESTART"); (86, "ESTRPIPE"); (87, "EUSERS"); (88, "ENOTSOCK");
   (89, "EDESTADDRREQ"); (90, "EMSGSIZE"); (91, "EPROTOTYPE"); (92, "ENOPROTOOPT");
   (93, "EPROTONOSUPPORT"); (94, "ESOCKTNOSUPPORT"); (95, "EOPNOTSUPP"); (96, "EPFNOSUPPORT");
   (97, "EAFNOSUPPORT"); (98, "EADDRINUSE"); (99, "EADDRNOTAVAIL"); (100, "ENETDOWN");
   (101, "ENETUNREACH"); (102, "ENETRESET"); (103, "ECONNABORTED"); (104, "ECONNRESET");
   (105, "ENOBUFS"); (106, "EISCONN"); (107, "ENOTCONN"); (108, "ESHUTDOWN");
   (109, "ETOOMANYREFS"); (110, "ETIMEDOUT"); (111, "ECONNREFUSED"); (112, "EHOSTDOWN");
   (113, "EHOSTUNREACH"); (114, "EALREADY"); (115, "EINPROGRESS"); (116, "ESTALE");
   (117, "EUCLEAN"); (118, "ENOTNAM"); (119, "ENAVAIL"); (120, "EISNAM"); (121, "EREMOTEIO");
   (122, "EDQUOT"); (123, "ENOMEDIUM"); (124, "EMEDIUMTYPE"); (125, "ECANCELED");
   (126, "ENOKEY"); (127, "EKEYEXPIRED"); (128, "EKEYREVOKED"); (129, "EKEYREJECTED");
   (130, "EOWNERDEAD"); (131, "ENOTRECOVERABLE"); (132, "ERFKILL"); (133, "EHWPOISON")].

(** [%#x]. *)
Definition show_x (z : Z) : string := show_lx (u32 z).

Section PrintFlags.
Context `{X : Xbt} `{Wd : World}.

(** The loop of [print_flags]: whether nothing was printed, and the flags left. *)
Fixpoint print_flags_loop (proc : Z) (first : bool) (flags : Z) (names : list (Z * string))
    : M (bool * Z) :=
  match names with
  | [] => ret (first, flags)
  | (val, name) :: names =>
    if Z.land val flags =? val then
      (if negb first then fprint proc "|" else ret tt) ;;
      fprint proc name ;;
      print_flags_loop proc false (Z.land flags (Z.lnot val)) names
    else print_flags_loop proc first flags names
  end.

Definition print_flags (proc flags : Z) (names : list (Z * string)) : M unit :=
  let! r := print_flags_loop proc true flags names in
  if negb (r.2 =? 0) then
    (if negb r.1 then fprint proc "|" else ret tt) ;;
    fprint proc (show_x r.2)
  else ret tt.

(** The text of an error comes from libc. *)
Definition print_open_syscall (strerror : Z → string) (reg : reg_s) (proc : Z) : M unit :=
  let! p := get_proc proc in
  let ptr_filename := arg reg 0 in
  fprint proc (prefix p "open(") ;;
  (if negb (ptr_filename =? 0) then
     let! bufstr := get_bufstr (pd_pid p) ptr_filename in
     fprint proc (quote bufstr)
   else ret tt) ;;
  (if negb (s32 (arg reg 1) =? 0) then
     fprint proc ", " ;; print_flags proc (s32 (arg reg 1)) flags_open
   else ret tt) ;;
  let ret_val := s32 (reg_ret reg) in
  if negb (ret_val =? 0) then
    fprint proc ") = -1 " ;;
    print_flags proc (s32 (- ret_val)) errno_values ;;
    fprint proc (" (" +:+ strerror (s32 (- ret_val)) +:+ ")" +:+ nl)
  else fprint proc (show_ret reg).

(** The flags printed are those of the descriptor number, [reg->arg[0]]. *)
Definition print_send_syscall (reg : reg_s) (proc : Z) (data : list Z) : M unit :=
  let! p := get_proc proc in
  fprint proc (prefix p "sendto(") ;;
  (if u64 (arg reg 2) <? 200 then
     fprint proc (show_d (arg reg 0) +:+ ", " +:+
       quote (c_string (take (Z.to_nat (s64 (reg_ret reg))) data)) +:+ " , " +:+
       show_lu (arg reg 2) +:+ ", ")
   else
     fprint proc (show_d (arg reg 0) +:+ ", " +:+ quote (c_string (take 199 data) +:+ "...") +:+
       " , " +:+ show_lu (arg reg 2) +:+ ", ")) ;;
  (if 0 <? s32 (arg reg 3) then print_flags_send proc (s32 (arg reg 0)) else fprint proc "0, ") ;;
  fprint proc (show_ssize_ret reg).

Definition print_recv_syscall (reg : reg_s) (proc : Z) (data : list Z) : M unit :=
  let! p := get_proc proc in
  fprint proc (prefix p "recvfrom(") ;;
  let n := s64 (reg_ret reg) in
  (if negb (n =? 0) then
     (if n <=? 500 then
        fprint proc (show_d (arg reg 0) +:+ ", " +:+ quote (c_string (take (Z.to_nat n) data)) +:+
          " , " +:+ show_lu (arg reg 2) +:+ ", ")
      else
        fprint proc (show_d (arg reg 0) +:+ ", " +:+ quote (c_string (take 499 data) +:+ "...") +:+
          " , " +:+ show_lu (arg reg 2) +:+ ", ")) ;;
     (if 0 <? s32 (arg reg 3) then print_flags_send proc (s32 (arg reg 3)) else fprint proc "0, ")
   else fprint proc (show_d (arg reg 0) +:+ ", " +:+ quote "" +:+ " , " +:+
          show_lu (arg reg 2) +:+ ", ")) ;;
  fprint proc (show_ssize_ret reg).

(** ** [select] *)

Definition FD_SETSIZE : nat := 1024.
Definition SELECT_FDRD_SET : Z := 0x01.
Definition SELECT_FDWR_SET : Z := 0x02.
Definition SELECT_FDEX_SET : Z := 0x04.

(** [FD_ISSET], on the 128 bytes of an [fd_set]. *)
Definition fd_isset (i : Z) (set : list Z) : bool := Z.testbit (le_decode set) i.

Definition disp_selectfd (proc : Z) (fd : list Z) : M unit :=
  fprint proc "[ " ;;
  fprint proc (foldr (λ i acc, if fd_isset (Z.of_nat i) fd
                               then (show_d (Z.of_nat i) +:+ " " +:+ acc) else acc) "" (seq 0 FD_SETSIZE)) ;;
  fprint proc "]".

(** [time] is an address of the tracee: its fields cannot be read. *)
Definition print_select_syscall (reg : reg_s) (proc fd_state : Z) : M unit :=
  let! p := get_proc proc in
  fprint proc (prefix p ("select(" +:+ show_d (arg reg 0) +:+ ",")) ;;
  let! fd_read := ptrace_cpy (pd_pid p) (arg reg 1) 128 in
  let! fd_write := ptrace_cpy (pd_pid p) (arg reg 2) 128 in
  let! fd_exec := ptrace_cpy (pd_pid p) (arg reg 3) 128 in
  (if has_flag fd_state SELECT_FDRD_SET then disp_selectfd proc fd_read else fprint proc "NULL") ;;
  fprint proc ", " ;;
  (if has_flag fd_state SELECT_FDWR_SET then disp_selectfd proc fd_write else fprint proc "NULL") ;;
  fprint proc ", " ;;
  (if has_flag fd_state SELECT_FDEX_SET then disp_selectfd proc fd_exec else fprint proc "NULL") ;;
  fprint proc ", " ;;
  fail Invalid_pointer.

(** ** Flags by name *)

(** The entries of a table that are printed, and what is left of the flags. *)
Fixpoint picked (flags : Z) (names : list (Z * string)) : list (Z * string) :=
  match names with
  | [] => []
  | e :: names =>
    if Z.land e.1 flags =? e.1 then e :: picked (Z.land flags (Z.lnot e.1)) names else picked flags names
  end.
Definition rest (flags : Z) (names : list (Z * string)) : Z :=
  foldl (λ f e, if Z.land e.1 f =? e.1 then Z.land f (Z.lnot e.1) else f) flags names.

Lemma picked_sublist names : ∀ flags, picked flags names `sublist_of` names.
Proof.
  induction names as [|e l IH]; intros f; simpl; [done|].
  destruct (_ =? _); [by apply sublist_skip|by apply sublist_cons].
Qed.

(** Bits that are set in [v] and in [f]. *)
Lemma land_sub v f n : Z.land v f = v → Z.testbit v n = true → Z.testbit f n = true.
Proof. intros E H. rewrite <- E, Z.land_spec in H. by apply andb_true_iff in H as [_ ?]. Qed.

Lemma picked_lor names : ∀ flags, foldr Z.lor (rest flags names) (fst <$> picked flags names) = flags.
Proof.
  induction names as [|e l IH]; intros f; [done|]. cbn [picked rest foldl].
  destruct (Z.eqb_spec (Z.land e.1 f) e.1) as [E|E]; [|apply IH]. cbn [fmap list_fmap foldr].
  change (foldl _ ?x l) with (rest x l). rewrite IH. apply Z.bits_inj'. intros n Hn.
  rewrite Z.lor_spec, Z.land_spec, Z.lnot_spec by done. pose proof (land_sub _ _ n E).
  destruct (Z.testbit e.1 n), (Z.testbit f n); naive_solver.
Qed.

Lemma rest_sub names : ∀ flags n, Z.testbit (rest flags names) n = true → Z.testbit flags n = true.
Proof.
  induction names as [|e l IH]; intros f n; [done|]. cbn [rest foldl]. change (foldl _ ?x l) with (rest x l).
  destruct (_ =? _); intros H%IH; [|done]. rewrite Z.land_spec in H. by apply andb_true_iff in H as [? _].
Qed.

(** No name that was not printed is left in the flags. *)
Lemma rest_complete names : ∀ flags e, e ∈ names → e.1 ≠ 0 → Z.land e.1 (rest flags names) ≠ e.1.
Proof.
  induction names as [|e' l IH]; intros f e He H0 E; [by apply not_elem_of_nil in He|].
  cbn [rest foldl] in E. change (foldl _ ?x l) with (rest x l) in E.
  apply elem_of_cons in He as [<-|He]; [|destruct (_ =? _); by eapply IH].
  destruct (Z.eqb_spec (Z.land e.1 f) e.1) as [E'|E'].
  - apply H0, Z.bits_inj'. intros n Hn. rewrite Z.bits_0. destruct (Z.testbit e.1 n) eqn:B; [|done].
    pose proof (rest_sub _ _ _ (land_sub _ _ n E B)) as H. rewrite Z.land_spec, Z.lnot_spec, B in H by done.
    by apply andb_true_iff in H as [_ ?].
  - apply E', Z.bits_inj'. intros n Hn. rewrite Z.land_spec. destruct (Z.testbit e.1 n) eqn:B; [|done].
    by rewrite (rest_sub _ _ _ (land_sub _ _ n E B)).
Qed.

(** ** Their text *)

Lemma str_app_nil (a : string) : a +:+ "" = a.
Proof. induction a as [|c a IH]; [done|]. exact (f_equal (String c) IH). Qed.
Lemma str_app_assoc (a b c : string) : (a +:+ b) +:+ c = a +:+ b +:+ c.
Proof. induction a as [|x a IH]; [done|]. exact (f_equal (String x) IH). Qed.

(** The log of the process [p] holds [out]. *)
Definition logged (proc : Z) (p : process_descriptor) (out : string) (s : st) : st :=
  set_proc (<[proc := set_strace (Some out) (curcol p) p]> (st_proc s)) s.

Lemma fprint_eval s proc p out t :
  st_proc s !! proc = Some p → strace_out p = Some out →
  fprint proc t s = Done tt (logged proc p (out +:+ t) s).
Proof. intros Hp Ho. unfold fprint. ev. eapply bind_eval; [by apply of_option_eval|]. done. Qed.

Lemma fprint_logged s proc p out t :
  fprint proc t (logged proc p out s) = Done tt (logged proc p (out +:+ t) s).
Proof.
  erewrite fprint_eval; [|apply lookup_insert_eq|done]. unfold logged. st_cbn. by rewrite insert_insert_eq.
Qed.

Definition is_nil {A} (l : list A) : bool := match l with [] => true | _ => false end.

(** Texts with a bar before each, but before the first of all. *)
Definition bars (first : bool) (l : list string) : string :=
  if first then String.concat "|" l else foldr (λ n acc, "|" +:+ n +:+ acc) "" l.
Lemma bars_cons first n l : bars first (n :: l) = (if first then "" else "|") +:+ n +:+ bars false l.
Proof.
  destruct first; [|done]. cbn [bars]. revert n. induction l as [|m l IH]; intros n.
  - exact (eq_sym (str_app_nil n)).
  - change (String.concat "|" (n :: m :: l)) with (n +:+ "|" +:+ String.concat "|" (m :: l)).
    by rewrite (IH m).
Qed.

Lemma print_flags_loop_eval s proc p names : ∀ first flags out,
  print_flags_loop proc first flags names (logged proc p out s) =
  Done (first && is_nil (picked flags names), rest flags names)
    (logged proc p (out +:+ bars first (snd <$> picked flags names)) s).
Proof.
  induction names as [|[v n] l IH]; intros first f out.
  - cbn. rewrite andb_true_r. destruct first; cbn; by rewrite str_app_nil.
  - cbn [print_flags_loop picked rest foldl fst]. change (foldl _ ?x l) with (rest x l).
    destruct (Z.land v f =? v); [|apply IH]. destruct first; cbn [negb].
    + eapply bind_eval; [done|]. cbv beta. eapply bind_eval; [apply fprint_logged|]. cbv beta.
      rewrite IH. cbn [fmap list_fmap snd]. rewrite bars_cons, andb_false_l.
      by rewrite str_app_assoc.
    + eapply bind_eval; [apply fprint_logged|]. cbv beta. eapply bind_eval; [apply fprint_logged|]. cbv beta.
      rewrite IH. cbn [fmap list_fmap snd]. rewrite bars_cons, !andb_false_l.
      by rewrite !str_app_assoc.
Qed.

Definition rest_text (f : Z) : list string := if f =? 0 then [] else [show_x f].

Lemma print_flags_eval s proc p out flags names :
  st_proc s !! proc = Some p → strace_out p = Some out →
  print_flags proc flags names s = Done tt (logged proc p
    (out +:+ String.concat "|" ((snd <$> picked flags names) ++ rest_text (rest flags names))%list) s).
Proof.
  intros Hp Ho. assert (s = logged proc p out s) as Hs.
  { unfold logged. rewrite insert_id; [by destruct s|]. rewrite Hp. destruct p. cbn in *. by subst. }
  rewrite Hs at 1. unfold print_flags. eapply bind_eval; [apply print_flags_loop_eval|]. cbv beta. cbn [fst snd andb].
  set (l := snd <$> picked flags names). unfold rest_text. destruct (rest flags names =? 0) eqn:E; cbn [negb].
  { by rewrite app_nil_r. }
  change (String.concat "|" ?x) with (bars true x).
  assert (bars true (l ++ [show_x (rest flags names)])%list = bars true l +:+
    (if is_nil l then "" else "|") +:+ show_x (rest flags names)) as ->.
  { destruct l as [|n l]; [done|]. cbn [app is_nil].
    rewrite !bars_cons, !str_app_assoc. do 2 f_equal. cbn [bars].
    induction l as [|m l IH]; [cbn [app foldr]; by rewrite str_app_nil|].
    cbn [app foldr]. rewrite IH. by rewrite !str_app_assoc. }
  assert (is_nil (picked flags names) = is_nil l) as ->
    by (unfold l; by destruct (picked flags names)).
  destruct (is_nil l); cbn [negb].
  - eapply bind_eval; [done|]. cbv beta. rewrite fprint_logged. by rewrite str_app_assoc.
  - eapply bind_eval; [apply fprint_logged|]. cbv beta. rewrite fprint_logged. by rewrite !str_app_assoc.
Qed.

(** ** The error numbers *)

(** Values of one byte only see the low byte of the flags. *)
Lemma picked_low names : Forall (λ e, Z.land e.1 255 = e.1) names →
  ∀ flags, picked flags names = picked (Z.land flags 255) names.
Proof.
  induction 1 as [|e l He _ IH]; intros f; [done|]. cbn [picked].
  assert (Z.land e.1 (Z.land f 255) = Z.land e.1 f) as ->.
  { by rewrite (Z.land_comm f), Z.land_assoc, He. }
  destruct (_ =? _); [|apply IH]. f_equal. rewrite (IH (Z.land f (Z.lnot e.1))). f_equal.
  rewrite <- !Z.land_assoc. f_equal. apply Z.land_comm.
Qed.

(** The entry is a power of two, one of the bits of [e]. *)
Definition bit_of (e : Z) (x : Z * string) : bool := (Z.land x.1 (x.1 - 1) =? 0) && has_flag e x.1.

Lemma bit_of_low e : Forall (λ x, Z.land x.1 255 = x.1) errno_values →
  List.filter (bit_of e) errno_values = List.filter (bit_of (Z.land e 255)) errno_values.
Proof.
  intros H. apply List.filter_ext_in. intros x Hx.
  rewrite Forall_forall in H. unfold bit_of, has_flag. f_equal. f_equal. f_equal.
  rewrite <- (H x Hx) at 1. by rewrite (Z.land_comm x.1), Z.land_assoc.
Qed.

Lemma errno_as_bits e : 0 <= e → picked e errno_values = List.filter (bit_of e) errno_values.
Proof.
  intros He. assert (Forall (λ x, Z.land x.1 255 = x.1) errno_values) as H by (by repeat constructor).
  rewrite (picked_low _ H), (bit_of_low e H). assert (0 <= Z.land e 255 < 256) as Hb.
  { change 255 with (Z.ones 8). rewrite Z.land_ones by done. by apply Z.mod_pos_bound. }
  generalize dependent (Z.land e 255). intros k Hk.
  assert (forallb (λ n, bool_decide (picked (Z.of_nat n) errno_values = List.filter (bit_of (Z.of_nat n)) errno_values))
    (seq 0 256) = true) as Hall by (vm_compute; reflexivity).
  rewrite forallb_forall in Hall. specialize (Hall (Z.to_nat k)). rewrite Z2Nat.id in Hall by lia.
  eapply bool_decide_eq_true_1, Hall. apply in_seq. lia.
Qed.

(** ** Property *)

(** C30: [print_flags]. The names logged, in the order of the table and with bars between
    them, and the number after them, when there is one, make up the flags: the bits of
    all of them are those of the flags, and no name of the table that would still fit is
    left out. With the table of the errors, where the value is a number and no set of
    flags, the names are those of the errors that are a power of two and a bit of it. *)
Theorem print_flags_complete s proc p out flags names :
  st_proc s !! proc = Some p → strace_out p = Some out →
  ∃ l r, print_flags proc flags names s = Done tt
      (logged proc p (out +:+ String.concat "|" ((snd <$> l) ++ rest_text r)%list) s) ∧
    l `sublist_of` names ∧ foldr Z.lor r (fst <$> l) = flags ∧
    (∀ e, e ∈ names → e.1 ≠ 0 → Z.land e.1 r ≠ e.1) ∧
    (names = errno_values → 0 <= flags → l = List.filter (bit_of flags) errno_values).
Proof.
  intros Hp Ho. exists (picked flags names), (rest flags names). split; [by apply print_flags_eval|].
  split; [apply picked_sublist|]. split; [apply picked_lor|]. split; [apply rest_complete|].
  intros ->. apply errno_as_bits.
Qed.

End PrintFlags.

(** The process of [sock_example] with a log; the error ENXIO (6). *)
Definition log_proc : process_descriptor (Wd := ref_world) := mk_proc 7 "alice" None [] 0 0 (Some "") 0.
Definition log_example : st := set_proc {[10 := log_proc]} sock_example.

Lemma print_flags_complete_witness :
  ∃ l r, print_flags 10 6 errno_values log_example = Done tt
      (logged 10 log_proc (String.concat "|" ((snd <$> l) ++ rest_text r)%list) log_example) ∧
    l = List.filter (bit_of 6) errno_values ∧ snd <$> l = ["ENOENT"; "EINTR"].
Proof.
  destruct (print_flags_complete log_example 10 log_proc "" 6 errno_values) as (l & r & E & _ & _ & _ & Hb); [reflexivity|reflexivity|].
  specialize (Hb eq_refl ltac:(lia)). exists l, r. split; [exact E|]. split; [exact Hb|]. subst l.
  vm_compute. reflexivity.
Defined.
