(* ===== verification/Neutral.v ===== *)
(** The functions outside the protocol with the tracee preserve every stable
    invariant: the tables, the sockets, the communications, the logs, the copies of
    memory. *)
From S2P Require Import Prelude Libc External State Monad Frames DataUtils.
From S2P Require Import ProcessDescriptor PtraceUtils Sockets Print Communication.
From S2P Require Import SocketOps SysFiles SysNet SysData SysProc.

Section Neutral.
Context `{X : Xbt} `{Wd : World} `{!XbtLaws X} `{!StopLaws Wd} (I : st → Prop) `{!Stable I}.

(** ** Tables *)

Lemma upd_cnt_neutral f : preserves I (upd_cnt f).
Proof. apply preserves_modify. intros. by apply stable_cnt. Qed.

Lemma put_port_neutral name h buff d : preserves I (put_port name h buff d).
Proof. apply preserves_modify. intros. by apply stable_list_host. Qed.

Lemma host_name_neutral host : preserves I (host_name host).
Proof. unfold host_name. frame. Qed.
Hint Resolve host_name_neutral : preserve.

Lemma host_desc_neutral host : preserves I (host_desc host).
Proof. unfold host_desc. frame. Qed.
Hint Resolve upd_cnt_neutral put_port_neutral host_desc_neutral : preserve.

Lemma is_port_in_use_neutral host port : preserves I (is_port_in_use host port).
Proof. unfold is_port_in_use. frame. Qed.
Lemma register_port_neutral host port : preserves I (register_port host port).
Proof. unfold register_port. frame. Qed.
Lemma set_port_on_binding_neutral host port isp device :
  preserves I (set_port_on_binding host port isp device).
Proof. unfold set_port_on_binding. frame. Qed.
Lemma get_binding_socket_host_neutral host port device :
  preserves I (get_binding_socket_host host port device).
Proof. unfold get_binding_socket_host. frame. Qed.
Lemma get_ip_of_host_neutral host : preserves I (get_ip_of_host host).
Proof. unfold get_ip_of_host. frame. Qed.
Lemma get_host_by_ip_neutral ip : preserves I (get_host_by_ip ip).
Proof. unfold get_host_by_ip. frame. Qed.
Lemma get_random_port_neutral host : preserves I (get_random_port host).
Proof. unfold get_random_port. frame. Qed.
Lemma get_translation_neutral real : preserves I (get_translation real).
Proof. unfold get_translation. frame. Qed.

Lemma set_list_host_neutral f : preserves I (modify (λ s, set_list_host (f s) s)).
Proof. apply preserves_modify. intros. by apply stable_list_host. Qed.
Hint Resolve set_list_host_neutral : preserve.

Lemma unset_socket_neutral pid isp : preserves I (unset_socket pid isp).
Proof. unfold unset_socket. frame. Qed.

Hint Resolve is_port_in_use_neutral register_port_neutral set_port_on_binding_neutral
  get_binding_socket_host_neutral get_ip_of_host_neutral get_host_by_ip_neutral
  get_random_port_neutral get_translation_neutral unset_socket_neutral : preserve.

(** ** Memory and registers *)

Lemma peek_long_neutral child addr : preserves I (peek_long child addr).
Proof. unfold peek_long, increment_nb_peek. frame. Qed.
Hint Resolve peek_long_neutral : preserve.

Lemma cpy_loop_neutral fuel child src i size len : preserves I (cpy_loop fuel child src i size len).
Proof. revert src i size. induction fuel; intros; simpl; frame. Qed.
Hint Resolve cpy_loop_neutral : preserve.

Lemma ptrace_cpy_neutral child src len : preserves I (ptrace_cpy child src len).
Proof. unfold ptrace_cpy. frame. Qed.

Lemma poke_loop_neutral fuel pid dst src size len : preserves I (poke_loop fuel pid dst src size len).
Proof.
  revert size. induction fuel as [|fuel IH]; intros size s Hs; cbn [poke_loop];
    destruct (size <? len); try done.
  rewrite (bind_done _ _ _ _ _ (gets_eval _ s)). destruct (increment_nb_poke_eval s) as [c Hc].
  rewrite (bind_done _ _ _ _ _ Hc).
  destruct (ptrace_pokedata (st_w s) pid _ _) as [w|] eqn:E; [|done].
  change (keeps I (poke_loop fuel pid dst src (size + sizeof_long) len (set_w w (set_cnt c s)))).
  apply IH, stable_world; [by apply stable_cnt|]. intros p. by eapply poke_stop.
Qed.
Hint Resolve poke_loop_neutral : preserve.

Lemma ptrace_poke_neutral pid dst src len : preserves I (ptrace_poke pid dst src len).
Proof. unfold ptrace_poke. frame. Qed.

Lemma getregs_neutral pid : preserves I (getregs pid).
Proof. unfold getregs, increment_nb_getregs. frame. Qed.

Lemma setregs_neutral pid r : preserves I (setregs pid r).
Proof.
  unfold setregs, increment_nb_setregs. apply preserves_bind; [frame|intros _].
  apply preserves_upd_world; [done|]. intros w w' H p. by eapply setregs_stop.
Qed.
Hint Resolve ptrace_cpy_neutral ptrace_poke_neutral getregs_neutral setregs_neutral : preserve.

Lemma ptrace_get_register_neutral pid : preserves I (ptrace_get_register pid).
Proof. unfold ptrace_get_register. frame. Qed.
Lemma ptrace_restore_syscall_neutral pid nr v : preserves I (ptrace_restore_syscall pid nr v).
Proof. unfold ptrace_restore_syscall. frame. Qed.
Lemma ptrace_rewind_syscalls_neutral pid : preserves I (ptrace_rewind_syscalls pid).
Proof. unfold ptrace_rewind_syscalls. frame. Qed.
Lemma ptrace_get_pid_clone_neutral pid : preserves I (ptrace_get_pid_clone pid).
Proof. unfold ptrace_get_pid_clone, increment_nb_geteventmsg. frame. Qed.
Hint Resolve ptrace_get_register_neutral ptrace_restore_syscall_neutral
  ptrace_rewind_syscalls_neutral ptrace_get_pid_clone_neutral : preserve.

(** ** Descriptors and sockets *)

Lemma process_descriptor_get_fd_neutral proc fd : preserves I (process_descriptor_get_fd proc fd).
Proof. unfold process_descriptor_get_fd. frame. Qed.

Lemma process_descriptor_set_fd_neutral proc fd v : preserves I (process_descriptor_set_fd proc fd v).
Proof.
  apply preserves_load_bind. intros p s Hs Hp. destruct (negb (v =? NULL)) eqn:Ev.
  - apply (stable_put_proc s proc p); [done|done|]. repeat split. intros k x. cbn.
    destruct (decide (k = int_key fd)) as [->|Hk].
    + rewrite dict_get_set. intros [= <-]. left. by bool_to_prop.
    + rewrite dict_get_set_ne by done. auto.
  - destruct (xbt_dict_get_or_null _ _) eqn:Eg; [|done].
    destruct (dict_remove_present _ (fd_map p) (int_key fd)) as (m & Hm & Hn & Ho); [by eexists|].
    rewrite Hm. apply (stable_put_proc s proc p); [done|done|]. repeat split. intros k x. cbn.
    destruct (decide (int_key fd = k)) as [<-|Hk]; [by rewrite Hn|]. rewrite Ho by done. auto.
Qed.

Lemma proc_event_exec_neutral proc : preserves I (proc_event_exec proc).
Proof. unfold proc_event_exec. frame. Qed.
Lemma proc_entering_neutral proc : preserves I (proc_entering proc).
Proof. unfold proc_entering, proc_event_syscall, fprintf_stderr. frame. Qed.
Hint Resolve process_descriptor_get_fd_neutral process_descriptor_set_fd_neutral
  proc_event_exec_neutral proc_entering_neutral : preserve.

Lemma get_infos_socket_neutral proc fd : preserves I (get_infos_socket proc fd).
Proof. unfold get_infos_socket. frame. Qed.
Hint Resolve get_infos_socket_neutral : preserve.

Lemma socket_attr_neutral {A} proc fd (dflt : A) f : preserves I (socket_attr proc fd dflt f).
Proof. unfold socket_attr. frame. Qed.
Lemma socket_upd_neutral proc fd f : preserves I (socket_upd proc fd f).
Proof. unfold socket_upd. frame. Qed.
Lemma socket_registered_neutral proc fd : preserves I (socket_registered proc fd).
Proof. unfold socket_registered. frame. Qed.
Lemma set_localaddr_port_socket_neutral proc fd ip port :
  preserves I (set_localaddr_port_socket proc fd ip port).
Proof. unfold set_localaddr_port_socket. frame. Qed.
Lemma delete_socket_neutral isp : preserves I (delete_socket isp).
Proof. unfold delete_socket. frame. Qed.
Hint Resolve socket_attr_neutral socket_upd_neutral socket_registered_neutral
  set_localaddr_port_socket_neutral delete_socket_neutral : preserve.

(** A write to the table of a process changes no descriptor. *)
Lemma process_descriptor_set_fd_stores proc fd v s :
  match process_descriptor_set_fd proc fd v s with
  | Done _ s' => st_fd s' = st_fd s | Failed _ _ => True | Block _ _ _ => False
  end.
Proof.
  unfold process_descriptor_set_fd, bind, get_proc, load.
  destruct (st_proc s !! proc); simpl; [|done]. destruct (negb _); simpl; [done|].
  destruct (xbt_dict_get_or_null _ _); simpl; [|done]. by destruct (xbt_dict_remove _ _).
Qed.

(** [put_fd_obj] on the object just allocated, across the write to the table. *)
Lemma confirm_register_socket_neutral proc fd domain type protocol :
  preserves I (confirm_register_socket proc fd domain type protocol).
Proof.
  intros s Hs. unfold confirm_register_socket. set (o := FdSock (mk_is fd_zero _ _ _ _ _ _ _ _ _ _ _)).
  rewrite (bind_done _ _ _ _ _ (alloc_fd_eval s o)).
  set (s1 := set_fd _ _). assert (I s1) as H1 by exact (stable_alloc_fd s o Hs Logic.I).
  assert (is_Some (st_fd s1 !! st_next s)) as Hl by (unfold s1; st_cbn; rewrite lookup_insert_eq; by eexists).
  pose proof (process_descriptor_set_fd_neutral proc fd (st_next s) s1 H1) as H2.
  pose proof (process_descriptor_set_fd_stores proc fd (st_next s) s1) as Hfd.
  set (isp := st_next s) in *. clearbody isp. unfold bind at 1.
  destruct (process_descriptor_set_fd proc fd isp s1) as [[] s2| |]; [|done|done].
  simpl. apply keeps_reads; [frame|]. intros p. simpl in H2. rewrite <- Hfd in Hl.
  set (v := FdSock _). apply (keeps_bind_done _ _ _ _ tt (set_fd (<[isp := v]> (st_fd s2)) s2)); [done|].
  assert (I (set_fd (<[isp := v]> (st_fd s2)) s2)) as H3.
  { destruct Hl as [x Hx]. by apply (stable_put_fd s2 isp x). }
  revert H3. generalize (set_fd (<[isp := v]> (st_fd s2)) s2). change (preserves I
    (modify (λ s, set_all_sockets (xbt_dynar_push (all_sockets s) isp) s) ;;
     upd_sock isp (λ i, set_is_ref_nb (is_ref_nb i + 1) i) ;; ret isp)%sim).
  apply preserves_bind; [|frame]. apply preserves_modify. intros. by apply stable_all_sockets.
Qed.
Hint Resolve confirm_register_socket_neutral : preserve.

Lemma register_socket_neutral proc fd domain type protocol :
  preserves I (register_socket proc fd domain type protocol).
Proof. unfold register_socket. frame. Qed.
Hint Resolve register_socket_neutral : preserve.

(** The attributes of a socket. *)
Lemma socket_get_flags_neutral proc fd : preserves I (socket_get_flags proc fd).
Proof. apply socket_attr_neutral. Qed.
Lemma socket_get_option_neutral proc fd o : preserves I (socket_get_option proc fd o).
Proof. apply socket_attr_neutral. Qed.
Lemma socket_set_option_neutral proc fd o v : preserves I (socket_set_option proc fd o v).
Proof. apply socket_upd_neutral. Qed.
Lemma get_domain_socket_neutral proc fd : preserves I (get_domain_socket proc fd).
Proof. apply socket_attr_neutral. Qed.
Lemma get_protocol_socket_neutral proc fd : preserves I (get_protocol_socket proc fd).
Proof. apply socket_attr_neutral. Qed.
Lemma get_type_socket_neutral proc fd : preserves I (get_type_socket proc fd).
Proof. apply socket_attr_neutral. Qed.
Lemma socket_netlink_neutral proc fd : preserves I (socket_netlink proc fd).
Proof. apply socket_attr_neutral. Qed.
Lemma socket_network_neutral proc fd : preserves I (socket_network proc fd).
Proof. apply socket_attr_neutral. Qed.
Hint Resolve socket_get_flags_neutral socket_get_option_neutral socket_set_option_neutral
  get_domain_socket_neutral get_protocol_socket_neutral get_type_socket_neutral
  socket_netlink_neutral socket_network_neutral : preserve.

(** ** Logs *)

Lemma fprint_neutral proc t : preserves I (fprint proc t).
Proof.
  apply preserves_load_bind. intros p s Hs Hp. destruct (strace_out p) as [out|]; [|done].
  apply (stable_put_proc s proc p); [done|done|by apply proc_step_map].
Qed.
Lemma stprintf_neutral proc t : preserves I (stprintf proc t).
Proof.
  apply preserves_load_bind. intros p s Hs Hp. destruct (strace_out p) as [out|]; [|done].
  apply (stable_put_proc s proc p); [done|done|by apply proc_step_map].
Qed.
Lemma stprintf_eol_neutral proc : preserves I (stprintf_eol proc).
Proof.
  apply preserves_load_bind. intros p s Hs Hp. destruct (strace_out p) as [out|]; [|done].
  apply (stable_put_proc s proc p); [done|done|by apply proc_step_map].
Qed.
Hint Resolve fprint_neutral stprintf_neutral stprintf_eol_neutral : preserve.

Lemma stprintf_tabto_neutral proc : preserves I (stprintf_tabto proc).
Proof. unfold stprintf_tabto. frame. Qed.
Lemma if_strace_neutral m : preserves I m → preserves I (if_strace m).
Proof. intros. unfold if_strace. frame. Qed.
Hint Resolve stprintf_tabto_neutral if_strace_neutral : preserve.

Lemma print_addr_syscall_neutral call reg proc : preserves I (print_addr_syscall call reg proc).
Proof. unfold print_addr_syscall. frame. Qed.
Lemma print_accept_neutral reg proc : preserves I (print_accept_syscall reg proc).
Proof. apply print_addr_syscall_neutral. Qed.
Lemma print_connect_neutral reg proc : preserves I (print_connect_syscall reg proc).
Proof. apply print_addr_syscall_neutral. Qed.
Lemma print_bind_neutral reg proc : preserves I (print_bind_syscall reg proc).
Proof. apply print_addr_syscall_neutral. Qed.
Lemma print_socket_neutral reg proc : preserves I (print_socket_syscall reg proc).
Proof. unfold print_socket_syscall. frame. Qed.
Lemma print_sockopt_neutral call reg proc : preserves I (print_sockopt_syscall call reg proc).
Proof. unfold print_sockopt_syscall. frame. Qed.
Lemma print_getsockopt_neutral reg proc : preserves I (print_getsockopt_syscall reg proc).
Proof. apply print_sockopt_neutral. Qed.
Lemma print_setsockopt_neutral reg proc : preserves I (print_setsockopt_syscall reg proc).
Proof. apply print_sockopt_neutral. Qed.
Lemma print_listen_neutral reg proc : preserves I (print_listen_syscall reg proc).
Proof. unfold print_listen_syscall. frame. Qed.
Lemma print_flags_send_neutral proc flags : preserves I (print_flags_send proc flags).
Proof. unfold print_flags_send. frame. Qed.
Lemma print_flags_recv_neutral proc flags : preserves I (print_flags_recv proc flags).
Proof. unfold print_flags_recv. frame. Qed.
Lemma print_opt_addr_neutral proc domain b sai sau snl :
  preserves I (print_opt_addr proc domain b sai sau snl).
Proof. unfold print_opt_addr. frame. Qed.
Hint Resolve print_accept_neutral print_connect_neutral print_bind_neutral print_socket_neutral
  print_getsockopt_neutral print_setsockopt_neutral print_listen_neutral print_flags_send_neutral
  print_flags_recv_neutral print_opt_addr_neutral : preserve.

Lemma print_sendto_neutral reg proc data b n sai sau snl :
  preserves I (print_sendto_syscall reg proc data b n sai sau snl).
Proof. unfold print_sendto_syscall. frame. Qed.
Lemma print_recvfrom_neutral reg proc data sai sau snl b n :
  preserves I (print_recvfrom_syscall reg proc data sai sau snl b n).
Proof. unfold print_recvfrom_syscall. frame. Qed.
Lemma print_sendmsg_neutral reg proc len data msg :
  preserves I (print_sendmsg_syscall reg proc len data msg).
Proof. unfold print_sendmsg_syscall. frame. Qed.
Lemma print_recvmsg_neutral reg proc msg : preserves I (print_recvmsg_syscall reg proc msg).
Proof. unfold print_recvmsg_syscall. frame. Qed.
Lemma disp_pollfd_neutral proc fds n : preserves I (disp_pollfd proc fds n).
Proof. unfold disp_pollfd. frame. Qed.
Hint Resolve disp_pollfd_neutral : preserve.
Lemma print_poll_neutral reg proc fds n : preserves I (print_poll_syscall reg proc fds n).
Proof. unfold print_poll_syscall. frame. Qed.
Lemma print_getpeername_neutral reg proc : preserves I (print_getpeername_syscall reg proc).
Proof. unfold print_getpeername_syscall. frame. Qed.
Lemma print_fcntl_neutral reg proc : preserves I (print_fcntl_syscall reg proc).
Proof. unfold print_fcntl_syscall. frame. Qed.
Lemma print_lseek_neutral reg proc : preserves I (print_lseek_syscall reg proc).
Proof. unfold print_lseek_syscall. frame. Qed.
Lemma print_rw_neutral call reg proc : preserves I (print_rw_syscall call reg proc).
Proof. unfold print_rw_syscall. frame. Qed.
Lemma print_read_neutral reg proc : preserves I (print_read_syscall reg proc).
Proof. apply print_rw_neutral. Qed.
Lemma print_write_neutral reg proc : preserves I (print_write_syscall reg proc).
Proof. apply print_rw_neutral. Qed.
Lemma print_shutdown_option_neutral proc how : preserves I (print_shutdown_option proc how).
Proof. unfold print_shutdown_option. frame. Qed.
Hint Resolve print_shutdown_option_neutral : preserve.
Lemma print_shutdown_neutral reg proc : preserves I (print_shutdown_syscall reg proc).
Proof. unfold print_shutdown_syscall. frame. Qed.
Lemma print_flags_clone_neutral proc flags : preserves I (print_flags_clone proc flags).
Proof. unfold print_flags_clone. frame. Qed.
Hint Resolve print_flags_clone_neutral : preserve.
Lemma print_clone_neutral reg proc : preserves I (print_clone_syscall reg proc).
Proof. unfold print_clone_syscall. frame. Qed.
Lemma print_execve_post_neutral reg proc : preserves I (print_execve_syscall_post reg proc).
Proof. unfold print_execve_syscall_post. frame. Qed.
Lemma print_creat_neutral reg proc : preserves I (print_creat_syscall reg proc).
Proof. unfold print_creat_syscall. frame. Qed.
Lemma print_tuxcall_neutral reg proc : preserves I (print_tuxcall_syscall reg proc).
Proof. unfold print_tuxcall_syscall. frame. Qed.
Hint Resolve print_sendto_neutral print_recvfrom_neutral print_sendmsg_neutral
  print_recvmsg_neutral print_poll_neutral print_getpeername_neutral print_fcntl_neutral print_lseek_neutral
  print_read_neutral print_write_neutral print_shutdown_neutral print_clone_neutral
  print_execve_post_neutral print_creat_neutral print_tuxcall_neutral : preserve.

(** ** Communications *)

Lemma sock_ref_neutral isp d : preserves I (sock_ref isp d).
Proof. unfold sock_ref. frame. Qed.
Lemma comm_ref_neutral c d : preserves I (comm_ref c d).
Proof. unfold comm_ref. frame. Qed.
Lemma recv_information_new_neutral : preserves I recv_information_new.
Proof. unfold recv_information_new. frame. Qed.
Lemma recv_information_destroy_neutral r : preserves I (recv_information_destroy r).
Proof. unfold recv_information_destroy. frame. Qed.
Hint Resolve sock_ref_neutral comm_ref_neutral recv_information_new_neutral
  recv_information_destroy_neutral : preserve.

Lemma push_comm_neutral f : preserves I (modify (λ s, set_comm_list (f s) s)).
Proof. apply preserves_modify. intros. by apply stable_comm_list. Qed.
Hint Resolve push_comm_neutral : preserve.

Lemma comm_new_neutral sock : preserves I (comm_new sock).
Proof. unfold comm_new. frame. Qed.
Lemma comm_destroy_neutral c : preserves I (comm_destroy c).
Proof. unfold comm_destroy. frame. Qed.
Lemma comm_get_peer_neutral isp : preserves I (comm_get_peer isp).
Proof. unfold comm_get_peer. frame. Qed.
Lemma comm_get_own_recv_neutral isp : preserves I (comm_get_own_recv isp).
Proof. unfold comm_get_own_recv. frame. Qed.
Lemma comm_get_peer_recv_neutral isp : preserves I (comm_get_peer_recv isp).
Proof. unfold comm_get_peer_recv. frame. Qed.
Lemma release_socket_neutral isp : preserves I (release_socket isp).
Proof. unfold release_socket. frame. Qed.
Hint Resolve comm_new_neutral comm_destroy_neutral comm_get_peer_neutral comm_get_own_recv_neutral
  comm_get_peer_recv_neutral release_socket_neutral : preserve.

Lemma comm_close_neutral isp : preserves I (comm_close isp).
Proof. unfold comm_close. frame. Qed.
Lemma comm_shutdown_neutral isp : preserves I (comm_shutdown isp).
Proof. unfold comm_shutdown. frame. Qed.
Lemma comm_set_listen_neutral c : preserves I (comm_set_listen c).
Proof. unfold comm_set_listen. frame. Qed.
Lemma comm_ask_connect_neutral host port proc fd device :
  preserves I (comm_ask_connect host port proc fd device).
Proof. unfold comm_ask_connect. frame. Qed.
Lemma comm_join_on_accept_neutral isp proc fd : preserves I (comm_join_on_accept isp proc fd).
Proof.
  unfold comm_join_on_accept. frame_step; [frame|]. frame_step. frame_step; [frame|]. frame_step.
  frame_step; [frame|]. apply preserves_load_bind. intros c s Hs Hc.
  apply keeps_reads; [frame|]. intros r.
  apply (keeps_bind_done _ _ _ _ tt (set_comm (<[is_comm a0 := set_conn_wait r.2 c]> (st_comm s)) s)); [done|].
  assert (I (set_comm (<[is_comm a0 := set_conn_wait r.2 c]> (st_comm s)) s)) as H
    by (apply stable_put_comm; [done|by eexists]).
  revert H. generalize (set_comm (<[is_comm a0 := set_conn_wait r.2 c]> (st_comm s)) s).
  change (preserves I (comm_ref r.1 (-1) ;; upd_comm r.1 (set_socket1 isp) ;; sock_ref isp 1 ;;
    upd_sock isp (set_is_comm r.1) ;; comm_ref r.1 1)%sim). frame.
Qed.
Lemma comm_accept_connect_neutral isp : preserves I (comm_accept_connect isp).
Proof. unfold comm_accept_connect. frame. Qed.
Lemma comm_getpeername_neutral isp a : preserves I (comm_getpeername isp a).
Proof. unfold comm_getpeername. frame. Qed.
Lemma comm_has_connect_waiting_neutral isp : preserves I (comm_has_connect_waiting isp).
Proof. unfold comm_has_connect_waiting. frame. Qed.
Lemma comm_get_socket_state_neutral isp : preserves I (comm_get_socket_state isp).
Proof. unfold comm_get_socket_state. frame. Qed.
Lemma comm_send_data_neutral isp t : preserves I (comm_send_data isp t).
Proof. unfold comm_send_data. frame. Qed.
Hint Resolve comm_close_neutral comm_shutdown_neutral comm_set_listen_neutral
  comm_ask_connect_neutral comm_join_on_accept_neutral comm_accept_connect_neutral
  comm_getpeername_neutral comm_has_connect_waiting_neutral comm_get_socket_state_neutral
  comm_send_data_neutral : preserve.

Lemma create_send_communication_task_neutral proc isp amount a b :
  preserves I (create_send_communication_task proc isp amount a b).
Proof.
  unfold create_send_communication_task. frame_step; [frame|]. frame_step. frame_step; [frame|].
  frame_step. frame_step; [frame|]. frame_step. apply preserves_bind; [|frame].
  apply preserves_on_world; [done|]. intros w t w' [= E] p. rewrite <- (parallel_task_stop w (pd_name a0 +:+ " send") [a1; a2] amount p).
  by rewrite E.
Qed.
Lemma send_task_neutral host t : preserves I (send_task host t).
Proof. unfold send_task. frame. Qed.
Hint Resolve create_send_communication_task_neutral send_task_neutral : preserve.

(** ** Closing and sending *)

Lemma fd_ref_neutral p d : preserves I (fd_ref p d).
Proof. unfold fd_ref. frame. Qed.
Hint Resolve fd_ref_neutral : preserve.

Lemma socket_close_neutral proc fd : preserves I (socket_close proc fd).
Proof. unfold socket_close. frame. Qed.
Lemma handle_new_send_neutral reg isp data : preserves I (handle_new_send reg isp data).
Proof. unfold handle_new_send. frame. Qed.
Hint Resolve socket_close_neutral handle_new_send_neutral : preserve.

Lemma set_amount_neutral t n : preserves I (modify (λ s, set_w (MSG_task_set_bytes_amount (st_w s) t n) s)).
Proof. apply (preserves_world_fun I (λ w, MSG_task_set_bytes_amount w t n)). intros. apply task_amount_stop. Qed.
Lemma set_data_neutral t d : preserves I (modify (λ s, set_w (MSG_task_set_data (st_w s) t d) s)).
Proof. apply (preserves_world_fun I (λ w, MSG_task_set_data w t d)). intros. apply task_data_stop. Qed.
Lemma task_destroy_neutral t : preserves I (modify (λ s, set_w (MSG_task_destroy (st_w s) t) s)).
Proof. apply (preserves_world_fun I (λ w, MSG_task_destroy w t)). intros. apply task_destroy_stop. Qed.
Lemma sem_release_neutral t : preserves I (modify (λ s, set_w (MSG_sem_release (st_w s) t) s)).
Proof. apply (preserves_world_fun I (λ w, MSG_sem_release w t)). intros. apply sem_release_stop. Qed.
Hint Resolve set_amount_neutral set_data_neutral task_destroy_neutral sem_release_neutral : preserve.

Lemma process_send_call_neutral reg proc data : preserves I (process_send_call reg proc data).
Proof. unfold process_send_call. frame. Qed.

Lemma remove_ends_reads fuel : ∀ d cpt fd pid, reads (remove_ends fuel d cpt fd pid).
Proof.
  induction fuel as [|fuel IH]; intros; simpl; destruct (Nat.leb _ _); frame; try apply IH.
Qed.

(** The ends of a pipe are read, changed and stored again. *)
Lemma preserves_put_pipe_end p re we :
  ∀ s, I s → is_Some (st_pipe s !! p) → I (set_pipe (<[p := mk_pipe re we]> (st_pipe s)) s).
Proof. intros. by apply stable_put_pipe. Qed.

Lemma process_close_call_neutral proc fd : preserves I (process_close_call proc fd).
Proof.
  unfold process_close_call. frame_step; [frame|]. frame_step. destruct (negb _); [|frame].
  frame_step; [frame|]. frame_step. frame_step; [frame|]. frame_step. apply preserves_bind; [|frame].
  destruct (fd_type _ =? FD_SOCKET); [frame|]. destruct (fd_type _ =? FD_PIPE); [|frame].
  destruct (fd_pipe _ =? NULL); [frame|]. frame_step; [frame|]. frame_step.
  apply preserves_load_bind. intros p s Hs Hp.
  apply keeps_reads; [apply remove_ends_reads|]. intros re.
  apply keeps_reads; [apply remove_ends_reads|]. intros we.
  eapply keeps_bind_done; [done|]. destruct (_ && _); [apply preserves_free_pipe; [done|]|simpl];
    (apply stable_put_pipe; [done|by eexists]).
Qed.
Hint Resolve process_send_call_neutral process_close_call_neutral : preserve.

(** ** Helpers of the handlers *)

Lemma new_classic_neutral proc fd flags mode : preserves I (new_classic proc fd flags mode).
Proof. unfold new_classic. frame. Qed.
Lemma dup_pipe_neutral f old new proc : preserves I (dup_pipe f old new proc).
Proof.
  unfold dup_pipe. frame_step; [frame|]. frame_step. destruct (fd_type _ =? FD_PIPE); [|frame].
  apply preserves_load_bind. intros p s Hs Hp. unfold dup_pipe_ends.
  apply keeps_reads; [frame|]. intros re.
  eapply keeps_bind_done; [done|]. apply keeps_reads; [frame|]. intros we.
  apply stable_put_pipe; [apply stable_put_pipe; [done|by eexists]|].
  st_cbn. rewrite lookup_insert_eq. by eexists.
Qed.
Lemma new_pipe_fd_neutral proc fd pi : preserves I (new_pipe_fd proc fd pi).
Proof. unfold new_pipe_fd. frame. Qed.
Lemma process_lseek_call_neutral reg proc : preserves I (process_lseek_call reg proc).
Proof. unfold process_lseek_call. frame. Qed.
Lemma fcntl_dup_neutral `{!AnyObject I} proc fd a flags : preserves I (fcntl_dup proc fd a flags).
Proof.
  unfold fcntl_dup. apply preserves_bind; [by apply preserves_alloc_any|intros]. frame.
Qed.
Hint Resolve new_classic_neutral dup_pipe_neutral new_pipe_fd_neutral process_lseek_call_neutral
  fcntl_dup_neutral : preserve.

(** The commands that copy a descriptor make an object of any type. *)
Definition copies_fd (cmd : Z) : bool := (cmd =? F_DUPFD) || (cmd =? F_DUPFD_CLOEXEC).

Lemma process_fcntl_call_any `{!AnyObject I} reg proc : preserves I (process_fcntl_call reg proc).
Proof. unfold process_fcntl_call. frame. Qed.
Lemma process_fcntl_call_neutral reg proc :
  copies_fd (s32 (arg reg 1)) = false → preserves I (process_fcntl_call reg proc).
Proof.
  unfold copies_fd. intros [H1 H2]%orb_false_elim. unfold process_fcntl_call. cbv zeta. rewrite H1, H2. frame.
Qed.
Lemma cpy_sockaddr_neutral pid domain a : preserves I (cpy_sockaddr pid domain a).
Proof. unfold cpy_sockaddr. frame. Qed.
Lemma process_accept_out_call_neutral reg proc : preserves I (process_accept_out_call reg proc).
Proof. unfold process_accept_out_call. frame. Qed.
Lemma sendto_address_neutral reg proc pid : preserves I (sendto_address reg proc pid).
Proof. unfold sendto_address. frame. Qed.
Lemma sys_translate_sendto_out_neutral reg proc sai : preserves I (sys_translate_sendto_out reg proc sai).
Proof. unfold sys_translate_sendto_out. frame. Qed.
Lemma gather_iovec_neutral n : ∀ pid m i data len, preserves I (gather_iovec n pid m i data len).
Proof. induction n; intros; simpl; frame. Qed.
Lemma scan_iovec_neutral n : ∀ pid m i len, preserves I (scan_iovec n pid m i len).
Proof. induction n; intros; simpl; frame. Qed.
Lemma scatter_iovec_neutral n : ∀ pid m data i l, preserves I (scatter_iovec n pid m data i l).
Proof. induction n; intros; simpl; frame. Qed.
Hint Resolve process_fcntl_call_neutral process_fcntl_call_any cpy_sockaddr_neutral process_accept_out_call_neutral
  sendto_address_neutral sys_translate_sendto_out_neutral gather_iovec_neutral scan_iovec_neutral
  scatter_iovec_neutral : preserve.

Lemma task_create_neutral n a d :
  preserves I (on_world Invalid_pointer (λ w, Some (MSG_task_create w n a d))).
Proof.
  apply preserves_on_world; [done|]. intros w t w' [= E] p.
  rewrite <- (task_create_stop w n a d p). by rewrite E.
Qed.
Lemma irecv_neutral name : preserves I (on_world Invalid_pointer (λ w, Some (MSG_task_irecv w name))).
Proof.
  apply preserves_on_world; [done|]. intros w t w' [= E] p.
  rewrite <- (irecv_stop w name p). by rewrite E.
Qed.
Lemma sem_init_neutral n : preserves I (on_world Invalid_pointer (λ w, Some (MSG_sem_init w n))).
Proof.
  apply preserves_on_world; [done|]. intros w t w' [= E] p.
  rewrite <- (sem_init_stop w n p). by rewrite E.
Qed.
Hint Resolve task_create_neutral irecv_neutral sem_init_neutral : preserve.

Lemma write_pipe_neutral reg proc d : preserves I (write_pipe reg proc d).
Proof. unfold write_pipe. frame. Qed.
Lemma own_mailbox_neutral self t : preserves I (own_mailbox self t).
Proof. unfold own_mailbox. frame. Qed.
Lemma receive_task_neutral m : preserves I (receive_task m).
Proof. unfold receive_task. frame. Qed.
Lemma SysData_task_destroy_neutral t : preserves I (task_destroy t).
Proof. apply task_destroy_neutral. Qed.
Lemma state_after_neutral proc fd err : preserves I (state_after proc fd err).
Proof. unfold state_after. frame. Qed.
Lemma sys_translate_recvfrom_out_neutral reg proc : preserves I (sys_translate_recvfrom_out reg proc).
Proof. unfold sys_translate_recvfrom_out. frame. Qed.
Hint Resolve write_pipe_neutral own_mailbox_neutral receive_task_neutral SysData_task_destroy_neutral
  state_after_neutral sys_translate_recvfrom_out_neutral : preserve.

Lemma translate_source_neutral reg proc : preserves I (translate_source reg proc).
Proof. unfold translate_source. frame. Qed.
Hint Resolve translate_source_neutral : preserve.

Lemma process_recvfrom_out_call_neutral reg proc data : preserves I (process_recvfrom_out_call reg proc data).
Proof. unfold process_recvfrom_out_call. frame. Qed.
Lemma sys_build_recvmsg_neutral proc data m : preserves I (sys_build_recvmsg proc data m).
Proof. unfold sys_build_recvmsg. frame. Qed.
Lemma process_read_out_call_neutral reg proc data : preserves I (process_read_out_call reg proc data).
Proof. unfold process_read_out_call. frame. Qed.
Lemma poll_finish_neutral reg proc pid t r fds : preserves I (poll_finish reg proc pid t r fds).
Proof. unfold poll_finish. frame. Qed.
Hint Resolve process_recvfrom_out_call_neutral sys_build_recvmsg_neutral
  process_read_out_call_neutral poll_finish_neutral : preserve.

Lemma clone_ends_reads fuel : ∀ d cpt clone pid, reads (clone_ends fuel d cpt clone pid).
Proof.
  induction fuel as [|fuel IH]; intros; simpl; destruct (xbt_dynar_get_cpy d cpt); frame; apply IH.
Qed.
Lemma clone_pipe_neutral pi clone pid : preserves I (clone_pipe pi clone pid).
Proof.
  unfold clone_pipe. destruct (pi =? NULL); [frame|]. apply preserves_load_bind. intros p s Hs Hp.
  apply keeps_reads; [apply clone_ends_reads|]. intros re.
  apply keeps_reads; [apply clone_ends_reads|]. intros we.
  apply stable_put_pipe; [done|by eexists].
Qed.
Hint Resolve clone_pipe_neutral : preserve.
Lemma clone_entries_neutral `{!AnyObject I} items :
  ∀ clone pid, preserves I (clone_entries clone pid items).
Proof.
  induction items as [|[]]; intros; simpl; [frame|]. frame_step; [frame|intros d].
  apply preserves_bind; [by apply preserves_alloc_any|intros]. frame.
Qed.
Lemma peek_text_neutral pid a : preserves I (peek_text pid a).
Proof. unfold peek_text. frame. Qed.
Hint Resolve clone_entries_neutral peek_text_neutral : preserve.
Lemma get_string_neutral fuel : ∀ pid a, preserves I (get_string fuel pid a).
Proof. induction fuel; intros; simpl; frame. Qed.
Hint Resolve get_string_neutral : preserve.
Lemma get_bufstr_neutral pid a : preserves I (get_bufstr pid a).
Proof. unfold get_bufstr. frame. Qed.
Hint Resolve get_bufstr_neutral : preserve.
Lemma print_argv_neutral fuel : ∀ proc pid a b, preserves I (print_argv fuel proc pid a b).
Proof. induction fuel; intros; simpl; frame. Qed.
Hint Resolve print_argv_neutral : preserve.
Lemma print_execve_pre_neutral fuel reg proc : preserves I (print_execve_syscall_pre fuel reg proc).
Proof. unfold print_execve_syscall_pre. frame. Qed.
Lemma visit_entries_neutral items : preserves I (visit_entries items).
Proof. induction items as [|[]]; simpl; frame. Qed.
Lemma drain_tasks_neutral fuel : ∀ f, preserves I (drain_tasks fuel f).
Proof. induction fuel; intros; simpl; frame. Qed.
Lemma drain_data_neutral fuel : ∀ f, preserves I (drain_data fuel f).
Proof. induction fuel; intros; simpl; frame. Qed.
Hint Resolve print_execve_pre_neutral visit_entries_neutral drain_tasks_neutral drain_data_neutral : preserve.
Lemma close_entries_neutral items : ∀ proc, preserves I (close_entries proc items).
Proof. induction items as [|[]]; intros; simpl; frame. Qed.
Hint Resolve close_entries_neutral : preserve.
Lemma close_all_communication_neutral proc : preserves I (close_all_communication proc).
Proof. unfold close_all_communication. frame. Qed.
Lemma destroy_entries_neutral items : preserves I (destroy_entries items).
Proof. induction items as [|[]]; simpl; frame. Qed.

End Neutral.

#[export] Hint Resolve host_name_neutral upd_cnt_neutral put_port_neutral host_desc_neutral
  set_list_host_neutral is_port_in_use_neutral register_port_neutral set_port_on_binding_neutral
  get_binding_socket_host_neutral get_ip_of_host_neutral get_host_by_ip_neutral
  get_random_port_neutral get_translation_neutral unset_socket_neutral peek_long_neutral
  cpy_loop_neutral poke_loop_neutral ptrace_cpy_neutral ptrace_poke_neutral getregs_neutral
  setregs_neutral ptrace_get_register_neutral ptrace_restore_syscall_neutral
  ptrace_rewind_syscalls_neutral ptrace_get_pid_clone_neutral process_descriptor_get_fd_neutral
  process_descriptor_set_fd_neutral proc_event_exec_neutral proc_entering_neutral
  get_infos_socket_neutral socket_attr_neutral socket_upd_neutral socket_registered_neutral
  set_localaddr_port_socket_neutral delete_socket_neutral confirm_register_socket_neutral
  register_socket_neutral socket_get_flags_neutral socket_get_option_neutral
  socket_set_option_neutral get_domain_socket_neutral get_protocol_socket_neutral
  get_type_socket_neutral socket_netlink_neutral socket_network_neutral fprint_neutral
  stprintf_neutral stprintf_eol_neutral stprintf_tabto_neutral if_strace_neutral
  print_accept_neutral print_connect_neutral print_bind_neutral print_socket_neutral
  print_getsockopt_neutral print_setsockopt_neutral print_listen_neutral print_flags_send_neutral
  print_flags_recv_neutral print_opt_addr_neutral disp_pollfd_neutral
  print_shutdown_option_neutral print_flags_clone_neutral print_sendto_neutral
  print_recvfrom_neutral print_sendmsg_neutral print_recvmsg_neutral print_poll_neutral
  print_getpeername_neutral print_fcntl_neutral print_lseek_neutral print_read_neutral print_write_neutral
  print_shutdown_neutral print_clone_neutral print_execve_post_neutral print_creat_neutral
  print_tuxcall_neutral sock_ref_neutral comm_ref_neutral recv_information_new_neutral
  recv_information_destroy_neutral push_comm_neutral comm_new_neutral comm_destroy_neutral
  comm_get_peer_neutral comm_get_own_recv_neutral comm_get_peer_recv_neutral
  release_socket_neutral comm_close_neutral comm_shutdown_neutral comm_set_listen_neutral
  comm_ask_connect_neutral comm_join_on_accept_neutral comm_accept_connect_neutral
  comm_getpeername_neutral comm_has_connect_waiting_neutral comm_get_socket_state_neutral
  comm_send_data_neutral create_send_communication_task_neutral send_task_neutral fd_ref_neutral
  socket_close_neutral handle_new_send_neutral set_amount_neutral set_data_neutral
  task_destroy_neutral sem_release_neutral process_send_call_neutral process_close_call_neutral
  new_classic_neutral dup_pipe_neutral new_pipe_fd_neutral process_lseek_call_neutral
  fcntl_dup_neutral process_fcntl_call_neutral process_fcntl_call_any cpy_sockaddr_neutral
  process_accept_out_call_neutral sendto_address_neutral sys_translate_sendto_out_neutral
  gather_iovec_neutral scan_iovec_neutral scatter_iovec_neutral task_create_neutral irecv_neutral
  sem_init_neutral write_pipe_neutral own_mailbox_neutral receive_task_neutral
  SysData_task_destroy_neutral state_after_neutral sys_translate_recvfrom_out_neutral
  translate_source_neutral process_recvfrom_out_call_neutral sys_build_recvmsg_neutral
  process_read_out_call_neutral poll_finish_neutral clone_pipe_neutral clone_entries_neutral
  peek_text_neutral get_string_neutral get_bufstr_neutral print_argv_neutral
  print_execve_pre_neutral visit_entries_neutral drain_tasks_neutral drain_data_neutral
  close_entries_neutral close_all_communication_neutral destroy_entries_neutral : preserve.
#[export] Hint Extern 1 (preserves _ (if_strace _)) =>
  (apply if_strace_neutral; solve [frame]) : preserve.
