(* ===== verification/Dispatch.v ===== *)
(** The main loops: [process_handle] of src/src/syscall_process.c, and
    src/src/simterpose.c around it.

    [process_handle] runs until a system call returns control to the simulator;
    its [fuel] bounds the number of system call stops it handles. *)
From S2P Require Import Prelude Libc External State Monad DataUtils ProcessDescriptor.
From S2P Require Import PtraceUtils Sockets Print Communication SocketOps SysFiles.
From S2P Require Import SysNet SysData SysProc.
Open Scope sim_scope.

Section Dispatch.
Context `{X : Xbt} `{Wd : World}.

Definition continue (m : M unit) : M (option Z) := m ;; ret None.

(** [if ((ret = m)) return ret;] *)
Definition return_if (m : M Z) : M (option Z) :=
  let! r := m in ret (if r =? 0 then None else Some r).

(** The [switch] of [process_handle]: [Some r] for [return r]. The case of [SYS_pipe]
    has no [break]. *)
Definition dispatch (self : msg_self) (fuel : nat) (handle : Z → M Z) (reg : reg_s) (proc : Z)
    : M (option Z) :=
  let nr := reg_orig reg in
  if nr =? SYS_creat then continue (syscall_creat reg proc)
  else if nr =? SYS_open then continue (syscall_open reg proc)
  else if nr =? SYS_close then continue (syscall_close reg proc)
  else if nr =? SYS_read then continue (syscall_read self reg proc)
  else if nr =? SYS_write then return_if (syscall_write reg proc)
  else if nr =? SYS_dup then continue (syscall_dup reg proc)
  else if nr =? SYS_dup2 then continue (syscall_dup2 reg proc)
  else if nr =? SYS_fcntl then continue (syscall_fcntl reg proc)
  else if nr =? SYS_lseek then continue (syscall_lseek reg proc)
  else if nr =? SYS_poll then continue (syscall_poll reg proc)
  else if nr =? SYS_select then continue (syscall_select reg proc)
  else if nr =? SYS_pipe then continue (syscall_pipe reg proc ;; syscall_brk reg proc)
  else if nr =? SYS_brk then continue (syscall_brk reg proc)
  else if nr =? SYS_socket then continue (syscall_socket reg proc)
  else if nr =? SYS_connect then continue (syscall_connect self handle reg proc)
  else if nr =? SYS_bind then continue (syscall_bind reg proc)
  else if nr =? SYS_listen then continue (syscall_listen reg proc)
  else if nr =? SYS_accept then continue (syscall_accept self reg proc)
  else if nr =? SYS_sendto then return_if (syscall_sendto reg proc)
  else if nr =? SYS_recvfrom then continue (syscall_recvfrom self reg proc)
  else if nr =? SYS_sendmsg then return_if (syscall_sendmsg reg proc)
  else if nr =? SYS_recvmsg then continue (syscall_recvmsg self reg proc)
  else if nr =? SYS_shutdown then continue (syscall_shutdown reg proc)
  else if nr =? SYS_getpeername then continue (syscall_getpeername reg proc)
  else if nr =? SYS_getsockopt then continue (syscall_getsockopt reg proc)
  else if nr =? SYS_setsockopt then continue (syscall_setsockopt reg proc)
  else if nr =? SYS_clone then continue (syscall_clone self reg proc)
  else if nr =? SYS_execve then continue (syscall_execve fuel reg proc)
  else if nr =? SYS_exit then let! r := syscall_exit reg proc in ret (Some r)
  else if nr =? SYS_exit_group then let! r := syscall_exit reg proc in ret (Some r)
  else if nr =? SYS_getpid then continue (syscall_getpid reg proc)
  else if nr =? SYS_tuxcall then continue (syscall_tuxcall reg proc)
  else continue (syscall_default reg proc).

(** [waitpid(pid, &(proc->status), __WALL)]; true when it fails. *)
Definition wait_status (proc pid : Z) : M bool :=
  let! r := gets (λ s, waitpid (st_w s) pid) in
  match r with
  | Some (status, w) =>
    modify (set_w w) ;;
    upd_proc proc (set_status status) ;;
    ret false
  | None => ret true
  end.

(** [while (1)]. *)
Fixpoint handle_loop (fuel : nat) (self : msg_self) (pid proc : Z) : M Z :=
  match fuel with
  | O => fail Out_of_fuel
  | S fuel =>
    let! reg := ptrace_get_register pid in
    let! r := dispatch self fuel
                (λ q, let! p := get_proc q in handle_loop fuel self (pd_pid p) q) reg proc in
    match r with
    | Some r => ret r
    | None =>
      ptrace_resume_process pid ;;
      let! _ := wait_status proc pid in
      handle_loop fuel self pid proc
    end
  end.

Definition process_handle (fuel : nat) (self : msg_self) (proc : Z) : M Z :=
  let! p := get_proc proc in handle_loop fuel self (pd_pid p) proc.

(** ** src/src/simterpose.c *)

(** One turn of the loop on a tracee: resume it, wait for it, handle its calls. *)
Definition treatment (fuel : nat) (self : msg_self) (proc : Z) : M Z :=
  let! p := get_proc proc in
  ptrace_resume_process (pd_pid p) ;;
  let! err := wait_status proc (pd_pid p) in
  if err then fail Xbt_die else process_handle fuel self proc.

(** [while (proc_next_state != PROCESS_DEAD)]. *)
Fixpoint track (turns fuel : nat) (self : msg_self) (proc : Z) : M unit :=
  match turns with
  | O => fail Out_of_fuel
  | S turns =>
    let! state := treatment fuel self proc in
    if state =? PROCESS_DEAD then ret tt else track turns fuel self proc
  end.

(** After [fork]: [tracked_pid] is the new process. *)
Definition simterpose_process_runner (turns fuel : nat) (self : msg_self) (argv0 : string)
    (tracked_pid : Z) : M unit :=
  let! proc := process_descriptor_new (MSG_host_get_name (self_host self)) argv0 tracked_pid in
  wait_ignored tracked_pid ;;
  increment_nb_setoptions ;;
  upd_world Xbt_die (λ w, ptrace_setoptions w tracked_pid) ;;
  track turns fuel self proc ;;
  process_die proc.

(** The process of a clone: each turn first waits for any child. *)
Fixpoint main_loop (turns fuel : nat) (self : msg_self) (proc : Z) : M unit :=
  match turns with
  | O => fail Out_of_fuel
  | S turns =>
    let! _ := wait_status proc (-1) in
    let! state := treatment fuel self proc in
    if state =? PROCESS_DEAD then ret tt else main_loop turns fuel self proc
  end.

(** The tables [main] sets up before the simulation starts. *)
Definition simterpose_init : M unit :=
  simterpose_globals_init ;;
  init_socket_gestion ;;
  comm_init ;;
  init_host_list.

End Dispatch.
