(* ===== verification/Main.v ===== *)
(** [main] of src/src/simterpose.c: the command line, read with [getopt] of the GNU libc, and
    what happens from there to the end of the simulation.

    MSG, which [main] starts, gives it the platform and runs the processes, is a
    parameter, and so are the conversion [strtof] of libc, the values of [rand] and the
    netlink socket. The arguments are those [MSG_init] has left. The handlers of signals,
    the choice of the log file and the statistics at the end are not modelled, nor is the
    freeing of the tables. *)
From Stdlib Require Import SpecFloat Ascii.
From S2P Require Import Prelude Libc External State Monad DataUtils Cputimer Benchmark.
From S2P Require Import Sockets Communication.
Open Scope sim_scope.

(** ** [getopt] *)

(** What one call of [getopt(argc, argv, "s+p:")] returns, with [optarg]; ['?'] for a
    character that is not an option and for a missing argument. The '+' is not at the start
    of the string: it is an option. *)
Inductive option_read := Opt (c : ascii) (optarg : option string).

Definition optstring : list (ascii * bool) := [("s"%char, false); ("+"%char, false); ("p"%char, true)].

Definition takes_argument (c : ascii) : option bool :=
  snd <$> List.find (λ x, Ascii.eqb x.1 c) optstring.

(** The characters of one argument after the dash, and the arguments that follow. *)
Fixpoint getopt_chars (s : string) (rest : list string) : list option_read * list string :=
  match s with
  | EmptyString => ([], rest)
  | String c s' =>
    match takes_argument c with
    | Some true =>
      match s', rest with
      | String _ _, _ => ([Opt c (Some s')], rest)
      | EmptyString, a :: rest => ([Opt c (Some a)], rest)
      | EmptyString, [] => ([Opt "?" None], [])
      end
    | Some false => let '(l, r) := getopt_chars s' rest in (Opt c None :: l, r)
    | None => let '(l, r) := getopt_chars s' rest in (Opt "?" None :: l, r)
    end
  end.

(** An argument with options: a dash and something after it. *)
Definition is_option (a : string) : bool :=
  match a with String c (String _ _) => Ascii.eqb c "-" | _ => false end.

Definition after_dash (a : string) : string := match a with String _ s => s | EmptyString => "" end.

(** All the calls until [EOF]: the options, and the arguments from [optind] on. The options
    are moved to the front, unless the variable POSIXLY_CORRECT is set ([posix]), and "--"
    ends them. *)
Fixpoint getopt (posix : bool) (fuel : nat) (args : list string) : list option_read * list string :=
  match fuel, args with
  | S fuel, a :: args =>
    if String.eqb a "--" then ([], args)
    else if is_option a then
      let '(l, rest) := getopt_chars (after_dash a) args in
      let '(l', ops) := getopt posix fuel rest in ((l ++ l')%list, ops)
    else if posix then ([], a :: args)
    else let '(l, ops) := getopt posix fuel args in (l, a :: ops)
  | _, _ => ([], args)
  end.

(** ** [main] *)

Record settings := mk_settings { set_strace : bool; set_msec : option spec_float }.

(** The program goes on, or ends with a status; [None] for a failed assertion. *)
Inductive command_line :=
  | Run (o : settings) (files : list string)
  | Exits (status : Z)
  | Dies.

Section Main.
Context `{X : Xbt} `{Wd : World} `{Nl : Netlink}.
(** The value and the text after the number. *)
Variable strtof : string → spec_float * string.
Variable MSG_create_environment : option string → M unit.
Variable MSG_launch_application : option string → M unit.
Variable MSG_main : M msg_error.

Definition usage (retcode : Z) : command_line := Exits retcode.

(** The number is read as a [float], then held in a [double]. *)
Definition str_to_double (s : string) : option spec_float :=
  let '(v, endptr) := strtof s in
  if String.eqb endptr "" then Some (float_of_double (double_of_float v)) else None.

(** The loop over the options. *)
Fixpoint read_options (l : list option_read) (o : settings) (files : list string) : command_line :=
  match l with
  | [] => Run o files
  | Opt c optarg :: l =>
    if Ascii.eqb c "s" then read_options l (mk_settings true (set_msec o)) files
    else if Ascii.eqb c "p" then
      match str_to_double (default "" optarg) with
      | Some v => read_options l (mk_settings (set_strace o) (Some (SFdiv 24 128 (float_of_Z 1000000) v))) files
      | None => Dies
      end
    else usage 0
  end.

(** [argv] without the name of the program. *)
Definition read_command_line (posix : bool) (args : list string) : command_line :=
  if Z.of_nat (length args) + 1 <? 3 then usage 1 else
  let '(l, files) := getopt posix (length args) args in
  read_options l (mk_settings false None) files.

Definition set_strace_option (v : Z) (s : st) : st :=
  mk_st (st_w s) (st_next s) (st_proc s) (st_fd s) (st_comm s) (st_recv s) (st_pipe s) (st_stream s)
    (all_sockets s) (comm_list s) (list_host s) (list_ip s) (list_translate s) (st_cnt s) v (clone_number s).

(** A computation with the netlink socket, in the state [nw]. *)
Definition with_netlink {A B} (m : net A) (nw : NW) (k : A → NW → M B) : M B :=
  match m nw with
  | inl (a, nw') => k a nw'
  | inr e => fail e
  end.

(** [argv[optind]] and [argv[optind + 1]]: the null pointer ends the array, after which
    nothing may be read. The result is the status. *)
Definition main (posix : bool) (fuel : nat) (rnd : nat → Z) (times : list Z) (nw : NW) (args : list string)
    : M Z :=
  match read_command_line posix args with
  | Exits status => ret status
  | Dies => fail Xbt_die
  | Run o files =>
    (if set_strace o then modify (set_strace_option 1) else ret tt) ;;
    let benchmark := match set_msec o with
                     | Some v => nret v
                     | None => benchmark_matrix_product fuel rnd times
                     end in
    with_netlink benchmark nw (λ msec_per_flop nw,
    simterpose_globals_init ;;
    init_socket_gestion ;;
    comm_init ;;
    with_netlink (cputimer_init fuel cputimer_new) nw (λ global_timer nw,
    let platform_file := head files in
    let! application_file := (match files with [] => fail Invalid_pointer | _ :: l => ret (head l) end) in
    MSG_create_environment platform_file ;;
    init_host_list ;;
    MSG_launch_application application_file ;;
    let! res := MSG_main in
    ret (match res with MSG_OK => 0 | _ => 1 end)))
  end.

(** ** The command line *)

(** A command line of the form of the message of [usage], with the options anywhere: the
    options as [getopt] returns them, and the other arguments. *)
Inductive written : list string → list option_read → list string → Prop :=
| written_nil : written [] [] []
| written_s args l ops : written args l ops → written ("-s" :: args) (Opt "s" None :: l) ops
| written_p v args l ops : written args l ops → written ("-p" :: v :: args) (Opt "p" (Some v) :: l) ops
| written_file a args l ops :
    is_option a = false → a ≠ "--" → written args l ops → written (a :: args) l (a :: ops).

Lemma getopt_written args l ops :
  written args l ops → ∀ fuel, (length args <= fuel)%nat → getopt false fuel args = (l, ops).
Proof.
  induction 1 as [|args l ops _ IH|v args l ops _ IH|a args l ops Ho Ha _ IH]; intros fuel Hf;
    destruct fuel as [|fuel]; cbn in Hf; try lia; [done..| | |].
  - cbn. by rewrite IH by lia.
  - cbn. by rewrite IH by lia.
  - cbn [getopt]. rewrite (proj2 (String.eqb_neq _ _) Ha), Ho, IH by lia. done.
Qed.

(** The settings of a command line, in which every number can be read. *)
Fixpoint settings_of (l : list option_read) (o : settings) : settings :=
  match l with
  | [] => o
  | Opt c arg :: l =>
    settings_of l (if Ascii.eqb c "s" then mk_settings true (set_msec o)
      else mk_settings (set_strace o) (SFdiv 24 128 (float_of_Z 1000000) <$> str_to_double (default "" arg)))
  end.

Lemma read_options_written args l files :
  written args l files → Forall (λ x, match x with Opt _ (Some v) => is_Some (str_to_double v) | _ => True end) l →
  ∀ o ops, read_options l o ops = Run (settings_of l o) ops.
Proof.
  induction 1 as [|args l ops _ IH|v args l ops _ IH|a args l ops _ _ _ IH]; intros Hl o ops'; [done| | |by apply IH].
  - apply Forall_cons_1 in Hl as [_ Hl]. cbn. by apply IH.
  - apply Forall_cons_1 in Hl as [[x Hx] Hl]. cbn. rewrite Hx. by apply IH.
Qed.

(** The command line: options and files in any order. That there are two files is not
    checked, only that there are two arguments: with an option and one file the simulation
    is started, and the name of the application is the null pointer. *)
Lemma command_line_read args l files :
  written args l files → (2 <= length args)%nat →
  Forall (λ x, match x with Opt _ (Some v) => is_Some (str_to_double v) | _ => True end) l →
  read_command_line false args = Run (settings_of l (mk_settings false None)) files.
Proof.
  intros Hw Hn Hl. unfold read_command_line. rewrite (proj2 (Z.ltb_ge _ 3)) by lia.
  rewrite (getopt_written _ _ _ Hw) by lia. by eapply read_options_written.
Qed.

End Main.

(** An option and one file. *)
Lemma one_file_runs strtof :
  read_command_line strtof false ["-s"; "platform.xml"]%string = Run (mk_settings true None) ["platform.xml"%string].
Proof.
  apply (command_line_read strtof _ [Opt "s" None]); [|done|by repeat constructor].
  apply written_s, written_file; [done..|]. apply written_nil.
Qed.
