(* ===== verification/Robust.v ===== *)
(** The whole simulator keeps every [Robust] invariant, one that also the protocol with
    the tracee, the creation and the end of a process leave true. The invariants of
    WellFormed and Sorts are instances. *)
From S2P Require Import Prelude Libc External State Monad Frames Reference DataUtils.
From S2P Require Import ProcessDescriptor PtraceUtils Sockets Print Communication.
From S2P Require Import SocketOps SysFiles SysNet SysData SysProc Neutral Dispatch Cputimer Main.
Open Scope sim_scope.

Section Robust.
Context `{X : Xbt} `{Wd : World}.

(** [in_syscall], a signed field of one bit, is 0 or -1, and no null pointer is in the
    table. *)
Definition proc_wf (v : process_descriptor) : Prop :=
  (in_syscall v = 0 ∨ in_syscall v = -1) ∧
  ∀ k x, xbt_dict_get_or_null (fd_map v) k = Some x → x ≠ NULL.

Lemma proc_step_wf v v' : proc_step v v' → proc_wf v → proc_wf v'.
Proof.
  intros (_ & Hi & Hm) [Hs Ht]. split; [by rewrite Hi|].
  intros k x Hk. destruct (Hm k x Hk) as [?|Hk']; [done|]. by apply (Ht k).
Qed.

(** An invariant under the creation, the changes and the end of a process, and under
    any change of the world. *)
Class Robust (I : st → Prop) : Prop := {
  robust_put_proc s p v v' :
    I s → st_proc s !! p = Some v → (proc_wf v → proc_wf v') → I (set_proc (<[p := v']> (st_proc s)) s);
  robust_alloc_proc s v :
    I s → proc_wf v → I (set_proc (<[st_next s := v]> (st_proc s)) (set_next (st_next s + 1) s));
  robust_free_proc s p : I s → I (set_proc (delete p (st_proc s)) s);
  robust_world s w : I s → I (set_w w s);
}.

End Robust.

(** ** The protocol with the tracee *)

Section Protocol.
Context `{X : Xbt} `{Wd : World} `{!XbtLaws X} `{!StopLaws Wd} (I : st → Prop) `{!Stable I} `{!Robust I}.

Lemma upd_proc_kept p f : (∀ v, proc_wf v → proc_wf (f v)) → preserves I (upd_proc p f).
Proof. intros Hf. apply preserves_load_bind. intros v s Hs Hv. by apply (robust_put_proc s p v); auto. Qed.

Lemma proc_inside_kept proc : preserves I (proc_inside proc).
Proof. apply upd_proc_kept. intros v [_ Ht]. split; [by right|done]. Qed.
Lemma proc_outside_kept proc : preserves I (proc_outside proc).
Proof. apply upd_proc_kept. intros v [_ Ht]. split; [by left|done]. Qed.

Lemma upd_world_kept e f : preserves I (upd_world e f).
Proof. intros s Hs. unfold upd_world. destruct (f (st_w s)); [by apply robust_world|done]. Qed.
Lemma wait_ignored_kept pid : preserves I (wait_ignored pid).
Proof. intros s Hs. unfold wait_ignored. destruct (waitpid (st_w s) pid); [by apply robust_world|done]. Qed.
Lemma modify_world_kept f : preserves I (modify (λ s, set_w (f s) s)).
Proof. apply preserves_modify. intros. by apply robust_world. Qed.
Hint Resolve proc_inside_kept proc_outside_kept upd_world_kept wait_ignored_kept modify_world_kept : preserve.

Lemma ptrace_resume_process_kept pid : preserves I (ptrace_resume_process pid).
Proof. unfold ptrace_resume_process, increment_nb_syscall. frame. Qed.
Lemma ptrace_detach_process_kept pid : preserves I (ptrace_detach_process pid).
Proof. unfold ptrace_detach_process, increment_nb_detach. frame. Qed.
Hint Resolve ptrace_resume_process_kept ptrace_detach_process_kept : preserve.

Lemma ptrace_neutralize_syscall_kept pid : preserves I (ptrace_neutralize_syscall pid).
Proof. unfold ptrace_neutralize_syscall. frame. Qed.
Lemma ptrace_record_socket_kept pid : preserves I (ptrace_record_socket pid).
Proof. unfold ptrace_record_socket. frame. Qed.
Hint Resolve ptrace_neutralize_syscall_kept ptrace_record_socket_kept : preserve.

(** ** Handlers *)

Lemma syscall_default_kept reg proc : preserves I (syscall_default reg proc).
Proof. unfold syscall_default. frame. Qed.
Lemma syscall_open_kept reg proc : preserves I (syscall_open reg proc).
Proof. unfold syscall_open. frame. Qed.
Lemma syscall_creat_kept reg proc : preserves I (syscall_creat reg proc).
Proof. unfold syscall_creat, syscall_creat_post. frame. Qed.
Lemma syscall_close_kept reg proc : preserves I (syscall_close reg proc).
Proof. unfold syscall_close. frame. Qed.
Lemma syscall_dup_kept reg proc : preserves I (syscall_dup reg proc).
Proof. unfold syscall_dup, syscall_dup_post. frame. Qed.
Lemma syscall_dup2_kept reg proc : preserves I (syscall_dup2 reg proc).
Proof. unfold syscall_dup2, syscall_dup2_post. frame. Qed.
Lemma syscall_pipe_kept reg proc : preserves I (syscall_pipe reg proc).
Proof. unfold syscall_pipe, syscall_pipe_post. frame. Qed.
Lemma syscall_lseek_kept reg proc : preserves I (syscall_lseek reg proc).
Proof. unfold syscall_lseek. frame. Qed.
Lemma syscall_fcntl_any `{!AnyObject I} reg proc : preserves I (syscall_fcntl reg proc).
Proof. unfold syscall_fcntl. frame. Qed.
Lemma syscall_fcntl_kept reg proc :
  copies_fd (s32 (arg reg 1)) = false → preserves I (syscall_fcntl reg proc).
Proof. intros. unfold syscall_fcntl. frame. Qed.

Lemma syscall_socket_kept reg proc : preserves I (syscall_socket reg proc).
Proof. unfold syscall_socket. frame. Qed.
Lemma bind_finish_kept reg proc pid : preserves I (bind_finish reg proc pid).
Proof. unfold bind_finish. frame. Qed.
Hint Resolve bind_finish_kept : preserve.
Lemma syscall_bind_kept reg proc : preserves I (syscall_bind reg proc).
Proof. unfold syscall_bind, syscall_bind_pre, syscall_bind_post. frame. Qed.
Lemma process_listen_call_kept reg proc : preserves I (process_listen_call reg proc).
Proof. unfold process_listen_call. frame. Qed.
Hint Resolve process_listen_call_kept : preserve.
Lemma syscall_listen_kept reg proc : preserves I (syscall_listen reg proc).
Proof. unfold syscall_listen. frame. Qed.
Lemma connect_refuse_kept proc pid : preserves I (connect_refuse proc pid).
Proof. unfold connect_refuse. frame. Qed.
Hint Resolve connect_refuse_kept : preserve.
Lemma process_connect_in_call_kept reg proc : preserves I (process_connect_in_call reg proc).
Proof. unfold process_connect_in_call. frame. Qed.
Hint Resolve process_connect_in_call_kept : preserve.
Lemma syscall_connect_kept self handle reg proc :
  (∀ q, preserves I (handle q)) → preserves I (syscall_connect self handle reg proc).
Proof. intros H. unfold syscall_connect, syscall_connect_pre, syscall_connect_post. frame. Qed.
Lemma syscall_accept_kept self reg proc : preserves I (syscall_accept self reg proc).
Proof. unfold syscall_accept, syscall_accept_pre, syscall_accept_post. frame. Qed.
Lemma syscall_shutdown_kept reg proc : preserves I (syscall_shutdown reg proc).
Proof. unfold syscall_shutdown, syscall_shutdown_pre, syscall_shutdown_post. frame. Qed.
Lemma syscall_getpeername_kept reg proc : preserves I (syscall_getpeername reg proc).
Proof.
  unfold syscall_getpeername, syscall_getpeername_pre. frame.
  apply preserves_modify. intros s Hs. destruct (ptrace_setregs _ _ _); [by apply robust_world|done].
Qed.
Lemma syscall_getsockopt_kept reg proc : preserves I (syscall_getsockopt reg proc).
Proof. unfold syscall_getsockopt, syscall_getsockopt_pre, syscall_getsockopt_post. frame. Qed.
Lemma syscall_setsockopt_kept reg proc : preserves I (syscall_setsockopt reg proc).
Proof. unfold syscall_setsockopt, syscall_setsockopt_pre, syscall_setsockopt_post. frame. Qed.

Lemma syscall_sendto_kept reg proc : preserves I (syscall_sendto reg proc).
Proof. unfold syscall_sendto, syscall_sendto_pre, syscall_sendto_post. frame. Qed.
Lemma syscall_sendmsg_kept reg proc : preserves I (syscall_sendmsg reg proc).
Proof. unfold syscall_sendmsg. frame. Qed.
Lemma syscall_write_kept reg proc : preserves I (syscall_write reg proc).
Proof. unfold syscall_write. frame. Qed.
Lemma syscall_recvfrom_kept self reg proc : preserves I (syscall_recvfrom self reg proc).
Proof. unfold syscall_recvfrom, syscall_recvfrom_pre, syscall_recvfrom_post. frame. Qed.
Lemma syscall_recvmsg_kept self reg proc : preserves I (syscall_recvmsg self reg proc).
Proof. unfold syscall_recvmsg, syscall_recvmsg_pre, syscall_recvmsg_post. frame. Qed.
Lemma syscall_read_kept self reg proc : preserves I (syscall_read self reg proc).
Proof. unfold syscall_read, syscall_read_pre. frame. Qed.
Lemma syscall_poll_kept reg proc : preserves I (syscall_poll reg proc).
Proof. unfold syscall_poll, syscall_poll_pre, syscall_poll_post. frame. Qed.
Lemma syscall_select_kept reg proc : preserves I (syscall_select reg proc).
Proof. unfold syscall_select, syscall_select_pre. frame. Qed.

(** ** Creation and end of a process *)

Lemma alloc_proc_kept v : proc_wf v → preserves I (alloc_proc v).
Proof. intros Hv s Hs. exact (robust_alloc_proc s v Hs Hv). Qed.
Lemma free_proc_kept p : preserves I (free_proc p).
Proof. apply preserves_load_bind. intros v s Hs _. by apply robust_free_proc. Qed.
Hint Resolve free_proc_kept : preserve.

Lemma register_file_descriptor_kept p fd type :
  type ≠ FD_SOCKET → preserves I (register_file_descriptor p fd type).
Proof. intros. unfold register_file_descriptor. apply preserves_bind; [by apply preserves_alloc_fd|frame]. Qed.
Lemma std_type_plain fd : std_type fd ≠ FD_SOCKET.
Proof. unfold std_type. repeat case_match; by vm_compute. Qed.
Hint Resolve register_file_descriptor_kept std_type_plain : preserve.
Lemma register_entries_kept l : ∀ p fd, preserves I (register_entries p fd l).
Proof. induction l; intros; simpl; frame. Qed.
Hint Resolve register_entries_kept : preserve.

(** Updates of the other fields of a process. *)
Lemma upd_proc_same_kept p f :
  (∀ v, in_syscall (f v) = in_syscall v ∧ fd_map (f v) = fd_map v) → preserves I (upd_proc p f).
Proof. intros Hf. apply upd_proc_kept. intros v [H1 H2]. destruct (Hf v) as [E1 E2]. split; by rewrite ?E1, ?E2. Qed.
Hint Extern 1 (preserves I (upd_proc _ _)) => (apply upd_proc_same_kept; intros; by split) : preserve.

Lemma process_descriptor_new_kept name argv0 pid : preserves I (process_descriptor_new name argv0 pid).
Proof.
  unfold process_descriptor_new. apply preserves_bind; [|frame].
  apply alloc_proc_kept. split; [by left|]. intros k x. cbn. by rewrite dict_get_new.
Qed.

Lemma process_die_kept proc : preserves I (process_die proc).
Proof. unfold process_die, process_descriptor_destroy. frame. Qed.
Hint Resolve process_descriptor_new_kept process_die_kept : preserve.

Lemma clone_number_kept : preserves I (modify (λ s, set_clone_number (s32 (clone_number s + 1)) s)).
Proof. apply preserves_modify. intros. by apply stable_clone_number. Qed.
Hint Resolve clone_number_kept : preserve.

Lemma syscall_clone_kept `{!AnyObject I} self reg proc : preserves I (syscall_clone self reg proc).
Proof.
  unfold syscall_clone, clone_event. frame.
Qed.
Lemma syscall_execve_kept fuel reg proc : preserves I (syscall_execve fuel reg proc).
Proof. unfold syscall_execve. frame. Qed.
Lemma syscall_exit_kept reg proc : preserves I (syscall_exit reg proc).
Proof. unfold syscall_exit. frame. Qed.
Lemma syscall_getpid_kept reg proc : preserves I (syscall_getpid reg proc).
Proof. unfold syscall_getpid. frame. Qed.
Lemma syscall_tuxcall_kept reg proc : preserves I (syscall_tuxcall reg proc).
Proof. unfold syscall_tuxcall, syscall_tuxcall_post. frame. Qed.
Lemma syscall_brk_kept reg proc : preserves I (syscall_brk reg proc).
Proof. unfold syscall_brk. frame. Qed.

(** ** The loops *)

Lemma continue_kept m : preserves I m → preserves I (continue m).
Proof. intros. unfold continue. frame. Qed.
Lemma return_if_kept m : preserves I m → preserves I (return_if m).
Proof. intros. unfold return_if. frame. Qed.

(** The calls that make a descriptor with the type of another one. *)
Definition copying (reg : reg_s) : bool :=
  (reg_orig reg =? SYS_clone) || ((reg_orig reg =? SYS_fcntl) && copies_fd (s32 (arg reg 1))).

Lemma fcntl_or_copying reg proc :
  (copying reg = true → AnyObject I) → (reg_orig reg =? SYS_fcntl) = true → preserves I (syscall_fcntl reg proc).
Proof.
  intros H E. unfold copying in H. rewrite E in H. destruct (copies_fd (s32 (arg reg 1))) eqn:Ec.
  - assert (AnyObject I) by (apply H; by rewrite orb_true_r). by apply syscall_fcntl_any.
  - by apply syscall_fcntl_kept.
Qed.
Lemma clone_or_copying self reg proc :
  (copying reg = true → AnyObject I) → (reg_orig reg =? SYS_clone) = true → preserves I (syscall_clone self reg proc).
Proof.
  intros H E. assert (AnyObject I) by (apply H; unfold copying; by rewrite E). by apply syscall_clone_kept.
Qed.

Lemma dispatch_kept self fuel handle reg proc :
  (copying reg = true → AnyObject I) → (∀ q, preserves I (handle q)) →
  preserves I (dispatch self fuel handle reg proc).
Proof.
  intros Ha H. unfold dispatch. cbv zeta.
  repeat match goal with
  | |- preserves I (if ?b then _ else _) => destruct b eqn:?
  end;
  first [apply continue_kept | apply return_if_kept | apply preserves_bind; [|frame]];
  eauto using syscall_default_kept, syscall_open_kept, syscall_creat_kept, syscall_close_kept, syscall_dup_kept,
    syscall_dup2_kept, syscall_pipe_kept, syscall_lseek_kept, fcntl_or_copying, syscall_socket_kept,
    syscall_bind_kept, syscall_listen_kept, syscall_connect_kept, syscall_accept_kept, syscall_shutdown_kept,
    syscall_getpeername_kept, syscall_getsockopt_kept, syscall_setsockopt_kept, syscall_sendto_kept,
    syscall_sendmsg_kept, syscall_write_kept, syscall_recvfrom_kept, syscall_recvmsg_kept, syscall_read_kept,
    syscall_poll_kept, syscall_select_kept, clone_or_copying, syscall_execve_kept, syscall_exit_kept,
    syscall_getpid_kept, syscall_tuxcall_kept, syscall_brk_kept, preserves_bind.
Qed.

Lemma wait_status_kept proc pid : preserves I (wait_status proc pid).
Proof. unfold wait_status. frame. Qed.
Hint Resolve wait_status_kept : preserve.

Context `{!AnyObject I}.

Lemma handle_loop_kept fuel self : ∀ pid proc, preserves I (handle_loop fuel self pid proc).
Proof.
  induction fuel as [|fuel IH]; intros pid proc; simpl; [frame|].
  apply preserves_bind; [frame|intros reg]. apply preserves_bind; [|frame; apply IH].
  apply dispatch_kept; [done|]. intros q. apply preserves_bind; [frame|intros p; apply IH].
Qed.
Hint Resolve handle_loop_kept : preserve.

Lemma process_handle_kept fuel self proc : preserves I (process_handle fuel self proc).
Proof. unfold process_handle. frame. Qed.
Hint Resolve process_handle_kept : preserve.
Lemma treatment_kept fuel self proc : preserves I (treatment fuel self proc).
Proof. unfold treatment. frame. Qed.
Hint Resolve treatment_kept : preserve.
Lemma track_kept turns fuel self proc : preserves I (track turns fuel self proc).
Proof. induction turns; simpl; frame. Qed.
Hint Resolve track_kept : preserve.

Lemma setoptions_kept pid : preserves I (upd_world Xbt_die (λ w, ptrace_setoptions w pid)).
Proof. apply upd_world_kept. Qed.
Lemma runner_kept turns fuel self argv0 pid :
  preserves I (simterpose_process_runner turns fuel self argv0 pid).
Proof. unfold simterpose_process_runner, increment_nb_setoptions. frame. Qed.
Lemma main_loop_kept turns fuel self proc : preserves I (main_loop turns fuel self proc).
Proof. induction turns; simpl; frame. Qed.

Lemma set_list_ip_kept f : preserves I (modify (λ s, set_list_ip (f s) s)).
Proof. apply preserves_modify. intros. by apply stable_list_ip. Qed.
Lemma set_list_translate_kept v : preserves I (modify (set_list_translate v)).
Proof. apply preserves_modify. intros. by apply stable_list_translate. Qed.
Lemma set_cnt_kept v : preserves I (modify (set_cnt v)).
Proof. apply preserves_modify. intros. by apply stable_cnt. Qed.
Hint Resolve set_list_ip_kept set_list_translate_kept set_cnt_kept : preserve.

Lemma init_host_given_kept work : ∀ i no_ip ips, preserves I (init_host_given i work no_ip ips).
Proof. induction work; intros; simpl; unfold add_host; frame. Qed.
Lemma init_host_rest_kept fuel : ∀ work no_ip ips ip, preserves I (init_host_rest fuel work no_ip ips ip).
Proof. induction fuel; intros; cbn [init_host_rest]; unfold add_host; frame. Qed.
Hint Resolve init_host_given_kept init_host_rest_kept : preserve.

Lemma simterpose_globals_init_kept : preserves I simterpose_globals_init.
Proof.
  unfold simterpose_globals_init.
  apply preserves_bind; [apply (set_list_host_neutral I (λ _, xbt_dict_new))|intros _].
  apply preserves_bind; [apply (set_list_ip_kept (λ _, xbt_dict_new))|frame].
Qed.
Lemma init_host_list_kept : preserves I init_host_list.
Proof. unfold init_host_list. frame. Qed.
Hint Resolve simterpose_globals_init_kept init_host_list_kept : preserve.

Lemma simterpose_init_kept : preserves I simterpose_init.
Proof. unfold simterpose_init, init_socket_gestion, comm_init. frame. Qed.

(** [main], when MSG keeps the invariant, and so does the option --strace. *)
Lemma main_kept `{Nl : Netlink} strtof create launch simulate posix fuel rnd times nw args :
  (∀ s v, I s → I (set_strace_option v s)) → (∀ f, preserves I (create f)) → (∀ f, preserves I (launch f)) →
  preserves I simulate → preserves I (main strtof create launch simulate posix fuel rnd times nw args).
Proof.
  intros Hs Hc Hl Hm. assert (preserves I (modify (set_strace_option 1))) as Ho.
  { apply preserves_modify. intros. by apply Hs. }
  unfold main, with_netlink, init_socket_gestion, comm_init. frame.
Qed.

End Protocol.
