(* ===== verification/WellFormed.v ===== *)
(** A well-formedness invariant of the whole simulator: no object lies at [NULL] or
    above the next free address, no descriptor table holds a null pointer, and the
    one-bit field [in_syscall] is 0 or -1. Every handler, the main loops and the end
    of a process keep it, also at every point where they yield to other processes. *)
From S2P Require Import Prelude Libc External State Monad Frames Reference DataUtils.
From S2P Require Import ProcessDescriptor PtraceUtils Sockets Print Communication.
From S2P Require Import SocketOps SysFiles SysNet SysData SysProc Neutral Dispatch Cputimer Main Robust.
Open Scope sim_scope.

Section WellFormed.
Context `{X : Xbt} `{Wd : World}.

Record wf (s : st) : Prop := {
  wf_heap : heap_ok s;
  wf_proc : ∀ p v, st_proc s !! p = Some v → proc_wf v;
}.

(** Storing a well-formed process at the address of a process. *)
Lemma wf_put_proc s p v v' :
  wf s → st_proc s !! p = Some v → proc_wf v' → wf (set_proc (<[p := v']> (st_proc s)) s).
Proof.
  intros [[] Hp] Hv Hv'. split.
  - split; st_cbn; try done. apply bounded_insert; [done|]. apply ho_proc. by eexists.
  - st_cbn. intros q u. destruct (decide (q = p)) as [->|Hq].
    + rewrite lookup_insert_eq. by intros [= <-].
    + rewrite lookup_insert_ne by done. apply Hp.
Qed.

#[export] Instance wf_stable : Stable wf.
Proof.
  split.
  all: try (intros s v [[] Hp]; split; [split; st_cbn; try done; try by apply bounded_delete|done]).
  all: try (intros s p v [[] Hp] Hl; split; [split; st_cbn; try done; apply bounded_insert; eauto|done]).
  all: try (intros s v [[] Hp] _; split; [split; st_cbn; try done|done]).
  all: try (intros s p v v' [[] Hp] Hl _; split; [split; st_cbn; try done; apply bounded_insert; eauto|done]).
  all: try (intros s p [[] Hp]; split; [split; st_cbn; try done; by apply bounded_delete|done]).
  all: try (eapply bounded_weaken; [done|lia]); try lia.
  all: try (apply bounded_insert; [eapply bounded_weaken; [done|lia]|lia]).
  - intros s p v v' Hs Hv Hst. apply (wf_put_proc s p v); [done|done|].
    apply (proc_step_wf v); [done|]. by apply (wf_proc s Hs p).
Qed.

#[export] Instance wf_any : AnyObject wf.
Proof.
  intros s v [[] Hp]. split; [|done]. split; st_cbn; try (eapply bounded_weaken; [done|lia]); [lia|].
  apply bounded_insert; [eapply bounded_weaken; [done|lia]|lia].
Qed.

#[export] Instance wf_robust : Robust wf.
Proof.
  split.
  - intros s p v v' Hs Hv Hv'. apply (wf_put_proc s p v); [done|done|]. apply Hv', (wf_proc s Hs p v Hv).
  - intros s v [[] Hp] Hv. split; st_cbn.
    + split; st_cbn; try (eapply bounded_weaken; [done|lia]); [lia|].
      apply bounded_insert; [eapply bounded_weaken; [done|lia]|lia].
    + intros q u. destruct (decide (q = st_next s)) as [->|Hq]; [rewrite lookup_insert_eq; by intros [= <-]|].
      rewrite lookup_insert_ne by done. apply Hp.
  - intros s p [[] Hp]. split; st_cbn; [split; st_cbn; try done; by apply bounded_delete|].
    intros q u [_ Hu]%lookup_delete_Some. by apply (Hp q).
  - intros s w [[] Hp]. by split.
Qed.

Lemma wf_strace s v : wf s → wf (set_strace_option v s).
Proof. intros [[] Hp]. by split. Qed.

(** [main], for any MSG that keeps the invariant. *)
Definition main_keeps `{Nl : Netlink} (s : st) : Prop :=
  ∀ strtof create launch simulate posix fuel rnd times nw args,
    (∀ f, preserves wf (create f)) → (∀ f, preserves wf (launch f)) → preserves wf simulate →
    keeps wf (main strtof create launch simulate posix fuel rnd times nw args s).

End WellFormed.

(** ** Property *)

Section WellFormedProperty.
Context `{X : Xbt} `{Wd : World} `{Nl : Netlink} `{!XbtLaws X} `{!StopLaws Wd}.

(** The invariant [wf] holds for the whole run of the simulator. From a
    well-formed state it holds at every point where a process yields to another one
    and at the end of: the initialisation, the handling of the system calls of a
    process, the life of a traced process until its end and the life of a clone; it
    holds through the whole of [main] too, for any MSG that keeps it. In
    particular no null pointer ever gets into a descriptor table or designates an
    object, fresh objects never overwrite live ones, and [in_syscall] is 0 or -1. *)
Lemma simulator_keeps_wf s turns fuel self argv0 pid proc :
  wf s →
  keeps wf (simterpose_init s) ∧ keeps wf (process_handle fuel self proc s) ∧
  keeps wf (simterpose_process_runner turns fuel self argv0 pid s) ∧
  keeps wf (main_loop turns fuel self proc s) ∧ main_keeps s.
Proof.
  intros Hs. split; [by apply simterpose_init_kept; try apply _|]. split; [by apply process_handle_kept; try apply _|]. split.
  - revert s Hs. apply runner_kept; apply _.
  - split; [revert s Hs; apply main_loop_kept; apply _|]. intros strtof create launch simulate posix f rnd times nw args.
    intros H1 H2 H3. by apply main_kept; try apply _; [apply wf_strace|..].
Qed.

End WellFormedProperty.

(** A process at 10 with one socket, in a state whose heap is checked. *)
Lemma sock_example_wf : wf sock_example.
Proof.
  split; [apply heap_check_ok; vm_compute; reflexivity|]. intros p v.
  unfold sock_example, proc_example. st_cbn. intros Hv. apply lookup_singleton_Some in Hv as [_ <-].
  split; [by left|]. intros k x. cbn. destruct (String.eqb k (int_key 3)); [|done]. by intros [= <-].
Qed.
