(* ===== verification/Mediation.v ===== *)
(** The protocol between SimTerpose and a tracee: [in_syscall] is what SimTerpose
    believes about the stop of a tracee, [at_entry] what the stop is. [ends] and
    [triple] are a small program logic about runs that yield to other processes;
    with them, the handlers are shown to keep the two in step, and the calls that
    break them apart are shown to do so. *)
From S2P Require Import Prelude Libc External State Monad Frames Reference DataUtils.
From S2P Require Import ProcessDescriptor PtraceUtils Sockets Print Communication.
From S2P Require Import SocketOps SysFiles SysNet SysData SysProc Neutral Dispatch.
Open Scope sim_scope.

(** ** Triples over runs that yield *)

Section Logic.
Context `{X : Xbt} `{Wd : World}.

(** [Q] at the end of a run; at a yield the other processes change the state as
    [R] allows. *)
Fixpoint ends {A} (R : st → st → Prop) (Q : A → st → Prop) (o : outcome A) : Prop :=
  match o with
  | Done a s => Q a s
  | Failed _ _ => True
  | Block _ s k => ∀ x s', R s s' → ends R Q (k x s')
  end.

Definition triple {A} (R : st → st → Prop) (P : st → Prop) (m : M A) (Q : A → st → Prop) : Prop :=
  ∀ s, P s → ends R Q (m s).

Lemma ends_obind {A B} R (o : outcome A) (f : A → M B) Q :
  ends R (λ a s, ends R Q (f a s)) o → ends R Q (obind o f).
Proof. induction o as [| |r s k IH]; simpl; [done|done|]. intros H x s' Hs. by apply IH, H. Qed.

Lemma ends_obind_inv {A B} R (o : outcome A) (f : A → M B) Q :
  ends R Q (obind o f) → ends R (λ a s, ends R Q (f a s)) o.
Proof. induction o as [| |r s k IH]; simpl; [done|done|]. intros H x s' Hs. by apply IH, H. Qed.

Lemma ends_mono {A} R (o : outcome A) (Q Q' : A → st → Prop) :
  (∀ a s, Q a s → Q' a s) → ends R Q o → ends R Q' o.
Proof. intros HQ. induction o; simpl; eauto. Qed.

Lemma triple_bind {A B} R P (m : M A) (f : A → M B) P' Q :
  triple R P m P' → (∀ a, triple R (P' a) (f a) Q) → triple R P (bind m f) Q.
Proof. intros Hm Hf s Hs. apply ends_obind. eapply ends_mono, Hm, Hs. intros a s'. apply Hf. Qed.

Lemma triple_assoc {A B C} R P (m : M A) (f : A → M B) (g : B → M C) Q :
  triple R P (bind m (λ a, bind (f a) g)) Q → triple R P (bind (bind m f) g) Q.
Proof.
  intros H s Hs. apply ends_obind, ends_obind. specialize (H s Hs). apply ends_obind_inv in H.
  revert H. apply ends_mono. intros a s'. apply ends_obind_inv.
Qed.

Lemma triple_ret_bind {A B} R P (a : A) (f : A → M B) Q :
  triple R P (f a) Q → triple R P (bind (ret a) f) Q.
Proof. by intros H. Qed.
Lemma triple_fail_bind {A B} R P e (f : A → M B) Q : triple R P (bind (@fail _ _ A e) f) Q.
Proof. done. Qed.
Lemma triple_fail {A} R P e Q : triple R P (@fail _ _ A e) Q.
Proof. done. Qed.
Lemma triple_done {A} R (P : st → Prop) (a : A) (Q : A → st → Prop) :
  (∀ s, P s → Q a s) → triple R P (ret a) Q.
Proof. intros H s. apply H. Qed.

(** An invariant that the other processes keep. *)
Lemma keeps_ends {A} (R : st → st → Prop) (I : st → Prop) (o : outcome A) :
  (∀ s s', R s s' → I s → I s') → keeps I o → ends R (λ _, I) o.
Proof.
  intros HR. induction o as [| |r s k IH]; simpl; [done|done|]. intros [Hs Hk] x s' Hs'.
  apply IH, Hk. by apply (HR s).
Qed.

End Logic.

(** ** The stop of a tracee *)

Section Stop.
Context `{X : Xbt} `{Wd : World} (proc pid : Z).

(** SimTerpose takes the tracee [pid], described at [proc], to be outside a system
    call ([b]), and it is stopped at an entry ([c]). *)
Definition stop (b c : bool) (s : st) : Prop :=
  (∃ p, st_proc s !! proc = Some p ∧ pd_pid p = pid ∧ (in_syscall p =? 0) = b) ∧
  at_entry (st_w s) pid = c.

(** The other processes leave the stop of the tracee alone. *)
Definition others (s s' : st) : Prop := ∀ b c, stop b c s → stop b c s'.

(** Before the switch on the system call: at an entry, outside; at an exit, inside. *)
Definition in_step (s : st) : Prop := ∃ b, stop b b s.

(** Before the tracee is resumed: at an entry, inside; at an exit, outside. *)
Definition handled (s : st) : Prop := ∃ b, stop b (negb b) s.

#[export] Instance stop_stable b c : Stable (stop b c).
Proof.
  split; try done; try (intros s p v v' H _ _; exact H).
  - intros s p v v' [(u & Hu & Hp & Hb) Hc] Hv (E1 & E2 & _). split; [|done]. st_cbn.
    destruct (decide (p = proc)) as [->|Hne].
    + rewrite lookup_insert_eq. rewrite Hu in Hv. injection Hv as <-.
      exists v'. by rewrite E1, E2.
    + rewrite lookup_insert_ne by done. by exists u.
  - intros s w [Hp Hc] Hw. split; [done|]. st_cbn. by rewrite Hw.
Qed.

#[export] Instance stop_any b c : AnyObject (stop b c).
Proof. intros s v H. exact H. Qed.

Context `{!XbtLaws X} `{!TraceLaws Wd} `{!StopLaws Wd}.
Abbreviation step_triple := (triple others).

Lemma triple_neutral {A B} b c (m : M A) (f : A → M B) Q :
  preserves (stop b c) m → (∀ a, step_triple (stop b c) (f a) Q) →
  step_triple (stop b c) (bind m f) Q.
Proof.
  intros Hm Hf. apply (triple_bind _ _ _ _ (λ _, stop b c)); [|done]. intros s Hs.
  apply keeps_ends; [|by apply Hm]. intros s1 s2 H. apply H.
Qed.

Lemma triple_tail {A} b c (m : M A) (Q : A → st → Prop) :
  preserves (stop b c) m → (∀ a s, stop b c s → Q a s) → step_triple (stop b c) m Q.
Proof.
  intros Hm HQ s Hs. eapply ends_mono; [apply HQ|].
  apply keeps_ends; [|by apply Hm]. intros s1 s2 H. apply H.
Qed.

Lemma triple_get_proc {B} b c (f : process_descriptor → M B) Q :
  (∀ p, pd_pid p = pid → step_triple (stop b c) (f p) Q) →
  step_triple (stop b c) (bind (get_proc proc) f) Q.
Proof.
  intros H s Hs. destruct Hs as [(p & Hp & Hpid & Hb) Hc].
  unfold get_proc. rewrite (bind_done _ _ _ _ _ (load_eval _ _ _ _ Hp)).
  apply H; [done|]. split; [by exists p|done].
Qed.

Lemma triple_entering {B} b c (f : bool → M B) Q :
  step_triple (stop b c) (f b) Q → step_triple (stop b c) (bind (proc_entering proc) f) Q.
Proof.
  intros H s Hs. pose proof Hs as [(p & Hp & _ & Hb) _].
  rewrite (bind_done _ _ _ _ _ (proc_entering_eval _ _ _ Hp)), Hb. by apply H.
Qed.

Lemma set_in_syscall_stop {B} v b' b c (f : unit → M B) Q :
  (swrap 1 v =? 0) = b' → step_triple (stop b' c) (f tt) Q →
  step_triple (stop b c) (bind (upd_proc proc (set_in_syscall v)) f) Q.
Proof.
  intros Hv H s [(p & Hp & Hpid & Hb) Hc].
  rewrite (bind_done _ _ _ _ _ (upd_proc_eval _ _ _ _ Hp)). apply H. split; [|done]. st_cbn.
  rewrite lookup_insert_eq. by exists (set_in_syscall v p).
Qed.
Lemma triple_inside {B} b c (f : unit → M B) Q :
  step_triple (stop false c) (f tt) Q → step_triple (stop b c) (bind (proc_inside proc) f) Q.
Proof. by apply set_in_syscall_stop. Qed.
Lemma triple_outside {B} b c (f : unit → M B) Q :
  step_triple (stop true c) (f tt) Q → step_triple (stop b c) (bind (proc_outside proc) f) Q.
Proof. by apply set_in_syscall_stop. Qed.

Lemma step_tail {A} P (m : M A) Q :
  step_triple P (bind m ret) Q → step_triple P m Q.
Proof. intros H s Hs. specialize (H s Hs). by apply ends_obind_inv in H. Qed.

(** Resumed, the tracee is on its way to its next stop. *)
Definition moving (b c : bool) (s : st) : Prop :=
  (∃ p, st_proc s !! proc = Some p ∧ pd_pid p = pid ∧ (in_syscall p =? 0) = b) ∧
  ∃ w, at_entry w pid = c ∧ ptrace_syscall w pid = Some (st_w s).

Lemma triple_resume {B} b c (f : unit → M B) Q :
  step_triple (moving b c) (f tt) Q →
  step_triple (stop b c) (bind (ptrace_resume_process pid) f) Q.
Proof.
  intros H s [(p & Hp & Hpid & Hb) Hc]. unfold ptrace_resume_process.
  apply ends_obind, ends_obind. simpl. unfold upd_world. st_cbn.
  destruct (ptrace_syscall (st_w s) pid) as [w1|] eqn:E1; [|done]. simpl.
  apply H. split; [by exists p|]. by exists (st_w s).
Qed.

(** The kind of the stop last reported to the loop decides where the tracee is. *)
Definition stopped (b c : bool) (s : st) : Prop := ∃ p, st_proc s !! proc = Some p ∧
  (syscall_stop (pd_status p) = true → stop b (negb c) s) ∧
  (event_stop (pd_status p) || signal_stop (pd_status p) = true → stop b c s).

Lemma triple_wait_status {B} b c (f : bool → M B) Q :
  step_triple (stopped b c) (f false) Q →
  step_triple (moving b c) (bind (wait_status proc pid) f) Q.
Proof.
  intros H s [(p & Hp & Hpid & Hb) (w & Hw & E)]. destruct (next_stop _ _ _ E) as [[status w'] E'].
  set (s' := set_proc (<[proc := set_status status p]> (st_proc s)) (set_w w' s)).
  assert (wait_status proc pid s = Done false s') as Hd.
  { unfold wait_status. ev. rewrite E'. ev. by ev. }
  assert (∃ q, st_proc s' !! proc = Some q ∧ pd_pid q = pid ∧ (in_syscall q =? 0) = b) as Hq.
  { unfold s'. st_cbn. rewrite lookup_insert_eq. by exists (set_status status p). }
  rewrite (bind_done _ _ _ _ _ Hd). apply H. exists (set_status status p).
  split; [unfold s'; st_cbn; apply lookup_insert_eq|]. cbn [pd_status set_status]. split; intros Hs; (split; [exact Hq|]).
  - unfold s'. st_cbn. by rewrite (stops_alternate _ _ _ _ _ E E' Hs), Hw.
  - unfold s'. st_cbn. by rewrite (other_stops _ _ _ _ _ E E' Hs), Hw.
Qed.

(** A call that is replaced at its entry stops at its exit. *)
Lemma triple_neutralize {B} b (f : unit → M B) Q :
  step_triple (stop b false) (f tt) Q →
  step_triple (stop b true) (bind (ptrace_neutralize_syscall pid) f) Q.
Proof.
  intros H s [Hp Hc]. destruct (ptrace_getregs (st_w s) pid) as [r|] eqn:Hr.
  - destruct (neutralize_alone s pid r Hc Hr) as (c & w & E & (_ & He & _) & _).
    rewrite (bind_done _ _ _ _ _ E). apply H. by split.
  - apply ends_obind. unfold ptrace_neutralize_syscall, getregs, bind, ask_world. simpl. by rewrite Hr.
Qed.

(** The two stops of [ptrace_record_socket], which does not look at their statuses, when
    they are system call stops. *)
Definition syscall_stops_only : Prop := ∀ w w1 status w2,
  ptrace_syscall w pid = Some w1 → waitpid w1 pid = Some (status, w2) → syscall_stop status = true.

Lemma triple_wait {B} b c (f : unit → M B) Q :
  syscall_stops_only → step_triple (stop b (negb c)) (f tt) Q →
  step_triple (moving b c) (bind (wait_ignored pid) f) Q.
Proof.
  intros Ho H s [Hp (w & Hw & E)]. destruct (next_stop _ _ _ E) as [[status w'] E'].
  apply ends_obind. unfold wait_ignored. rewrite E'. simpl. apply H. split; [done|].
  st_cbn. by rewrite (stops_alternate _ _ _ _ _ E E' (Ho _ _ _ _ E E')), Hw.
Qed.

Lemma triple_record_socket {B} b c (f : Z → M B) Q :
  syscall_stops_only → (∀ a, step_triple (stop b c) (f a) Q) →
  step_triple (stop b c) (bind (ptrace_record_socket pid) f) Q.
Proof.
  intros Ho H. unfold ptrace_record_socket.
  do 3 (apply triple_assoc, triple_neutral; [frame|intros ?]).
  apply triple_assoc, triple_resume, triple_assoc, triple_wait; [done|].
  do 3 (apply triple_assoc, triple_neutral; [frame|intros ?]).
  apply triple_assoc, triple_resume, triple_assoc, triple_wait; [done|]. rewrite negb_involutive. apply H.
Qed.

(** [getpeername] sets the registers without a test. *)
Lemma setregs_untested b c r :
  preserves (stop b c) (modify (λ s, match ptrace_setregs (st_w s) pid (r s) with
                                     | Some w => set_w w s | None => s end)).
Proof.
  apply preserves_modify. intros s Hs. destruct (ptrace_setregs _ _ _) as [w|] eqn:E; [|done].
  apply (stable_world (I := stop b c)); [done|]. intros p. by eapply setregs_stop.
Qed.

End Stop.

(** ** A handler, step by step

    [walk] takes the first operation of a handler: what concerns the stop by its
    rule, the rest as neutral. *)
Section Handlers.
Context `{X : Xbt} `{Wd : World} `{!XbtLaws X} `{!TraceLaws Wd} `{!StopLaws Wd} (proc pid : Z).

Lemma handled_at {A} b c (a : A) s : c = negb b → stop proc pid b c s → handled proc pid s.
Proof. intros ->. by exists b. Qed.

End Handlers.

Ltac walk_step :=
  match goal with
  | |- triple _ _ (fail _) _ => apply triple_fail
  | |- triple _ _ (bind (fail _) _) _ => apply triple_fail_bind
  | |- triple _ _ (bind (ret _) _) _ => apply triple_ret_bind
  | |- triple _ _ (bind (get_proc _) _) _ => apply triple_get_proc; intros ? ->
  | |- triple _ _ (bind (proc_entering _) _) _ => apply triple_entering
  | |- triple _ _ (bind (proc_inside _) _) _ => apply triple_inside
  | |- triple _ _ (bind (proc_outside _) _) _ => apply triple_outside
  | |- triple _ _ (bind (ptrace_neutralize_syscall _) _) _ => apply triple_neutralize
  | |- triple _ _ (bind (ptrace_record_socket _) _) _ => apply triple_record_socket; try assumption; try intros ?
  | |- triple _ _ (proc_inside _) _ => apply step_tail
  | |- triple _ _ (proc_outside _) _ => apply step_tail
  | |- triple _ _ (bind _ _) _ => apply triple_neutral; [solve [frame]|intros ?]
  | |- triple _ (stop _ _ ?b ?c) (ret _) _ => apply triple_done; intros ? ?; by eapply (handled_at _ _ b c)
  | |- triple _ (stop _ _ ?b ?c) _ _ =>
      apply triple_tail; [solve [frame]|intros ? ? ?; by eapply (handled_at _ _ b c)]
  | |- triple _ _ (bind (modify (λ _, match ptrace_setregs _ _ _ with _ => _ end)) _) _ =>
      apply triple_neutral; [apply setregs_untested|intros ?]
  | |- triple _ _ (bind (bind _ _) _) _ => apply triple_assoc
  | |- triple _ _ (bind (match ?x with _ => _ end) _) _ => destruct x
  | |- triple _ _ (match ?x with _ => _ end) _ => destruct x
  | |- StopLaws _ => typeclasses eauto
  | |- TraceLaws _ => typeclasses eauto
  end; simpl negb; cbv beta iota.
Ltac walk := repeat walk_step.

Create HintDb in_time discriminated.
#[local] Hint Constants Opaque : in_time.

Section Calls.
Context `{X : Xbt} `{Wd : World} `{!XbtLaws X} `{!TraceLaws Wd} `{!StopLaws Wd} (proc pid : Z).

(** A handler that keeps SimTerpose and the tracee in step. *)
Definition in_time {A} (m : M A) : Prop :=
  ∀ b, triple (others proc pid) (stop proc pid b b) m (λ _, handled proc pid).

Lemma syscall_open_in_time reg : in_time (syscall_open reg proc).
Proof. intros []; unfold syscall_open; walk. Qed.
Lemma syscall_creat_in_time reg : in_time (syscall_creat reg proc).
Proof. intros []; unfold syscall_creat, syscall_creat_post; walk. Qed.
Lemma syscall_dup_in_time reg : in_time (syscall_dup reg proc).
Proof. intros []; unfold syscall_dup, syscall_dup_post; walk. Qed.
Lemma syscall_dup2_in_time reg : in_time (syscall_dup2 reg proc).
Proof. intros []; unfold syscall_dup2, syscall_dup2_post; walk. Qed.
Lemma syscall_lseek_in_time reg : in_time (syscall_lseek reg proc).
Proof. intros []; unfold syscall_lseek; walk. Qed.
Lemma syscall_fcntl_in_time reg : in_time (syscall_fcntl reg proc).
Proof. intros []; unfold syscall_fcntl; walk. Qed.
Lemma syscall_socket_in_time reg : in_time (syscall_socket reg proc).
Proof. intros []; unfold syscall_socket; walk. Qed.
Lemma syscall_bind_in_time reg : in_time (syscall_bind reg proc).
Proof. intros []; unfold syscall_bind, syscall_bind_pre, bind_finish, syscall_bind_post; walk. Qed.
Lemma syscall_listen_in_time reg : in_time (syscall_listen reg proc).
Proof. intros []; unfold syscall_listen, process_listen_call; walk. Qed.
Lemma syscall_accept_in_time self reg :
  syscall_stops_only pid → in_time (syscall_accept self reg proc).
Proof. intros ? []; unfold syscall_accept, syscall_accept_pre, syscall_accept_post; walk. Qed.
Lemma syscall_shutdown_in_time reg : in_time (syscall_shutdown reg proc).
Proof. intros []; unfold syscall_shutdown, syscall_shutdown_pre, syscall_shutdown_post; walk. Qed.
Lemma syscall_getpeername_in_time reg : in_time (syscall_getpeername reg proc).
Proof. intros []; unfold syscall_getpeername, syscall_getpeername_pre; walk. Qed.
Lemma syscall_getsockopt_in_time reg : in_time (syscall_getsockopt reg proc).
Proof. intros []; unfold syscall_getsockopt, syscall_getsockopt_pre, syscall_getsockopt_post; walk. Qed.
Lemma syscall_setsockopt_in_time reg : in_time (syscall_setsockopt reg proc).
Proof. intros []; unfold syscall_setsockopt, syscall_setsockopt_pre, syscall_setsockopt_post; walk. Qed.
Lemma syscall_sendto_in_time reg : in_time (syscall_sendto reg proc).
Proof. intros []; unfold syscall_sendto, syscall_sendto_pre, syscall_sendto_post; walk. Qed.
Lemma syscall_sendmsg_in_time reg : in_time (syscall_sendmsg reg proc).
Proof. intros []; unfold syscall_sendmsg; walk. Qed.
Lemma syscall_write_in_time reg : in_time (syscall_write reg proc).
Proof. intros []; unfold syscall_write; walk. Qed.
Lemma syscall_recvfrom_in_time self reg : in_time (syscall_recvfrom self reg proc).
Proof. intros []; unfold syscall_recvfrom, syscall_recvfrom_pre, syscall_recvfrom_post; walk. Qed.
Lemma syscall_recvmsg_in_time self reg : in_time (syscall_recvmsg self reg proc).
Proof. intros []; unfold syscall_recvmsg, syscall_recvmsg_pre, syscall_recvmsg_post; walk. Qed.
Lemma syscall_read_in_time self reg : in_time (syscall_read self reg proc).
Proof. intros []; unfold syscall_read, syscall_read_pre; walk. Qed.
Lemma syscall_poll_in_time reg : in_time (syscall_poll reg proc).
Proof. intros []; unfold syscall_poll, syscall_poll_pre, syscall_poll_post; walk. Qed.
Lemma syscall_select_in_time reg : in_time (syscall_select reg proc).
Proof. intros []; unfold syscall_select, syscall_select_pre; walk. Qed.
Lemma syscall_getpid_in_time reg : in_time (syscall_getpid reg proc).
Proof. intros []; unfold syscall_getpid; walk. Qed.
Lemma syscall_tuxcall_in_time reg : in_time (syscall_tuxcall reg proc).
Proof. intros []; unfold syscall_tuxcall, syscall_tuxcall_post; walk. Qed.
Lemma syscall_brk_in_time reg : in_time (syscall_brk reg proc).
Proof. intros []; unfold syscall_brk; walk. Qed.
Lemma syscall_default_in_time reg : in_time (syscall_default reg proc).
Proof. intros []; unfold syscall_default; walk. Qed.

(** The exit of a failed [close] is the one stop of these calls that is not
    handled. *)
Lemma syscall_close_in_time reg b :
  b = true ∨ reg_ret reg = 0 →
  triple (others proc pid) (stop proc pid b b) (syscall_close reg proc) (λ _, handled proc pid).
Proof.
  intros H. unfold syscall_close. destruct b; [walk|]. destruct H as [|H]; [done|]. rewrite H.
  cbn [Z.eqb]. walk.
Qed.

Lemma continue_in_time b (m : M unit) :
  triple (others proc pid) (stop proc pid b b) m (λ _, handled proc pid) →
  triple (others proc pid) (stop proc pid b b) (continue m) (λ _, handled proc pid).
Proof. intros H. unfold continue. eapply triple_bind; [apply H|]. intros ?. by apply triple_done. Qed.
Lemma return_if_in_time b (m : M Z) :
  triple (others proc pid) (stop proc pid b b) m (λ _, handled proc pid) →
  triple (others proc pid) (stop proc pid b b) (return_if m) (λ _, handled proc pid).
Proof. intros H. unfold return_if. eapply triple_bind; [apply H|]. intros r. by apply triple_done. Qed.

(** The system calls that lose the step, or end it: see the theorems below. *)
Definition out_of_step : list Z :=
  [SYS_pipe; SYS_connect; SYS_clone; SYS_execve; SYS_exit; SYS_exit_group].

Lemma in_time_at {A} (m : M A) b :
  in_time m → triple (others proc pid) (stop proc pid b b) m (λ _, handled proc pid).
Proof. auto. Qed.
Hint Resolve syscall_open_in_time syscall_creat_in_time syscall_dup_in_time syscall_dup2_in_time
  syscall_lseek_in_time syscall_fcntl_in_time syscall_socket_in_time syscall_bind_in_time
  syscall_listen_in_time syscall_shutdown_in_time
  syscall_getpeername_in_time syscall_getsockopt_in_time syscall_setsockopt_in_time
  syscall_sendto_in_time syscall_sendmsg_in_time syscall_write_in_time syscall_recvfrom_in_time
  syscall_recvmsg_in_time syscall_read_in_time syscall_poll_in_time syscall_select_in_time
  syscall_getpid_in_time syscall_tuxcall_in_time syscall_brk_in_time syscall_default_in_time :
  in_time.

Lemma dispatch_in_time self fuel handle reg b :
  reg_orig reg ∉ out_of_step → b = true ∨ reg_orig reg ≠ SYS_close ∨ reg_ret reg = 0 →
  (reg_orig reg = SYS_accept → syscall_stops_only pid) →
  triple (others proc pid) (stop proc pid b b) (dispatch self fuel handle reg proc)
    (λ _, handled proc pid).
Proof.
  intros Hn Hc Ha. unfold dispatch. cbv zeta.
  repeat match goal with
  | |- triple _ _ (if ?x =? ?y then _ else _) _ =>
      let E := fresh "E" in destruct (Z.eqb_spec x y) as [E|E];
      [try (exfalso; apply Hn; rewrite E; unfold out_of_step; by repeat constructor)|]
  end;
  first [apply return_if_in_time | apply continue_in_time];
  try (apply in_time_at; solve [auto with in_time]).
  - apply syscall_close_in_time. tauto.
  - apply in_time_at, syscall_accept_in_time. auto.
Qed.

(** A tracee that is inside a call for both, or outside for both, is not in step. *)
Lemma handled_not_in_step s : handled proc pid s → ¬ in_step proc pid s.
Proof.
  intros (b & (p & Hp & _ & Hb) & Hc) (b' & (p' & Hp' & _ & Hb') & Hc'). rewrite Hp in Hp'.
  injection Hp' as <-. rewrite Hb in Hb'. subst b'. rewrite Hc in Hc'. by destruct b.
Qed.

(** The next stop: in step at a system call stop, and only there. *)
Definition next_turn (s : st) : Prop := ∃ p, st_proc s !! proc = Some p ∧
  (syscall_stop (pd_status p) = true → in_step proc pid s) ∧
  (event_stop (pd_status p) || signal_stop (pd_status p) = true → ¬ in_step proc pid s).

Lemma resume_next_turn {B} (f : bool → M B) Q :
  triple (others proc pid) next_turn (f false) Q →
  triple (others proc pid) (handled proc pid)
    (bind (ptrace_resume_process pid) (λ _, bind (wait_status proc pid) f)) Q.
Proof.
  intros H s [b Hs]. revert s Hs. apply triple_resume, triple_wait_status; [done|].
  intros s (p & Hp & Hc & He). apply H. exists p. rewrite negb_involutive in Hc.
  split; [done|]. split; intros Hs; [exists b; auto|]. apply handled_not_in_step. exists b. auto.
Qed.

End Calls.

(** ** Properties *)

Section MediationProperties.
Context `{X : Xbt} `{Wd : World} `{!XbtLaws X} `{!TraceLaws Wd} `{!StopLaws Wd}.

Lemma stop_exclusive proc pid b c s : stop proc pid b c s → handled proc pid s → c = negb b.
Proof.
  intros [(p & Hp & _ & Hb) Hc] (b' & (p' & Hp' & _ & Hb') & Hc'). rewrite Hp in Hp'.
  injection Hp' as <-. congruence.
Qed.

(** C1: SimTerpose and the tracee stay in step from one system call stop to the next.
    Before the switch of [process_handle] at such a stop, the tracee is at an entry exactly
    when SimTerpose takes it to be outside a call. For every call but pipe, connect, clone,
    execve and exit, and the exit of a failed close, on every path on which the handler
    returns, answers with an error included and across its yields (where the other
    processes leave this tracee alone), the handler leaves the tracee inside the call at
    its entry, or outside at its exit when the call was replaced or is over. Resumed, the
    tracee is in step for the next turn when the stop that [waitpid] reports is a system
    call stop, and out of step when it is the stop of an event or of a signal. The handler
    of accept runs two more stops without a look at them: for this call they are taken to be
    system call stops. *)
Theorem handlers_in_step self fuel handle reg proc pid s :
  in_step proc pid s → reg_orig reg ∉ out_of_step →
  (reg_orig reg = SYS_close → reg_ret reg = 0 ∨ stop proc pid true true s) →
  (reg_orig reg = SYS_accept → syscall_stops_only pid) →
  ends (others proc pid) (λ _, handled proc pid) (dispatch self fuel handle reg proc s) ∧
  ends (others proc pid) (λ _, next_turn proc pid)
    (bind (dispatch self fuel handle reg proc) (λ _,
     bind (ptrace_resume_process pid) (λ _, wait_status proc pid)) s).
Proof.
  intros [b Hs] Hn Hc Ha.
  assert (ends (others proc pid) (λ _, handled proc pid) (dispatch self fuel handle reg proc s)) as Hd.
  { apply (dispatch_in_time proc pid self fuel handle reg b); [done| |done|done].
    destruct (decide (reg_orig reg = SYS_close)) as [E|]; [|tauto].
    destruct (Hc E) as [?|[(p & Hp & _ & Hb) _]]; [tauto|]. left.
    destruct Hs as [(p' & Hp' & _ & Hb') _]. rewrite Hp in Hp'. injection Hp' as <-. congruence. }
  split; [exact Hd|]. apply ends_obind. eapply ends_mono; [|exact Hd]. intros a s' Hs'.
  apply (ends_obind_inv _ _ ret). revert s' Hs'.
  apply triple_assoc, resume_next_turn. by intros s' Hs'.
Qed.

(** C26: a pipe is never registered. The case of SYS_pipe runs into the one of
    SYS_brk, which undoes the mark of the entry: from outside a call, the state is
    left as it was by the entry and again by the exit, so that [syscall_pipe_post],
    the code that records the two ends, is never reached. *)
Theorem pipe_never_registered self fuel handle reg proc p s :
  st_proc s !! proc = Some p → in_syscall p = 0 → strace_option s = 0 → reg_orig reg = SYS_pipe →
  dispatch self fuel handle reg proc s = Done None s.
Proof.
  intros Hp Hin Hstr Ho. unfold dispatch. cbv zeta. rewrite Ho. cbn [Z.eqb SYS_pipe].
  assert (∀ s' q, st_proc s' !! proc = Some q →
            proc_entering proc s' = Done (in_syscall q =? 0) s') as He.
  { intros s' q. apply proc_entering_eval. }
  set (s1 := set_proc (<[proc := set_in_syscall 1 p]> (st_proc s)) s).
  assert (syscall_pipe reg proc s = Done tt s1) as H1.
  { unfold syscall_pipe. eval_with He; [done|]. rewrite Hin. by apply upd_proc_eval. }
  assert (syscall_brk reg proc s1 = Done tt s) as H2.
  { unfold syscall_brk. eval_with (He s1 (set_in_syscall 1 p)); [unfold s1; lookup_solve|].
    cbn. unfold proc_outside. eval_with (upd_proc_eval s1 proc (set_in_syscall 1 p)).
    { unfold s1; lookup_solve. }
    unfold if_strace. ev. unfold s1. st_cbn. rewrite Hstr. cbn. rewrite insert_insert_eq.
    replace (set_in_syscall 0 (set_in_syscall 1 p)) with p by (destruct p; cbn in *; by subst).
    rewrite insert_id by done. by destruct s. }
  unfold continue. eapply bind_eval; [|done]. eval_with H1. exact H2.
Qed.

(** C39: the exit of a failed [close] is dropped: SimTerpose still takes the tracee
    to be inside the call when it leaves it, so that the entry of its next call will
    be handled as an exit. *)
Theorem failed_close_lost self fuel handle reg proc pid s :
  stop proc pid false false s → reg_orig reg = SYS_close → reg_ret reg ≠ 0 →
  dispatch self fuel handle reg proc s = Done None s ∧ ¬ handled proc pid s.
Proof.
  intros Hs Ho Hr. split; [|by intros H%(stop_exclusive _ _ _ _ _ Hs)].
  destruct Hs as [(p & Hp & _ & Hb) _]. unfold dispatch. cbv zeta. rewrite Ho.
  cbn [Z.eqb SYS_close SYS_creat SYS_open]. unfold continue. eapply bind_eval; [|done].
  unfold syscall_close. eapply bind_eval; [by apply proc_entering_eval|]. rewrite Hb.
  by rewrite (proj2 (Z.eqb_neq _ _) Hr).
Qed.

Lemma arg_clear reg n : arg (clear_inprogress reg) n = arg reg n.
Proof. unfold clear_inprogress. by destruct (_ =? _). Qed.

Lemma socket_at_proc s proc fd isp i p p' :
  socket_at s proc fd isp i → st_proc s !! proc = Some p → fd_map p' = fd_map p →
  socket_at (set_proc (<[proc := p']> (st_proc s)) s) proc fd isp i.
Proof.
  intros [(q & Hq & He) Hn Hi Ht] Hp Hm. rewrite Hp in Hq. injection Hq as <-.
  split; [|done..]. exists p'. st_cbn. rewrite lookup_insert_eq. split; [done|].
  unfold fd_entry in *. by rewrite Hm.
Qed.

(** C40: connect on a socket of the domain AF_UNIX makes SimTerpose lose the tracee. The call is
    left to the kernel, but marked as over at its entry: the switch leaves the tracee as it
    found it, at the entry of a call that it is about to make, and taken to be outside, so
    that the exit of this call will be handled as the entry of one. *)
Theorem connect_unix_lost self fuel handle reg proc pid isp i s :
  stop proc pid true true s → reg_orig reg = SYS_connect →
  socket_at s proc (s32 (arg reg 0)) isp i → is_domain i = 1 →
  is_Some (mem_bytes (st_w s) pid (arg reg 1) 112) →
  ∃ s', dispatch self fuel handle reg proc s = Done None s' ∧ stop proc pid true true s' ∧
    ¬ handled proc pid s'.
Proof.
  intros Hs Ho Hi Hd [bs Hm]. pose proof Hs as [(p & Hp & Hpid & Hb) Hc].
  set (p1 := set_in_syscall 1 p).
  set (s1 := set_proc (<[proc := p1]> (st_proc s)) s).
  assert (socket_at s1 proc (s32 (arg reg 0)) isp i) as Hi1 by by apply (socket_at_proc s _ _ _ _ p).
  destruct (ptrace_cpy_eval s1 pid (arg reg 1) 110 bs) as [c Hcpy]; [lia|exact Hm|].
  set (s2 := set_cnt c s1).
  set (s3 := set_proc (<[proc := set_in_syscall 0 p1]> (st_proc s2)) s2).
  assert (stop proc pid true true s3) as H3.
  { split; [|done]. exists (set_in_syscall 0 p1). unfold s3. st_cbn. by rewrite lookup_insert_eq. }
  assert (process_connect_in_call (clear_inprogress reg) proc s2 = Done 0 s2) as Hin.
  { unfold process_connect_in_call.
    eapply bind_eval; [apply (load_eval _ _ p1); unfold s2, s1; lookup_solve|]. cbv zeta.
    destruct Hi1. eapply bind_eval; [rewrite arg_clear; by apply (socket_attr_at s2 proc _ isp i)|].
    by rewrite Hd. }
  exists s3. split; [|split; [done|by intros H%(stop_exclusive _ _ _ _ _ H3)]].
  unfold dispatch. cbv zeta. rewrite Ho. cbn -[bind continue syscall_connect].
  unfold continue. eapply bind_eval; [|done]. unfold syscall_connect.
  eapply bind_eval; [by apply proc_entering_eval|]. rewrite Hb. eapply bind_eval; [|done].
  unfold syscall_connect_pre. eapply bind_eval; [by apply upd_proc_eval|].
  eapply bind_eval; [apply (load_eval _ _ p1); unfold s1; lookup_solve|]. cbv zeta.
  eval_with (socket_attr_at s1 _ _ _ _ _ _ Hi1). change (pd_pid p1) with (pd_pid p). rewrite Hpid, Hd.
  eapply (bind_eval _ _ _ None); [unfold cpy_sockaddr; rewrite arg_clear; by eval_with Hcpy|].
  eval_with Hin. cbn.
  eapply bind_eval; [by apply (upd_proc_eval s2 proc p1); unfold s2, s1; lookup_solve|done].
Qed.

End MediationProperties.
(** ** Examples

    Process 7, described at 10, at the entry of a call; and at its exit. *)
Definition self_example : msg_self (Wd := ref_world) :=
  {| self_process := "p" : msg_process (World := ref_world);
     self_host := "alice" : msg_host (World := ref_world) |}.
Definition exit_example : st :=
  set_w (toy_step (toy_world regs_zero (λ _, 0)) 7 : W (World := ref_world))
    (run_state (proc_inside 10) proc_example).
Definition call_example (nr ret : Z) : reg_s := mk_reg nr ret [3; 5000; 16; 0; 0; 0].
Definition handle_example : Z → M Z := process_handle 1 self_example.

Lemma entry_example_stop : stop 10 7 true true proc_example.
Proof. split; [eexists; split; [reflexivity|by split]|reflexivity]. Qed.
Lemma exit_example_stop : stop 10 7 false false exit_example.
Proof. split; [eexists; split; [reflexivity|by split]|reflexivity]. Qed.

(** The process 10 at the entry of connect(3, 5000, 110), on a socket of the domain AF_UNIX. *)
Definition unix_sock : infos_socket (Wd := ref_world) :=
  mk_is (Wd := ref_world) (mk_fd FD_SOCKET 10 3 0 0 0 0 0 0 0 0 0 0 0 0) NULL (Some "alice"%string) 1 0 0 0 0 1 0 0 1.
Definition unix_example : st := set_fd {[20 := FdSock unix_sock]} proc_example.

Lemma connect_unix_lost_witness :
  ∃ s', dispatch self_example 1 handle_example (mk_reg SYS_connect (u64 (- ENOSYS)) [3; 5000; 110; 0; 0; 0]) 10
      unix_example = Done None s' ∧ stop 10 7 true true s' ∧ ¬ handled 10 7 s'.
Proof.
  apply (connect_unix_lost self_example 1 handle_example _ 10 7 20 unix_sock unix_example).
  - split; [eexists; split; [reflexivity|by split]|reflexivity].
  - reflexivity.
  - split; [eexists; split; [reflexivity|by vm_compute]|by vm_compute|reflexivity|reflexivity].
  - reflexivity.
  - vm_compute. by eexists.
Defined.

Lemma handlers_in_step_witness :
  let reg := call_example SYS_getpid 0 in
  ends (others 10 7) (λ _, handled 10 7)
    (dispatch self_example 1 handle_example reg 10 proc_example) ∧
  ends (others 10 7) (λ _, next_turn 10 7)
    (bind (dispatch self_example 1 handle_example reg 10) (λ _,
     bind (ptrace_resume_process 7) (λ _, wait_status 10 7)) proc_example).
Proof.
  apply (handlers_in_step self_example 1 handle_example (call_example SYS_getpid 0) 10 7).
  - exists true. apply entry_example_stop.
  - intros H. repeat (apply elem_of_cons in H as [H|H]; [done|]). by apply elem_of_nil in H.
  - done.
  - done.
Defined.

Lemma pipe_never_registered_witness :
  dispatch self_example 1 handle_example (call_example SYS_pipe 0) 10 proc_example =
  Done None proc_example.
Proof. by eapply pipe_never_registered. Defined.

Lemma failed_close_lost_witness :
  dispatch self_example 1 handle_example (call_example SYS_close (u64 (- EBADF))) 10 exit_example =
  Done None exit_example ∧ ¬ handled 10 7 exit_example.
Proof. apply failed_close_lost; [apply exit_example_stop|done|done]. Defined.
