(* ===== verification/Handlers.v ===== *)
(** What the tracee and the tables of SimTerpose see of the handlers: the results of
    [bind], [listen], [connect], [setsockopt] and [read] on sockets, whose system
    call SimTerpose answers itself, and the effect of [close] and [dup]. *)
From S2P Require Import Prelude Libc External State Monad Frames Reference DataUtils.
From S2P Require Import ProcessDescriptor PtraceUtils Sockets Print Communication.
From S2P Require Import SocketOps SysFiles SysNet SysData SysProc Neutral Dispatch.
From S2P Require Import Mediation.
Open Scope sim_scope.

(** ** Answering a system call *)

Section Answer.
Context `{X : Xbt} `{Wd : World} `{!XbtLaws X} `{!TraceLaws Wd}.

Lemma bind_then {A B C} (m : M A) (n : A → M B) (k : B → M C) s b s' o :
  bind m n s = Done b s' → k b s' = o → bind m (λ a, bind (n a) k) s = o.
Proof.
  intros H <-. unfold bind in *. destruct (m s) as [a s1| |]; simpl in *; [|done|done].
  by rewrite H.
Qed.

Lemma bind_head {A B} (m n : M A) (f : A → M B) s s' : m s = n s' → bind m f s = bind n f s'.
Proof. intros H. unfold bind. by rewrite H. Qed.

(** A process outside a system call, stopped at the entry of the call [reg]. *)
Record at_call (s : st) (proc pid : Z) (p : process_descriptor) (r : user_regs) : Prop := {
  ac_proc : st_proc s !! proc = Some p;
  ac_pid : pd_pid p = pid;
  ac_out : in_syscall p = 0;
  ac_entry : at_entry (st_w s) pid = true;
  ac_regs : ptrace_getregs (st_w s) pid = Some r;
  ac_quiet : strace_option s = 0;
}.

(** The same process inside the call. *)
Definition enter (proc : Z) (p : process_descriptor) (s : st) : st :=
  set_proc (<[proc := set_in_syscall 1 p]> (st_proc s)) s.

(** What the tracee sees of an answered call: it is at the exit of the call [nr]
    with the result [v]; its memory, its other registers and the other tracees are
    as before; and SimTerpose takes it to be outside the call. *)
Definition answered (s s' : st) (pid : Z) (r : user_regs) (nr v : Z) : Prop :=
  replaced (st_w s) (st_w s') pid (set_rax v (set_orig_rax nr r)) ∧
  st_proc s' = st_proc s.

Lemma enter_leave p : in_syscall p = 0 → set_in_syscall 0 (set_in_syscall 1 p) = p.
Proof. intros H. destruct p; cbn in *; by subst. Qed.

Lemma entering_eval s proc p : st_proc s !! proc = Some p →
  proc_entering proc s = Done (in_syscall p =? 0) s.
Proof. apply proc_entering_eval. Qed.

(** Neutralise the call, give it a result and leave it. [s] is the state in which
    the call was entered; [s1], where it is answered, differs from it in the tables
    of SimTerpose only. *)
Lemma answer_eval s s1 proc pid p r nr v :
  at_call s proc pid p r → st_w s1 = st_w s → st_proc s1 = st_proc (enter proc p s) →
  ∃ c w, (let s' := set_proc (st_proc s) (set_cnt c (set_w w s1)) in
    (∀ B (k : unit → M B), (ptrace_neutralize_syscall pid ;;
       ptrace_restore_syscall pid nr v ;; let! x := proc_outside proc in k x) s1 = k tt s') ∧
    (ptrace_neutralize_syscall pid ;; ptrace_restore_syscall pid nr v ;; proc_outside proc) s1
      = Done tt s' ∧
    answered s s' pid r nr v).
Proof.
  intros [] Hw Hp.
  destruct (mediate_eval s1 pid nr v r) as (c & w & Hm & Hr); [by rewrite Hw|by rewrite Hw|].
  exists c, w. cbv zeta.
  assert (proc_outside proc (set_cnt c (set_w w s1)) =
          Done tt (set_proc (st_proc s) (set_cnt c (set_w w s1)))) as Ho.
  { unfold proc_outside. erewrite upd_proc_eval; [|st_cbn; rewrite Hp; apply lookup_insert_eq].
    rewrite enter_leave by done. st_cbn. rewrite Hp. unfold enter. st_cbn. by rewrite insert_insert_eq, insert_id. }
  split; [|split; [|split]].
  - intros B k. eapply bind_then; [exact Hm|]. by rewrite (bind_done _ _ _ _ _ Ho).
  - by eapply bind_then.
  - st_cbn. by rewrite <- Hw.
  - done.
Qed.


(** ** [bind] *)

Section Bind.
Context (s : st) (proc pid isp : Z) (p : process_descriptor) (r : user_regs) (reg : reg_s)
  (i : infos_socket) (h : msg_host) (b : list Z).
Hypothesis Hat : at_call s proc pid p r.
Hypothesis Hsock : socket_at s proc (s32 (arg reg 0)) isp i.
Hypothesis Hinet : is_domain i = 2.
Hypothesis Hhost : pd_host p = Some h.
Hypothesis Htable : is_Some (host_of s (MSG_host_get_name h)).
Hypothesis Hmem : mem_bytes (st_w s) pid (arg reg 1) 16 = Some b.
Let port := ntohs (sin_port (sai_decode b)).
Let addr := sin_addr (sai_decode b).

Lemma bind_addr_range : is_u 32 addr.
Proof.
  assert (Forall (is_u 8) b) as Hb by by eapply mem_bytes_range.
  unfold addr, sai_decode. cbn [sin_addr].
  pose proof (le_decode_bound (take 4 (drop 4 b))) as H.
  rewrite length_take, length_drop, (mem_bytes_length _ _ _ _ _ Hmem) in H.
  apply H. by apply Forall_take, Forall_drop.
Qed.

(** The common part: the address is read and the port looked up. *)
Lemma bind_prefix :
  ∃ c, syscall_bind reg proc s =
   (let! used := is_port_in_use (Some h) port in
    if negb used then
      register_port (Some h) port ;;
      let! isp := get_infos_socket proc (s32 (arg reg 0)) in
      set_port_on_binding (Some h) port isp (bind_device addr) ;;
      upd_sock isp (set_is_binded 1) ;;
      set_localaddr_port_socket proc (s32 (arg reg 0)) (inet_ntoa addr) port ;;
      bind_finish (set_ret 0 (clear_inprogress reg)) proc pid ;;
      if_strace (print_bind_syscall (set_ret 0 (clear_inprogress reg)) proc)
    else
      bind_finish (set_ret (- EADDRINUSE) (clear_inprogress reg)) proc pid ;;
      if_strace (print_bind_syscall (set_ret (- EADDRINUSE) (clear_inprogress reg)) proc))
     (set_cnt c (enter proc p s)).
Proof.
  destruct Hat as [Hp Hpid Hin _ _ _]. set (s1 := enter proc p s). set (p1 := set_in_syscall 1 p).
  assert (socket_at s1 proc (s32 (arg reg 0)) isp i) as H1 by by apply (socket_at_proc s _ _ _ _ p).
  destruct (ptrace_cpy_eval s1 pid (arg reg 1) 16 b) as [c Hc]; [lia|exact Hmem|]. exists c.
  assert (socket_at (set_cnt c s1) proc (s32 (arg reg 0)) isp i) as H2 by (destruct H1; by split).
  unfold syscall_bind. eval_with (entering_eval s proc p Hp). rewrite Hin. unfold syscall_bind_pre.
  eapply bind_eval; [by apply upd_proc_eval|]. cbv zeta. rewrite !arg_clear.
  eapply bind_eval; [apply (load_eval _ _ p1); unfold s1, enter; lookup_solve|].
  eval_with (socket_attr_at s1 _ _ _ _ _ _ H1). change (pd_pid p1) with (pd_pid p).
  change (pd_host p1) with (pd_host p). rewrite Hpid, Hinet, Hhost.
  eapply (bind_eval _ _ _ (Some (sai_decode b))); [unfold cpy_sockaddr; by eval_with Hc|].
  eval_with (socket_registered_at _ _ _ _ _ H2). change (negb (1 =? 0)) with true. cbv iota.
  eval_with (socket_attr_at (set_cnt c s1) _ _ _ _ _ _ H2). by rewrite Hinet.
Qed.

(** The tail of both branches, without the log. *)
Lemma bind_answer s1 v :
  st_w s1 = st_w s → st_proc s1 = st_proc (enter proc p s) → strace_option s1 = 0 →
  ∃ c w, (let s' := set_proc (st_proc s) (set_cnt c (set_w w s1)) in
    (bind_finish (set_ret v (clear_inprogress reg)) proc pid ;;
     if_strace (print_bind_syscall (set_ret v (clear_inprogress reg)) proc)) s1 = Done tt s' ∧
    answered s s' pid r SYS_bind (u64 (s32 (u64 v)))).
Proof.
  intros Hw Hp Hq.
  destruct (answer_eval s s1 proc pid p r SYS_bind (u64 (s32 (u64 v))) Hat Hw Hp) as (c & w & _ & He & Ha).
  exists c, w. split; [|exact Ha]. unfold bind_finish, int_ret. cbn [reg_ret set_ret]. eval_with He.
  unfold if_strace. ev. st_cbn. by rewrite Hq.
Qed.

(** The socket of a successful [bind]. *)
Definition bound_socket (port addr : Z) (i : infos_socket) : infos_socket :=
  set_is_local addr port (set_is_binded 1 (ref_up i)).

Lemma bind_tables c :
  port_of s (MSG_host_get_name h) port = None →
  ∃ s1, (let s0 := set_cnt c (enter proc p s) in
    (∀ k : M unit, (register_port (Some h) port ;;
     let! isp := get_infos_socket proc (s32 (arg reg 0)) in
     set_port_on_binding (Some h) port isp (bind_device addr) ;;
     upd_sock isp (set_is_binded 1) ;;
     set_localaddr_port_socket proc (s32 (arg reg 0)) (inet_ntoa addr) port ;; k) s0 = k s1) ∧
    s1 = set_fd (<[isp := FdSock (bound_socket port addr i)]> (st_fd s))
           (set_list_host (list_host s1) s0) ∧
    port_of s1 (MSG_host_get_name h) port =
      Some (mk_port port 0 (Z.lor PORT_BIND (bind_device addr)) 1 isp) ∧
    ∀ n q, n ≠ MSG_host_get_name h ∨ q ≠ port → port_of s1 n q = port_of s n q).
Proof.
  intros Hfree. set (s0 := set_cnt c (enter proc p s)). pose proof (ac_proc _ _ _ _ _ Hat) as Hp.
  assert (socket_at s0 proc (s32 (arg reg 0)) isp i) as H0.
  { destruct (socket_at_proc s proc _ isp i p (set_in_syscall 1 p) Hsock Hp eq_refl). by split. }
  destruct (register_port_eval s0 h port Htable) as (sa & Ha & Hsa & Hpa & Hqa & _).
  change (port_of s0) with (port_of s) in Hpa, Hqa. rewrite Hfree in Hpa.
  assert (socket_at sa proc (s32 (arg reg 0)) isp i) as H1 by (rewrite Hsa; destruct H0; by split).
  destruct (set_port_on_binding_eval sa h port _ isp i (bind_device addr) Hpa (sa_fd _ _ _ _ _ H1))
    as (sb & Hb & Hsb & Hpb & Hqb & _).
  remember (list_host sb) as lb eqn:E. clear E. remember (list_host sa) as la eqn:E. clear E.
  set (sc := set_fd (<[isp := FdSock (set_is_binded 1 (ref_up i))]> (st_fd sb)) sb).
  assert (socket_at sc proc (s32 (arg reg 0)) isp (set_is_binded 1 (ref_up i))) as Hc.
  { destruct H0. subst sb sa. split; [done|done| |done]. unfold sc. st_cbn. apply lookup_insert_eq. }
  exists (set_fd (<[isp := FdSock (bound_socket port addr i)]> (st_fd sc)) sc).
  split; [|split; [|split]].
  - intros k. eval_with Ha. eval_with (get_infos_socket_at _ _ _ _ _ H1). eval_with Hb.
    eapply bind_eval; [apply upd_sock_eval; subst sb; st_cbn; apply lookup_insert_eq|]. cbv beta.
    change (set_fd _ sb) with sc. eapply bind_eval; [|done]. unfold set_localaddr_port_socket.
    eval_with (get_infos_socket_at _ _ _ _ _ Hc).
    rewrite (upd_sock_eval sc isp _ _ (sa_fd _ _ _ _ _ Hc)), inet_addr_ntoa_eq by apply bind_addr_range.
    done.
  - subst sc sb sa. st_cbn. by rewrite !insert_insert_eq.
  - exact Hpb.
  - intros n q Hnq. rewrite <- Hqa, <- Hqb by done. done.
Qed.

(** C14: [bind] of a port in use. The tracee sees the result -EADDRINUSE at the exit
    of [bind], without the kernel having run it, and the tables of the hosts and their
    ports and the descriptors do not change. *)
Theorem bind_used_port :
  is_Some (port_of s (MSG_host_get_name h) port) →
  ∃ s', syscall_bind reg proc s = Done tt s' ∧
    answered s s' pid r SYS_bind (u64 (- EADDRINUSE)) ∧
    list_host s' = list_host s ∧ st_fd s' = st_fd s.
Proof.
  intros Hused. destruct bind_prefix as [c Hc].
  destruct (bind_answer (set_cnt c (enter proc p s)) (- EADDRINUSE)) as (c' & w & Ha & Hr);
    [done|done|by destruct Hat|].
  eexists. split; [|split; [exact Hr|done]]. rewrite Hc.
  eval_with (is_port_in_use_eval (set_cnt c (enter proc p s)) h port Htable).
  change (port_of (set_cnt c (enter proc p s))) with (port_of s).
  rewrite bool_decide_eq_true_2 by done. exact Ha.
Qed.

(** C13: [bind] of a free port. The tracee sees the result 0; the port is registered
    with one user, bound to the socket, whose local address and port are those of
    the call; no other port changes. From then on a connection finds the socket from
    the same host when it is bound to 127.0.0.1 or to any address, and from another
    host when it is not bound to 127.0.0.1. *)
Theorem bind_free_port :
  port_of s (MSG_host_get_name h) port = None →
  ∃ s', syscall_bind reg proc s = Done tt s' ∧ answered s s' pid r SYS_bind 0 ∧
    port_of s' (MSG_host_get_name h) port =
      Some (mk_port port 0 (Z.lor PORT_BIND (bind_device addr)) 1 isp) ∧
    (∀ n q, n ≠ MSG_host_get_name h ∨ q ≠ port → port_of s' n q = port_of s n q) ∧
    st_fd s' = <[isp := FdSock (bound_socket port addr i)]> (st_fd s) ∧
    get_binding_socket_host (Some h) port PORT_LOCAL s' =
      Done (if (addr =? localhost) || (addr =? INADDR_ANY) then isp else NULL) s' ∧
    get_binding_socket_host (Some h) port PORT_REMOTE s' =
      Done (if addr =? localhost then NULL else isp) s'.
Proof.
  intros Hfree. destruct bind_prefix as [c Hc].
  destruct (bind_tables c Hfree) as (s1 & Hk & Hs1 & Hpo & Hot).
  destruct (bind_answer s1 0) as (c' & w & Ha & Hr); [by rewrite Hs1|by rewrite Hs1| |].
  { rewrite Hs1. by destruct Hat. }
  set (s' := set_proc (st_proc s) (set_cnt c' (set_w w s1))) in *.
  assert (port_of s' (MSG_host_get_name h) port =
          Some (mk_port port 0 (Z.lor PORT_BIND (bind_device addr)) 1 isp)) as Hpo' by exact Hpo.
  assert (is_Some (host_of s' (MSG_host_get_name h))) as Hh.
  { unfold port_of in Hpo'. destruct (host_of s' _); [by eexists|done]. }
  exists s'. split; [|split; [exact Hr|split; [exact Hpo'|split; [exact Hot|]]]].
  - rewrite Hc. eval_with (is_port_in_use_eval (set_cnt c (enter proc p s)) h port Htable).
    change (port_of (set_cnt c (enter proc p s))) with (port_of s). rewrite Hfree.
    cbv zeta in Hk. change (negb (bool_decide (is_Some (@None port_desc)))) with true. cbv iota.
    rewrite Hk. exact Ha.
  - split; [unfold s'; st_cbn; by rewrite Hs1|].
    rewrite !get_binding_socket_host_eval, Hpo' by done. cbn [port_option bind_socket].
    unfold bind_device. rewrite localhost_value.
    destruct (Z.eqb_spec addr INADDR_ANY) as [->|]; [by split|].
    by destruct (Z.eqb_spec addr 0x100007f).
Qed.

End Bind.

(** ** [listen], [connect], [setsockopt] *)

(** Entering the call [reg]: what every handler does first. *)
Lemma enter_eval s proc pid p r {B} (k : unit → M B) o :
  at_call s proc pid p r → k tt (enter proc p s) = o →
  bind (proc_inside proc) k s = o.
Proof. intros [] <-. unfold proc_inside. by rewrite (bind_done _ _ _ _ _ (upd_proc_eval _ _ _ _ ac_proc0)). Qed.

Lemma enter_proc s proc p : st_proc (enter proc p s) !! proc = Some (set_in_syscall 1 p).
Proof. unfold enter. st_cbn. apply lookup_insert_eq. Qed.

Lemma enter_socket s proc pid p r fd isp i :
  at_call s proc pid p r → socket_at s proc fd isp i → socket_at (enter proc p s) proc fd isp i.
Proof. intros [] H. by apply (socket_at_proc s _ _ _ _ p). Qed.

Lemma if_strace_quiet m s : strace_option s = 0 → if_strace m s = Done tt s.
Proof. intros H. unfold if_strace. ev. by rewrite H. Qed.

(** [listen]. The tracee sees the result 0, and the socket has a communication
    of its own, listening, with nobody waiting on it. *)
Lemma listen_socket s proc pid p r reg isp i :
  at_call s proc pid p r → socket_at s proc (s32 (arg reg 0)) isp i →
  let n := st_next s in
  ∃ s', syscall_listen reg proc s = Done tt s' ∧ answered s s' pid r SYS_listen 0 ∧
    st_fd s' = <[isp := FdSock (ref_up (set_is_comm n i))]> (st_fd s) ∧
    st_comm s' = <[n := set_comm_state COMM_LISTEN (fresh_comm n isp)]> (st_comm s) ∧
    list_host s' = list_host s.
Proof.
  intros Hat Hsock n. set (s1 := enter proc p s).
  pose proof (enter_socket _ _ _ _ _ _ _ _ Hat Hsock) as H1. fold s1 in H1.
  pose proof (comm_new_eval s1 isp i (sa_fd _ _ _ _ _ H1)) as Hnew. cbv zeta in Hnew.
  change (st_next s1) with n in Hnew. set (s2 := set_comm_list _ _) in Hnew.
  set (s3 := set_comm (<[n := set_comm_state COMM_LISTEN (fresh_comm n isp)]> (st_comm s2)) s2).
  destruct (answer_eval s s3 proc pid p r SYS_listen 0 Hat eq_refl eq_refl) as (c & w & Hk & _ & Ha).
  exists (set_proc (st_proc s) (set_cnt c (set_w w s3))). split; [|split; [exact Ha|]].
  - unfold syscall_listen. eval_with (entering_eval s proc p (ac_proc _ _ _ _ _ Hat)).
    rewrite (ac_out _ _ _ _ _ Hat). cbn [Z.eqb]. eapply enter_eval; [exact Hat|]. fold s1.
    eapply bind_eval; [|apply if_strace_quiet; by destruct Hat]. unfold process_listen_call.
    eval_with (get_infos_socket_at _ _ _ _ _ H1). eval_with Hnew.
    eapply bind_eval; [apply upd_comm_eval; unfold s2; st_cbn; apply lookup_insert_eq|]. cbv beta.
    fold s3. eapply bind_eval; [apply load_eval, enter_proc|].
    change (pd_pid (set_in_syscall 1 p)) with (pd_pid p). rewrite (ac_pid _ _ _ _ _ Hat).
    change (int_ret (set_ret 0 reg)) with 0. rewrite Hk. reflexivity.
  - split; [done|]. split; [|done]. unfold s3, s2. st_cbn. by rewrite insert_insert_eq.
Qed.

(** [setsockopt]. SO_REUSEADDR sets or clears the option of the socket, as the
    integer at the address given says, and the tracee sees the result 0; any other
    option changes nothing, and the tracee sees -1 (that is -EPERM). *)
Lemma setsockopt_reuseaddr s proc pid p r reg isp i b :
  at_call s proc pid p r → socket_at s proc (s32 (arg reg 0)) isp i →
  mem_bytes (st_w s) pid (arg reg 3) 8 = Some b →
  let opt := s32 (arg reg 2) =? SO_REUSEADDR in
  let value := s32 (le_decode (take 4 b)) in
  ∃ s', syscall_setsockopt reg proc s = Done tt s' ∧
    answered s s' pid r SYS_setsockopt (if opt then 0 else u64 (-1)) ∧
    st_fd s' = (if opt then <[isp := FdSock (if negb (value =? 0)
                  then set_is_option (Z.lor (is_option i) SOCK_OPT_REUSEADDR) i
                  else set_is_option (Z.land (is_option i) (Z.lnot SOCK_OPT_REUSEADDR)) i)]> (st_fd s)
                else st_fd s).
Proof.
  intros Hat Hsock Hmem opt value. set (s1 := enter proc p s).
  pose proof (enter_socket _ _ _ _ _ _ _ _ Hat Hsock) as H1. fold s1 in H1.
  assert (∀ s2 v, st_w s2 = st_w s → st_proc s2 = st_proc s1 → strace_option s2 = 0 →
    ∃ s', (ptrace_neutralize_syscall pid ;; ptrace_restore_syscall pid SYS_setsockopt (u64 (s32 (u64 v))) ;;
           proc_outside proc ;; if_strace (print_setsockopt_syscall (set_ret v reg) proc)) s2 = Done tt s' ∧
      answered s s' pid r SYS_setsockopt (u64 (s32 (u64 v))) ∧ st_fd s' = st_fd s2) as Hfin.
  { intros s2 v Hw Hp Hq. destruct (answer_eval s s2 proc pid p r SYS_setsockopt (u64 (s32 (u64 v))) Hat Hw Hp)
      as (c & w & Hk & _ & Ha).
    exists (set_proc (st_proc s) (set_cnt c (set_w w s2))). split; [|split; [exact Ha|done]].
    rewrite Hk. by apply if_strace_quiet. }
  destruct (ptrace_cpy_eval s1 pid (arg reg 3) 4 b) as [c Hc]; [lia|exact Hmem|].
  set (s2 := set_cnt c s1).
  assert (socket_at s2 proc (s32 (arg reg 0)) isp i) as H2 by (destruct H1; by split).
  set (s3 := if opt then set_fd (<[isp := FdSock (if negb (value =? 0)
                  then set_is_option (Z.lor (is_option i) SOCK_OPT_REUSEADDR) i
                  else set_is_option (Z.land (is_option i) (Z.lnot SOCK_OPT_REUSEADDR)) i)]> (st_fd s)) s2
             else s1).
  destruct (Hfin s3 (if opt then 0 else -1)) as (s' & He & Ha & Hf); [by unfold s3; destruct opt..| |].
  { unfold s3. destruct opt; by destruct Hat. }
  exists s'. split; [|split; [by destruct opt|rewrite Hf; unfold s3; by destruct opt]].
  unfold syscall_setsockopt. eval_with (entering_eval s proc p (ac_proc _ _ _ _ _ Hat)).
  rewrite (ac_out _ _ _ _ _ Hat). cbn [Z.eqb]. unfold syscall_setsockopt_pre.
  eapply enter_eval; [exact Hat|]. fold s1. eapply bind_eval; [apply load_eval, enter_proc|].
  change (pd_pid (set_in_syscall 1 p)) with (pd_pid p). rewrite (ac_pid _ _ _ _ _ Hat).
  eapply (bind_eval _ _ _ (set_ret (if opt then 0 else -1) reg) s3); [|exact He].
  fold opt. unfold s3. destruct opt; [|done]. eval_with Hc. fold s2. fold value.
  eapply bind_eval; [|done]. unfold socket_set_option. by rewrite (socket_upd_at _ _ _ _ _ _ H2).
Qed.

(** Nobody can be connected to at an address: no host has it, or nothing that the
    caller can reach is bound to the port of the host. *)
Definition nobody_at (s : st) (h : msg_host) (addr port : Z) : Prop :=
  (addr ≠ localhost ∧ get_host_by_ip addr s = Done None s) ∨
  ∃ target, (if addr =? localhost then target = h else get_host_by_ip addr s = Done (Some target) s) ∧
    get_binding_socket_host (Some target) port
      (if addr =? localhost then PORT_LOCAL else PORT_REMOTE) s = Done NULL s.

(** A read of the tables does not see the processes, the world and the counters. *)
Lemma host_desc_spec s h :
  host_desc h s = match h with
                  | Some h => match host_of s (MSG_host_get_name h) with
                              | Some d => Done (MSG_host_get_name h, d) s
                              | None => Failed Throw_not_found s
                              end
                  | None => Failed Invalid_pointer s
                  end.
Proof.
  unfold host_desc, host_name, host_of, bind. destruct h; [|done]. simpl.
  by destruct (xbt_dict_get_or_null _ _).
Qed.

Lemma get_binding_frame s s' h port dev x :
  list_host s' = list_host s → get_binding_socket_host h port dev s = Done x s →
  get_binding_socket_host h port dev s' = Done x s'.
Proof.
  intros E. unfold get_binding_socket_host, bind. rewrite !host_desc_spec. unfold host_of. rewrite E.
  destruct h as [h|]; [|done]. destruct (xbt_dict_get_or_null (list_host s) _) as [d|]; [|done]. simpl.
  destruct (xbt_dict_get_or_null _ _) as [pd|]; [|by intros [= ->]].
  destruct (negb _); [by intros [= ->]|]. destruct (negb _); by intros [= ->].
Qed.

Lemma get_host_frame s s' ip x :
  list_ip s' = list_ip s → get_host_by_ip ip s = Done x s → get_host_by_ip ip s' = Done x s'.
Proof.
  intros E. unfold get_host_by_ip, bind. simpl. rewrite E.
  destruct (xbt_dict_get_or_null _ _); by intros [= ->].
Qed.

Lemma leave_again p : in_syscall p = 0 → set_in_syscall 0 p = p.
Proof. intros H. destruct p; cbn in *; by subst. Qed.

(** The refusal; the call is left a second time after it. *)
Lemma refuse_eval s s1 proc pid p r :
  at_call s proc pid p r → st_w s1 = st_w s → st_proc s1 = st_proc (enter proc p s) →
  ∃ c w, (let s' := set_proc (st_proc s) (set_cnt c (set_w w s1)) in
    connect_refuse proc pid s1 = Done 0 s' ∧ proc_outside proc s' = Done tt s' ∧
    answered s s' pid r SYS_connect (u64 (- ECONNREFUSED))).
Proof.
  intros [] Hw Hp.
  destruct (neutralize_eval s1 pid r) as (c1 & w1 & H1 & G1 & E1 & O1 & M1); [by rewrite Hw|by rewrite Hw|].
  set (s2 := set_proc (st_proc s) (set_cnt c1 (set_w w1 s1))).
  destruct (restore_eval s2 pid SYS_connect (u64 (- ECONNREFUSED)) _ G1) as (c2 & w2 & H2 & G2 & O2 & M2 & E2).
  exists c2, w2. split; [|split; [|split; [split; [exact G2|split; [by rewrite E2|split]]|done]]].
  - unfold connect_refuse. eval_with H1. eapply bind_eval; [|by eval_with H2].
    unfold proc_outside. erewrite upd_proc_eval; [|st_cbn; rewrite Hp; apply lookup_insert_eq].
    rewrite enter_leave by done. unfold s2. st_cbn. rewrite Hp. unfold enter. st_cbn.
    by rewrite insert_insert_eq, insert_id.
  - unfold proc_outside. erewrite upd_proc_eval; [|st_cbn; exact ac_proc0].
    rewrite leave_again by done. st_cbn. by rewrite insert_id.
  - intros q Hq. rewrite O2 by done. st_cbn. by rewrite O1, Hw.
  - intros q a. rewrite M2. st_cbn. by rewrite M1, Hw.
Qed.

Lemma nobody_frame s s' h addr port :
  list_host s' = list_host s → list_ip s' = list_ip s →
  nobody_at s h addr port → nobody_at s' h addr port.
Proof.
  intros Eh Ei [[Hl Hn]|(t & Ht & Hb)]; [left|right].
  - split; [done|]. by apply (get_host_frame s).
  - exists t. split; [destruct (addr =? localhost); [done|by apply (get_host_frame s)]|].
    by apply (get_binding_frame s).
Qed.

Lemma refused_in_call s proc p reg isp i h b :
  st_proc s !! proc = Some p → pd_host p = Some h → is_Some (host_of s (MSG_host_get_name h)) →
  socket_at s proc (s32 (arg reg 0)) isp i → is_domain i = 2 →
  mem_bytes (st_w s) (pd_pid p) (arg reg 1) 16 = Some b →
  nobody_at s h (sin_addr (sai_decode b)) (ntohs (sin_port (sai_decode b))) →
  ∃ c, process_connect_in_call reg proc s = connect_refuse proc (pd_pid p) (set_cnt c s).
Proof.
  intros Hp Hh [hd Ht] Hsock Hd Hmem Hno.
  destruct (ptrace_cpy_eval s (pd_pid p) (arg reg 1) 16 b) as [c Hc]; [lia|exact Hmem|]. exists c.
  set (addr := sin_addr (sai_decode b)) in *. set (port := ntohs (sin_port (sai_decode b))) in *.
  assert (nobody_at (set_cnt c s) h addr port) as Hno' by by apply (nobody_frame s).
  unfold process_connect_in_call. ev. rewrite Hh. cbv zeta.
  eval_with (socket_attr_at s _ _ _ _ _ _ Hsock). rewrite Hd. cbn [Z.eqb Pos.eqb]. eval_with Hc.
  fold addr. destruct (addr =? localhost) eqn:El.
  - ev. ev. cbn [negb andb]. destruct Hno' as [[Hx _]|(t & Ht' & Hb)]; [by bool_to_prop|].
    rewrite El in Ht', Hb. subst t. unfold comm_ask_connect.
    eapply bind_eval; [eapply bind_eval; [exact Hb|done]|done].
  - eapply bind_eval; [unfold get_ip_of_host; by eval_with (host_desc_eval (set_cnt c s) h hd Ht)|].
    destruct Hno' as [[_ Hx]|(t & Ht' & Hb)]; [by eval_with Hx|].
    rewrite El in Ht', Hb. eval_with Ht'. cbn [negb andb]. rewrite bool_decide_eq_false_2 by done.
    unfold comm_ask_connect. eapply bind_eval; [eapply bind_eval; [exact Hb|done]|done].
Qed.

(** C15: a refused [connect]. When the address belongs to no host, or nothing the
    caller can reach is bound to its port, the tracee sees -ECONNREFUSED at the exit
    of [connect], and no socket, communication or port changes. *)
Theorem connect_refused self handle s proc pid p r reg isp i h b :
  at_call s proc pid p r → socket_at s proc (s32 (arg reg 0)) isp i → is_domain i = 2 →
  pd_host p = Some h → is_Some (host_of s (MSG_host_get_name h)) →
  mem_bytes (st_w s) pid (arg reg 1) 16 = Some b →
  nobody_at s h (sin_addr (sai_decode b)) (ntohs (sin_port (sai_decode b))) →
  ∃ s', syscall_connect self handle reg proc s = Done tt s' ∧
    answered s s' pid r SYS_connect (u64 (- ECONNREFUSED)) ∧
    st_fd s' = st_fd s ∧ st_comm s' = st_comm s ∧ list_host s' = list_host s.
Proof.
  intros Hat Hsock Hd Hh [hd Ht] Hmem Hno. set (s1 := enter proc p s).
  pose proof (enter_socket _ _ _ _ _ _ _ _ Hat Hsock) as H1. fold s1 in H1.
  destruct (ptrace_cpy_eval s1 pid (arg reg 1) 16 b) as [c Hc]; [lia|exact Hmem|].
  set (s2 := set_cnt c s1) in *.
  destruct (refused_in_call s2 proc (set_in_syscall 1 p) (clear_inprogress reg) isp i h b) as [c' Hin];
    [apply enter_proc|done|by eexists|rewrite arg_clear; destruct H1; by split|done| |
     by apply (nobody_frame s)|].
  { rewrite arg_clear. change (pd_pid (set_in_syscall 1 p)) with (pd_pid p).
    by rewrite (ac_pid _ _ _ _ _ Hat). }
  change (pd_pid (set_in_syscall 1 p)) with (pd_pid p) in Hin. rewrite (ac_pid _ _ _ _ _ Hat) in Hin.
  destruct (refuse_eval s (set_cnt c' s2) proc pid p r Hat eq_refl eq_refl) as (c4 & w4 & Hr & Hl & Ha).
  cbv zeta in *. set (s4 := set_proc _ _) in *. rewrite Hr in Hin.
  exists s4. split; [|split; [exact Ha|done]].
  unfold syscall_connect. eval_with (entering_eval s proc p (ac_proc _ _ _ _ _ Hat)).
  rewrite (ac_out _ _ _ _ _ Hat). cbn [Z.eqb]. eapply bind_eval; [|done].
  unfold syscall_connect_pre. eapply enter_eval; [exact Hat|]. fold s1.
  eapply bind_eval; [apply load_eval, enter_proc|]. cbv zeta. rewrite arg_clear.
  change (pd_pid (set_in_syscall 1 p)) with (pd_pid p). rewrite (ac_pid _ _ _ _ _ Hat).
  eval_with (socket_attr_at s1 _ _ _ _ _ _ H1). rewrite Hd.
  eapply (bind_eval _ _ _ (Some (sai_decode b))); [unfold cpy_sockaddr; by eval_with Hc|].
  eval_with Hin. cbn. by eval_with Hl.
Qed.

(** ** [read] *)

Section Read.
Context `{!StopLaws Wd} (self : msg_self) (s : st) (proc pid isp : Z) (p : process_descriptor)
  (r : user_regs) (reg : reg_s) (i : infos_socket) (tr : stream) (mailbox : string).
Hypothesis Hat : at_call s proc pid p r.
Hypothesis Hsock : socket_at s proc (s32 (arg reg 0)) isp i.
Hypothesis Hstream : st_stream s !! fd_stream (is_fd i) = Some tr.
Hypothesis Hmail : ∀ s', own_mailbox self tr s' = Done mailbox s'.

(** What is left of [syscall_read] after the reception of a task. *)
Definition read_rest (x : msg_task * msg_error * Z * list Z) : M unit :=
  let '(task, err, _, data) := x in
  let! _ := state_after proc (s32 (arg reg 0)) err in
  let! p := get_proc proc in
  ptrace_neutralize_syscall (pd_pid p) ;;
  proc_outside proc ;;
  process_read_out_call reg proc data ;;
  task_destroy task.

(** Where it waits for the task: a reference on the descriptor is held. *)
Definition read_waits : st :=
  set_fd (<[isp := fd_update (λ d, set_fd_refcount (s32 (fd_refcount d + 1)) d) (FdSock i)]> (st_fd s))
    (enter proc p s).

Lemma read_to_wait :
  syscall_read self reg proc s =
  (let! _ := (let! x := receive_task mailbox in read_rest x) in fd_ref isp (-1)) read_waits.
Proof.
  pose proof (enter_socket _ _ _ _ _ _ _ _ Hat Hsock) as H1.
  assert (socket_at read_waits proc (s32 (arg reg 0)) isp
            (set_is_fd (set_fd_refcount (s32 (fd_refcount (is_fd i) + 1)) (is_fd i)) i)) as H2.
  { destruct H1. split; [done|done| |done]. apply lookup_insert_eq. }
  unfold syscall_read. eval_with (entering_eval s proc p (ac_proc _ _ _ _ _ Hat)).
  rewrite (ac_out _ _ _ _ _ Hat). cbn [Z.eqb]. unfold syscall_read_pre.
  eapply enter_eval; [exact Hat|]. destruct (sa_proc _ _ _ _ _ H1) as (q & Hq & He).
  eapply (bind_eval _ _ _ isp); [unfold process_descriptor_get_fd; ev; by rewrite <- He|].
  eapply bind_eval; [by apply upd_fd_eval; destruct H1|]. cbv beta.
  eval_with (socket_registered_at _ _ _ _ _ H2). eval_with (get_fd_eval _ _ _ (sa_fd _ _ _ _ _ H2)).
  change (negb (1 =? -1)) with true. cbv iota. apply bind_head.
  eapply bind_eval; [apply load_eval; exact Hstream|]. cbv beta. by eval_with Hmail.
Qed.

(** The other processes left the tracee and its socket alone. *)
Definition resumed (s2 : st) : Prop :=
  st_proc s2 !! proc = Some (set_in_syscall 1 p) ∧ is_Some (st_fd s2 !! isp) ∧
  at_entry (st_w s2) pid = true ∧ ptrace_getregs (st_w s2) pid = Some r.

Lemma read_rest_eval s2 t amount data :
  resumed s2 → s32 (reg_ret reg) <= 0 →
  ∃ s', (let! _ := read_rest (t, MSG_OK, amount, data) in fd_ref isp (-1)) s2 = Done tt s' ∧
    ptrace_getregs (st_w s') pid = Some (set_rax (int_ret reg) (set_orig_rax SYS_read r)) ∧
    (∀ q a, mem_byte (st_w s') q a = mem_byte (st_w s2) q a).
Proof.
  intros (Hp2 & [o Ho] & He & Hr) Hret.
  destruct (neutralize_eval s2 pid r He Hr) as (c1 & w1 & H1 & G1 & E1 & O1 & M1).
  set (s3 := set_proc (<[proc := set_in_syscall 0 (set_in_syscall 1 p)]> (st_proc s2)) (set_cnt c1 (set_w w1 s2))).
  destruct (restore_eval s3 pid SYS_read (int_ret reg) _ G1) as (c2 & w2 & H2 & G2 & O2 & M2 & E2).
  set (s4 := set_w (MSG_task_destroy w2 t) (set_cnt c2 (set_w w2 s3))).
  exists (set_fd (<[isp := fd_update (λ d, set_fd_refcount (s32 (fd_refcount d + -1)) d) o]> (st_fd s4)) s4).
  split; [|split].
  - eapply (bind_eval _ _ _ tt s4); [|by apply upd_fd_eval]. unfold read_rest.
    ev. eapply bind_eval; [by apply load_eval|]. cbv beta.
    change (pd_pid (set_in_syscall 1 p)) with (pd_pid p). rewrite (ac_pid _ _ _ _ _ Hat).
    eval_with H1. eapply bind_eval; [by apply upd_proc_eval|]. cbv beta. eapply (bind_eval _ _ _ tt (set_cnt c2 (set_w w2 s3))); [|done].
    unfold process_read_out_call. eapply bind_eval; [apply load_eval; unfold s3; st_cbn; apply lookup_insert_eq|].
    cbv beta. change (pd_pid _) with (pd_pid p). rewrite (ac_pid _ _ _ _ _ Hat). eval_with H2.
    by rewrite (proj2 (Z.ltb_ge _ _) Hret).
  - unfold s4. st_cbn. rewrite task_destroy_regs. exact G2.
  - intros q a. unfold s4. st_cbn. rewrite task_destroy_mem, M2. apply M1.
Qed.

(** C25: [read] on a socket gives the tracee nothing. The handler waits for a task on
    the mailbox of its side of the connection; when one arrives, whatever its data,
    it restores the result that the registers held at the entry of the call, which
    is never positive there, and copies no byte into the memory of the tracee. *)
Theorem read_delivers_nothing :
  s32 (reg_ret reg) <= 0 →
  ∃ k, syscall_read self reg proc s = Block (Task_receive mailbox) read_waits k ∧
    ∀ t s2, resumed s2 →
      ∃ s', k (Some t, MSG_OK) s2 = Done tt s' ∧
        ptrace_getregs (st_w s') pid = Some (set_rax (int_ret reg) (set_orig_rax SYS_read r)) ∧
        ∀ q a, mem_byte (st_w s') q a = mem_byte (st_w s2) q a.
Proof.
  intros Hret. rewrite read_to_wait. eexists. split; [reflexivity|]. intros t s2 H2.
  destruct (read_rest_eval s2 t (MSG_task_get_bytes_amount (st_w s2) t) (MSG_task_get_data (st_w s2) t)
              H2 Hret) as (s' & He & H). by exists s'.
Qed.

End Read.

End Answer.

(** ** Examples

    On alice, the process 7, described at 10, has the socket 20 on its descriptor 3;
    it is at the entry of a call whose second argument is the address of the bytes of
    an AF_INET address with the port 80, and the third that of the integer 1. *)
Definition addr_bytes (ip : list Z) : list Z := [2; 0; 0; 80] ++ ip ++ [0; 0; 0; 0; 0; 0; 0; 0].
Definition net_mem (ip : list Z) (a : Z) : Z :=
  if a =? 5024 then 1 else nth (Z.to_nat (a - 5000)) (addr_bytes ip) 0.
Definition net_stream : stream (Wd := ref_world) := mk_stream tt tt (Some "p"%string) None "alice" "bob".
Definition net_sock : infos_socket (Wd := ref_world) :=
  mk_is (mk_fd FD_SOCKET 10 3 40 0 0 0 1 0 0 0 0 0 0 0) NULL (Some "alice"%string) 2 0 0 0 O_RDWR 1 0 0 1.
Definition net_proc : process_descriptor :=
  mk_proc 7 "alice" (host "alice") (xbt_dict_set xbt_dict_new (int_key 3) 20) 0 0 None 0.
Definition net_example (ip : list Z) : st :=
  set_stream {[40 := net_stream]} (set_fd {[20 := FdSock net_sock]} (set_proc {[10 := net_proc]}
    (set_next 50 (set_w (toy_world regs_zero (net_mem ip) : W (World := ref_world)) hosts_example)))).
Definition net_call (nr ret : Z) : reg_s := mk_reg nr ret [3; 5000; 2; 5024; 0; 0].

Lemma net_at_call ip : at_call (net_example ip) 10 7 net_proc regs_zero.
Proof. split; reflexivity. Qed.
Lemma net_socket_at ip : socket_at (net_example ip) 10 3 20 net_sock.
Proof. split; [eexists; split; [reflexivity|by vm_compute]|by vm_compute|reflexivity|reflexivity]. Qed.

Lemma bind_free_port_witness :
  ∃ s', syscall_bind (net_call SYS_bind 0) 10 (net_example [0; 0; 0; 0]) = Done tt s' ∧
    answered (net_example [0; 0; 0; 0]) s' 7 regs_zero SYS_bind 0 ∧
    port_of s' "alice" 80 = Some (mk_port 80 0 (Z.lor PORT_BIND (bind_device 0)) 1 20) ∧
    (∀ n q, n ≠ "alice"%string ∨ q ≠ 80 → port_of s' n q = port_of (net_example [0; 0; 0; 0]) n q) ∧
    st_fd s' = <[20 := FdSock (bound_socket 80 0 net_sock)]> (st_fd (net_example [0; 0; 0; 0])) ∧
    get_binding_socket_host (host "alice") 80 PORT_LOCAL s' = Done 20 s' ∧
    get_binding_socket_host (host "alice") 80 PORT_REMOTE s' = Done 20 s'.
Proof.
  apply (bind_free_port (net_example [0; 0; 0; 0]) 10 7 20 net_proc regs_zero (net_call SYS_bind 0)
    net_sock "alice"%string (addr_bytes [0; 0; 0; 0])).
  - apply net_at_call.
  - apply net_socket_at.
  - reflexivity.
  - reflexivity.
  - vm_compute. by eexists.
  - vm_compute. reflexivity.
  - vm_compute. reflexivity.
Defined.

(** The same with the port 80 of alice in use. *)
Definition used_example : st :=
  run_state (register_port (host "alice") 80) (net_example [0; 0; 0; 0]).

Lemma bind_used_port_witness :
  ∃ s', syscall_bind (net_call SYS_bind 0) 10 used_example = Done tt s' ∧
    answered used_example s' 7 regs_zero SYS_bind (u64 (- EADDRINUSE)) ∧
    list_host s' = list_host used_example ∧ st_fd s' = st_fd used_example.
Proof.
  apply (bind_used_port used_example 10 7 20 net_proc regs_zero (net_call SYS_bind 0)
    net_sock "alice"%string (addr_bytes [0; 0; 0; 0])).
  - split; reflexivity.
  - split; [eexists; split; [reflexivity|by vm_compute]|by vm_compute|reflexivity|reflexivity].
  - reflexivity.
  - reflexivity.
  - vm_compute. by eexists.
  - vm_compute. reflexivity.
  - vm_compute. by eexists.
Defined.

(** Nobody has the address 9.9.9.9. *)
Lemma connect_refused_witness :
  ∃ s', syscall_connect self_example handle_example (net_call SYS_connect 0) 10 (net_example [9; 9; 9; 9])
        = Done tt s' ∧
    answered (net_example [9; 9; 9; 9]) s' 7 regs_zero SYS_connect (u64 (- ECONNREFUSED)) ∧
    st_fd s' = st_fd (net_example [9; 9; 9; 9]) ∧ st_comm s' = st_comm (net_example [9; 9; 9; 9]) ∧
    list_host s' = list_host (net_example [9; 9; 9; 9]).
Proof.
  apply (connect_refused self_example handle_example (net_example [9; 9; 9; 9]) 10 7 net_proc regs_zero
    (net_call SYS_connect 0) 20 net_sock "alice"%string (addr_bytes [9; 9; 9; 9])).
  - apply net_at_call.
  - apply net_socket_at.
  - reflexivity.
  - reflexivity.
  - vm_compute. by eexists.
  - vm_compute. reflexivity.
  - left. split; [by vm_compute|reflexivity].
Defined.

Lemma read_delivers_nothing_witness :
  ∃ k, syscall_read self_example (net_call SYS_read (u64 (- ENOSYS))) 10 (net_example [0; 0; 0; 0])
       = Block (Task_receive "alice") (read_waits (net_example [0; 0; 0; 0]) 10 20 net_proc net_sock) k ∧
    ∀ t s2, resumed 10 7 20 net_proc regs_zero s2 →
      ∃ s', k (Some t, MSG_OK) s2 = Done tt s' ∧
        ptrace_getregs (st_w s') 7 = Some (set_rax (u64 (- ENOSYS)) (set_orig_rax SYS_read regs_zero)) ∧
        ∀ q a, mem_byte (st_w s') q a = mem_byte (st_w s2) q a.
Proof.
  apply (read_delivers_nothing self_example (net_example [0; 0; 0; 0]) 10 7 20 net_proc regs_zero
    (net_call SYS_read (u64 (- ENOSYS))) net_sock net_stream "alice").
  - apply net_at_call.
  - apply net_socket_at.
  - reflexivity.
  - intros s'. reflexivity.
  - vm_compute. done.
Defined.
