(* ===== verification/Pipes.v ===== *)
(** Pipes and duplicated descriptors: the loops of src/src/sys_dup.c, sys_dup2.c,
    sys_clone.c and [process_close_call] that add or remove ends of a pipe while they
    traverse them, against their descriptions as operations on lists; and the effect
    of [dup] and [close] on the descriptors. *)
From S2P Require Import Prelude Libc External State Monad Frames Reference DataUtils.
From S2P Require Import ProcessDescriptor PtraceUtils Sockets Print Communication.
From S2P Require Import SocketOps SysFiles SysNet SysProc Mediation Handlers.
Open Scope sim_scope.

(** ** The loops as operations on lists *)

Section Ends.
Context `{X : Xbt} `{Wd : World} `{!XbtLaws X}.

(** What [remove_ends] removes: the ends a process has on a descriptor. *)
Definition own_end (s : st) (fd pid : Z) (e : pipe_end) : bool :=
  (pe_fd e =? fd) && match st_proc s !! pe_proc e with Some p => pd_pid p =? pid | None => false end.

(** The processes of the ends of a dynar are live. *)
Definition ends_live (s : st) (l : list pipe_end) : Prop :=
  Forall (λ e, is_Some (st_proc s !! pe_proc e)) l.

Lemma drop_lookup {A} (l : list A) i x : l !! i = Some x → drop i l = x :: drop (S i) l.
Proof. apply drop_S. Qed.

Lemma delete_split {A} (l : list A) i x :
  l !! i = Some x → take i (delete i l) = take i l ∧ drop i (delete i l) = drop (S i) l.
Proof.
  intros H. rewrite delete_take_drop. pose proof (lookup_lt_Some _ _ _ H).
  split; [rewrite take_app_le by (rewrite length_take; lia); rewrite take_take; f_equal; lia|].
  rewrite drop_app_ge by (rewrite length_take; lia). rewrite length_take.
  by replace (i - i `min` length l)%nat with 0%nat by lia.
Qed.

Lemma remove_ends_eval fuel : ∀ d cpt fd pid s,
  (length (dynar_model d) <= cpt + fuel)%nat → ends_live s (dynar_model d) →
  ∃ d', remove_ends fuel d cpt fd pid s = Done d' s ∧
    dynar_model d' = take cpt (dynar_model d) ++
      List.filter (λ e, negb (own_end s fd pid e)) (drop cpt (dynar_model d)).
Proof.
  induction fuel as [|fuel IH]; intros d cpt fd pid s Hf Hl; cbn [remove_ends];
    rewrite dynar_length_model.
  { rewrite leb_correct by lia. exists d. split; [done|].
    by rewrite drop_ge, take_ge, app_nil_r by lia. }
  destruct (Nat.leb (length (dynar_model d)) cpt) eqn:Hc.
  { apply Nat.leb_le in Hc. exists d. split; [done|]. by rewrite drop_ge, take_ge, app_nil_r by lia. }
  apply Nat.leb_gt in Hc. destruct (lookup_lt_is_Some_2 _ _ Hc) as [e He].
  destruct (Forall_lookup_1 _ _ _ _ Hl He) as [p Hp].
  assert ((if pe_fd e =? fd then let! p := get_proc (pe_proc e) in ret (pd_pid p =? pid) else ret false) s
          = Done (own_end s fd pid e) s) as Hhit.
  { unfold own_end. rewrite Hp. destruct (pe_fd e =? fd); [|done]. by ev. }
  assert (remove_ends (S fuel) d cpt fd pid s =
    (if own_end s fd pid e then
       let! d' := of_option Throw_not_found (xbt_dynar_remove_at d cpt) in remove_ends fuel d' cpt fd pid
     else remove_ends fuel d (S cpt) fd pid) s) as Hstep.
  { cbn [remove_ends]. rewrite dynar_length_model, leb_correct_conv by done.
    eapply bind_eval; [apply of_option_eval; by rewrite dynar_get_model|]. cbv beta. by eval_with Hhit. }
  cbn [remove_ends] in Hstep. rewrite dynar_length_model in Hstep.
  rewrite leb_correct_conv in Hstep by done. rewrite Hstep.
  rewrite (drop_lookup _ _ _ He). cbn [List.filter]. destruct (own_end s fd pid e) eqn:Eo; cbn [negb].
  - destruct (dynar_remove_at_model _ d cpt Hc) as (d1 & Hr & Hm).
    destruct (IH d1 cpt fd pid s) as (d' & Hd & Hd'); rewrite ?Hm.
    { rewrite length_delete by by rewrite He. lia. }
    { by apply Forall_delete. }
    exists d'. split; [eapply bind_eval; [by apply of_option_eval|done]|].
    rewrite Hd', Hm. by destruct (delete_split _ _ _ He) as [-> ->].
  - destruct (IH d (S cpt) fd pid s) as (d' & Hd & Hd'); [lia|done|].
    exists d'. split; [done|]. rewrite Hd', (take_S_r _ _ e He), <- app_assoc. done.
Qed.

(** An end that [dup] copies, and its copy. *)
Definition dup_hit (oldfd proc : Z) (e : pipe_end) : bool :=
  (u32 (pe_fd e) =? u32 oldfd) && (pe_proc e =? proc).
Definition dup_end (newfd : Z) (e : pipe_end) : pipe_end := mk_end (s32 newfd) (pe_proc e).

(** The entries pushed during the traversal are visited, and add nothing. *)
Lemma dup_ends_eval fuel : ∀ d cpt oldfd newfd proc,
  u32 (s32 newfd) ≠ u32 oldfd →
  (length (drop cpt (dynar_model d)) +
     length (List.filter (dup_hit oldfd proc) (drop cpt (dynar_model d))) <= fuel)%nat →
  ∃ d', dup_ends fuel d cpt oldfd newfd proc = Some d' ∧
    dynar_model d' = dynar_model d ++
      map (dup_end newfd) (List.filter (dup_hit oldfd proc) (drop cpt (dynar_model d))).
Proof.
  induction fuel as [|fuel IH]; intros d cpt oldfd newfd proc Hne Hf; cbn [dup_ends];
    rewrite dynar_get_model; destruct (dynar_model d !! cpt) as [e|] eqn:He.
  - rewrite (drop_lookup _ _ _ He) in Hf. simpl in Hf. lia.
  - apply lookup_ge_None in He. exists d. by rewrite drop_ge, app_nil_r by done.
  - rewrite (drop_lookup _ _ _ He) in Hf |- *. cbn [List.filter length] in Hf |- *.
    fold (dup_hit oldfd proc e). pose proof (lookup_lt_Some _ _ _ He).
    destruct (dup_hit oldfd proc e) eqn:Eh; cbn [length map] in Hf |- *.
    + assert (dup_hit oldfd proc (dup_end newfd e) = false) as Hn.
      { unfold dup_hit, dup_end. cbn [pe_fd]. by rewrite (proj2 (Z.eqb_neq _ _) Hne). }
      destruct (IH (xbt_dynar_push d (dup_end newfd e)) (S cpt) oldfd newfd proc Hne) as (d' & Hd & Hm);
        rewrite dynar_push_model, drop_app_le in * by lia;
        rewrite filter_app in *; cbn [List.filter] in *; rewrite Hn, app_nil_r in *.
      { rewrite length_app. simpl. lia. }
      exists d'. split; [done|]. by rewrite Hm, <- app_assoc.
    + apply IH; [done|]. lia.
  - apply lookup_ge_None in He. exists d. by rewrite drop_ge, app_nil_r by done.
Qed.

(** The ends a clone inherits: all those of processes other than it. *)
Definition clone_hit (s : st) (clone pid : Z) (e : pipe_end) : bool :=
  negb (pe_proc e =? clone) &&
  match st_proc s !! pe_proc e with Some q => negb (pd_pid q =? pid) | None => false end.
Definition clone_end (clone : Z) (e : pipe_end) : pipe_end := mk_end (pe_fd e) clone.

Lemma clone_hit_eval s clone pid e :
  is_Some (st_proc s !! pe_proc e) →
  (if negb (pe_proc e =? clone)
   then let! q := get_proc (pe_proc e) in ret (negb (pd_pid q =? pid)) else ret false) s
  = Done (clone_hit s clone pid e) s.
Proof.
  intros [q Hq]. unfold clone_hit. rewrite Hq. destruct (negb (pe_proc e =? clone)); [|done]. by ev.
Qed.

Lemma clone_ends_eval fuel : ∀ d cpt clone pid s,
  ends_live s (dynar_model d) → is_Some (st_proc s !! clone) →
  (length (drop cpt (dynar_model d)) +
     length (List.filter (clone_hit s clone pid) (drop cpt (dynar_model d))) <= fuel)%nat →
  ∃ d', clone_ends fuel d cpt clone pid s = Done d' s ∧
    dynar_model d' = dynar_model d ++
      map (clone_end clone) (List.filter (clone_hit s clone pid) (drop cpt (dynar_model d))).
Proof.
  induction fuel as [|fuel IH]; intros d cpt clone pid s Hl Hc Hf; cbn [clone_ends];
    rewrite dynar_get_model; destruct (dynar_model d !! cpt) as [e|] eqn:He.
  - rewrite (drop_lookup _ _ _ He) in Hf. simpl in Hf. lia.
  - apply lookup_ge_None in He. exists d. by rewrite drop_ge, app_nil_r by done.
  - rewrite (drop_lookup _ _ _ He) in Hf |- *. cbn [List.filter length] in Hf |- *.
    pose proof (lookup_lt_Some _ _ _ He).
    rewrite (bind_done _ _ _ _ _ (clone_hit_eval s clone pid e (Forall_lookup_1 _ _ _ _ Hl He))).
    destruct (clone_hit s clone pid e) eqn:Eh; cbn [length map] in Hf |- *.
    + assert (clone_hit s clone pid (clone_end clone e) = false) as Hn.
      { unfold clone_hit, clone_end. cbn [pe_proc]. by rewrite Z.eqb_refl. }
      destruct (IH (xbt_dynar_push d (clone_end clone e)) (S cpt) clone pid s) as (d' & Hd & Hm);
        rewrite ?dynar_push_model, ?drop_app_le in * by lia;
        rewrite ?filter_app in *; cbn [List.filter] in *; rewrite ?Hn, ?app_nil_r in *.
      { apply Forall_app. split; [done|]. by apply Forall_singleton. }
      { done. }
      { rewrite length_app. simpl. lia. }
      exists d'. split; [done|]. by rewrite Hm, <- app_assoc.
    + apply IH; [done|done|]. lia.
  - apply lookup_ge_None in He. exists d. by rewrite drop_ge, app_nil_r by done.
Qed.

Lemma filter_length_twice {A} (f : A → bool) l : (length l + length (List.filter f l) <= 2 * length l)%nat.
Proof. pose proof (List.filter_length_le f l). lia. Qed.

Lemma u32_inj a b : is_s 32 a → is_s 32 b → u32 a = u32 b → a = b.
Proof. unfold is_s, uwrap. intros. dlia. Qed.

End Ends.

(** ** Properties *)

Section PipeProperties.
Context `{X : Xbt} `{Wd : World} `{!XbtLaws X}.

(** C18: the ends of a pipe at a [clone]. The two loops push onto the arrays they
    traverse, and end all the same: every end of a process other than the clone is
    copied once, in order, for the clone, after the ends there were. *)
Theorem clone_pipe_ends s pi clone pid v :
  pi ≠ NULL → st_pipe s !! pi = Some v → is_Some (st_proc s !! clone) →
  ends_live s (dynar_model (read_end v)) → ends_live s (dynar_model (write_end v)) →
  let inherited l := l ++ map (clone_end clone) (List.filter (clone_hit s clone pid) l) in
  ∃ v', clone_pipe pi clone pid s = Done tt (set_pipe (<[pi := v']> (st_pipe s)) s) ∧
    dynar_model (read_end v') = inherited (dynar_model (read_end v)) ∧
    dynar_model (write_end v') = inherited (dynar_model (write_end v)).
Proof.
  intros Hn Hv Hc Hr Hw inherited.
  assert (∀ d, ends_live s (dynar_model d) → ∃ d',
    clone_ends (2 * xbt_dynar_length d) d 0 clone pid s = Done d' s ∧
    dynar_model d' = inherited (dynar_model d)) as H.
  { intros d Hd. destruct (clone_ends_eval (2 * xbt_dynar_length d) d 0 clone pid s Hd Hc) as (d' & He & Hm).
    - rewrite drop_0, dynar_length_model. apply filter_length_twice.
    - by exists d'. }
  destruct (H _ Hr) as (re & Hre & Hre'). destruct (H _ Hw) as (we & Hwe & Hwe').
  exists (mk_pipe re we). split; [|done]. unfold clone_pipe. rewrite (proj2 (Z.eqb_neq _ _) Hn).
  ev. eval_with Hre. by eval_with Hwe.
Qed.

(** A descriptor of a process at the exit of a call. *)
Record exits (s : st) (proc fd a : Z) (p : process_descriptor) (o : fd_object) : Prop := {
  ex_proc : st_proc s !! proc = Some p;
  ex_in : in_syscall p ≠ 0;
  ex_entry : fd_entry p fd = a;
  ex_null : a ≠ NULL;
  ex_fd : st_fd s !! a = Some o;
}.

(** The ends after a [dup]. *)
Definition duplicated (oldfd newfd proc : Z) (l : list pipe_end) : list pipe_end :=
  l ++ map (dup_end newfd) (List.filter (dup_hit oldfd proc) l).

Lemma dup_pipe_eval s a o oldfd newfd proc :
  st_fd s !! a = Some o → is_s 32 oldfd → is_s 32 newfd → oldfd ≠ newfd →
  (fd_type (fd_of o) = FD_PIPE → is_Some (st_pipe s !! fd_pipe (fd_of o))) →
  ∃ m, dup_pipe a oldfd newfd proc s = Done tt (set_pipe m s) ∧
    (fd_type (fd_of o) ≠ FD_PIPE → m = st_pipe s) ∧
    (fd_type (fd_of o) = FD_PIPE → ∀ v, st_pipe s !! fd_pipe (fd_of o) = Some v →
      ∃ v', m = <[fd_pipe (fd_of o) := v']> (st_pipe s) ∧
        dynar_model (read_end v') = duplicated oldfd newfd proc (dynar_model (read_end v)) ∧
        dynar_model (write_end v') = duplicated oldfd newfd proc (dynar_model (write_end v))).
Proof.
  intros Ho Hold Hnew Hne Hp. unfold dup_pipe.
  destruct (Z.eqb_spec (fd_type (fd_of o)) FD_PIPE) as [E|E]; cycle 1.
  { exists (st_pipe s). split; [|done]. ev. rewrite (proj2 (Z.eqb_neq _ _) E). by destruct s. }
  destruct (Hp E) as [v Hv].
  assert (∀ d s0, ∃ d', dup_pipe_ends d oldfd newfd proc s0 = Done d' s0 ∧
    dynar_model d' = duplicated oldfd newfd proc (dynar_model d)) as H.
  { intros d s0. destruct (dup_ends_eval (2 * xbt_dynar_length d) d 0 oldfd newfd proc) as (d' & Hd & Hm).
    - rewrite (swrap_small 32) by done. intros H. by apply Hne, u32_inj.
    - rewrite drop_0, dynar_length_model. apply filter_length_twice.
    - exists d'. split; [by apply of_option_eval|done]. }
  destruct (H (read_end v) s) as (re & Hre & Hre').
  destruct (H (write_end v) (set_pipe (<[fd_pipe (fd_of o) := mk_pipe re (write_end v)]> (st_pipe s)) s))
    as (we & Hwe & Hwe').
  exists (<[fd_pipe (fd_of o) := mk_pipe re we]> (<[fd_pipe (fd_of o) := mk_pipe re (write_end v)]> (st_pipe s))).
  split; [|split; [done|]].
  - ev. rewrite E, Z.eqb_refl. ev. eval_with Hre. unfold put_pipe. ev. by eval_with Hwe.
  - intros _ v0 Hv0. rewrite Hv in Hv0. injection Hv0 as <-. exists (mk_pipe re we).
    split; [st_cbn; by rewrite insert_insert_eq|done].
Qed.

(** C19: [dup]. At the exit of a successful call the new descriptor is an alias of
    the old one: both entries of the table are the same object, with one more
    reference, and no other entry changes. When it is a pipe, each end that the
    process has on the old descriptor gets a copy for the new one; the loops that
    push these copies onto the arrays they traverse end. *)
Theorem dup_alias s proc a p o reg :
  let oldfd := s32 (arg reg 0) in
  let newfd := s32 (reg_ret reg) in
  exits s proc oldfd a p o → oldfd ≠ newfd →
  (fd_type (fd_of o) = FD_PIPE → is_Some (st_pipe s !! fd_pipe (fd_of o))) →
  ∃ s', syscall_dup reg proc s = Done tt s' ∧
    process_descriptor_get_fd proc newfd s' = Done a s' ∧
    (∀ fd, is_s 32 fd → fd ≠ newfd → process_descriptor_get_fd proc fd s' = Done (fd_entry p fd) s') ∧
    st_fd s' = <[a := fd_update (λ d, set_fd_refcount (s32 (fd_refcount d + 1)) d) o]> (st_fd s) ∧
    (fd_type (fd_of o) ≠ FD_PIPE → st_pipe s' = st_pipe s) ∧
    (fd_type (fd_of o) = FD_PIPE → ∀ v, st_pipe s !! fd_pipe (fd_of o) = Some v →
      ∃ v', st_pipe s' = <[fd_pipe (fd_of o) := v']> (st_pipe s) ∧
        dynar_model (read_end v') = duplicated oldfd newfd proc (dynar_model (read_end v)) ∧
        dynar_model (write_end v') = duplicated oldfd newfd proc (dynar_model (write_end v))).
Proof.
  intros oldfd newfd [Hp Hin He Hn Ho] Hne Hpi.
  set (p1 := set_in_syscall 0 p).
  set (f := fd_update (λ d, set_fd_refcount (s32 (fd_refcount d + 1)) d)).
  set (s2 := set_fd (<[a := f o]> (st_fd s)) (set_proc (<[proc := p1]> (st_proc s)) s)).
  destruct (process_descriptor_set_fd_eval s2 proc p1 newfd a) as (p2 & Hset & Hm & Hg & Hoth);
    [unfold s2; lookup_solve|by apply swrap_range|].
  set (s3 := set_proc (<[proc := p2]> (st_proc s2)) s2) in *.
  assert (fd_type (fd_of (f o)) = fd_type (fd_of o) ∧ fd_pipe (fd_of (f o)) = fd_pipe (fd_of o))
    as [Ht Hpp] by (by destruct o).
  destruct (dup_pipe_eval s3 a (f o) oldfd newfd proc) as (m & Hd & Hm1 & Hm2).
  { unfold s3, s2. st_cbn. apply lookup_insert_eq. }
  { by apply swrap_range. }
  { by apply swrap_range. }
  { done. }
  { rewrite Ht, Hpp. exact Hpi. }
  rewrite Ht, Hpp in *. exists (set_pipe m s3).
  assert (st_proc (set_pipe m s3) !! proc = Some p2) as Hp2 by (unfold s3; st_cbn; apply lookup_insert_eq).
  split; [|split; [|split; [|split; [done|split; [exact Hm1|exact Hm2]]]]].
  - unfold syscall_dup. ev. rewrite (proj2 (Z.eqb_neq _ _) Hin). unfold syscall_dup_post. ev. cbv zeta.
    eapply (bind_eval _ _ _ a); [erewrite process_descriptor_get_fd_eval by (st_cbn; apply lookup_insert_eq);
      by rewrite <- He|]. cbv beta.
    eapply bind_eval; [by apply (upd_fd_eval _ a o)|]. cbv beta. eval_with Hset. exact Hd.
  - rewrite (process_descriptor_get_fd_eval _ proc p2) by done. by rewrite Hg.
  - intros fd Hfd Hfn. rewrite (process_descriptor_get_fd_eval _ proc p2) by done. by rewrite Hoth.
Qed.

(** What is left of the ends of a pipe when a process closes its descriptor. *)
Definition remaining (s : st) (fd pid : Z) (l : list pipe_end) : list pipe_end :=
  List.filter (λ e, negb (own_end s fd pid e)) l.

(** The ends are removed and the pipe freed when there is none left. *)
Lemma close_ends_eval s fd pid pi v :
  st_pipe s !! pi = Some v → ends_live s (dynar_model (read_end v)) →
  ends_live s (dynar_model (write_end v)) →
  let re := remaining s fd pid (dynar_model (read_end v)) in
  let we := remaining s fd pid (dynar_model (write_end v)) in
  ∃ m, (let! v := get_pipe pi in
        let! re := remove_ends (xbt_dynar_length (read_end v)) (read_end v) 0 fd pid in
        let! we := remove_ends (xbt_dynar_length (write_end v)) (write_end v) 0 fd pid in
        put_pipe pi (mk_pipe re we) ;;
        if xbt_dynar_is_empty re && xbt_dynar_is_empty we then free_pipe pi else ret tt) s
       = Done tt (set_pipe m s) ∧
    (re = [] ∧ we = [] → m = delete pi (st_pipe s)) ∧
    (re ≠ [] ∨ we ≠ [] → ∃ v', m = <[pi := v']> (st_pipe s) ∧
       dynar_model (read_end v') = re ∧ dynar_model (write_end v') = we).
Proof.
  intros Hv Hr Hw re we.
  destruct (remove_ends_eval (xbt_dynar_length (read_end v)) (read_end v) 0 fd pid s) as (dr & Er & Mr);
    [by rewrite dynar_length_model|done|].
  destruct (remove_ends_eval (xbt_dynar_length (write_end v)) (write_end v) 0 fd pid s) as (dw & Ew & Mw);
    [by rewrite dynar_length_model|done|].
  cbn [take drop app] in Mr, Mw. fold re in Mr. fold we in Mw.
  set (m1 := <[pi := mk_pipe dr dw]> (st_pipe s)).
  exists (if bool_decide (re = []) && bool_decide (we = []) then delete pi m1 else m1).
  split; [|split].
  - ev. eval_with Er. eval_with Ew. unfold put_pipe. ev. rewrite !dynar_is_empty_model, Mr, Mw. fold m1.
    destruct (bool_decide _ && bool_decide _); [|done]. unfold free_pipe.
    eapply bind_eval; [apply load_eval; st_cbn; apply lookup_insert_eq|done].
  - intros [-> ->]. cbn. unfold m1. by rewrite delete_insert_eq.
  - intros H. exists (mk_pipe dr dw). split; [|done].
    destruct H; [rewrite bool_decide_eq_false_2 by done; done|].
    by rewrite (bool_decide_eq_false_2 (we = [])), andb_false_r.
Qed.

(** C16: [close] on a descriptor of a pipe. The ends that the process has on it are
    removed, all of them and no other; the pipe is freed exactly when no end of
    either kind is left; the entry of the table is free again and no other entry
    changes. The descriptor itself keeps the references it had. *)
Theorem close_pipe s proc fd a p d v :
  st_proc s !! proc = Some p → is_s 32 fd → fd_entry p fd = a → a ≠ NULL →
  st_fd s !! a = Some (FdPlain d) → fd_type d = FD_PIPE → is_s 32 (fd_refcount d) →
  fd_pipe d ≠ NULL → st_pipe s !! fd_pipe d = Some v →
  ends_live s (dynar_model (read_end v)) → ends_live s (dynar_model (write_end v)) →
  let re := remaining s fd (pd_pid p) (dynar_model (read_end v)) in
  let we := remaining s fd (pd_pid p) (dynar_model (write_end v)) in
  ∃ s', process_close_call proc fd s = Done tt s' ∧
    process_descriptor_get_fd proc fd s' = Done NULL s' ∧
    (∀ fd', is_s 32 fd' → fd' ≠ fd → process_descriptor_get_fd proc fd' s' = Done (fd_entry p fd') s') ∧
    st_fd s' = st_fd s ∧
    (re = [] ∧ we = [] → st_pipe s' = delete (fd_pipe d) (st_pipe s)) ∧
    (re ≠ [] ∨ we ≠ [] → ∃ v', st_pipe s' = <[fd_pipe d := v']> (st_pipe s) ∧
       dynar_model (read_end v') = re ∧ dynar_model (write_end v') = we).
Proof.
  intros Hp Hfd He Hn Ha Ht Hc Hpn Hv Hr Hw re we.
  set (up := λ d, set_fd_refcount (s32 (fd_refcount d + 1)) d).
  set (s1 := set_fd (<[a := FdPlain (up d)]> (st_fd s)) s).
  destruct (close_ends_eval s1 fd (pd_pid p) (fd_pipe d) v Hv Hr Hw) as (m & Hm & Hdel & Hkeep).
  set (s2 := set_fd (st_fd s) (set_pipe m s1)).
  destruct (process_descriptor_set_fd_eval s2 proc p fd NULL Hp Hfd) as (p' & Hset & _ & Hg & Hoth).
  set (s3 := set_proc (<[proc := p']> (st_proc s2)) s2) in *.
  assert (st_proc s3 !! proc = Some p') as Hp' by (unfold s3; st_cbn; apply lookup_insert_eq).
  exists s3. split; [|split; [|split; [|split; [done|split; [exact Hdel|exact Hkeep]]]]].
  - unfold process_close_call. eapply (bind_eval _ _ _ a); [rewrite <- He; by apply process_descriptor_get_fd_eval|].
    cbv beta. rewrite (proj2 (Z.eqb_neq _ _) Hn). eapply bind_eval; [by apply (upd_fd_eval s a)|]. cbv beta.
    eapply bind_eval; [apply (get_fd_eval s1 a (FdPlain (up d))); unfold s1; st_cbn; apply lookup_insert_eq|].
    cbv beta. cbn [fd_of]. change (fd_type (up d)) with (fd_type d). change (fd_pipe (up d)) with (fd_pipe d).
    rewrite Ht, (proj2 (Z.eqb_neq _ _) Hpn). change (FD_PIPE =? FD_SOCKET) with false.
    rewrite Z.eqb_refl. eapply bind_eval; [eapply bind_eval; [by apply load_eval|exact Hm]|]. cbv beta.
    eapply bind_eval; [apply (upd_fd_eval _ a (FdPlain (up d))); unfold s1; st_cbn; apply lookup_insert_eq|].
    cbv beta. rewrite <- Hset. f_equal. unfold s2, s1. st_cbn. unfold up. cbn [fd_update fd_refcount set_fd_refcount].
    by rewrite insert_insert_eq, refcount_back, insert_id.
  - rewrite (process_descriptor_get_fd_eval _ proc p') by done. by rewrite Hg.
  - intros fd' Hf Hne. rewrite (process_descriptor_get_fd_eval _ proc p') by done. by rewrite Hoth.
Qed.

End PipeProperties.

(** ** Examples

    The process at 10 reads on its descriptor 3 the pipe 40, which the process at 11
    writes; it is at the exit of a call. *)
Definition pipe_desc : fd_descriptor := mk_fd FD_PIPE 10 3 0 40 0 0 1 0 0 0 0 0 0 0.
Definition pipe_proc : process_descriptor :=
  mk_proc 7 "alice" (host "alice") (xbt_dict_set xbt_dict_new (int_key 3) 20) 0 (-1) None 0.
Definition peer_proc : process_descriptor := mk_proc 8 "alice" (host "alice") xbt_dict_new 0 0 None 0.
Definition example_pipe : pipe := mk_pipe [mk_end 3 10] [mk_end 4 11].
Definition pipe_example : st :=
  set_pipe {[40 := example_pipe]} (set_fd {[20 := FdPlain pipe_desc]}
    (set_proc {[10 := pipe_proc; 11 := peer_proc]} (ref_state (toy_world regs_zero (λ _, 0))))).

Lemma pipe_example_live :
  ends_live pipe_example (dynar_model (read_end example_pipe)) ∧
  ends_live pipe_example (dynar_model (write_end example_pipe)).
Proof. split; (constructor; [by eexists|constructor]). Qed.

Lemma clone_pipe_ends_witness :
  ∃ v', clone_pipe 40 11 8 pipe_example = Done tt (set_pipe (<[40 := v']> (st_pipe pipe_example)) pipe_example) ∧
    dynar_model (read_end v') = [mk_end 3 10; mk_end 3 11] ∧
    dynar_model (write_end v') = [mk_end 4 11].
Proof.
  apply (clone_pipe_ends pipe_example 40 11 8 example_pipe); try apply pipe_example_live;
    [done|reflexivity|by eexists].
Defined.

Lemma dup_alias_witness :
  ∃ s', syscall_dup (mk_reg SYS_dup 6 [3; 0; 0; 0; 0; 0]) 10 pipe_example = Done tt s' ∧
    process_descriptor_get_fd 10 6 s' = Done 20 s' ∧
    (∀ fd, is_s 32 fd → fd ≠ 6 → process_descriptor_get_fd 10 fd s' = Done (fd_entry pipe_proc fd) s') ∧
    st_fd s' = <[20 := FdPlain (set_fd_refcount 2 pipe_desc)]> (st_fd pipe_example) ∧
    (FD_PIPE ≠ FD_PIPE → st_pipe s' = st_pipe pipe_example) ∧
    (FD_PIPE = FD_PIPE → ∀ v, st_pipe pipe_example !! 40 = Some v →
      ∃ v', st_pipe s' = <[40 := v']> (st_pipe pipe_example) ∧
        dynar_model (read_end v') = duplicated 3 6 10 (dynar_model (read_end v)) ∧
        dynar_model (write_end v') = duplicated 3 6 10 (dynar_model (write_end v))).
Proof.
  apply (dup_alias pipe_example 10 20 pipe_proc (FdPlain pipe_desc) (mk_reg SYS_dup 6 [3; 0; 0; 0; 0; 0])).
  - split; [reflexivity|done|by vm_compute|done|reflexivity].
  - by vm_compute.
  - intros _. by exists example_pipe.
Defined.

Lemma close_pipe_witness :
  ∃ s', process_close_call 10 3 pipe_example = Done tt s' ∧
    process_descriptor_get_fd 10 3 s' = Done NULL s' ∧
    (∀ fd', is_s 32 fd' → fd' ≠ 3 → process_descriptor_get_fd 10 fd' s' = Done (fd_entry pipe_proc fd') s') ∧
    st_fd s' = st_fd pipe_example ∧
    (@nil pipe_end = [] ∧ [mk_end 4 11] = [] → st_pipe s' = delete 40 (st_pipe pipe_example)) ∧
    (@nil pipe_end ≠ [] ∨ [mk_end 4 11] ≠ [] → ∃ v', st_pipe s' = <[40 := v']> (st_pipe pipe_example) ∧
       dynar_model (read_end v') = [] ∧ dynar_model (write_end v') = [mk_end 4 11]).
Proof.
  apply (close_pipe pipe_example 10 3 20 pipe_proc pipe_desc example_pipe); try apply pipe_example_live;
    try reflexivity; try done; by vm_compute.
Defined.
