(* ===== verification/Closing.v ===== *)
(** Closing sockets: what [process_close_call], [socket_close], [comm_close] and
    [comm_destroy] do to the references of a socket. The first end of a connection to
    be closed only marks it; closing the second one, or a listening socket, releases
    the sockets before the communication, which still refers to them. *)
From S2P Require Import Prelude Libc External State Monad Frames Reference DataUtils.
From S2P Require Import ProcessDescriptor PtraceUtils Sockets Print Communication.
From S2P Require Import SocketOps Mediation Handlers.
Open Scope sim_scope.

Section Closing.
Context `{X : Xbt} `{Wd : World} `{!XbtLaws X}.

Lemma find_index_elem (x : Z) l : x ∈ l → is_Some (find_index (Z.eqb x) l).
Proof.
  induction 1 as [x l|x y l _ IH]; simpl; [rewrite Z.eqb_refl; by eexists|].
  destruct (x =? y); [by eexists|]. destruct IH as [n ->]. by eexists.
Qed.

Lemma find_index_lookup (x : Z) l k : find_index (Z.eqb x) l = Some k → l !! k = Some x.
Proof.
  revert k. induction l as [|y l IH]; intros k; [done|]. simpl.
  destruct (x =? y) eqn:E; [by intros [= <-]; bool_to_prop; subst|].
  destruct (find_index (Z.eqb x) l) as [n|]; [|done]. intros [= <-]. by apply IH.
Qed.

Lemma elem_of_delete_ne (x b : Z) (l : list Z) (k : nat) : l !! k = Some x → b ∈ l → b ≠ x → b ∈ delete k l.
Proof.
  intros Hk Hb Hn. rewrite <- (take_drop_middle l k x Hk) in Hb. rewrite delete_take_drop.
  set_solver.
Qed.

(** A socket that [release_socket] frees: it is registered, its port is that of a
    host, and the global list and the port hold its last references. *)
Record last_refs (s : st) (isp : Z) (i : infos_socket) (h : msg_host) (d : port_desc) : Prop := {
  lr_sock : st_fd s !! isp = Some (FdSock i);
  lr_proc : is_Some (st_proc s !! fd_proc (is_fd i));
  lr_host : is_host i = Some h;
  lr_port : port_of s (MSG_host_get_name h) (is_port_local i) = Some d;
  lr_listed : isp ∈ dynar_model (all_sockets s);
  lr_refs : is_ref_nb i = if isp =? bind_socket d then 2 else 1;
}.

Lemma delete_socket_eval s isp i :
  st_fd s !! isp = Some (FdSock i) → isp ∈ dynar_model (all_sockets s) →
  ∃ l k, find_index (Z.eqb isp) (dynar_model (all_sockets s)) = Some k ∧
    dynar_model l = delete k (dynar_model (all_sockets s)) ∧
    delete_socket isp s = Done tt (set_all_sockets l
      (set_fd (<[isp := FdSock (set_is_ref_nb (s32 (is_ref_nb i - 1)) i)]> (st_fd s)) s)).
Proof.
  intros Hi Hl. destruct (find_index_elem _ _ Hl) as [k Hk].
  pose proof (lookup_lt_Some _ _ _ (find_index_lookup _ _ _ Hk)) as Hlt.
  destruct (dynar_remove_at_model _ _ _ Hlt) as (l & Hr & Hm). exists l, k. split; [done|]. split; [done|].
  unfold delete_socket. ev. rewrite dynar_search_model, Hk. ev. by rewrite Hr.
Qed.

(** Freed: the address of the socket is dangling, and every other object is as it
    was. *)
Lemma release_socket_frees s isp i h d :
  last_refs s isp i h d →
  ∃ s', release_socket isp s = Done tt s' ∧ st_fd s' = delete isp (st_fd s) ∧
    st_comm s' = st_comm s ∧ st_proc s' = st_proc s ∧
    (∀ n q, n ≠ MSG_host_get_name h ∨ q ≠ is_port_local i → port_of s' n q = port_of s n q) ∧
    (∀ b, b ≠ isp → b ∈ dynar_model (all_sockets s) → b ∈ dynar_model (all_sockets s')).
Proof.
  intros [Hi [p Hp] Hh Hd Hl Hr].
  destruct (unset_socket_eval s (pd_pid p) isp i h d Hi Hh Hd) as (s1 & Hu & Hs1 & Hf1 & Hp1 & Ho1).
  set (i1 := if isp =? bind_socket d then set_is_ref_nb (s32 (is_ref_nb i - 1)) i else i).
  assert (st_fd s1 !! isp = Some (FdSock i1)) as Hi1.
  { rewrite Hf1. unfold i1. destruct (isp =? bind_socket d); [apply lookup_insert_eq|done]. }
  assert (is_ref_nb i1 = 1) as Hr1.
  { unfold i1. destruct (isp =? bind_socket d); [cbn; rewrite Hr; by vm_compute|done]. }
  destruct (delete_socket_eval s1 isp i1 Hi1) as (l & k & Hk & Hm & Hdel); [by rewrite Hs1|].
  set (s2 := set_all_sockets _ _) in Hdel.
  assert (st_fd s2 !! isp = Some (FdSock (set_is_ref_nb 0 i1))) as Hi2.
  { unfold s2. st_cbn. rewrite lookup_insert_eq, Hr1. done. }
  exists (set_fd (delete isp (st_fd s2)) s2). split; [|split; [|split; [|split; [|split]]]].
  - unfold release_socket. ev. ev. eval_with Hu. eval_with Hdel. ev. cbn [is_ref_nb set_is_ref_nb Z.eqb].
    unfold free_fd. eapply bind_eval; [by apply load_eval|done].
  - unfold s2. st_cbn. rewrite delete_insert_eq, Hf1.
    destruct (isp =? bind_socket d); [by rewrite delete_insert_eq|done].
  - unfold s2. st_cbn. by rewrite Hs1.
  - unfold s2. st_cbn. by rewrite Hs1.
  - intros n q Hnq. by apply Ho1.
  - intros b Hb Hin. unfold s2. st_cbn. rewrite Hm, Hs1. st_cbn. rewrite Hs1 in Hk.
    apply (elem_of_delete_ne isp); [by apply find_index_lookup|done|done].
Qed.

Lemma sock_ref_dangling s isp delta :
  st_fd s !! isp = None → sock_ref isp delta s = Failed Invalid_pointer s.
Proof. intros H. unfold sock_ref, upd_sock, get_sock, get_fd_obj, bind, load. by rewrite H. Qed.

(** A communication is destroyed through the sockets it refers to. *)
Lemma comm_destroy_dangling s m c :
  st_comm s !! m = Some c → ci_socket (info0 c) ≠ NULL → st_fd s !! ci_socket (info0 c) = None →
  comm_destroy m s = Failed Invalid_pointer s.
Proof.
  intros Hc Hn Hd. unfold comm_destroy. ev. rewrite (proj2 (Z.eqb_neq _ _) Hn). cbn [negb].
  by rewrite (bind_failed _ _ _ _ _ (sock_ref_dangling _ _ _ Hd)).
Qed.

(** Where the closing of a communication fails: in the state [s'] the sockets [l] are
    freed and the communication [m] is still there, and its destruction is what writes to
    freed memory. *)
Record fails_destroying (s s' : st) (m : Z) (l : list Z) : Prop := {
  fd_freed : ∀ a, st_fd s' !! a = if bool_decide (a ∈ l) then None else st_fd s !! a;
  fd_comms : st_comm s' = st_comm s;
  fd_fails : comm_destroy m s' = Failed Invalid_pointer s';
}.

Lemma comm_close_listening s isp i c h d :
  last_refs s isp i h d → is_comm i ≠ NULL → st_comm s !! is_comm i = Some c →
  comm_state c = COMM_LISTEN → ci_socket (info0 c) = isp → isp ≠ NULL →
  ∃ s', comm_close isp s = Failed Invalid_pointer s' ∧ fails_destroying s s' (is_comm i) [isp].
Proof.
  intros Hl Hn Hc Hs H0 Hne. destruct (release_socket_frees s isp i h d Hl) as (s1 & Hr & Hf & Hcm & _).
  assert (comm_destroy (is_comm i) s1 = Failed Invalid_pointer s1) as Hd.
  { apply (comm_destroy_dangling _ _ c); [by rewrite Hcm|by rewrite H0|]. rewrite Hf, H0. apply lookup_delete_eq. }
  exists s1. split; [|split; [|done|done]].
  2: { intros a. rewrite Hf. destruct (decide (a = isp)) as [->|Hna].
    - rewrite lookup_delete_eq, bool_decide_eq_true_2; [done|by left].
    - rewrite lookup_delete_ne, bool_decide_eq_false_2; [done| |done]. by rewrite list_elem_of_singleton. }
  unfold comm_close. eval_with (get_sock_eval s isp i (lr_sock _ _ _ _ _ Hl)).
  rewrite (proj2 (Z.eqb_neq _ _) Hn). ev. rewrite Hs, Z.eqb_refl, H0. eval_with Hr. exact Hd.
Qed.

(** The second end of a connection: both sockets are freed first. *)
Lemma comm_close_second s isp i c a b ia ib ha hb da db :
  in_comm s isp i c → comm_state c = COMM_CLOSED →
  ci_socket (info0 c) = a → ci_socket (info1 c) = b → a ≠ b → a ≠ NULL →
  last_refs s a ia ha da → last_refs s b ib hb db →
  MSG_host_get_name ha ≠ MSG_host_get_name hb ∨ is_port_local ia ≠ is_port_local ib →
  ∃ s', comm_close isp s = Failed Invalid_pointer s' ∧ fails_destroying s s' (is_comm i) [a; b].
Proof.
  intros (Hi & Hn & Hc) Hs H0 H1 Hab Ha La Lb Hp.
  destruct (release_socket_frees s a ia ha da La) as (s1 & R1 & F1 & C1 & P1 & O1 & A1).
  assert (last_refs s1 b ib hb db) as Lb1.
  { destruct Lb as [L1 L2 L3 L4 L5 L6]. split; [|by rewrite P1|done| |by apply A1|done].
    - rewrite F1, lookup_delete_ne by done. exact L1.
    - rewrite O1; [done|]. destruct Hp as [Hp|Hp]; [left; congruence|right; congruence]. }
  destruct (release_socket_frees s1 b ib hb db Lb1) as (s2 & R2 & F2 & C2 & _).
  assert (comm_destroy (is_comm i) s2 = Failed Invalid_pointer s2) as Hd.
  { apply (comm_destroy_dangling _ _ c); rewrite ?H0; [by rewrite C2, C1|done|].
    rewrite F2, lookup_delete_ne, F1 by done. apply lookup_delete_eq. }
  exists s2. split; [|split; [|by rewrite C2, C1|done]].
  2: { intros x. rewrite F2, F1. destruct (decide (x ∈ [a; b])) as [Hx|Hx].
    - rewrite bool_decide_eq_true_2 by done. rewrite lookup_delete_None. rewrite !elem_of_cons in Hx.
      destruct Hx as [->|[->|Hx]]; [right; apply lookup_delete_eq|by left|by apply elem_of_nil in Hx].
    - rewrite bool_decide_eq_false_2 by done. rewrite !elem_of_cons in Hx.
      rewrite !lookup_delete_ne by (intros ->; tauto). done. }
  unfold comm_close. ev. rewrite (proj2 (Z.eqb_neq _ _) Hn). ev.
  rewrite Hs, H0, H1. change (COMM_CLOSED =? COMM_LISTEN) with false. rewrite Z.eqb_refl.
  eval_with R1. eval_with R2. exact Hd.
Qed.

(** The steps of [process_close_call] on a socket up to [comm_close]: the descriptor
    has the references it had, the socket one less. *)
Definition unref (i : infos_socket) : infos_socket := set_is_ref_nb (s32 (is_ref_nb i - 1)) i.
Definition closing (s : st) (isp : Z) (i : infos_socket) : st :=
  set_fd (<[isp := FdSock (unref i)]> (st_fd s)) s.

Lemma closing_fails s s' isp i m l :
  fails_destroying (closing s isp i) s' m l → isp ∈ l → fails_destroying s s' m l.
Proof.
  intros [H1 H2 H3] Hl. split; [|done|done]. intros a. rewrite H1. case_bool_decide as Ha; [done|].
  unfold closing. st_cbn. rewrite lookup_insert_ne; [done|]. by intros ->.
Qed.

Lemma close_call_socket s proc fd isp i :
  socket_at s proc fd isp i → is_domain i = 2 → is_s 32 (fd_refcount (is_fd i)) →
  process_close_call proc fd s =
  ((comm_close isp ;; process_descriptor_set_fd proc fd NULL) ;;
   fd_ref isp (-1) ;; process_descriptor_set_fd proc fd NULL) (closing s isp i).
Proof.
  intros Hs Hd Hr. pose proof Hs as [(p & Hp & He) Hn Hi Ht].
  set (up := λ d, set_fd_refcount (s32 (fd_refcount d + 1)) d).
  set (s1 := set_fd (<[isp := FdSock (set_is_fd (up (is_fd i)) i)]> (st_fd s)) s).
  assert (socket_at s1 proc fd isp (set_is_fd (up (is_fd i)) i)) as H1 by by apply (socket_at_upd s _ _ _ i).
  set (s2 := set_fd (<[isp := FdSock i]> (st_fd s)) s).
  assert (socket_at (closing s isp i) proc fd isp (unref i)) as H3 by by apply (socket_at_upd s _ _ _ i).
  unfold process_close_call.
  eapply (bind_eval _ _ _ isp); [rewrite <- He; by apply process_descriptor_get_fd_eval|]. cbv beta.
  rewrite (proj2 (Z.eqb_neq _ _) Hn). eapply bind_eval; [by apply (upd_fd_eval s isp (FdSock i))|]. cbv beta.
  change (set_fd _ s) with s1. eval_with (get_fd_eval _ _ _ (sa_fd _ _ _ _ _ H1)).
  cbn [fd_of]. change (fd_type (is_fd (set_is_fd (up (is_fd i)) i))) with (fd_type (is_fd i)).
  rewrite Ht. change (FD_SOCKET =? FD_SOCKET) with true. cbv iota. apply bind_head. unfold socket_close.
  eval_with (get_infos_socket_at _ _ _ _ _ H1). rewrite (proj2 (Z.eqb_neq _ _) Hn).
  eapply (bind_eval _ _ _ isp); [rewrite <- He; by apply process_descriptor_get_fd_eval|]. cbv beta.
  eapply (bind_eval _ _ _ tt s2).
  { unfold fd_ref. rewrite (upd_fd_eval s1 isp (FdSock (set_is_fd (up (is_fd i)) i))) by apply (sa_fd _ _ _ _ _ H1).
    unfold s2, s1. cbn [st_fd set_fd]. rewrite insert_insert_eq. change (fd_update _ _) with
      (FdSock (set_is_fd (set_fd_refcount (s32 (s32 (fd_refcount (is_fd i) + 1) + -1)) (up (is_fd i))) i)).
    unfold up. rewrite refcount_back by done. by destruct i. }
  eapply (bind_eval _ _ _ tt (closing s isp i)).
  { unfold sock_ref. erewrite upd_sock_eval by (unfold s2; st_cbn; apply lookup_insert_eq).
    unfold s2, closing, unref. st_cbn. by rewrite insert_insert_eq. }
  eval_with (socket_attr_at _ _ _ _ _ _ _ H3). cbn [is_domain unref set_is_ref_nb]. by rewrite Hd.
Qed.

End Closing.

(** ** Properties *)

Section ClosingProperties.
Context `{X : Xbt} `{Wd : World} `{!XbtLaws X}.

(** Closing the first end of a connection. The communication is marked closed
    and stays, with what both ends received; the socket keeps its place at its
    address with one reference less; the descriptor is free again, and no other
    one changes. *)
Lemma close_first_end s proc p fd isp i c :
  socket_at s proc fd isp i → st_proc s !! proc = Some p → is_s 32 fd → is_domain i = 2 →
  is_s 32 (fd_refcount (is_fd i)) → in_comm s isp i c →
  comm_state c ≠ COMM_LISTEN → comm_state c ≠ COMM_CLOSED →
  ∃ s', process_close_call proc fd s = Done tt s' ∧
    st_comm s' = <[is_comm i := set_comm_state COMM_CLOSED c]> (st_comm s) ∧
    st_recv s' = st_recv s ∧
    (∃ i', st_fd s' !! isp = Some (FdSock i') ∧ is_ref_nb i' = s32 (is_ref_nb i - 1) ∧
           is_comm i' = is_comm i) ∧
    (∀ q, q ≠ isp → st_fd s' !! q = st_fd s !! q) ∧
    process_descriptor_get_fd proc fd s' = Done NULL s' ∧
    (∀ fd', is_s 32 fd' → fd' ≠ fd → process_descriptor_get_fd proc fd' s' = Done (fd_entry p fd') s') ∧
    (∀ x, x ≠ proc → st_proc s' !! x = st_proc s !! x) ∧ st_stream s' = st_stream s ∧
    strace_option s' = strace_option s.
Proof.
  intros Hs Hp Hfd Hd Hr (Hi & Hn & Hc) H1 H2. pose proof (sa_null _ _ _ _ _ Hs) as Hnull.
  rewrite (close_call_socket _ _ _ _ _ Hs Hd Hr).
  assert (in_comm (closing s isp i) isp (unref i) c) as Hin by (split; [apply lookup_insert_eq|done]).
  pose proof (comm_close_first _ _ _ _ Hin H1 H2) as Hf. set (s1 := set_comm _ _) in Hf.
  destruct (process_descriptor_set_fd_eval s1 proc p fd NULL Hp Hfd) as (p2 & E2 & _ & G2 & O2).
  set (s2 := set_proc _ _) in E2.
  assert (st_fd s2 !! isp = Some (FdSock (unref i))) as Hi2 by apply lookup_insert_eq.
  pose proof (upd_fd_eval s2 isp _ (λ d, set_fd_refcount (s32 (fd_refcount d + -1)) d) Hi2) as E3.
  set (s3 := set_fd _ _) in E3.
  assert (st_proc s3 !! proc = Some p2) as Hp3 by apply lookup_insert_eq.
  destruct (process_descriptor_set_fd_eval s3 proc p2 fd NULL Hp3 Hfd) as (p4 & E4 & _ & G4 & O4).
  set (s4 := set_proc _ _) in E4.
  assert (st_proc s4 !! proc = Some p4) as Hp4 by apply lookup_insert_eq.
  exists s4. split; [|split; [done|split; [done|split; [|split; [|split; [|split; [|split; [|by split]]]]]]]].
  - eapply bind_eval; [eapply bind_eval; [exact Hf|exact E2]|]. cbv beta.
    eapply bind_eval; [exact E3|exact E4].
  - eexists. split; [apply lookup_insert_eq|done].
  - intros q Hq. unfold s4, s3, s2, s1, closing. st_cbn. by rewrite !lookup_insert_ne.
  - rewrite (process_descriptor_get_fd_eval _ proc p4) by done. by rewrite G4.
  - intros fd' Hf' Hne. rewrite (process_descriptor_get_fd_eval _ proc p4) by done.
    by rewrite O4, O2.
  - intros x Hx. unfold s4, s3, s2, s1, closing. st_cbn. by rewrite !lookup_insert_ne.
Qed.

(** C23: closing a listening socket that is bound and to which nobody connected is a
    use after free. The last references are those of the tables: [comm_close], called
    once the reference of the descriptor is dropped, frees the socket, and then fails
    where the destruction of the communication, still in place, writes to that socket. *)
Theorem close_listening_dangles s proc fd isp i c h d :
  socket_at s proc fd isp i → is_domain i = 2 → is_s 32 (fd_refcount (is_fd i)) →
  is_comm i ≠ NULL → st_comm s !! is_comm i = Some c → comm_state c = COMM_LISTEN →
  ci_socket (info0 c) = isp →
  is_Some (st_proc s !! fd_proc (is_fd i)) → is_host i = Some h →
  port_of s (MSG_host_get_name h) (is_port_local i) = Some d → bind_socket d = isp →
  isp ∈ dynar_model (all_sockets s) → is_ref_nb i = 3 →
  ∃ s', process_close_call proc fd s = Failed Invalid_pointer s' ∧
    comm_close isp (closing s isp i) = Failed Invalid_pointer s' ∧
    fails_destroying s s' (is_comm i) [isp].
Proof.
  intros Hs Hd Hr Hn Hc Hl H0 Hp Hh Hport Hb Hall H3. rewrite (close_call_socket _ _ _ _ _ Hs Hd Hr).
  destruct (comm_close_listening (closing s isp i) isp (unref i) c h d) as (s' & He & Hf); try done.
  - split; [apply lookup_insert_eq|done|done|done|done|].
    rewrite Hb, Z.eqb_refl. unfold unref. cbn. by rewrite H3.
  - by destruct Hs.
  - exists s'. split; [apply bind_failed; by apply bind_failed|]. split; [done|].
    apply (closing_fails _ _ isp i); [exact Hf|by left].
Qed.

(** C24: closing the second end of a connection, whichever of the two it is, is a use
    after free as well, when the tables and the communication hold the last references of
    both ends. [comm_close], called once the reference of the descriptor is dropped, frees
    both sockets, and then fails where the destruction of the communication, still in
    place, writes to the first of them. *)
Theorem close_second_dangles s proc fd isp i c a b ia ib ha hb da db :
  socket_at s proc fd isp i → is_domain i = 2 → is_s 32 (fd_refcount (is_fd i)) →
  in_comm s isp i c → comm_state c = COMM_CLOSED →
  ci_socket (info0 c) = a → ci_socket (info1 c) = b → a ≠ b → a ≠ NULL → isp = a ∨ isp = b →
  last_refs (closing s isp i) a ia ha da → last_refs (closing s isp i) b ib hb db →
  MSG_host_get_name ha ≠ MSG_host_get_name hb ∨ is_port_local ia ≠ is_port_local ib →
  ∃ s', process_close_call proc fd s = Failed Invalid_pointer s' ∧
    comm_close isp (closing s isp i) = Failed Invalid_pointer s' ∧
    fails_destroying s s' (is_comm i) [a; b].
Proof.
  intros Hs Hd Hr (Hi & Hn & Hc) Hst H0 H1 Hab Han He La Lb Hdiff.
  rewrite (close_call_socket _ _ _ _ _ Hs Hd Hr).
  destruct (comm_close_second (closing s isp i) isp (unref i) c a b ia ib ha hb da db)
    as (s' & Hf & Hfd); try done.
  - split; [apply lookup_insert_eq|done].
  - exists s'. split; [apply bind_failed; by apply bind_failed|]. split; [done|].
    apply (closing_fails _ _ isp i); [exact Hfd|]. rewrite !elem_of_cons. tauto.
Qed.

End ClosingProperties.

(** ** Examples *)

Definition linked_comm : comm := mk_comm 1 80 (mk_info 7 9) (mk_info 11 10) COMM_OPEN [] 2.

Lemma close_listening_dangles_witness :
  ∃ s', process_close_call 2 3 listen_example = Failed Invalid_pointer s' ∧
    comm_close 3 (closing listen_example 3 listen_sock) = Failed Invalid_pointer s' ∧
    fails_destroying listen_example s' (is_comm listen_sock) [3].
Proof.
  apply (close_listening_dangles listen_example 2 3 3 listen_sock listen_comm "bob"%string
    (mk_port 80 0 7 1 3)); try reflexivity; try done.
  - split; [eexists; split; [reflexivity|by vm_compute]|by vm_compute|reflexivity|reflexivity].
  - by left.
Defined.

(** A server on bob whose client, on alice, has closed the connection. *)
Definition gone_sock : infos_socket :=
  set_is_comm 8 (set_is_local 1 65535 (new_socket 1 3 2 1 0 (host "alice"))).
Definition served_sock : infos_socket :=
  set_is_comm 8 (set_is_local 2 80 (set_is_ref_nb 2 (new_socket 2 4 2 1 0 (host "bob")))).
Definition served_proc : process_descriptor :=
  mk_proc 8 "bob" (host "bob") [(int_key 4, 11)] 0 0 None 0.
Definition closed_comm : comm := set_comm_state COMM_CLOSED linked_comm.
Definition closed_example : st :=
  set_all_sockets [3; 7; 11] (set_proc {[1 := client_proc; 2 := served_proc]}
    (set_fd {[7 := FdSock gone_sock; 11 := FdSock served_sock]} (set_comm {[8 := closed_comm]}
      (run_state (register_port (host "bob") 80 ;; register_port (host "alice") 65535) bound_example)))).

(** The server closes after the client. *)
Lemma close_second_dangles_witness :
  ∃ s', process_close_call 2 4 closed_example = Failed Invalid_pointer s' ∧
    comm_close 11 (closing closed_example 11 served_sock) = Failed Invalid_pointer s' ∧
    fails_destroying closed_example s' 8 [7; 11].
Proof.
  apply (close_second_dangles closed_example 2 4 11 served_sock closed_comm 7 11 gone_sock (unref served_sock)
    "alice"%string "bob"%string (mk_port 65535 0 0 1 NULL) (mk_port 80 0 7 2 3)); try reflexivity; try done.
  - split; [eexists; split; [reflexivity|by vm_compute]|by vm_compute|reflexivity|reflexivity].
  - by right.
  - split; [reflexivity|by eexists|reflexivity|vm_compute; reflexivity| |reflexivity].
    right. by left.
  - split; [reflexivity|by eexists|reflexivity|vm_compute; reflexivity| |reflexivity].
    right. right. by left.
  - right. by vm_compute.
Defined.
