(* ===== verification/Messages.v ===== *)
(** A message from one traced process to another: what [sendto] does at its entry
    until the sender sleeps and after the task is taken, and what [recvfrom] gives to
    the receiver. Both calls are answered by SimTerpose; the data travels in a task of
    MSG. *)
From S2P Require Import Prelude Libc External State Monad Frames Reference DataUtils.
From S2P Require Import ProcessDescriptor PtraceUtils Sockets Print Communication.
From S2P Require Import SocketOps SysNet SysData Mediation Handlers.
Open Scope sim_scope.

Section Messages.
Context `{X : Xbt} `{Wd : World} `{!XbtLaws X} `{!TraceLaws Wd} `{!StopLaws Wd} `{!TaskLaws Wd}.

(** ** Connections and the rest of the state *)

(** A socket that is still the same one: its counters of references may differ. *)
Record kept (i i' : infos_socket) : Prop := {
  kp_comm : is_comm i' = is_comm i;
  kp_kind : is_type i' = is_type i ∧ is_domain i' = is_domain i;
  kp_fd : fd_type (is_fd i') = fd_type (is_fd i) ∧ fd_proc (is_fd i') = fd_proc (is_fd i) ∧
    fd_stream (is_fd i') = fd_stream (is_fd i);
  kp_count : is_s 32 (fd_refcount (is_fd i)) → is_s 32 (fd_refcount (is_fd i'));
}.

Lemma kept_refl i : kept i i.
Proof. done. Qed.
Lemma kept_trans i j k : kept i j → kept j k → kept i k.
Proof.
  intros [A1 [A2 A3] (A4 & A5 & A6) A7] [B1 [B2 B3] (B4 & B5 & B6) B7]. split; [congruence|split; congruence|..].
  - split_and!; congruence.
  - intros H. by apply B7, A7.
Qed.
Lemma kept_fd_ref i v : kept i (set_is_fd (set_fd_refcount (s32 v) (is_fd i)) i).
Proof. split; [done..|]. intros _. by apply swrap_range. Qed.

(** The sockets are the same, and so are the streams. *)
Record same_socks (s s' : st) : Prop := {
  ss_sock : ∀ x i, st_fd s !! x = Some (FdSock i) → ∃ i', st_fd s' !! x = Some (FdSock i') ∧ kept i i';
  ss_stream : st_stream s' = st_stream s;
  ss_quiet : strace_option s' = strace_option s;
}.

Lemma same_socks_trans s1 s2 s3 : same_socks s1 s2 → same_socks s2 s3 → same_socks s1 s3.
Proof.
  intros [F1 S1 Q1] [F2 S2 Q2]. split; [|congruence|congruence]. intros x i Hx.
  destruct (F1 x i Hx) as (i1 & H1 & E1). destruct (F2 x i1 H1) as (i2 & H2 & E2). exists i2.
  split; [done|by eapply kept_trans].
Qed.

Lemma same_socks_frame s s' :
  st_fd s' = st_fd s → st_stream s' = st_stream s → strace_option s' = strace_option s → same_socks s s'.
Proof. intros Ef Es Eq. split; [|done|done]. intros x i Hx. rewrite Ef. by exists i. Qed.

Lemma same_socks_upd s x i j :
  st_fd s !! x = Some (FdSock i) → kept i j → same_socks s (set_fd (<[x := FdSock j]> (st_fd s)) s).
Proof.
  intros Hx Hj. split; [|done|done]. st_cbn. intros y k Hy. destruct (decide (x = y)) as [<-|Hne].
  - exists j. rewrite lookup_insert_eq. split; [done|congruence].
  - exists k. by rewrite lookup_insert_ne.
Qed.

(** The sockets keep their communications, and these what they hold. *)
Record same_links (s s' : st) : Prop := {
  sl_comm : st_comm s' = st_comm s;
  sl_recv : st_recv s' = st_recv s;
  sl_sock : ∀ x i, st_fd s !! x = Some (FdSock i) →
    ∃ i', st_fd s' !! x = Some (FdSock i') ∧ is_comm i' = is_comm i;
}.

Lemma same_links_frame s s' :
  st_fd s' = st_fd s → st_comm s' = st_comm s → st_recv s' = st_recv s → same_links s s'.
Proof. intros Ef Ec Er. split; [done|done|]. intros x i Hx. rewrite Ef. by exists i. Qed.

Lemma same_links_in s s' isp i c :
  same_links s s' → in_comm s isp i c → ∃ i', in_comm s' isp i' c ∧ is_comm i' = is_comm i.
Proof.
  intros [Ec _ Hf] (Hi & Hn & Hc). destruct (Hf isp i Hi) as (i' & Hi' & E). exists i'.
  unfold in_comm. by rewrite E, Ec.
Qed.

Lemma linked_links s s' a b : same_links s s' → linked s a b → linked s' a b.
Proof.
  intros E [(ia & ib & c & Ha & Hb & Hc & H) Hn]. split; [|done].
  destruct (same_links_in _ _ _ _ _ E Ha) as (ia' & Ha' & Ea).
  destruct (same_links_in _ _ _ _ _ E Hb) as (ib' & Hb' & Eb).
  exists ia', ib', c. rewrite Ea, Eb, (sl_recv _ _ E). done.
Qed.

Lemma queue_links s s' a l : same_links s s' → queue s a l → queue s' a l.
Proof.
  intros E (i & c & r & Hi & Hr & Hl). destruct (same_links_in _ _ _ _ _ E Hi) as (i' & Hi' & _).
  exists i', c, r. by rewrite (sl_recv _ _ E).
Qed.

(** Both: the same sockets with the same communications. *)
Record same_comms (s s' : st) : Prop := {
  sc_comm : st_comm s' = st_comm s;
  sc_recv : st_recv s' = st_recv s;
  sc_socks : same_socks s s';
}.

Lemma sc_sock s s' : same_comms s s' → ∀ x i, st_fd s !! x = Some (FdSock i) →
  ∃ i', st_fd s' !! x = Some (FdSock i') ∧ kept i i'.
Proof. intros [_ _ H]. apply H. Qed.

Lemma same_comms_links s s' : same_comms s s' → same_links s s'.
Proof.
  intros [Ec Er Hs]. split; [done|done|]. intros x i Hx. destruct (ss_sock _ _ Hs x i Hx) as (i' & Hi' & Hk).
  exists i'. split; [done|apply Hk].
Qed.

Lemma same_comms_frame s s' :
  st_fd s' = st_fd s → st_comm s' = st_comm s → st_recv s' = st_recv s → st_stream s' = st_stream s →
  strace_option s' = strace_option s → same_comms s s'.
Proof. intros Ef Ec Er Es Eq. split; [done|done|by apply same_socks_frame]. Qed.

Lemma same_comms_trans s1 s2 s3 : same_comms s1 s2 → same_comms s2 s3 → same_comms s1 s3.
Proof. intros [C1 R1 F1] [C2 R2 F2]. split; [congruence|congruence|by eapply same_socks_trans]. Qed.

Lemma same_comms_upd s x i j :
  st_fd s !! x = Some (FdSock i) → kept i j → same_comms s (set_fd (<[x := FdSock j]> (st_fd s)) s).
Proof. intros Hx Hj. split; [done|done|by eapply same_socks_upd]. Qed.

Lemma linked_same s s' a b : same_comms s s' → linked s a b → linked s' a b.
Proof. intros E. by apply linked_links, same_comms_links. Qed.

Lemma queue_same s s' a l : same_comms s s' → queue s a l → queue s' a l.
Proof. intros E. by apply queue_links, same_comms_links. Qed.

(** Only what is sent to the socket [isp] changes. *)
Record inbox_only (s s' : st) (isp : Z) : Prop := {
  io_comm : st_comm s' = st_comm s;
  io_recv : ∀ q x, inbox s isp q → x ≠ q → st_recv s' !! x = st_recv s !! x;
}.

Lemma inbox_only_links s s' isp : same_links s s' → inbox_only s s' isp.
Proof. intros [Ec Er _]. split; [done|]. intros. by rewrite Er. Qed.

Lemma inbox_socks s s' isp q : st_comm s' = st_comm s → same_socks s s' → inbox s isp q → inbox s' isp q.
Proof.
  intros Ec Hs (i & c & (Hi & Hn & Hc) & Hq). destruct (ss_sock _ _ Hs isp i Hi) as (i' & Hi' & [Ek _ _ _]).
  exists i', c. unfold in_comm. by rewrite Ek, Ec.
Qed.

Lemma inbox_only_trans s1 s2 s3 isp :
  same_socks s1 s2 → inbox_only s1 s2 isp → inbox_only s2 s3 isp → inbox_only s1 s3 isp.
Proof.
  intros Hs [C1 R1] [C2 R2]. split; [congruence|]. intros q x Hq Hx.
  rewrite (R2 q); [by apply (R1 q)| |done]. by apply (inbox_socks s1).
Qed.

(** What is queued for another socket stays. *)
Lemma queue_inbox s s' isp x l :
  same_socks s s' → inbox_only s s' isp → (∀ q q', inbox s isp q → inbox s x q' → q' ≠ q) →
  (∃ q, inbox s isp q) → queue s x l → queue s' x l.
Proof.
  intros Hs [Ec Er] Hne [q Hq] (i & c & r & (Hi & Hn & Hc) & Hr & Hl).
  destruct (ss_sock _ _ Hs x i Hi) as (i' & Hi' & [Ek _ _ _]). exists i', c, r. unfold in_comm. rewrite Ek, Ec.
  split; [done|]. split; [|done]. rewrite (Er q); [done..|]. apply (Hne q); [done|]. by exists i, c.
Qed.

Lemma linked_frame s s' a b :
  st_fd s' = st_fd s → st_comm s' = st_comm s → st_recv s' = st_recv s → linked s a b → linked s' a b.
Proof. intros Ef Ec Er. by apply linked_links, same_links_frame. Qed.

Lemma queue_frame s s' a l :
  st_fd s' = st_fd s → st_comm s' = st_comm s → st_recv s' = st_recv s → queue s a l → queue s' a l.
Proof. intros Ef Ec Er. by apply queue_links, same_links_frame. Qed.

Lemma linked_memory s w a b : linked s a b → linked (set_w w s) a b.
Proof. by apply linked_frame. Qed.
Lemma queue_memory s w a l : queue s a l → queue (set_w w s) a l.
Proof. by apply queue_frame. Qed.

(** The data queued for a socket is not its queue of tasks. *)
Lemma queue_set_data s isp l q r d :
  st_recv s !! q = Some r → queue s isp l →
  queue (set_recv (<[q := set_data_fifo d r]> (st_recv s)) s) isp l.
Proof.
  intros Hq (i & c & r' & Hi & Hr & Hl). destruct (decide (q = ci_recv (own c isp))) as [->|Hne].
  - rewrite Hq in Hr. injection Hr as <-. eexists i, c, _. split; [done|]. st_cbn.
    by rewrite lookup_insert_eq.
  - exists i, c, r'. split; [done|]. st_cbn. by rewrite lookup_insert_ne.
Qed.

(** ** Sending *)

(** The tracees of two worlds are in the same place. *)
Definition tracees_alike (w w' : W) : Prop :=
  (∀ q, ptrace_getregs w' q = ptrace_getregs w q) ∧ (∀ q, at_entry w' q = at_entry w q) ∧
  ∀ q a, mem_byte w' q a = mem_byte w q a.

Definition task_of (t : msg_task) (h : msg_host) : task_comm_info :=
  {| tci_task := t; tci_sender_host := Some h |}.

(** [process_send_call] up to the point where it waits for the task to be taken. *)
Lemma send_to_wait s proc p h a ia b ib q hb la lb reg data :
  socket_at s proc (s32 (arg reg 0)) a ia → is_domain ia ≠ 16 →
  linked s a b → queue s a la → queue s b lb → st_fd s !! b = Some (FdSock ib) →
  st_proc s !! proc = Some p → pd_host p = Some h →
  st_proc s !! fd_proc (is_fd ib) = Some q → pd_host q = Some hb →
  ∃ t s1, process_send_call reg proc data s =
      (send_task (Some hb) t ;; sock_ref a (-1) ;; sock_ref b (-1) ;; ret (1, set_ret (arg reg 2) reg)) s1 ∧
    MSG_task_get_data (st_w s1) t = data ∧ linked s1 a b ∧ queue s1 a la ∧
    queue s1 b (lb ++ [task_of t h]) ∧ tracees_alike (st_w s) (st_w s1) ∧
    st_proc s1 = st_proc s ∧ strace_option s1 = strace_option s ∧
    st_fd s1 = <[b := FdSock (ref_up ib)]> (<[a := FdSock (ref_up ia)]> (st_fd s)) ∧
    st_stream s1 = st_stream s ∧ inbox_only s s1 b.
Proof.
  intros Hs Hd Hl Ha Hb Hib Hp Hh Hq Hhb. pose proof (sa_fd _ _ _ _ _ Hs) as Hia.
  set (sa := set_fd (<[a := FdSock (ref_up ia)]> (st_fd s)) s).
  assert (st_fd sa !! b = Some (FdSock ib)) as Hib'.
  { unfold sa. st_cbn. rewrite lookup_insert_ne; [done|]. by destruct Hl. }
  set (sb := set_fd (<[b := FdSock (ref_up ib)]> (st_fd sa)) sa).
  assert (same_comms s sb) as Esb.
  { eapply same_comms_trans; [by apply (same_comms_upd s a ia (ref_up ia))|by apply (same_comms_upd sa b ib)]. }
  pose proof (linked_same _ _ _ _ Esb Hl) as Lb.
  pose proof (queue_same _ _ _ _ Esb Ha) as Qa. pose proof (queue_same _ _ _ _ Esb Hb) as Qb.
  destruct (linked_recv sb a b Lb) as (ja & jb & c & Ia & Ib & E1 & E2 & Hne & [rb Hrb]).
  set (fd := {| ds_data := data; ds_size := s32 (arg reg 2) |}).
  set (sc := set_recv (<[ci_recv (own c b) := set_data_fifo (xbt_fifo_push (data_fifo rb) fd) rb]>
                         (st_recv sb)) sb).
  set (n := s32 (u64 (arg reg 2))).
  destruct (MSG_parallel_task_create (st_w sc) (pd_name p +:+ " send") [h; hb] n) as [t w1] eqn:Et.
  set (sd := set_w w1 sc).
  destruct (comm_send_data_queue sd a b la lb (task_of t h)) as (se & He & Le & Qe & Qf & Ee & Re).
  { apply (linked_frame sc); [done..|]. by apply linked_set_recv. }
  { apply (queue_frame sc); [done..|]. by apply queue_set_data. }
  { apply (queue_frame sc); [done..|]. by apply queue_set_data. }
  set (s1 := set_w (MSG_task_set_data (MSG_task_set_bytes_amount (st_w se) t n) t data) se).
  exists t, s1. assert (st_w se = w1) as Ew by (by rewrite Ee).
  split; [|split; [|split; [|split; [|split; [|split; [|split; [|split; [|split; [|split]]]]]]]]].
  - unfold process_send_call. eval_with (socket_registered_at _ _ _ _ _ Hs).
    change (negb (1 =? -1)) with true. cbv iota. unfold socket_netlink.
    eval_with (socket_attr_at s _ _ _ _ _ _ Hs). rewrite (proj2 (Z.eqb_neq _ _) Hd). cbn [negb].
    eval_with (get_infos_socket_at _ _ _ _ _ Hs). eval_with (proj1 (linked_peers s a b Hl)).
    eval_with (sock_ref_up_eval s a ia Hia). eval_with (sock_ref_up_eval sa b ib Hib'). fold sb.
    eapply (bind_eval _ _ _ (set_ret (arg reg 2) reg) sc).
    { unfold handle_new_send. eval_with (comm_get_peer_recv_eval sb a ja c Ia). rewrite E1.
      eapply bind_eval; [by apply upd_recv_eval|]. done. }
    eapply bind_eval; [apply load_eval; exact Hp|]. cbv beta.
    eapply bind_eval; [apply (get_sock_eval sc b (ref_up ib)); unfold sc, sb; st_cbn; apply lookup_insert_eq|].
    cbv beta. eapply bind_eval; [apply load_eval; exact Hq|]. cbv beta.
    cbn [set_ret reg_ret]. fold n. rewrite Hh, Hhb.
    eapply (bind_eval _ _ _ t se).
    { unfold create_send_communication_task. eapply bind_eval; [apply load_eval; exact Hp|]. cbv beta.
      ev. ev. eapply bind_eval; [apply on_world_eval; by rewrite Et|]. cbv beta. fold sd.
      rewrite Hh. by eval_with He. }
    ev. ev. done.
  - unfold s1. st_cbn. apply task_data.
  - by apply (linked_frame se).
  - by apply (queue_frame se).
  - by apply (queue_frame se).
  - unfold s1. st_cbn. rewrite Ew. replace w1 with (MSG_parallel_task_create (st_w sc)
      (pd_name p +:+ " send") [h; hb] n).2 by (by rewrite Et).
    split; [|split]; intros; [by rewrite task_data_regs, task_amount_regs, parallel_task_regs
      |by rewrite task_data_stop, task_amount_stop, parallel_task_stop
      |by rewrite task_data_mem, task_amount_mem, parallel_task_mem].
  - unfold s1. st_cbn. by rewrite Ee.
  - unfold s1. st_cbn. by rewrite Ee.
  - unfold s1. st_cbn. by rewrite Ee.
  - unfold s1. st_cbn. by rewrite Ee.
  - apply (inbox_only_trans s sb); [apply Esb|by apply inbox_only_links, same_comms_links|].
    assert (inbox sb b (ci_recv (own c b))) as Hin by (by exists jb, c).
    split; unfold s1; st_cbn; [by rewrite Ee|]. intros x y Hx Hne'. rewrite (Re x y) by done.
    unfold sd, sc. st_cbn. rewrite (inbox_inj sb b x _ Hx Hin). by apply lookup_insert_ne.
Qed.

(** Neutralise the call and leave it. *)
Lemma drop_call_eval s proc p pid r :
  st_proc s !! proc = Some p → at_entry (st_w s) pid = true → ptrace_getregs (st_w s) pid = Some r →
  ∃ c w, (let s' := set_proc (<[proc := set_in_syscall 0 p]> (st_proc s)) (set_cnt c (set_w w s)) in
    ∀ B (k : unit → M B), (ptrace_neutralize_syscall pid ;; let! x := proc_outside proc in k x) s = k tt s') ∧
    replaced (st_w s) w pid (set_rax (u64 (- ENOSYS)) (set_orig_rax SYS_tuxcall r)) ∧
    ∀ q, q ≠ pid → at_entry w q = at_entry (st_w s) q.
Proof.
  intros Hp He Hr. destruct (neutralize_alone s pid r He Hr) as (c & w & Hn & Hw).
  exists c, w. split; [|exact Hw]. intros s' B k. eval_with Hn.
  eapply bind_eval; [by apply upd_proc_eval|]. done.
Qed.

(** The sender when its task was taken: the other processes left it and the two
    sockets in place. *)
Record taken (s : st) (proc pid a b : Z) (p : process_descriptor) (r : user_regs) : Prop := {
  tk_proc : st_proc s !! proc = Some (set_in_syscall 1 p);
  tk_own : ∃ i, st_fd s !! a = Some (FdSock i);
  tk_peer : ∃ i, st_fd s !! b = Some (FdSock i);
  tk_entry : at_entry (st_w s) pid = true;
  tk_regs : ptrace_getregs (st_w s) pid = Some r;
  tk_quiet : strace_option s = 0;
}.

(** Neutralise the call, leave it and give it a result. *)
Lemma reply_eval s proc pid p r nr v :
  st_proc s !! proc = Some (set_in_syscall 1 p) → in_syscall p = 0 →
  at_entry (st_w s) pid = true → ptrace_getregs (st_w s) pid = Some r →
  ∃ s', (∀ B (k : unit → M B), (ptrace_neutralize_syscall pid ;; proc_outside proc ;;
           let! x := ptrace_restore_syscall pid nr v in k x) s = k tt s') ∧
    replaced (st_w s) (st_w s') pid (set_rax v (set_orig_rax nr r)) ∧
    (∀ q, q ≠ pid → at_entry (st_w s') q = at_entry (st_w s) q) ∧
    st_proc s' = <[proc := p]> (st_proc s) ∧ same_comms s s' ∧ strace_option s' = strace_option s.
Proof.
  intros Hp Hi He Hr. destruct (drop_call_eval s proc _ pid r Hp He Hr) as (c & w & Hk & (G & E & O & Mm) & Ae).
  rewrite enter_leave in Hk by done. cbv zeta in Hk.
  set (s1 := set_proc _ _) in Hk.
  destruct (restore_eval s1 pid nr v _ G) as (c2 & w2 & H2 & G2 & O2 & M2 & E2).
  exists (set_cnt c2 (set_w w2 s1)). split; [|split; [|split; [|split; [done|split; [|done]]]]].
  - intros B k. rewrite Hk. by eval_with H2.
  - split; [exact G2|split; [by rewrite E2|split]].
    + intros x Hx. rewrite O2 by done. by apply O.
    + intros x y. rewrite M2. apply Mm.
  - intros x Hx. rewrite E2. by apply Ae.
  - by apply same_comms_frame.
Qed.

(** What is left of [syscall_sendto] once the task is taken. *)
Definition send_rest (reg : reg_s) (proc pid : Z) (log : reg_s → M unit) (x : Z * reg_s) : M Z :=
  let '(sent, reg) := x in
  if negb (sent =? 0) then
    ptrace_neutralize_syscall pid ;;
    proc_outside proc ;;
    ptrace_restore_syscall pid SYS_sendto (int_ret reg) ;;
    if_strace (log reg) ;;
    ret PROCESS_TASK_FOUND
  else ret PROCESS_CONTINUE.

Lemma send_rest_eval s proc pid a b p r reg log :
  taken s proc pid a b p r → in_syscall p = 0 → a ≠ b →
  ∃ s', (let! x := (sock_ref a (-1) ;; sock_ref b (-1) ;; ret (1, set_ret (arg reg 2) reg)) in
         send_rest reg proc pid log x) s = Done PROCESS_TASK_FOUND s' ∧
    replaced (st_w s) (st_w s') pid
      (set_rax (u64 (s32 (u64 (arg reg 2)))) (set_orig_rax SYS_sendto r)) ∧
    (∀ x, x ≠ pid → at_entry (st_w s') x = at_entry (st_w s) x) ∧
    st_proc s' = <[proc := p]> (st_proc s) ∧ same_comms s s'.
Proof.
  intros [Hp [ja Ha] [jb Hb] He Hr Hq] Hi Hab.
  set (sa := set_fd (<[a := FdSock (set_is_ref_nb (s32 (is_ref_nb ja + -1)) ja)]> (st_fd s)) s).
  set (sb := set_fd (<[b := FdSock (set_is_ref_nb (s32 (is_ref_nb jb + -1)) jb)]> (st_fd sa)) sa).
  destruct (reply_eval sb proc pid p r SYS_sendto (int_ret (set_ret (arg reg 2) reg)) Hp Hi He Hr)
    as (s' & Hk & HR & HE & HP & HC & HQ).
  assert (st_fd sa !! b = Some (FdSock jb)) as Hb' by (unfold sa; st_cbn; by rewrite lookup_insert_ne).
  pose proof (same_comms_trans _ _ _ (same_comms_upd s a ja (set_is_ref_nb (s32 (is_ref_nb ja + -1)) ja) Ha ltac:(done))
    (same_comms_upd sa b jb (set_is_ref_nb (s32 (is_ref_nb jb + -1)) jb) Hb' ltac:(done))) as Hsb.
  exists s'. split; [|split; [exact HR|split; [exact HE|split; [exact HP|by eapply same_comms_trans]]]].
  eapply (bind_eval _ _ _ (1, set_ret (arg reg 2) reg) sb).
  { eapply bind_eval; [by apply upd_sock_eval|]. cbv beta. fold sa.
    by eapply bind_eval; [apply upd_sock_eval; exact Hb'|]. }
  unfold send_rest. change (negb (1 =? 0)) with true. cbv iota. rewrite Hk.
  eapply bind_eval; [apply if_strace_quiet; by rewrite HQ|done].
Qed.

(** The sender after [syscall_sendto] until it sleeps. *)
Record sent (s s1 : st) (proc a b : Z) (p : process_descriptor) (ia ib : infos_socket)
    (h : msg_host) (t : msg_task) (la lb : list task_comm_info) (data : list Z) : Prop := {
  se_data : MSG_task_get_data (st_w s1) t = data;
  se_linked : linked s1 a b;
  se_own : queue s1 a la;
  se_peer : queue s1 b (lb ++ [task_of t h]);
  se_alike : tracees_alike (st_w s) (st_w s1);
  se_proc : st_proc s1 = <[proc := set_in_syscall 1 p]> (st_proc s);
  se_fd : st_fd s1 = <[b := FdSock (ref_up ib)]> (<[a := FdSock (ref_up ia)]> (st_fd s));
  se_stream : st_stream s1 = st_stream s;
  se_strace : strace_option s1 = strace_option s;
  se_inbox : inbox_only s s1 b;
}.

Lemma sendto_blocks s proc pid p r h a ia b ib q hb la lb reg data :
  at_call s proc pid p r → pd_host p = Some h →
  socket_at s proc (s32 (arg reg 0)) a ia → is_stream (is_type ia) = true → is_domain ia ≠ 16 →
  linked s a b → queue s a la → queue s b lb → st_fd s !! b = Some (FdSock ib) →
  st_proc s !! fd_proc (is_fd ib) = Some q → pd_host q = Some hb →
  u64 (arg reg 2) <= 2 ^ 34 - 8 →
  mem_bytes (st_w s) pid (arg reg 1) (Z.to_nat (round8 (u64 (arg reg 2)))) = Some data →
  ∃ t s1 k, syscall_sendto reg proc s = Block (Task_send t (MSG_host_get_name hb)) s1 k ∧
    sent s s1 proc a b p ia ib h t la lb data ∧
    ∀ err s2, taken s2 proc pid a b p r → ∃ s', k err s2 = Done PROCESS_TASK_FOUND s' ∧
      replaced (st_w s2) (st_w s') pid
        (set_rax (u64 (s32 (u64 (arg reg 2)))) (set_orig_rax SYS_sendto r)) ∧
      (∀ x, x ≠ pid → at_entry (st_w s') x = at_entry (st_w s2) x) ∧
      st_proc s' = <[proc := p]> (st_proc s2) ∧ same_comms s2 s'.
Proof.
  intros Hat Hh Hs Hst Hd Hl Ha Hb Hib Hq Hhb Hlen Hm. set (s0 := enter proc p s).
  pose proof (enter_socket _ _ _ _ _ _ _ _ Hat Hs) as H0. fold s0 in H0.
  destruct (ptrace_cpy_eval s0 pid (arg reg 1) (u64 (arg reg 2)) data) as [c Hc]; [|exact Hm|].
  { split; [|done]. by apply (uwrap_range 64). }
  set (s1 := set_cnt c s0) in *.
  assert (∃ q', st_proc s1 !! fd_proc (is_fd ib) = Some q' ∧ pd_host q' = Some hb) as (q' & Hq' & Hhb').
  { unfold s1, s0, enter. st_cbn. destruct (decide (proc = fd_proc (is_fd ib))) as [E|Hne].
    - rewrite <- E in Hq |- *. rewrite lookup_insert_eq. eexists. split; [done|]. rewrite (ac_proc _ _ _ _ _ Hat) in Hq.
      injection Hq as <-. done.
    - rewrite lookup_insert_ne by done. by exists q. }
  destruct (send_to_wait s1 proc (set_in_syscall 1 p) h a ia b ib q' hb la lb reg data)
    as (t & s2 & He & Hdata & L2 & A2 & B2 & T2 & P2 & Q2 & F2 & S2 & O2);
    [by destruct H0; split|done|by apply (linked_frame s)|by apply (queue_frame s)|by apply (queue_frame s)
    |done|apply enter_proc|done|done|done|].
  assert (inbox_only s s2 b) as O.
  { apply (inbox_only_trans s s1); [by apply same_socks_frame|by apply inbox_only_links, same_links_frame|done]. }
  eexists t, s2, _. split; [|split; [by split|]].
  - unfold syscall_sendto. eval_with (entering_eval s proc p (ac_proc _ _ _ _ _ Hat)).
    rewrite (ac_out _ _ _ _ _ Hat). cbn [Z.eqb]. unfold syscall_sendto_pre.
    eapply enter_eval; [exact Hat|]. fold s0. eapply bind_eval; [apply load_eval, enter_proc|]. cbv zeta.
    change (pd_pid (set_in_syscall 1 p)) with (pd_pid p). rewrite (ac_pid _ _ _ _ _ Hat).
    eapply bind_eval.
    { unfold sendto_address. eval_with (socket_attr_at s0 _ _ _ _ _ _ H0). rewrite Hst. cbn [negb]. ev. done. }
    cbv beta iota. eval_with Hc. fold s1.
    transitivity ((let! x := (send_task (Some hb) t ;; sock_ref a (-1) ;; sock_ref b (-1) ;;
        ret (1, set_ret (arg reg 2) reg)) in
      send_rest reg proc pid (λ reg, print_sendto_syscall reg proc data
        (negb (stray_byte (st_w s0) =? 0)) (stray_byte (st_w s0)) sai_zero
        (replicate 110 0) (replicate 12 0)) x) s2); [by apply bind_head|reflexivity].
  - intros err s3 Htk. eapply send_rest_eval; [exact Htk|by destruct Hat|by destruct Hl].
Qed.

(** [sendto] on a connected stream socket. The bytes at the address given are the
    data of a task that waits, after those already queued, for the socket at the other
    end; the sender sleeps until the host of that socket takes the task. Then it is at
    the exit of [sendto], which the kernel did not run, with the length as the result. *)
Lemma sendto_sends s proc pid p r h a ia b ib q hb la lb reg data :
  at_call s proc pid p r → pd_host p = Some h →
  socket_at s proc (s32 (arg reg 0)) a ia → is_stream (is_type ia) = true → is_domain ia ≠ 16 →
  linked s a b → queue s a la → queue s b lb → st_fd s !! b = Some (FdSock ib) →
  st_proc s !! fd_proc (is_fd ib) = Some q → pd_host q = Some hb →
  u64 (arg reg 2) <= 2 ^ 34 - 8 →
  mem_bytes (st_w s) pid (arg reg 1) (Z.to_nat (round8 (u64 (arg reg 2)))) = Some data →
  ∃ t s1 k, syscall_sendto reg proc s = Block (Task_send t (MSG_host_get_name hb)) s1 k ∧
    MSG_task_get_data (st_w s1) t = data ∧
    linked s1 a b ∧ queue s1 a la ∧ queue s1 b (lb ++ [task_of t h]) ∧
    tracees_alike (st_w s) (st_w s1) ∧
    ∀ err s2, taken s2 proc pid a b p r → ∃ s', k err s2 = Done PROCESS_TASK_FOUND s' ∧
      replaced (st_w s2) (st_w s') pid
        (set_rax (u64 (s32 (u64 (arg reg 2)))) (set_orig_rax SYS_sendto r)) ∧
      st_proc s' = <[proc := p]> (st_proc s2).
Proof.
  intros Hat Hh Hs Hst Hd Hl Ha Hb Hib Hq Hhb Hlen Hm.
  destruct (sendto_blocks s proc pid p r h a ia b ib q hb la lb reg data Hat Hh Hs Hst Hd Hl Ha Hb Hib Hq Hhb
    Hlen Hm) as (t & s1 & k & H1 & [] & H2).
  exists t, s1, k. split_and!; try done. intros err s2 Ht.
  destruct (H2 err s2 Ht) as (s' & E & HR & _ & HP & _). by exists s'.
Qed.

(** ** Receiving *)

Lemma strlen_bound l n : strlen l = Some n → 0 <= n < Z.of_nat (length l).
Proof.
  revert n. induction l as [|b l IH]; intros n; [done|]. simpl. destruct (b =? 0).
  - intros [= <-]. lia.
  - destruct (strlen l) as [m|]; [|done]. intros [= <-]. specialize (IH m eq_refl). lia.
Qed.

Section Receive.
Context (self : msg_self) (s : st) (proc pid isp : Z) (p : process_descriptor)
  (r : user_regs) (reg : reg_s) (i : infos_socket) (tr : stream) (mailbox : string).
Hypothesis Hat : at_call s proc pid p r.
Hypothesis Hsock : socket_at s proc (s32 (arg reg 0)) isp i.
Hypothesis Hdom : is_domain i ≠ 16.
Hypothesis Hstream : st_stream s !! fd_stream (is_fd i) = Some tr.
Hypothesis Hmail : ∀ s', own_mailbox self tr s' = Done mailbox s'.
Hypothesis Hsource : arg reg 4 = NULL.

(** What is left of [syscall_recvfrom] after the reception of a task. *)
Definition recv_rest (x : msg_task * msg_error * Z * list Z) : M unit :=
  let '(task, err, amount, data) := x in
  let! status := state_after proc (s32 (arg reg 0)) err in
  let reg := set_ret (if has_flag status SOCKET_CLOSED then 0 else amount) reg in
  let! p := get_proc proc in
  ptrace_neutralize_syscall (pd_pid p) ;;
  proc_outside proc ;;
  process_recvfrom_out_call reg proc data ;;
  task_destroy task.

Lemma recv_to_wait :
  syscall_recvfrom self reg proc s =
  (let! _ := (let! x := receive_task mailbox in recv_rest x) in fd_ref isp (-1))
    (read_waits s proc isp p i).
Proof.
  pose proof (enter_socket _ _ _ _ _ _ _ _ Hat Hsock) as H1.
  assert (socket_at (read_waits s proc isp p i) proc (s32 (arg reg 0)) isp
            (set_is_fd (set_fd_refcount (s32 (fd_refcount (is_fd i) + 1)) (is_fd i)) i)) as H2.
  { destruct H1. split; [done|done| |done]. apply lookup_insert_eq. }
  unfold syscall_recvfrom. eval_with (entering_eval s proc p (ac_proc _ _ _ _ _ Hat)).
  rewrite (ac_out _ _ _ _ _ Hat). cbn [Z.eqb]. unfold syscall_recvfrom_pre.
  eapply enter_eval; [exact Hat|]. cbv zeta. destruct (sa_proc _ _ _ _ _ H1) as (q & Hq & He).
  eapply (bind_eval _ _ _ isp); [unfold process_descriptor_get_fd; ev; by rewrite <- He|].
  eapply bind_eval; [by apply upd_fd_eval; destruct H1|]. cbv beta.
  eval_with (socket_registered_at _ _ _ _ _ H2). change (negb (1 =? -1)) with true. cbv iota.
  unfold socket_netlink. eval_with (socket_attr_at _ _ _ _ _ _ _ H2). cbn [is_domain set_is_fd].
  rewrite (proj2 (Z.eqb_neq _ _) Hdom). cbn [negb]. apply bind_head.
  eval_with (get_fd_eval _ _ _ (sa_fd _ _ _ _ _ H2)).
  eapply bind_eval; [apply load_eval; exact Hstream|]. cbv beta. by eval_with Hmail.
Qed.

(** The bytes the receiver asks for, with the null byte that ends the text. *)
Definition received (n : Z) : Z := if n + 1 <=? u64 (arg reg 2) then n + 1 else u64 (arg reg 2).

Lemma received_bound data n :
  strlen data = Some n → 0 <= received n <= Z.of_nat (length data).
Proof.
  intros H%strlen_bound. pose proof (uwrap_range 64 (arg reg 2)) as Hr. unfold received, is_u in *.
  destruct (Z.leb_spec (n + 1) (u64 (arg reg 2))); lia.
Qed.

Lemma recv_out_eval s2 q data n r2 v :
  st_proc s2 !! proc = Some q → pd_pid q = pid → strace_option s2 = 0 →
  ptrace_getregs (st_w s2) pid = Some r2 →
  strlen data = Some n → Forall (is_u 8) data →
  is_Some (mem_bytes (st_w s2) pid (arg reg 1) (Z.to_nat (round8 (received n)))) →
  ∃ c w, process_recvfrom_out_call (set_ret v reg) proc data s2 = Done tt (set_cnt c (set_w w s2)) ∧
    ptrace_getregs w pid = Some (set_rax (u64 (received n)) (set_orig_rax SYS_recvfrom r2)) ∧
    mem_bytes w pid (arg reg 1) (Z.to_nat (received n)) = Some (take (Z.to_nat (received n)) data) ∧
    (∀ x a, x ≠ pid ∨ ¬ (arg reg 1 <= a < arg reg 1 + round8 (received n)) →
       mem_byte w x a = mem_byte (st_w s2) x a) ∧
    (∀ x, at_entry w x = at_entry (st_w s2) x) ∧
    (∀ x, x ≠ pid → ptrace_getregs w x = ptrace_getregs (st_w s2) x).
Proof.
  intros Hq Hpid Hquiet Hr Hn Hb Hm. pose proof (received_bound data n Hn) as Hlen.
  destruct (ptrace_poke_eval s2 pid (arg reg 1) data (received n) Hlen Hb Hm)
    as (c1 & w1 & bs & H1 & Hbs & Htake & (S1 & S2 & S3 & S4)).
  set (s3 := set_cnt c1 (set_w w1 s2)).
  destruct (restore_eval s3 pid SYS_recvfrom (u64 (received n)) r2) as (c2 & w2 & H2 & G2 & O2 & M2 & E2).
  { unfold s3. st_cbn. by rewrite S3. }
  exists c2, w2. split; [|split; [exact G2|split; [|split; [|split]]]].
  - unfold process_recvfrom_out_call. ev. rewrite Hpid.
    eapply bind_eval; [unfold translate_source; change (arg (set_ret v reg) 4) with (arg reg 4);
      by rewrite Hsource|]. cbv beta.
    ev. cbv zeta. change (arg (set_ret v reg)) with (arg reg).
    fold (received n). eval_with H1. fold s3.
    eapply bind_eval; [exact H2|]. apply if_strace_quiet. exact Hquiet.
  - rewrite (mem_bytes_ext w1) by (intros; apply M2). rewrite <- Htake.
    eapply mem_bytes_take; [exact Hbs|]. pose proof (round8_bounds (received n)) as [? _]. lia.
  - intros x a Ha. rewrite M2. unfold s3. st_cbn. destruct (decide (x = pid)) as [->|Hne].
    + destruct Ha as [?|Ha]; [done|by apply S1].
    + by apply S2.
  - intros x. rewrite E2. unfold s3. st_cbn. by rewrite S4.
  - intros x Hx. rewrite O2 by done. unfold s3. st_cbn. by rewrite S3.
Qed.

Lemma recv_rest_eval s2 t amount data n :
  resumed proc pid isp p r s2 → strace_option s2 = 0 → strlen data = Some n → Forall (is_u 8) data →
  is_Some (mem_bytes (st_w s2) pid (arg reg 1) (Z.to_nat (round8 (received n)))) →
  ∃ s', (let! _ := recv_rest (t, MSG_OK, amount, data) in fd_ref isp (-1)) s2 = Done tt s' ∧
    ptrace_getregs (st_w s') pid = Some (set_rax (u64 (received n)) (set_orig_rax SYS_recvfrom r)) ∧
    at_entry (st_w s') pid = false ∧
    mem_bytes (st_w s') pid (arg reg 1) (Z.to_nat (received n)) = Some (take (Z.to_nat (received n)) data) ∧
    (∀ x a, x ≠ pid ∨ ¬ (arg reg 1 <= a < arg reg 1 + round8 (received n)) →
       mem_byte (st_w s') x a = mem_byte (st_w s2) x a) ∧
    st_proc s' = <[proc := p]> (st_proc s2) ∧
    (∀ x, x ≠ pid → ptrace_getregs (st_w s') x = ptrace_getregs (st_w s2) x ∧
       at_entry (st_w s') x = at_entry (st_w s2) x) ∧
    (∀ k, st_fd s2 !! isp = Some (FdSock k) → same_comms s2 s') ∧
    strace_option s' = strace_option s2.
Proof.
  intros (Hp2 & [o Ho] & He & Hr) Hq Hn Hb Hm. pose proof (ac_pid _ _ _ _ _ Hat) as Hpid.
  destruct (drop_call_eval s2 proc _ pid r Hp2 He Hr) as (c1 & w1 & Hk & (G1 & E1 & O1 & M1) & A1).
  rewrite enter_leave in Hk by (by destruct Hat). cbv zeta in Hk. set (s3 := set_proc _ _) in Hk.
  destruct (recv_out_eval s3 p data n _ (if has_flag 0 SOCKET_CLOSED then 0 else amount)
              ltac:(apply lookup_insert_eq) Hpid Hq G1 Hn Hb) as (c2 & w2 & H2 & G2 & B2 & M2 & E2 & O2).
  { rewrite (mem_bytes_ext (st_w s2)); [done|]. intros j _. apply M1. }
  set (s4 := set_w (MSG_task_destroy w2 t) (set_cnt c2 (set_w w2 s3))).
  exists (set_fd (<[isp := fd_update (λ d, set_fd_refcount (s32 (fd_refcount d + -1)) d) o]> (st_fd s4)) s4).
  split; [|split; [|split; [|split; [|split; [|split; [|split; [|split]]]]]]].
  - eapply (bind_eval _ _ _ tt s4); [|by apply upd_fd_eval]. unfold recv_rest. ev.
    eapply bind_eval; [by apply load_eval|]. cbv beta.
    change (pd_pid (set_in_syscall 1 p)) with (pd_pid p). rewrite Hpid, Hk. by eval_with H2.
  - unfold s4. st_cbn. by rewrite task_destroy_regs.
  - unfold s4. st_cbn. rewrite task_destroy_stop, E2. exact E1.
  - unfold s4. st_cbn. rewrite (mem_bytes_ext w2); [exact B2|]. intros j _. apply task_destroy_mem.
  - intros x a Ha. unfold s4. st_cbn. rewrite task_destroy_mem, M2 by done. apply M1.
  - done.
  - intros x Hx. unfold s4. st_cbn. rewrite task_destroy_regs, task_destroy_stop, O2, E2 by done. st_cbn.
    split; [by apply O1|by apply A1].
  - intros k Hk'. rewrite Ho in Hk'. injection Hk' as ->.
    eapply same_comms_trans; [exact (same_comms_upd s2 isp k _ Ho (kept_fd_ref k (fd_refcount (is_fd k) + -1)))|].
    by apply same_comms_frame.
  - done.
Qed.

Lemma recvfrom_blocks :
  ∃ k, syscall_recvfrom self reg proc s = Block (Task_receive mailbox) (read_waits s proc isp p i) k ∧
    ∀ t s2, k (Some t, MSG_OK) s2 =
      (let! _ := recv_rest (t, MSG_OK, MSG_task_get_bytes_amount (st_w s2) t, MSG_task_get_data (st_w s2) t) in
       fd_ref isp (-1)) s2.
Proof. rewrite recv_to_wait. eexists. by split. Qed.

(** [recvfrom] on a connected socket, without an address to fill in. The receiver
    sleeps until a task arrives in the mailbox of its side of the connection. When the
    data of the task is a text, the bytes of the text with its null byte, as many as
    the buffer holds, are then in the memory of the receiver at the address it gave
    (with nothing else changed beyond the last word); it is at the exit of [recvfrom],
    which the kernel did not run, with the number of these bytes as the result. *)
Lemma recvfrom_delivers :
  ∃ k, syscall_recvfrom self reg proc s = Block (Task_receive mailbox) (read_waits s proc isp p i) k ∧
    ∀ t s2 n, let data := MSG_task_get_data (st_w s2) t in
      resumed proc pid isp p r s2 → strace_option s2 = 0 → strlen data = Some n → Forall (is_u 8) data →
      is_Some (mem_bytes (st_w s2) pid (arg reg 1) (Z.to_nat (round8 (received n)))) →
      ∃ s', k (Some t, MSG_OK) s2 = Done tt s' ∧
        ptrace_getregs (st_w s') pid = Some (set_rax (u64 (received n)) (set_orig_rax SYS_recvfrom r)) ∧
        at_entry (st_w s') pid = false ∧
        mem_bytes (st_w s') pid (arg reg 1) (Z.to_nat (received n)) =
          Some (take (Z.to_nat (received n)) data) ∧
        (∀ a, ¬ (arg reg 1 <= a < arg reg 1 + round8 (received n)) →
           mem_byte (st_w s') pid a = mem_byte (st_w s2) pid a) ∧
        st_proc s' = <[proc := p]> (st_proc s2).
Proof.
  destruct recvfrom_blocks as (k & Hk & Hrest). exists k. split; [exact Hk|].
  intros t s2 n data H2 Hq Hn Hb Hm. rewrite Hrest.
  destruct (recv_rest_eval s2 t (MSG_task_get_bytes_amount (st_w s2) t) data n H2 Hq Hn Hb Hm)
    as (s' & H1 & H3 & H4 & H5 & H6 & H7 & _). exists s'. split_and!; try done.
  intros a Ha. apply H6. by right.
Qed.

End Receive.

End Messages.
