(* ===== verification/FdTable.v ===== *)
(** The descriptor table of a process against a POSIX view of it. A [table] maps each
    open number to an open file, so that two numbers may share one; [posix] is what a
    call that opens, duplicates or closes descriptors does to it. [sees] relates the
    descriptors SimTerpose keeps for a process to such a table, [kept] is what it keeps of
    the files of one, and the handlers of
    open, creat, dup, dup2 and close, run through the switch at the entry and at the
    exit of each call, follow it. *)
From S2P Require Import Prelude Libc External State Monad Frames Reference DataUtils.
From S2P Require Import ProcessDescriptor PtraceUtils Sockets Print Communication.
From S2P Require Import SocketOps SysFiles SysNet SysData SysProc Dispatch Mediation Handlers.
Open Scope sim_scope.

(** ** The specification *)

(** The flags a file was opened with and its mode. The close-on-exec marks of the numbers
    are not part of the view. *)
Record file := mk_file { f_flags : Z; f_mode : Z }.

Record table := mk_table { t_fd : gmap Z Z; t_file : gmap Z file }.

Inductive file_call := Open (fd : Z) (f : file) | Dup (old new : Z) | Close (fd : Z) | Nothing.

(** Opening takes any unused name for the file; duplicating shares the file, whatever
    the new number stood for. *)
Inductive posix : file_call → table → table → Prop :=
| posix_open fd f a t : t_file t !! a = None →
    posix (Open fd f) t (mk_table (<[fd := a]> (t_fd t)) (<[a := f]> (t_file t)))
| posix_dup old new a t : t_fd t !! old = Some a →
    posix (Dup old new) t (mk_table (<[new := a]> (t_fd t)) (t_file t))
| posix_close fd t : posix (Close fd) t (mk_table (delete fd (t_fd t)) (t_file t))
| posix_nothing t : posix Nothing t t.

Inductive posix_run : list file_call → table → table → Prop :=
| run_nil t : posix_run [] t t
| run_cons c cs t t1 t2 : posix c t t1 → posix_run cs t1 t2 → posix_run (c :: cs) t t2.

(** The numbers that are open after a call. *)
Definition opened (c : file_call) (D : gset Z) : gset Z :=
  match c with
  | Open fd _ => {[fd]} ∪ D
  | Dup _ new => {[new]} ∪ D
  | Close fd => D ∖ {[fd]}
  | Nothing => D
  end.

(** Only open numbers are duplicated. *)
Fixpoint legal (cs : list file_call) (D : gset Z) : Prop :=
  match cs with
  | [] => True
  | c :: cs => match c with Dup old _ => old ∈ D | _ => True end ∧ legal cs (opened c D)
  end.

Lemma posix_opened c t t' : posix c t t' → dom (t_fd t') = opened c (dom (t_fd t)).
Proof.
  destruct 1; cbn; [by rewrite dom_insert_L|by rewrite dom_insert_L|by rewrite dom_delete_L|done].
Qed.

(** The call the registers at the exit of a system call stand for. *)
Definition decode (reg : reg_s) : file_call :=
  let nr := reg_orig reg in
  let r := s32 (reg_ret reg) in
  if nr =? SYS_creat then
    if 0 <=? r then Open r (mk_file (Z.lor (Z.lor O_CREAT O_WRONLY) O_TRUNC) (s32 (arg reg 1))) else Nothing
  else if nr =? SYS_open then
    if 0 <=? r then
      Open r (mk_file (s32 (arg reg 1))
                      (if Z.land (arg reg 1) O_CREAT =? O_CREAT then s32 (arg reg 2) else 0))
    else Nothing
  else if (nr =? SYS_dup) || (nr =? SYS_dup2) then
    if 0 <=? r then Dup (s32 (arg reg 0)) r else Nothing
  else if nr =? SYS_close then
    if reg_ret reg =? 0 then Close (s32 (arg reg 0)) else Nothing
  else Nothing.

(** ** What SimTerpose keeps of a file

    The flags are those given to open, save that those with O_CLOEXEC have the bit
    FD_CLOEXEC, which is also that of O_WRONLY, added (sys_open.c:43). *)
Definition kept_flags (flags : Z) : Z :=
  if Z.land flags O_CLOEXEC =? O_CLOEXEC then Z.lor flags FD_CLOEXEC else flags.
Definition kept_file (f : file) : file := mk_file (kept_flags (f_flags f)) (f_mode f).
Definition kept (t : table) : table := mk_table (t_fd t) (kept_file <$> t_file t).
Definition kept_call (c : file_call) : file_call :=
  match c with Open fd f => Open fd (kept_file f) | c => c end.

(** The view of a table follows the table. *)
Lemma posix_kept c t u : posix (kept_call c) (kept t) u → ∃ t', posix c t t' ∧ u = kept t'.
Proof.
  destruct c as [fd f|old new|fd|]; cbn [kept_call]; intros H; inversion H; subst.
  - exists (mk_table (<[fd := a]> (t_fd t)) (<[a := f]> (t_file t))). unfold kept. cbn [t_fd t_file].
    rewrite fmap_insert. split; [|done]. constructor.
    match goal with H : t_file _ !! _ = None |- _ => cbn in H; rewrite lookup_fmap, fmap_None in H; exact H end.
  - exists (mk_table (<[new := a]> (t_fd t)) (t_file t)). split; [by apply posix_dup|done].
  - exists (mk_table (delete fd (t_fd t)) (t_file t)). split; [constructor|done].
  - exists t. split; [constructor|done].
Qed.

Lemma s32_cloexec x : Z.land (s32 x) O_CLOEXEC = Z.land x O_CLOEXEC.
Proof.
  assert (Z.testbit (s32 x) 19 = Z.testbit x 19) as E.
  { rewrite <- (Z.mod_pow2_bits_low (s32 x) 32), <- (Z.mod_pow2_bits_low x 32) by lia. f_equal.
    unfold swrap. rewrite Zminus_mod_idemp_l. f_equal. lia. }
  change O_CLOEXEC with (2 ^ 19). apply Z.bits_inj'. intros i Hi.
  rewrite !Z.land_spec, Z.pow2_bits_eqb by lia. destruct (Z.eqb_spec 19 i) as [<-|]; [by rewrite E|].
  by rewrite !andb_false_r.
Qed.

Section FdTable.
Context `{X : Xbt} `{Wd : World} `{!XbtLaws X} `{!TraceLaws Wd}.

(** ** The relation *)

(** Neither a socket nor a pipe. *)
Definition regular (d : fd_descriptor) : Prop := fd_type d ≠ FD_SOCKET ∧ fd_type d ≠ FD_PIPE.
Definition file_of (d : fd_descriptor) : file := mk_file (fd_flags d) (fd_mode d).

(** The process [proc], of pid [pid], with the mark [m] of its position in a call. *)
Record sees (proc pid m : Z) (w : W) (t : table) (s : st) : Prop := {
  se_proc : ∃ p, st_proc s !! proc = Some p ∧ pd_pid p = pid ∧ in_syscall p = m ∧
    ∀ fd, is_s 32 fd → fd_entry p fd = default NULL (t_fd t !! fd);
  se_open : ∀ fd a, t_fd t !! fd = Some a → is_Some (t_file t !! a);
  se_file : ∀ a f, t_file t !! a = Some f →
    ∃ o, st_fd s !! a = Some o ∧ regular (fd_of o) ∧ file_of (fd_of o) = f;
  se_next : 0 < st_next s;
  se_fresh : bounded (st_next s) (st_fd s);
  se_world : st_w s = w;
  se_quiet : strace_option s = 0;
}.

Section Process.
Context (proc pid : Z).

(** [c] returns from the states of [P], in a state of [Q], and leaves the other
    processes alone. *)
Definition serves {A} (P : st → Prop) (c : M A) (Q : A → st → Prop) : Prop :=
  ∀ s, P s → ∃ a s', c s = Done a s' ∧ Q a s' ∧ ∀ q, q ≠ proc → st_proc s' !! q = st_proc s !! q.

Lemma serves_bind {A B} P (c : M A) (k : A → M B) Q R :
  serves P c Q → (∀ a, serves (Q a) (k a) R) → serves P (bind c k) R.
Proof.
  intros Hc Hk s Hs. destruct (Hc s Hs) as (a & s1 & E1 & H1 & F1).
  destruct (Hk a s1 H1) as (b & s2 & E2 & H2 & F2). exists b, s2.
  split; [by rewrite (bind_done _ _ _ _ _ E1)|]. split; [done|]. intros q Hq. by rewrite F2, F1.
Qed.

Lemma serves_ret {A} (a : A) Q : serves (Q a) (ret a) Q.
Proof. intros s Hs. by exists a, s. Qed.

Lemma serves_pre {A} P P' (c : M A) Q : (∀ s, P s → P' s) → serves P' c Q → serves P c Q.
Proof. intros HP Hc s Hs. auto. Qed.
Lemma serves_post {A} P (c : M A) Q Q' : serves P c Q → (∀ a s, Q a s → Q' a s) → serves P c Q'.
Proof. intros Hc HQ s Hs. destruct (Hc s Hs) as (a & s' & ? & ? & ?). exists a, s'. auto. Qed.

(** A fact that holds in the states of [P]. *)
Lemma serves_from {A} (P : st → Prop) (φ : Prop) (c : M A) Q :
  (∀ s, P s → φ) → (φ → serves P c Q) → serves P c Q.
Proof. intros Hφ Hc s Hs. by apply Hc, Hs; eapply Hφ. Qed.

(** A known result of the first operation. *)
Lemma serves_then {A B} P (c : M A) (k : A → M B) Q a R :
  serves P c (λ b s, b = a ∧ Q s) → serves Q (k a) R → serves P (bind c k) R.
Proof. intros Hc Hk. eapply serves_bind; [exact Hc|]. intros b s [-> Hs]. by apply Hk. Qed.

Lemma sees_null m w t s a : sees proc pid m w t s → is_Some (t_file t !! a) → a ≠ NULL.
Proof.
  intros H [f Hf]. destruct (se_file _ _ _ _ _ _ H a f Hf) as (o & Ho & _).
  pose proof (se_fresh _ _ _ _ _ _ H a (ex_intro _ _ Ho)). unfold NULL. lia.
Qed.

(** ** The marks and the tables *)

Lemma proc_entering_serves m w t :
  serves (sees proc pid m w t) (proc_entering proc) (λ b s, b = (m =? 0) ∧ sees proc pid m w t s).
Proof.
  intros s H. pose proof H as [(p & Hp & _ & Hm & _) _ _ _ _ _ _]. eexists _, s.
  split; [by apply proc_entering_eval|]. by rewrite Hm.
Qed.

(** A change of the process that keeps its pid and its table. *)
Lemma upd_proc_serves m m' w t f :
  (∀ p, pd_pid (f p) = pd_pid p) → (∀ p, fd_map (f p) = fd_map p) → (∀ p, in_syscall (f p) = m') →
  serves (sees proc pid m w t) (upd_proc proc f) (λ _, sees proc pid m' w t).
Proof.
  intros Hpid Hmap Hin s [(p & Hp & Hpp & Hm & Ht) Ho Hf Hn Hb Hw Hq].
  eexists _, _. split; [by apply upd_proc_eval|]. split.
  - split; try done. exists (f p). split; [apply lookup_insert_eq|]. rewrite Hpid, Hin.
    split; [done|]. split; [done|]. intros fd Hfd. unfold fd_entry. rewrite Hmap. by apply Ht.
  - intros q Hq'. st_cbn. by rewrite lookup_insert_ne.
Qed.

Lemma proc_inside_serves m w t :
  serves (sees proc pid m w t) (proc_inside proc) (λ _, sees proc pid (-1) w t).
Proof. exact (upd_proc_serves m (-1) w t (set_in_syscall 1) (λ _, eq_refl) (λ _, eq_refl) (λ _, eq_refl)). Qed.
Lemma proc_outside_serves m w t :
  serves (sees proc pid m w t) (proc_outside proc) (λ _, sees proc pid 0 w t).
Proof. exact (upd_proc_serves m 0 w t (set_in_syscall 0) (λ _, eq_refl) (λ _, eq_refl) (λ _, eq_refl)). Qed.

Lemma get_proc_serves {A} m w t (k : _ → M A) Q :
  (∀ p, pd_pid p = pid → serves (sees proc pid m w t) (k p) Q) →
  serves (sees proc pid m w t) (let! p := get_proc proc in k p) Q.
Proof.
  intros Hk s H. pose proof H as [(p & Hp & Hpp & _) _ _ _ _ _ _].
  destruct (Hk p Hpp s H) as (a & s' & He & HQ). exists a, s'. split; [|exact HQ]. by ev.
Qed.

Lemma get_fd_number_serves m w t fd :
  is_s 32 fd →
  serves (sees proc pid m w t) (process_descriptor_get_fd proc fd)
    (λ a s, a = default NULL (t_fd t !! fd) ∧ sees proc pid m w t s).
Proof.
  intros Hfd s H. pose proof H as [(p & Hp & _ & _ & Ht) _ _ _ _ _ _].
  eexists _, s. split; [by apply process_descriptor_get_fd_eval|]. by rewrite Ht.
Qed.

Lemma set_fd_number_serves m w t fd a :
  is_s 32 fd → is_Some (t_file t !! a) →
  serves (sees proc pid m w t) (process_descriptor_set_fd proc fd a)
    (λ _, sees proc pid m w (mk_table (<[fd := a]> (t_fd t)) (t_file t))).
Proof.
  intros Hfd Ha s [(p & Hp & Hpp & Hm & Ht) Ho Hf Hn Hb Hw Hq].
  destruct (process_descriptor_set_fd_eval s proc p fd a Hp Hfd) as (p' & He & Hm' & Hg & Hoth).
  eexists _, _. split; [exact He|]. split.
  - split; try done.
    + exists p'. split; [apply lookup_insert_eq|]. rewrite Hm'. split; [done|]. split; [done|].
      rewrite <- Hm'. intros fd' Hfd'. cbn. destruct (decide (fd' = fd)) as [-> |Hne].
      * by rewrite lookup_insert_eq.
      * rewrite lookup_insert_ne by done. rewrite Hoth by done. by apply Ht.
    + intros fd' b. cbn. destruct (decide (fd' = fd)) as [-> |Hne].
      * rewrite lookup_insert_eq. by intros [= <-].
      * rewrite lookup_insert_ne by done. apply Ho.
  - intros q Hq'. st_cbn. by rewrite lookup_insert_ne.
Qed.

Lemma unset_fd_number_serves m w t fd :
  is_s 32 fd →
  serves (sees proc pid m w t) (process_descriptor_set_fd proc fd NULL)
    (λ _, sees proc pid m w (mk_table (delete fd (t_fd t)) (t_file t))).
Proof.
  intros Hfd s [(p & Hp & Hpp & Hm & Ht) Ho Hf Hn Hb Hw Hq].
  destruct (process_descriptor_set_fd_eval s proc p fd NULL Hp Hfd) as (p' & He & Hm' & Hg & Hoth).
  eexists _, _. split; [exact He|]. split.
  - split; try done.
    + exists p'. split; [apply lookup_insert_eq|]. rewrite Hm'. split; [done|]. split; [done|].
      rewrite <- Hm'. intros fd' Hfd'. cbn. destruct (decide (fd' = fd)) as [-> |Hne].
      * by rewrite lookup_delete_eq.
      * rewrite lookup_delete_ne by done. rewrite Hoth by done. by apply Ht.
    + intros fd' b. cbn. intros [_ H]%lookup_delete_Some. by apply (Ho fd').
  - intros q Hq'. st_cbn. by rewrite lookup_insert_ne.
Qed.

(** ** The files *)

Lemma upd_fd_serves m w t a d f g :
  t_file t !! a = Some d →
  (∀ x, fd_type (f x) = fd_type x) → (∀ x, file_of x = d → file_of (f x) = g) →
  serves (sees proc pid m w t) (upd_fd a f)
    (λ _, sees proc pid m w (mk_table (t_fd t) (<[a := g]> (t_file t)))).
Proof.
  intros Ha Hty Hfi s [(p & Hp & Hpp & Hm & Ht) Ho Hf Hn Hb Hw Hq].
  destruct (Hf a d Ha) as (o & Hoa & Hr & Hd). eexists _, _. split; [by apply upd_fd_eval|]. split; [|done].
  split; try done.
  - by exists p.
  - intros fd b Hb'. cbn. destruct (decide (b = a)) as [-> |Hne]; [rewrite lookup_insert_eq; by eexists|].
    rewrite lookup_insert_ne by done. by apply (Ho fd).
  - intros b h. st_cbn. destruct (decide (b = a)) as [-> |Hne].
    + cbn [t_file]. rewrite !lookup_insert_eq. intros [= <-]. eexists. split; [done|].
      unfold regular in *. destruct o; cbn in *; rewrite Hty; auto.
    + cbn [t_file]. rewrite !lookup_insert_ne by done. apply Hf.
  - st_cbn. apply bounded_insert; [done|]. apply Hb. by eexists.
Qed.

Lemma fd_ref_serves m w t a delta :
  is_Some (t_file t !! a) →
  serves (sees proc pid m w t) (fd_ref a delta) (λ _, sees proc pid m w t).
Proof.
  intros [d Ha]. eapply serves_post; [by apply (upd_fd_serves m w t a d _ d)|].
  intros [] s. rewrite insert_id by done. by destruct t.
Qed.

Lemma get_fd_serves {A} m w t a f (k : _ → M A) Q :
  t_file t !! a = Some f →
  (∀ d, regular d → file_of d = f → serves (sees proc pid m w t) (k d) Q) →
  serves (sees proc pid m w t) (let! d := get_fd a in k d) Q.
Proof.
  intros Ha Hk s H. destruct (se_file _ _ _ _ _ _ H a f Ha) as (o & Ho & Hr & Hf).
  destruct (Hk _ Hr Hf s H) as (b & s' & He & HQ). exists b, s'. split; [|exact HQ]. by eval_with get_fd_eval.
Qed.

Lemma ptrace_cpy_serves m w t src bs len :
  0 <= len <= 2 ^ 34 - 8 → mem_bytes w pid src (Z.to_nat (round8 len)) = Some bs →
  serves (sees proc pid m w t) (ptrace_cpy pid src len) (λ _, sees proc pid m w t).
Proof.
  intros Hl Hm s H. pose proof H as [Hp Ho Hf Hn Hb Hw Hq].
  destruct (ptrace_cpy_eval s pid src len bs Hl) as [c Hc]; [by rewrite Hw|].
  eexists _, _. split; [exact Hc|]. split; [by split|done].
Qed.

Lemma quiet_serves (P : st → Prop) c :
  (∀ s, P s → strace_option s = 0) → serves P (if_strace c) (λ _, P).
Proof. intros HP s H. exists tt, s. split; [apply if_strace_quiet; auto|done]. Qed.

Lemma if_strace_serves m w t c :
  serves (sees proc pid m w t) (if_strace c) (λ _, sees proc pid m w t).
Proof. apply quiet_serves. by intros s [_ _ _ _ _ _ H]. Qed.

Lemma alloc_file_serves m w t d :
  regular d →
  serves (sees proc pid m w t) (alloc_fd (FdPlain d)) (λ a s, t_file t !! a = None ∧
    sees proc pid m w (mk_table (t_fd t) (<[a := file_of d]> (t_file t))) s).
Proof.
  intros Hd s [(p & Hp & Hpp & Hm & Ht) Ho Hf Hn Hb Hw Hq].
  exists (st_next s), (set_fd (<[st_next s := FdPlain d]> (st_fd s)) (set_next (st_next s + 1) s)).
  split; [done|]. split; [|done]. split.
  { destruct (t_file t !! st_next s) as [f|] eqn:E; [|done]. destruct (Hf _ _ E) as (o & Hoo & _).
    by rewrite (bounded_fresh _ _ Hb) in Hoo. }
  split; try done.
  - by exists p.
  - intros fd b Hb'. cbn. destruct (decide (b = st_next s)) as [-> |Hne];
      [rewrite lookup_insert_eq; by eexists|]. rewrite lookup_insert_ne by done. by apply (Ho fd).
  - intros b h. st_cbn. cbn [t_file]. destruct (decide (b = st_next s)) as [-> |Hne].
    + rewrite !lookup_insert_eq. intros [= <-]. by exists (FdPlain d).
    + rewrite !lookup_insert_ne by done. apply Hf.
  - st_cbn. lia.
  - st_cbn. apply bounded_insert; [eapply bounded_weaken; [done|lia]|lia].
Qed.

(** A new file under a number. *)
Definition under (m : Z) (w : W) (t : table) (fd : Z) (f : file) (a : Z) (s : st) : Prop :=
  t_file t !! a = None ∧ sees proc pid m w (mk_table (<[fd := a]> (t_fd t)) (<[a := f]> (t_file t))) s.

Lemma number_file_serves m w t fd f a :
  is_s 32 fd →
  serves (λ s, t_file t !! a = None ∧ sees proc pid m w (mk_table (t_fd t) (<[a := f]> (t_file t))) s)
    (process_descriptor_set_fd proc fd a) (λ _, under m w t fd f a).
Proof.
  intros Hfd s [Hn H]. set (t1 := mk_table _ _) in H.
  assert (is_Some (t_file t1 !! a)) as Ha by (cbn; rewrite lookup_insert_eq; by eexists).
  destruct (set_fd_number_serves m w t1 fd a Hfd Ha s H) as (b & s' & E & H' & F).
  exists b, s'. split; [exact E|]. split; [by split|exact F].
Qed.

Lemma fd_ref_under m w t fd f a delta :
  serves (under m w t fd f a) (fd_ref a delta) (λ _, under m w t fd f a).
Proof.
  intros s [Hn H]. set (t1 := mk_table _ _) in H.
  assert (is_Some (t_file t1 !! a)) as Ha by (cbn; rewrite lookup_insert_eq; by eexists).
  destruct (fd_ref_serves m w t1 a delta Ha s H) as (b & s' & E & H' & F).
  exists b, s'. split; [exact E|]. split; [by split|exact F].
Qed.

Lemma new_classic_serves m w t fd flags mode :
  is_s 32 fd →
  serves (sees proc pid m w t) (new_classic proc fd flags mode) (under m w t fd (mk_file flags mode)).
Proof.
  intros Hfd. unfold new_classic. eapply serves_bind; [by apply alloc_file_serves|]. intros a. cbv beta.
  eapply serves_bind; [by apply number_file_serves|]. intros [].
  eapply serves_bind; [apply fd_ref_under|]. intros []. apply serves_ret.
Qed.

(** ** The handlers *)

(** What [posix] allows is seen at the end. *)
Definition follows (w : W) (t : table) (c : file_call) (s : st) : Prop :=
  ∃ t', posix c t t' ∧ sees proc pid 0 w t' s.

Lemma follows_nothing w t s : sees proc pid 0 w t s → follows w t Nothing s.
Proof. exists t. split; [constructor|done]. Qed.

Lemma log_serves w t c m :
  serves (follows w t c) (if_strace m) (λ _, follows w t c).
Proof. apply quiet_serves. by intros s (t' & _ & [_ _ _ _ _ _ H]). Qed.

Lemma open_serves w t fd flags mode :
  is_s 32 fd →
  serves (sees proc pid 0 w t) (let! _ := new_classic proc fd flags mode in ret tt)
    (λ _, follows w t (Open fd (mk_file flags mode))).
Proof.
  intros Hfd. eapply serves_bind; [by apply new_classic_serves|]. cbv beta. intros a s [Ha H].
  exists tt, s. split; [done|]. split; [|done]. eexists. split; [by constructor|exact H].
Qed.

Lemma open_cloexec_serves w t fd flags mode :
  is_s 32 fd →
  serves (sees proc pid 0 w t)
    (let! a := new_classic proc fd flags mode in
     upd_fd a (λ d, set_fd_flags (Z.lor (fd_flags d) FD_CLOEXEC) d))
    (λ _, follows w t (Open fd (mk_file (Z.lor flags FD_CLOEXEC) mode))).
Proof.
  intros Hfd. eapply serves_bind; [by apply new_classic_serves|]. cbv beta. intros a s [Ha H].
  set (t1 := mk_table _ _) in H. assert (t_file t1 !! a = Some (mk_file flags mode)) as Ha1
    by (cbn; apply lookup_insert_eq).
  destruct (upd_fd_serves 0 w t1 a _ (λ d, set_fd_flags (Z.lor (fd_flags d) FD_CLOEXEC) d)
    (mk_file (Z.lor flags FD_CLOEXEC) mode) Ha1 (λ _, eq_refl)) with s as ([] & s' & E & H' & F);
    [by intros x [= <- <-]|exact H|].
  exists tt, s'. split; [exact E|]. split; [|exact F]. cbn in H'. rewrite insert_insert_eq in H'.
  eexists. split; [by constructor|exact H'].
Qed.

Lemma syscall_open_serves w t reg bs :
  reg_orig reg = SYS_open → mem_bytes w pid (arg reg 0) 200 = Some bs →
  serves (sees proc pid (-1) w t) (syscall_open reg proc) (λ _, follows w t (kept_call (decode reg))).
Proof.
  intros Hn Hm. unfold syscall_open. eapply serves_then; [apply proc_entering_serves|]. cbv beta. cbn [Z.eqb].
  eapply serves_bind; [apply proc_outside_serves|]. intros []. apply get_proc_serves. intros p ->.
  eapply serves_bind; [by eapply ptrace_cpy_serves|]. intros ?. cbv beta. unfold decode. rewrite Hn.
  change (SYS_open =? SYS_creat) with false. rewrite Z.eqb_refl. cbv iota zeta.
  destruct (0 <=? s32 (reg_ret reg)).
  - unfold kept_call, kept_file, kept_flags. cbn [f_flags f_mode]. rewrite s32_cloexec.
    destruct (Z.land (arg reg 1) O_CLOEXEC =? O_CLOEXEC);
      [apply open_cloexec_serves|apply open_serves]; by apply swrap_range.
  - intros s H. exists tt, s. split; [done|]. split; [by apply follows_nothing|done].
Qed.

Lemma syscall_creat_serves w t reg bs :
  reg_orig reg = SYS_creat → mem_bytes w pid (arg reg 0) 200 = Some bs →
  serves (sees proc pid (-1) w t) (syscall_creat reg proc) (λ _, follows w t (kept_call (decode reg))).
Proof.
  intros Hn Hm. unfold syscall_creat. eapply serves_then; [apply proc_entering_serves|]. cbv beta. cbn [Z.eqb].
  unfold syscall_creat_post.
  eapply serves_bind; [apply proc_outside_serves|]. intros []. apply get_proc_serves. intros p ->.
  eapply serves_bind; [by eapply ptrace_cpy_serves|]. intros ?. cbv beta. unfold decode. rewrite Hn.
  rewrite Z.eqb_refl. cbv iota zeta. destruct (0 <=? s32 (reg_ret reg)).
  - eapply serves_bind; [apply open_serves; by apply swrap_range|]. intros []. apply log_serves.
  - eapply serves_bind; [exact (serves_ret tt (λ _, sees proc pid 0 w t))|]. intros [].
    eapply serves_pre; [apply follows_nothing|]. apply log_serves.
Qed.

Lemma dup_pipe_serves w t a old new :
  is_Some (t_file t !! a) →
  serves (sees proc pid 0 w t) (dup_pipe a old new proc) (λ _, sees proc pid 0 w t).
Proof.
  intros [f Ha]. eapply get_fd_serves; [done|]. intros d [_ Hd] _. rewrite (proj2 (Z.eqb_neq _ _) Hd).
  exact (serves_ret tt (λ _, sees proc pid 0 w t)).
Qed.

(** The new number becomes an alias of the old one. *)
Lemma alias_serves w t old new a :
  is_s 32 new → is_Some (t_file t !! a) →
  serves (sees proc pid 0 w t) (process_descriptor_set_fd proc new a ;; dup_pipe a old new proc)
    (λ _, sees proc pid 0 w (mk_table (<[new := a]> (t_fd t)) (t_file t))).
Proof.
  intros Hnew Ha. eapply serves_bind; [by apply set_fd_number_serves|]. intros []. by apply dup_pipe_serves.
Qed.

Lemma process_close_call_serves w t fd :
  is_s 32 fd → (∀ a, t_fd t !! fd = Some a → is_Some (t_file t !! a)) →
  serves (sees proc pid 0 w t) (process_close_call proc fd)
    (λ _, sees proc pid 0 w (mk_table (delete fd (t_fd t)) (t_file t))).
Proof.
  intros Hfd Ho. unfold process_close_call. eapply serves_then; [by apply get_fd_number_serves|].
  destruct (t_fd t !! fd) as [a|] eqn:E.
  - change (default NULL (Some a)) with a. assert (is_Some (t_file t !! a)) as Ha by auto.
    eapply serves_from; [intros s H; exact (sees_null _ _ _ _ _ H Ha)|]. intros Hn.
    rewrite (proj2 (Z.eqb_neq _ _) Hn). cbn [negb].
    eapply serves_bind; [by apply fd_ref_serves|]. intros [].
    destruct Ha as [f Hf]. eapply get_fd_serves; [exact Hf|]. intros d [Hs Hp] _.
    rewrite (proj2 (Z.eqb_neq _ _) Hs), (proj2 (Z.eqb_neq _ _) Hp).
    eapply serves_bind; [exact (serves_ret tt (λ _, sees proc pid 0 w t))|]. intros [].
    eapply serves_bind; [apply fd_ref_serves; by exists f|]. intros []. by apply unset_fd_number_serves.
  - change (default NULL (@None Z)) with NULL. rewrite Z.eqb_refl. cbn [negb]. rewrite delete_id by done. destruct t.
    exact (serves_ret tt (λ _, sees proc pid 0 w _)).
Qed.

Lemma syscall_close_serves w t reg :
  reg_orig reg = SYS_close → reg_ret reg = 0 →
  serves (sees proc pid (-1) w t) (syscall_close reg proc) (λ _, follows w t (kept_call (decode reg))).
Proof.
  intros Hn Hr. unfold syscall_close. eapply serves_then; [apply proc_entering_serves|]. cbv beta. cbn [Z.eqb].
  rewrite Hr. cbn [Z.eqb]. eapply serves_bind; [apply proc_outside_serves|]. intros []. cbv zeta.
  eapply serves_bind.
  - eapply serves_from; [intros s H; exact (λ a, se_open _ _ _ _ _ _ H (s32 (arg reg 0)) a)|]. intros Ho.
    apply process_close_call_serves; [by apply swrap_range|done].
  - intros []. eapply serves_pre; [|apply (log_serves w t)]. intros s H. eexists. split; [|exact H].
    unfold decode. rewrite Hn, Hr. exact (posix_close _ t).
Qed.

Lemma syscall_dup_serves w t reg a :
  reg_orig reg = SYS_dup → 0 <= s32 (reg_ret reg) → t_fd t !! s32 (arg reg 0) = Some a →
  serves (sees proc pid (-1) w t) (syscall_dup reg proc) (λ _, follows w t (kept_call (decode reg))).
Proof.
  intros Hn Hr Ha. unfold syscall_dup. eapply serves_then; [apply proc_entering_serves|]. cbv beta. cbn [Z.eqb].
  unfold syscall_dup_post. eapply serves_bind; [apply proc_outside_serves|]. intros []. cbv zeta.
  eapply serves_from; [intros s H; exact (se_open _ _ _ _ _ _ H _ _ Ha)|]. intros Hf.
  eapply serves_then; [apply get_fd_number_serves; by apply swrap_range|]. rewrite Ha.
  change (default NULL (Some a)) with a. eapply serves_bind; [by apply fd_ref_serves|]. intros [].
  eapply serves_post; [apply alias_serves; [by apply swrap_range|done]|].
  intros [] s H. eexists. split; [|exact H]. unfold decode. rewrite Hn, (Zle_imp_le_bool _ _ Hr).
  by apply posix_dup.
Qed.

(** The number given to dup2 is closed first when it is open. *)
Lemma make_room_serves w t new b :
  is_s 32 new → b = default NULL (t_fd t !! new) → (∀ c, t_fd t !! new = Some c → is_Some (t_file t !! c)) →
  serves (sees proc pid 0 w t)
    (if negb (b =? NULL) then fd_ref b (-1) ;; process_close_call proc new else ret tt)
    (λ _, sees proc pid 0 w (mk_table (delete new (t_fd t)) (t_file t))).
Proof.
  intros Hnew -> Ho. destruct (t_fd t !! new) as [c|] eqn:E.
  - change (default NULL (Some c)) with c. assert (is_Some (t_file t !! c)) as Hc by auto.
    eapply serves_from; [intros s H; exact (sees_null _ _ _ _ _ H Hc)|]. intros Hn.
    rewrite (proj2 (Z.eqb_neq _ _) Hn). cbn [negb]. eapply serves_bind; [by apply fd_ref_serves|]. intros [].
    apply process_close_call_serves; [done|]. intros d. rewrite E. auto.
  - change (default NULL (@None Z)) with NULL. rewrite Z.eqb_refl. cbn [negb]. rewrite delete_id by done.
    destruct t. exact (serves_ret tt (λ _, sees proc pid 0 w _)).
Qed.

Lemma syscall_dup2_serves w t reg a :
  reg_orig reg = SYS_dup2 → 0 <= s32 (reg_ret reg) → s32 (reg_ret reg) = s32 (arg reg 1) →
  t_fd t !! s32 (arg reg 0) = Some a →
  serves (sees proc pid (-1) w t) (syscall_dup2 reg proc) (λ _, follows w t (kept_call (decode reg))).
Proof.
  intros Hn Hr He Ha. unfold syscall_dup2. eapply serves_then; [apply proc_entering_serves|]. cbv beta. cbn [Z.eqb].
  unfold syscall_dup2_post. eapply serves_bind; [apply proc_outside_serves|]. intros []. cbv zeta.
  eapply serves_from; [intros s H; exact (se_open _ _ _ _ _ _ H)|]. intros Ho. pose proof (Ho _ _ Ha) as Hf.
  eapply serves_then; [apply get_fd_number_serves; by apply swrap_range|]. rewrite Ha.
  change (default NULL (Some a)) with a. eapply serves_bind; [by apply fd_ref_serves|]. intros [].
  eapply serves_then; [apply get_fd_number_serves; by apply swrap_range|].
  eapply serves_bind; [apply make_room_serves; [by apply swrap_range|done|by apply Ho]|]. intros [].
  eapply serves_post; [apply alias_serves; [by apply swrap_range|done]|].
  intros [] s H. eexists. split; [|exact H]. cbn [t_fd t_file]. rewrite insert_delete_eq.
  unfold decode. rewrite Hn, (Zle_imp_le_bool _ _ Hr), He. by apply posix_dup.
Qed.

(** ** Calls through the switch *)

Definition file_nrs : list Z := [SYS_creat; SYS_open; SYS_dup; SYS_dup2; SYS_close].

Context (self : msg_self) (fuel : nat) (handle : Z → M Z).

Lemma serves_continue P m (Q : st → Prop) :
  serves P m (λ _, Q) → serves P (continue m) (λ _, Q).
Proof.
  intros H. unfold continue. eapply serves_bind; [exact H|]. intros []. exact (serves_ret None (λ _, Q)).
Qed.

(** The cases of the switch. *)
Definition file_handler (reg : reg_s) : M unit :=
  if reg_orig reg =? SYS_creat then syscall_creat reg proc
  else if reg_orig reg =? SYS_open then syscall_open reg proc
  else if reg_orig reg =? SYS_dup then syscall_dup reg proc
  else if reg_orig reg =? SYS_dup2 then syscall_dup2 reg proc
  else syscall_close reg proc.

Lemma dispatch_file reg :
  reg_orig reg ∈ file_nrs → dispatch self fuel handle reg proc = continue (file_handler reg).
Proof.
  intros Hn. unfold dispatch, file_handler.
  repeat (apply elem_of_cons in Hn as [-> |Hn]; [reflexivity|]). by apply elem_of_nil in Hn.
Qed.

(** At the entry the call is only marked. *)
Lemma dispatch_enters w t reg :
  reg_orig reg ∈ file_nrs →
  serves (sees proc pid 0 w t) (dispatch self fuel handle reg proc) (λ _, sees proc pid (-1) w t).
Proof.
  intros Hn. rewrite dispatch_file by done. apply serves_continue.
  assert (∀ m, serves (sees proc pid 0 w t) (let! e := proc_entering proc in if e then proc_inside proc else m)
    (λ _, sees proc pid (-1) w t)) as Hc.
  { intros m. eapply serves_then; [apply proc_entering_serves|]. apply proc_inside_serves. }
  unfold file_handler. repeat (case_match; [apply Hc|]). apply Hc.
Qed.

(** What the kernel answers: the path of an open is in memory, the other calls
    succeed. *)
Record answered_ok (w : W) (reg : reg_s) : Prop := {
  ao_nr : reg_orig reg ∈ file_nrs;
  ao_path : reg_orig reg = SYS_open ∨ reg_orig reg = SYS_creat →
    is_Some (mem_bytes w pid (arg reg 0) 200);
  ao_close : reg_orig reg = SYS_close → reg_ret reg = 0;
  ao_dup : reg_orig reg = SYS_dup ∨ reg_orig reg = SYS_dup2 → 0 <= s32 (reg_ret reg);
  ao_dup2 : reg_orig reg = SYS_dup2 → s32 (reg_ret reg) = s32 (arg reg 1);
}.

Lemma dispatch_leaves w t reg :
  answered_ok w reg → legal [decode reg] (dom (t_fd t)) →
  serves (sees proc pid (-1) w t) (dispatch self fuel handle reg proc) (λ _, follows w t (kept_call (decode reg))).
Proof.
  intros [Hn Hp Hc Hd H2] [Hl _].
  rewrite dispatch_file by done. apply serves_continue.
  assert (reg_orig reg = SYS_dup ∨ reg_orig reg = SYS_dup2 →
    ∃ a, t_fd t !! s32 (arg reg 0) = Some a) as Ha.
  { intros E. apply elem_of_dom. revert Hl. unfold decode.
    destruct E as [E|E]; rewrite E; simpl; rewrite (Zle_imp_le_bool 0) by auto; done. }
  unfold file_nrs in Hn. rewrite !elem_of_cons in Hn.
  destruct Hn as [E|[E|[E|[E|[E|Hn]]]]]; [| | | | |by apply elem_of_nil in Hn];
    unfold file_handler; rewrite E; cbn [Z.eqb Pos.eqb SYS_creat SYS_open SYS_dup SYS_dup2 SYS_close].
  - destruct Hp as [bs Hb]; [auto|]. by apply (syscall_creat_serves w t reg bs).
  - destruct Hp as [bs Hb]; [auto|]. by apply (syscall_open_serves w t reg bs).
  - destruct Ha as [a Ha]; [auto|]. by apply (syscall_dup_serves w t reg a); auto.
  - destruct Ha as [a Ha]; [auto|]. by apply (syscall_dup2_serves w t reg a); auto.
  - by apply syscall_close_serves; auto.
Qed.

(** A call: the registers at the entry, then the world and the registers at the exit,
    once the kernel has run it. *)
Record kcall := mk_kcall { kc_in : reg_s; kc_world : W; kc_out : reg_s }.

Definition serve_call (c : kcall) : M unit :=
  let! _ := dispatch self fuel handle (kc_in c) proc in
  modify (set_w (kc_world c)) ;;
  let! _ := dispatch self fuel handle (kc_out c) proc in
  ret tt.

Fixpoint serve (cs : list kcall) : M unit :=
  match cs with [] => ret tt | c :: cs => serve_call c ;; serve cs end.

Record kernel_ran (c : kcall) : Prop := {
  kr_nr : reg_orig (kc_in c) = reg_orig (kc_out c);
  kr_out : answered_ok (kc_world c) (kc_out c);
}.

Definition calls (cs : list kcall) : list file_call := (λ c, decode (kc_out c)) <$> cs.
Definition last_world : W → list kcall → W := foldl (λ _, kc_world).

Lemma set_world_serves m w w' t :
  serves (sees proc pid m w t) (modify (set_w w')) (λ _, sees proc pid m w' t).
Proof. intros s [Hp Ho Hf Hn Hb Hw Hq]. eexists _, _. split; [done|]. split; [by split|done]. Qed.

Lemma serve_call_serves w t c :
  kernel_ran c → legal [decode (kc_out c)] (dom (t_fd t)) →
  serves (sees proc pid 0 w t) (serve_call c) (λ _, follows (kc_world c) t (kept_call (decode (kc_out c)))).
Proof.
  intros [Hn Ho] Hl. unfold serve_call. eapply serves_bind.
  - apply dispatch_enters. rewrite Hn. by apply Ho.
  - intros r. eapply serves_bind; [apply set_world_serves|]. intros []. eapply serves_bind.
    + by apply dispatch_leaves.
    + intros r'. exact (serves_ret tt (λ _, follows (kc_world c) t (kept_call (decode (kc_out c))))).
Qed.


(** ** Duplication by [fcntl] *)

Lemma fcntl_dup_serves w t fd d f :
  is_s 32 fd → regular d → file_of d = f →
  serves (sees proc pid 0 w t) (fcntl_dup proc fd d (dupfd_flags (fd_flags d)))
    (λ _ s, ∃ a, under 0 w t fd (mk_file (dupfd_flags (f_flags f)) 0) a s).
Proof.
  intros Hfd Hd <-. unfold fcntl_dup. eapply serves_bind; [by apply alloc_file_serves|]. intros a. cbv beta.
  eapply serves_post; [by apply number_file_serves|]. intros [] s H. by exists a.
Qed.

(** Fcntl with F_DUPFD does not duplicate as POSIX does. The new number stands for a
    file of its own, which shares nothing with the old one, of mode 0 and with the flags
    of the old one less its close-on-exec mark, whose value is that of O_WRONLY. *)
Lemma dupfd_not_shared w t s reg a f :
  sees proc pid (-1) w t s → s32 (arg reg 1) = F_DUPFD → s32 (reg_ret reg) ≠ -1 →
  t_fd t !! s32 (arg reg 0) = Some a → t_file t !! a = Some f →
  ∃ b s', syscall_fcntl reg proc s = Done tt s' ∧ b ≠ a ∧
    sees proc pid 0 w (mk_table (<[s32 (reg_ret reg) := b]> (t_fd t))
      (<[b := mk_file (dupfd_flags (f_flags f)) 0]> (t_file t))) s'.
Proof.
  intros Hs Hc Hr Ha Hf.
  assert (serves (sees proc pid (-1) w t) (syscall_fcntl reg proc)
    (λ _ s, ∃ b, under 0 w t (s32 (reg_ret reg)) (mk_file (dupfd_flags (f_flags f)) 0) b s)) as H.
  { unfold syscall_fcntl. eapply serves_then; [apply proc_entering_serves|]. cbv beta. cbn [Z.eqb].
    eapply serves_bind; [apply proc_outside_serves|]. intros [].
    eapply serves_bind; [apply if_strace_serves|]. intros [].
    unfold process_fcntl_call. rewrite Hc. cbv zeta. apply get_proc_serves. intros p _.
    change ((F_DUPFD =? F_GETLK) || (F_DUPFD =? F_SETLK) || (F_DUPFD =? F_SETLKW)) with false. cbv iota.
    eapply serves_bind; [exact (serves_ret _ (λ _, sees proc pid 0 w t))|]. intros lock. cbv beta.
    rewrite (proj2 (Z.eqb_neq _ _) Hr). change (F_DUPFD =? F_DUPFD) with true. cbv iota.
    eapply serves_then; [apply get_fd_number_serves; by apply swrap_range|]. rewrite Ha.
    change (default NULL (Some a)) with a. eapply serves_bind.
    - eapply get_fd_serves; [exact Hf|]. intros d Hd Hfl. by apply fcntl_dup_serves; [apply swrap_range| |].
    - intros []. apply quiet_serves. by intros s0 (b & _ & [_ _ _ _ _ _ H]). }
  destruct (H s Hs) as ([] & s' & E & (b & Hb & H') & _). exists b, s'. split; [exact E|]. split; [|exact H'].
  intros ->. congruence.
Qed.

End Process.
End FdTable.

(** ** Examples *)

(** The process 10, of pid 7, whose descriptor 3 is a file opened for writing. *)
Definition file_desc : fd_descriptor := mk_fd FD_CLASSIC 10 3 0 0 1 420 1 0 0 0 0 0 0 0.
Definition file_proc (m : Z) : process_descriptor (Wd := ref_world) :=
  mk_proc 7 "alice" (Some "alice"%string) (xbt_dict_set xbt_dict_new (int_key 3) 20) 0 m None 0.
Definition file_table : table := mk_table {[3 := 20]} {[20 := mk_file 1 420]}.
Definition file_example (m : Z) : st :=
  set_next 50 (set_proc {[10 := file_proc m]}
    (set_fd {[20 := FdPlain file_desc]} (ref_state (toy_world regs_zero (λ _, 0))))).

Lemma file_example_sees m :
  sees 10 7 m (toy_world regs_zero (λ _, 0) : W (World := ref_world)) file_table (file_example m).
Proof.
  split.
  - exists (file_proc m). split; [apply lookup_insert_eq|]. split; [done|]. split; [done|]. intros fd Hfd.
    unfold fd_entry. destruct (decide (fd = 3)) as [-> |Hne]; [by vm_compute|].
    cbn [fd_map file_proc t_fd file_table]. rewrite dict_get_set_ne by (by apply int_key_ne).
    rewrite dict_get_new, lookup_singleton_ne by done. done.
  - intros fd a. cbn. intros [_ <-]%lookup_singleton_Some. exists (mk_file 1 420). reflexivity.
  - intros a f. cbn. intros [<- <-]%lookup_singleton_Some. exists (FdPlain file_desc).
    split; [apply lookup_insert_eq|done].
  - done.
  - intros a [o Ho]. cbn in Ho. apply lookup_singleton_Some in Ho as [<- _]. done.
  - done.
  - done.
Qed.

(** creat gives 4, dup of 4 gives 5, 4 is closed, dup2 puts 5 on 3, an open with O_CLOEXEC
    gives 6, another one fails. *)
Definition file_calls : list (kcall (Wd := ref_world)) :=
  (λ r : Z * list Z * Z, mk_kcall (mk_reg r.1.1 0 r.1.2) (toy_world regs_zero (λ _, 0)) (mk_reg r.1.1 r.2 r.1.2)) <$>
    [(SYS_creat, [4096; 420; 0; 0; 0; 0], 4); (SYS_dup, [4; 0; 0; 0; 0; 0], 5);
     (SYS_close, [4; 0; 0; 0; 0; 0], 0); (SYS_dup2, [5; 3; 0; 0; 0; 0], 3);
     (SYS_open, [4096; O_CLOEXEC; 0; 0; 0; 0], 6);
     (SYS_open, [4096; 0; 0; 0; 0; 0], 2 ^ 64 - 2)].

Lemma file_calls_ran : Forall (kernel_ran 7) file_calls.
Proof.
  unfold file_calls, fmap, list_fmap.
  repeat apply Forall_cons_2; [..|apply Forall_nil]; split; try done; split;
    first [done|by eexists|by intros [?|?]|by vm_compute; set_solver].
Qed.

