(* ===== verification/Sorts.v ===== *)
(** The two sorts of descriptors. A pointer to a descriptor is cast to one to a socket
    when the type of the descriptor is [FD_SOCKET]: the invariant that makes this safe,
    the system calls that keep it and the one that breaks it. *)
From S2P Require Import Prelude Libc External State Monad Frames Reference DataUtils.
From S2P Require Import ProcessDescriptor PtraceUtils Sockets Print Communication.
From S2P Require Import SocketOps SysFiles SysNet SysData SysProc Neutral Dispatch Robust Mediation Handlers.
Open Scope sim_scope.

Section Sorts.
Context `{X : Xbt} `{Wd : World}.

(** Every descriptor of type [FD_SOCKET] is the first member of a socket. *)
Definition sorted (s : st) : Prop := ∀ p o, st_fd s !! p = Some o → plain_ok o.

Lemma sorted_insert s p o m : plain_ok o → (∀ q o', m !! q = Some o' → plain_ok o') →
  st_fd s = <[p := o]> m → sorted s.
Proof.
  intros Ho Hm E q o' H. rewrite E in H. destruct (decide (q = p)) as [->|Hq].
  - rewrite lookup_insert_eq in H. by injection H as <-.
  - rewrite lookup_insert_ne in H by done. by eapply Hm.
Qed.

#[export] Instance sorted_stable : Stable sorted.
Proof.
  split; try (intros; assumption).
  - intros s v H Hv. by eapply (sorted_insert _ (st_next s) v (st_fd s)).
  - intros s p v v' H Hp Hv. eapply (sorted_insert _ p v' (st_fd s)); [|done|done]. by eapply Hv, H.
  - intros s p H q o Hq. change (delete p (st_fd s) !! q = Some o) in Hq. apply lookup_delete_Some in Hq as [_ Hq]. by apply (H q).
Qed.

#[export] Instance sorted_robust : Robust sorted.
Proof. split; intros; assumption. Qed.

(** The access to a socket through its number. *)
Lemma get_infos_socket_sorted s proc fd isp s' :
  sorted s → get_infos_socket proc fd s = Done isp s' →
  s' = s ∧ (isp = NULL ∨ ∃ i, st_fd s !! isp = Some (FdSock i)).
Proof.
  intros Hs. unfold get_infos_socket, process_descriptor_get_fd, get_fd, get_proc, get_fd_obj, bind, load.
  destruct (st_proc s !! proc) as [p|]; simpl; [|done]. set (a := default _ _). change (default 0 _) with a.
  destruct (a =? NULL); [by intros [= <- <-]; auto|]. destruct (st_fd s !! a) as [o|] eqn:E; simpl; [|done].
  destruct (fd_type (fd_of o) =? FD_SOCKET) eqn:Et; simpl; [|by intros [= <- <-]; auto].
  intros [= <- <-]. split; [done|right]. destruct o as [d|i]; [|by exists i]. exfalso.
  apply (Hs _ _ E). by bool_to_prop.
Qed.

Lemma socket_attr_sorted {A} s proc fd (dflt : A) f s' :
  sorted s → socket_attr proc fd dflt f s ≠ Failed Bad_cast s'.
Proof.
  intros Hs. unfold socket_attr, bind. destruct (get_infos_socket proc fd s) as [isp s1|e s1|] eqn:E; simpl.
  - apply get_infos_socket_sorted in E as [-> [->|[i Hi]]]; [done| |done].
    destruct (isp =? NULL); [done|]. by rewrite (get_sock_eval s isp i Hi).
  - intros [= -> <-]. revert E.
    unfold get_infos_socket, process_descriptor_get_fd, get_fd, get_proc, get_fd_obj, bind, load.
    destruct (st_proc s !! proc) as [p|]; simpl; [|done]. destruct (_ =? NULL); [done|].
    destruct (st_fd s !! _); simpl; [|done]. by destruct (negb _).
  - done.
Qed.

End Sorts.

(** ** Properties *)

Section SortsProperties.
Context `{X : Xbt} `{Wd : World} `{!XbtLaws X} `{!StopLaws Wd}.

(** C5: the casts of sockets.c are safe. In a state where only sockets have the type
    [FD_SOCKET], no attribute of a socket is read from a plain descriptor, whatever the
    number asked for; the start and the end of a process and every system call but
    clone and the two commands of fcntl that copy a descriptor keep such states, at
    every yield too, when the calls nested in connect do. *)
Theorem casts_stay_safe s :
  sorted s →
  (∀ A proc fd (dflt : A) f s', socket_attr proc fd dflt f s ≠ Failed Bad_cast s') ∧
  (∀ self fuel handle reg proc, copying reg = false → (∀ q, preserves sorted (handle q)) →
    keeps sorted (dispatch self fuel handle reg proc s)) ∧
  (∀ name argv0 pid, keeps sorted (process_descriptor_new name argv0 pid s)) ∧
  (∀ proc, keeps sorted (process_die proc s)).
Proof.
  intros Hs. split_and!.
  - intros. by apply socket_attr_sorted.
  - intros self fuel handle reg proc Hc Hh. by apply dispatch_kept; [..|congruence|done|done]; try apply _.
  - intros. by apply process_descriptor_new_kept; try apply _.
  - intros. by apply process_die_kept; try apply _.
Qed.

(** C28: F_DUPFD on a socket. At its exit SimTerpose enters under the new number a
    plain descriptor of type [FD_SOCKET]: the state is no longer sorted, and the next
    access to the new number as a socket reads past the end of that descriptor. *)
Theorem dupfd_socket_cast s reg proc p k ik :
  st_proc s !! proc = Some p → in_syscall p ≠ 0 → strace_option s = 0 → st_next s ≠ NULL →
  socket_at s proc (s32 (arg reg 0)) k ik → s32 (arg reg 1) = F_DUPFD → s32 (reg_ret reg) ≠ -1 →
  ∃ s', syscall_fcntl reg proc s = Done tt s' ∧ ¬ sorted s' ∧
    ∀ A (dflt : A) f, socket_attr proc (s32 (reg_ret reg)) dflt f s' = Failed Bad_cast s'.
Proof.
  intros Hp Hin Hq Hn [(x & Hx & Ex) Hz Hf Ht] Hc Hr. rewrite Hp in Hx. injection Hx as <-.
  set (p0 := set_in_syscall 0 p). set (s1 := set_proc (<[proc := p0]> (st_proc s)) s).
  set (o := FdPlain (mk_fd (fd_type (is_fd ik)) proc (s32 (reg_ret reg)) (fd_stream (is_fd ik)) (fd_pipe (is_fd ik))
    (dupfd_flags (fd_flags (is_fd ik))) 0 1 0 0 0 0 0 0 0)).
  set (s2 := set_fd (<[st_next s1 := o]> (st_fd s1)) (set_next (st_next s1 + 1) s1)).
  destruct (process_descriptor_set_fd_eval s2 proc p0 (s32 (reg_ret reg)) (st_next s1)) as (p1 & E & (_ & He & _));
    [apply lookup_insert_eq|by apply swrap_range|]. set (s3 := set_proc _ s2) in E.
  assert (st_fd s3 !! st_next s = Some o) as Ho by apply lookup_insert_eq.
  assert (fd_type (fd_of o) = FD_SOCKET) as Hto by done. exists s3. split_and!.
  - unfold syscall_fcntl. eapply (bind_eval _ _ _ false); [rewrite (proc_entering_eval _ _ _ Hp); by rewrite (proj2 (Z.eqb_neq _ _) Hin)|].
    cbv beta iota. eval_with (upd_proc_eval s proc p (set_in_syscall 0) Hp). fold p0 s1.
    eapply bind_eval; [by apply if_strace_quiet|]. cbv beta.
    unfold process_fcntl_call. rewrite Hc. cbv zeta. eapply bind_eval; [apply load_eval, lookup_insert_eq|]. cbv beta.
    eapply (bind_eval _ _ _ (flock_decode [])); [done|]. rewrite (proj2 (Z.eqb_neq _ _) Hr).
    eapply bind_eval; [apply process_descriptor_get_fd_eval, lookup_insert_eq|]. cbv beta.
    change (fd_entry p0 (s32 (arg reg 0))) with (fd_entry p (s32 (arg reg 0))). rewrite Ex.
    change (F_DUPFD =? F_DUPFD) with true. cbv iota.
    eapply (bind_eval _ _ _ tt s3); [|by apply if_strace_quiet].
    eval_with (get_fd_eval s1 k _ Hf). cbn [fd_of]. exact E.
  - intros H. by apply (H _ _ Ho).
  - intros A dflt f. unfold socket_attr, get_infos_socket. unfold bind at 1.
    assert (get_infos_socket proc (s32 (reg_ret reg)) s3 = Done (st_next s) s3) as Eg.
    { unfold get_infos_socket. eapply bind_eval; [apply process_descriptor_get_fd_eval, lookup_insert_eq|]. cbv beta.
      rewrite He. change (st_next s1) with (st_next s). rewrite (proj2 (Z.eqb_neq _ _) Hn).
      eval_with (get_fd_eval s3 _ _ Ho). by rewrite Hto. }
    unfold get_infos_socket in Eg. rewrite Eg. cbn [obind]. rewrite (proj2 (Z.eqb_neq _ _) Hn).
    apply bind_failed. by apply (get_sock_plain s3 _ _ Ho).
Qed.

End SortsProperties.

(** A process with a socket under the number 3. *)
Lemma sock_example_sorted : sorted sock_example.
Proof.
  intros q o H. unfold sock_example in H. cbn in H. apply lookup_singleton_Some in H as [_ <-]. done.
Qed.

(** It is inside a call. *)
Definition inside_proc : process_descriptor (Wd := ref_world) :=
  mk_proc 7 "alice" (Some "alice"%string : option (msg_host (World := ref_world)))
    (xbt_dict_set xbt_dict_new (int_key 3) 20) 0 (-1) None 0.
Definition inside_example : st := set_proc {[10 := inside_proc]} sock_example.
Definition dupfd_reg : reg_s := mk_reg SYS_fcntl 5 [3; F_DUPFD; 0; 0; 0; 0].

Lemma casts_stay_safe_witness :
  socket_attr 10 3 (-1) is_domain sock_example ≠ Failed Bad_cast sock_example ∧
  keeps sorted (dispatch self_example 0 (λ _, ret 0) (mk_reg SYS_socket 4 [2; 1; 0; 0; 0; 0]) 10 sock_example).
Proof.
  destruct (casts_stay_safe sock_example sock_example_sorted) as (H1 & H2 & _). split; [apply H1|].
  apply H2; [reflexivity|]. intros q s Hs. exact Hs.
Defined.

Lemma dupfd_socket_cast_witness :
  ∃ s', syscall_fcntl dupfd_reg 10 inside_example = Done tt s' ∧ ¬ sorted s' ∧
    socket_attr 10 5 (-1) is_domain s' = Failed Bad_cast s'.
Proof.
  destruct (dupfd_socket_cast inside_example dupfd_reg 10 inside_proc 20 example_sock)
    as (s' & E & H1 & H2); [reflexivity|by vm_compute|reflexivity|by vm_compute| |reflexivity|by vm_compute|].
  - split; [exists inside_proc; split; reflexivity|by vm_compute|reflexivity|reflexivity].
  - exists s'. exact (conj E (conj H1 (H2 Z (-1) is_domain))).
Defined.
