(* ===== verification/Fuel.v ===== *)
(** The fuel of the main loops. A run that ends, fails or yields with some fuel does
    the same with more: [extends] compares two runs of a loop, up to the states in
    which one of them has run out of fuel. *)
From S2P Require Import Prelude Libc External State Monad Reference DataUtils.
From S2P Require Import ProcessDescriptor PtraceUtils Sockets Print Communication.
From S2P Require Import SocketOps SysFiles SysNet SysData SysProc Dispatch.
Open Scope sim_scope.

Section Fuel.
Context `{X : Xbt} `{Wd : World}.

(** [o'] is what [o] becomes with more fuel: the same outcome, at every yield the same
    request in the same state, unless [o] lacks fuel. *)
Inductive extends {A} : outcome A → outcome A → Prop :=
| ext_fuel s o' : extends (Failed Out_of_fuel s) o'
| ext_done a s : extends (Done a s) (Done a s)
| ext_failed e s : extends (Failed e s) (Failed e s)
| ext_block r s k k' : (∀ x s', extends (k x s') (k' x s')) → extends (Block r s k) (Block r s k').

Lemma extends_refl {A} (o : outcome A) : extends o o.
Proof. induction o; by constructor. Qed.

Lemma extends_done {A} (o o' : outcome A) a s : extends o o' → o = Done a s → o' = Done a s.
Proof. by destruct 1. Qed.

Lemma extends_obind {A B} (o o' : outcome A) (f f' : A → M B) :
  extends o o' → (∀ a s, extends (f a s) (f' a s)) → extends (obind o f) (obind o' f').
Proof. intros H Hf. induction H; simpl; by constructor || auto. Qed.

Definition grows {A} (m m' : M A) : Prop := ∀ s, extends (m s) (m' s).

Lemma grows_refl {A} (m : M A) : grows m m.
Proof. intros s. apply extends_refl. Qed.
Lemma grows_fuel {A} (m : M A) : grows (fail Out_of_fuel) m.
Proof. intros s. constructor. Qed.
Lemma grows_bind {A B} (m m' : M A) (f f' : A → M B) :
  grows m m' → (∀ a, grows (f a) (f' a)) → grows (bind m f) (bind m' f').
Proof. intros Hm Hf s. apply extends_obind; [apply Hm|]. intros a s'. apply Hf. Qed.
Lemma grows_if {A} (b : bool) (m m' n n' : M A) :
  grows m m' → grows n n' → grows (if b then m else n) (if b then m' else n').
Proof. by destruct b. Qed.

End Fuel.

Create HintDb grow discriminated.
#[export] Hint Constants Opaque : grow.
#[export] Hint Resolve grows_refl grows_fuel grows_bind grows_if : grow.
Ltac grow :=
  repeat match goal with
  | |- ∀ _, _ => intros ?
  | |- grows ?m ?m => apply grows_refl
  | |- grows (bind _ _) (bind _ _) => apply grows_bind
  | |- grows (if _ then _ else _) (if _ then _ else _) => apply grows_if
  | |- grows (match ?x with _ => _ end) _ => destruct x
  | |- _ => solve [eauto 3 with grow]
  end.

Section Loops.
Context `{X : Xbt} `{Wd : World} (self : msg_self).

Lemma print_argv_grows n n' proc pid argv first :
  (n <= n')%nat → grows (print_argv n proc pid argv first) (print_argv n' proc pid argv first).
Proof.
  revert n' argv first. induction n as [|n IH]; intros n' argv first Hn.
  - destruct n'; simpl; grow.
  - destruct n' as [|n']; [lia|]. simpl. grow. apply IH. lia.
Qed.

Lemma syscall_execve_grows n n' reg proc :
  (n <= n')%nat → grows (syscall_execve n reg proc) (syscall_execve n' reg proc).
Proof.
  intros Hn. unfold syscall_execve, if_strace, when, print_execve_syscall_pre. grow. by apply print_argv_grows.
Qed.

Lemma syscall_connect_grows handle handle' reg proc :
  (∀ q, grows (handle q) (handle' q)) →
  grows (syscall_connect self handle reg proc) (syscall_connect self handle' reg proc).
Proof. intros Hh. unfold syscall_connect, syscall_connect_pre. grow. Qed.

Lemma dispatch_grows n n' handle handle' reg proc :
  (n <= n')%nat → (∀ q, grows (handle q) (handle' q)) →
  grows (dispatch self n handle reg proc) (dispatch self n' handle' reg proc).
Proof.
  intros Hn Hh. unfold dispatch, continue. cbv zeta.
  repeat (apply grows_if; [first [apply grows_refl|apply grows_bind; [|intros []; apply grows_refl];
    first [by apply syscall_connect_grows|by apply syscall_execve_grows]]|]).
  apply grows_refl.
Qed.

Lemma handle_loop_grows n n' pid proc :
  (n <= n')%nat → grows (handle_loop n self pid proc) (handle_loop n' self pid proc).
Proof.
  revert n' pid proc. induction n as [|n IH]; intros n' pid proc Hn; [apply grows_fuel|].
  destruct n' as [|n']; [lia|]. simpl. apply grows_bind; [apply grows_refl|]. intros reg.
  apply grows_bind.
  - apply dispatch_grows; [lia|]. intros q. grow. apply IH. lia.
  - intros [r|]; [apply grows_refl|]. grow. apply IH. lia.
Qed.

Lemma process_handle_grows n n' proc :
  (n <= n')%nat → grows (process_handle n self proc) (process_handle n' self proc).
Proof. intros Hn. unfold process_handle. grow. by apply handle_loop_grows. Qed.

Lemma treatment_grows n n' proc :
  (n <= n')%nat → grows (treatment n self proc) (treatment n' self proc).
Proof. intros Hn. unfold treatment. grow. by apply process_handle_grows. Qed.

Lemma track_grows t t' n n' proc :
  (t <= t')%nat → (n <= n')%nat → grows (track t n self proc) (track t' n' self proc).
Proof.
  intros Ht Hn. revert t' Ht. induction t as [|t IH]; intros t' Ht; [apply grows_fuel|].
  destruct t' as [|t']; [lia|]. simpl. apply grows_bind; [by apply treatment_grows|]. intros r.
  grow. apply IH. lia.
Qed.

Lemma main_loop_grows t t' n n' proc :
  (t <= t')%nat → (n <= n')%nat → grows (main_loop t n self proc) (main_loop t' n' self proc).
Proof.
  intros Ht Hn. revert t' Ht. induction t as [|t IH]; intros t' Ht; [apply grows_fuel|].
  destruct t' as [|t']; [lia|]. simpl. apply grows_bind; [apply grows_refl|]. intros ?.
  apply grows_bind; [by apply treatment_grows|]. intros r. grow. apply IH. lia.
Qed.

(** The fuel of the loops only bounds how far a run is followed. Whatever happens
    with some number of turns and of system call stops, a result, a failure or a yield
    of the process of a tracee or of a clone, happens with more: the same outcome in the
    same state, and so on after each yield, whatever the other processes do. *)
Lemma simulator_fuel t t' n n' argv0 pid proc :
  (t <= t')%nat → (n <= n')%nat →
  (∀ s, extends (simterpose_process_runner t n self argv0 pid s)
                (simterpose_process_runner t' n' self argv0 pid s)) ∧
  (∀ s, extends (main_loop t n self proc s) (main_loop t' n' self proc s)).
Proof.
  intros Ht Hn. split; [|by apply main_loop_grows].
  change (grows (simterpose_process_runner t n self argv0 pid) (simterpose_process_runner t' n' self argv0 pid)).
  unfold simterpose_process_runner. grow. by apply track_grows.
Qed.

End Loops.
