(* ===== verification/Ending.v ===== *)
(** The end of a tracee: its last system call, and the release of its descriptors
    by [process_die]. *)
From S2P Require Import Prelude Libc External State Monad Frames Reference DataUtils.
From S2P Require Import ProcessDescriptor PtraceUtils Sockets Print Communication.
From S2P Require Import SocketOps SysFiles SysNet SysData SysProc Dispatch Mediation Handlers.
Open Scope sim_scope.

Section Ending.
Context `{X : Xbt} `{Wd : World} `{!XbtLaws X}.

(** ** Releasing the descriptors *)

Lemma free_fd_eval s a o :
  st_fd s !! a = Some o → free_fd a s = Done tt (set_fd (delete a (st_fd s)) s).
Proof. intros H. unfold free_fd, get_fd_obj. eapply bind_eval; [by apply load_eval|done]. Qed.

(** A turn of the loop on a live descriptor. *)
Lemma destroy_live s k a o items :
  st_fd s !! a = Some o →
  destroy_entries ((k, a) :: items) s = destroy_entries items (set_fd (delete a (st_fd s)) s).
Proof.
  intros H. cbn [destroy_entries]. eapply bind_eval; [by apply (upd_fd_eval _ a o)|]. cbv beta.
  eapply bind_eval; [eapply free_fd_eval; st_cbn; apply lookup_insert_eq|].
  st_cbn. by rewrite delete_insert_eq.
Qed.

Lemma destroy_dead s k a items :
  st_fd s !! a = None → destroy_entries ((k, a) :: items) s = Failed Invalid_pointer s.
Proof.
  intros H. cbn [destroy_entries]. apply bind_failed. unfold fd_ref, upd_fd, get_fd_obj.
  apply bind_failed. by apply load_invalid.
Qed.

(** The objects of a list of addresses, removed. *)
Fixpoint without {A} (l : list Z) (m : gmap Z A) : gmap Z A :=
  match l with [] => m | a :: l => without l (delete a m) end.

Lemma without_lookup {A} l (m : gmap Z A) a :
  without l m !! a = if bool_decide (a ∈ l) then None else m !! a.
Proof.
  revert m. induction l as [|b l IH]; intros m; [done|]. simpl. rewrite IH.
  destruct (decide (a = b)) as [-> |Hne].
  - rewrite (bool_decide_eq_true_2 (b ∈ b :: l)) by (apply elem_of_cons; by left). rewrite lookup_delete_eq.
    by case_bool_decide.
  - rewrite lookup_delete_ne by done. erewrite (bool_decide_ext (a ∈ l)); [done|]. rewrite elem_of_cons. tauto.
Qed.

Lemma destroy_entries_done items : ∀ s,
  NoDup items.*2 → Forall (λ a, is_Some (st_fd s !! a)) items.*2 →
  destroy_entries items s = Done tt (set_fd (without items.*2 (st_fd s)) s).
Proof.
  induction items as [|[k a] items IH]; intros s Hn Hl; [by destruct s|].
  rewrite fmap_cons in Hn, Hl |- *. apply list.NoDup_cons in Hn as [Hna Hn].
  apply list.Forall_cons in Hl as [[o Ho] Hl]. rewrite (destroy_live _ _ _ o) by done.
  rewrite IH; [done|done|]. apply list.Forall_forall. intros b Hb. st_cbn.
  rewrite lookup_delete_ne by (intros <-; done). by apply (proj1 (list.Forall_forall _ _) Hl).
Qed.

Lemma destroy_dangling items : ∀ s a,
  a ∈ items.*2 → st_fd s !! a = None → ∃ s', destroy_entries items s = Failed Invalid_pointer s'.
Proof.
  induction items as [|[k b] items IH]; intros s a Ha Hs; [by apply elem_of_nil in Ha|].
  destruct (st_fd s !! b) as [o|] eqn:Hb; [|eexists; by apply destroy_dead].
  rewrite (destroy_live _ _ _ o) by done. rewrite fmap_cons in Ha.
  apply elem_of_cons in Ha as [-> |Ha]; [cbn in Hs; congruence|]. apply (IH _ a Ha). st_cbn.
  rewrite lookup_delete_None. by right.
Qed.

Lemma destroy_twice items : ∀ s,
  ¬ NoDup items.*2 → ∃ s', destroy_entries items s = Failed Invalid_pointer s'.
Proof.
  induction items as [|[k a] items IH]; intros s Hn; [destruct Hn; constructor|].
  destruct (st_fd s !! a) as [o|] eqn:Ha; [|eexists; by apply destroy_dead].
  rewrite (destroy_live _ _ _ o) by done. rewrite fmap_cons, list.NoDup_cons in Hn.
  destruct (decide (a ∈ items.*2)) as [Hin|Hin].
  - apply (destroy_dangling _ _ a Hin). st_cbn. apply lookup_delete_eq.
  - apply IH. intros H. apply Hn. by split.
Qed.

(** Entries that are not sockets have no communication to close. *)
Lemma close_entries_files proc items : ∀ s,
  Forall (λ a, ∃ o, st_fd s !! a = Some o ∧ fd_type (fd_of o) ≠ FD_SOCKET) items.*2 →
  close_entries proc items s = Done tt s.
Proof.
  induction items as [|[k a] items IH]; intros s H; [done|]. rewrite fmap_cons in H.
  apply list.Forall_cons in H as [(o & Ho & Ht) H]. cbn [close_entries]. ev.
  rewrite (proj2 (Z.eqb_neq _ _) Ht). ev. by apply IH.
Qed.

(** The process of a table without sockets, all of whose descriptors are live. *)
Record files_only (s : st) (proc : Z) (p : process_descriptor) : Prop := {
  fo_proc : st_proc s !! proc = Some p;
  fo_live : Forall (λ a, ∃ o, st_fd s !! a = Some o ∧ fd_type (fd_of o) ≠ FD_SOCKET)
              (xbt_dict_items (fd_map p)).*2;
}.

Lemma die_eval s proc p :
  files_only s proc p →
  process_die proc s = (destroy_entries (xbt_dict_items (fd_map p)) ;; free_proc proc) s.
Proof.
  intros [Hp Hl]. unfold process_die, close_all_communication.
  eapply bind_eval.
  - ev. eapply bind_eval; [by apply close_entries_files|]. apply ret_eval.
  - unfold process_descriptor_destroy. by ev.
Qed.

Lemma die_frees s proc p :
  files_only s proc p → NoDup (xbt_dict_items (fd_map p)).*2 →
  process_die proc s = Done tt (set_proc (delete proc (st_proc s))
    (set_fd (without (xbt_dict_items (fd_map p)).*2 (st_fd s)) s)).
Proof.
  intros H Hn. rewrite (die_eval _ _ _ H). destruct H as [Hp Hl].
  eapply bind_eval.
  - apply destroy_entries_done; [done|]. eapply Forall_impl; [|exact Hl]. intros a (o & Ho & _). by exists o.
  - unfold free_proc, get_proc. eapply bind_eval; [by apply load_eval|done].
Qed.

(** C27: a process that duplicated a descriptor cannot end. When the table has no socket
    and all its entries are live, but two of its numbers
    stand for the same descriptor, as [dup] leaves it, [process_die] frees it twice: it
    fails on a dangling pointer. *)
Theorem dup_double_free s proc p x y a :
  files_only s proc p → is_s 32 x → is_s 32 y → x ≠ y →
  fd_entry p x = a → fd_entry p y = a → a ≠ NULL →
  ∃ s', process_die proc s = Failed Invalid_pointer s'.
Proof.
  intros H Hx Hy Hne Ex Ey Ha. rewrite (die_eval _ _ _ H).
  destruct (destroy_twice (xbt_dict_items (fd_map p)) s) as [s' Hd].
  - assert (∀ z, fd_entry p z = a → (int_key z, a) ∈ xbt_dict_items (fd_map p)) as Hin.
    { intros z Ez. apply dict_items_get. unfold fd_entry in Ez.
      destruct (xbt_dict_get_or_null _ _) as [v|]; cbn in Ez; [by subst|by subst]. }
    apply Hin in Ex. apply Hin in Ey. revert Ex Ey.
    generalize (xbt_dict_items (fd_map p)). intros l Ex Ey Hn.
    apply list_elem_of_lookup in Ex as [i Hi]. apply list_elem_of_lookup in Ey as [j Hj].
    assert (i = j) as ->.
    { eapply (list.NoDup_lookup _ i j a Hn); rewrite list_lookup_fmap; [by rewrite Hi|by rewrite Hj]. }
    rewrite Hi in Hj. apply (f_equal (from_option fst ""%string)) in Hj. by destruct (int_key_ne x y Hx Hy Hne).
  - exists s'. by apply bind_failed.
Qed.

(** ** The last system call *)

(** Resumed, the tracee stops next at the entry of exit or exit_group; [w] is the world
    once it is detached. *)
Definition exits_next (w0 : W) (pid : Z) (w : W) : Prop :=
  ∃ w1 status w2 r, ptrace_syscall w0 pid = Some w1 ∧ waitpid w1 pid = Some (status, w2) ∧
    ptrace_getregs w2 pid = Some r ∧ orig_rax r ∈ [SYS_exit; SYS_exit_group] ∧
    ptrace_detach w2 pid = Some w.

Lemma detach_eval s pid w :
  ptrace_detach (st_w s) pid = Some w →
  ∃ c, ptrace_detach_process pid s = Done tt (set_cnt c (set_w w s)).
Proof. intros H. eexists. unfold ptrace_detach_process, bind, upd_world. simpl. by rewrite H. Qed.
Lemma resume_eval s pid w :
  ptrace_syscall (st_w s) pid = Some w →
  ∃ c, ptrace_resume_process pid s = Done tt (set_cnt c (set_w w s)).
Proof. intros H. eexists. unfold ptrace_resume_process, bind, upd_world. simpl. by rewrite H. Qed.
Lemma get_register_eval s pid r :
  ptrace_getregs (st_w s) pid = Some r →
  ∃ c, ptrace_get_register pid s =
    Done (mk_reg (orig_rax r) (rax r) [rdi r; rsi r; rdx r; r10 r; r8 r; r9 r]) (set_cnt c s).
Proof. intros H. eexists. unfold ptrace_get_register, getregs, bind, ask_world. simpl. by rewrite H. Qed.

Lemma wait_status_eval s proc p pid status w :
  st_proc s !! proc = Some p → waitpid (st_w s) pid = Some (status, w) →
  wait_status proc pid s =
  Done false (set_proc (<[proc := set_status status p]> (st_proc s)) (set_w w s)).
Proof.
  intros Hp Hw. unfold wait_status. ev. rewrite Hw. ev. by eval_with (upd_proc_eval (set_w w s) proc p).
Qed.

Lemma exit_eval s proc p reg w n self handle :
  st_proc s !! proc = Some p → in_syscall p = 0 → ptrace_detach (st_w s) (pd_pid p) = Some w →
  reg_orig reg ∈ [SYS_exit; SYS_exit_group] →
  ∃ c, dispatch self n handle reg proc s = Done (Some PROCESS_DEAD)
    (set_cnt c (set_w w (enter proc p s))).
Proof.
  intros Hp Hi Hw Hn. set (s1 := enter proc p s).
  destruct (detach_eval s1 (pd_pid p) w Hw) as [c Hc]. exists c.
  assert (syscall_exit reg proc s = Done PROCESS_DEAD (set_cnt c (set_w w s1))) as Hx.
  { unfold syscall_exit. eval_with (entering_eval s proc p Hp). rewrite Hi. cbn [Z.eqb].
    eapply bind_eval; [by apply upd_proc_eval|]. cbv beta.
    eapply bind_eval; [apply load_eval, enter_proc|]. cbv beta. by eval_with Hc. }
  unfold dispatch. apply elem_of_cons in Hn as [-> |Hn]; [by eval_with Hx|].
  apply list_elem_of_singleton in Hn as ->. by eval_with Hx.
Qed.

Lemma treatment_exits self s proc p w n :
  st_proc s !! proc = Some p → in_syscall p = 0 → exits_next (st_w s) (pd_pid p) w →
  ∃ c status, treatment (S n) self proc s = Done PROCESS_DEAD
    (set_cnt c (set_w w (set_proc (<[proc := set_in_syscall 1 (set_status status p)]> (st_proc s)) s))).
Proof.
  intros Hp Hi (w1 & status & w2 & r & Hr & Hw & Hg & Hn & Hd).
  destruct (resume_eval s (pd_pid p) w1 Hr) as [c1 H1]. set (s1 := set_cnt c1 (set_w w1 s)) in *.
  pose proof (wait_status_eval s1 proc p (pd_pid p) status w2 Hp Hw) as H2. set (s2 := set_proc _ _) in H2.
  destruct (get_register_eval s2 (pd_pid p) r Hg) as [c3 H3].
  destruct (exit_eval (set_cnt c3 s2) proc (set_status status p) (mk_reg (orig_rax r) (rax r)
     [rdi r; rsi r; rdx r; r10 r; r8 r; r9 r]) w n self
     (λ q, let! p := get_proc q in handle_loop n self (pd_pid p) q)) as [c4 H4];
    [apply lookup_insert_eq|done|done|done|].
  exists c4, status. unfold treatment. ev. eval_with H1. eval_with H2. unfold process_handle.
  eapply bind_eval; [apply load_eval, lookup_insert_eq|]. cbv beta. cbn [handle_loop].
  eapply bind_eval; [exact H3|]. cbv beta. eval_with H4. unfold ret, enter. f_equal.
  unfold s2, s1. st_cbn. by rewrite insert_insert_eq.
Qed.

(** C17: a tracee that exits is forgotten, when its table has neither a socket nor a
    duplicated or dangling entry and SimTerpose takes it to be outside a call. When its
    next stop is the entry of exit or
    exit_group, the loop that tracks it detaches it and stops, whatever the turns and the
    fuel left, and the end of the process then returns too: the process is gone from the
    store, its descriptors are freed, each once, and those of the others are not. *)
Theorem exit_ends self s proc p w t n :
  files_only s proc p → NoDup (xbt_dict_items (fd_map p)).*2 →
  in_syscall p = 0 → exits_next (st_w s) (pd_pid p) w →
  ∃ s', (track (S t) (S n) self proc ;; process_die proc) s = Done tt s' ∧
    st_w s' = w ∧ st_proc s' = delete proc (st_proc s) ∧
    ∀ a, st_fd s' !! a = if bool_decide (a ∈ (xbt_dict_items (fd_map p)).*2) then None else st_fd s !! a.
Proof.
  intros Hf Hn Hi Hx. pose proof Hf as [Hp Hl].
  destruct (treatment_exits self s proc p w n Hp Hi Hx) as (c & status & Ht). set (s1 := set_cnt c _) in Ht.
  assert (files_only s1 proc (set_in_syscall 1 (set_status status p))) as H1
    by (split; [apply lookup_insert_eq|exact Hl]).
  eexists. split; [|split; [|split]].
  - eapply bind_eval; [cbn [track]; eapply bind_eval; [exact Ht|]; apply ret_eval|]. cbv beta.
    by apply (die_frees s1).
  - done.
  - unfold s1. st_cbn. by rewrite delete_insert_eq.
  - intros a. st_cbn. by rewrite without_lookup.
Qed.

End Ending.

(** ** Examples *)

(** The process 10, of pid 7, with the descriptors [fds], at the exit of a call; its
    next call is exit. *)
Definition end_world : toy :=
  toy_step (toy_world (set_orig_rax SYS_exit regs_zero) (λ _, 0)) 7.
Definition end_proc (m : dict Z) : process_descriptor (Wd := ref_world) :=
  mk_proc 7 "alice" (Some "alice"%string) m 0 0 None 0.
Definition end_example (m : dict Z) : st :=
  set_proc {[10 := end_proc m]} (set_fd {[20 := FdPlain (mk_fd FD_STDOUT 10 1 0 0 0 0 1 0 0 0 0 0 0 0);
    21 := FdPlain fd_zero]} (set_w (end_world : W (World := ref_world)) (ref_state end_world))).
Definition one_file : dict Z := xbt_dict_set xbt_dict_new (int_key 1) 20.
Definition two_numbers : dict Z := xbt_dict_set one_file (int_key 4) 20.

Lemma end_files_only m :
  Forall (eq 20) (xbt_dict_items m).*2 → files_only (end_example m) 10 (end_proc m).
Proof.
  intros H. split; [apply lookup_insert_eq|]. eapply Forall_impl; [|exact H]. intros a <-.
  eexists. split; [apply lookup_insert_eq|done].
Qed.

Lemma dup_double_free_witness :
  ∃ s', process_die 10 (end_example two_numbers) = Failed Invalid_pointer s'.
Proof.
  apply (dup_double_free (end_example two_numbers) 10 (end_proc two_numbers) 1 4 20).
  - apply end_files_only. by vm_compute; repeat constructor.
  - by vm_compute.
  - by vm_compute.
  - done.
  - by vm_compute.
  - by vm_compute.
  - done.
Defined.

Lemma exit_ends_witness :
  ∃ s', (track 1 1 self_example 10 ;; process_die 10) (end_example one_file) = Done tt s' ∧
    st_w s' = toy_step end_world 7 ∧ st_proc s' = delete 10 (st_proc (end_example one_file)) ∧
    ∀ a, st_fd s' !! a = if bool_decide (a ∈ [20]) then None else st_fd (end_example one_file) !! a.
Proof.
  apply (exit_ends self_example (end_example one_file) 10 (end_proc one_file) (toy_step end_world 7) 0 0).
  - apply end_files_only. by vm_compute; repeat constructor.
  - by vm_compute; repeat constructor; set_solver.
  - done.
  - eexists _, _, _, _. split; [reflexivity|]. split; [reflexivity|]. split; [reflexivity|].
    split; [by left|reflexivity].
Defined.
