(* ===== verification/Connecting.v ===== *)
(** A [connect] that succeeds: from the entry of the call to the point where the
    process sleeps until the server accepts. *)
From S2P Require Import Prelude Libc External State Monad Frames Reference DataUtils.
From S2P Require Import ProcessDescriptor PtraceUtils Sockets Print Communication.
From S2P Require Import SocketOps SysFiles SysNet SysData SysProc Dispatch Mediation Handlers.
Open Scope sim_scope.

Section Connect.
Context `{X : Xbt} `{Wd : World} `{!XbtLaws X} `{!TraceLaws Wd}.

(** The host a connection to [addr] from [h] is for. *)
Definition target (s : st) (h : msg_host) (addr : Z) (t : msg_host) : Prop :=
  if addr =? localhost then t = h else get_host_by_ip addr s = Done (Some t) s.

Definition device_of (addr : Z) : Z := if addr =? localhost then PORT_LOCAL else PORT_REMOTE.

(** The socket [l], of [il], listens on a port of [t] that a connection through
    [device] reaches; a server waits in accept with the stream [tr]. *)
Record listening (s : st) (t : msg_host) (port device l : Z) (il : infos_socket) (c : comm)
    (tr : stream) : Prop := {
  li_port : ∃ d, port_of s (MSG_host_get_name t) port = Some d ∧
    has_flag (port_option d) PORT_BIND = true ∧ has_flag device (port_option d) = true ∧
    bind_socket d = l;
  li_null : l ≠ NULL;
  li_sock : st_fd s !! l = Some (FdSock il);
  li_comm : st_comm s !! is_comm il = Some c;
  li_addr : address_known s il;
  li_proc : fd_proc (is_fd il) ≠ NULL;
  li_stream : st_stream s !! fd_stream (is_fd il) = Some tr;
}.

Lemma listening_frame s s' t port device l il c tr :
  list_host s' = list_host s → st_fd s' = st_fd s → st_comm s' = st_comm s →
  st_stream s' = st_stream s →
  (∀ q p, st_proc s !! q = Some p → ∃ p', st_proc s' !! q = Some p' ∧ pd_host p' = pd_host p) →
  listening s t port device l il c tr → listening s' t port device l il c tr.
Proof.
  intros Eh Ef Ec Es Ep [Hp Hn Hs Hc Ha Hq Ht].
  assert (∀ n x, port_of s' n x = port_of s n x) as Epo by (intros; unfold port_of, host_of; by rewrite Eh).
  split; rewrite ?Epo, ?Ef, ?Ec, ?Es; try done.
  destruct Ha as [Ha|(p & h & Hp' & Hh & Hd)]; [by left|right].
  destruct (Ep _ _ Hp') as (p' & Hp2 & Hh2). exists p', h. split; [done|]. rewrite Hh2. split; [done|].
  unfold host_of in *. by rewrite Eh.
Qed.

(** ** The request *)

(** The socket of the client with its communication, its address and its port. *)
Definition asked (n : Z) (ip q : Z) (ik : infos_socket) : infos_socket :=
  set_is_local ip q (ref_up (set_is_comm n ik)).

(** What a successful request changes: a communication [n] that waits on [l], the port
    [q] of [h] in use by the client. *)
Record requested (s s' : st) (h : msg_host) (k n l q : Z) (ik il : infos_socket) (c : comm) : Prop := {
  rq_sock : ∃ ip, st_fd s' !! k = Some (FdSock (asked n ip q ik));
  rq_listen : st_fd s' !! l = Some (FdSock (ref_up il));
  rq_comm : ∃ ip, st_comm s' !! n =
    Some (mk_comm ip (is_port_local il) (mk_info k (n + 1)) (mk_info l (n + 2)) COMM_OPEN xbt_dynar_new 2);
  rq_wait : st_comm s' !! is_comm il = Some (set_conn_wait (xbt_dynar_push (conn_wait c) n) c);
  rq_free : port_of s (MSG_host_get_name h) q = None;
  rq_port : port_of s' (MSG_host_get_name h) q = Some (mk_port q 0 0 1 NULL);
  rq_ports : ∀ m x, m ≠ MSG_host_get_name h ∨ x ≠ q → port_of s' m x = port_of s m x;
  rq_stream : st_stream s' = st_stream s;
  rq_quiet : strace_option s' = strace_option s;
  rq_fd : ∃ i, st_fd s' = <[l := FdSock (ref_up il)]> (<[k := i]> (st_fd s));
  rq_recv : st_recv s' = <[n + 2 := fresh_recv]> (<[n + 1 := fresh_recv]> (st_recv s));
  rq_next : st_next s' = n + 3;
  rq_hosts : ∀ m, is_Some (host_of s m) → is_Some (host_of s' m);
}.

(** [comm_ask_connect], then a port of its own for the client. *)
Lemma request_eval s h t port device proc fd k ik l il c tr q0 ip0 :
  heap_ok s → listening s t port device l il c tr → socket_at s proc fd k ik → k ≠ l →
  is_Some (host_of s (MSG_host_get_name h)) → is_u 16 q0 → port_of s (MSG_host_get_name h) q0 = None →
  ∃ q s1 s', is_u 16 q ∧ comm_ask_connect (Some t) port proc fd device s = Done (fd_proc (is_fd il)) s1 ∧
    (∀ B (f : M B), (let! x := get_random_port (Some h) in
       set_localaddr_port_socket proc fd (inet_ntoa ip0) x ;;
       register_port (Some h) x ;; f) s1 = f s') ∧
    requested s s' h k (st_next s) l q ik il c ∧ st_w s' = st_w s ∧ st_proc s' = st_proc s.
Proof.
  intros Hok [(d & Hp & Hb & Hdev & Hl) Hln Hil Hc Ha Hlp Ht] Hk Hkl Hh Hq0 Hf0.
  assert (is_comm il < st_next s) as Hlt by (apply (ho_comm s Hok); by eexists).
  destruct (comm_ask_connect_eval s t port proc fd device d k ik l il c Hp Hb Hdev Hl Hln Hk Hil Hkl Hc
    ltac:(lia) Ha) as [ip He]. set (n := st_next s) in *. set (s1 := set_comm_list _ _) in He.
  destruct (get_random_port_eval s1 h q0 Hh Hq0 Hf0) as (q & Hq & Hqr & _ & Hfree & _).
  assert (socket_at s1 proc fd k (ref_up (set_is_comm n ik))) as Hk1.
  { destruct Hk. split; [done|done| |done]. unfold s1. st_cbn. rewrite lookup_insert_ne by done.
    apply lookup_insert_eq. }
  set (s2 := set_fd (<[k := FdSock (asked n (inet_addr (inet_ntoa ip0)) q ik)]> (st_fd s1)) s1).
  destruct (register_port_eval s2 h q Hh) as (s3 & H3 & E3 & P3 & O3 & I3).
  change (port_of s2) with (port_of s) in P3, O3. change (port_of s1) with (port_of s) in Hfree.
  rewrite Hfree in P3. exists q, s1, s3. split; [done|]. split; [exact He|]. split; [|split; [|by rewrite E3]].
  - intros B f. eval_with Hq. eapply (bind_eval _ _ _ tt s2); [|by eval_with H3]. unfold set_localaddr_port_socket.
    eval_with (get_infos_socket_at _ _ _ _ _ Hk1). exact (upd_sock_eval s1 k _ (set_is_local _ q) (sa_fd _ _ _ _ _ Hk1)).
  - assert (∀ m, is_Some (host_of s m) → is_Some (host_of s3 m)) as Hosts.
    { intros m Hm. specialize (I3 m Hm). change (host_of s2 m) with (host_of s m) in I3.
      destruct Hm as [x Hx]. rewrite Hx in I3. destruct (host_of s3 m); [by eexists|done]. }
    remember (list_host s3) as lh eqn:Elh. clear Elh. subst s3. split; try done; unfold s2, s1; st_cbn.
    + eexists. apply lookup_insert_eq.
    + rewrite lookup_insert_ne by done. apply lookup_insert_eq.
    + eexists. apply lookup_insert_eq.
    + rewrite lookup_insert_ne by lia. apply lookup_insert_eq.
    + eexists. rewrite insert_insert_ne by done. by rewrite insert_insert_eq.
Qed.

Lemma requested_frame s s2 s' s2' h k n l q ik il c :
  list_host s2 = list_host s → st_stream s2 = st_stream s → strace_option s2 = strace_option s →
  st_fd s2 = st_fd s → st_recv s2 = st_recv s → st_recv s2' = st_recv s' → st_next s2' = st_next s' →
  st_fd s2' = st_fd s' → st_comm s2' = st_comm s' → list_host s2' = list_host s' →
  st_stream s2' = st_stream s' → strace_option s2' = strace_option s' →
  requested s s' h k n l q ik il c → requested s2 s2' h k n l q ik il c.
Proof.
  intros Eh Es Eq Ef0 Er0 Er En Ef Ec Eh' Es' Eq' [H1 H2 H3 H4 H5 H6 H7 H8 H9 HA HB HC HD].
  assert (∀ m x, port_of s2 m x = port_of s m x) as P by (intros; unfold port_of, host_of; by rewrite Eh).
  assert (∀ m x, port_of s2' m x = port_of s' m x) as P' by (intros; unfold port_of, host_of; by rewrite Eh').
  split; rewrite ?Ef, ?Ec, ?P, ?P', ?Es, ?Es', ?Eq, ?Eq', ?Ef0, ?Er0, ?Er, ?En; try done.
  - intros m x Hx. rewrite P, P'. by apply H7.
  - unfold host_of in *. by rewrite Eh, Eh'.
Qed.

Lemma target_frame s s' h addr t : list_ip s' = list_ip s → target s h addr t → target s' h addr t.
Proof. intros E. unfold target. destruct (addr =? localhost); [done|]. by apply get_host_frame. Qed.

(** The address is read and its host found. *)
Lemma target_eval s h addr t B (f : option msg_host → M B) :
  target s h addr t →
  (let! host := (if addr =? localhost then ret (Some h) else get_host_by_ip addr) in f host) s = f (Some t) s.
Proof.
  unfold target. destruct (addr =? localhost).
  - intros ->. by apply bind_done.
  - intros H. by apply bind_done.
Qed.

(** A connection of the socket [k] of a process of [h] that a server accepts: the socket
    is a blocking one, the bytes [b] of the address lead to the host [t], where the
    socket [l] listens, and a port of [h], [q0], is free. *)
Record can_connect (s : st) (proc pid : Z) (reg : reg_s) (h t : msg_host) (k l : Z)
    (ik il : infos_socket) (c : comm) (tr : stream) (b : list Z) (q0 : Z) : Prop := {
  cc_sock : socket_at s proc (s32 (arg reg 0)) k ik;
  cc_inet : is_domain ik = 2;
  cc_block : has_flag (is_flags ik) O_NONBLOCK = false;
  cc_table : is_Some (host_of s (MSG_host_get_name h));
  cc_mem : mem_bytes (st_w s) pid (arg reg 1) 16 = Some b;
  cc_target : target s h (sin_addr (sai_decode b)) t;
  cc_listen : listening s t (ntohs (sin_port (sai_decode b))) (device_of (sin_addr (sai_decode b))) l il c tr;
  cc_heap : heap_ok s;
  cc_other : k ≠ l;
  cc_port : is_u 16 q0;
  cc_free : port_of s (MSG_host_get_name h) q0 = None;
}.

Lemma in_call_eval s proc pid p r reg h t k l ik il c tr b q0 :
  can_connect s proc pid reg h t k l ik il c tr b q0 →
  st_proc s !! proc = Some p → pd_pid p = pid → pd_host p = Some h →
  at_entry (st_w s) pid = true → ptrace_getregs (st_w s) pid = Some r →
  ∃ q s', process_connect_in_call reg proc s = Done 1 s' ∧ is_u 16 q ∧
    requested s s' h k (st_next s) l q ik il c ∧ st_proc s' = st_proc s ∧
    replaced (st_w s) (st_w s') pid (set_rax 0 (set_orig_rax SYS_connect r)) ∧
    ∀ x, x ≠ pid → at_entry (st_w s') x = at_entry (st_w s) x.
Proof.
  intros [Hsock Hinet Hblock [hd Hhd] Hmem Htarget Hlisten Hheap Hkl Hport Hfree] Hp Hpid Hhost He Hr.
  set (addr := sin_addr (sai_decode b)) in *.
  destruct (ptrace_cpy_eval s pid (arg reg 1) 16 b) as [c1 Hc]; [lia|exact Hmem|]. set (s1 := set_cnt c1 s) in Hc.
  assert (socket_at s1 proc (s32 (arg reg 0)) k ik) as H1 by (destruct Hsock; by split).
  set (ip0 := if addr =? localhost then localhost else host_ip hd).
  destruct (request_eval s1 h t (ntohs (sin_port (sai_decode b))) (device_of addr) proc (s32 (arg reg 0)) k ik l il c tr q0 ip0)
    as (q & s2 & s3 & Hq & Hask & Hrest & Hreq & Hw & Hpr); [by destruct Hheap; split| |done|done|by exists hd|done|done|].
  { eapply (listening_frame s); [done..| |exact Hlisten]. intros x y Hy. by exists y. }
  destruct (mediate_alone s3 pid SYS_connect (u64 0) r) as (c4 & w4 & H4 & HR & A4); [by rewrite Hw|by rewrite Hw|].
  set (s4 := set_cnt c4 (set_w w4 s3)) in H4. exists q, s4. split; [|split; [done|split; [|split; [|split]]]].
  - destruct (rq_sock _ _ _ _ _ _ _ _ _ _ Hreq) as [ip Hk3].
    assert (socket_at s3 proc (s32 (arg reg 0)) k (asked (st_next s1) ip q ik)) as H3.
    { destruct H1 as [(x & Hx & Ex) Hn _ Ht]. split; [|done|done|done]. exists x. by rewrite Hpr. }
    unfold process_connect_in_call. ev. rewrite Hpid, Hhost. cbv zeta.
    eval_with (socket_attr_at s _ _ _ _ _ _ Hsock). rewrite Hinet. cbn [Z.eqb Pos.eqb]. eval_with Hc.
    fold addr. eapply (bind_eval _ _ _ ip0 s1).
    { unfold ip0. destruct (addr =? localhost); [apply ret_eval|]. unfold get_ip_of_host.
      by eval_with (host_desc_eval s1 h hd Hhd). }
    rewrite (target_eval s1 h addr t) by exact (target_frame s s1 h addr t eq_refl Htarget).
    rewrite bool_decide_eq_false_2, andb_false_r by done.
    change (if addr =? localhost then PORT_LOCAL else PORT_REMOTE) with (device_of addr). eval_with Hask.
    rewrite (proj2 (Z.eqb_neq _ _) (li_proc _ _ _ _ _ _ _ _ Hlisten)). rewrite Hrest.
    unfold socket_get_flags. eval_with (socket_attr_at s3 _ _ _ _ _ _ H3). cbn [is_flags asked set_is_local ref_up
      set_is_ref_nb set_is_comm]. rewrite Hblock. cbv iota. eapply bind_then; [exact H4|]. apply ret_eval.
  - by apply (requested_frame s1 _ s3).
  - unfold s4. st_cbn. by rewrite Hpr.
  - rewrite Hw in HR. exact HR.
  - rewrite Hw in A4. exact A4.
Qed.

(** ** The call *)

(** The client asleep: its socket [k] is at one end of the last communication that waits
    on [l], with a port of its own, and shares the stream of the server; the server is
    woken, and the kernel has given the tracee the result 0. *)
Record waits_on (self : msg_self) (s s' : st) (proc pid : Z) (p : process_descriptor) (r : user_regs)
    (h : msg_host) (k l q : Z) (il : infos_socket) (c : comm) (tr : stream) : Prop := {
  wt_peer : comm_get_peer k s' = Done l s';
  wt_queue : ∃ i cl, st_fd s' !! k = Some (FdSock i) ∧ st_comm s' !! is_comm il = Some cl ∧
    dynar_model (conn_wait cl) = dynar_model (conn_wait c) ++ [is_comm i] ∧
    is_port_local i = q ∧ fd_stream (is_fd i) = fd_stream (is_fd il);
  wt_free : port_of s (MSG_host_get_name h) q = None;
  wt_port : port_of s' (MSG_host_get_name h) q = Some (mk_port q 0 0 1 NULL);
  wt_ports : ∀ m x, m ≠ MSG_host_get_name h ∨ x ≠ q → port_of s' m x = port_of s m x;
  wt_stream : st_stream s' = <[fd_stream (is_fd il) :=
    mk_stream (sem_client tr) (sem_server tr) (Some (self_process self)) (str_server tr)
      (MSG_host_get_name (self_host self)) (to_server tr)]> (st_stream s);
  wt_proc : st_proc s' = st_proc (enter proc p s);
  wt_world : ∃ w, st_w s' = MSG_sem_release w (sem_server tr) ∧
    replaced (st_w s) w pid (set_rax 0 (set_orig_rax SYS_connect r));
}.

(** What [syscall_connect_pre] does once the request is made. *)
Definition wait_server (self : msg_self) (handle : Z → M Z) (reg : reg_s) (proc : Z) : M Z :=
  let! isp := get_infos_socket proc (s32 (arg reg 0)) in
  let! s := comm_get_peer isp in
  let! remote := get_fd s in
  upd_fd isp (set_fd_stream (fd_stream remote)) ;;
  upd_stream (fd_stream remote) (λ t, mk_stream (sem_client t) (sem_server t)
    (Some (self_process self)) (str_server t) (MSG_host_get_name (self_host self)) (to_server t)) ;;
  let! t := get_stream (fd_stream remote) in
  modify (λ s, set_w (MSG_sem_release (st_w s) (sem_server t)) s) ;;
  let! _ := block (Sem_acquire (sem_client t)) in
  handle proc.

(** The client asleep: the stream [n] of the server, which it wakes, is its own too. *)
Definition asleep (self : msg_self) (s : st) (k n : Z) (i : infos_socket) (tr : stream) : st :=
  let s := set_fd (<[k := FdSock (set_is_fd (set_fd_stream n (is_fd i)) i)]> (st_fd s)) s in
  set_w (MSG_sem_release (st_w s) (sem_server tr))
    (set_stream (<[n := mk_stream (sem_client tr) (sem_server tr) (Some (self_process self)) (str_server tr)
       (MSG_host_get_name (self_host self)) (to_server tr)]> (st_stream s)) s).

Lemma wait_server_eval self handle s s1 proc reg h k n l q ik ip il c tr :
  requested s s1 h k n l q ik il c → n ≠ NULL → k ≠ l →
  socket_at s1 proc (s32 (arg reg 0)) k (asked n ip q ik) →
  st_stream s !! fd_stream (is_fd il) = Some tr →
  wait_server self handle reg proc s1 =
    Block (Sem_acquire (sem_client tr)) (asleep self s1 k (fd_stream (is_fd il)) (asked n ip q ik) tr)
      (λ _, handle proc).
Proof.
  intros Hreq Hn0 Hkl Hk Htr. set (i := asked n ip q ik) in *.
  pose proof (rq_listen _ _ _ _ _ _ _ _ _ _ Hreq) as Hl. destruct (rq_comm _ _ _ _ _ _ _ _ _ _ Hreq) as [ipn Hn].
  pose proof (rq_stream _ _ _ _ _ _ _ _ _ _ Hreq) as Hst. pose proof (sa_fd _ _ _ _ _ Hk) as Hki.
  assert (in_comm s1 k i (mk_comm ipn (is_port_local il) (mk_info k (n + 1)) (mk_info l (n + 2)) COMM_OPEN
    xbt_dynar_new 2)) as Hin by done.
  unfold wait_server. eval_with (get_infos_socket_at _ _ _ _ _ Hk). eval_with (comm_get_peer_eval _ _ _ _ Hin).
  unfold peer. cbn [info0 info1 ci_socket]. rewrite Z.eqb_refl. cbn [ci_socket].
  eval_with (get_fd_eval s1 l _ Hl). eval_with (upd_fd_eval s1 k _ _ Hki).
  change (fd_stream (fd_of (FdSock (ref_up il)))) with (fd_stream (is_fd il)).
  set (s2 := set_fd _ s1).
  assert (st_stream s2 !! fd_stream (is_fd il) = Some tr) as Ht2 by (unfold s2; st_cbn; by rewrite Hst).
  eapply bind_eval; [unfold upd_stream; eapply bind_eval; [apply load_eval; exact Ht2|reflexivity]|].
  cbv beta. eapply bind_eval; [apply load_eval; apply lookup_insert_eq|]. reflexivity.
Qed.

Lemma asleep_waits self s s1 proc pid p r h k n l q ik ip il c tr :
  requested s s1 h k n l q ik il c → n ≠ NULL → st_fd s1 !! k = Some (FdSock (asked n ip q ik)) →
  st_proc s1 = st_proc (enter proc p s) →
  replaced (st_w s) (st_w s1) pid (set_rax 0 (set_orig_rax SYS_connect r)) →
  waits_on self s (asleep self s1 k (fd_stream (is_fd il)) (asked n ip q ik) tr) proc pid p r h k l q il c tr.
Proof.
  intros [_ Hl [ipn Hn] Hw Hf Hpo Hpos Hst _ _ _ _ _] Hn0 Hk Hp HR. split; try done.
  - set (i2 := set_is_fd (set_fd_stream (fd_stream (is_fd il)) (is_fd (asked n ip q ik))) (asked n ip q ik)).
    eassert (in_comm (asleep self s1 k (fd_stream (is_fd il)) (asked n ip q ik) tr) k i2 _) as H4.
    { split; [apply lookup_insert_eq|]. split; [exact Hn0|exact Hn]. }
    apply comm_get_peer_eval in H4. unfold peer in H4. cbn [info0 info1 ci_socket] in H4.
    by rewrite Z.eqb_refl in H4.
  - eexists _, (set_conn_wait (xbt_dynar_push (conn_wait c) n) c). split; [apply lookup_insert_eq|].
    split; [exact Hw|]. split; [apply dynar_push_model|done].
  - unfold asleep. st_cbn. by rewrite Hst.
  - by exists (st_w s1).
Qed.

Lemma enter_host s proc p x y :
  st_proc s !! proc = Some p → st_proc s !! x = Some y →
  ∃ y', st_proc (enter proc p s) !! x = Some y' ∧ pd_host y' = pd_host y.
Proof.
  intros Hp Hx. unfold enter. st_cbn. destruct (decide (x = proc)) as [-> |Hne].
  - rewrite Hp in Hx. injection Hx as <-. rewrite lookup_insert_eq. by eexists.
  - rewrite lookup_insert_ne by done. by exists y.
Qed.

Lemma enter_bounded s proc p n :
  st_proc s !! proc = Some p → bounded n (st_proc s) → bounded n (st_proc (enter proc p s)).
Proof. intros Hp Hb. apply bounded_insert; [done|]. apply Hb. by eexists. Qed.

(** [syscall_connect] up to the point where it sleeps. *)
Lemma connect_blocks self handle s proc pid p r reg h t k l ik il c tr b q0 :
  at_call s proc pid p r → pd_host p = Some h →
  can_connect s proc pid reg h t k l ik il c tr b q0 →
  ∃ q ip s1, syscall_connect self handle reg proc s =
      Block (Sem_acquire (sem_client tr))
        (asleep self s1 k (fd_stream (is_fd il)) (asked (st_next s) ip q ik) tr)
        (λ _ s3, (let! _ := handle proc in ret tt) s3) ∧
    is_u 16 q ∧ requested s s1 h k (st_next s) l q ik il c ∧
    st_fd s1 !! k = Some (FdSock (asked (st_next s) ip q ik)) ∧ st_proc s1 = st_proc (enter proc p s) ∧
    replaced (st_w s) (st_w s1) pid (set_rax 0 (set_orig_rax SYS_connect r)) ∧
    ∀ x, x ≠ pid → at_entry (st_w s1) x = at_entry (st_w s) x.
Proof.
  intros Hat Hh Hc. set (s0 := enter proc p s). pose proof Hc as [Hsock Hd _ _ Hm Hta Hli Hhe Hkl _ _].
  pose proof (enter_socket _ _ _ _ _ _ _ _ Hat Hsock) as H0. fold s0 in H0.
  destruct (ptrace_cpy_eval s0 pid (arg reg 1) 16 b) as [c1 Hc1]; [lia|exact Hm|]. set (s1 := set_cnt c1 s0) in *.
  assert (can_connect s1 proc pid (clear_inprogress reg) h t k l ik il c tr b q0) as Hc'.
  { destruct Hc. split; rewrite ?arg_clear; try done.
    - by destruct H0; split.
    - by apply (target_frame s).
    - eapply (listening_frame s); [done..| |exact Hli]. unfold s1, s0. intros x y. apply enter_host, (ac_proc _ _ _ _ _ Hat).
    - destruct Hhe. split; try done. apply enter_bounded; [apply (ac_proc _ _ _ _ _ Hat)|done]. }
  destruct (in_call_eval s1 proc pid (set_in_syscall 1 p) r (clear_inprogress reg) h t k l ik il c tr b q0 Hc')
    as (q & s2 & H2 & Hq & Hreq & Hp2 & HR & HE); [apply enter_proc|by destruct Hat|done|by destruct Hat|by destruct Hat|].
  destruct (rq_sock _ _ _ _ _ _ _ _ _ _ Hreq) as [ip Hk2].
  assert (socket_at s2 proc (s32 (arg (clear_inprogress reg) 0)) k (asked (st_next s1) ip q ik)) as Hs2.
  { rewrite arg_clear. destruct H0 as [(x & Hx & Ex) Hn _ Ht]. split; [|done|done|done]. exists x. by rewrite Hp2. }
  assert (requested s s2 h k (st_next s) l q ik il c) as Hreq' by by apply (requested_frame s1 _ s2).
  pose proof (wait_server_eval self handle s s2 proc (clear_inprogress reg) h k (st_next s1) l q ik ip il c tr
    Hreq') as H3.
  exists q, ip, s2. split; [|by split_and!].
  unfold syscall_connect. eval_with (entering_eval s proc p (ac_proc _ _ _ _ _ Hat)).
  rewrite (ac_out _ _ _ _ _ Hat). cbn [Z.eqb]. unfold syscall_connect_pre.
  transitivity ((let! _ := wait_server self handle (clear_inprogress reg) proc in ret tt) s2).
  - apply bind_head. eapply enter_eval; [exact Hat|]. fold s0. eapply bind_eval; [apply load_eval, enter_proc|].
    cbv zeta. change (pd_pid (set_in_syscall 1 p)) with (pd_pid p). rewrite (ac_pid _ _ _ _ _ Hat).
    eval_with (socket_attr_at s0 _ _ _ _ _ _ H0). rewrite Hd.
    eapply (bind_eval _ _ _ (Some (sai_decode b))); [unfold cpy_sockaddr; rewrite arg_clear; by eval_with Hc1|].
    eval_with H2. change (negb (1 =? 0)) with true. cbv iota. unfold wait_server. by rewrite arg_clear.
  - unfold bind at 1. rewrite H3; [reflexivity| |done|done|by destruct Hli].
    pose proof (ho_next _ Hhe). change (st_next s ≠ NULL). unfold NULL. lia.
Qed.

(** A [connect] that succeeds. The request waits on the listening socket after those
    already there, the client gets a local port that was free, and the tracee is at the
    exit of [connect] with the result 0, which the kernel did not run; SimTerpose wakes
    the server and sleeps on the semaphore of its stream. Then, its part of the call
    still marked as entered, it goes on with the stops of the tracee. *)
Lemma connect_waits self handle s proc pid p r reg h t k l ik il c tr b q0 :
  at_call s proc pid p r → pd_host p = Some h →
  can_connect s proc pid reg h t k l ik il c tr b q0 →
  ∃ q s1 K, syscall_connect self handle reg proc s = Block (Sem_acquire (sem_client tr)) s1 K ∧
    is_u 16 q ∧ waits_on self s s1 proc pid p r h k l q il c tr ∧
    ∀ s2, K tt s2 = (let! _ := handle proc in ret tt) s2.
Proof.
  intros Hat Hh Hc. destruct (connect_blocks self handle s proc pid p r reg h t k l ik il c tr b q0 Hat Hh Hc)
    as (q & ip & s1 & H & Hq & Hreq & Hk & Hp & HR & _).
  exists q. eexists _, _. split; [exact H|]. split; [done|]. split; [|done].
  eapply asleep_waits; [exact Hreq| |exact Hk|exact Hp|exact HR].
  pose proof (ho_next _ (cc_heap _ _ _ _ _ _ _ _ _ _ _ _ _ _ Hc)). unfold NULL. lia.
Qed.

End Connect.

(** ** Example *)

(** The listening socket of bob once its server has entered accept. *)
Definition accept_sock : infos_socket :=
  set_is_fd (set_fd_stream 6 (is_fd listen_sock)) listen_sock.

(** alice, whose process 7 is at the entry of connect to port 80 of bob, where the process
    2 waits in accept. *)
Definition connecting : st :=
  set_w (toy_world regs_zero (net_mem [10; 0; 0; 5]) : W (World := ref_world))
    (set_stream {[6 := net_stream]}
      (set_fd {[3 := FdSock accept_sock; 7 := FdSock client_sock]} listen_example)).

Lemma connecting_target :
  target connecting "alice"%string (sin_addr (sai_decode (addr_bytes [10; 0; 0; 5]))) "bob"%string.
Proof.
  unfold target. assert ((sin_addr (sai_decode (addr_bytes [10; 0; 0; 5])) =? localhost) = false) as ->
    by by vm_compute.
  unfold get_host_by_ip. eapply bind_eval; [apply gets_eval|]. cbv beta.
  assert (xbt_dict_get_or_null (list_ip connecting) (inet_ntoa (sin_addr (sai_decode (addr_bytes [10; 0; 0; 5]))))
    = Some "bob"%string) as -> by (vm_compute; reflexivity). done.
Qed.

Lemma connecting_listen :
  listening connecting "bob"%string 80 PORT_REMOTE 3 accept_sock listen_comm net_stream.
Proof.
  split.
  - exists (mk_port 80 0 7 1 3). split; [vm_compute; reflexivity|done].
  - done.
  - reflexivity.
  - reflexivity.
  - right. exists server_proc, "bob"%string. split; [reflexivity|]. split; [reflexivity|]. vm_compute. by eexists.
  - done.
  - reflexivity.
Qed.

Lemma connecting_can :
  can_connect connecting 1 7 (net_call SYS_connect 0) "alice"%string "bob"%string 7 3 client_sock accept_sock
    listen_comm net_stream (addr_bytes [10; 0; 0; 5]) 65000.
Proof.
  split.
  - split; [exists client_proc; split; reflexivity|by vm_compute|reflexivity|reflexivity].
  - reflexivity.
  - by vm_compute.
  - vm_compute. by eexists.
  - vm_compute. reflexivity.
  - apply connecting_target.
  - exact connecting_listen.
  - apply heap_check_ok. vm_compute. reflexivity.
  - done.
  - split; by vm_compute.
  - vm_compute. reflexivity.
Qed.
