(* ===== verification/Departures.v ===== *)
(** Two places where SimTerpose records something else than what the kernel did: the
    range of a file lock, and the creation of a process. *)
From S2P Require Import Prelude Libc External State Monad Frames Reference DataUtils.
From S2P Require Import ProcessDescriptor PtraceUtils Sockets Print Communication.
From S2P Require Import SocketOps SysFiles SysNet SysData SysProc Dispatch Mediation Handlers.
Open Scope sim_scope.

Section Departures.
Context `{X : Xbt} `{Wd : World} `{!TraceLaws Wd}.

(** ** Locks *)

(** The bytes a lock covers, as fcntl(2) defines them: from [start] on for a positive
    length, before [start] for a negative one, to the end of the file for 0. *)
Definition covers (start len x : Z) : Prop :=
  if len =? 0 then start <= x
  else if 0 <? len then start <= x < start + len
  else start + len <= x < start.

Lemma lock_range_covers start len x :
  is_s 64 start → is_s 64 (start - 1) → is_s 64 (start + len) → is_s 64 (start + len - 1) → len ≠ 0 →
  (lock_range start len).1 <= x <= (lock_range start len).2 ↔ covers start len x.
Proof.
  intros H1 H2 H3 H4 Hl. unfold lock_range, covers. rewrite (proj2 (Z.eqb_neq _ _) Hl).
  destruct (0 <? len); cbn [fst snd]; rewrite !swrap_small by done; lia.
Qed.

Lemma lock_range_empty start x :
  is_s 64 start → is_s 64 (start - 1) → ¬ (lock_range start 0).1 <= x <= (lock_range start 0).2.
Proof.
  intros H1 H2. unfold lock_range. cbn [Z.ltb Z.compare fst snd]. rewrite Z.add_0_r, !swrap_small by done. lia.
Qed.

(** A process at the exit of the call [reg], whose descriptor is the object [o] at [a]. *)
Record leaves (s : st) (proc pid : Z) (p : process_descriptor) (reg : reg_s) (a : Z) (o : fd_object) : Prop := {
  lv_proc : st_proc s !! proc = Some p;
  lv_pid : pd_pid p = pid;
  lv_in : in_syscall p ≠ 0;
  lv_entry : fd_entry p (s32 (arg reg 0)) = a;
  lv_obj : st_fd s !! a = Some o;
  lv_quiet : strace_option s = 0;
}.

(** C37: a lock that the kernel granted. With F_SETLK and a start counted from the
    beginning of the file, the descriptor records the lock, its type, the process that
    [l_pid] names and the bytes it covers, when its length is not 0. A length of 0, which covers the file from
    the start to its end, is recorded as a range that holds no byte at all. *)
Theorem setlk_records s proc pid p reg a o b :
  leaves s proc pid p reg a o → s32 (arg reg 1) = F_SETLK → reg_ret reg = 0 →
  mem_bytes (st_w s) pid (arg reg 2) (Z.to_nat (round8 sizeof_flock)) = Some b →
  let lk := flock_decode b in
  l_type lk = F_RDLCK ∨ l_type lk = F_WRLCK → l_whence lk = 0 →
  is_s 64 (l_start lk) → is_s 64 (l_start lk - 1) →
  is_s 64 (l_start lk + l_len lk) → is_s 64 (l_start lk + l_len lk - 1) →
  ∃ s' bg en, syscall_fcntl reg proc s = Done tt s' ∧
    st_fd s' = <[a := fd_update (set_fd_lock 1 (l_type lk) bg en (l_pid lk)) o]> (st_fd s) ∧
    ∀ x, bg <= x <= en ↔ l_len lk ≠ 0 ∧ covers (l_start lk) (l_len lk) x.
Proof.
  intros [Hp Hpid Hin He Ho Hq] Hcmd Hret Hm lk Hty Hwh R1 R2 R3 R4.
  set (s1 := set_proc (<[proc := set_in_syscall 0 p]> (st_proc s)) s).
  destruct (ptrace_cpy_eval s1 pid (arg reg 2) sizeof_flock b) as [c Hc]; [by split|exact Hm|].
  set (s2 := set_cnt c s1) in Hc. set (rg := lock_range (l_start lk) (l_len lk)).
  exists (set_fd (<[a := fd_update (set_fd_lock 1 (l_type lk) rg.1 rg.2 (l_pid lk)) o]> (st_fd s2)) s2), rg.1, rg.2.
  assert (st_proc s1 !! proc = Some (set_in_syscall 0 p)) as Hp1 by apply lookup_insert_eq.
  split; [|split; [done|]].
  - unfold syscall_fcntl. eval_with (entering_eval s proc p Hp). rewrite (proj2 (Z.eqb_neq _ _) Hin).
    eapply bind_eval; [by apply upd_proc_eval|]. cbv beta. fold s1. eval_with (if_strace_quiet _ s1 Hq).
    unfold process_fcntl_call. rewrite Hcmd, Hret. cbv zeta. eapply bind_eval; [by apply load_eval|]. cbv beta.
    change (pd_pid (set_in_syscall 0 p)) with (pd_pid p). rewrite Hpid.
    cbn [Z.eqb Pos.eqb orb F_SETLK F_GETLK F_SETLKW F_DUPFD F_DUPFD_CLOEXEC F_GETFD F_SETFD F_GETFL F_SETFL].
    eapply (bind_eval _ _ _ lk s2); [by eval_with Hc|]. cbv beta.
    change (s32 0 =? -1) with false. cbv iota.
    eapply (bind_eval _ _ _ a s2).
    { erewrite process_descriptor_get_fd_eval by exact Hp1. by rewrite <- He. }
    cbv beta. rewrite Hwh, Z.add_0_r, (swrap_small 64 (l_start lk)) by done. fold rg.
    assert ((l_type lk =? F_RDLCK) || (l_type lk =? F_WRLCK) = true) as ->.
    { destruct Hty as [-> | ->]; by vm_compute. }
    eapply bind_eval; [by apply (upd_fd_eval s2 a o)|]. by apply if_strace_quiet.
  - intros x. destruct (decide (l_len lk = 0)) as [El|El].
    + split; [|by intros [? _]]. intros H. exfalso. unfold rg in H. rewrite El in H.
      exact (lock_range_empty _ _ R1 R2 H).
    + unfold rg. rewrite lock_range_covers by done. tauto.
Qed.

(** ** Clones *)

Lemma get_pid_clone_eval s pid ev :
  ptrace_geteventmsg (st_w s) pid = Some ev →
  ∃ c, ptrace_get_pid_clone pid s = Done (s32 ev) (set_cnt c s).
Proof. intros H. eexists. unfold ptrace_get_pid_clone, bind, ask_world. simpl. by rewrite H. Qed.

(** C38: no process is created for a clone. Every stop that ptrace reports by SIGTRAP,
    with or without the mark of a system call and whatever the event, is taken for the
    entry or the exit of the call: the mark of the process is flipped, and no MSG process
    is created, nor any descriptor copied. *)
Theorem clone_never_created self s proc p reg ev :
  st_proc s !! proc = Some p →
  WSTOPSIG (pd_status p) = SIGTRAP ∨ WSTOPSIG (pd_status p) = Z.lor SIGTRAP 0x80 →
  ptrace_geteventmsg (st_w s) (pd_pid p) = Some ev →
  ∃ s', syscall_clone self reg proc s = Done tt s' ∧
    st_w s' = st_w s ∧ st_fd s' = st_fd s ∧
    st_proc s' = <[proc := set_in_syscall (if in_syscall p =? 0 then 1 else 0) p]> (st_proc s).
Proof.
  intros Hp Hsig Hev.
  assert (has_flag (WSTOPSIG (pd_status p)) (Z.lor SIGTRAP 0x80) = true) as Hf.
  { destruct Hsig as [-> | ->]; by vm_compute. }
  assert (syscall_clone self reg proc s =
    (let! e := proc_entering proc in if e then proc_inside proc else
       proc_outside proc ;; let! _ := ptrace_get_pid_clone (pd_pid p) in ret tt) s) as ->.
  { unfold syscall_clone. ev.
    eapply bind_eval; [unfold proc_event_exec; ev; apply ret_eval|]. cbv beta. by rewrite Hf. }
  destruct (in_syscall p =? 0) eqn:Ei.
  - eexists. split; [eval_with (entering_eval s proc p Hp); rewrite Ei; by apply upd_proc_eval|done].
  - set (s1 := set_proc (<[proc := set_in_syscall 0 p]> (st_proc s)) s).
    destruct (get_pid_clone_eval s1 (pd_pid p) ev Hev) as [c Hc]. exists (set_cnt c s1). split; [|done].
    eval_with (entering_eval s proc p Hp). rewrite Ei. eapply bind_eval; [by apply upd_proc_eval|]. by eval_with Hc.
Qed.

End Departures.

(** ** Examples *)

(** The process 10, of pid 7, at the exit of fcntl on its descriptor 3, whose third
    argument is the address 5000 of the lock [lk]. *)
Definition lock_bytes (type start len : Z) : list Z :=
  le_encode 2 type ++ le_encode 2 0 ++ [0; 0; 0; 0] ++ le_encode 8 start ++ le_encode 8 len ++
  le_encode 4 7 ++ [0; 0; 0; 0].
Definition lock_proc : process_descriptor (Wd := ref_world) :=
  mk_proc 7 "alice" (Some "alice"%string) (xbt_dict_set xbt_dict_new (int_key 3) 20) 0 (-1) None 0.
Definition lock_example (l : list Z) : st :=
  set_proc {[10 := lock_proc]} (set_fd {[20 := FdPlain fd_zero]}
    (ref_state (toy_world regs_zero (λ a, nth (Z.to_nat (a - 5000)) l 0)))).
Definition lock_reg : reg_s := mk_reg SYS_fcntl 0 [3; F_SETLK; 5000; 0; 0; 0].

Lemma setlk_records_witness :
  ∃ s' bg en, syscall_fcntl lock_reg 10 (lock_example (lock_bytes F_WRLCK 100 0)) = Done tt s' ∧
    st_fd s' = <[20 := FdPlain (set_fd_lock 1 F_WRLCK bg en 7 fd_zero)]>
      (st_fd (lock_example (lock_bytes F_WRLCK 100 0))) ∧
    ∀ x, bg <= x <= en ↔ 0 ≠ 0 ∧ covers 100 0 x.
Proof.
  apply (setlk_records (lock_example (lock_bytes F_WRLCK 100 0)) 10 7 lock_proc lock_reg 20 (FdPlain fd_zero)
    (lock_bytes F_WRLCK 100 0)).
  - split; [reflexivity|reflexivity|done|by vm_compute|reflexivity|reflexivity].
  - by vm_compute.
  - reflexivity.
  - vm_compute. reflexivity.
  - right. by vm_compute.
  - by vm_compute.
  - split; by vm_compute.
  - split; by vm_compute.
  - split; by vm_compute.
  - split; by vm_compute.
Defined.

(** The stop of PTRACE_EVENT_CLONE, event 3. *)
Definition clone_status : Z := 0x3057f.
Definition clone_proc : process_descriptor (Wd := ref_world) :=
  mk_proc 7 "alice" (Some "alice"%string) xbt_dict_new clone_status (-1) None 0.
Definition clone_example : st :=
  set_proc {[10 := clone_proc]} (ref_state (toy_world regs_zero (λ _, 0))).

Lemma clone_never_created_witness :
  ∃ s', syscall_clone self_example (mk_reg SYS_clone 0 [0; 0; 0; 0; 0; 0]) 10 clone_example = Done tt s' ∧
    st_w s' = st_w clone_example ∧ st_fd s' = st_fd clone_example ∧
    st_proc s' = <[10 := set_in_syscall 0 clone_proc]> (st_proc clone_example).
Proof.
  apply (clone_never_created self_example clone_example 10 clone_proc (mk_reg SYS_clone 0 [0; 0; 0; 0; 0; 0]) 0).
  - reflexivity.
  - left. by vm_compute.
  - reflexivity.
Defined.
