(* ===== verification/Delivery.v ===== *)
(** A message from the call of the sender to the memory of the receiver: [sendto] and
    [recvfrom] on the two ends of a connection, whichever of the two comes first. *)
From S2P Require Import Prelude Libc External State Monad Frames Reference DataUtils.
From S2P Require Import ProcessDescriptor PtraceUtils Sockets Print Communication.
From S2P Require Import SocketOps SysNet SysData Mediation Handlers Messages.
Open Scope sim_scope.

(** ** The rendezvous of MSG *)

(** A task sent to a mailbox goes to the process that receives from it; both then
    run again, the receiver first. [None] when the two do not meet. *)
Section Rendezvous.
Context `{X : Xbt} `{Wd : World} {A B : Type}.

Definition hand_over (t : msg_task) (k : msg_error → M A) (k' : option msg_task * msg_error → M B)
    (s : st) : option (A * B * st) :=
  match k' (Some t, MSG_OK) s with
  | Done b s' => match k MSG_OK s' with Done a s2 => Some (a, b, s2) | _ => None end
  | _ => None
  end.

Definition sender_first (sender : M A) (receiver : M B) (s : st) : option (A * B * st) :=
  match sender s with
  | Block (Task_send t m) s1 k =>
    match receiver s1 with
    | Block (Task_receive m') s2 k' => if String.eqb m m' then hand_over t k k' s2 else None
    | _ => None
    end
  | _ => None
  end.

Definition receiver_first (sender : M A) (receiver : M B) (s : st) : option (A * B * st) :=
  match receiver s with
  | Block (Task_receive m') s1 k' =>
    match sender s1 with
    | Block (Task_send t m) s2 k => if String.eqb m m' then hand_over t k k' s2 else None
    | _ => None
    end
  | _ => None
  end.

End Rendezvous.

(** ** The two ends *)

Section Delivery.
Context `{X : Xbt} `{Wd : World} `{!XbtLaws X} `{!TraceLaws Wd} `{!StopLaws Wd} `{!TaskLaws Wd}.

(** The process at [proc] is at the entry of [sendto] with the socket [a], whose other end
    [d] is owned by a process on the host [hb]. The one at [proc'] is at the entry of
    [recvfrom] with the socket [b], for which it reads the mailbox of [hb]. The bytes to
    send are a text of length [n], and the buffer of the receiver is mapped. *)
Context (s : st) (proc pid a : Z) (p : process_descriptor) (r : user_regs) (reg : reg_s) (ia : infos_socket).
Context (d : Z) (id : infos_socket) (proc' pid' b : Z) (p' : process_descriptor) (r' : user_regs) (reg' : reg_s) (ib : infos_socket).
Context (self' : msg_self) (tr : stream) (h hb : msg_host) (q : process_descriptor).
Context (la lb : list task_comm_info) (data : list Z) (n : Z).

Record in_place : Prop := {
  ip_sender : at_call s proc pid p r;
  ip_host : pd_host p = Some h;
  ip_socket : socket_at s proc (s32 (arg reg 0)) a ia;
  ip_stream : is_stream (is_type ia) = true;
  ip_domain : is_domain ia ≠ 16;
  ip_data : mem_bytes (st_w s) pid (arg reg 1) (Z.to_nat (round8 (u64 (arg reg 2)))) = Some data;
  ip_small : u64 (arg reg 2) <= 2 ^ 34 - 8;
  ip_text : strlen data = Some n;
  ip_receiver : at_call s proc' pid' p' r';
  ip_socket' : socket_at s proc' (s32 (arg reg' 0)) b ib;
  ip_domain' : is_domain ib ≠ 16;
  ip_noaddr : arg reg' 4 = NULL;
  ip_peer : st_fd s !! d = Some (FdSock id);
  ip_owner : st_proc s !! fd_proc (is_fd id) = Some q;
  ip_owner_host : pd_host q = Some hb;
  ip_tr : st_stream s !! fd_stream (is_fd ib) = Some tr;
  ip_mailbox : ∀ s', own_mailbox self' tr s' = Done (MSG_host_get_name hb) s';
  ip_buffer : is_Some (mem_bytes (st_w s) pid' (arg reg' 1) (Z.to_nat (round8 (received reg' n))));
  ip_linked : linked s a d;
  ip_queue : queue s a la;
  ip_queue' : queue s d lb;
  ip_procs : proc ≠ proc';
  ip_pids : pid ≠ pid';
}.

(** What the exchange leaves. The sender and the receiver are at the exits of their
    calls, which the kernel did not run, with the length of the message and the number
    of bytes received; these are in the buffer of the receiver. Nothing else changed in
    the tracees, and the connection still holds the task for the receiver. *)
Record delivered (s' : st) : Prop := {
  de_sender : ptrace_getregs (st_w s') pid =
    Some (set_rax (u64 (s32 (u64 (arg reg 2)))) (set_orig_rax SYS_sendto r));
  de_receiver : ptrace_getregs (st_w s') pid' =
    Some (set_rax (u64 (received reg' n)) (set_orig_rax SYS_recvfrom r'));
  de_exits : at_entry (st_w s') pid = false ∧ at_entry (st_w s') pid' = false;
  de_data : mem_bytes (st_w s') pid' (arg reg' 1) (Z.to_nat (received reg' n)) =
    Some (take (Z.to_nat (received reg' n)) data);
  de_memory : ∀ x c, x ≠ pid' ∨ ¬ (arg reg' 1 <= c < arg reg' 1 + round8 (received reg' n)) →
    mem_byte (st_w s') x c = mem_byte (st_w s) x c;
  de_others : ∀ x, x ≠ pid → x ≠ pid' →
    ptrace_getregs (st_w s') x = ptrace_getregs (st_w s) x ∧ at_entry (st_w s') x = at_entry (st_w s) x;
  de_procs : st_proc s' = st_proc s;
  de_socks : same_socks s s';
  de_linked : linked s' a d;
  de_queue : queue s' a la;
  de_left : ∃ t, queue s' d (lb ++ [task_of t h]);
  de_inbox : inbox_only s s' d;
}.

(** Both processes sleep, the task [t] waits. *)
Record both_wait (s2 : st) (t : msg_task) : Prop := {
  bw_alike : tracees_alike (st_w s) (st_w s2);
  bw_proc : st_proc s2 = <[proc' := set_in_syscall 1 p']> (<[proc := set_in_syscall 1 p]> (st_proc s));
  bw_socks : same_socks s s2;
  bw_data : MSG_task_get_data (st_w s2) t = data;
  bw_linked : linked s2 a d;
  bw_queue : queue s2 a la;
  bw_queue' : queue s2 d (lb ++ [task_of t h]);
  bw_inbox : inbox_only s s2 d;
}.

(** Sending changes the counters of references of the two sockets. *)
Lemma sent_socks s1 s2 x y i j :
  st_fd s1 !! x = Some (FdSock i) → st_fd s1 !! y = Some (FdSock j) → x ≠ y →
  st_fd s2 = <[y := FdSock (ref_up j)]> (<[x := FdSock (ref_up i)]> (st_fd s1)) →
  st_stream s2 = st_stream s1 → strace_option s2 = strace_option s1 → same_socks s1 s2.
Proof.
  intros Hx Hy Hn Hf Hs Hq. set (sx := set_fd (<[x := FdSock (ref_up i)]> (st_fd s1)) s1).
  eapply (same_socks_trans _ sx); [by apply (same_socks_upd s1 x i)|].
  eapply (same_socks_trans _ (set_fd (<[y := FdSock (ref_up j)]> (st_fd sx)) sx)).
  - apply (same_socks_upd sx y j); [|done]. unfold sx. st_cbn. by rewrite lookup_insert_ne.
  - by apply same_socks_frame.
Qed.

(** The receiver that sleeps keeps its socket. *)
Lemma read_waits_same s1 x y p1 i :
  st_fd s1 !! y = Some (FdSock i) → same_comms s1 (read_waits s1 x y p1 i).
Proof.
  intros Hi. eapply same_comms_trans; [exact (same_comms_upd s1 y i _ Hi (kept_fd_ref i (fd_refcount (is_fd i) + 1)))|].
  by apply same_comms_frame.
Qed.

Hypothesis Hip : in_place.

Lemma hand_over_eval s2 t (k : msg_error → M Z) (k' : option msg_task * msg_error → M unit) :
  both_wait s2 t →
  (∀ err s3, taken s3 proc pid a d p r → ∃ s', k err s3 = Done PROCESS_TASK_FOUND s' ∧
      replaced (st_w s3) (st_w s') pid
        (set_rax (u64 (s32 (u64 (arg reg 2)))) (set_orig_rax SYS_sendto r)) ∧
      (∀ x, x ≠ pid → at_entry (st_w s') x = at_entry (st_w s3) x) ∧
      st_proc s' = <[proc := p]> (st_proc s3) ∧ same_comms s3 s') →
  (∀ t s3, k' (Some t, MSG_OK) s3 = (let! _ := recv_rest proc' reg'
      (t, MSG_OK, MSG_task_get_bytes_amount (st_w s3) t, MSG_task_get_data (st_w s3) t) in
      fd_ref b (-1)) s3) →
  ∃ s', hand_over t k k' s2 = Some (PROCESS_TASK_FOUND, tt, s') ∧ delivered s'.
Proof.
  intros [(Ar & Ae & Am) Hp Hso Hdata Hl Hla Hlb Hin] Hk Hk'.
  destruct (ss_sock _ _ Hso a ia (sa_fd _ _ _ _ _ (ip_socket Hip))) as (i & Hi & _).
  destruct (ss_sock _ _ Hso b ib (sa_fd _ _ _ _ _ (ip_socket' Hip))) as (j & Hj & _).
  destruct (ss_sock _ _ Hso d id (ip_peer Hip)) as (k0 & Hk0 & _).
  assert (strace_option s2 = 0) as Hq by (rewrite (ss_quiet _ _ Hso); apply (ip_sender Hip)).
  pose proof (ip_procs Hip) as Hpr. pose proof (ip_pids Hip) as Hpi.
  assert (st_proc s2 !! proc = Some (set_in_syscall 1 p)) as Hps.
  { rewrite Hp, lookup_insert_ne by done. apply lookup_insert_eq. }
  destruct (recv_rest_eval s proc' pid' b p' r' reg' (ip_receiver Hip) (ip_noaddr Hip) s2 t
    (MSG_task_get_bytes_amount (st_w s2) t) data n) as (s3 & E3 & G3 & X3 & B3 & M3 & P3 & O3 & C3 & Q3).
  { split; [rewrite Hp; apply lookup_insert_eq|split; [by eexists|]]. rewrite Ar, Ae.
    by destruct (ip_receiver Hip). }
  { done. }
  { apply (ip_text Hip). }
  { eapply mem_bytes_range, (ip_data Hip). }
  { rewrite (mem_bytes_ext (st_w s)); [apply (ip_buffer Hip)|]. intros c _. apply Am. }
  specialize (C3 j Hj).
  destruct (Hk MSG_OK s3) as (s4 & E4 & (G4 & X4 & O4 & M4) & Y4 & P4 & C4).
  { destruct (O3 pid Hpi) as [Or Oe]. destruct (sc_sock _ _ C3 a i Hi) as (i' & Hi' & _).
    destruct (sc_sock _ _ C3 d k0 Hk0) as (j' & Hj' & _). destruct (ip_sender Hip).
    split; [by rewrite P3, lookup_insert_ne|by eexists|by eexists|by rewrite Oe, Ae|by rewrite Or, Ar|congruence]. }
  exists s4. split; [unfold hand_over; rewrite Hk', Hdata, E3; by rewrite E4|].
  pose proof (same_comms_trans _ _ _ C3 C4) as C.
  split.
  - exact G4.
  - by rewrite O4.
  - split; [exact X4|by rewrite Y4].
  - rewrite <- B3. apply mem_bytes_ext. intros c _. apply M4.
  - intros x c Hx. by rewrite M4, M3, Am.
  - intros x Hx Hx'. destruct (O3 x Hx') as [Or Oe]. by rewrite O4, Y4, Or, Oe, Ar, Ae.
  - rewrite P4, P3, Hp, insert_insert_eq. destruct (ip_sender Hip), (ip_receiver Hip).
    rewrite (insert_insert_ne _ proc proc'), insert_insert_eq by done. rewrite (insert_id _ proc') by
      (by rewrite lookup_insert_ne). by rewrite insert_id.
  - eapply same_socks_trans; [exact Hso|apply C].
  - by eapply linked_same.
  - by eapply queue_same.
  - exists t. by eapply queue_same.
  - eapply inbox_only_trans; [exact Hso|exact Hin|by apply inbox_only_links, same_comms_links].
Qed.

(** The receiver arrives second. *)
Lemma sender_first_delivers :
  ∃ s', sender_first (syscall_sendto reg proc) (syscall_recvfrom self' reg' proc') s =
      Some (PROCESS_TASK_FOUND, tt, s') ∧ delivered s'.
Proof.
  destruct Hip as [Sc Sh Ss Sst Sd Sm Sl St Rc Rs Rd Rn Rf Ro Rh Rt Rm Rb Hl Hla Hlb Hpr Hpi].
  destruct (sendto_blocks s proc pid p r h a ia d id q hb la lb reg data Sc Sh Ss Sst Sd Hl Hla Hlb Rf Ro Rh
    Sl Sm) as (t & s1 & k & E1 & [D1 L1 A1 B1 W1 P1 F1 T1 Q1 O1] & Hk).
  pose proof (sent_socks s s1 a d ia id (sa_fd _ _ _ _ _ Ss) Rf ltac:(by destruct Hl) F1 T1 Q1) as K1.
  destruct (ss_sock _ _ K1 b ib (sa_fd _ _ _ _ _ Rs)) as (ib1 & Hib1 & [_ [_ Kd] (Kt & _ & Ks) _]).
  destruct W1 as (Wr & We & Wm).
  assert (at_call s1 proc' pid' p' r') as Rc1.
  { destruct Rc. split; rewrite ?P1, ?We, ?Wr, ?Q1, ?lookup_insert_ne by done; done. }
  assert (socket_at s1 proc' (s32 (arg reg' 0)) b ib1) as Rs1.
  { destruct Rs. split; [by rewrite P1, lookup_insert_ne by done|done|done|by rewrite Kt]. }
  destruct (recvfrom_blocks self' s1 proc' pid' b p' r' reg' ib1 tr (MSG_host_get_name hb))
    as (k' & E2 & Hk'); [done|done|by rewrite Kd|by rewrite T1, Ks|done|].
  destruct (hand_over_eval (read_waits s1 proc' b p' ib1) t k k') as (s' & E & Hs');
    [|exact Hk|exact Hk'|].
  - pose proof (read_waits_same s1 proc' b p' ib1 Hib1) as C2.
    split; [done|cbn; by rewrite P1| |done|by eapply linked_same|by eapply queue_same|by eapply queue_same|].
    + eapply same_socks_trans; [exact K1|apply C2].
    + eapply inbox_only_trans; [exact K1|exact O1|by apply inbox_only_links, same_comms_links].
  - exists s'. split; [|done]. unfold sender_first. rewrite E1, E2, String.eqb_refl. exact E.
Qed.

(** The sender arrives second. *)
Lemma receiver_first_delivers :
  ∃ s', receiver_first (syscall_sendto reg proc) (syscall_recvfrom self' reg' proc') s =
      Some (PROCESS_TASK_FOUND, tt, s') ∧ delivered s'.
Proof.
  destruct Hip as [Sc Sh Ss Sst Sd Sm Sl St Rc Rs Rd Rn Rf Ro Rh Rt Rm Rb Hl Hla Hlb Hpr Hpi].
  destruct (recvfrom_blocks self' s proc' pid' b p' r' reg' ib tr (MSG_host_get_name hb))
    as (k' & E1 & Hk'); [done..|].
  set (s1 := read_waits s proc' b p' ib) in *.
  pose proof (read_waits_same s proc' b p' ib (sa_fd _ _ _ _ _ Rs)) as C1. fold s1 in C1.
  destruct (sc_sock _ _ C1 a ia (sa_fd _ _ _ _ _ Ss)) as (ia1 & Hia1 & [_ [Ky Kd] (Kt & _ & _) _]).
  destruct (sc_sock _ _ C1 d id Rf) as (id1 & Hid1 & [_ _ (_ & Ko & _) _]).
  assert (at_call s1 proc pid p r) as Sc1.
  { destruct Sc. split; try done. cbn. by rewrite lookup_insert_ne. }
  assert (socket_at s1 proc (s32 (arg reg 0)) a ia1) as Ss1.
  { destruct Ss as [Hp' Hn Hf Ht]. split; [|done|done|by rewrite Kt]. cbn. by rewrite lookup_insert_ne. }
  assert (∃ q', st_proc s1 !! fd_proc (is_fd id1) = Some q' ∧ pd_host q' = Some hb) as (q' & Hq' & Hh').
  { rewrite Ko. cbn. destruct (decide (proc' = fd_proc (is_fd id))) as [Eq|Hne].
    - rewrite <- Eq in Ro |- *. rewrite lookup_insert_eq. eexists. split; [done|].
      rewrite (ac_proc _ _ _ _ _ Rc) in Ro. by injection Ro as <-.
    - rewrite lookup_insert_ne by done. by exists q. }
  destruct (sendto_blocks s1 proc pid p r h a ia1 d id1 q' hb la lb reg data Sc1 Sh Ss1)
    as (t & s2 & k & E2 & [D2 L2 A2 B2 W2 P2 F2 T2 Q2 O2] & Hk);
    [by rewrite Ky|by rewrite Kd|by eapply linked_same|by eapply queue_same|by eapply queue_same|done|done|done|done|done|].
  destruct (hand_over_eval s2 t k k') as (s' & E & Hs'); [|exact Hk|exact Hk'|].
  - split; [done| | |done|done|done|done|].
    + rewrite P2. cbn. by rewrite insert_insert_ne.
    + eapply same_socks_trans; [apply C1|].
      exact (sent_socks s1 s2 a d ia1 id1 Hia1 Hid1 ltac:(by destruct Hl) F2 T2 Q2).
    + eapply inbox_only_trans; [apply C1|by apply inbox_only_links, same_comms_links|exact O2].
  - exists s'. split; [|done]. unfold receiver_first. rewrite E1, E2, String.eqb_refl. exact E.
Qed.

Lemma both_orders_deliver :
  (∃ s', sender_first (syscall_sendto reg proc) (syscall_recvfrom self' reg' proc') s =
      Some (PROCESS_TASK_FOUND, tt, s') ∧ delivered s') ∧
  (∃ s', receiver_first (syscall_sendto reg proc) (syscall_recvfrom self' reg' proc') s =
      Some (PROCESS_TASK_FOUND, tt, s') ∧ delivered s').
Proof. split; [apply sender_first_delivers|apply receiver_first_delivers]. Qed.

End Delivery.

(** ** The right receiver and another one *)

Section Receivers.
Context `{X : Xbt} `{Wd : World} `{!XbtLaws X} `{!TraceLaws Wd} `{!StopLaws Wd} `{!TaskLaws Wd}.
Context (s : st) (proc pid a : Z) (p : process_descriptor) (r : user_regs) (reg : reg_s) (ia : infos_socket).
Context (proc' pid' b : Z) (p' : process_descriptor) (r' : user_regs) (reg' : reg_s) (ib : infos_socket).
Context (self' : msg_self) (tr : stream) (h hb : msg_host) (q : process_descriptor).
Context (la lb : list task_comm_info) (data : list Z) (n : Z).

(** C9: A message from end to end. When a process is at the entry of [sendto] and another
    at the entry of [recvfrom], with the two ends of a connection, they meet, whichever
    of the two is handled first: the bytes that were in the memory of the sender are in
    the buffer of the receiver, as many as the buffer takes of the text; both are at the
    exits of their calls, answered with the lengths, and outside a call for SimTerpose.
    The task, which the receiver has destroyed, is still queued on the connection. *)
Theorem message_delivered :
  in_place s proc pid a p r reg ia b ib proc' pid' b p' r' reg' ib self' tr h hb q la lb data n →
  (∃ s', sender_first (syscall_sendto reg proc) (syscall_recvfrom self' reg' proc') s =
      Some (PROCESS_TASK_FOUND, tt, s') ∧
      delivered s pid a r reg b pid' r' reg' h la lb data n s') ∧
  (∃ s', receiver_first (syscall_sendto reg proc) (syscall_recvfrom self' reg' proc') s =
      Some (PROCESS_TASK_FOUND, tt, s') ∧
      delivered s pid a r reg b pid' r' reg' h la lb data n s').
Proof. apply both_orders_deliver. Qed.

(** C11: A message to the wrong process. A mailbox is the name of a host, so that all the
    connections of the processes of a host share it. The sender is connected to the socket
    [d] of a process on the host [hb]; another process of [hb] is at the entry of
    [recvfrom] with its own socket [b], the end of another connection. These two meet: the
    bytes sent to [d] are in the buffer of the process that reads from [b], and both calls
    are answered as if all was well. Nothing changes in what is queued for [b]; the task
    is queued for [d], whose owner does not get it. *)
Theorem message_misdelivered d id lc :
  in_place s proc pid a p r reg ia d id proc' pid' b p' r' reg' ib self' tr h hb q la lb data n →
  (∀ x x', inbox s d x → inbox s b x' → x' ≠ x) → queue s b lc →
  (∃ s', sender_first (syscall_sendto reg proc) (syscall_recvfrom self' reg' proc') s =
      Some (PROCESS_TASK_FOUND, tt, s') ∧
      delivered s pid a r reg d pid' r' reg' h la lb data n s' ∧ queue s' b lc) ∧
  (∃ s', receiver_first (syscall_sendto reg proc) (syscall_recvfrom self' reg' proc') s =
      Some (PROCESS_TASK_FOUND, tt, s') ∧
      delivered s pid a r reg d pid' r' reg' h la lb data n s' ∧ queue s' b lc).
Proof.
  intros Hip Hne Hlc.
  assert (∃ x, inbox s d x) as Hd by (destruct (ip_queue' _ _ _ _ _ _ _ _ _ _ _ _ _ _ _ _ _ _ _ _ _ _ _ _ _ _ Hip)
    as (i & c & _ & Hi & _); by exists (ci_recv (own c d)), i, c).
  assert (∀ s', delivered s pid a r reg d pid' r' reg' h la lb data n s' → queue s' b lc) as Hq.
  { intros s' []. by eapply queue_inbox. }
  destruct (both_orders_deliver _ _ _ _ _ _ _ _ _ _ _ _ _ _ _ _ _ _ _ _ _ _ _ _ _ _ Hip)
    as [(s1 & E1 & H1) (s2 & E2 & H2)].
  split; [exists s1|exists s2]; eauto.
Qed.

End Receivers.

(** ** An example *)

(** The process 7 of alice sends the text hi; the process 8 of bob receives with a
    buffer of 16 bytes. *)
Definition two_tracees : toy :=
  mk_toy (λ x c, if ((x =? 7) || (x =? 8)) && (4096 <=? c) && (c <? 8192)
                 then Some (if x =? 7 then nth (Z.to_nat (c - 5000)) [104; 105] 0 else 1) else None)
    (upd (upd (λ _, None) 7 (Some regs_zero)) 8 (Some regs_zero)) (λ _, true) ["alice"; "bob"; "carol"]%string [].
Definition bob_proc : process_descriptor :=
  mk_proc 8 "bob" (host "bob") [(int_key 4, 11)] 0 0 None 0.
Definition bob_sock : infos_socket :=
  let i := set_is_comm 8 (new_socket 2 4 2 1 0 (host "bob")) in set_is_fd (set_fd_stream 40 (is_fd i)) i.
Definition bob_stream : stream (Wd := ref_world) := mk_stream tt tt None (Some "p"%string) "alice" "bob".
Definition delivery_example : st :=
  set_w (two_tracees : W (World := ref_world)) (set_stream {[40 := bob_stream]}
    (set_fd {[7 := FdSock (set_is_comm 8 client_sock); 11 := FdSock bob_sock]}
      (set_proc {[1 := client_proc; 2 := bob_proc]} linked_example))).
Definition bob_self : msg_self (Wd := ref_world) :=
  {| self_process := "p" : msg_process (World := ref_world);
     self_host := "bob" : msg_host (World := ref_world) |}.
Definition alice_call : reg_s := mk_reg SYS_sendto 0 [3; 5000; 3; 0; 0; 0].
Definition bob_call : reg_s := mk_reg SYS_recvfrom 0 [4; 6000; 16; 0; 0; 0].

Lemma delivery_example_ends :
  linked delivery_example 7 11 ∧ queue delivery_example 7 [] ∧ queue delivery_example 11 [].
Proof.
  assert (in_comm delivery_example 7 (set_is_comm 8 client_sock)
    (mk_comm 1 80 (mk_info 7 9) (mk_info 11 10) COMM_OPEN [] 2)) as Ia by (by repeat split).
  assert (in_comm delivery_example 11 bob_sock
    (mk_comm 1 80 (mk_info 7 9) (mk_info 11 10) COMM_OPEN [] 2)) as Ib by (by repeat split).
  split; [split; [|done]|split].
  - eexists _, _, _. split; [exact Ia|]. split; [exact Ib|]. split; [done|]. split; [by left|].
    split; [done|]. split; by exists fresh_recv.
  - eexists _, _, fresh_recv. split; [exact Ia|by split].
  - eexists _, _, fresh_recv. split; [exact Ib|by split].
Qed.

Lemma delivery_example_place :
  in_place delivery_example 1 7 7 client_proc regs_zero alice_call (set_is_comm 8 client_sock)
    11 bob_sock 2 8 11 bob_proc regs_zero bob_call bob_sock bob_self bob_stream "alice"%string "bob"%string bob_proc
    [] [] [104; 105; 0; 0; 0; 0; 0; 0] 2.
Proof.
  destruct delivery_example_ends as (Hl & Ha & Hb). split; try done.
  - split; [exists client_proc; split; reflexivity|by vm_compute|reflexivity|reflexivity].
  - split; [exists bob_proc; split; reflexivity|by vm_compute|reflexivity|reflexivity].
Qed.

Lemma message_delivered_witness :
  ∃ s', sender_first (syscall_sendto alice_call 1) (syscall_recvfrom bob_self bob_call 2) delivery_example =
      Some (PROCESS_TASK_FOUND, tt, s') ∧
    ptrace_getregs (st_w s') 7 = Some (set_rax 3 (set_orig_rax SYS_sendto regs_zero)) ∧
    ptrace_getregs (st_w s') 8 = Some (set_rax 3 (set_orig_rax SYS_recvfrom regs_zero)) ∧
    mem_bytes (st_w s') 8 6000 3 = Some [104; 105; 0].
Proof.
  destruct (message_delivered _ _ _ _ _ _ _ _ _ _ _ _ _ _ _ _ _ _ _ _ _ _ _ _ delivery_example_place)
    as [(s' & E & H) _].
  exists s'. exact (conj E (conj (de_sender _ _ _ _ _ _ _ _ _ _ _ _ _ _ _ H)
    (conj (de_receiver _ _ _ _ _ _ _ _ _ _ _ _ _ _ _ H) (de_data _ _ _ _ _ _ _ _ _ _ _ _ _ _ _ H)))).
Defined.

(** The process 9, on bob too, receives from a client on carol while alice sends hi to
    the process 8. *)
Definition other_proc : process_descriptor :=
  mk_proc 9 "other" (host "bob") [(int_key 4, 14)] 0 0 None 0.
Definition other_sock : infos_socket :=
  let i := set_is_comm 30 (new_socket 3 4 2 1 0 (host "bob")) in set_is_fd (set_fd_stream 41 (is_fd i)) i.
Definition carol_sock : infos_socket := set_is_comm 30 (new_socket 4 3 2 1 0 (host "carol")).
Definition other_stream : stream (Wd := ref_world) := mk_stream tt tt None (Some "o"%string) "carol" "bob".
Definition other_self : msg_self (Wd := ref_world) :=
  {| self_process := "o" : msg_process (World := ref_world);
     self_host := "bob" : msg_host (World := ref_world) |}.
Definition three_tracees : toy :=
  mk_toy (λ x c, if ((x =? 7) || (x =? 8) || (x =? 9)) && (4096 <=? c) && (c <? 8192)
                 then Some (if x =? 7 then nth (Z.to_nat (c - 5000)) [104; 105] 0 else 1) else None)
    (upd (upd (upd (λ _, None) 7 (Some regs_zero)) 8 (Some regs_zero)) 9 (Some regs_zero)) (λ _, true)
    ["alice"; "bob"; "carol"]%string [].
Definition shared_host_example : st :=
  let s := delivery_example in
  set_w (three_tracees : W (World := ref_world)) (set_stream {[40 := bob_stream; 41 := other_stream]}
    (set_fd {[7 := FdSock (set_is_comm 8 client_sock); 11 := FdSock bob_sock; 14 := FdSock other_sock;
              15 := FdSock carol_sock]}
    (set_proc {[1 := client_proc; 2 := bob_proc; 3 := other_proc]}
    (set_comm {[8 := mk_comm 1 80 (mk_info 7 9) (mk_info 11 10) COMM_OPEN [] 2;
                30 := mk_comm 1 81 (mk_info 15 31) (mk_info 14 32) COMM_OPEN [] 2]}
    (set_recv {[9 := fresh_recv; 10 := fresh_recv; 31 := fresh_recv; 32 := fresh_recv]} s))))).

Lemma shared_host_ends :
  linked shared_host_example 7 11 ∧ queue shared_host_example 7 [] ∧ queue shared_host_example 11 [] ∧
  linked shared_host_example 15 14 ∧ queue shared_host_example 14 [] ∧
  inbox shared_host_example 11 10 ∧ inbox shared_host_example 14 32.
Proof.
  set (c1 := mk_comm (X := ref_xbt) 1 80 (mk_info 7 9) (mk_info 11 10) COMM_OPEN [] 2).
  set (c2 := mk_comm (X := ref_xbt) 1 81 (mk_info 15 31) (mk_info 14 32) COMM_OPEN [] 2).
  assert (in_comm shared_host_example 7 (set_is_comm 8 client_sock) c1) as I1 by (by repeat split).
  assert (in_comm shared_host_example 11 bob_sock c1) as I2 by (by repeat split).
  assert (in_comm shared_host_example 15 carol_sock c2) as I3 by (by repeat split).
  assert (in_comm shared_host_example 14 other_sock c2) as I4 by (by repeat split).
  split_and!; [split; [|done]| | |split; [|done]| |by eexists _, _|by eexists _, _].
  - eexists _, _, _. split; [exact I1|]. split; [exact I2|]. split; [done|]. split; [by left|].
    split; [done|]. split; by exists fresh_recv.
  - eexists _, _, fresh_recv. split; [exact I1|by split].
  - eexists _, _, fresh_recv. split; [exact I2|by split].
  - eexists _, _, _. split; [exact I3|]. split; [exact I4|]. split; [done|]. split; [by left|].
    split; [done|]. split; by exists fresh_recv.
  - eexists _, _, fresh_recv. split; [exact I4|by split].
Qed.

Lemma shared_host_place :
  in_place shared_host_example 1 7 7 client_proc regs_zero alice_call (set_is_comm 8 client_sock)
    11 bob_sock 3 9 14 other_proc regs_zero bob_call other_sock other_self other_stream "alice"%string
    "bob"%string bob_proc [] [] [104; 105; 0; 0; 0; 0; 0; 0] 2.
Proof.
  destruct shared_host_ends as (Hl & Ha & Hb & _). split; try done.
  - split; [exists client_proc; split; reflexivity|by vm_compute|reflexivity|reflexivity].
  - split; [exists other_proc; split; reflexivity|by vm_compute|reflexivity|reflexivity].
Qed.

(** What alice sends to the process 8 is read by the process 9, from its connection with
    carol. *)
Lemma message_misdelivered_witness :
  ∃ s', sender_first (syscall_sendto alice_call 1) (syscall_recvfrom other_self bob_call 3) shared_host_example =
      Some (PROCESS_TASK_FOUND, tt, s') ∧
    ptrace_getregs (st_w s') 9 = Some (set_rax 3 (set_orig_rax SYS_recvfrom regs_zero)) ∧
    mem_bytes (st_w s') 9 6000 3 = Some [104; 105; 0] ∧ linked shared_host_example 15 14 ∧ queue s' 14 [].
Proof.
  destruct shared_host_ends as (_ & _ & _ & Hl & Hq & I1 & I2).
  assert (∀ x x', inbox shared_host_example 11 x → inbox shared_host_example 14 x' → x' ≠ x) as Hne.
  { intros x x' H1 H2. rewrite (inbox_inj _ _ _ _ I1 H1), (inbox_inj _ _ _ _ I2 H2). done. }
  destruct (message_misdelivered _ _ _ _ _ _ _ _ _ _ _ _ _ _ _ _ _ _ _ _ _ _ _ _ _ _ [] shared_host_place Hne Hq)
    as [(s' & E & H & Hq') _].
  exists s'. exact (conj E (conj (de_receiver _ _ _ _ _ _ _ _ _ _ _ _ _ _ _ H)
    (conj (de_data _ _ _ _ _ _ _ _ _ _ _ _ _ _ _ H) (conj Hl Hq')))).
Defined.
