(* ===== verification/Accepting.v ===== *)
(** The side of the server in a connection: [accept], from its entry to the point where
    it sleeps, and from there to the end of the connection. *)
From S2P Require Import Prelude Libc External State Monad Frames Reference DataUtils.
From S2P Require Import ProcessDescriptor PtraceUtils Sockets Print Communication.
From S2P Require Import SocketOps SysFiles SysNet SysData SysProc Dispatch Mediation Handlers.
From S2P Require Import Messages Connecting.
Open Scope sim_scope.

(** The address of the instruction before the one at [a], and back. *)
Lemma rewind_back a : is_u 64 a → u64 (u64 (a - 2) + 2) = a.
Proof.
  intros Ha. unfold uwrap. rewrite Z.add_mod_idemp_l by done.
  replace (a - 2 + 2) with a by lia. by apply uwrap_small.
Qed.

Section Kernel.
Context `{X : Xbt} `{Wd : World} `{!TraceLaws Wd} `{!KernelLaws Wd}.

(** The call that [ptrace_record_socket] makes a tracee run in place of its own. *)
Definition socket_call (r : user_regs) : user_regs :=
  set_args AF_INET SOCK_STREAM 0 (set_orig_rax SYS_socket r).

(** The answer of the kernel to this one call is the descriptor [nf]: the tracee, stopped in
    its own call with the registers [r] and the memory of [w0], is made to run [socket]. *)
Definition socket_gives (w0 : W) (pid : Z) (r : user_regs) (nf : Z) : Prop :=
  ∀ w w1 status w2, (∀ q a, mem_byte w q a = mem_byte w0 q a) → at_entry w pid = true →
    ptrace_getregs w pid = Some (socket_call r) →
    ptrace_syscall w pid = Some w1 → waitpid w1 pid = Some (status, w2) →
    ∃ r', ptrace_getregs w2 pid = Some r' ∧ rax r' = nf.

Lemma socket_gives_same w0 w0' pid r nf :
  (∀ q a, mem_byte w0' q a = mem_byte w0 q a) → socket_gives w0 pid r nf → socket_gives w0' pid r nf.
Proof. intros H Hg w w1 status w2 Hm. apply Hg. intros q a. by rewrite Hm, H. Qed.

(** The worlds differ in the registers of [pid] and in where it is stopped. *)
Record moved (w w' : W) (pid : Z) : Prop := {
  mv_regs : ∀ q, q ≠ pid → ptrace_getregs w' q = ptrace_getregs w q;
  mv_mem : ∀ q b, mem_byte w' q b = mem_byte w q b;
  mv_entry : ∀ q, q ≠ pid → at_entry w' q = at_entry w q;
}.

Lemma moved_refl w pid : moved w w pid.
Proof. done. Qed.
Lemma moved_trans w1 w2 w3 pid : moved w1 w2 pid → moved w2 w3 pid → moved w1 w3 pid.
Proof.
  intros [R1 M1 E1] [R2 M2 E2]. split; intros.
  - by rewrite R2, R1.
  - by rewrite M2, M1.
  - by rewrite E2, E1.
Qed.

Lemma resume_wait_to w s pid w1 status :
  ptrace_syscall (st_w s) pid = Some w1 → waitpid w1 pid = Some (status, w) →
  ∃ c, ∀ B (k : unit → M B),
    (ptrace_resume_process pid ;; let! x := wait_ignored pid in k x) s = k tt (set_cnt c (set_w w s)).
Proof.
  intros H1 H2. eexists. intros B k. unfold ptrace_resume_process. unfold bind at 1 2. simpl.
  unfold upd_world. simpl. rewrite H1. simpl. unfold bind, wait_ignored. simpl. rewrite H2. reflexivity.
Qed.

(** The tracee runs [socket] in place of its call and is back at the entry of the call. *)
Lemma record_socket_eval s pid r nf :
  at_entry (st_w s) pid = true → ptrace_getregs (st_w s) pid = Some r → is_u 64 (rip r) →
  mem_bytes (st_w s) pid (u64 (rip r - 2)) 2 = Some syscall_insn → socket_gives (st_w s) pid r nf →
  ∃ c w o, ptrace_record_socket pid s = Done (s32 nf) (set_cnt c (set_w w s)) ∧
    ptrace_getregs w pid = Some (set_regs_other o (set_rax (u64 (- ENOSYS)) r)) ∧
    at_entry w pid = true ∧ moved (st_w s) w pid.
Proof.
  intros He Hr Hrip Hins Hnf. unfold ptrace_record_socket.
  destruct (getregs_eval s pid r Hr) as [c1 H1]. set (s1 := set_cnt c1 s) in H1.
  destruct (getregs_eval s1 pid r Hr) as [c2 H2]. set (s2 := set_cnt c2 s1) in H2.
  set (r3 := socket_call r).
  destruct (setregs_eval s2 pid r3) as (c3 & w3 & H3 & G3 & O3 & M3 & E3); [by exists r|].
  set (s3 := set_cnt c3 (set_w w3 s2)) in H3.
  destruct (kernel_socket w3 pid r3) as (wa & sa & w4 & v & o4 & S4 & P4 & G4 & E4 & O4 & M4 & A4);
    [by rewrite E3|done|done|].
  destruct (resume_wait_to w4 s3 pid wa sa S4 P4) as [c4 H4]. set (s4 := set_cnt c4 (set_w w4 s3)) in H4.
  destruct (Hnf w3 wa sa w4) as (r4 & G4' & Hrax); [intros; by rewrite M3|by rewrite E3|done|done|done|].
  destruct (getregs_eval s4 pid r4 G4') as [c5 H5]. set (s5 := set_cnt c5 s4) in H5.
  destruct (setregs_eval s5 pid r) as (c6 & w6 & H6 & G6 & O6 & M6 & E6); [by exists r4|].
  set (s6 := set_cnt c6 (set_w w6 s5)) in H6.
  destruct (getregs_eval s6 pid r G6) as [c7 H7]. set (s7 := set_cnt c7 s6) in H7.
  set (r8 := set_rip (u64 (rip r - 2)) (set_rax (orig_rax r) r)).
  destruct (setregs_eval s7 pid r8) as (c8 & w8 & H8 & G8 & O8 & M8 & E8); [by exists r|].
  set (s8 := set_cnt c8 (set_w w8 s7)) in H8.
  assert (∀ q b, mem_byte w8 q b = mem_byte (st_w s) q b) as Mem.
  { intros q b. rewrite M8. unfold s7, s6. st_cbn. rewrite M6. unfold s5, s4. st_cbn. by rewrite M4, M3. }
  destruct (kernel_rerun w8 pid r8) as (wb & sb & w9 & o9 & S9 & P9 & G9 & E9 & O9 & M9 & A9); [|done| |].
  { rewrite E8. unfold s7, s6. st_cbn. by rewrite E6. }
  { erewrite mem_bytes_ext; [exact Hins|]. intros i _. apply Mem. }
  destruct (resume_wait_to w9 s8 pid wb sb S9 P9) as [c9 H9].
  exists c9, w9, o9. split; [|split; [|split; [exact E9|]]].
  - eval_with H1. eval_with H2. fold r3. eval_with H3. rewrite H4. eval_with H5. rewrite Hrax. eval_with H6.
    eapply (bind_eval _ _ _ tt s8); [unfold ptrace_rewind_syscalls; eval_with H7; exact H8|]. cbv beta.
    by rewrite H9.
  - rewrite G9. f_equal. unfold r8. destruct r as [a1 a2 a3 a4 a5 a6 a7 a8 ip l].
    cbn in Hrip |- *. unfold set_regs_other, set_rip, set_rax, set_orig_rax. cbn. by rewrite rewind_back.
  - split; intros.
    + rewrite O9, O8 by done. unfold s7, s6. st_cbn. rewrite O6 by done. unfold s5, s4. st_cbn.
      by rewrite O4, O3.
    + by rewrite M9, Mem.
    + rewrite A9, E8 by done. unfold s7, s6. st_cbn. rewrite E6. unfold s5, s4. st_cbn. by rewrite A4, E3.
Qed.

End Kernel.

(** ** The server waits *)

Section Accept.
Context `{X : Xbt} `{Wd : World} `{!XbtLaws X} `{!TraceLaws Wd} `{!StopLaws Wd} `{!TaskLaws Wd}.
Context (self : msg_self) (reg : reg_s) (proc pid l : Z).

(** What [syscall_accept] does once it has woken the client. *)
Definition accept_served : M unit :=
  let sockfd := s32 (arg reg 0) in
  let! isp := get_infos_socket proc sockfd in
  let! waiting := comm_has_connect_waiting isp in
  (if waiting then
     let! isp := get_infos_socket proc sockfd in
     let! r := comm_accept_connect isp in
     let! sai := of_option Uninitialised r.2 in
     let! new_fd := ptrace_record_socket pid in
     let reg := set_ret new_fd reg in
     ptrace_neutralize_syscall pid ;;
     proc_outside proc ;;
     ptrace_restore_syscall pid SYS_accept (int_ret reg) ;;
     ptrace_poke pid (arg reg 1) (sai_encode sai) (Z.of_nat sizeof_sockaddr_in) ;;
     process_accept_out_call reg proc ;;
     if_strace (print_accept_syscall reg proc) ;;
     let! d := get_fd l in
     let! t := get_stream (fd_stream d) in
     let! _ := block (Sem_acquire (sem_server t)) in
     ret tt
   else ret tt) ;;
  fd_ref l (-1).

(** What is left of [syscall_accept] when the semaphore of the server was taken. *)
Definition accept_rest : M unit :=
  let! d := get_fd l in
  let! t := get_stream (fd_stream d) in
  modify (λ s, set_w (MSG_sem_release (st_w s) (sem_client t)) s) ;;
  accept_served.

(** The listening socket with the stream [n]; the stream of a server that accepts. *)
Definition accepting_sock (n : Z) (il : infos_socket) : infos_socket :=
  set_is_fd (set_fd_stream n (set_fd_refcount (s32 (fd_refcount (is_fd il) + 1)) (is_fd il))) il.
Definition accepting_stream (semc sems : msg_sem) : stream :=
  mk_stream semc sems None (Some (self_process self)) "" (MSG_host_get_name (self_host self)).

(** The state in which it sleeps. *)
Definition accepting (s : st) (p : process_descriptor) (il : infos_socket) (semc sems : msg_sem)
    (c : counters) (w : W) : st :=
  set_fd (<[l := FdSock (accepting_sock (st_next s) il)]> (st_fd s))
    (set_stream (<[st_next s := accepting_stream semc sems]> (st_stream s))
      (set_next (st_next s + 1) (set_cnt c (set_w w (enter proc p s))))).

Lemma accept_blocks s p r il b b' :
  at_call s proc pid p r → socket_at s proc (s32 (arg reg 0)) l il → is_domain il = 2 →
  mem_bytes (st_w s) pid (arg reg 1) 16 = Some b → mem_bytes (st_w s) pid (arg reg 2) 8 = Some b' →
  ∃ semc sems c w, syscall_accept self reg proc s =
      Block (Sem_acquire sems) (accepting s p il semc sems c w) (λ _, accept_rest) ∧
    tracees_alike (st_w s) w.
Proof.
  intros Hat Hs Hd Hb Hb'. pose proof (enter_socket _ _ _ _ _ _ _ _ Hat Hs) as H0. set (s0 := enter proc p s) in H0.
  set (up := λ d, set_fd_refcount (s32 (fd_refcount d + 1)) d).
  set (s1 := set_fd (<[l := FdSock (set_is_fd (up (is_fd il)) il)]> (st_fd s0)) s0).
  destruct (MSG_sem_init (st_w s1) 0) as [semc w1] eqn:E1. destruct (MSG_sem_init w1 0) as [sems w2] eqn:E2.
  exists semc, sems.
  set (s2 := set_stream (<[st_next s := accepting_stream semc sems]> (st_stream s))
    (set_next (st_next s + 1) (set_w w2 s1))).
  assert (tracees_alike (st_w s) w2) as [Tr [Te Tm]].
  { replace w1 with (MSG_sem_init (st_w s1) 0).2 in E2 by (by rewrite E1).
    replace w2 with (MSG_sem_init (MSG_sem_init (st_w s1) 0).2 0).2 by (by rewrite E2).
    split; [|split]; intros; [by rewrite !sem_init_regs|by rewrite !sem_init_stop|by rewrite !sem_init_mem]. }
  destruct (ptrace_cpy_eval s2 pid (arg reg 1) 16 b) as [c1 H1]; [lia| |].
  { rewrite (mem_bytes_ext (st_w s)) by (intros; apply Tm). exact Hb. }
  destruct (ptrace_cpy_eval (set_cnt c1 s2) pid (arg reg 2) 4 b') as [c2 H2]; [lia| |].
  { rewrite (mem_bytes_ext (st_w s)) by (intros; apply Tm). exact Hb'. }
  exists c2, w2. split; [|by split].
  unfold syscall_accept. eval_with (entering_eval s proc p (ac_proc _ _ _ _ _ Hat)).
  rewrite (ac_out _ _ _ _ _ Hat). cbn [Z.eqb]. unfold syscall_accept_pre.
  eval_with (socket_attr_at s _ _ _ _ _ _ Hs). rewrite Hd.
  eapply bind_eval; [apply load_eval, (ac_proc _ _ _ _ _ Hat)|]. cbv zeta. rewrite (ac_pid _ _ _ _ _ Hat).
  eapply enter_eval; [exact Hat|]. fold s0. destruct (sa_proc _ _ _ _ _ H0) as (q & Hq & He).
  eapply (bind_eval _ _ _ l); [unfold process_descriptor_get_fd; ev; by rewrite <- He|].
  eapply bind_eval; [apply upd_fd_eval, (sa_fd _ _ _ _ _ H0)|]. cbv beta.
  change (set_fd _ s0) with s1.
  eapply bind_eval; [apply on_world_eval; by rewrite E1|]. cbv beta.
  eapply bind_eval; [apply on_world_eval; st_cbn; by rewrite E2|]. cbv beta.
  eapply (bind_eval _ _ _ (st_next s) s2); [reflexivity|].
  eapply (bind_eval _ _ _ (Some (sai_decode b))); [unfold cpy_sockaddr; by eval_with H1|].
  eval_with H2.
  eapply bind_eval; [apply upd_fd_eval; apply lookup_insert_eq|]. cbv beta.
  set (s3 := set_fd _ _). replace (accepting s p il semc sems c2 w2) with s3; [reflexivity|].
  unfold s3, accepting, s2, s1, s0, enter. st_cbn. by rewrite insert_insert_eq.
Qed.

(** ** The server goes on *)

Context `{!KernelLaws Wd}.

Lemma sai_encode_socket i :
  length (sai_encode (socket_sockaddr i)) = 16%nat ∧ Forall (is_u 8) (sai_encode (socket_sockaddr i)).
Proof.
  unfold sai_encode. split.
  - rewrite !length_app, !length_le_encode. done.
  - repeat (apply Forall_app; split); try apply le_encode_bytes. repeat constructor; by vm_compute.
Qed.

Lemma int_ret_s32 v : int_ret (set_ret (s32 v) reg) = u64 (s32 v).
Proof. unfold int_ret. cbn [reg_ret set_ret]. by rewrite swrap32_u64, (swrap_small 32 (s32 v)) by (done || by apply swrap_range). Qed.

(** The tracee of the server as it leaves [accept]: it has the result [v], the address
    of the other end is where it asked for it, and nothing else changed in the tracees. *)
Record accepted_at (w w' : W) (v : Z) (sai : sockaddr_in) (r : user_regs) : Prop := {
  aa_regs : ∃ o, ptrace_getregs w' pid = Some (set_regs_other o (set_rax v (set_orig_rax SYS_accept r)));
  aa_exit : at_entry w' pid = false;
  aa_addr : mem_bytes w' pid (arg reg 1) 16 = Some (sai_encode sai);
  aa_mem : ∀ q a, q ≠ pid ∨ ¬ (arg reg 1 <= a < arg reg 1 + 16) → mem_byte w' q a = mem_byte w q a;
  aa_others : ∀ q, q ≠ pid → ptrace_getregs w' q = ptrace_getregs w q ∧ at_entry w' q = at_entry w q;
}.

Lemma accept_answer_eval s p r nf i :
  st_proc s !! proc = Some (set_in_syscall 1 p) → in_syscall p = 0 →
  at_entry (st_w s) pid = true → ptrace_getregs (st_w s) pid = Some r → is_u 64 (rip r) →
  mem_bytes (st_w s) pid (u64 (rip r - 2)) 2 = Some syscall_insn → socket_gives (st_w s) pid r nf →
  is_Some (mem_bytes (st_w s) pid (arg reg 1) 16) →
  ∃ c w, (∀ B (f : Z → M B), (let! new_fd := ptrace_record_socket pid in
      ptrace_neutralize_syscall pid ;;
      proc_outside proc ;;
      ptrace_restore_syscall pid SYS_accept (int_ret (set_ret new_fd reg)) ;;
      ptrace_poke pid (arg reg 1) (sai_encode (socket_sockaddr i)) (Z.of_nat sizeof_sockaddr_in) ;;
      f new_fd) s = f (s32 nf) (set_proc (<[proc := p]> (st_proc s)) (set_cnt c (set_w w s)))) ∧
    accepted_at (st_w s) w (u64 (s32 nf)) (socket_sockaddr i) r.
Proof.
  intros Hp Hi He Hr Hrip Hins Hnf Hbuf. destruct (sai_encode_socket i) as [Hlen Hb].
  destruct (record_socket_eval s pid r nf He Hr Hrip Hins Hnf) as (c1 & w1 & o & H1 & G1 & E1 & [R1 M1 A1]).
  set (s1 := set_cnt c1 (set_w w1 s)) in H1. set (r1 := set_regs_other o (set_rax (u64 (- ENOSYS)) r)) in *.
  destruct (drop_call_eval s1 proc (set_in_syscall 1 p) pid r1 Hp E1 G1)
    as (c2 & w2 & H2 & (G2 & E2 & R2 & M2) & A2).
  rewrite enter_leave in H2 by done. cbv zeta in H2. set (s2 := set_proc _ _) in H2.
  destruct (restore_eval s2 pid SYS_accept (int_ret (set_ret (s32 nf) reg)) _ G2)
    as (c3 & w3 & H3 & G3 & R3 & M3 & E3). set (s3 := set_cnt c3 (set_w w3 s2)) in H3.
  assert (∀ q a, mem_byte w3 q a = mem_byte (st_w s) q a) as Mem.
  { intros q a. rewrite M3. unfold s2. st_cbn. by rewrite M2, <- M1. }
  destruct (ptrace_poke_eval s3 pid (arg reg 1) (sai_encode (socket_sockaddr i)) 16)
    as (c4 & w4 & bs & H4 & B4 & T4 & (S4 & P4 & R4 & E4)); [rewrite Hlen; lia|done| |].
  { rewrite (mem_bytes_ext (st_w s)); [exact Hbuf|]. intros j _. apply Mem. }
  exists c4, w4. split.
  - intros B f. eval_with H1. rewrite H2. eval_with H3. by eval_with H4.
  - split.
    + exists o. rewrite R4. unfold s3. st_cbn. rewrite G3, int_ret_s32. by destruct r.
    + rewrite E4. unfold s3. st_cbn. by rewrite E3.
    + change (Z.to_nat (round8 16)) with 16%nat in B4. change (Z.to_nat 16) with 16%nat in T4.
      rewrite B4. f_equal. rewrite !take_ge in T4; [done|by rewrite Hlen|].
      by rewrite (mem_bytes_length _ _ _ _ _ B4).
    + intros q a Hqa. change (round8 16) with 16 in *. rewrite <- Mem. destruct (decide (q = pid)) as [->|Hne].
      * apply S4. by destruct Hqa.
      * by apply P4.
    + intros q Hq. rewrite R4, E4. unfold s3. st_cbn. rewrite R3, E3 by done. unfold s2. st_cbn.
      rewrite R2, A2 by done. unfold s1. st_cbn. by rewrite R1, A1.
Qed.

(** The client with the socket [k] waits on the listening socket [l]: its communication
    [m] is the only one in the list, and nothing was received on it. *)
Record request_waits (s : st) (k m r0 r1 : Z) (il ik : infos_socket) (c cm : comm) : Prop := {
  rw_comm : in_comm s l il c;
  rw_wait : dynar_model (conn_wait c) = [m];
  rw_other : m ≠ is_comm il;
  rw_null : m ≠ NULL;
  rw_request : st_comm s !! m = Some cm;
  rw_refs : is_s 32 (comm_ref_nb cm);
  rw_info0 : info0 cm = mk_info k r0;
  rw_info1 : ci_recv (info1 cm) = r1;
  rw_recvs : r0 ≠ r1;
  rw_recv0 : st_recv s !! r0 = Some fresh_recv;
  rw_recv1 : st_recv s !! r1 = Some fresh_recv;
  rw_sock : st_fd s !! k = Some (FdSock ik);
  rw_is : is_comm ik = m;
  rw_ne : k ≠ l;
  rw_fresh : st_next s ≠ k ∧ st_next s ≠ l ∧ st_next s ≠ NULL;
  rw_open : comm_state cm = COMM_OPEN;
}.

(** The new socket [n] of the server, of the descriptor [fd], and what is left as it was. *)
Record joined (s s' : st) (p : process_descriptor) (il : infos_socket) (fd k n : Z) : Prop := {
  jo_proc : ∃ p', st_proc s' = <[proc := p']> (st_proc s) ∧ entry_set p p' fd n;
  jo_sock : ∃ i, st_fd s' !! n = Some (FdSock i) ∧ fd_type (is_fd i) = FD_SOCKET ∧ fd_proc (is_fd i) = proc ∧
    fd_stream (is_fd i) = fd_stream (is_fd il) ∧ is_domain i = is_domain il ∧ is_type i = is_type il ∧
    is_port_local i = is_port_local il ∧ is_s 32 (fd_refcount (is_fd i));
  jo_open : ∃ i c, in_comm s' n i c ∧ comm_state c = COMM_OPEN;
  jo_others : ∀ x, x ≠ n → st_fd s' !! x = st_fd s !! x;
  jo_linked : linked s' k n;
  jo_queues : queue s' k [] ∧ queue s' n [];
  jo_stream : st_stream s' = st_stream s;
  jo_strace : strace_option s' = strace_option s;
}.

(** The new socket [iB] registered for the process, which joins the communication [m]. *)
Record seated (s sB : st) (p p' : process_descriptor) (iB il : infos_socket) (fd k n m : Z) (cm : comm) : Prop := {
  se_entry : entry_set p p' fd n;
  se_linked : linked sB k n;
  se_queues : queue sB k [] ∧ queue sB n [];
  se_comm : st_comm sB !! m = Some (set_socket1 n cm);
  se_fd : st_fd sB = <[n := FdSock iB]> (st_fd s);
  se_same : host_of sB = host_of s ∧ st_stream sB = st_stream s ∧ st_w sB = st_w s ∧
    strace_option sB = strace_option s ∧ st_proc sB = <[proc := p']> (st_proc s);
  se_sock : is_comm iB = m ∧ fd_type (is_fd iB) = FD_SOCKET ∧ fd_proc (is_fd iB) = proc ∧
    is_domain iB = is_domain il ∧ is_type iB = is_type il ∧ is_s 32 (fd_refcount (is_fd iB));
}.

Lemma accept_joins s p k m r0 r1 il ik c cm fd :
  st_proc s !! proc = Some p → socket_at s proc (s32 (arg reg 0)) l il → request_waits s k m r0 r1 il ik c cm →
  is_s 32 fd → fd_entry p fd = NULL →
  ∃ p' sA sB iB, register_socket proc fd (is_domain il) (is_type il) (is_protocol il) s = Done (st_next s) sA ∧
    comm_join_on_accept (st_next s) proc (s32 (arg reg 0)) sA = Done tt sB ∧
    seated s sB p p' iB il fd k (st_next s) m cm.
Proof.
  intros Hp Hl [Hc Hw Hmc Hm Hcm Hr Hi0 Hi1 Hrr Hr0 Hr1 Hk Hkm Hkl (Hnk & Hnl & Hnn) _] Hfd Hfree.
  set (n := st_next s) in *.
  destruct (register_socket_eval s proc p fd (is_domain il) (is_type il) (is_protocol il) Hp Hfree Hfd Hnn)
    as (p' & HA & Hset). cbv zeta in HA. fold n in HA, Hset. set (sA := set_all_sockets _ _) in HA.
  assert (socket_at sA proc (s32 (arg reg 0)) l il) as HlA.
  { destruct Hl as [(x & Hx & Ex) Hz Hf Ht]. rewrite Hp in Hx. injection Hx as <-.
    split; [exists p'; unfold sA; st_cbn; split; [apply lookup_insert_eq|]|done|unfold sA; st_cbn; by rewrite
      lookup_insert_ne|done].
    destruct Hset as (_ & _ & Ho). rewrite Ho; [done|by apply swrap_range|]. intros E. rewrite E in Ex. congruence. }
  assert (pending sA k n proc (s32 (arg reg 0)) l) as Hpend.
  { split; [|eexists; unfold sA; st_cbn; apply lookup_insert_eq|done].
    exists il, c, m, cm, r0, r1. split; [exact HlA|]. split; [|by rewrite Hi1; split_and!; try done; exists ik;
      unfold sA; st_cbn; rewrite lookup_insert_ne].
    destruct Hc as (Hc1 & Hc2 & Hc3). split; [unfold sA; st_cbn; by rewrite lookup_insert_ne|done]. }
  assert (st_fd sA !! n = Some (FdSock (new_socket proc fd (is_domain il) (is_type il) (is_protocol il) (pd_host p))))
    as HnA by apply lookup_insert_eq.
  destruct (join_linked _ _ _ _ _ _ Hpend) as (sB & HB & Hlk & Hqk & Hqn & _).
  destruct Hc as (Hc1 & Hc2 & Hc3).
  destruct (comm_join_on_accept_eval sA n _ proc (s32 (arg reg 0)) l il c m cm [] HlA HnA Hc2 Hc3 Hw Hmc Hcm Hr)
    as (cw & _ & HB'). rewrite HB in HB'. injection HB' as EB. set (iB := set_is_comm m _) in EB.
  exists p', sA, sB, iB. split; [exact HA|]. split; [exact HB|]. split; try done.
  - rewrite EB. st_cbn. apply lookup_insert_eq.
  - rewrite EB. st_cbn. unfold sA. st_cbn. by rewrite insert_insert_eq.
  - by rewrite EB.
Qed.

(** The address of the new socket. *)
Lemma accept_ip_eval s n iB il ik m cm k r0 h :
  st_fd s !! n = Some (FdSock iB) → is_comm iB = m → st_comm s !! m = Some (set_socket1 n cm) →
  info0 cm = mk_info k r0 → st_fd s !! k = Some (FdSock ik) → is_Some (host_of s (MSG_host_get_name h)) →
  ∃ ip, (if is_ip_local il =? 0 then
      let! i := get_sock n in let! c := get_comm (is_comm i) in let! temp := get_sock (ci_socket (info0 c)) in
      if is_ip_local temp =? localhost then ret localhost else get_ip_of_host (Some h)
    else ret (is_ip_local il)) s = Done ip s.
Proof.
  intros Hn Hm Hcm Hi Hk [hd Hhd]. destruct (is_ip_local il =? 0); [|by eexists].
  assert (get_sock (ci_socket (info0 (set_socket1 n cm))) s = Done ik s) as Hgk.
  { unfold set_socket1. cbn [info0]. rewrite Hi. by apply get_sock_eval. }
  rewrite <- Hm in Hcm.
  destruct (is_ip_local ik =? localhost) eqn:El; eexists; ev; eval_with (load_eval st_comm _ _ s Hcm);
    eval_with Hgk; rewrite El; [reflexivity|]. unfold get_ip_of_host.
  by eval_with (host_desc_eval s h hd Hhd).
Qed.

(** The new socket gets its address and the stream of the listening one. *)
Lemma accept_address_eval s n iB il p' fd ip :
  socket_at s proc fd n iB → st_fd s !! l = Some (FdSock il) → n ≠ l → st_proc s !! proc = Some p' →
  let iE := set_is_fd (set_fd_stream (fd_stream (is_fd il)) (is_fd iB))
    (set_is_local (inet_addr (inet_ntoa ip)) (is_port_local il) iB) in
  (set_localaddr_port_socket proc fd (inet_ntoa ip) (is_port_local il) ;;
    let! sd := get_fd l in upd_fd n (set_fd_stream (fd_stream sd))) s =
    Done tt (set_fd (<[n := FdSock iE]> (st_fd s)) s).
Proof.
  intros Hs Hl Hnl Hp iE. pose proof (sa_fd _ _ _ _ _ Hs) as Hn.
  set (iD := set_is_local (inet_addr (inet_ntoa ip)) (is_port_local il) iB).
  set (sD := set_fd (<[n := FdSock iD]> (st_fd s)) s).
  eapply (bind_eval _ _ _ tt sD).
  { unfold set_localaddr_port_socket. eval_with (get_infos_socket_at s _ _ _ _ Hs). exact (upd_sock_eval s n iB _ Hn). }
  cbv beta. eval_with (get_fd_eval sD l (FdSock il)); [unfold sD; st_cbn; by rewrite lookup_insert_ne|].
  etransitivity; [apply (upd_fd_eval sD n (FdSock iD)), lookup_insert_eq|].
  unfold sD. st_cbn. by rewrite insert_insert_eq.
Qed.

Lemma accept_out_eval s p h k m r0 r1 il ik c cm nf :
  st_proc s !! proc = Some p → pd_host p = Some h → is_Some (host_of s (MSG_host_get_name h)) →
  socket_at s proc (s32 (arg reg 0)) l il → request_waits s k m r0 r1 il ik c cm →
  0 <= s32 nf → fd_entry p (s32 nf) = NULL →
  ∃ s', process_accept_out_call (set_ret (s32 nf) reg) proc s = Done tt s' ∧
    joined s s' p il (s32 nf) k (st_next s) ∧ st_w s' = st_w s.
Proof.
  intros Hp Hh Hhost Hl Hrw Hpos Hfree. set (fd := s32 nf) in *. assert (is_s 32 fd) as Hfd by by apply swrap_range.
  destruct (accept_joins s p k m r0 r1 il ik c cm fd Hp Hl Hrw Hfd Hfree) as
    (p' & sA & sB & iB & HA & HB & [Hset Hlk Hq HcB EfB (EhB & EtB & EwB & EqB & EpB) (Bm & Bt & Bp & Bd & By & Br)]).
  destruct Hrw as [_ _ _ Hnm _ _ Hi0 _ _ _ _ Hk _ _ (Hnk & Hnl & Hnn) Hop]. set (n := st_next s) in *.
  assert (pd_host p' = Some h) as Hh' by (destruct Hset as (-> & _); exact Hh).
  destruct (register_port_eval sB h (is_port_local il)) as (sC & HC & EC & _ & _ & IC); [by rewrite EhB|].
  specialize (IC (MSG_host_get_name h)). rewrite EhB in IC. specialize (IC Hhost).
  assert (is_Some (host_of sC (MSG_host_get_name h))) as HhC.
  { destruct Hhost as [x Hx]. rewrite Hx in IC. destruct (host_of sC _); [by eexists|done]. }
  clear IC. set (lh := list_host sC) in EC. clearbody lh.
  assert (st_fd sC = <[n := FdSock iB]> (st_fd s)) as EfC by (by rewrite EC).
  assert (st_proc sC !! proc = Some p') as HpC by (rewrite EC; st_cbn; rewrite EpB; apply lookup_insert_eq).
  assert (st_fd sC !! l = Some (FdSock il)) as HlC by (rewrite EfC, lookup_insert_ne by done; apply Hl).
  assert (st_fd sC !! n = Some (FdSock iB)) as HnC by (rewrite EfC; apply lookup_insert_eq).
  assert (socket_at sC proc fd n iB) as HsC by (split; [exists p'; split; [done|apply Hset]|done|done|done]).
  assert (socket_at sB proc (s32 (arg reg 0)) l il) as HlB.
  { destruct Hl as [(x & Hx & Ex) Hz Hf Ht]. rewrite Hp in Hx. injection Hx as <-. split; [|done| |done].
    - exists p'. rewrite EpB. split; [apply lookup_insert_eq|]. destruct Hset as (_ & _ & Ho).
      rewrite Ho; [done|by apply swrap_range|]. intros E. rewrite E in Ex. congruence.
    - by rewrite EfB, lookup_insert_ne. }
  destruct (accept_ip_eval sC n iB il ik m cm k r0 h HnC Bm) as [ip Hip];
    [by rewrite EC|done|by rewrite EfC, lookup_insert_ne|done|].
  pose proof (accept_address_eval sC n iB il p' fd ip HsC HlC Hnl HpC) as HD. cbv zeta in HD.
  set (iE := set_is_fd _ _) in HD. set (sE := set_fd _ sC) in HD. exists sE. split.
  - unfold process_accept_out_call. cbn [reg_ret set_ret]. rewrite swrap32_u64, (swrap_small 32 fd) by done.
    change (arg (set_ret fd reg) 0) with (arg reg 0). rewrite (proj2 (Z.leb_le 0 fd) Hpos). cbv zeta.
    do 3 (eval_with (socket_attr_at s _ _ _ _ _ _ Hl)). eval_with HA. eval_with HB.
    eval_with (get_infos_socket_at sB _ _ _ _ HlB). eval_with (get_sock_eval sB l il (sa_fd _ _ _ _ _ HlB)).
    eapply bind_eval; [apply (load_eval st_proc _ p'); rewrite EpB; apply lookup_insert_eq|]. cbv beta.
    rewrite Hh'. eval_with HC. eval_with Hip. exact HD.
  - assert (same_links sB sE) as Hsame.
    { split; [by unfold sE; st_cbn; rewrite EC|by unfold sE; st_cbn; rewrite EC|]. unfold sE. st_cbn.
      intros x i Hx. rewrite EfC, <- EfB. destruct (decide (n = x)) as [<-|Hne].
      - rewrite EfB, lookup_insert_eq in Hx. injection Hx as <-. exists iE. by rewrite lookup_insert_eq.
      - exists i. by rewrite lookup_insert_ne. }
    split; [split|unfold sE; st_cbn; by rewrite EC].
    + exists p'. split; [|exact Hset]. unfold sE. st_cbn. by rewrite EC.
    + exists iE. split; [apply lookup_insert_eq|done].
    + exists iE, (set_socket1 n cm). split; [split; [apply lookup_insert_eq|]|by unfold set_socket1].
      change (is_comm iE) with (is_comm iB). rewrite Bm. split; [exact Hnm|]. unfold sE. st_cbn. by rewrite EC.
    + intros x Hx. unfold sE. st_cbn. by rewrite EfC, !lookup_insert_ne.
    + by eapply linked_links.
    + destruct Hq. split; by eapply queue_links.
    + unfold sE. st_cbn. by rewrite EC.
    + unfold sE. st_cbn. by rewrite EC.
Qed.

Lemma joined_frame s s1 s' p il fd k n :
  st_proc s1 = <[proc := p]> (st_proc s) → st_fd s1 = st_fd s → st_stream s1 = st_stream s →
  strace_option s1 = strace_option s → joined s1 s' p il fd k n → joined s s' p il fd k n.
Proof.
  intros Ep Ef Et Eq [(p' & Hp & Hs) H2 H8 H3 H4 H5 H6 H7]. split; rewrite <- ?Ef, <- ?Et, <- ?Eq; try done.
  exists p'. split; [|done]. by rewrite Hp, Ep, insert_insert_eq.
Qed.

(** A server woken by a client. *)
Record woken (s : st) (p : process_descriptor) (r : user_regs) (h : msg_host) (il : infos_socket)
    (tr : stream) : Prop := {
  wo_proc : st_proc s !! proc = Some (set_in_syscall 1 p);
  wo_out : in_syscall p = 0;
  wo_host : pd_host p = Some h;
  wo_table : is_Some (host_of s (MSG_host_get_name h));
  wo_sock : socket_at s proc (s32 (arg reg 0)) l il;
  wo_stream : st_stream s !! fd_stream (is_fd il) = Some tr;
  wo_entry : at_entry (st_w s) pid = true;
  wo_regs : ptrace_getregs (st_w s) pid = Some r;
  wo_rip : is_u 64 (rip r);
  wo_insn : mem_bytes (st_w s) pid (u64 (rip r - 2)) 2 = Some syscall_insn;
  wo_buffer : is_Some (mem_bytes (st_w s) pid (arg reg 1) 16);
  wo_quiet : strace_option s = 0;
}.

Lemma waiting_eval s k m r0 r1 il ik c cm :
  request_waits s k m r0 r1 il ik c cm → l ≠ NULL → comm_has_connect_waiting l s = Done true s.
Proof.
  intros [(Hc1 & Hc2 & Hc3) Hw _ _ _ _ _ _ _ _ _ _ _ _ _ _] Hl. unfold comm_has_connect_waiting.
  rewrite (proj2 (Z.eqb_neq _ _) Hl). ev. rewrite (proj2 (Z.eqb_neq _ _) Hc2). ev.
  rewrite dynar_is_empty_model, Hw. done.
Qed.

Lemma accept_connect_eval s k m r0 r1 il ik c cm :
  request_waits s k m r0 r1 il ik c cm →
  comm_accept_connect l s = Done (fd_proc (is_fd ik), Some (socket_sockaddr ik)) s.
Proof.
  intros [(Hc1 & Hc2 & Hc3) Hw _ _ Hcm _ Hi0 _ _ _ _ Hk _ _ _ _]. unfold comm_accept_connect. ev.
  rewrite (proj2 (Z.eqb_neq _ _) Hc2). ev. rewrite dynar_is_empty_model, Hw.
  eapply bind_eval; [apply of_option_eval; by rewrite dynar_get_model, Hw|]. cbv beta. ev. rewrite Hi0. by ev.
Qed.

Lemma obind_block {A B} (o : outcome A) r s k (f : A → M B) k' :
  o = Block r s k → (λ x s', obind (k x s') f) = k' → obind o f = Block r s k'.
Proof. by intros -> <-. Qed.

Lemma accept_resumes s p r h k m r0 r1 il ik c cm nf tr :
  woken s p r h il tr → request_waits s k m r0 r1 il ik c cm →
  socket_gives (st_w s) pid r nf → 0 <= s32 nf → fd_entry p (s32 nf) = NULL →
  let s1 := set_w (MSG_sem_release (st_w s) (sem_client tr)) s in accept_rest s = accept_served s1 ∧
  ∃ s', accept_served s1 = Block (Sem_acquire (sem_server tr)) s' (λ _, fd_ref l (-1)) ∧
    accepted_at (st_w s) (st_w s') (u64 (s32 nf)) (socket_sockaddr ik) r ∧
    joined s s' p il (s32 nf) k (st_next s).
Proof.
  intros [Hp Hi Hh Hhost Hs Htr He Hr Hrip Hins Hbuf Hq] Hrw Hnf Hpos Hfree.
  intros s1. split.
  { unfold accept_rest. eval_with (get_fd_eval s l _ (sa_fd _ _ _ _ _ Hs)).
    eapply bind_eval; [apply load_eval; exact Htr|]. cbv beta. by ev. }
  assert (∀ q b, mem_byte (st_w s1) q b = mem_byte (st_w s) q b) as M1 by (intros; apply sem_release_mem).
  assert (socket_at s1 proc (s32 (arg reg 0)) l il) as Hs1 by (destruct Hs; by split).
  destruct (rw_comm _ _ _ _ _ _ _ _ _ Hrw) as (Hc1 & Hc2 & Hc3).
  destruct (accept_answer_eval s1 p r nf ik) as (c1 & w1 & H1 & A1);
    [done|done|by unfold s1; st_cbn; rewrite sem_release_stop|by unfold s1; st_cbn; rewrite sem_release_regs|done
    |by rewrite (mem_bytes_ext (st_w s)) by (intros; apply M1)|by apply (socket_gives_same (st_w s))
    |by rewrite (mem_bytes_ext (st_w s)) by (intros; apply M1)|].
  set (s2 := set_proc _ _) in H1.
  assert (socket_at s2 proc (s32 (arg reg 0)) l il) as Hs2.
  { apply (socket_at_proc (set_cnt c1 (set_w w1 s1)) _ _ _ _ (set_in_syscall 1 p)); [|done|done].
    destruct Hs1; by split. }
  destruct (accept_out_eval s2 p h k m r0 r1 il ik c cm nf) as (s3 & H3 & J3 & W3);
    [apply lookup_insert_eq|done|done|done|by destruct Hrw; split|done|done|].
  exists s3. split; [|split].
  - unfold accept_served. cbv zeta.
    eval_with (get_infos_socket_at s1 _ _ _ _ Hs1).
    eval_with (waiting_eval s1 k m r0 r1 il ik c cm); [by destruct Hrw; split|exact (sa_null _ _ _ _ _ Hs)|].
    unfold bind at 1. apply (obind_block _ _ s3 (λ _, ret tt)); [|reflexivity].
    eval_with (get_infos_socket_at s1 _ _ _ _ Hs1).
    eval_with (accept_connect_eval s1 k m r0 r1 il ik c cm); [by destruct Hrw; split|].
    cbn [snd]. ev. cbv zeta. rewrite H1. eval_with H3.
    eapply bind_eval; [apply if_strace_quiet; by rewrite (jo_strace _ _ _ _ _ _ _ J3)|]. cbv beta.
    eval_with (get_fd_eval s3 l (FdSock il)).
    { rewrite (jo_others _ _ _ _ _ _ _ J3) by (intros ->; by destruct (rw_fresh _ _ _ _ _ _ _ _ _ Hrw) as (_ & ? & _)).
      exact (sa_fd _ _ _ _ _ Hs). }
    eapply bind_eval; [apply load_eval; rewrite (jo_stream _ _ _ _ _ _ _ J3); exact Htr|]. reflexivity.
  - rewrite W3. change (st_w s2) with w1. destruct A1 as [B1 B2 B3 B4 B5]. split; [done|done|done| |].
    + intros q a Ha. rewrite <- M1. by apply B4.
    + intros q Hq'. destruct (B5 q Hq') as [C1 C2].
      rewrite C1, C2. unfold s1. st_cbn. by rewrite sem_release_regs, sem_release_stop.
  - eapply (joined_frame s s2); [done..|exact J3].
Qed.

End Accept.
