(* ===== verification/FreePort.v ===== *)
(** The search for a free port of the machine, [ptrace_find_free_binding_port]: the tracee
    runs bind(2) with one port after the other, and its memory is put back. *)
From S2P Require Import Prelude Libc External State Monad Reference DataUtils.
From S2P Require Import ProcessDescriptor PtraceUtils Sockets Communication Translate Messages Accepting.
Open Scope sim_scope.

(** Registers that differ in the result and in the registers no definition reads. *)
Definition same_call (r r' : user_regs) : Prop := ∃ o v, r' = set_regs_other o (set_rax v r).

Lemma same_call_refl r : same_call r r.
Proof. exists (regs_other r), (rax r). by destruct r. Qed.
Lemma same_call_trans r1 r2 r3 : same_call r1 r2 → same_call r2 r3 → same_call r1 r3.
Proof. intros (o & v & ->) (o' & v' & ->). by exists o', v'. Qed.

Section FreePort.
Context `{X : Xbt} `{Wd : World} `{!XbtLaws X} `{!TraceLaws Wd} `{!KernelLaws Wd}.
Context (bindable : W → Z → Z → bool) (taken : W → Z → bool) `{!BindLaws Wd bindable taken}.

(** Whether the kernel refuses a port for the descriptor of the call. *)
Definition refuses (w : W) (pid : Z) (r : user_regs) (q : Z) : bool :=
  refused bindable taken w pid (s32 (rdi r)) q.

Lemma refuses_same w w' pid r r' q :
  same_ports bindable taken w w' → same_call r r' → refuses w' pid r' q = refuses w pid r q.
Proof. intros H (o & v & ->). apply H. Qed.

Lemma same_ports_trans w1 w2 w3 :
  same_ports bindable taken w1 w2 → same_ports bindable taken w2 w3 → same_ports bindable taken w1 w3.
Proof. intros H1 H2 p fd q. by rewrite H2, H1. Qed.

(** What the search may change: the process [pid] and sixteen bytes of its memory. *)
Record searched (w w' : W) (pid a : Z) : Prop := {
  sr_mem : ∀ b, ¬ (a <= b < a + 16) → mem_byte w' pid b = mem_byte w pid b;
  sr_other : ∀ q b, q ≠ pid → mem_byte w' q b = mem_byte w q b;
  sr_regs : ∀ q, q ≠ pid → ptrace_getregs w' q = ptrace_getregs w q;
  sr_entry : ∀ q, q ≠ pid → at_entry w' q = at_entry w q;
}.

Lemma searched_trans w1 w2 w3 pid a : searched w1 w2 pid a → searched w2 w3 pid a → searched w1 w3 pid a.
Proof.
  intros [A1 A2 A3 A4] [B1 B2 B3 B4]. split; intros.
  - by rewrite B1, A1.
  - by rewrite B2, A2.
  - by rewrite B3, A3.
  - by rewrite B4, A4.
Qed.
Lemma same_but_searched w w' pid a : same_but w w' pid a 16 → searched w w' pid a.
Proof. intros (A1 & A2 & A3 & A4). by split. Qed.
Lemma moved_searched w w' pid a : moved w w' pid → searched w w' pid a.
Proof. intros [A1 A2 A3]. by split. Qed.

(** Writing memory and registers takes and frees no port. *)
Lemma poke_loop_ports fuel pid dst src : ∀ i len s s',
  poke_loop fuel pid dst src i len s = Done tt s' → same_ports bindable taken (st_w s) (st_w s').
Proof.
  induction fuel as [|fuel IH]; intros i len s s' H; cbn [poke_loop] in H;
    (destruct (i <? len) eqn:E; [|by injection H as <-]); [done|].
  rewrite (bind_done _ _ _ _ _ (gets_eval _ s)) in H. destruct (increment_nb_poke_eval s) as [c Hc].
  rewrite (bind_done _ _ _ _ _ Hc) in H.
  destruct (ptrace_pokedata (st_w s) pid _ _) as [w|] eqn:Ep; [|done].
  eapply same_ports_trans; [exact (poke_ports _ _ _ _ _ Ep)|]. exact (IH _ _ (set_w w (set_cnt c s)) s' H).
Qed.

Lemma setregs_ports_eval s pid r :
  is_Some (ptrace_getregs (st_w s) pid) →
  ∃ c w', setregs pid r s = Done tt (set_cnt c (set_w w' s)) ∧
    ptrace_getregs w' pid = Some r ∧ at_entry w' pid = at_entry (st_w s) pid ∧ moved (st_w s) w' pid ∧
    same_ports bindable taken (st_w s) w'.
Proof.
  intros H. destruct (set_get_regs (st_w s) pid r H) as (w' & Hw & G & O & M & E).
  eexists _, w'. split; [unfold setregs; ev; by rewrite (upd_world_eval _ _ w') by exact Hw|].
  repeat split; [done|done|done|done|by intros|]. exact (setregs_ports _ _ _ _ Hw).
Qed.

(** The address tried. *)
Definition probe (temp : list Z) (port : Z) : list Z :=
  sai_encode (mk_sai (sin_family (sai_decode temp)) (htons port) localhost (sin_zero (sai_decode temp))).

(** The sixteen bytes of an IPv4 address. *)
Definition inet_address (b : list Z) : Prop :=
  length b = 16%nat ∧ Forall (is_u 8) b ∧ sin_family (sai_decode b) = AF_INET.

Lemma probe_ok temp port :
  inet_address temp → is_u 16 port →
  inet_address (probe temp port) ∧ sin_addr (sai_decode (probe temp port)) = localhost ∧
  ntohs (sin_port (sai_decode (probe temp port))) = port.
Proof.
  intros (Hl & Hb & Hf) Hp. destruct (sai_decode_fields temp Hl Hb) as (Ff & _ & _ & Fz).
  unfold inet_address, probe.
  rewrite sai_decode_encode by (cbn; first [done | apply localhost_range | apply ntohs_range]).
  cbn [sin_family sin_addr sin_port].
  split; [|split; [done|by apply ntohs_htons]]. split; [unfold sai_encode; rewrite !length_app, !length_le_encode; cbn [sin_zero]; lia|].
  split; [|done]. unfold sai_encode. repeat (apply Forall_app; split; [apply le_encode_bytes|]).
  by apply Forall_take, Forall_drop.
Qed.

(** One bind: from the entry of the call to its exit. *)
Lemma try_port s pid temp port r :
  inet_address temp → is_u 16 port →
  at_entry (st_w s) pid = true → ptrace_getregs (st_w s) pid = Some r → orig_rax r = SYS_bind → rdx r = 16 →
  is_Some (mem_bytes (st_w s) pid (rsi r) 16) →
  ∃ c w r', same_call r r' ∧ (rax r' =? 0) = negb (refuses (st_w s) pid r port) ∧
    (∀ B (k : user_regs → M B),
      (ptrace_poke pid (rsi r) (probe temp port) (u64 (rdx r)) ;; ptrace_resume_process pid ;;
       wait_ignored pid ;; let! reg := getregs pid in k reg) s = k r' (set_cnt c (set_w w s))) ∧
    ptrace_getregs w pid = Some r' ∧ at_entry w pid = false ∧ is_Some (mem_bytes w pid (rsi r) 16) ∧
    searched (st_w s) w pid (rsi r) ∧
    (refuses (st_w s) pid r port = true → same_ports bindable taken (st_w s) w).
Proof.
  intros Ht Hp He Hr Ho Hd Hm. destruct (probe_ok temp port Ht Hp) as ((_ & _ & Pf) & Pa & Pp).
  destruct Ht as (Hl & Hb & Hf).
  destruct (poke_sockaddr s pid (rsi r) (mk_sai (sin_family (sai_decode temp)) (htons port) localhost
    (sin_zero (sai_decode temp)))) as (c1 & w1 & H1 & M1 & F1);
    [by apply (sai_decode_fields temp Hl Hb)|by apply Forall_take, Forall_drop|done|].
  fold (probe temp port) in H1, M1. pose proof F1 as (_ & _ & G1 & E1).
  pose proof (poke_loop_ports _ _ _ _ _ _ _ _ H1) as T1. cbn [st_w set_cnt set_w] in T1.
  destruct (kernel_bind w1 pid r (probe temp port)) as (wa & st & w2 & v & o & S2 & P2 & G2 & V2 & E2 & O2 & M2 & A2 & T2);
    [by rewrite E1|by rewrite G1|done..|].
  rewrite Pp, T1 in V2, T2. fold (refuses (st_w s) pid r port) in V2, T2.
  set (s1 := set_cnt c1 (set_w w1 s)) in H1. destruct (resume_wait_to w2 s1 pid wa st S2 P2) as [c2 H2].
  destruct (getregs_eval (set_cnt c2 (set_w w2 s1)) pid _ G2) as [c3 H3].
  exists c3, w2, (set_regs_other o (set_rax v r)). split; [by exists o, v|]. split; [exact V2|].
  split; [|split; [exact G2|split; [exact E2|split; [|split]]]].
  - intros B k. rewrite Hd. change (u64 16) with 16. eapply bind_eval; [exact H1|]. cbv beta. rewrite H2.
    eapply bind_eval; [exact H3|]. reflexivity.
  - rewrite (mem_bytes_ext w1) by (intros; apply M2). by exists (probe temp port).
  - apply (searched_trans _ w1); [by apply same_but_searched|]. by apply moved_searched.
  - intros Ht. by apply (same_ports_trans _ w1), T2.
Qed.

(** After a bind that failed: the call is run again. *)
Lemma run_again s pid r :
  at_entry (st_w s) pid = false → ptrace_getregs (st_w s) pid = Some r → is_u 64 (rip r) →
  mem_bytes (st_w s) pid (u64 (rip r - 2)) 2 = Some syscall_insn →
  ∃ c w r', same_call r r' ∧
    (∀ B (k : unit → M B),
      (ptrace_rewind_syscalls pid ;; ptrace_resume_process pid ;; let! x := wait_ignored pid in k x) s =
      k tt (set_cnt c (set_w w s))) ∧
    ptrace_getregs w pid = Some r' ∧ at_entry w pid = true ∧ moved (st_w s) w pid ∧
    same_ports bindable taken (st_w s) w.
Proof.
  intros He Hr Hrip Hi. destruct (getregs_eval s pid r Hr) as [c1 H1].
  set (r2 := set_rip (u64 (rip r - 2)) (set_rax (orig_rax r) r)).
  destruct (setregs_ports_eval (set_cnt c1 s) pid r2) as (c2 & w2 & H2 & G2 & E2 & F2 & T2); [by exists r|].
  destruct (kernel_rerun w2 pid r2) as (w3 & st & w4 & o & S4 & P4 & G4 & E4 & O4 & M4 & A4); [by rewrite E2|done| |].
  { rewrite (mem_bytes_ext (st_w s)) by (intros; apply F2). exact Hi. }
  destruct (resume_wait_to w4 (set_cnt c2 (set_w w2 (set_cnt c1 s))) pid w3 st S4 P4) as [c4 H4].
  exists c4, w4, (set_regs_other o (set_rax (u64 (- ENOSYS)) r)). split; [by eexists _, _|].
  split; [|split; [|split; [exact E4|split]]].
  - intros B k. eapply (bind_eval _ _ _ tt (set_cnt c2 (set_w w2 (set_cnt c1 s))));
      [unfold ptrace_rewind_syscalls; eval_with H1; exact H2|]. cbv beta. by rewrite H4.
  - rewrite G4. f_equal. unfold r2. destruct r as [a1 a2 a3 a4 a5 a6 a7 a8 ip l].
    cbn in Hrip |- *. unfold set_regs_other, set_rip, set_rax, set_orig_rax. cbn. by rewrite rewind_back.
  - eapply moved_trans; [exact F2|]. by split.
  - apply (same_ports_trans _ w2); [exact T2|]. apply (rerun_ports w2 pid w3 st w4); [by rewrite E2|done|done].
Qed.

(** The tracee is in a call of bind(2) on an address of sixteen bytes, which does not
    overlap the instruction of the call. *)
Record bind_call (w : W) (pid : Z) (r : user_regs) : Prop := {
  bc_regs : ptrace_getregs w pid = Some r;
  bc_number : orig_rax r = SYS_bind;
  bc_length : rdx r = 16;
  bc_rip : is_u 64 (rip r);
  bc_insn : mem_bytes w pid (u64 (rip r - 2)) 2 = Some syscall_insn;
  bc_apart : u64 (rip r - 2) + 2 <= rsi r ∨ rsi r + 16 <= u64 (rip r - 2);
  bc_buffer : is_Some (mem_bytes w pid (rsi r) 16);
}.

Lemma bind_call_searched w w' pid r r' :
  bind_call w pid r → searched w w' pid (rsi r) → is_Some (mem_bytes w' pid (rsi r) 16) →
  ptrace_getregs w' pid = Some r' → same_call r r' → bind_call w' pid r'.
Proof.
  intros [B1 B2 B3 B4 B5 B6 B7] [S _ _ _] Hm Hr (o & v & ->). split; try done.
  cbn [rip set_regs_other set_rax]. rewrite <- B5. apply mem_bytes_ext. intros i Hi. apply S. lia.
Qed.

Lemma loop_unfold fuel pid temp port r0 r s :
  inet_address temp → same_call r0 r →
  find_port_loop fuel pid temp port r0 s =
  (ptrace_poke pid (rsi r) (probe temp port) (u64 (rdx r)) ;; ptrace_resume_process pid ;;
   wait_ignored pid ;; let! reg := getregs pid in
   if rax reg =? 0 then ret (port, reg) else
   match fuel with
   | O => fail Out_of_fuel
   | S fuel =>
     ptrace_rewind_syscalls pid ;; ptrace_resume_process pid ;; wait_ignored pid ;;
     find_port_loop fuel pid (probe temp port) (u16 (port - 1)) reg
   end) s.
Proof.
  intros (Hl & _) (o & v & ->). unfold probe. destruct fuel; cbn [find_port_loop];
    rewrite drop_ge by lia; rewrite app_nil_r; reflexivity.
Qed.

(** A port that is refused: the tracee comes back to the entry of the call. *)
Lemma next_port s pid temp port r0 r fuel :
  inet_address temp → is_u 16 port → same_call r0 r →
  at_entry (st_w s) pid = true → bind_call (st_w s) pid r → refuses (st_w s) pid r port = true →
  ∃ c w r1 r2, same_call r r2 ∧ same_call r1 r2 ∧ at_entry w pid = true ∧ bind_call w pid r2 ∧
    searched (st_w s) w pid (rsi r) ∧ (∀ q, refuses w pid r2 q = refuses (st_w s) pid r q) ∧
    find_port_loop (S fuel) pid temp port r0 s =
    find_port_loop fuel pid (probe temp port) (u16 (port - 1)) r1 (set_cnt c (set_w w s)).
Proof.
  intros Hl Hp C0 He Hc Ht.
  destruct (try_port s pid temp port r Hl Hp He (bc_regs _ _ _ Hc) (bc_number _ _ _ Hc) (bc_length _ _ _ Hc)
    (bc_buffer _ _ _ Hc)) as (c1 & w1 & r1 & C1 & V1 & H1 & G1 & E1 & M1 & F1 & T1).
  specialize (T1 Ht). rewrite Ht in V1. set (s1 := set_cnt c1 (set_w w1 s)) in H1.
  pose proof (bind_call_searched _ _ _ _ _ Hc F1 M1 G1 C1) as Hc1.
  destruct (run_again s1 pid r1 E1 G1 (bc_rip _ _ _ Hc1) (bc_insn _ _ _ Hc1))
    as (c2 & w2 & r2 & C2 & H2 & G2 & E2 & F2 & T2).
  assert (searched w1 w2 pid (rsi r1)) as F2' by by apply moved_searched.
  assert (is_Some (mem_bytes w2 pid (rsi r1) 16)) as M2.
  { rewrite (mem_bytes_ext w1) by (intros; apply F2). apply (bc_buffer _ _ _ Hc1). }
  exists c2, w2, r1, r2. split; [by apply (same_call_trans _ r1)|]. split; [done|]. split; [done|].
  split; [exact (bind_call_searched _ _ _ _ _ Hc1 F2' M2 G2 C2)|].
  split; [|split; [intros q; apply refuses_same; [by apply (same_ports_trans _ w1)|by apply (same_call_trans _ r1)]|]].
  - apply (searched_trans _ w1); [done|]. by destruct C1 as (o & v & ->).
  - rewrite (loop_unfold _ _ _ _ _ r) by done. rewrite H1, V1. cbn [negb]. exact (H2 _ _).
Qed.

(** The first free port below [port], [n] ports further down. *)
Lemma find_port_loop_eval n : ∀ fuel pid temp port r0 r s,
  inet_address temp → is_u 16 port → same_call r0 r →
  at_entry (st_w s) pid = true → bind_call (st_w s) pid r → (n <= fuel)%nat →
  (∀ i, (i < n)%nat → refuses (st_w s) pid r (u16 (port - Z.of_nat i)) = true) →
  refuses (st_w s) pid r (u16 (port - Z.of_nat n)) = false →
  ∃ c w r', find_port_loop fuel pid temp port r0 s = Done (u16 (port - Z.of_nat n), r') (set_cnt c (set_w w s)) ∧
    same_call r r' ∧ rax r' = 0 ∧ at_entry w pid = false ∧ bind_call w pid r' ∧
    searched (st_w s) w pid (rsi r).
Proof.
  induction n as [|n IH]; intros fuel pid temp port r0 r s Hl Hp C0 He Hc Hn Ht Hf.
  - rewrite Z.sub_0_r, uwrap_small in Hf |- * by done.
    destruct (try_port s pid temp port r Hl Hp He (bc_regs _ _ _ Hc) (bc_number _ _ _ Hc) (bc_length _ _ _ Hc)
      (bc_buffer _ _ _ Hc)) as (c1 & w1 & r1 & C1 & V1 & H1 & G1 & E1 & M1 & F1 & _).
    rewrite Hf in V1. exists c1, w1, r1. rewrite (loop_unfold _ _ _ _ _ r) by done. rewrite H1, V1.
    split; [done|]. split; [done|]. split; [by apply Z.eqb_eq|]. split; [done|]. split; [|done].
    exact (bind_call_searched _ _ _ _ _ Hc F1 M1 G1 C1).
  - destruct fuel as [|fuel]; [lia|].
    assert (refuses (st_w s) pid r port = true) as Ht0.
    { specialize (Ht 0%nat ltac:(lia)). by rewrite Z.sub_0_r, uwrap_small in Ht. }
    destruct (next_port s pid temp port r0 r fuel Hl Hp C0 He Hc Ht0)
      as (c1 & w1 & r1 & r2 & C1 & C2 & E1 & Hc2 & F1 & T1 & ->).
    destruct (probe_ok temp port Hl Hp) as (Pl & _).
    assert (∀ i, u16 (u16 (port - 1) - Z.of_nat i) = u16 (port - Z.of_nat (S i))) as Eq.
    { intros i. unfold uwrap. rewrite Zminus_mod_idemp_l. f_equal. lia. }
    destruct (IH fuel pid (probe temp port) (u16 (port - 1)) r1 r2 (set_cnt c1 (set_w w1 s)))
      as (c & w & r' & H & C & R); [done|apply uwrap_range; lia|done|done|done|lia| | |].
    + intros i Hi. rewrite Eq. cbn [st_w set_cnt set_w]. rewrite T1. apply Ht. lia.
    + rewrite Eq. cbn [st_w set_cnt set_w]. by rewrite T1.
    + rewrite Eq in H. exists c, w, r'. split; [exact H|]. destruct R as (R1 & R2 & R3 & R4).
      split; [by apply (same_call_trans _ r2)|]. split; [done|]. split; [done|]. split; [done|].
      apply (searched_trans _ w1); [done|]. by destruct C1 as (o & v & ->).
Qed.

(** When every port is refused the search has no end. *)
Lemma find_port_stuck fuel : ∀ pid temp port r0 r s,
  inet_address temp → is_u 16 port → same_call r0 r →
  at_entry (st_w s) pid = true → bind_call (st_w s) pid r →
  (∀ q, is_u 16 q → refuses (st_w s) pid r q = true) →
  ∃ s', find_port_loop fuel pid temp port r0 s = Failed Out_of_fuel s'.
Proof.
  induction fuel as [|fuel IH]; intros pid temp port r0 r s Hl Hp C0 He Hc Ht.
  - destruct (try_port s pid temp port r Hl Hp He (bc_regs _ _ _ Hc) (bc_number _ _ _ Hc) (bc_length _ _ _ Hc)
      (bc_buffer _ _ _ Hc)) as (c1 & w1 & r1 & C1 & V1 & H1 & _).
    rewrite Ht in V1 by done. rewrite (loop_unfold _ _ _ _ _ r) by done. rewrite H1, V1. by eexists.
  - destruct (next_port s pid temp port r0 r fuel Hl Hp C0 He Hc (Ht port Hp))
      as (c1 & w1 & r1 & r2 & C1 & C2 & E1 & Hc2 & F1 & T1 & ->).
    destruct (probe_ok temp port Hl Hp) as (Pl & _).
    apply (IH _ _ _ _ r2); try done; [apply uwrap_range; lia|]. intros q Hq. st_cbn. rewrite T1. by apply Ht.
Qed.

End FreePort.

(** The first place where a test fails. *)
Lemma first_false (f : nat → bool) n : f n = false → ∃ m, (m <= n)%nat ∧ f m = false ∧ ∀ i, (i < m)%nat → f i = true.
Proof.
  revert f. induction n as [|n IH]; intros f Hn.
  - exists 0%nat. split; [lia|]. split; [done|]. intros i Hi. lia.
  - destruct (f 0%nat) eqn:E.
    + destruct (IH (λ i, f (S i)) Hn) as (m & Hm & Hf & Hi). exists (S m). split; [lia|]. split; [done|].
      intros [|i] H; [done|]. apply Hi. lia.
    + exists 0%nat. split; [lia|]. split; [done|]. intros i Hi. lia.
Qed.

(** The first free port below the last one, when there is a free port. *)
Lemma first_free (f : Z → bool) last :
  (∃ q, is_u 16 q ∧ f q = false) →
  ∃ n, Z.of_nat n < 65536 ∧ f (u16 (last - 1 - Z.of_nat n)) = false ∧
    ∀ i, (i < n)%nat → f (u16 (last - 1 - Z.of_nat i)) = true.
Proof.
  intros (q & Hq & Hf). pose proof (Z.mod_pos_bound (last - 1 - q) 65536 ltac:(lia)).
  destruct (first_false (λ i, f (u16 (last - 1 - Z.of_nat i))) (Z.to_nat ((last - 1 - q) mod 65536)))
    as (n & Hn & R); [|exists n; split; [lia|done]].
  rewrite Z2Nat.id by lia. unfold uwrap. change (2 ^ 16) with 65536.
  rewrite Zminus_mod_idemp_r. replace (last - 1 - (last - 1 - q)) with q by lia.
  by rewrite Z.mod_small by exact Hq.
Qed.

Section FreePortProperties.
Context `{X : Xbt} `{Wd : World} `{!XbtLaws X} `{!TraceLaws Wd} `{!KernelLaws Wd}.
Context (bindable : W → Z → Z → bool) (taken : W → Z → bool) `{!BindLaws Wd bindable taken}.

(** Up to the loop only the counters change. *)
Lemma find_start fuel s pid last r b :
  ptrace_getregs (st_w s) pid = Some r → rdx r = 16 → mem_bytes (st_w s) pid (rsi r) 16 = Some b →
  ∃ c, ptrace_find_free_binding_port fuel pid last s =
    (let! x := find_port_loop fuel pid b (u16 (last - 1)) r in
     ptrace_poke pid (rsi x.2) b (u64 (rdx x.2)) ;; ret x.1) (set_cnt c s).
Proof.
  intros Hr Hd Hb. destruct (getregs_eval s pid r Hr) as [c1 H1].
  destruct (getregs_eval (set_cnt c1 s) pid r Hr) as [c2 H2].
  destruct (ptrace_cpy_eval (set_cnt c2 (set_cnt c1 s)) pid (rsi r) 16 b ltac:(lia) Hb) as [c3 H3].
  exists c3. unfold ptrace_find_free_binding_port. eval_with H1. eval_with H2. rewrite Hd.
  change (u64 16) with 16. eval_with H3. by rewrite (mem_bytes_length _ _ _ _ _ Hb).
Qed.

(** Whatever was written in the address, it is put back. *)
Lemma put_back s pid a b w :
  searched (st_w s) w pid a → mem_bytes (st_w s) pid a 16 = Some b → is_Some (mem_bytes w pid a 16) →
  ∀ s', st_w s' = w → ∃ c w', ptrace_poke pid a b 16 s' = Done tt (set_cnt c (set_w w' s')) ∧
    (∀ p, ptrace_getregs w' p = ptrace_getregs w p) ∧ (∀ p, at_entry w' p = at_entry w p) ∧
    ∀ p x, mem_byte w' p x = mem_byte (st_w s) p x.
Proof.
  intros [S1 S2 _ _] Hb Hm s' <-. pose proof (mem_bytes_range _ _ _ _ _ Hb) as Rb.
  pose proof (mem_bytes_length _ _ _ _ _ Hb) as Lb.
  destruct (poke_sockaddr s' pid a (sai_decode b)) as (c & w' & H & M & P1 & P2 & G & E);
    [by apply (sai_decode_fields b Lb Rb)|by apply Forall_take, Forall_drop|done|].
  rewrite sai_encode_decode in H, M by done. exists c, w'. split; [done|]. split; [done|]. split; [done|].
  intros p x. destruct (decide (p = pid)) as [-> |Hp]; [|by rewrite P2, S2].
  destruct (decide (a <= x < a + 16)) as [Ha|Ha]; [|by rewrite P1, S1].
  replace x with (a + Z.of_nat (Z.to_nat (x - a))) by lia.
  rewrite <- (mem_bytes_lookup _ _ _ _ _ _ M), <- (mem_bytes_lookup _ _ _ _ _ _ Hb) by lia. done.
Qed.

(** C32: [ptrace_find_free_binding_port] finds a port and leaves no trace. From the entry of
    bind(2) on an IPv4 address, when the descriptor is an IPv4 socket that is not bound yet and some port of the
    machine is free, the loop ends after at most 65536 calls, all of them run by the tracee:
    it returns the first free port below the one of the last search, going round after 0.
    The tracee is then at the exit of a bind that succeeded, its other registers are those
    of the entry and the memory of every process is what it was. When no port is free, and
    also when the descriptor cannot be bound (it is not a socket, or one that is bound
    already), though ports are free, the loop never ends. *)
Theorem free_port_found fuel s pid last r b :
  at_entry (st_w s) pid = true → bind_call (st_w s) pid r →
  mem_bytes (st_w s) pid (rsi r) 16 = Some b → sin_family (sai_decode b) = AF_INET →
  (bindable (st_w s) pid (s32 (rdi r)) = true →
   (∃ q, is_u 16 q ∧ taken (st_w s) q = false) → 65535 <= Z.of_nat fuel →
   ∃ n s', let port := u16 (last - 1 - Z.of_nat n) in
     ptrace_find_free_binding_port fuel pid last s = Done port s' ∧ taken (st_w s) port = false ∧
     (∀ i, (i < n)%nat → taken (st_w s) (u16 (last - 1 - Z.of_nat i)) = true) ∧
     at_entry (st_w s') pid = false ∧
     (∃ r', ptrace_getregs (st_w s') pid = Some r' ∧ same_call r r' ∧ rax r' = 0) ∧
     ∀ p a, mem_byte (st_w s') p a = mem_byte (st_w s) p a) ∧
  (bindable (st_w s) pid (s32 (rdi r)) = false ∨ (∀ q, is_u 16 q → taken (st_w s) q = true) →
   ∃ s', ptrace_find_free_binding_port fuel pid last s = Failed Out_of_fuel s').
Proof.
  intros He Hc Hb Hfam. pose proof (mem_bytes_range _ _ _ _ _ Hb) as Rb. pose proof (mem_bytes_length _ _ _ _ _ Hb) as Lb.
  assert (inet_address b) as Ib by by split.
  destruct (find_start fuel s pid last r b (bc_regs _ _ _ Hc) (bc_length _ _ _ Hc) Hb) as [c3 ->].
  assert (is_u 16 (u16 (last - 1))) as Hu by (apply uwrap_range; lia). split.
  - intros Hbi Hfree Hfuel. destruct (first_free _ last Hfree) as (n & Hn & Hfn & Hi).
    assert (∀ i, u16 (u16 (last - 1) - i) = u16 (last - 1 - i)) as Eq.
    { intros i. unfold uwrap. by rewrite Zminus_mod_idemp_l. }
    assert (∀ q, refuses bindable taken (st_w s) pid r q = taken (st_w s) q) as Er.
    { intros q. unfold refuses, refused. by rewrite Hbi. }
    destruct (find_port_loop_eval bindable taken n fuel pid b (u16 (last - 1)) r r (set_cnt c3 s))
      as (c4 & w4 & r4 & H4 & C4 & V4 & E4 & B4 & F4); [done|done|apply same_call_refl|done|done|lia| | |].
    { intros i Hlt. rewrite Eq, Er. by apply Hi. } { by rewrite Eq, Er. }
    rewrite Eq in H4. assert (rsi r4 = rsi r) as Ea by (destruct C4 as (o & v & ->); done).
    pose proof (bc_buffer _ _ _ B4) as M4. rewrite Ea in M4.
    destruct (put_back s pid (rsi r) b w4 F4 Hb M4 (set_cnt c4 (set_w w4 (set_cnt c3 s))) eq_refl)
      as (c5 & w5 & H5 & G5 & E5 & M5).
    exists n, (set_cnt c5 (set_w w5 (set_cnt c4 (set_w w4 (set_cnt c3 s))))). split; [|split; [done|split; [done|]]].
    { eval_with H4. cbn [fst snd]. rewrite Ea, (bc_length _ _ _ B4). change (u64 16) with 16. eval_with H5. done. }
    split; [cbn; by rewrite E5|]. split; [|exact M5].
    exists r4. split; [cbn; rewrite G5; apply (bc_regs _ _ _ B4)|done].
  - intros Ht. destruct (find_port_stuck bindable taken fuel pid b (u16 (last - 1)) r r (set_cnt c3 s)) as [s' Hs'];
      [done|done|apply same_call_refl|done|done| |exists s'; by apply bind_failed].
    intros q Hq. unfold refuses, refused. st_cbn. destruct Ht as [-> |Ht]; [done|]. rewrite (Ht q Hq). by destruct (bindable _ _ _).
Qed.

End FreePortProperties.

(** Process 7 at the entry of a bind of the address at 5000; the instruction is at 4096. *)
Definition bind_regs : user_regs :=
  {| orig_rax := SYS_bind; rax := u64 (- ENOSYS); rdi := 3; rsi := 5000; rdx := 16; r10 := 0; r8 := 0; r9 := 0;
     rip := 4098; regs_other := [] |}.
Definition bind_example : st :=
  ref_state (toy_world bind_regs (λ a, if a =? 4096 then 0x0f else if a =? 4097 then 0x05
    else if a =? 5000 then AF_INET else 0)).

Lemma free_port_found_witness :
  ∃ n s', let port := u16 (0 - 1 - Z.of_nat n) in
    ptrace_find_free_binding_port port_fuel 7 0 bind_example = Done port s' ∧ (65533 <? port) = false ∧
    (∀ i, (i < n)%nat → (65533 <? u16 (0 - 1 - Z.of_nat i)) = true) ∧
    at_entry (st_w s') 7 = false ∧
    (∃ r', ptrace_getregs (st_w s') 7 = Some r' ∧ same_call bind_regs r' ∧ rax r' = 0) ∧
    ∀ p a, mem_byte (st_w s') p a = mem_byte (st_w bind_example) p a.
Proof.
  refine (proj1 (free_port_found (λ _ _ fd, fd =? 3) (λ _ q, 65533 <? q) port_fuel bind_example 7 0 bind_regs
    (AF_INET :: replicate 15 0) _ _ _ _) _ _ _).
  - reflexivity.
  - split; [reflexivity|reflexivity|reflexivity|by vm_compute|vm_compute; reflexivity| |vm_compute; by eexists].
    left. by vm_compute.
  - vm_compute. reflexivity.
  - by vm_compute.
  - by vm_compute.
  - exists 80. split; [split; lia|reflexivity].
  - unfold port_fuel. lia.
Defined.
