(* ===== verification/Handshake.v ===== *)
(** A connection from end to end: [accept] in one process and [connect] in another, from
    the entries of the two calls to their exits, with the four switches between them. *)
From S2P Require Import Prelude Libc External State Monad Frames Reference DataUtils.
From S2P Require Import ProcessDescriptor PtraceUtils Sockets Print Communication.
From S2P Require Import SocketOps SysFiles SysNet SysData SysProc Dispatch Mediation Handlers.
From S2P Require Import Messages Connecting Accepting.
Open Scope sim_scope.

Section Turn.
Context `{X : Xbt} `{Wd : World} `{!XbtLaws X} `{!TraceLaws Wd} `{!StopLaws Wd} `{!TaskLaws Wd}.

(** What [ptrace_get_register] reads. *)
Definition regs_of (r : user_regs) : reg_s :=
  mk_reg (orig_rax r) (rax r) [rdi r; rsi r; rdx r; r10 r; r8 r; r9 r].

Lemma fetch_registers_eval s pid r :
  ptrace_getregs (st_w s) pid = Some r → ∃ c, ptrace_get_register pid s = Done (regs_of r) (set_cnt c s).
Proof.
  intros H. destruct (getregs_eval s pid r H) as [c Hc]. exists c. unfold ptrace_get_register. by eval_with Hc.
Qed.

(** One turn of the loop of [process_handle]. [syscall_connect] calls [process_handle] when
    it was woken: this is what the nested loop does up to the point where it resumes the
    tracee for the first time. *)
Definition turn (self : msg_self) (fuel : nat) (handle : Z → M Z) (proc : Z) : M Z :=
  let! p := get_proc proc in
  let! reg := ptrace_get_register (pd_pid p) in
  let! r := dispatch self fuel handle reg proc in
  ret (default PROCESS_CONTINUE r).

Lemma dispatch_connect self fuel handle reg proc :
  reg_orig reg = SYS_connect →
  dispatch self fuel handle reg proc = continue (syscall_connect self handle reg proc).
Proof. intros E. unfold dispatch. by rewrite E. Qed.

(** The exit of [connect]: the client leaves the call and wakes the server again. *)
Lemma connect_leaves self fuel handle s proc p r k ik tr b :
  st_proc s !! proc = Some (set_in_syscall 1 p) → in_syscall p = 0 →
  ptrace_getregs (st_w s) (pd_pid p) = Some (set_rax 0 (set_orig_rax SYS_connect r)) →
  socket_at s proc (s32 (rdi r)) k ik → is_domain ik = 2 →
  mem_bytes (st_w s) (pd_pid p) (rsi r) 16 = Some b →
  st_stream s !! fd_stream (is_fd ik) = Some tr → strace_option s = 0 →
  ∃ c v, is_s 32 v ∧ turn self fuel handle proc s = Done PROCESS_CONTINUE
    (set_fd (<[k := FdSock (set_is_fd (set_fd_refcount v (is_fd ik)) ik)]> (st_fd s))
      (set_w (MSG_sem_release (st_w s) (sem_server tr)) (set_proc (<[proc := p]> (st_proc s)) (set_cnt c s)))).
Proof.
  intros Hp Hi Hr Hs Hd Hm Htr Hq. set (r1 := set_rax 0 (set_orig_rax SYS_connect r)) in Hr.
  destruct (fetch_registers_eval s (pd_pid p) r1 Hr) as [c1 H1]. set (s1 := set_cnt c1 s) in H1.
  set (s2 := set_proc (<[proc := p]> (st_proc s1)) s1).
  assert (socket_at s2 proc (s32 (rdi r)) k ik) as Hs2.
  { apply (socket_at_proc s1 _ _ _ _ (set_in_syscall 1 p)); [|done|done]. destruct Hs; by split. }
  destruct (ptrace_cpy_eval s2 (pd_pid p) (rsi r) 16 b) as [c3 H3]; [lia|exact Hm|]. set (s3 := set_cnt c3 s2) in H3.
  set (up := s32 (fd_refcount (is_fd ik) + 1)).
  set (s4 := set_fd (<[k := FdSock (set_is_fd (set_fd_refcount up (is_fd ik)) ik)]> (st_fd s3)) s3).
  set (s5 := set_w (MSG_sem_release (st_w s) (sem_server tr)) s4).
  exists c3, (s32 (up + -1)). split; [by apply swrap_range|]. unfold turn. eapply bind_eval; [apply load_eval; exact Hp|]. cbv beta.
  change (pd_pid (set_in_syscall 1 p)) with (pd_pid p). eval_with H1. rewrite dispatch_connect by done.
  assert (syscall_connect self handle (regs_of r1) proc s1 = Done tt
    (set_fd (<[k := FdSock (set_is_fd (set_fd_refcount (s32 (up + -1)) (is_fd ik)) ik)]> (st_fd s5)) s5)) as E.
  { unfold syscall_connect. eval_with (entering_eval s1 proc _ Hp). unfold syscall_connect_post, proc_outside.
    eapply bind_eval; [exact (upd_proc_eval s1 proc _ _ Hp)|]. cbv beta. rewrite enter_leave by done. fold s2.
    eapply bind_eval; [apply load_eval, lookup_insert_eq|]. cbv zeta. cbn [arg regs_of reg_arg nth].
    rewrite !arg_clear. eval_with (socket_attr_at s2 _ _ _ _ _ _ Hs2). rewrite Hd.
    eapply (bind_eval _ _ _ (Some (sai_decode b))); [unfold cpy_sockaddr; by eval_with H3|].
    eapply bind_eval; [by apply if_strace_quiet|]. cbv beta. destruct (sa_proc _ _ _ _ _ Hs2) as (x & Hx & Ex).
    eapply (bind_eval _ _ _ k); [unfold process_descriptor_get_fd; ev; by rewrite <- Ex|].
    eapply bind_eval; [apply (upd_fd_eval s3), (sa_fd _ _ _ _ _ Hs2)|]. cbv beta.
    eapply bind_eval; [apply get_fd_eval, lookup_insert_eq|]. cbv beta.
    eapply bind_eval; [apply load_eval; exact Htr|]. cbv beta. ev.
    change (set_w _ _) with s5. exact (upd_fd_eval s5 k _ _ (lookup_insert_eq _ _ _)). }
  eapply bind_eval; [unfold continue; eval_with E; done|]. cbv beta. unfold ret. f_equal.
  unfold s5, s4, s3, s2, s1. st_cbn. by rewrite insert_insert_eq.
Qed.

End Turn.

Section Handshake.
Context `{X : Xbt} `{Wd : World} `{!XbtLaws X} `{!TraceLaws Wd} `{!StopLaws Wd} `{!TaskLaws Wd} `{!KernelLaws Wd}.

(** The server at the entry of [accept] with the listening socket [l], the client at the
    entry of [connect] with the socket [k]. *)
Context (s : st) (self : msg_self) (ps pid l nf : Z) (p : process_descriptor) (r : user_regs).
Context (il : infos_socket) (c : comm) (h : msg_host).
Context (self' : msg_self) (pc pid' k q0 : Z) (p' : process_descriptor) (r' : user_regs).
Context (ik : infos_socket) (h' t : msg_host) (b : list Z).

(** The client asks for the port on which the server listens, with nobody waiting; the
    kernel gives the server the descriptor [nf], which is free. *)
Record ready : Prop := {
  re_server : at_call s ps pid p r;
  re_host : pd_host p = Some h;
  re_table : is_Some (host_of s (MSG_host_get_name h));
  re_listen : socket_at s ps (s32 (rdi r)) l il;
  re_inet : is_domain il = 2;
  re_comm : in_comm s l il c;
  re_nobody : dynar_model (conn_wait c) = [];
  re_known : address_known s il;
  re_owner : fd_proc (is_fd il) ≠ NULL;
  re_addr : is_Some (mem_bytes (st_w s) pid (rsi r) 16);
  re_len : is_Some (mem_bytes (st_w s) pid (rdx r) 8);
  re_rip : is_u 64 (rip r);
  re_insn : mem_bytes (st_w s) pid (u64 (rip r - 2)) 2 = Some syscall_insn;
  re_kernel : socket_gives (st_w s) pid r nf;
  re_new : 0 <= s32 nf;
  re_free : fd_entry p (s32 nf) = NULL;
  re_client : at_call s pc pid' p' r';
  re_host' : pd_host p' = Some h';
  re_table' : is_Some (host_of s (MSG_host_get_name h'));
  re_sock : socket_at s pc (s32 (rdi r')) k ik;
  re_inet' : is_domain ik = 2;
  re_block : has_flag (is_flags ik) O_NONBLOCK = false;
  re_asked : mem_bytes (st_w s) pid' (rsi r') 16 = Some b;
  re_target : target s h' (sin_addr (sai_decode b)) t;
  re_port : ∃ d, port_of s (MSG_host_get_name t) (ntohs (sin_port (sai_decode b))) = Some d ∧
    has_flag (port_option d) PORT_BIND = true ∧
    has_flag (device_of (sin_addr (sai_decode b))) (port_option d) = true ∧ bind_socket d = l;
  re_range : is_u 16 q0;
  re_unused : port_of s (MSG_host_get_name h') q0 = None;
  re_procs : ps ≠ pc;
  re_pids : pid ≠ pid';
  re_other : k ≠ l;
  re_heap : heap_ok s;
}.

(** The stream of the two: the mailbox of each is its host. *)
Definition shared_stream (semc sems : msg_sem) : stream :=
  mk_stream semc sems (Some (self_process self')) (Some (self_process self))
    (MSG_host_get_name (self_host self')) (MSG_host_get_name (self_host self)).

Hypothesis Hre : ready.

Lemma ready_can_connect semc sems cn w :
  tracees_alike (st_w s) w → let s1 := accepting self ps l s p il semc sems cn w in
  at_call s1 pc pid' p' r' ∧
  can_connect s1 pc pid' (regs_of r') h' t k l ik (accepting_sock (st_next s) il) c
    (accepting_stream self semc sems) b q0.
Proof.
  intros (Wr & We & Wm) s1. destruct Hre. split.
  - destruct re_client0. split; unfold s1, accepting; st_cbn; try done.
    + unfold enter. st_cbn. by rewrite lookup_insert_ne.
    + by rewrite We.
    + by rewrite Wr.
  - split; try done.
    + destruct re_sock0 as [(x & Hx & Ex) Hz Hf Ht]. split; [|done| |done].
      * exists x. unfold s1, accepting, enter. st_cbn. by rewrite lookup_insert_ne.
      * unfold s1, accepting. st_cbn. by rewrite lookup_insert_ne.
    + unfold s1, accepting. st_cbn. rewrite (mem_bytes_ext (st_w s)); [done|]. intros; apply Wm.
    + by apply (target_frame s).
    + split; [exact re_port0|by destruct re_listen0|apply lookup_insert_eq|by destruct re_comm0 as (_ & _ & ?)| |done|].
      * destruct re_known0 as [Hk|(x & hx & Hx & Hh & Hd)]; [by left|right].
        destruct (enter_host s ps p _ x (ac_proc _ _ _ _ _ re_server0) Hx) as (y & Hy & Ey).
        exists y, hx. split; [exact Hy|]. by rewrite Ey.
      * apply lookup_insert_eq.
    + destruct re_heap0. split; unfold s1, accepting; st_cbn; try (eapply bounded_weaken; [done|lia]); [lia| | |].
      * eapply bounded_weaken; [|apply Z.le_succ_diag_r]. by eapply enter_bounded; [apply re_server0|].
      * apply bounded_insert; [eapply bounded_weaken; [done|lia]|]. destruct re_listen0.
        assert (0 < l < st_next s) by (apply ho_fd; by eexists). lia.
      * apply bounded_insert; [eapply bounded_weaken; [done|lia]|lia].
Qed.

(** The state in which both sleep and the server has been woken. *)
Lemma asked_server semc sems cn w s1' ip q :
  tracees_alike (st_w s) w →
  let s1 := accepting self ps l s p il semc sems cn w in let n := st_next s + 1 in
  let il1 := accepting_sock (st_next s) il in
  requested s1 s1' h' k n l q ik il1 c →
  st_fd s1' !! k = Some (FdSock (asked n ip q ik)) → st_proc s1' = st_proc (enter pc p' s1) →
  replaced w (st_w s1') pid' (set_rax 0 (set_orig_rax SYS_connect r')) →
  (∀ x, x ≠ pid' → at_entry (st_w s1') x = at_entry w x) →
  let s2 := asleep self' s1' k (st_next s) (asked n ip q ik) (accepting_stream self semc sems) in
  woken (regs_of r) ps pid l s2 p r h (ref_up il1) (shared_stream semc sems) ∧
  ∃ cm, request_waits l s2 k n (n + 1) (n + 2) (ref_up il1)
    (set_is_fd (set_fd_stream (st_next s) (is_fd ik)) (asked n ip q ik))
    (set_conn_wait (xbt_dynar_push (conn_wait c) n) c) cm.
Proof.
  intros (Wr & We & Wm) s1 n il1 Hreq Hk Hp (Hr & He & Ho & Hm) Hen s2.
  pose proof (re_procs Hre) as Hpr. pose proof (re_pids Hre) as Hpi. pose proof (re_other Hre) as Hkl.
  destruct (re_server Hre) as [Sp Spid Sout Sent Sregs Sq]. destruct (re_listen Hre) as [(x & Hx & Ex) Hz Hf Ht].
  destruct (re_comm Hre) as (Hc1 & Hc2 & Hc3). destruct (re_heap Hre) as [H0 _ Hbf Hbc _ _ _].
  assert (st_fd s2 !! l = Some (FdSock (ref_up il1))) as Hl2.
  { unfold s2, asleep. st_cbn. rewrite lookup_insert_ne by done. by destruct Hreq. }
  assert (st_proc s2 !! ps = Some (set_in_syscall 1 p)) as Hp2.
  { unfold s2, asleep. st_cbn. rewrite Hp. unfold enter, s1, accepting. st_cbn.
    rewrite lookup_insert_ne by done. unfold enter. st_cbn. apply lookup_insert_eq. }
  assert (∀ y a, mem_byte (st_w s2) y a = mem_byte (st_w s) y a) as Mem.
  { intros. unfold s2, asleep. st_cbn. by rewrite sem_release_mem, Hm, Wm. }
  split.
  - split; try (by apply Hre); try done.
    + unfold s2, asleep. change (is_Some (host_of s1' (MSG_host_get_name h))). by apply (rq_hosts _ _ _ _ _ _ _ _ _ _ Hreq), Hre.
    + split; [|done|done|done]. exists (set_in_syscall 1 p). split; [done|].
      rewrite Sp in Hx. by injection Hx as <-.
    + apply lookup_insert_eq.
    + unfold s2, asleep. st_cbn. by rewrite sem_release_stop, Hen, We.
    + unfold s2, asleep. st_cbn. by rewrite sem_release_regs, Ho, Wr.
    + rewrite (mem_bytes_ext (st_w s)); [by apply Hre|]. intros; apply Mem.
    + rewrite (mem_bytes_ext (st_w s)); [by apply Hre|]. intros; apply Mem.
    + unfold s2, asleep. st_cbn. by rewrite (rq_quiet _ _ _ _ _ _ _ _ _ _ Hreq).
  - assert (is_comm il < st_next s) by (apply Hbc; by eexists). assert (k < st_next s) by (apply Hbf;
      destruct (re_sock Hre); by eexists). assert (l < st_next s) by (apply Hbf; by eexists).
    destruct (rq_comm _ _ _ _ _ _ _ _ _ _ Hreq) as [ipn Hn]. eexists.
    split; [|cbn [conn_wait set_conn_wait]; by rewrite dynar_push_model, (re_nobody Hre)| | |exact Hn|done|done|done|lia| | | | |done| |done].
    + split; [done|]. split; [exact Hc2|]. apply (rq_wait _ _ _ _ _ _ _ _ _ _ Hreq).
    + change (n ≠ is_comm il). lia.
    + unfold NULL. lia.
    + unfold s2, asleep. st_cbn. rewrite (rq_recv _ _ _ _ _ _ _ _ _ _ Hreq).
      rewrite lookup_insert_ne by lia. apply lookup_insert_eq.
    + unfold s2, asleep. st_cbn. rewrite (rq_recv _ _ _ _ _ _ _ _ _ _ Hreq). apply lookup_insert_eq.
    + apply lookup_insert_eq.
    + done.
    + unfold s2, asleep. st_cbn. rewrite (rq_next _ _ _ _ _ _ _ _ _ _ Hreq). unfold NULL. lia.
Qed.

(** A socket of the Internet, of the given type and owned by the given process. *)
Definition inet_sock (i : infos_socket) (type owner : Z) : Prop :=
  fd_type (is_fd i) = FD_SOCKET ∧ is_domain i = 2 ∧ is_type i = type ∧ fd_proc (is_fd i) = owner.

(** The connection. Both tracees are at the exits of their calls, which the kernel did
    not run, with the results 0 and [nf]; the server reads the address of the client
    where it asked for it, and nothing else changed in the tracees. Both processes are
    outside a call; [nf] stands for the new socket [n], which with [k] is one end of a
    communication on which nothing was received; the two share a stream. *)
Record connected (s' : st) (n : Z) : Prop := {
  co_client : ptrace_getregs (st_w s') pid' = Some (set_rax 0 (set_orig_rax SYS_connect r'));
  co_server : ∃ o, ptrace_getregs (st_w s') pid =
    Some (set_regs_other o (set_rax (u64 (s32 nf)) (set_orig_rax SYS_accept r)));
  co_exits : at_entry (st_w s') pid = false ∧ at_entry (st_w s') pid' = false;
  co_ends : ∃ i j semc sems, st_fd s' !! k = Some (FdSock i) ∧ st_fd s' !! n = Some (FdSock j) ∧
    mem_bytes (st_w s') pid (rsi r) 16 = Some (sai_encode (socket_sockaddr i)) ∧
    st_stream s' !! fd_stream (is_fd i) = Some (shared_stream semc sems) ∧
    fd_stream (is_fd j) = fd_stream (is_fd i) ∧
    inet_sock i (is_type ik) (fd_proc (is_fd ik)) ∧ inet_sock j (is_type il) ps ∧
    is_s 32 (fd_refcount (is_fd i)) ∧ is_s 32 (fd_refcount (is_fd j));
  co_mem : ∀ x a, x ≠ pid ∨ ¬ (rsi r <= a < rsi r + 16) → mem_byte (st_w s') x a = mem_byte (st_w s) x a;
  co_procs : ∃ p2, st_proc s' = <[ps := p2]> (st_proc s) ∧ entry_set p p2 (s32 nf) n;
  co_null : n ≠ NULL;
  co_quiet : strace_option s' = 0;
  co_linked : linked s' k n;
  co_queues : queue s' k [] ∧ queue s' n [];
  co_open : ∃ j c, in_comm s' n j c ∧ comm_state c = COMM_OPEN;
}.

(** The client and the tracees while both sleep: the socket of the client is [i]. *)
Record client_asleep (s2 : st) (i : infos_socket) (str : stream) : Prop := {
  ca_procs : st_proc s2 = <[pc := set_in_syscall 1 p']> (<[ps := set_in_syscall 1 p]> (st_proc s));
  ca_regs : ptrace_getregs (st_w s2) pid' = Some (set_rax 0 (set_orig_rax SYS_connect r'));
  ca_exit : at_entry (st_w s2) pid' = false;
  ca_mem : ∀ x a, mem_byte (st_w s2) x a = mem_byte (st_w s) x a;
  ca_sock : st_fd s2 !! k = Some (FdSock i);
  ca_kind : inet_sock i (is_type ik) (fd_proc (is_fd ik));
  ca_stream : st_stream s2 !! fd_stream (is_fd i) = Some str;
}.

Lemma asked_client semc sems cn w s1' ip q :
  tracees_alike (st_w s) w →
  let s1 := accepting self ps l s p il semc sems cn w in let n := st_next s + 1 in
  requested s1 s1' h' k n l q ik (accepting_sock (st_next s) il) c →
  st_fd s1' !! k = Some (FdSock (asked n ip q ik)) → st_proc s1' = st_proc (enter pc p' s1) →
  replaced w (st_w s1') pid' (set_rax 0 (set_orig_rax SYS_connect r')) →
  client_asleep (asleep self' s1' k (st_next s) (asked n ip q ik) (accepting_stream self semc sems))
    (set_is_fd (set_fd_stream (st_next s) (is_fd ik)) (asked n ip q ik)) (shared_stream semc sems).
Proof.
  intros (Wr & We & Wm) s1 n Hreq Hk Hp (Hr & He & Ho & Hm). split; unfold asleep; st_cbn.
  - exact Hp.
  - by rewrite sem_release_regs.
  - by rewrite sem_release_stop.
  - intros. by rewrite sem_release_mem, Hm, Wm.
  - apply lookup_insert_eq.
  - destruct (re_sock Hre). split; [done|split; [apply Hre|done]].
  - apply lookup_insert_eq.
Qed.

(** The client leaves its call, then the server its own. *)
Lemma both_leave fuel handle s2 s3 i p2 str n il2 :
  client_asleep s2 i str → st_fd s2 !! l = Some (FdSock il2) → n ≠ k → n ≠ l → strace_option s2 = 0 →
  accepted_at (regs_of r) pid (st_w s2) (st_w s3) (u64 (s32 nf)) (socket_sockaddr i) r →
  joined ps s2 s3 p2 il2 (s32 nf) k n →
  ∃ s4 s5 i', turn self' fuel handle pc s3 = Done PROCESS_CONTINUE s4 ∧
    st_w s4 = MSG_sem_release (st_w s3) (sem_server str) ∧ fd_ref l (-1) s4 = Done tt s5 ∧
    st_w s5 = st_w s4 ∧ st_proc s5 = <[pc := p']> (st_proc s3) ∧ same_comms s3 s5 ∧ st_stream s5 = st_stream s3 ∧
    st_fd s5 !! k = Some (FdSock i') ∧ kept i i' ∧ is_s 32 (fd_refcount (is_fd i')) ∧
    socket_sockaddr i' = socket_sockaddr i ∧ st_fd s5 !! n = st_fd s3 !! n.
Proof.
  intros [Cp Cr Ce Cm Cs (Ct & Cd & _) Cst] Hl Hnk Hnl Hq [_ _ _ Am Ao] [(p3 & Jp & Js) _ _ Jo _ _ Jt Jq].
  pose proof (re_procs Hre) as Hpr. pose proof (re_pids Hre) as Hpi. pose proof (re_other Hre) as Hkl.
  pose proof (ac_pid _ _ _ _ _ (re_client Hre)) as Hpid.
  assert (st_proc s3 !! pc = Some (set_in_syscall 1 p')) as Hp3.
  { rewrite Jp, lookup_insert_ne by done. rewrite Cp. apply lookup_insert_eq. }
  assert (st_fd s3 !! k = Some (FdSock i)) as Hk3 by (by rewrite Jo).
  destruct (connect_leaves self' fuel handle s3 pc p' r' k i str b) as (cn & v & Hv & E);
    [done|by destruct (re_client Hre)|rewrite Hpid; by rewrite (proj1 (Ao _ (not_eq_sym Hpi)))| |done| |by rewrite Jt|by rewrite Jq|].
  { destruct (re_sock Hre) as [(x & Hx & Ex) Hz _ _]. split; [|done|done|done]. exists (set_in_syscall 1 p').
    split; [done|]. rewrite (ac_proc _ _ _ _ _ (re_client Hre)) in Hx. by injection Hx as <-. }
  { rewrite Hpid, (mem_bytes_ext (st_w s)); [apply (re_asked Hre)|]. intros j _. rewrite Am by (left; congruence). apply Cm. }
  set (i2 := set_is_fd _ i) in E. set (s4 := set_fd _ _) in E.
  assert (st_fd s4 !! l = Some (FdSock il2)) as Hl4.
  { unfold s4. st_cbn. rewrite lookup_insert_ne, Jo by done. done. }
  pose proof (upd_fd_eval s4 l _ (λ d, set_fd_refcount (s32 (fd_refcount d + -1)) d) Hl4) as E5.
  set (s5 := set_fd _ s4) in E5. exists s4, s5, i2. split_and!; try done.
  - eapply same_comms_trans; [exact (same_comms_upd s3 k i i2 Hk3 ltac:(by split))|].
    eapply (same_comms_trans _ s4); [by apply same_comms_frame|].
    exact (same_comms_upd s4 l il2 _ Hl4 (kept_fd_ref il2 (fd_refcount (is_fd il2) + -1))).
  - unfold s5. st_cbn. rewrite lookup_insert_ne by done. apply lookup_insert_eq.
  - unfold s5, s4. st_cbn. by rewrite !lookup_insert_ne.
Qed.

(** The steps of the two calls, from the state [s] to [s5]: the server waits for a
    request; the client files it, wakes the server and waits; the server wakes the
    client, has the kernel make a descriptor, joins the communication and waits; the
    client leaves its call and wakes the server, which leaves its own. *)
Definition handshake (fuel : nat) (handle : Z → M Z) (s5 : st) : Prop :=
  ∃ tr s1 s2 s3 s4 K,
    syscall_accept self (regs_of r) ps s =
      Block (Sem_acquire (sem_server tr)) s1 (λ _, accept_rest (regs_of r) ps pid l) ∧
    syscall_connect self' (turn self' fuel handle) (regs_of r') pc s1 = Block (Sem_acquire (sem_client tr)) s2 K ∧
    (∃ w, st_w s2 = MSG_sem_release w (sem_server tr)) ∧
    (let s2' := set_w (MSG_sem_release (st_w s2) (sem_client tr)) s2 in
     accept_rest (regs_of r) ps pid l s2 = accept_served (regs_of r) ps pid l s2' ∧
     accept_served (regs_of r) ps pid l s2' = Block (Sem_acquire (sem_server tr)) s3 (λ _, fd_ref l (-1))) ∧
    K tt s3 = Done tt s4 ∧ st_w s4 = MSG_sem_release (st_w s3) (sem_server tr) ∧
    fd_ref l (-1) s4 = Done tt s5.

Lemma handshake_connects fuel handle : ∃ s5 n, handshake fuel handle s5 ∧ connected s5 n.
Proof.
  pose proof (re_procs Hre) as Hpr. pose proof (re_pids Hre) as Hpi. pose proof (re_other Hre) as Hkl.
  destruct (re_addr Hre) as [ba Hba]. destruct (re_len Hre) as [bl Hbl].
  destruct (accept_blocks self (regs_of r) ps pid l s p r il ba bl (re_server Hre) (re_listen Hre) (re_inet Hre)
    Hba Hbl) as (semc & sems & cn & w & E1 & Hw).
  destruct (ready_can_connect semc sems cn w Hw) as [Hat Hcan]. set (s1 := accepting _ _ _ _ _ _ _ _ _ _) in *.
  destruct (connect_blocks self' (turn self' fuel handle) s1 pc pid' p' r' (regs_of r') h' t k l ik
    (accepting_sock (st_next s) il) c (accepting_stream self semc sems) b q0 Hat (re_host' Hre) Hcan)
    as (q & ip & s1' & E2 & _ & Hreq & Hk1 & Hp1 & HR & HE).
  destruct (asked_server semc sems cn w s1' ip q Hw Hreq Hk1 Hp1 HR HE) as [Hwo [cm Hrw]].
  set (ik2 := set_is_fd _ (asked _ _ _ _)) in Hrw. set (s2 := asleep _ _ _ _ _ _) in *.
  pose proof (asked_client semc sems cn w s1' ip q Hw Hreq Hk1 Hp1 HR) as Hca. fold ik2 s2 in Hca.
  destruct (accept_resumes (regs_of r) ps pid l s2 p r h k _ _ _ _ ik2 _ cm nf _ Hwo Hrw (socket_gives_same _ _ _ _ _
    (ca_mem _ _ _ Hca) (re_kernel Hre)) (re_new Hre) (re_free Hre)) as [E3 (s3 & E4 & A3 & J3)].
  set (n := st_next s2) in *. destruct (rw_fresh _ _ _ _ _ _ _ _ _ _ Hrw) as (Hnk & Hnl & Hn0).
  destruct (both_leave fuel handle s2 s3 ik2 p _ n _ Hca (sa_fd _ _ _ _ _ (wo_sock _ _ _ _ _ _ _ _ _ _ Hwo)) Hnk Hnl
    (wo_quiet _ _ _ _ _ _ _ _ _ _ Hwo) A3 J3)
    as (s4 & s5 & i' & E5 & W4 & E6 & W5 & P5 & C5 & T5 & K5 & S5 & R5 & D5 & N5).
  exists s5, n. split.
  { exists (accepting_stream self semc sems), s1, s2, s3, s4. eexists.
  split; [exact E1|]. split; [exact E2|]. split; [by exists (st_w s1')|]. split; [split; [exact E3|exact E4]|].
  split; [by eapply bind_eval; [exact E5|]|]. split; [exact W4|exact E6]. }
  destruct A3 as [A31 A32 A33 A34 A35], J3 as [(p2 & Jp & Js) (j & Hj & Jty & Jow & Jst & Jdo & Jtt & _ & Jr) (jc & cj & Jc & Jop) _ Jl [Jq1 Jq2] Jt Jq].
  assert (st_w s5 = MSG_sem_release (st_w s3) sems) as W by (by rewrite W5, W4).
  assert (∀ x, ptrace_getregs (st_w s5) x = ptrace_getregs (st_w s3) x) as WR by (intros; by rewrite W, sem_release_regs).
  assert (∀ x, at_entry (st_w s5) x = at_entry (st_w s3) x) as WE by (intros; by rewrite W, sem_release_stop).
  assert (∀ x a, mem_byte (st_w s5) x a = mem_byte (st_w s3) x a) as WM by (intros; by rewrite W, sem_release_mem).
  split; rewrite ?WR, ?WE.
  - rewrite (proj1 (A35 _ (not_eq_sym Hpi))). apply Hca.
  - exact A31.
  - split; [exact A32|]. rewrite (proj2 (A35 _ (not_eq_sym Hpi))). apply Hca.
  - destruct S5 as [_ [Kt Kd] (Kf & Kp & Ks) _], (ca_kind _ _ _ Hca) as (Ct & Cd & Cy & Cp).
    exists i', j, semc, sems. split; [exact K5|]. split; [by rewrite N5|]. split; [|split; [|split; [|split; [|split; [|by split]]]]].
    + rewrite D5, <- A33. apply mem_bytes_ext. intros; apply WM.
    + rewrite Ks, T5, Jt. apply Hca.
    + by rewrite Ks, Jst.
    + unfold inet_sock. split_and!; congruence.
    + split; [exact Jty|]. split; [|by split]. rewrite Jdo. apply (re_inet Hre).
  - intros x a Ha. rewrite WM, A34 by done. apply Hca.
  - exists p2. split; [|done]. assert (st_proc s2 = <[pc := set_in_syscall 1 p']>
      (<[ps := set_in_syscall 1 p]> (st_proc s))) as Cp by exact (ca_procs _ _ _ Hca). rewrite P5, Jp, Cp.
    rewrite (insert_insert_ne _ pc ps) by done. rewrite insert_insert_eq, (insert_insert_ne _ pc ps) by done.
    rewrite insert_insert_eq, (insert_id _ pc); [done|]. apply (re_client Hre).
  - exact Hn0.
  - rewrite (ss_quiet _ _ (sc_socks _ _ C5)), Jq. exact (wo_quiet _ _ _ _ _ _ _ _ _ _ Hwo).
  - by eapply linked_same.
  - split; by eapply queue_same.
  - destruct (same_links_in _ _ _ _ _ (same_comms_links _ _ C5) Jc) as (jc' & Hjc & _). by exists jc', cj.
Qed.

(** C4: a connection from end to end. A server at the entry of [accept] on a listening
    socket and a client at the entry of [connect] to its port are handled in turn, each
    until it sleeps on a semaphore that the other then releases ([handshake]; the loop that
    connect nests is followed up to the point where it resumes the client): in the
    end both are at the exits of their calls with the two ends of a new connection. *)
Theorem connection_established fuel handle : ∃ s5 n, handshake fuel handle s5 ∧ connected s5 n.
Proof. apply handshake_connects. Qed.

End Handshake.

(** ** An example *)

Definition alice_self : msg_self (Wd := ref_world) :=
  {| self_process := "client" : msg_process (World := ref_world); self_host := "alice" : msg_host (World := ref_world) |}.
Definition server_self : msg_self (Wd := ref_world) :=
  {| self_process := "server" : msg_process (World := ref_world); self_host := "bob" : msg_host (World := ref_world) |}.

(** The process 8 of bob at the entry of accept(3, 6000, 6100), after the instruction
    [syscall] at 4096; the process 7 of alice at the entry of connect(3, 5000, 16), with
    the address of bob at 5000. *)
Definition accept_regs : user_regs :=
  {| orig_rax := SYS_accept; rax := 0; rdi := 3; rsi := 6000; rdx := 6100; r10 := 0; r8 := 0; r9 := 0;
     rip := 4098; regs_other := [] |}.
Definition connect_regs : user_regs :=
  {| orig_rax := SYS_connect; rax := 0; rdi := 3; rsi := 5000; rdx := 16; r10 := 0; r8 := 0; r9 := 0;
     rip := 4098; regs_other := [] |}.
Definition shake_world : toy :=
  mk_toy (λ x a, if (4096 <=? a) && (a <? 8192) then
      Some (if x =? 7 then net_mem [10; 0; 0; 5] a else if a =? 4096 then 15 else if a =? 4097 then 5 else 0)
    else None)
    (upd (upd (λ _, None) 7 (Some connect_regs)) 8 (Some accept_regs)) (λ _, true)
    ["alice"; "bob"; "carol"]%string [].
Definition shake_example : st := set_w (shake_world : W (World := ref_world)) listen_example.

Lemma toy_socket_gives (w0 : W (World := ref_world)) pid r : socket_gives w0 pid r 4.
Proof.
  intros w w1 status w2 _ He Hr [= <-] [= <- <-]. cbn in *. unfold toy_step.
  rewrite (toy_forks_call _ _ _ _ Hr), He by done. cbn.
  unfold upd. rewrite Z.eqb_refl, Hr. eexists. split; reflexivity.
Qed.

Lemma shake_target :
  target shake_example "alice"%string (sin_addr (sai_decode (addr_bytes [10; 0; 0; 5]))) "bob"%string.
Proof.
  unfold target. assert ((sin_addr (sai_decode (addr_bytes [10; 0; 0; 5])) =? localhost) = false) as ->
    by by vm_compute.
  unfold get_host_by_ip. eapply bind_eval; [apply gets_eval|]. cbv beta.
  assert (xbt_dict_get_or_null (list_ip shake_example) (inet_ntoa (sin_addr (sai_decode (addr_bytes [10; 0; 0; 5]))))
    = Some "bob"%string) as -> by (vm_compute; reflexivity). done.
Qed.

Lemma shake_example_ready :
  ready shake_example 2 8 3 4 server_proc accept_regs listen_sock listen_comm "bob"%string
    1 7 7 65000 client_proc connect_regs client_sock "alice"%string "bob"%string (addr_bytes [10; 0; 0; 5]).
Proof.
  split.
  - split; reflexivity.
  - reflexivity.
  - vm_compute. by eexists.
  - split; [exists server_proc; split; reflexivity|by vm_compute|reflexivity|reflexivity].
  - reflexivity.
  - repeat split; by vm_compute.
  - reflexivity.
  - right. exists server_proc, "bob"%string. split; [reflexivity|]. split; [reflexivity|]. vm_compute. by eexists.
  - by vm_compute.
  - vm_compute. by eexists.
  - vm_compute. by eexists.
  - split; by vm_compute.
  - vm_compute. reflexivity.
  - apply toy_socket_gives.
  - by vm_compute.
  - reflexivity.
  - split; reflexivity.
  - reflexivity.
  - vm_compute. by eexists.
  - split; [exists client_proc; split; reflexivity|by vm_compute|reflexivity|reflexivity].
  - reflexivity.
  - reflexivity.
  - vm_compute. reflexivity.
  - apply shake_target.
  - exists (mk_port 80 0 7 1 3). split; [vm_compute; reflexivity|done].
  - split; by vm_compute.
  - vm_compute. reflexivity.
  - done.
  - done.
  - done.
  - apply heap_check_ok. vm_compute. reflexivity.
Qed.

Lemma connection_established_witness :
  ∃ tr s1 s2 s3 s4 s5 n K,
    syscall_accept server_self (regs_of accept_regs) 2 shake_example =
      Block (Sem_acquire (sem_server tr)) s1 (λ _, accept_rest (regs_of accept_regs) 2 8 3) ∧
    syscall_connect alice_self (turn alice_self 5 (λ _, ret 0)) (regs_of connect_regs) 1 s1 =
      Block (Sem_acquire (sem_client tr)) s2 K ∧
    K tt s3 = Done tt s4 ∧ fd_ref 3 (-1) s4 = Done tt s5 ∧
    connected shake_example server_self 2 8 4 server_proc accept_regs listen_sock alice_self 7 7 connect_regs
      client_sock s5 n.
Proof.
  destruct (connection_established _ server_self _ _ _ _ _ _ _ _ _ alice_self _ _ _ _ _ _ _ _ _ _ shake_example_ready 5 (λ _, ret 0))
    as (s5 & n & (tr & s1 & s2 & s3 & s4 & K & E1 & E2 & _ & _ & E5 & _ & E6) & H).
  exists tr, s1, s2, s3, s4, s5, n, K. exact (conj E1 (conj E2 (conj E5 (conj E6 H)))).
Defined.
