(* ===== verification/Session.v ===== *)
(** A whole conversation: the connection that [accept] and [connect] made stays one as
    long as the two processes exchange messages on it, in either direction, so that every
    message of the conversation arrives. *)
From S2P Require Import Prelude Libc External State Monad Frames Reference DataUtils.
From S2P Require Import ProcessDescriptor PtraceUtils Sockets Print Communication.
From S2P Require Import SocketOps SysFiles SysNet SysData SysProc Dispatch Mediation Handlers.
From S2P Require Import Closing Messages Connecting Accepting Handshake Delivery.
Open Scope sim_scope.

(** ** The two ends of a session *)

(** A process, its tracee, the descriptor and the socket at one end, and the process of
    MSG that serves the tracee. *)
Record endpoint `{Wd : World} := mk_end {
  en_proc : Z;
  en_pid : Z;
  en_fd : Z;
  en_sock : Z;
  en_self : msg_self;
}.

Section Session.
Context `{X : Xbt} `{Wd : World} `{!XbtLaws X} `{!TraceLaws Wd} `{!StopLaws Wd} `{!TaskLaws Wd}.
Implicit Types e : endpoint.

Definition en_host e : msg_host := self_host (en_self e).

(** The process is outside a call; its descriptor stands for a stream socket of its
    own, on whose stream it receives from the mailbox of its host. *)
Record open_end (s : st) (e : endpoint) : Prop := {
  oe_proc : ∃ p, st_proc s !! en_proc e = Some p ∧ pd_pid p = en_pid e ∧ in_syscall p = 0 ∧
    pd_host p = Some (en_host e) ∧ fd_entry p (en_fd e) = en_sock e;
  oe_fd : is_s 32 (en_fd e);
  oe_null : en_sock e ≠ NULL;
  oe_sock : ∃ i ty tr, st_fd s !! en_sock e = Some (FdSock i) ∧ is_stream ty = true ∧
    inet_sock i ty (en_proc e) ∧ is_s 32 (fd_refcount (is_fd i)) ∧ st_stream s !! fd_stream (is_fd i) = Some tr ∧
    ∀ s', own_mailbox (en_self e) tr s' = Done (MSG_host_get_name (en_host e)) s';
}.

Record session (e e' : endpoint) (s : st) : Prop := {
  sn_end : open_end s e;
  sn_end' : open_end s e';
  sn_linked : linked s (en_sock e) (en_sock e');
  sn_queue : ∃ l, queue s (en_sock e) l;
  sn_queue' : ∃ l, queue s (en_sock e') l;
  sn_open : ∃ i c, in_comm s (en_sock e') i c ∧ comm_state c = COMM_OPEN;
  sn_quiet : strace_option s = 0;
  sn_procs : en_proc e ≠ en_proc e';
  sn_pids : en_pid e ≠ en_pid e';
}.

Lemma linked_in_comm s a b i c : linked s a b → in_comm s b i c → ∃ i', in_comm s a i' c.
Proof.
  intros [(ia & ib & c' & (Ha & Hn & Hc) & (Hb & _ & _) & He & _) _] (Hi & _ & Hc'). exists ia.
  rewrite Hi in Hb. injection Hb as <-. split; [done|]. split; [done|]. by rewrite He.
Qed.

Lemma linked_common s a b ia ca ib cb :
  linked s a b → in_comm s a ia ca → in_comm s b ib cb → is_comm ia = is_comm ib ∧ ca = cb.
Proof.
  intros [(i & j & c & (A1 & A2 & A3) & (B1 & B2 & B3) & E & _) _] (C1 & C2 & C3) (D1 & D2 & D3).
  rewrite C1 in A1. injection A1 as <-. rewrite D1 in B1. injection B1 as <-. split; congruence.
Qed.

Lemma session_sym e e' s : session e e' s → session e' e s.
Proof.
  intros []. split; try done; [by apply linked_sym|]. destruct sn_open0 as (i & c & Hi & Hc).
  destruct (linked_in_comm _ _ _ _ _ sn_linked0 Hi) as [i' Hi']. by exists i', c.
Qed.

(** What keeps the process and the sockets keeps the end. *)
Lemma open_end_same s s' e :
  st_proc s' !! en_proc e = st_proc s !! en_proc e → same_socks s s' → open_end s e → open_end s' e.
Proof.
  intros Ep [Ef Es _] [Hp Hd Hn (i & ty & tr & Hi & Hty & (T & D & Y & O) & Hr & Htr & Hm)].
  split; [by rewrite Ep|done|done|]. destruct (Ef _ i Hi) as (i' & Hi' & [_ [Ky Kd] (Kt & Ko & Ks) Kc]).
  exists i', ty, tr. rewrite Es, Ks. split; [done|]. split; [done|]. split; [|split; [by apply Kc|done]].
  unfold inet_sock. split_and!; congruence.
Qed.

Lemma session_same e e' s s' : st_proc s' = st_proc s → same_comms s s' → session e e' s → session e e' s'.
Proof.
  intros Ep C [E E' L [la Q] [lb Q'] (i & c & Hi & Hc) Hq Hp Hd]. pose proof (sc_socks _ _ C) as K.
  destruct (same_links_in _ _ _ _ _ (same_comms_links _ _ C) Hi) as (i' & Hi' & _).
  split; try done; [apply (open_end_same s); by rewrite ?Ep..|by eapply linked_same| | |by exists i', c|];
    [by eexists; eapply queue_same..|]. by rewrite (ss_quiet _ _ K).
Qed.

(** The tracees run: nothing that SimTerpose keeps changes. *)
Lemma session_runs e e' s c w : session e e' s → session e e' (set_cnt c (set_w w s)).
Proof. apply session_same; [done|by apply same_comms_frame]. Qed.

(** ** A message *)

(** The tracee of [e] is at the entry of [sendto] with a text of length [n], that of
    [e'] at the entry of [recvfrom] with a buffer that is mapped. *)
Record at_calls (w : W) (e e' : endpoint) (r r' : user_regs) (data : list Z) (n : Z) : Prop := {
  cl_entry : at_entry w (en_pid e) = true;
  cl_regs : ptrace_getregs w (en_pid e) = Some r;
  cl_fd : s32 (rdi r) = en_fd e;
  cl_small : u64 (rdx r) <= 2 ^ 34 - 8;
  cl_data : mem_bytes w (en_pid e) (rsi r) (Z.to_nat (round8 (u64 (rdx r)))) = Some data;
  cl_text : strlen data = Some n;
  cl_entry' : at_entry w (en_pid e') = true;
  cl_regs' : ptrace_getregs w (en_pid e') = Some r';
  cl_fd' : s32 (rdi r') = en_fd e';
  cl_noaddr : r8 r' = NULL;
  cl_buffer : is_Some (mem_bytes w (en_pid e') (rsi r') (Z.to_nat (round8 (received (regs_of r') n))));
}.

Definition send_call e r : M Z := syscall_sendto (regs_of r) (en_proc e).
Definition recv_call e r : M unit := syscall_recvfrom (en_self e) (regs_of r) (en_proc e).

(** One message from [e] to [e'], whichever of the two calls is handled first. *)
Definition exchange (e e' : endpoint) (s s' : st) : Prop :=
  ∃ r r' data n x, at_calls (st_w s) e e' r r' data n ∧
    (sender_first (send_call e r) (recv_call e' r') s = Some (x, tt, s') ∨
     receiver_first (send_call e r) (recv_call e' r') s = Some (x, tt, s')).

(** The states of a conversation: the tracees run, and exchange messages both ways. *)
Inductive talk (e e' : endpoint) (s : st) : st → Prop :=
| talk_start : talk e e' s s
| talk_run s1 c w : talk e e' s s1 → talk e e' s (set_cnt c (set_w w s1))
| talk_there s1 s2 : talk e e' s s1 → exchange e e' s1 s2 → talk e e' s s2
| talk_back s1 s2 : talk e e' s s1 → exchange e' e s1 s2 → talk e e' s s2.

Definition arrives (s : st) (e e' : endpoint) (r r' : user_regs) (data : list Z) (n : Z) (s' : st) : Prop :=
  ∃ la lb, delivered s (en_pid e) (en_sock e) r (regs_of r) (en_sock e') (en_pid e') r' (regs_of r')
    (en_host e) la lb data n s'.

(** A message sent by [e] arrives at [e'], in both orders. *)
Definition delivers (e e' : endpoint) (s : st) : Prop :=
  ∀ r r' data n, at_calls (st_w s) e e' r r' data n →
    (∃ s', sender_first (send_call e r) (recv_call e' r') s = Some (PROCESS_TASK_FOUND, tt, s') ∧
       arrives s e e' r r' data n s') ∧
    (∃ s', receiver_first (send_call e r) (recv_call e' r') s = Some (PROCESS_TASK_FOUND, tt, s') ∧
       arrives s e e' r r' data n s').

Lemma session_in_place e e' s r r' data n :
  session e e' s → at_calls (st_w s) e e' r r' data n →
  ∃ p p' i i' tr la lb,
    in_place s (en_proc e) (en_pid e) (en_sock e) p r (regs_of r) i
      (en_sock e') i' (en_proc e') (en_pid e') (en_sock e') p' r' (regs_of r') i' (en_self e') tr (en_host e) (en_host e') p'
      la lb data n.
Proof.
  intros [[(p & P1 & P2 & P3 & P4 & P5) _ N (i & ty & tr & I1 & I2 & (I3 & I4 & I5 & I6) & _)]
    [(p' & P1' & P2' & P3' & P4' & P5') _ N' (i' & ty' & tr' & I1' & I2' & (I3' & I4' & I5' & I6') & _ & I7' & I8')]
    L [la Q] [lb Q'] _ Hq Hp Hi] [C1 C2 C3 C4 C5 C6 C1' C2' C3' C4' C5'].
  exists p, p', i, i', tr', la, lb.
  split; try done; cbn [arg regs_of reg_arg nth]; rewrite ?I4, ?I4', ?I5, ?I6', ?C3, ?C3'; try done.
  - split; [by exists p|done|done|done].
  - split; [by exists p'|done|done|done].
Qed.

Lemma session_delivers e e' s : session e e' s → delivers e e' s.
Proof.
  intros Hs r r' data n Hc. destruct (session_in_place e e' s r r' data n Hs Hc) as (p & p' & i & i' & tr & la & lb & H).
  destruct (sender_first_delivers _ _ _ _ _ _ _ _ _ _ _ _ _ _ _ _ _ _ _ _ _ _ _ _ _ _ H) as (s1 & E1 & H1).
  destruct (receiver_first_delivers _ _ _ _ _ _ _ _ _ _ _ _ _ _ _ _ _ _ _ _ _ _ _ _ _ _ H) as (s2 & E2 & H2).
  split; [exists s1|exists s2]; (split; [done|by exists la, lb]).
Qed.

(** A message leaves a session. *)
Lemma session_exchange e e' s s' : session e e' s → exchange e e' s s' → session e e' s'.
Proof.
  intros Hs (r & r' & data & n & x & Hc & E).
  assert (∃ la lb, delivered s (en_pid e) (en_sock e) r (regs_of r) (en_sock e') (en_pid e') r' (regs_of r')
    (en_host e) la lb data n s') as (la & lb & H).
  { destruct (session_delivers e e' s Hs r r' data n Hc) as [(s1 & E1 & H1) (s2 & E2 & H2)].
    destruct E as [E|E]; [rewrite E1 in E|rewrite E2 in E]; by injection E as _ <-. }
  destruct H as [_ _ _ _ _ _ Hp Hk Hl Hq (t & Hq') [Ec _]], Hs.
  split; try done; [apply (open_end_same s); by rewrite ?Hp..|by eexists|by eexists| |].
  - destruct sn_open0 as (i & c & (Hi & Hn & Hic) & Ho). destruct (ss_sock _ _ Hk _ i Hi) as (i' & Hi' & [Ek _ _ _]).
    exists i', c. unfold in_comm. by rewrite Ek, Ec.
  - by rewrite (ss_quiet _ _ Hk).
Qed.

Lemma talk_session e e' s s' : session e e' s → talk e e' s s' → session e e' s'.
Proof.
  intros Hs. induction 1 as [|s1 c w _ IH|s1 s2 _ IH E|s1 s2 _ IH E]; [done|by apply session_runs|..].
  - by eapply session_exchange.
  - by eapply session_sym, session_exchange; [apply session_sym|].
Qed.

(** ** Closing an end *)

(** The other end of a connection that was closed: the process has all it had, and the
    communication is marked. *)
Record left_open (e : endpoint) (s : st) : Prop := {
  lo_end : open_end s e;
  lo_comm : ∃ i c l, in_comm s (en_sock e) i c ∧ comm_state c = COMM_CLOSED ∧ queue s (en_sock e) l;
  lo_quiet : strace_option s = 0;
}.

Lemma session_close e e' s :
  session e e' s → ∃ s', process_close_call (en_proc e) (en_fd e) s = Done tt s' ∧ left_open e' s'.
Proof.
  intros Hs. destruct (sn_open _ _ _ (session_sym _ _ _ Hs)) as (i & c & Hi & Ho).
  destruct Hs as [[(p & P1 & P2 & P3 & P4 & P5) Hd Hn (i0 & ty & tr & I1 & _ & (I3 & I4 & _) & Ir & _)]
    [(p' & Hp') Hd' Hn' (i' & ty' & tr' & J1 & J2 & J3 & J4 & J5 & J6)] L _ [lb Q] (j & cj & Hj & Hjo) Hq Hpr _].
  pose proof Hi as (Hi1 & Hi2 & Hi3). rewrite I1 in Hi1. injection Hi1 as <-.
  assert (socket_at s (en_proc e) (en_fd e) (en_sock e) i0) as Hat by (split; [by exists p|done|done|done]).
  destruct (close_first_end s (en_proc e) p (en_fd e) (en_sock e) i0 c) as
    (s' & E & Ec & Er & (i2 & Hi2' & _) & Ef & _ & _ & Eo & Es & Eq); [done|done|done|done|done|done|by rewrite Ho|by rewrite Ho|].
  assert (en_sock e ≠ en_sock e') as Hab by (by destruct L).
  exists s'. split; [exact E|]. split.
  - split; [exists p'; by rewrite Eo|done|done|]. exists i', ty', tr'. by rewrite Ef, Es.
  - destruct (linked_common _ _ _ _ _ _ _ L Hi Hj) as [Eab <-]. destruct (queue_at _ _ _ _ _ Hj Q) as (r & Hr & Hl).
    assert (in_comm s' (en_sock e') j (set_comm_state COMM_CLOSED c)) as Hj'.
    { destruct Hj as (Hj1 & Hj2 & _). split; [by rewrite Ef|]. split; [done|]. by rewrite Ec, <- Eab, lookup_insert_eq. }
    exists j, (set_comm_state COMM_CLOSED c), lb. split; [exact Hj'|]. split; [done|].
    exists j, (set_comm_state COMM_CLOSED c), r. by rewrite Er.
  - by rewrite Eq.
Qed.

(** [syscall_close] at its entry and, once the kernel has closed the descriptor, at its
    exit. *)
Lemma session_syscall_close e e' s reg0 reg c w :
  session e e' s → s32 (arg reg 0) = en_fd e → reg_ret reg = 0 →
  ∃ s1 s2, syscall_close reg0 (en_proc e) s = Done tt s1 ∧
    syscall_close reg (en_proc e) (set_cnt c (set_w w s1)) = Done tt s2 ∧ left_open e' s2.
Proof.
  intros Hs Ha Hr. destruct (oe_proc _ _ (sn_end _ _ _ Hs)) as (p & Hp & _ & Hi & _).
  set (s1 := enter (en_proc e) p s). set (s2 := set_cnt c (set_w w s1)).
  set (s3 := set_proc (<[en_proc e := p]> (st_proc s2)) s2).
  assert (st_proc s2 !! en_proc e = Some (set_in_syscall 1 p)) as Hp2 by apply lookup_insert_eq.
  assert (session e e' s3) as Hs3.
  { apply (session_same _ _ s); [|by apply same_comms_frame|done]. unfold s3, s2, s1, enter. st_cbn.
    by rewrite insert_insert_eq, insert_id. }
  destruct (session_close e e' s3 Hs3) as (s4 & E4 & H4). exists s1, s4. split; [|split; [|exact H4]].
  - unfold syscall_close. eval_with (entering_eval s _ _ Hp). rewrite Hi. exact (upd_proc_eval s _ _ _ Hp).
  - unfold syscall_close. eval_with (entering_eval s2 _ _ Hp2). rewrite Hr. cbn [Z.eqb].
    eapply bind_eval; [exact (upd_proc_eval s2 _ _ _ Hp2)|]. cbv beta. rewrite enter_leave by done.
    fold s3. cbv zeta. rewrite Ha. eval_with E4. apply if_strace_quiet, H4.
Qed.

(** SimTerpose knows that the other end was closed. *)
Lemma left_open_state e s : left_open e s →
  ∃ v, comm_get_socket_state (en_sock e) s = Done v s ∧ has_flag v SOCKET_CLOSED = true.
Proof.
  intros [_ (i & c & l & Hi & Hc & Hl) _]. destruct (queue_at _ _ _ _ _ Hi Hl) as (r & Hr & _).
  pose proof (comm_get_own_recv_eval _ _ _ _ Hi) as Ho. pose proof (comm_get_peer_eval _ _ _ _ Hi) as Hp.
  destruct Hi as (Hi & Hn & Hcm). eexists. split.
  - unfold comm_get_socket_state. ev. rewrite (proj2 (Z.eqb_neq _ _) Hn). ev. eval_with Ho. eval_with Hp. ev. done.
  - rewrite Hc. cbv zeta. change (COMM_CLOSED =? COMM_CLOSED) with true. change (COMM_CLOSED =? COMM_SHUT) with false.
    by destruct (negb (Nat.eqb _ 0)), (negb (xbt_dynar_is_empty _)), (negb (_ =? NULL)).
Qed.

(** The tracee of [e] is at the entry of [recvfrom]. *)
Record receiving (w : W) (e : endpoint) (r : user_regs) : Prop := {
  rv_entry : at_entry w (en_pid e) = true;
  rv_regs : ptrace_getregs w (en_pid e) = Some r;
  rv_fd : s32 (rdi r) = en_fd e;
}.

Lemma left_open_receive e s w c r :
  left_open e s → receiving w e r →
  ∃ s' k, recv_call e r (set_cnt c (set_w w s)) = Block (Task_receive (MSG_host_get_name (en_host e))) s' k.
Proof.
  intros [[(p & P1 & P2 & P3 & P4 & P5) _ Hn (i & ty & tr & I1 & _ & (I3 & I4 & _) & _ & I7 & I8)] _ Hq] [R1 R2 R3].
  destruct (recvfrom_blocks (en_self e) (set_cnt c (set_w w s)) (en_proc e) (en_pid e) (en_sock e) p r (regs_of r) i tr
    (MSG_host_get_name (en_host e))) as (k & E & _); [by split| |by rewrite I4|exact I7|exact I8|eexists _, k; exact E].
  cbn [arg regs_of reg_arg nth]. rewrite R3. split; [by exists p|done|done|done].
Qed.

(** [x] closes its end in [s]: at the exit of [close] the simulator marks the connection as
    closed, and [y], when it then receives, waits for a task all the same. *)
Definition close_ignored (x y : endpoint) (s : st) : Prop :=
  ∀ reg0 reg c w, s32 (arg reg 0) = en_fd x → reg_ret reg = 0 →
  ∃ s1 s2, syscall_close reg0 (en_proc x) s = Done tt s1 ∧
    syscall_close reg (en_proc x) (set_cnt c (set_w w s1)) = Done tt s2 ∧
    (∃ v, comm_get_socket_state (en_sock y) s2 = Done v s2 ∧ has_flag v SOCKET_CLOSED = true) ∧
    ∀ c' w' r, receiving w' y r → ∃ s3 k, recv_call y r (set_cnt c' (set_w w' s2)) =
      Block (Task_receive (MSG_host_get_name (en_host y))) s3 k.

Lemma session_close_ignored e e' s : session e e' s → close_ignored e e' s.
Proof.
  intros Hs reg0 reg c w Ha Hr.
  destruct (session_syscall_close e e' s reg0 reg c w Hs Ha Hr) as (s1 & s2 & E1 & E2 & H).
  exists s1, s2. split; [exact E1|]. split; [exact E2|]. split; [by apply left_open_state|].
  intros c' w' r1 H1. by apply left_open_receive.
Qed.

End Session.

(** ** From the connection to the conversation *)

Section Conversation.
Context `{X : Xbt} `{Wd : World} `{!XbtLaws X} `{!TraceLaws Wd} `{!StopLaws Wd} `{!TaskLaws Wd} `{!KernelLaws Wd}.
Context (s : st) (self : msg_self) (ps pid l nf : Z) (p : process_descriptor) (r : user_regs).
Context (il : infos_socket) (c : comm) (h : msg_host).
Context (self' : msg_self) (pc pid' k q0 : Z) (p' : process_descriptor) (r' : user_regs).
Context (ik : infos_socket) (h' t : msg_host) (b : list Z).

(** [accept] and [connect] meet, on two stream sockets, in two processes that run on
    their own hosts and that MSG tells apart. *)
Hypothesis Hready : ready s ps pid l nf p r il c h pc pid' k q0 p' r' ik h' t b.
Hypothesis Hstream : is_stream (is_type il) = true ∧ is_stream (is_type ik) = true.
Hypothesis Howner : fd_proc (is_fd ik) = pc.
Hypothesis Hselves : self_host self = h ∧ self_host self' = h'.
Hypothesis Hself : ∀ x, msg_process_eqb x x = true.
Hypothesis Hother : msg_process_eqb (self_process self) (self_process self') = false.

(** The two ends of the connection: that of the client and that of the server. *)
Definition client_end : endpoint := mk_end _ pc pid' (s32 (rdi r')) k self'.
Definition server_end (n : Z) : endpoint := mk_end _ ps pid (s32 nf) n self.

Lemma connected_session s1 n :
  connected s self ps pid nf p r il self' pid' k r' ik s1 n → session client_end (server_end n) s1.
Proof.
  intros [_ _ _ (i & j & semc & sems & Hi & Hj & _ & Hs & Es & Ki & Kj & Ri & Rj) _ (p2 & Hp & Ep2 & Ee & _) Hn Hq Hl
    [Q1 Q2] Ho].
  destruct Hready, Hselves as [Hh Hh'], Hstream as [Tl Tk]. rewrite Howner in Ki.
  split; try done; [| |by eexists|by eexists].
  - destruct re_sock as [(x & Hx & Ex) Hk _ _]. split; [|by apply swrap_range|done|].
    + exists p'. rewrite Hp. cbn. rewrite lookup_insert_ne by done. destruct re_client.
      rewrite Hx in ac_proc. injection ac_proc as <-. unfold en_host. cbn. by rewrite Hh'.
    + exists i, (is_type ik), (shared_stream self self' semc sems). split_and!; try done; [apply Ki..|].
      intros s'. unfold own_mailbox. cbn. by rewrite Hself.
  - split; [|by apply swrap_range|done|].
    + exists p2. rewrite Hp. cbn. rewrite lookup_insert_eq, Ep2. destruct re_server.
      unfold en_host. cbn. rewrite Hh. rewrite Ep2 in Ee. done.
    + exists j, (is_type il), (shared_stream self self' semc sems). rewrite Es. split_and!; try done; [apply Kj..|].
      intros s'. unfold own_mailbox. cbn. by rewrite Hother, Hself.
Qed.

(** C10: a conversation. [accept] and [connect] meet; from the state that they leave, let
    the two tracees run and exchange any number of messages, in either direction and
    whichever of the two calls comes first: the next message, of the client or of the
    server, arrives too, as long as no third process receives in its place. The messages
    are texts: their bytes up to the first null byte, which they contain. *)
Theorem conversation_delivers fuel handle :
  ∃ s1 n, handshake s self ps pid l r self' pc r' fuel handle s1 ∧
    ∀ s2, talk client_end (server_end n) s1 s2 →
      delivers client_end (server_end n) s2 ∧ delivers (server_end n) client_end s2.
Proof.
  destruct (handshake_connects _ self _ _ _ _ _ _ _ _ _ self' _ _ _ _ _ _ _ _ _ _ Hready fuel handle)
    as (s1 & n & Hs & Hc).
  exists s1, n. split; [exact Hs|]. intros s2 Ht.
  pose proof (talk_session _ _ _ _ (connected_session s1 n Hc) Ht) as H2.
  split; apply session_delivers; [done|by apply session_sym].
Qed.

(** C12: The end of a conversation does not arrive. [accept] and [connect] meet and the two
    tracees exchange any number of messages; then the client or the server closes its
    descriptor. SimTerpose marks the connection as closed, and the state of the socket at
    the other end says so; but [recvfrom] there, instead of giving the end of the file,
    sleeps until a task arrives in its mailbox. *)
Theorem close_unnoticed fuel handle :
  ∃ s1 n, handshake s self ps pid l r self' pc r' fuel handle s1 ∧
    ∀ s2, talk client_end (server_end n) s1 s2 →
      close_ignored client_end (server_end n) s2 ∧ close_ignored (server_end n) client_end s2.
Proof.
  destruct (handshake_connects _ self _ _ _ _ _ _ _ _ _ self' _ _ _ _ _ _ _ _ _ _ Hready fuel handle)
    as (s1 & n & Hs & Hc).
  exists s1, n. split; [exact Hs|]. intros s2 Ht.
  pose proof (talk_session _ _ _ _ (connected_session s1 n Hc) Ht) as H2.
  split; apply session_close_ignored; [done|by apply session_sym].
Qed.

End Conversation.

(** ** An example *)

(** The client and the server of [shake_example] talk. The tracee [x] is at the entry
    of [sendto] with the text hi, the other one at that of [recvfrom]. *)
Definition send_regs (fd : Z) : user_regs :=
  {| orig_rax := SYS_sendto; rax := 0; rdi := fd; rsi := 5000; rdx := 3; r10 := 0; r8 := 0; r9 := 0;
     rip := 4098; regs_other := [] |}.
Definition recv_regs (fd : Z) : user_regs :=
  {| orig_rax := SYS_recvfrom; rax := 0; rdi := fd; rsi := 6000; rdx := 16; r10 := 0; r8 := 0; r9 := 0;
     rip := 4098; regs_other := [] |}.
Definition chat_world (x : Z) : toy :=
  mk_toy (λ y a, if ((y =? 7) || (y =? 8)) && (4096 <=? a) && (a <? 8192)
                 then Some (if y =? x then nth (Z.to_nat (a - 5000)) [104; 105] 0 else 1) else None)
    (λ y, if y =? x then Some (send_regs (y - 4)) else if (y =? 7) || (y =? 8) then Some (recv_regs (y - 4)) else None)
    (λ _, true) ["alice"; "bob"; "carol"]%string [].

Definition alice_end : endpoint (Wd := ref_world) := client_end alice_self 1 7 7 connect_regs.
Definition bob_end (n : Z) : endpoint (Wd := ref_world) := server_end server_self 2 8 4 n.

Lemma chat_calls n :
  at_calls (chat_world 7) alice_end (bob_end n) (send_regs 3) (recv_regs 4) [104; 105; 0; 0; 0; 0; 0; 0] 2 ∧
  at_calls (chat_world 8) (bob_end n) alice_end (send_regs 4) (recv_regs 3) [104; 105; 0; 0; 0; 0; 0; 0] 2.
Proof.
  split; split; try reflexivity; vm_compute; first [done|by eexists].
Qed.

(** Once connected, alice says hi, bob answers, and alice has the answer. *)
Lemma conversation_delivers_witness :
  ∃ s1 n s2 s3,
    handshake shake_example server_self 2 8 3 accept_regs alice_self 1 connect_regs 5 (λ _, ret 0) s1 ∧
    talk alice_end (bob_end n) s1 s2 ∧ mem_bytes (st_w s2) 8 6000 3 = Some [104; 105; 0] ∧
    talk alice_end (bob_end n) s2 s3 ∧ mem_bytes (st_w s3) 7 6000 3 = Some [104; 105; 0].
Proof.
  destruct (conversation_delivers _ server_self _ _ _ _ _ _ _ _ _ alice_self _ _ _ _ _ _ _ _ _ _ shake_example_ready
    (conj eq_refl eq_refl) eq_refl (conj eq_refl eq_refl) String.eqb_refl eq_refl 5 (λ _, ret 0))
    as (s1 & n & Hs & D).
  destruct (chat_calls n) as [C1 C2].
  pose proof (talk_run _ _ _ s1 (st_cnt s1) (chat_world 7 : W (World := ref_world)) (talk_start alice_end (bob_end n) s1)) as T1.
  destruct (proj1 (proj1 (D _ T1) _ _ _ _ C1)) as (s2 & E2 & la & lb & H2).
  pose proof (talk_there _ _ _ _ s2 T1 ltac:(do 5 eexists; split; [exact C1|left; exact E2])) as T2.
  pose proof (talk_run _ _ _ s2 (st_cnt s2) (chat_world 8 : W (World := ref_world)) T2) as T3.
  destruct (proj1 (proj2 (D _ T3) _ _ _ _ C2)) as (s3 & E3 & la' & lb' & H3).
  exists s1, n, s2, s3. split; [exact Hs|]. split; [exact T2|].
  split; [exact (de_data _ _ _ _ _ _ _ _ _ _ _ _ _ _ _ H2)|].
  split; [|exact (de_data _ _ _ _ _ _ _ _ _ _ _ _ _ _ _ H3)].
  refine (talk_back _ _ _ _ s3 (talk_run _ _ _ s2 _ _ (talk_start _ _ s2)) _).
  do 5 eexists; split; [exact C2|left; exact E3].
Defined.

(** alice closes its socket, and bob waits. *)
Lemma close_unnoticed_witness :
  ∃ s1 n s2 c w s3 s4 k,
    handshake shake_example server_self 2 8 3 accept_regs alice_self 1 connect_regs 5 (λ _, ret 0) s1 ∧
    syscall_close (mk_reg SYS_close 0 [3; 0; 0; 0; 0; 0]) 1 s1 = Done tt s2 ∧
    syscall_close (mk_reg SYS_close 0 [3; 0; 0; 0; 0; 0]) 1 (set_cnt c (set_w w s2)) = Done tt s3 ∧
    recv_call (bob_end n) (recv_regs 4) (set_cnt (st_cnt s3) (set_w (chat_world 7 : W (World := ref_world)) s3)) =
      Block (Task_receive "bob"%string) s4 k.
Proof.
  destruct (close_unnoticed _ server_self _ _ _ _ _ _ _ _ _ alice_self _ _ _ _ _ _ _ _ _ _ shake_example_ready
    (conj eq_refl eq_refl) eq_refl (conj eq_refl eq_refl) String.eqb_refl eq_refl 5 (λ _, ret 0))
    as (s1 & n & Hs & D).
  set (reg := mk_reg SYS_close 0 [3; 0; 0; 0; 0; 0]).
  destruct (proj1 (D s1 (talk_start alice_end (bob_end n) s1)) reg reg (st_cnt s1) (st_w s1) eq_refl eq_refl)
    as (s2 & s3 & E2 & E3 & _ & R).
  destruct (R (st_cnt s3) (chat_world 7 : W (World := ref_world)) (recv_regs 4)) as (s4 & k & E4);
    [split; reflexivity|].
  exists s1, n, s2, (st_cnt s1), (st_w s1), s3, s4, k. exact (conj Hs (conj E2 (conj E3 E4))).
Defined.
