(* ===== verification/Stops.v ===== *)
(** The stops that are not system calls. SimTerpose asks for the events of fork, vfork and
    clone (simterpose.c:228), and [process_handle] handles every stop as the entry or the
    exit of a call. *)
From S2P Require Import Prelude Libc External State Monad Frames Reference DataUtils.
From S2P Require Import ProcessDescriptor PtraceUtils Sockets Print Communication.
From S2P Require Import SocketOps SysFiles SysNet SysData SysProc Dispatch Mediation Handlers Ending.
Open Scope sim_scope.

Section Stops.
Context `{X : Xbt} `{Wd : World} `{!XbtLaws X} `{!TraceLaws Wd} `{!StopLaws Wd}.
Context (self : msg_self) (proc pid : Z).

(** Resumed and stopped again, as the loop does it. *)
Definition resumed : M bool := ptrace_resume_process pid ;; wait_status proc pid.

Lemma resumed_eval s p w1 status w2 :
  st_proc s !! proc = Some p → ptrace_syscall (st_w s) pid = Some w1 → waitpid w1 pid = Some (status, w2) →
  ∃ c, resumed s = Done false
    (set_proc (<[proc := set_status status p]> (st_proc s)) (set_w w2 (set_cnt c (set_w w1 s)))).
Proof.
  intros Hp H1 H2. destruct (resume_eval s pid w1 H1) as [c Hc]. exists c. unfold resumed. eval_with Hc.
  exact (wait_status_eval (set_cnt c (set_w w1 s)) proc p pid status w2 Hp H2).
Qed.

(** The stop of an event has the signal SIGTRAP, which passes the test of
    [proc_event_syscall]. *)
Lemma event_passes status :
  event_stop status = true → WSTOPSIG status = SIGTRAP →
  WIFSTOPPED status && has_flag (WSTOPSIG status) (Z.lor SIGTRAP 0x80) = true.
Proof. unfold event_stop. intros [-> _]%andb_prop ->. done. Qed.

(** The calls without a handler whose events are asked for. *)
Lemma dispatch_fork n handle reg s p :
  reg_orig reg ∈ [SYS_fork; SYS_vfork] → st_proc s !! proc = Some p → in_syscall p ≠ 0 →
  dispatch self n handle reg proc s =
  Done None (set_proc (<[proc := set_in_syscall 0 p]> (st_proc s)) s).
Proof.
  intros Hn Hp Hi. assert (dispatch self n handle reg proc = continue (syscall_default reg proc) ∧
    is_Some (syscall_list !! Z.to_nat (u64 (reg_orig reg)))) as [-> [x Hx]].
  { unfold dispatch. rewrite !elem_of_cons in Hn.
    destruct Hn as [E|[E|Hn]]; [| |by apply elem_of_nil in Hn]; rewrite E; split; done || by eexists. }
  unfold continue, syscall_default.
  eapply bind_eval; [|done]. eval_with (proc_entering_eval s proc p Hp). rewrite (proj2 (Z.eqb_neq _ _) Hi).
  eapply bind_eval; [by apply of_option_eval|]. by apply upd_proc_eval.
Qed.

(** C2: the event of a fork makes SimTerpose lose its tracee. The tracee is inside a call of
    fork or vfork, whose entry was handled, and its next stop is that of the event: the
    stop passes the test of [proc_entering], so that not even the warning is printed, and
    the turn of [process_handle] takes it for the exit of the call. It leaves the mark
    outside while the tracee is still inside, and the true exit, at the next system call
    stop, finds SimTerpose out of step: it will be handled as the entry of a call. *)
Theorem event_stop_lost s p w1 status w2 r n :
  st_proc s !! proc = Some p → pd_pid p = pid → in_syscall p ≠ 0 → at_entry (st_w s) pid = true →
  ptrace_syscall (st_w s) pid = Some w1 → waitpid w1 pid = Some (status, w2) →
  event_stop status = true → WSTOPSIG status = SIGTRAP →
  ptrace_getregs w2 pid = Some r → orig_rax r ∈ [SYS_fork; SYS_vfork] →
  ∃ s1 s2, resumed s = Done false s1 ∧ proc_event_syscall proc s1 = Done true s1 ∧
    handle_loop (S n) self pid proc s1 = (ptrace_resume_process pid ;; let! _ := wait_status proc pid in
      handle_loop n self pid proc) s2 ∧
    stop proc pid true true s2 ∧
    ∀ w3 status' w4, ptrace_syscall (st_w s2) pid = Some w3 → waitpid w3 pid = Some (status', w4) →
      syscall_stop status' = true →
      ∃ s3, resumed s2 = Done false s3 ∧ stop proc pid true false s3 ∧ ¬ in_step proc pid s3.
Proof.
  intros Hp Hpid Hi He Hr Hw Hev Hsig Hg Ho.
  destruct (resumed_eval s p w1 status w2 Hp Hr Hw) as [c1 H1]. set (s1 := set_proc _ _) in H1.
  set (p1 := set_status status p) in s1.
  assert (st_proc s1 !! proc = Some p1) as Hp1 by apply lookup_insert_eq.
  destruct (get_register_eval s1 pid r Hg) as [c2 H2]. set (s2 := set_cnt c2 s1) in H2.
  set (s3 := set_proc (<[proc := set_in_syscall 0 p1]> (st_proc s2)) s2).
  assert (stop proc pid true true s3) as H3.
  { split; [exists (set_in_syscall 0 p1); split; [apply lookup_insert_eq|done]|].
    unfold s3, s2, s1. st_cbn. rewrite (other_stops _ _ _ _ _ Hr Hw); [done|by rewrite Hev]. }
  exists s1, s3. split; [exact H1|]. split; [|split; [|split; [exact H3|]]].
  - rewrite (proc_event_syscall_eval s1 proc p1 Hp1). by rewrite event_passes.
  - cbn [handle_loop]. eval_with H2. eapply bind_eval; [by apply (dispatch_fork _ _ _ s2 p1)|]. done.
  - intros w3 status' w4 Hr' Hw' Hs'. destruct H3 as [(q & Hq & Hqp & Hqi) Ha].
    destruct (resumed_eval s3 q w3 status' w4 Hq Hr' Hw') as [c4 H4]. eexists. split; [exact H4|].
    assert (stop proc pid true false (set_proc (<[proc := set_status status' q]> (st_proc s3))
      (set_w w4 (set_cnt c4 (set_w w3 s3))))) as H5.
    { split; [exists (set_status status' q); split; [apply lookup_insert_eq|done]|]. st_cbn.
      by rewrite (stops_alternate _ _ _ _ _ Hr' Hw' Hs'), Ha. }
    split; [exact H5|]. apply handled_not_in_step. by exists true.
Qed.

End Stops.

(** ** An example *)

(** The process 7 at the entry of fork, which was handled. *)
Definition fork_example : st :=
  set_w (toy_world (set_orig_rax SYS_fork regs_zero) (λ _, 0) : W (World := ref_world))
    (run_state (proc_inside 10) proc_example).

Lemma event_stop_lost_witness :
  ∃ s1 s2, resumed 10 7 fork_example = Done false s1 ∧ proc_event_syscall 10 s1 = Done true s1 ∧
    handle_loop 2 self_example 7 10 s1 = (ptrace_resume_process 7 ;; let! _ := wait_status 10 7 in
      handle_loop 1 self_example 7 10) s2 ∧
    stop 10 7 true true s2 ∧
    ∀ w3 status' w4, ptrace_syscall (st_w s2) 7 = Some w3 → waitpid w3 7 = Some (status', w4) →
      syscall_stop status' = true →
      ∃ s3, resumed 10 7 s2 = Done false s3 ∧ stop 10 7 true false s3 ∧ ¬ in_step 10 7 s3.
Proof.
  eapply (event_stop_lost self_example 10 7 fork_example);
    [reflexivity|reflexivity|done|reflexivity|reflexivity|reflexivity|reflexivity|reflexivity|reflexivity|].
  by left.
Defined.
